(* ===== verification/_CoqProject ===== *)
-Q . S2P
Prelude.v
PyText.v
Entity.v
Models.v
RedisClient.v
World.v
Encoding.v
Config.v
WebAuthn.v
JsonText.v
OidcProvider.v
Providers.v
RedisSecurity.v
SessionRepo.v
SessionInv.v
SessionProps.v
Tokens.v
SessionControl.v
SessionControlProps.v
SessionDemo.v
RecoveryRepo.v
Recovery.v
RecoveryInv.v
RecoveryProps.v
PasswordReset.v
ContactChange.v
Wiring.v
RecoveryDemo.v
MfaRepo.v
Mfa.v
MfaProps.v
MfaDemo.v
LoginRepo.v
Login.v
LoginProps.v
RegistrationRepo.v
Registration.v
RegistrationProps.v
LoginDemo.v
WorkspaceRepo.v
Workspace.v
WorkspaceInv.v
WorkspaceProps.v
WorkspaceDemo.v
UserRepo.v
Migrations.v
PrivacyRepo.v
Privacy.v
AuditProps.v
PrivacyProps.v
PrivacyDemo.v
Http.v
HttpSession.v
HttpRegistration.v
HttpLogin.v
HttpMfa.v
HttpRecovery.v
HttpWorkspace.v
HttpPrivacy.v
System.v
HttpProps.v
SystemProps.v
HttpDemo.v
RowSecurity.v
RowSecurityProps.v
RowSecurityDemo.v
Sql.v
Rows.v
Ddl.v
Revisions.v
Metadata.v
Schema.v
SchemaProps.v
Rollback.v
GrantProps.v
Ports.v
PortProps.v
Jwks.v
Health.v
