(* ===== verification/Prelude.v ===== *)
(** * auth-core: the authentication service of src/services/auth-api, verified

    auth-core is a Python service (FastAPI, SQLAlchemy on PostgreSQL, Redis) that registers users,
    logs them in with passwords, one-time codes, passkeys and OpenID Connect, issues short-lived
    access tokens and rotating refresh tokens, recovers accounts, lets support staff act under four
    eyes, groups users into workspaces, and answers audit and privacy requests.  This library is a
    shallow embedding of it: every route of the layer boundary/http and every operation of the layers
    control/ and infrastructure/ is a Definition in a state and error monad, and the theorems speak
    about those Definitions and about sequences of them.

    ** The layers

    The source has three layers, which the files follow (paths are below
    src/services/auth-api/src/auth_core/).

    - entity/: enumerations, frozen dataclasses and error classes.  [Entity], over the text and
      UUID functions of [PyText].
    - infrastructure/: the adapters.  [Models] has the tables of persistence/models.py as records
      of rows with their CHECK and uniqueness constraints; [SessionRepo], [RecoveryRepo],
      [MfaRepo], [LoginRepo], [RegistrationRepo], [WorkspaceRepo], [UserRepo] and [PrivacyRepo] have
      one Definition per method of the repositories; [RedisSecurity] has redis_security.py with its two
      Lua scripts, above the interface [RedisClient]; [Providers], [Tokens], [Jwks], [WebAuthn] and
      [OidcProvider] have the mail, CAPTCHA, TOTP, password, cipher, access token, key set, passkey
      and local OpenID Connect adapters; [Encoding] and [JsonText] the JSON and base64url texts the
      adapters write and read; [Config] the checks and lists of config.py.
    - control/ports/: [Ports] has the Protocols as the calls they offer, each with the method of the
      repository, store or provider behind it.
    - migrations/: [Sql] has the conditions and values of SQL, [Rows] the rows of [Models] by column
      name, and [Ddl] the catalog of a database (tables, columns, constraints, indexes, policies,
      triggers, functions, roles and grants) with every statement the migrations use as a step of it,
      [Ddl.execute], which fails as PostgreSQL documents.  [Revisions] has the upgrade and the downgrade
      of every revision as a list of such statements, in the order of the code, and [Migrations] the
      rows they write.  [Metadata] has the classes of models.py as SQLAlchemy declares them, under the
      naming convention of base.py.  [Schema] puts the catalog to work on the rows: what a role reads
      and writes, what a function returns, when a trigger raises.  [RowSecurity] has tenant_context.py
      and the policies as the operations meet them.
    - control/: the use cases.  [SessionControl], [Recovery] (with SupportAdminControl), [Mfa],
      [Login], [Registration], [Workspace] and [Privacy] have one Definition per method of the
      control classes, with its guards in the order of the code.
    - boundary/http: one file per router, [HttpRegistration], [HttpLogin], [HttpMfa], [HttpSession],
      [HttpWorkspace], [HttpRecovery], [HttpPrivacy] and [Health], over the requests, responses and
      problem documents of [Http].  [System] puts the routers together as main.py does: a call is a
      value of the type [System.HttpCall], and [System.serve] checks the constraints of its models,
      runs its handler and passes the answer through the middleware.

    ** The world of a request

    [World.prog R A] is the type of a handler: a function of the world, the record of the database,
    the Redis keyspace, the outgoing mail and the seed of the random source, which returns a value
    or raises an exception, with the world it leaves.  A block [async with sessions.begin()] is
    [World.tx]: it keeps the database of a body that returned and restores the one before when the
    body raised, whereas Redis and mail are never rolled back.  [World.Env] gathers what lies
    outside the repository: the settings, the hash, signature and cipher functions, the random
    source, the PyJWT, pyotp and py_webauthn libraries, the clock of the request.  A
    theorem that needs a law of one of these (a signature that verifies, a hash without collisions,
    a cipher that opens what it sealed) has it as a named hypothesis, and its witness runs in an
    environment of concrete functions for which the law is proved.  [RedisClient] states the
    documented effect of the Redis commands as a class; [MemRedis] is an instance.

    Times are integers of microseconds.  One request reads one clock value; between requests of a
    history the clock only has to be the one each request is given.  Requests of a history run one
    after the other; transactions of a request are separate steps, and [WorkspaceDemo] shows a run
    in which the statements of two requests interleave.

    ** Components that interact

    [Recovery.GlobalSessionRevoker] is the port of control/recovery.py as a class with the promise
    that the theorems of recovery use; [Wiring] proves that [SessionControl] keeps it, so these
    theorems hold of the assembled service.  [Mfa] stores the workflow that [SessionControl]
    spends; [Login] and [Registration] end in [Mfa]; [Workspace] and [Privacy] end sessions through
    [SessionControl].

    ** What the theorems show

    - Sessions ([SessionInv], [SessionProps], [SessionControlProps]): the session, family and
      refresh token tables stay well formed over every history; a replayed refresh token ends its
      family; ended families stay ended; at most ten live sessions; a bearer token authenticates
      only while nothing it depends on was revoked; sign-out ends every token.
    - Recovery ([RecoveryInv], [RecoveryProps], [PasswordReset], [ContactChange]): governed resets
      have four eyes, reset links work once, both codes are needed to change a contact, a
      suspension is final, staff requests without authority change nothing.
    - Second factors ([MfaProps]): the last strong factor is never lost, TOTP steps increase,
      challenges and backup codes are used once.
    - Login ([LoginProps]) and registration ([RegistrationProps]): what a password login checked,
      lock after five refusals within one window, what OpenID Connect may link, answers that do not
      reveal accounts, and that a registration of a new address, used in time, leads to a login.
    - Workspaces ([WorkspaceInv], [WorkspaceProps]): the requests refine a role matrix, every
      organization keeps an owner, invitations are used once, an offboarded member has no access.
    - Privacy ([AuditProps], [PrivacyProps]): the pages of the audit history are complete, ordered,
      end, and are redacted; exports round trip and belong to their owner; an erasure removes
      the rows of an account and leaves those of everybody else.
    - HTTP ([HttpProps], [SystemProps]): every answer of every route is the response model of the
      route or a problem document, under the request identifier where the route reads it (no answer
      returns it as a header), no error of the service escapes, protected routes do nothing
      without a token, tokens of a browser stay in guarded cookies; and over every history of calls
      to any routes the tables of sessions, roles and governed requests keep their invariants.
    - Adapters ([OidcProvider], [Jwks], [Config], [UserRepo], [Health]): codes of the local provider,
      the published key and the lists of origins round trip, of concurrent changes of one account
      the first wins, readiness always answers.
    - Row level security ([RowSecurityProps]): run as the role the policies are for, the listings of
      workspaces and members and the reads of privacy requests return what they return on the whole
      database; the operations of the workspaces and the first steps of contact changes, privacy
      requests and reviews write only within their context, but for the offboarding of somebody else
      with a scoped session; the review of the history needs the same
      role twice; and three operations that the policies would stop or blind.
    - Ports ([PortProps]): a repository call that raises leaves the database as it was, each port
      has one effect, and the whole service changes the database only by calls that return.
    - The rows of the migrations ([Migrations]): the workspaces, roles and password hashes they add
      are those the code relies on, and adding them twice adds nothing.
    - Schema ([SchemaProps]): the upgrades run on an empty database and leave the tables, constraints
      and indexes models.py declares, but for one CHECK; the CHECKs and unique keys they leave are the
      predicates of [Models] the repositories insert under, and the policies, triggers and functions,
      read from their text, are those of [RowSecurity] and [WorkspaceRepo].
    - Downgrades ([Rollback]): which restore what they undo, which are refused, and what a downgrade
      and upgrade of 0008 does to the workspaces of a database in use.
    - Grants ([GrantProps]): over every history of requests the service keeps within the privileges of
      the role it is documented to run as, but for the erasure of an account of the staff.
    The files [SessionDemo], [RecoveryDemo], [MfaDemo], [LoginDemo], [WorkspaceDemo], [PrivacyDemo],
    [RowSecurityDemo] and [HttpDemo] run the definitions on concrete worlds: they apply the theorems where their
    hypotheses hold, and record the behaviours that differ from what the documents or comments say.

    ** Bounds and fuel

    The statements of a migration are a list that [Ddl.run] folds over; the loops of the migrations
    over tables and roles are maps over their literal lists.  Python's unbounded loops over rows are
    folds over the list of rows.  The only loops that are not structural have explicit bounds: the parsers of [Encoding] and [JsonText] take the length of
    their text as fuel, and their round trip lemmas show that this is enough; the client
    that follows audit cursors takes the number of pages, and [AuditProps.audit_review_complete]
    proves that the expected number of requests ends the review.  Integers of Python are unbounded
    and are [Z]; the integer columns that are written (attempts, steps, sizes) stay within theirs.

    ** Not modelled

    - Row level security inside the operations: they run on the whole database, as under the owner
      the local deployment connects with; [RowSecurity] says what the policies change and
      [GrantProps] what the grants of that role allow.  Of env.py only the transaction of a run is
      modelled, not the connection, its logging and its offline mode.
    - PostgreSQL itself: isolation between concurrent transactions other than in [WorkspaceDemo],
      the lengths of text columns when a row is written, foreign keys other than the cascades an
      erasure relies on, the column updated_at (a parameter of the exports) and the rows of the tables
      no code touches (outbox events, idempotency records).
    - The lenient decoders of Python: base64.b64decode and datetime.fromisoformat accept texts that
      encode_cursor never writes; the model refuses them.
    - Text is ASCII: str.casefold and str.strip are those of ASCII.
    - The libraries: FastAPI and pydantic (which parse requests, check addresses and render
      responses; their constraints are predicates on parsed values), PyJWT, py_webauthn, pyotp,
      argon2, cryptography, SMTP and HTTP are parameters; a second path of a route (/auth/org/switch)
      is the same handler.
    - redis_store.py, token_store.py, database.py and the lifespan of main.py: construction and
      closing of objects.  The Protocols of control/ports without effects (hashers, ciphers, TOTP,
      WebAuthn, tokens) are functions of [World.Env].
    - The Go verifier, the web application, containers and pipelines: other languages. *)
From Stdlib Require Export ZArith Lia Ascii Sorted.
From stdpp Require Export base gmap strings list fin_maps option.
#[global] Set Default Goal Selector "!".

Declare Scope auth_scope.
Delimit Scope auth_scope with auth.
#[global] Open Scope Z_scope.
#[global] Open Scope auth_scope.

(** ** Decidable tests written the way the source writes them *)

Notation "x == y" := (bool_decide (x = y)) (at level 70, no associativity) : auth_scope.
Notation "x != y" := (negb (bool_decide (x = y))) (at level 70, no associativity) : auth_scope.
Notation "x 'is_in' l" := (bool_decide (x ∈ l)) (at level 70, no associativity) : auth_scope.

Definition is_none {A} (o : option A) : bool :=
  match o with None => true | Some _ => false end.
Definition is_some {A} (o : option A) : bool := negb (is_none o).

(** Python's [a or b] on optional values whose present values are truthy. *)
Definition or_else {A} (o : option A) (d : A) : A :=
  match o with Some a => a | None => d end.
Definition or_opt {A} (o1 o2 : option A) : option A :=
  match o1 with Some a => Some a | None => o2 end.

(** ** Functional record update

    A record declares its eta expansion once ([Eta]); [solve_setter] then derives the setter
    of any of its projections by abstracting that projection out of the expansion. *)

Class Eta (R : Type) := eta : R -> R.
Class Setter {R T : Type} (proj : R -> T) := set : (T -> T) -> R -> R.

Ltac solve_setter :=
  match goal with
  | |- @Setter ?R ?T ?proj =>
    let g := fresh "update" in
    let x := fresh "record" in
    refine (fun (g : T -> T) (x : R) => _ : R);
    let e := eval cbv beta delta [eta] in (eta x) in
    let e' := eval hnf in e in
    let F := eval pattern (proj x) in e' in
    match F with
    | ?G _ => let b := eval cbv beta in (G (g (proj x))) in exact b
    end
  end.
#[export] Hint Extern 0 (Setter _) => solve_setter : typeclass_instances.

Notation "r <| f := v |>" := (@set _ _ f _ (fun _ => v) r)
  (at level 1, left associativity, f at next level) : auth_scope.
Notation "r <| f ::= g |>" := (@set _ _ f _ g r)
  (at level 1, left associativity, f at next level) : auth_scope.
Arguments set {R T} proj {Setter} / f r.

(** ** Time

    [datetime] values are integers: microseconds since the epoch in UTC, the resolution of
    Python's [datetime] and of PostgreSQL's [timestamptz]. *)

Abbreviation Time := Z (only parsing).
Definition second : Z := 1000000.
Definition seconds (n : Z) : Z := n * second.
Definition minutes (n : Z) : Z := seconds (60 * n).
Definition hours (n : Z) : Z := minutes (60 * n).
Definition days (n : Z) : Z := hours (24 * n).

(** [int(t.timestamp())] followed by [datetime.fromtimestamp(_, UTC)]. *)
Definition timestamp (t : Time) : Z := t / second.
Definition fromtimestamp (n : Z) : Time := n * second.

Lemma fromtimestamp_le (t : Time) : fromtimestamp (timestamp t) <= t.
Proof. unfold fromtimestamp, timestamp, second. pose proof (Z.mul_div_le t 1000000). lia. Qed.

Lemma timestamp_mono (a b : Time) : a <= b -> timestamp a <= timestamp b.
Proof. intros H. apply Z.div_le_mono; [unfold second; lia | done]. Qed.

(** ** Relational statements

    A table is the list of its rows.  [where_] is a SELECT, [scalar] the first row of one,
    [update_] an UPDATE, [delete_] a DELETE, [row_exists] an EXISTS test. *)

Section Sql.
Context {row : Type}.
Implicit Types (P : row -> bool) (f : row -> row) (t : list row).

Definition where_ P t : list row := List.filter P t.
Definition scalar P t : option row := List.find P t.
Definition row_exists P t : bool := List.existsb P t.
Definition update_ P f t : list row := List.map (fun r => if P r then f r else r) t.
Definition delete_ P t : list row := List.filter (fun r => negb (P r)) t.
Definition count_ P t : nat := length (where_ P t).

Lemma elem_of_where P t r : r ∈ where_ P t <-> r ∈ t /\ P r = true.
Proof. unfold where_. rewrite !list_elem_of_In. apply filter_In. Qed.

Lemma elem_of_delete P t r : r ∈ delete_ P t <-> r ∈ t /\ P r = false.
Proof. unfold delete_. rewrite !list_elem_of_In, filter_In, negb_true_iff. done. Qed.

Lemma elem_of_update P f t r :
  r ∈ update_ P f t <-> exists r0, r0 ∈ t /\ r = (if P r0 then f r0 else r0).
Proof.
  unfold update_. rewrite list_elem_of_In, in_map_iff.
  split; intros (x & H1 & H2); exists x; rewrite list_elem_of_In in *; auto.
Qed.

Lemma scalar_Some P t r : scalar P t = Some r -> r ∈ t /\ P r = true.
Proof. intros H. apply find_some in H. by rewrite list_elem_of_In. Qed.

Lemma scalar_None P t r : scalar P t = None -> r ∈ t -> P r = false.
Proof. intros H Hin. rewrite list_elem_of_In in Hin. by eapply find_none. Qed.

Lemma scalar_is_Some P t r : r ∈ t -> P r = true -> is_Some (scalar P t).
Proof.
  intros Hin HP. destruct (scalar P t) as [x|] eqn:E; [by eexists|].
  pose proof (scalar_None _ _ _ E Hin). congruence.
Qed.

(** A row that is the only one of its kind is the row [scalar] returns. *)
Lemma scalar_unique P t r :
  r ∈ t -> P r = true -> (forall r', r' ∈ t -> P r' = true -> r' = r) -> scalar P t = Some r.
Proof.
  intros Hin HP Hu. destruct (scalar_is_Some P t r Hin HP) as [x Hx].
  destruct (scalar_Some _ _ _ Hx) as [Hx1 Hx2]. by rewrite Hx, (Hu x).
Qed.

Lemma row_exists_true P t : row_exists P t = true <-> exists r, r ∈ t /\ P r = true.
Proof.
  unfold row_exists. rewrite existsb_exists.
  split; intros (x & H1 & H2); exists x; rewrite list_elem_of_In in *; auto.
Qed.

Lemma row_exists_false P t : row_exists P t = false <-> forall r, r ∈ t -> P r = false.
Proof.
  rewrite <- not_true_iff_false, row_exists_true. split.
  - intros H r Hin. destruct (P r) eqn:E; [|done]. exfalso; eauto.
  - intros H (r & Hin & HP). rewrite (H r Hin) in HP. done.
Qed.

(** An update that does not move a row in or out of a selection updates what [scalar] finds. *)
Lemma scalar_update P (Q : row -> bool) f t : (forall r, r ∈ t -> P (if Q r then f r else r) = P r) ->
  scalar P (update_ Q f t) = option_map (fun r => if Q r then f r else r) (scalar P t).
Proof.
  unfold scalar, update_. induction t as [|r t IH]; cbn; intros H; [done|].
  rewrite H by (by left). destruct (P r); [done|]. apply IH. intros; apply H. by right.
Qed.

Lemma scalar_update_stable P (Q : row -> bool) f t : (forall r, P (f r) = P r) ->
  scalar P (update_ Q f t) = option_map (fun r => if Q r then f r else r) (scalar P t).
Proof. intros H. apply scalar_update. intros r _. by destruct (Q r). Qed.

Lemma where_app P t1 t2 : where_ P (t1 ++ t2) = where_ P t1 ++ where_ P t2.
Proof. apply List.filter_app. Qed.

Lemma where_where P Q t : where_ P (where_ Q t) = where_ (fun r => Q r && P r) t.
Proof.
  unfold where_. induction t as [|r t IH]; [done|]. cbn [List.filter].
  destruct (Q r) eqn:EQ; cbn [List.filter andb]; [destruct (P r)|]; by rewrite IH.
Qed.

Lemma where_delete P Q t : where_ P (delete_ Q t) = delete_ Q (where_ P t).
Proof.
  unfold where_, delete_. induction t as [|r t IH]; [done|]. cbn [List.filter].
  destruct (Q r) eqn:EQ, (P r) eqn:EP; cbn [negb List.filter]; rewrite ?EQ, ?EP; cbn [negb]; by rewrite IH.
Qed.

Lemma where_perm P t1 t2 : t1 ≡ₚ t2 -> where_ P t1 ≡ₚ where_ P t2.
Proof.
  unfold where_. induction 1 as [| |x y l|]; cbn; [done|..].
  - destruct (P x); [by constructor|done].
  - destruct (P x), (P y); try done. constructor.
  - by etrans.
Qed.

Lemma count_cons P r t : count_ P (r :: t) = ((if P r then 1 else 0) + count_ P t)%nat.
Proof. unfold count_, where_. cbn [List.filter]. by destruct (P r). Qed.

Lemma count_app P t1 t2 : count_ P (t1 ++ t2) = (count_ P t1 + count_ P t2)%nat.
Proof. unfold count_. by rewrite where_app, length_app. Qed.

Lemma where_ext P Q t : (forall r, r ∈ t -> P r = Q r) -> where_ P t = where_ Q t.
Proof.
  intros H. apply filter_ext_in. intros r Hr. apply H. by apply list_elem_of_In.
Qed.

Lemma where_nil P t : (forall r, r ∈ t -> P r = false) -> where_ P t = [].
Proof.
  unfold where_, update_. induction t as [|r t IH]; cbn; intros H; [done|].
  rewrite (H r) by (by left). apply IH. intros; apply H. by right.
Qed.

Lemma update_id P f t : (forall r, r ∈ t -> P r = false) -> update_ P f t = t.
Proof.
  unfold where_, update_. induction t as [|r t IH]; cbn; intros H; [done|].
  rewrite (H r) by (by left). f_equal. apply IH. intros; apply H. by right.
Qed.

Lemma update_app P f t1 t2 : update_ P f (t1 ++ t2) = update_ P f t1 ++ update_ P f t2.
Proof. apply map_app. Qed.

Lemma length_update P f t : length (update_ P f t) = length t.
Proof. apply length_map. Qed.

(** What an update does to a selection: rows are rewritten in place. *)
Lemma where_update P Q f t :
  where_ Q (update_ P f t) =
  List.map (fun r => if P r then f r else r)
    (where_ (fun r => Q (if P r then f r else r)) t).
Proof.
  unfold where_, update_. induction t as [|r t IH]; cbn; [done|].
  destruct (Q (if P r then f r else r)); cbn; by rewrite IH.
Qed.

Lemma count_update P Q f t :
  (forall r, r ∈ t -> Q (if P r then f r else r) = Q r) ->
  count_ Q (update_ P f t) = count_ Q t.
Proof.
  intros H. unfold count_. rewrite where_update, length_map. f_equal. by apply where_ext.
Qed.

Lemma count_le P Q t :
  (forall r, r ∈ t -> P r = true -> Q r = true) -> (count_ P t <= count_ Q t)%nat.
Proof.
  unfold count_, where_. induction t as [|r t IH]; cbn; intros H; [done|].
  assert (IH' : (length (List.filter P t) <= length (List.filter Q t))%nat)
    by (apply IH; intros; apply H; [by right|done]).
  specialize (H r ltac:(by left)).
  destruct (P r), (Q r); cbn; try lia; exfalso; by intuition.
Qed.
End Sql.

(** Keys: the rows of a table are told apart by a key that updates preserve. *)
Section Keys.
Context {row K : Type} (key : row -> K).
Lemma nodup_key t x y : NoDup (List.map key t) -> x ∈ t -> y ∈ t -> key x = key y -> x = y.
Proof.
  induction t as [|r t IH]; cbn; intros Hnd Hx Hy Hk; [by apply elem_of_nil in Hx|].
  apply list.NoDup_cons in Hnd as [Hr Hnd].
  assert (Hin : forall z, z ∈ t -> key z ∈ List.map key t).
  { intros z. rewrite !list_elem_of_In. apply in_map. }
  apply elem_of_cons in Hx as [->|Hx], Hy as [->|Hy]; auto; exfalso; apply Hr;
    [rewrite Hk|rewrite <- Hk]; auto.
Qed.
Lemma key_update P f t :
  (forall r, key (f r) = key r) -> List.map key (update_ P f t) = List.map key t.
Proof.
  intros H. unfold update_. rewrite map_map. apply map_ext. intros r. by case_match.
Qed.
Lemma nodup_key_snoc t r :
  NoDup (List.map key t) -> (forall s, s ∈ t -> key s <> key r) -> NoDup (List.map key (t ++ [r])).
Proof.
  intros Hnd Hf. rewrite map_app. apply list.NoDup_app. split; [done|]. split; [|repeat constructor; apply not_elem_of_nil].
  intros x Hx Hr. cbn in Hr. apply list_elem_of_singleton in Hr as ->.
  rewrite list_elem_of_In in Hx. apply in_map_iff in Hx as (s & Hs & Hin).
  apply list_elem_of_In in Hin. by apply (Hf s).
Qed.
Lemma nodup_key_rows t : NoDup (List.map key t) -> NoDup t.
Proof.
  rewrite !NoDup_ListNoDup. apply NoDup_map_inv.
Qed.
End Keys.

Lemma elem_of_snoc {A} (l : list A) x y : x ∈ l ++ [y] <-> x ∈ l \/ x = y.
Proof. rewrite elem_of_app, list_elem_of_singleton. done. Qed.

Lemma nodup_where {A} (P : A -> bool) l : NoDup l -> NoDup (where_ P l).
Proof. rewrite !NoDup_ListNoDup. apply List.NoDup_filter. Qed.
(** Rows without repetition that are all the same are at most one. *)
Lemma nodup_unique {A} (l : list A) a : NoDup l -> a ∈ l -> (forall b, b ∈ l -> b = a) -> l = [a].
Proof.
  intros Hnd Ha Hu. destruct l as [|x l]; [by apply elem_of_nil in Ha|].
  assert (x = a) as -> by (apply Hu; by left). destruct l as [|y l]; [done|].
  assert (y = a) as -> by (apply Hu; right; by left).
  apply list.NoDup_cons in Hnd as [Hn _]. exfalso. apply Hn. by left.
Qed.
Lemma nodup_singletons {A} (l : list A) :
  NoDup l -> (forall a b, a ∈ l -> b ∈ l -> a = b) -> l = [] \/ exists a, l = [a].
Proof.
  destruct l as [|x l]; [by left|]. intros Hnd Hu. right. exists x. apply nodup_unique; [done|by left|].
  intros b Hb. apply Hu; [done|by left].
Qed.

Lemma elem_of_update_fwd {row} (P : row -> bool) f t r :
  r ∈ t -> (if P r then f r else r) ∈ update_ P f t.
Proof. intros H. apply elem_of_update. eauto. Qed.

Lemma elem_of_update_hit {row} (P : row -> bool) f t r :
  r ∈ t -> P r = true -> f r ∈ update_ P f t.
Proof. intros H HP. pose proof (elem_of_update_fwd P f t r H) as Hu. by rewrite HP in Hu. Qed.

(** [select(A, B).join(B, on)]. *)
Definition join_on {A B} (on : A -> B -> bool) (l : list A) (m : list B) : list (A * B) :=
  List.flat_map (fun a => List.map (fun b => (a, b)) (List.filter (on a) m)) l.
Lemma elem_of_join {A B} (on : A -> B -> bool) l m (a : A) (b : B) :
  (a, b) ∈ join_on on l m <-> a ∈ l /\ b ∈ m /\ on a b = true.
Proof.
  unfold join_on. rewrite !list_elem_of_In, in_flat_map. split.
  - intros (x & Hx & H). apply in_map_iff in H as (y & [= -> ->] & Hy).
    apply filter_In in Hy as [Hy Hon]. done.
  - intros (Ha & Hb & Hon). exists a. split; [done|]. apply in_map_iff. exists b.
    split; [done|]. by apply filter_In.
Qed.

Lemma nodup_join {A B} (on : A -> B -> bool) l m : NoDup l -> NoDup m -> NoDup (join_on on l m).
Proof.
  unfold join_on. induction l as [|a l IH]; cbn; intros Hl Hm; [constructor|].
  apply list.NoDup_cons in Hl as [Ha Hl]. apply list.NoDup_app. split; [|split; [|by apply IH]].
  - apply (NoDup_fmap_2 (pair a)). by apply nodup_where.
  - intros [x y] Hx Hy. rewrite !list_elem_of_In in *.
    apply in_map_iff in Hx as (b & [= <- <-] & _).
    apply in_flat_map in Hy as (c & Hc & Hy). apply in_map_iff in Hy as (d & [= -> ->] & _).
    apply Ha. by apply list_elem_of_In.
Qed.

(** [session.execute(...).one_or_none()]: more than one row is an exception. *)
Inductive OneResult (row : Type) := NoRow | OneRow (r : row) | ManyRows.
Arguments NoRow {row}.
Arguments OneRow {row} r.
Arguments ManyRows {row}.

Definition one_or_none {row} (P : row -> bool) (t : list row) : OneResult row :=
  match where_ P t with [] => NoRow | [r] => OneRow r | _ => ManyRows end.

(** ORDER BY an integer key, ascending and descending; rows with equal keys keep the order of
    the table. *)
Section OrderBy.
Context {row : Type} (key : row -> Z).

Fixpoint insert_asc (r : row) (l : list row) : list row :=
  match l with
  | [] => [r]
  | x :: xs => if key r <=? key x then r :: x :: xs else x :: insert_asc r xs
  end.
Definition order_by (l : list row) : list row := List.fold_right insert_asc [] l.

Lemma insert_asc_perm r l : insert_asc r l ≡ₚ r :: l.
Proof.
  induction l as [|x xs IH]; cbn; [done|].
  destruct (key r <=? key x); [done|]. rewrite IH. constructor.
Qed.

Lemma order_by_perm l : order_by l ≡ₚ l.
Proof. induction l as [|x xs IH]; cbn; [done|]. by rewrite insert_asc_perm, IH. Qed.

Lemma insert_asc_sorted r l :
  Sorted (fun a b => key a <= key b) l -> Sorted (fun a b => key a <= key b) (insert_asc r l).
Proof.
  induction 1 as [|x xs Hs IH Hd]; cbn; [by repeat constructor|].
  destruct (Z.leb_spec (key r) (key x)).
  - constructor; [by constructor|]. by constructor.
  - constructor; [done|]. destruct xs as [|y ys]; cbn in *; [constructor; lia|].
    inversion Hd; subst. destruct (key r <=? key y); constructor; lia.
Qed.

Lemma order_by_sorted l : Sorted (fun a b => key a <= key b) (order_by l).
Proof. induction l as [|x xs IH]; cbn; [constructor|]. by apply insert_asc_sorted. Qed.
End OrderBy.

Definition order_by_desc {row} (key : row -> Z) (l : list row) : list row :=
  order_by (fun r => - key r) l.

(** ORDER BY a text, in the order of a collation. *)
Section OrderByText.
Context {row : Type} (le : string -> string -> bool) (key : row -> string).

Fixpoint insert_text_asc (r : row) (l : list row) : list row :=
  match l with
  | [] => [r]
  | x :: xs => if le (key r) (key x) then r :: x :: xs else x :: insert_text_asc r xs
  end.
Definition order_by_text (l : list row) : list row := List.fold_right insert_text_asc [] l.

Lemma insert_text_perm r l : insert_text_asc r l ≡ₚ r :: l.
Proof.
  induction l as [|x xs IH]; cbn; [done|].
  destruct (le (key r) (key x)); [done|]. rewrite IH. constructor.
Qed.
Lemma order_by_text_perm l : order_by_text l ≡ₚ l.
Proof. induction l as [|x xs IH]; cbn; [done|]. by rewrite insert_text_perm, IH. Qed.
End OrderByText.

(** SELECT DISTINCT: the first of equal rows stays. *)
Fixpoint distinct {A} `{EqDecision A} (l : list A) : list A :=
  match l with [] => [] | x :: l => x :: List.filter (fun y => negb (bool_decide (y = x))) (distinct l) end.
Lemma elem_of_distinct {A} `{EqDecision A} (l : list A) x : x ∈ distinct l <-> x ∈ l.
Proof.
  induction l as [|y l IH]; cbn; [done|].
  rewrite !elem_of_cons, list_elem_of_In, filter_In, <- list_elem_of_In, IH, negb_true_iff, bool_decide_eq_false.
  destruct (decide (x = y)); tauto.
Qed.
Lemma nodup_distinct {A} `{EqDecision A} (l : list A) : NoDup (distinct l).
Proof.
  induction l as [|y l IH]; cbn; [constructor|]. constructor.
  - rewrite list_elem_of_In, filter_In, negb_true_iff, bool_decide_eq_false. tauto.
  - revert IH. rewrite !NoDup_ListNoDup. apply List.NoDup_filter.
Qed.

(** ** Automation *)

Create HintDb auth discriminated.
#[export] Hint Resolve elem_of_where elem_of_update elem_of_delete : auth.

(** Case analysis on the tests of a handler that occur in the goal or in a hypothesis. *)
Ltac case_test :=
  match goal with
  | |- context [if ?b then _ else _] => destruct b eqn:?
  | |- context [match ?o with Some _ => _ | None => _ end] => destruct o eqn:?
  | |- context [match ?s with inl _ => _ | inr _ => _ end] => destruct s eqn:?
  end.
Ltac case_test_in H :=
  match type of H with
  | context [if ?b then _ else _] => destruct b eqn:?
  | context [match ?o with Some _ => _ | None => _ end] => destruct o eqn:?
  | context [match ?s with inl _ => _ | inr _ => _ end] => destruct s eqn:?
  end.

(** Boolean hypotheses into propositions. *)
Ltac to_prop :=
  repeat match goal with
  | H : andb _ _ = true |- _ => apply andb_true_iff in H; destruct H
  | H : orb _ _ = false |- _ => apply orb_false_iff in H; destruct H
  | H : negb _ = true |- _ => apply negb_true_iff in H
  | H : negb _ = false |- _ => apply negb_false_iff in H
  | H : bool_decide _ = true |- _ => apply bool_decide_eq_true in H
  | H : bool_decide _ = false |- _ => apply bool_decide_eq_false in H
  | H : is_none ?o = true |- _ => destruct o eqn:?; [discriminate H|]; clear H
  | H : (_ <=? _)%Z = true |- _ => apply Z.leb_le in H
  | H : (_ <=? _)%Z = false |- _ => apply Z.leb_gt in H
  | H : (_ <? _)%Z = true |- _ => apply Z.ltb_lt in H
  | H : (_ <? _)%Z = false |- _ => apply Z.ltb_ge in H
  end.

Lemma eqb_refl {A} `{EqDecision A} (x : A) : (x == x) = true.
Proof. by apply bool_decide_eq_true. Qed.
Lemma eqb_neq {A} `{EqDecision A} (x y : A) : x <> y -> (x == y) = false.
Proof. by rewrite bool_decide_eq_false. Qed.
Create Rewrite HintDb auth_rw.
#[export] Hint Rewrite @eqb_refl : auth_rw.
