(* ===== verification/PyText.v ===== *)
(** Text, UUIDs and JSON as the Python code uses them.

    [str] values are ASCII strings.  [strip], [casefold], [lower], [upper], slices, [split]
    with a limit, [re.sub] of a character class, [re.fullmatch] of the two patterns of the
    source, [UUID(...)] and [str(uuid)], and the JSON values that travel through Redis. *)
From S2P Require Import Prelude.
#[local] Arguments String.append !_ _ : simpl nomatch.

(** ** Characters *)

Definition code (c : ascii) : N := N_of_ascii c.

(** [str.isspace] and the regular-expression class [\s] on ASCII. *)
Definition is_space (c : ascii) : bool :=
  ((9 <=? code c) && (code c <=? 13))%N || ((28 <=? code c) && (code c <=? 32))%N.
Definition is_digit (c : ascii) : bool := ((48 <=? code c) && (code c <=? 57))%N.
Definition is_upper (c : ascii) : bool := ((65 <=? code c) && (code c <=? 90))%N.
Definition is_lower (c : ascii) : bool := ((97 <=? code c) && (code c <=? 122))%N.
Definition to_lower (c : ascii) : ascii := if is_upper c then ascii_of_N (code c + 32) else c.
Definition to_upper (c : ascii) : ascii := if is_lower c then ascii_of_N (code c - 32) else c.

(** A statement about every ASCII character is checked on the 256 of them. *)
Definition all_ascii (P : ascii -> bool) : bool :=
  List.forallb (fun n => P (ascii_of_nat n)) (List.seq 0 256).

Lemma all_ascii_spec P : all_ascii P = true -> forall c, P c = true.
Proof.
  intros H c. unfold all_ascii in H. rewrite forallb_forall in H.
  specialize (H (nat_of_ascii c)). rewrite ascii_nat_embedding in H. apply H.
  rewrite in_seq. pose proof (nat_ascii_bounded c). lia.
Qed.

Lemma to_lower_idem c : to_lower (to_lower c) = to_lower c.
Proof.
  pose proof (all_ascii_spec (fun c => to_lower (to_lower c) == to_lower c)) as H.
  specialize (H ltac:(vm_compute; reflexivity) c). cbv beta in H. by to_prop.
Qed.

Lemma is_space_lower c : is_space (to_lower c) = is_space c.
Proof.
  pose proof (all_ascii_spec (fun c => is_space (to_lower c) == is_space c)) as H.
  specialize (H ltac:(vm_compute; reflexivity) c). cbv beta in H. by to_prop.
Qed.

(** ** Strings *)

Fixpoint str_map (f : ascii -> ascii) (s : string) : string :=
  match s with EmptyString => EmptyString | String c s => String (f c) (str_map f s) end.
Fixpoint str_filter (P : ascii -> bool) (s : string) : string :=
  match s with
  | EmptyString => EmptyString
  | String c s => if P c then String c (str_filter P s) else str_filter P s
  end.
Fixpoint str_all (P : ascii -> bool) (s : string) : bool :=
  match s with EmptyString => true | String c s => P c && str_all P s end.

Definition casefold (s : string) : string := str_map to_lower s.
Definition upper (s : string) : string := str_map to_upper s.

Fixpoint drop_while (P : ascii -> bool) (s : string) : string :=
  match s with
  | EmptyString => EmptyString
  | String c s' => if P c then drop_while P s' else s
  end.
(** [s.rstrip(chars)]: a suffix of characters in [P] is removed. *)
Fixpoint rstrip (P : ascii -> bool) (s : string) : string :=
  match s with
  | EmptyString => EmptyString
  | String c s' =>
    match rstrip P s' with
    | EmptyString => if P c then EmptyString else String c EmptyString
    | t => String c t
    end
  end.
Definition strip (s : string) : string := rstrip is_space (drop_while is_space s).

(** [s[:n]], [s[n:]], [s[-n:]]. *)
Fixpoint take_s (n : nat) (s : string) : string :=
  match n, s with S n, String c s => String c (take_s n s) | _, _ => EmptyString end.
Fixpoint drop_s (n : nat) (s : string) : string :=
  match n, s with S n, String _ s => drop_s n s | _, _ => s end.
Definition last_s (n : nat) (s : string) : string := drop_s (String.length s - n) s.

(** [s.split(c, 1)] when [c] occurs in [s]. *)
Fixpoint split_once (c : ascii) (s : string) : option (string * string) :=
  match s with
  | EmptyString => None
  | String a s' =>
    if a == c then Some (EmptyString, s')
    else '(l, r) ← split_once c s'; Some (String a l, r)
  end.
(** [c in s] for one character. *)
Fixpoint has_char (c : ascii) (s : string) : bool :=
  match s with EmptyString => false | String a s' => (a == c) || has_char c s' end.

Definition nonempty (s : string) : bool := s != EmptyString.
(** Truthiness of an optional string. *)
Definition truthy (o : option string) : bool :=
  match o with Some s => nonempty s | None => false end.
(** [a or b] on optional strings. *)
Definition str_or (a b : option string) : option string := if truthy a then a else b.

Lemma str_map_idem f s : (forall c, f (f c) = f c) -> str_map f (str_map f s) = str_map f s.
Proof. intros H. induction s as [|c s IH]; cbn; [done|]. by rewrite H, IH. Qed.

Lemma drop_while_map P f s :
  (forall c, P (f c) = P c) -> drop_while P (str_map f s) = str_map f (drop_while P s).
Proof. intros H. induction s as [|c s IH]; cbn; [done|]. rewrite H. by case_match. Qed.

Lemma rstrip_map P f s :
  (forall c, P (f c) = P c) -> rstrip P (str_map f s) = str_map f (rstrip P s).
Proof.
  intros H. induction s as [|c s IH]; cbn; [done|]. rewrite IH, H.
  destruct (rstrip P s); cbn; [by case_match|done].
Qed.

Lemma rstrip_idem P s : rstrip P (rstrip P s) = rstrip P s.
Proof.
  induction s as [|c s IH]; cbn; [done|]. destruct (rstrip P s) as [|a t] eqn:E.
  - destruct (P c) eqn:Hc; cbn; [done|by rewrite Hc].
  - change (rstrip P (String c (String a t))) with
      (match rstrip P (String a t) with
       | EmptyString => if P c then EmptyString else String c EmptyString
       | t => String c t end).
    by rewrite IH.
Qed.

Lemma drop_while_head P s c t : drop_while P s = String c t -> P c = false.
Proof.
  induction s as [|a s IH]; cbn; [done|]. destruct (P a) eqn:E; [done|].
  intros [= <- _]. done.
Qed.

Lemma drop_while_rstrip P s :
  drop_while P s = s -> drop_while P (rstrip P s) = rstrip P s.
Proof.
  destruct s as [|c s]; [done|]. intros H. apply drop_while_head in H as Hc. cbn.
  destruct (rstrip P s); [|cbn; by rewrite Hc]. rewrite Hc. cbn. by rewrite Hc.
Qed.

Lemma drop_while_idem P s : drop_while P (drop_while P s) = drop_while P s.
Proof.
  destruct (drop_while P s) as [|c t] eqn:E; [done|].
  cbn. by rewrite (drop_while_head _ _ _ _ E).
Qed.

Lemma strip_idem s : strip (strip s) = strip s.
Proof.
  unfold strip. rewrite drop_while_rstrip by apply drop_while_idem. apply rstrip_idem.
Qed.

Lemma strip_casefold s : strip (casefold s) = casefold (strip s).
Proof.
  unfold strip, casefold.
  rewrite drop_while_map, rstrip_map by apply is_space_lower. done.
Qed.

Lemma str_filter_all P s : str_all P (str_filter P s) = true.
Proof. induction s as [|c s IH]; cbn; [done|]. destruct (P c) eqn:E; cbn; by rewrite ?E. Qed.

Lemma str_filter_id P s : str_all P s = true -> str_filter P s = s.
Proof. induction s as [|c s IH]; cbn; intros H; [done|]. to_prop. rewrite H. by rewrite IH. Qed.

Lemma app_length_s s t : String.length (s +:+ t) = (String.length s + String.length t)%nat.
Proof. induction s as [|c s IH]; cbn; [done|]. by rewrite IH. Qed.

(** Concatenations with equally long heads are equal part by part. *)
Lemma app_inj_l (a b s t : string) :
  String.length a = String.length b -> a +:+ s = b +:+ t -> a = b /\ s = t.
Proof.
  revert b. induction a as [|c a IH]; intros [|d b]; cbn; try done.
  intros [= Hl] [= -> H]. destruct (IH b Hl H) as [-> ->]. done.
Qed.

Lemma app_cancel_l (p s t : string) : p +:+ s = p +:+ t -> s = t.
Proof. induction p as [|c p IH]; cbn; [done|]. intros [= H]. auto. Qed.

(** ** UUIDs

    A [UUID] is the 128-bit integer Python keeps in [UUID.int]; [uuid_str] is [str(uuid)],
    [uuid_parse] the constructor [UUID(text)], [None] standing for [ValueError].  The
    leniencies of [int(_, 16)] (sign, underscores, blanks) are rejected by [uuid_parse]. *)

Definition uuid_limit : N := 2 ^ 128.
Record UUID := MkUUID { uuid_int : N; uuid_ok : Is_true (uuid_int <? uuid_limit)%N }.

Lemma uuid_eq (u v : UUID) : uuid_int u = uuid_int v -> u = v.
Proof.
  destruct u as [n p], v as [m q]. cbn. intros ->. f_equal. apply proof_irrel.
Qed.

#[export] Instance uuid_eq_dec : EqDecision UUID.
Proof.
  intros u v. destruct (decide (uuid_int u = uuid_int v)) as [H|H].
  - left. by apply uuid_eq.
  - right. congruence.
Defined.

Lemma uuid_mod_ok n : Is_true (n mod uuid_limit <? uuid_limit)%N.
Proof. apply Is_true_true, N.ltb_lt. by apply N.mod_lt. Qed.
Definition uuid_of_N (n : N) : UUID := MkUUID (n mod uuid_limit) (uuid_mod_ok n).

Lemma uuid_of_N_int u : uuid_of_N (uuid_int u) = u.
Proof.
  apply uuid_eq. cbn. apply N.mod_small. destruct u as [n H]. cbn.
  by apply Is_true_true, N.ltb_lt in H.
Qed.

Definition hex_char (d : N) : ascii := ascii_of_N (if (d <? 10)%N then 48 + d else 87 + d)%N.
Definition hex_value (c : ascii) : option N :=
  if is_digit c then Some (code c - 48)%N
  else if ((97 <=? code c) && (code c <=? 102))%N then Some (code c - 87)%N
  else if ((65 <=? code c) && (code c <=? 70))%N then Some (code c - 55)%N
  else None.

(** [w] hexadecimal digits of [n], most significant first, before [rest]. *)
Fixpoint hex_digits (w : nat) (n : N) (rest : string) : string :=
  match w with
  | O => rest
  | S w => hex_digits w (n / 16) (String (hex_char (n mod 16)) rest)
  end.
Fixpoint hex_read (acc : N) (s : string) : option N :=
  match s with
  | EmptyString => Some acc
  | String c s => d ← hex_value c; hex_read (acc * 16 + d) s
  end.

Definition uuid_hex (u : UUID) : string := hex_digits 32 (uuid_int u) EmptyString.
Definition uuid_str (u : UUID) : string :=
  let h := uuid_hex u in
  take_s 8 h +:+ "-" +:+ take_s 4 (drop_s 8 h) +:+ "-" +:+ take_s 4 (drop_s 12 h)
    +:+ "-" +:+ take_s 4 (drop_s 16 h) +:+ "-" +:+ drop_s 20 h.

Definition not_hyphen (c : ascii) : bool := c != "-"%char.
Definition is_brace (c : ascii) : bool := (c == "{"%char) || (c == "}"%char).
(** [text.replace('urn:', '').replace('uuid:', '').strip('{}').replace('-', '')], the two
    prefixes being removed where they lead the text. *)
Definition drop_prefix (p s : string) : string :=
  if String.prefix p s then drop_s (String.length p) s else s.
Definition uuid_parse (s : string) : option UUID :=
  let h := str_filter not_hyphen
             (rstrip is_brace (drop_while is_brace (drop_prefix "uuid:" (drop_prefix "urn:" s)))) in
  if (String.length h =? 32)%nat then n ← hex_read 0 h; Some (uuid_of_N n) else None.

Lemma hex_value_char d : (d < 16)%N -> hex_value (hex_char d) = Some d.
Proof.
  intros H.
  assert (HH : List.forallb (fun n => hex_value (hex_char (N.of_nat n)) == Some (N.of_nat n))
    (List.seq 0 16) = true) by (vm_compute; reflexivity).
  rewrite forallb_forall in HH. specialize (HH (N.to_nat d)).
  rewrite N2Nat.id in HH. apply bool_decide_eq_true in HH; [done|]. apply in_seq. lia.
Qed.

Lemma hex_read_digits w n acc rest :
  hex_read acc (hex_digits w n rest) = hex_read (acc * 16 ^ N.of_nat w + n mod 16 ^ N.of_nat w) rest.
Proof.
  revert n rest. induction w as [|w IH]; intros n rest.
  - cbn [hex_digits]. change (16 ^ N.of_nat 0)%N with 1%N.
    rewrite N.mod_1_r. f_equal. lia.
  - cbn [hex_digits]. rewrite IH. cbn [hex_read].
    assert (Hd : (n mod 16 < 16)%N) by (apply N.mod_lt; lia).
    rewrite (hex_value_char _ Hd). cbn.
    replace (N.of_nat (S w)) with (N.succ (N.of_nat w)) by lia.
    rewrite N.pow_succ_r'. f_equal.
    rewrite (N.Div0.mod_mul_r n 16 (16 ^ N.of_nat w)). lia.
Qed.

Lemma hex_digits_length w n rest :
  String.length (hex_digits w n rest) = (w + String.length rest)%nat.
Proof. revert n rest. induction w as [|w IH]; intros; cbn; [done|]. rewrite IH. cbn. lia. Qed.

Definition is_hex (c : ascii) : bool := is_some (hex_value c).

Lemma hex_digits_hex w n rest : str_all is_hex rest = true -> str_all is_hex (hex_digits w n rest) = true.
Proof.
  revert n rest. induction w as [|w IH]; intros n rest H; cbn; [done|]. apply IH. cbn.
  unfold is_hex at 1. rewrite hex_value_char by (apply N.mod_lt; lia). done.
Qed.

Lemma take_drop_s n s : take_s n s +:+ drop_s n s = s.
Proof. revert s. induction n as [|n IH]; intros [|c s]; cbn; try done. by rewrite IH. Qed.

Lemma drop_drop_s n m s : drop_s n (drop_s m s) = drop_s (m + n) s.
Proof. revert s. induction m as [|m IH]; intros [|c s]; cbn; try done. by destruct n. Qed.

Lemma str_filter_app P s t : str_filter P (s +:+ t) = str_filter P s +:+ str_filter P t.
Proof. induction s as [|c s IH]; cbn; [done|]. case_match; cbn; by rewrite IH. Qed.

Lemma str_all_app P s t : str_all P (s +:+ t) = str_all P s && str_all P t.
Proof. induction s as [|c s IH]; cbn; [done|]. rewrite IH. by rewrite andb_assoc. Qed.

Lemma str_all_imp P Q s :
  (forall c, P c = true -> Q c = true) -> str_all P s = true -> str_all Q s = true.
Proof. intros H. induction s as [|c s IH]; cbn; [done|]. intros; to_prop. rewrite H, IH; done. Qed.

Lemma is_hex_props c :
  is_hex c = true ->
  not_hyphen c = true /\ is_brace c = false /\ c <> "u"%char /\ c <> ":"%char.
Proof.
  pose proof (all_ascii_spec (fun c => negb (is_hex c) || (not_hyphen c && negb (is_brace c)
     && (c != "u"%char) && (c != ":"%char)))) as H.
  specialize (H ltac:(vm_compute; reflexivity) c). cbv beta in H. intros Hc. rewrite Hc in H. cbn in H.
  to_prop. done.
Qed.

Lemma rstrip_none P s : str_all (fun c => negb (P c)) s = true -> rstrip P s = s.
Proof.
  induction s as [|c s IH]; cbn; intros H; [done|]. to_prop. rewrite IH by done.
  destruct s; [|done]. by rewrite H.
Qed.

Lemma drop_while_none P s : str_all (fun c => negb (P c)) s = true -> drop_while P s = s.
Proof. destruct s as [|c s]; cbn; intros H; [done|]. to_prop. by rewrite H. Qed.

Lemma uuid_regroup h :
  take_s 8 h +:+ EmptyString +:+ take_s 4 (drop_s 8 h) +:+ EmptyString +:+ take_s 4 (drop_s 12 h)
    +:+ EmptyString +:+ take_s 4 (drop_s 16 h) +:+ EmptyString +:+ drop_s 20 h = h.
Proof.
  cbn [String.append].
  replace (drop_s 20 h) with (drop_s 4 (drop_s 16 h)) by apply drop_drop_s.
  rewrite take_drop_s.
  replace (drop_s 16 h) with (drop_s 4 (drop_s 12 h)) by apply drop_drop_s.
  rewrite take_drop_s.
  replace (drop_s 12 h) with (drop_s 4 (drop_s 8 h)) by apply drop_drop_s.
  by rewrite !take_drop_s.
Qed.

(** The text of a UUID without its hyphens is its 32 digits. *)
Lemma uuid_str_digits u : str_filter not_hyphen (uuid_str u) = uuid_hex u.
Proof.
  assert (Hh : str_all is_hex (uuid_hex u) = true) by (apply hex_digits_hex; done).
  unfold uuid_str. rewrite !str_filter_app. cbn [str_filter not_hyphen].
  set (h := uuid_hex u) in *.
  assert (Hd : forall n, str_all is_hex (drop_s n h) = true).
  { intros n. rewrite <- (take_drop_s n h), str_all_app in Hh. to_prop. done. }
  assert (Ht : forall m n, str_all is_hex (take_s m (drop_s n h)) = true).
  { intros m n. specialize (Hd n). rewrite <- (take_drop_s m (drop_s n h)), str_all_app in Hd.
    to_prop. done. }
  specialize (Ht 8%nat 0%nat) as H8. cbn [drop_s] in H8.
  assert (Hf : forall s, str_all is_hex s = true -> str_filter not_hyphen s = s).
  { intros s Hs. apply str_filter_id. revert Hs. apply str_all_imp. apply is_hex_props. }
  rewrite !Hf by auto. apply uuid_regroup.
Qed.

Definition is_uuid_char (c : ascii) : bool := is_hex c || (c == "-"%char).

Lemma str_all_take P n s : str_all P s = true -> str_all P (take_s n s) = true.
Proof. intros H. rewrite <- (take_drop_s n s), str_all_app in H. by to_prop. Qed.
Lemma str_all_drop P n s : str_all P s = true -> str_all P (drop_s n s) = true.
Proof. intros H. rewrite <- (take_drop_s n s), str_all_app in H. by to_prop. Qed.

Lemma uuid_str_chars u : str_all is_uuid_char (uuid_str u) = true.
Proof.
  assert (Hh : str_all is_uuid_char (uuid_hex u) = true).
  { eapply str_all_imp; [|apply (hex_digits_hex 32 (uuid_int u) EmptyString eq_refl)].
    intros c H. unfold is_uuid_char. by rewrite H. }
  unfold uuid_str. rewrite !str_all_app.
  rewrite !str_all_take by (repeat apply str_all_drop; done). rewrite str_all_drop by done. done.
Qed.

Lemma drop_prefix_none p s a b :
  p = String a b -> str_all (fun c => c != a) s = true -> drop_prefix p s = s.
Proof.
  intros -> H. unfold drop_prefix. destruct s as [|c s]; cbn in *; [done|].
  to_prop. destruct (ascii_dec a c); [congruence|done].
Qed.

(** [UUID(str(u)) == u]. *)
Theorem uuid_parse_str u : uuid_parse (uuid_str u) = Some u.
Proof.
  pose proof (uuid_str_chars u) as Hc. unfold uuid_parse.
  assert (Hno : forall P, (forall c, is_uuid_char c = true -> P c = true) ->
    str_all P (uuid_str u) = true) by (intros P HP; by eapply str_all_imp).
  assert (Hp : forall c, is_uuid_char c = true -> c <> "u"%char /\ is_brace c = false).
  { intros c H. unfold is_uuid_char in H. apply orb_true_iff in H as [H|H].
    - by apply is_hex_props in H as (?&?&?&?).
    - to_prop. by subst. }
  assert (Hpre : forall b, drop_prefix (String "u" b) (uuid_str u) = uuid_str u).
  { intros b. eapply drop_prefix_none; [done|]. apply Hno. intros c H.
    by apply negb_true_iff, bool_decide_eq_false, Hp. }
  rewrite !Hpre.
  rewrite drop_while_none, rstrip_none
    by (apply Hno; intros c H; apply negb_true_iff, Hp, H).
  rewrite uuid_str_digits. unfold uuid_hex. rewrite hex_digits_length. cbn [String.length].
  rewrite Nat.add_0_r, Nat.eqb_refl. rewrite hex_read_digits. cbn [hex_read].
  rewrite N.mul_0_l, N.add_0_l. cbn. f_equal.
  change (16 ^ 32)%N with uuid_limit.
  apply uuid_eq. cbn [uuid_of_N uuid_int]. rewrite N.Div0.mod_mod.
  pose proof (uuid_of_N_int u) as H. by apply (f_equal uuid_int) in H.
Qed.

Lemma uuid_str_inj u v : uuid_str u = uuid_str v -> u = v.
Proof. intros H. apply (f_equal uuid_parse) in H. rewrite !uuid_parse_str in H. congruence. Qed.

(** ** Decimal text *)

(** [w] decimal digits of [n], most significant first: [f"{n:0wd}"] for [n < 10 ^ w]. *)
Fixpoint dec_digits (w : nat) (n : N) (rest : string) : string :=
  match w with
  | O => rest
  | S w => dec_digits w (n / 10) (String (ascii_of_N (48 + n mod 10)) rest)
  end.
Lemma dec_digits_length w n rest : String.length (dec_digits w n rest) = (w + String.length rest)%nat.
Proof. revert n rest. induction w as [|w IH]; intros; cbn; [done|]. rewrite IH. cbn. lia. Qed.

(** [datetime.isoformat()] of an instant in UTC. *)
Definition civil_of_days (z : Z) : Z * Z * Z :=
  let z := z + 719468 in
  let doe := z mod 146097 in
  let yoe := (doe - doe / 1460 + doe / 36524 - doe / 146096) / 365 in
  let doy := doe - (365 * yoe + yoe / 4 - yoe / 100) in
  let mp := (5 * doy + 2) / 153 in
  let m := if mp <? 10 then mp + 3 else mp - 9 in
  (yoe + z / 146097 * 400 + (if m <=? 2 then 1 else 0), m, doy - (153 * mp + 2) / 5 + 1).
Definition isoformat (t : Time) : string :=
  let '(y, m, d) := civil_of_days (t / days 1) in
  let s := (t mod days 1) / second in
  let us := t mod second in
  let p w n := dec_digits w (Z.to_N n) "" in
  p 4%nat y +:+ "-" +:+ p 2%nat m +:+ "-" +:+ p 2%nat d +:+ "T" +:+ p 2%nat (s / 3600) +:+ ":"
    +:+ p 2%nat (s / 60 mod 60) +:+ ":" +:+ p 2%nat (s mod 60)
    +:+ (if us =? 0 then "" else "." +:+ p 6%nat us) +:+ "+00:00".
Example isoformat_1 : isoformat (seconds 1709210096 + 250) = "2024-02-29T12:34:56.000250+00:00".
Proof. reflexivity. Qed.

(** The number of days of a date, the inverse of [civil_of_days]. *)
Definition days_of_civil (y m d : Z) : Z :=
  let y := if m <=? 2 then y - 1 else y in
  let yoe := y mod 400 in
  let doy := (153 * ((m + 9) mod 12) + 2) / 5 + d - 1 in
  y / 400 * 146097 + (yoe * 365 + yoe / 4 - yoe / 100 + doy) - 719468.

(** One period of 400 years, day by day. *)
Definition civil_of_day (doe : Z) : Z * Z * Z :=
  let yoe := (doe - doe / 1460 + doe / 36524 - doe / 146096) / 365 in
  let doy := doe - (365 * yoe + yoe / 4 - yoe / 100) in
  let mp := (5 * doy + 2) / 153 in
  (yoe, if mp <? 10 then mp + 3 else mp - 9, doy - (153 * mp + 2) / 5 + 1).
Definition day_ok (doe : Z) : bool :=
  let '(yoe, m, d) := civil_of_day doe in
  (0 <=? yoe) && (yoe <? 400) && (1 <=? m) && (m <=? 12) && (1 <=? d) && (d <=? 31)
  && (yoe * 365 + yoe / 4 - yoe / 100 + ((153 * ((m + 9) mod 12) + 2) / 5 + d - 1) =? doe).
Fixpoint all_from (n : nat) (z : Z) (P : Z -> bool) : bool :=
  match n with O => true | S n => P z && all_from n (z + 1) P end.
Lemma all_from_spec n z P k : all_from n z P = true -> z <= k < z + Z.of_nat n -> P k = true.
Proof.
  revert z. induction n as [|n IH]; intros z; [lia|]. cbn [all_from]. intros [H1 H2]%andb_true_iff Hk.
  destruct (decide (k = z)) as [->|]; [done|]. apply (IH (z + 1)); [done|lia].
Qed.
Definition period_days : nat := Z.to_nat 146097.
Lemma period_all : all_from period_days 0 day_ok = true.
Proof. vm_compute. reflexivity. Qed.
Lemma period_ok doe : 0 <= doe < 146097 -> day_ok doe = true.
Proof.
  intros H. apply (all_from_spec period_days 0 _ _ period_all). unfold period_days.
  rewrite Z2Nat.id by lia. lia.
Qed.

Lemma civil_of_days_period z : civil_of_days z =
  let '(yoe, m, d) := civil_of_day ((z + 719468) mod 146097) in
  (yoe + (z + 719468) / 146097 * 400 + (if m <=? 2 then 1 else 0), m, d).
Proof. reflexivity. Qed.
(** A day and its date determine each other. *)
Lemma days_of_civil_of_days z : let '(y, m, d) := civil_of_days z in
  days_of_civil y m d = z /\ 1 <= m <= 12 /\ 1 <= d <= 31.
Proof.
  rewrite civil_of_days_period. pose proof (period_ok ((z + 719468) mod 146097) (Z.mod_pos_bound (z + 719468) 146097 ltac:(lia))) as H.
  unfold day_ok in H. destruct (civil_of_day ((z + 719468) mod 146097)) as [[yoe m] d]. to_prop.
  split; [|lia]. unfold days_of_civil.
  set (era := (z + 719468) / 146097) in *.
  replace (if m <=? 2 then yoe + era * 400 + (if m <=? 2 then 1 else 0) - 1
           else yoe + era * 400 + (if m <=? 2 then 1 else 0)) with (yoe + era * 400) by (destruct (m <=? 2); lia).
  rewrite Z.mod_add, Z.div_add by lia. rewrite (Z.mod_small yoe), (Z.div_small yoe) by lia.
  match goal with H : (_ =? _) = true |- _ => apply Z.eqb_eq in H end.
  pose proof (Z.div_mod (z + 719468) 146097 ltac:(lia)) as Hd. fold era in Hd. lia.
Qed.

(** The number decimal digits denote, and [datetime.fromisoformat] on the texts [isoformat] writes
    for instants in UTC; other texts are its [ValueError]. *)
Fixpoint dec_value (acc : N) (s : string) : N :=
  match s with EmptyString => acc | String c s => dec_value (acc * 10 + (code c - 48)) s end.
Definition field (start len : nat) (s : string) : Z := Z.of_N (dec_value 0 (take_s len (drop_s start s))).
Definition instant_of (s : string) : Time :=
  days_of_civil (field 0 4 s) (field 5 2 s) (field 8 2 s) * days 1
  + seconds (field 11 2 s * 3600 + field 14 2 s * 60 + field 17 2 s)
  + (if take_s 1 (drop_s 19 s) == "." then field 20 6 s else 0).
Definition fromisoformat (s : string) : option Time :=
  let t := instant_of s in if isoformat t == s then Some t else None.

Lemma dec_value_digits w n acc : dec_value acc (dec_digits w n "") = (acc * 10 ^ N.of_nat w + n mod 10 ^ N.of_nat w)%N.
Proof.
  assert (H : forall w n rest acc, dec_value acc (dec_digits w n rest)
    = dec_value (acc * 10 ^ N.of_nat w + n mod 10 ^ N.of_nat w) rest).
  { clear. induction w as [|w IH]; intros n rest acc; cbn [dec_digits].
    - change (10 ^ N.of_nat 0)%N with 1%N. rewrite N.mod_1_r. f_equal. lia.
    - rewrite IH. cbn [dec_value]. f_equal.
      assert (Hc : code (ascii_of_N (48 + n mod 10)) = (48 + n mod 10)%N).
      { apply N_ascii_embedding. pose proof (N.mod_lt n 10 ltac:(lia)). lia. }
      rewrite Hc. replace (N.of_nat (S w)) with (N.succ (N.of_nat w)) by lia. rewrite N.pow_succ_r'.
      rewrite (N.Div0.mod_mul_r n 10 (10 ^ N.of_nat w)), (N.add_comm 48), N.add_sub. ring. }
  by rewrite H.
Qed.
Lemma field_digits w n : 0 <= n < 10 ^ Z.of_nat w -> Z.of_N (dec_value 0 (dec_digits w (Z.to_N n) "")) = n.
Proof.
  intros H. rewrite dec_value_digits, N.mul_0_l, N.add_0_l, N.mod_small; [lia|].
  apply N2Z.inj_lt. rewrite N2Z.inj_pow, Z2N.id, nat_N_Z by lia. change (Z.of_N 10) with 10. lia.
Qed.
Lemma day_split t : t = t / days 1 * days 1
  + seconds (t mod days 1 / second / 3600 * 3600 + (t mod days 1 / second / 60) mod 60 * 60 + (t mod days 1 / second) mod 60)
  + t mod second.
Proof.
  change (days 1) with (86400 * 1000000). unfold seconds, second.
  Z.to_euclidean_division_equations. lia.
Qed.
(** The four digits of the year bound the instants [isoformat] writes in full. *)
Lemma fromisoformat_isoformat t : 0 <= (civil_of_days (t / days 1)).1.1 < 10000 -> fromisoformat (isoformat t) = Some t.
Proof.
  intros Hy. unfold fromisoformat.
  assert (Hi : instant_of (isoformat t) = t); [|by rewrite Hi, eqb_refl].
  pose proof (days_of_civil_of_days (t / days 1)) as Hd. unfold isoformat.
  destruct (civil_of_days (t / days 1)) as [[y m] d]. cbn [fst] in Hy. destruct Hd as (Hd & Hm & Hdd).
  pose proof (day_split t) as Ht. cbv zeta.
  set (s := t mod days 1 / second) in *.
  assert (Hs : 0 <= s < 86400).
  { unfold s. pose proof (Z.mod_pos_bound t (days 1) eq_refl). split; [apply Z.div_pos; [lia|done]|].
    apply Z.div_lt_upper_bound; [done|]. change (days 1) with (86400 * 1000000) in *. unfold second. lia. }
  assert (Hh : 0 <= s / 3600 < 100) by (split; [apply Z.div_pos; lia|apply Z.div_lt_upper_bound; lia]).
  pose proof (Z.mod_pos_bound (s / 60) 60 eq_refl). pose proof (Z.mod_pos_bound s 60 eq_refl).
  pose proof (Z.mod_pos_bound t second eq_refl) as Hus. unfold second in Hus.
  assert (Hf : forall tail, (if take_s 1 tail == "." then field 1 6 tail else 0) = t mod second ->
    instant_of (dec_digits 4 (Z.to_N y) "" +:+ "-" +:+ dec_digits 2 (Z.to_N m) "" +:+ "-" +:+ dec_digits 2 (Z.to_N d) ""
      +:+ "T" +:+ dec_digits 2 (Z.to_N (s / 3600)) "" +:+ ":" +:+ dec_digits 2 (Z.to_N ((s / 60) mod 60)) ""
      +:+ ":" +:+ dec_digits 2 (Z.to_N (s mod 60)) "" +:+ tail) = t).
  { intros tail Htail. unfold instant_of.
    change (field 0 4 _) with (Z.of_N (dec_value 0 (dec_digits 4 (Z.to_N y) ""))).
    change (field 5 2 _) with (Z.of_N (dec_value 0 (dec_digits 2 (Z.to_N m) ""))).
    change (field 8 2 _) with (Z.of_N (dec_value 0 (dec_digits 2 (Z.to_N d) ""))).
    change (field 11 2 _) with (Z.of_N (dec_value 0 (dec_digits 2 (Z.to_N (s / 3600)) ""))).
    change (field 14 2 _) with (Z.of_N (dec_value 0 (dec_digits 2 (Z.to_N ((s / 60) mod 60)) ""))).
    change (field 17 2 _) with (Z.of_N (dec_value 0 (dec_digits 2 (Z.to_N (s mod 60)) ""))).
    change (field 20 6 _) with (field 1 6 tail). change (take_s 1 (drop_s 19 _)) with (take_s 1 tail).
    rewrite !field_digits by (try exact Hy; change (10 ^ Z.of_nat 2) with 100; lia). rewrite Hd, Htail. by symmetry. }
  apply Hf. destruct (t mod second =? 0) eqn:Eus; [by apply Z.eqb_eq in Eus|].
  change (field 1 6 _) with (Z.of_N (dec_value 0 (dec_digits 6 (Z.to_N (t mod second)) ""))).
  rewrite field_digits; [done|]. exact Hus.
Qed.

Lemma take_s_app a b n : String.length a = n -> take_s n (a +:+ b) = a.
Proof. intros <-. induction a as [|c a IH]; cbn; [done|]. by rewrite IH. Qed.
Lemma drop_s_app a b n : String.length a = n -> drop_s n (a +:+ b) = b.
Proof. intros <-. induction a as [|c a IH]; cbn; [done|]. by rewrite IH. Qed.

(** ** Patterns of the source *)

(** [re.sub(r"[\s()-]", "", value)]. *)
Definition is_phone_noise (c : ascii) : bool :=
  is_space c || (c == "("%char) || (c == ")"%char) || (c == "-"%char).
(** [re.fullmatch(r"\+[1-9]\d{7,14}", value)]. *)
Definition matches_e164 (s : string) : bool :=
  match s with
  | String p (String c t) =>
    (p == "+"%char) && is_digit c && (c != "0"%char)
    && str_all is_digit t && (7 <=? String.length t)%nat && (String.length t <=? 14)%nat
  | _ => false
  end.
(** [re.fullmatch(r"\d{6}", value)]. *)
Definition matches_six_digits (s : string) : bool := str_all is_digit s && (String.length s =? 6)%nat.

(** [sorted(set)] on texts: code points order them. *)
Fixpoint insert_text (s : string) (l : list string) : list string :=
  match l with
  | [] => [s]
  | x :: l' => match String.compare s x with Lt => s :: l | Eq => l | Gt => x :: insert_text s l' end
  end.
Definition sorted_set (l : list string) : list string := List.fold_right insert_text [] l.
Definition text_lt (a b : string) : Prop := String.compare a b = Lt.

Lemma elem_of_insert_text s l x : x ∈ insert_text s l <-> x = s \/ x ∈ l.
Proof.
  induction l as [|y l IH]; cbn; [rewrite list_elem_of_singleton, elem_of_nil; tauto|].
  destruct (String.compare s y) eqn:Ec.
  - apply String.compare_eq_iff in Ec as ->. rewrite elem_of_cons. tauto.
  - by rewrite (elem_of_cons (y :: l)).
  - rewrite !elem_of_cons, IH. tauto.
Qed.
Lemma elem_of_sorted_set l x : x ∈ sorted_set l <-> x ∈ l.
Proof. induction l as [|y l IH]; cbn; [done|]. by rewrite elem_of_insert_text, elem_of_cons, IH. Qed.
Lemma insert_text_sorted s l : Sorted text_lt l -> Sorted text_lt (insert_text s l).
Proof.
  induction 1 as [|y l Hs IH Hd]; cbn; [by repeat constructor|].
  destruct (String.compare s y) eqn:Ec; [by constructor|by repeat constructor|].
  constructor; [done|]. assert (Hy : text_lt y s) by (unfold text_lt; by rewrite String.compare_antisym, Ec).
  destruct l as [|z l]; cbn in *; [by constructor|]. inversion Hd; subst.
  destruct (String.compare s z); by constructor.
Qed.
Lemma sorted_set_sorted l : Sorted text_lt (sorted_set l).
Proof. induction l; cbn; [constructor|]. by apply insert_text_sorted. Qed.

(** [text.split()]. *)
Fixpoint split_words (word : string) (s : string) : list string :=
  match s with
  | EmptyString => match word with EmptyString => [] | _ => [word] end
  | String c s =>
    if is_space c
    then match word with EmptyString => split_words "" s | _ => word :: split_words "" s end
    else split_words (word +:+ String c "") s
  end.
Definition split (s : string) : list string := split_words "" s.
(** [re.sub(r"[^a-z0-9]+", "-", text)]; [in_run] says that the character before matched. *)
Definition is_slug_char (c : ascii) : bool := is_digit c || is_lower c.
Fixpoint dash_runs (in_run : bool) (s : string) : string :=
  match s with
  | EmptyString => EmptyString
  | String c s =>
    if is_slug_char c then String c (dash_runs false s)
    else if in_run then dash_runs true s else String "-" (dash_runs true s)
  end.
Definition is_dash (c : ascii) : bool := c == "-"%char.
(** [text.strip("-")]. *)
Definition strip_dashes (s : string) : string := rstrip is_dash (drop_while is_dash s).
(** [re.sub(r"[^a-z0-9]+", "-", text.lower()).strip("-")[:70]]. *)
Definition slug_of (s : string) : string := take_s 70 (strip_dashes (dash_runs false (casefold s))).
Example slug_1 : slug_of " Müller & Söhne, Ltd. (2) " = "m-ller-s-hne-ltd-2".
Proof. reflexivity. Qed.
Example split_1 : split "  two   words " = ["two"; "words"].
Proof. reflexivity. Qed.
(** The text up to the first separator and what follows it: [text.partition("@")]. *)
Fixpoint partition_at (c : ascii) (s : string) : string * string :=
  match s with
  | EmptyString => (EmptyString, EmptyString)
  | String d s => if d == c then (EmptyString, s) else let '(a, b) := partition_at c s in (String d a, b)
  end.

(** [needle in text]. *)
Fixpoint contains (needle s : string) : bool :=
  String.prefix needle s || match s with EmptyString => false | String _ s => contains needle s end.

(** ** JSON values

    The text produced by [json.dumps] and read back by [json.loads] is represented by the
    value it denotes; a dict is the list of its items in insertion order. *)

Inductive json :=
| JNull
| JBool (b : bool)
| JNum (n : Z)
| JStr (s : string)
| JList (l : list json)
| JObj (l : list (string * json)).

(** Decidable equality goes through the induction principle the nesting needs. *)
Fixpoint json_eqb (a b : json) : bool :=
  match a, b with
  | JNull, JNull => true
  | JBool x, JBool y => Bool.eqb x y
  | JNum x, JNum y => Z.eqb x y
  | JStr x, JStr y => String.eqb x y
  | JList l, JList m =>
    (fix go (l m : list json) : bool :=
       match l, m with
       | [], [] => true
       | x :: l, y :: m => json_eqb x y && go l m
       | _, _ => false
       end) l m
  | JObj l, JObj m =>
    (fix go (l m : list (string * json)) : bool :=
       match l, m with
       | [], [] => true
       | (k, x) :: l, (k', y) :: m => String.eqb k k' && json_eqb x y && go l m
       | _, _ => false
       end) l m
  | _, _ => false
  end.
Lemma json_eqb_spec a b : json_eqb a b = true <-> a = b.
Proof.
  revert a b. fix IH 1. intros [| x | x | x | l | l] [| y | y | y | m | m]; cbn;
    try (by split; intros; discriminate); try done.
  - rewrite Bool.eqb_true_iff. split; congruence.
  - rewrite Z.eqb_eq. split; congruence.
  - rewrite String.eqb_eq. split; congruence.
  - revert m. induction l as [|x l IHl]; intros [|y m]; try (by split; intros; discriminate); [done|].
    rewrite andb_true_iff, IH, IHl. split; [intros [-> [= ->]]; done|]. by intros [= -> ->].
  - revert m. induction l as [|[k x] l IHl]; intros [|[k' y] m];
      try (by split; intros; discriminate); [done|].
    rewrite !andb_true_iff, IH, IHl, String.eqb_eq.
    split; [intros [[-> ->] [= ->]]; done|]. by intros [= -> -> ->].
Qed.
#[export] Instance json_eq_dec : EqDecision json.
Proof.
  intros a b. destruct (json_eqb a b) eqn:E; [left; by apply json_eqb_spec|right].
  intros H. apply json_eqb_spec in H. congruence.
Defined.

Fixpoint assoc {A} (k : string) (l : list (string * A)) : option A :=
  match l with [] => None | (k', v) :: l => if k' == k then Some v else assoc k l end.
Fixpoint assoc_set {A} (k : string) (v : A) (l : list (string * A)) : list (string * A) :=
  match l with
  | [] => [(k, v)]
  | (k', v') :: l => if k' == k then (k', v) :: l else (k', v') :: assoc_set k v l
  end.
(** [payload.update(items)]. *)
Definition assoc_update {A} (l items : list (string * A)) : list (string * A) :=
  List.fold_left (fun acc kv => assoc_set kv.1 kv.2 acc) items l.

Abbreviation dict := (list (string * json)).

(** [payload.get(key)] compared with a string literal. *)
Definition jget (k : string) (d : dict) : option json := assoc k d.
Definition jstr (k : string) (d : dict) : option string :=
  match jget k d with Some (JStr s) => Some s | _ => None end.
Definition jobj (k : string) (d : dict) : option dict :=
  match jget k d with Some (JObj o) => Some o | _ => None end.
(** [str(value)] of a JSON value that is a string; other values have no text here, and
    [UUID(...)] of them is the [ValueError] that [None] stands for. *)
Definition juuid (k : string) (d : dict) : option UUID := s ← jstr k d; uuid_parse s.

Lemma assoc_set_eq {A} k (v : A) l : assoc k (assoc_set k v l) = Some v.
Proof.
  induction l as [|[k' v'] l IH]; cbn.
  - by rewrite eqb_refl.
  - destruct (k' == k) eqn:E; cbn; by rewrite E.
Qed.
Lemma assoc_set_ne {A} k k' (v : A) l : k <> k' -> assoc k' (assoc_set k v l) = assoc k' l.
Proof.
  intros H. induction l as [|[k0 v0] l IH]; cbn.
  - by rewrite eqb_neq.
  - destruct (k0 == k) eqn:E; cbn; [|by rewrite IH]. to_prop. subst. by rewrite eqb_neq.
Qed.
