(* ===== verification/Entity.v ===== *)
(** The domain entities of [auth_core/entity/]: enumerations with the text of their members,
    the frozen dataclasses that the control layer exchanges with its ports, the error
    classes, and the two policies [normalize_email] and [enforce_password_policy]. *)
From S2P Require Import Prelude PyText.

(** ** user.py *)

Inductive UserState := PENDING | ACTIVE | LOCKED | SUSPENDED | DISABLED | ANONYMIZED.
Definition user_state_value (s : UserState) : string :=
  match s with
  | PENDING => "pending" | ACTIVE => "active" | LOCKED => "locked"
  | SUSPENDED => "suspended" | DISABLED => "disabled" | ANONYMIZED => "anonymized"
  end.
(** [UserState(text)]; [None] is its [ValueError]. *)
Definition UserState_of (s : string) : option UserState :=
  List.find (fun u => user_state_value u == s) [PENDING; ACTIVE; LOCKED; SUSPENDED; DISABLED; ANONYMIZED].

Record UserRecord := MkUserRecord {
  ur_user_id : UUID; ur_email : option string; ur_state : UserState; ur_version : Z }.

Definition normalize_email (email : string) : string := casefold (strip email).

(** ** registration.py *)

Inductive RegistrationErrorCode :=
| Reg_CAPTCHA_INVALID | Reg_PASSWORD_BREACHED | Reg_PASSWORD_POLICY | Reg_VERIFICATION_INVALID
| Reg_OTP_INVALID | Reg_RATE_LIMITED | Reg_PROVIDER_UNAVAILABLE.
Definition registration_code_value (c : RegistrationErrorCode) : string :=
  match c with
  | Reg_CAPTCHA_INVALID => "AUTH_CAPTCHA_INVALID"
  | Reg_PASSWORD_BREACHED => "AUTH_PASSWORD_BREACHED"
  | Reg_PASSWORD_POLICY => "AUTH_PASSWORD_POLICY"
  | Reg_VERIFICATION_INVALID => "AUTH_VERIFICATION_INVALID"
  | Reg_OTP_INVALID => "AUTH_OTP_INVALID"
  | Reg_RATE_LIMITED => "AUTH_RATE_LIMITED"
  | Reg_PROVIDER_UNAVAILABLE => "AUTH_PROVIDER_UNAVAILABLE"
  end.
Record PendingContact := MkPendingContact { pc_user_id : UUID; pc_state : string }.
Record RegistrationAccepted := MkRegistrationAccepted { ra_status : string }.
Definition registration_accepted : RegistrationAccepted := MkRegistrationAccepted "accepted".

(** ** login.py *)

Inductive LoginDecisionType := SESSION_READY | MFA_REQUIRED | COLLISION_PROOF_REQUIRED.
Definition decision_value (d : LoginDecisionType) : string :=
  match d with
  | SESSION_READY => "session_ready" | MFA_REQUIRED => "mfa_required"
  | COLLISION_PROOF_REQUIRED => "collision_proof_required"
  end.
Inductive RiskLevel := LOW | MEDIUM | HIGH.
Definition risk_value (r : RiskLevel) : string :=
  match r with LOW => "low" | MEDIUM => "medium" | HIGH => "high" end.
Inductive LoginErrorCode :=
| Login_INVALID_CREDENTIALS | Login_TEMPORARILY_LOCKED | Login_OTP_INVALID | Login_CAPTCHA_INVALID
| Login_WORKFLOW_INVALID | Login_OIDC_INVALID | Login_PROVIDER_UNAVAILABLE.
Definition login_code_value (c : LoginErrorCode) : string :=
  match c with
  | Login_INVALID_CREDENTIALS => "AUTH_INVALID_CREDENTIALS"
  | Login_TEMPORARILY_LOCKED => "AUTH_TEMPORARILY_LOCKED"
  | Login_OTP_INVALID => "AUTH_OTP_INVALID"
  | Login_CAPTCHA_INVALID => "AUTH_CAPTCHA_INVALID"
  | Login_WORKFLOW_INVALID => "AUTH_WORKFLOW_INVALID"
  | Login_OIDC_INVALID => "AUTH_OIDC_INVALID"
  | Login_PROVIDER_UNAVAILABLE => "AUTH_PROVIDER_UNAVAILABLE"
  end.
Record LoginIdentity := MkLoginIdentity {
  li_user_id : UUID; li_state : string; li_password_hash : option string;
  li_verified : bool; li_has_phone : bool }.
Record DeviceSignals := MkDeviceSignals { ds_known : bool; ds_trusted : bool; ds_ip_changed : bool }.
Record LoginDecision := MkLoginDecision {
  ld_decision : LoginDecisionType; ld_risk : RiskLevel; ld_workflow_token : string;
  ld_allowed_methods : list string }.
Record OIDCProfile := MkOIDCProfile {
  op_provider : string; op_subject : string; op_email : string; op_email_verified : bool;
  op_given_name : option string; op_family_name : option string }.

(** ** mfa.py *)

Inductive MFAMethod := TOTP | EMAIL_OTP | SMS_OTP | PASSKEY | BACKUP_CODE.
Definition method_value (m : MFAMethod) : string :=
  match m with
  | TOTP => "totp" | EMAIL_OTP => "email_otp" | SMS_OTP => "sms_otp"
  | PASSKEY => "passkey" | BACKUP_CODE => "backup_code"
  end.
Definition all_methods : list MFAMethod := [TOTP; EMAIL_OTP; SMS_OTP; PASSKEY; BACKUP_CODE].
(** [MFAMethod(text)]; [None] is its [ValueError]. *)
Definition MFAMethod_of (s : string) : option MFAMethod :=
  List.find (fun m => method_value m == s) all_methods.
Inductive MFACompletionType := MFA_SESSION_READY | IDENTITY_LINKED.
Inductive MFAErrorCode :=
| Mfa_WORKFLOW_INVALID | Mfa_METHOD_UNAVAILABLE | Mfa_CHALLENGE_INVALID | Mfa_CODE_INVALID
| Mfa_FACTOR_LOCKED | Mfa_ENROLLMENT_INVALID | Mfa_PASSKEY_INVALID | Mfa_LAST_FACTOR
| Mfa_PROVIDER_UNAVAILABLE.
Definition mfa_code_value (c : MFAErrorCode) : string :=
  match c with
  | Mfa_WORKFLOW_INVALID => "AUTH_MFA_WORKFLOW_INVALID"
  | Mfa_METHOD_UNAVAILABLE => "AUTH_MFA_METHOD_UNAVAILABLE"
  | Mfa_CHALLENGE_INVALID => "AUTH_MFA_CHALLENGE_INVALID"
  | Mfa_CODE_INVALID => "AUTH_MFA_CODE_INVALID"
  | Mfa_FACTOR_LOCKED => "AUTH_MFA_FACTOR_LOCKED"
  | Mfa_ENROLLMENT_INVALID => "AUTH_MFA_ENROLLMENT_INVALID"
  | Mfa_PASSKEY_INVALID => "AUTH_PASSKEY_INVALID"
  | Mfa_LAST_FACTOR => "AUTH_MFA_LAST_FACTOR"
  | Mfa_PROVIDER_UNAVAILABLE => "AUTH_MFA_PROVIDER_UNAVAILABLE"
  end.
Record MFAUserProfile := MkMFAUserProfile {
  mp_user_id : UUID; mp_state : string; mp_email : option string; mp_phone_e164 : option string }.
Record MFAFactor := MkMFAFactor {
  mf_mfa_id : UUID; mf_user_id : UUID; mf_factor_type : string; mf_status : string;
  mf_label : option string; mf_encrypted_secret : option string; mf_last_totp_step : option Z }.
Record MFAFactorSummary := MkMFAFactorSummary {
  ms_mfa_id : UUID; ms_factor_type : string; ms_label : option string }.
Record StoredPasskey := MkStoredPasskey {
  sp_credential_id : string; sp_mfa_id : UUID; sp_user_id : UUID; sp_public_key : string;
  sp_sign_count : Z; sp_transports : list string; sp_backup_eligible : bool; sp_backup_state : bool }.
Record MFAChallenge := MkMFAChallenge {
  mc_challenge_token : string; mc_method : MFAMethod; mc_destination_hint : option string }.
Record TOTPEnrollment := MkTOTPEnrollment {
  te_enrollment_token : string; te_provisioning_uri : string; te_manual_secret : string }.
Record MFACompletion := MkMFACompletion {
  mx_result : MFACompletionType; mx_workflow_token : option string; mx_backup_codes : list string }.
Record PasskeyOptions := MkPasskeyOptions { po_challenge_token : string; po_public_key : dict }.

(** ** session.py *)

Inductive ClientType := WEB | MOBILE.
Definition client_value (c : ClientType) : string :=
  match c with WEB => "WEB" | MOBILE => "MOBILE" end.
(** [ClientType(text)]; [None] is its [ValueError]. *)
Definition ClientType_of (s : string) : option ClientType :=
  List.find (fun c => client_value c == s) [WEB; MOBILE].
Inductive SessionErrorCode :=
| Ses_WORKFLOW_INVALID | Ses_TOKEN_INVALID | Ses_TOKEN_REUSED | Ses_SESSION_EXPIRED
| Ses_SESSION_NOT_FOUND | Ses_CSRF_INVALID | Ses_CLIENT_MISMATCH.
Definition session_code_value (c : SessionErrorCode) : string :=
  match c with
  | Ses_WORKFLOW_INVALID => "AUTH_SESSION_WORKFLOW_INVALID"
  | Ses_TOKEN_INVALID => "AUTH_TOKEN_INVALID"
  | Ses_TOKEN_REUSED => "AUTH_TOKEN_REUSED"
  | Ses_SESSION_EXPIRED => "AUTH_SESSION_EXPIRED"
  | Ses_SESSION_NOT_FOUND => "AUTH_SESSION_NOT_FOUND"
  | Ses_CSRF_INVALID => "AUTH_CSRF_INVALID"
  | Ses_CLIENT_MISMATCH => "AUTH_CLIENT_MISMATCH"
  end.
Inductive RotationStatus := Rot_ROTATED | Rot_INVALID | Rot_REUSED | Rot_EXPIRED | Rot_CLIENT_MISMATCH.
Record AccessClaims := MkAccessClaims {
  ac_user_id : UUID; ac_session_id : UUID; ac_family_id : UUID; ac_jti : UUID;
  ac_issued_at : Time; ac_expires_at : Time; ac_client_type : ClientType;
  ac_assurance : list string; ac_workspace_id : option UUID; ac_workspace_type : option string;
  ac_roles : list string }.
Record TokenPair := MkTokenPair {
  tp_access_token : string; tp_refresh_token : string; tp_access_expires_at : Time;
  tp_refresh_expires_at : Time; tp_session_id : UUID; tp_csrf_token : option string }.
Record SessionRecord := MkSessionRecord {
  sr_session_id : UUID; sr_family_id : UUID; sr_user_id : UUID; sr_access_jti : UUID;
  sr_client_type : ClientType; sr_device_fingerprint_hash : string; sr_ip_address : option string;
  sr_created_at : Time; sr_last_activity_at : Time; sr_expires_at : Time; sr_revoked_at : option Time }.
Record SessionSummary := MkSessionSummary {
  ss_session_id : UUID; ss_client_type : ClientType; ss_device_hint : string;
  ss_ip_address : option string; ss_created_at : Time; ss_last_activity_at : Time;
  ss_expires_at : Time; ss_current : bool }.
Record RevocationResult := MkRevocationResult {
  rv_user_id : UUID; rv_family_id : UUID; rv_access_jti : UUID }.
Record CreatedSession := MkCreatedSession {
  cs_record : SessionRecord; cs_evicted : list RevocationResult }.
Record RotationResult := MkRotationResult {
  rr_status : RotationStatus; rr_record : option SessionRecord; rr_revoked : option RevocationResult }.
#[export] Instance eta_SessionSummary : Eta SessionSummary := fun r =>
  MkSessionSummary (ss_session_id r) (ss_client_type r) (ss_device_hint r) (ss_ip_address r)
    (ss_created_at r) (ss_last_activity_at r) (ss_expires_at r) (ss_current r).

(** ** recovery.py *)

Inductive RecoveryErrorCode :=
| Rec_TOKEN_INVALID | Rec_PASSWORD_REUSED | Rec_PASSWORD_POLICY | Rec_PASSWORD_BREACHED
| Rec_RATE_LIMITED | Rec_PROVIDER_UNAVAILABLE | Rec_CONTACT_INVALID | Rec_CONTACT_CONFLICT
| Rec_RECENT_MFA_REQUIRED | Rec_STAFF_FORBIDDEN | Rec_TARGET_NOT_FOUND | Rec_GOVERNED_INVALID
| Rec_FOUR_EYES_REQUIRED | Rec_GOVERNED_TOO_EARLY | Rec_TARGET_CHANGED.
Definition recovery_code_value (c : RecoveryErrorCode) : string :=
  match c with
  | Rec_TOKEN_INVALID => "AUTH_RECOVERY_TOKEN_INVALID"
  | Rec_PASSWORD_REUSED => "AUTH_PASSWORD_REUSED"
  | Rec_PASSWORD_POLICY => "AUTH_PASSWORD_POLICY"
  | Rec_PASSWORD_BREACHED => "AUTH_PASSWORD_BREACHED"
  | Rec_RATE_LIMITED => "AUTH_RECOVERY_RATE_LIMITED"
  | Rec_PROVIDER_UNAVAILABLE => "AUTH_PROVIDER_UNAVAILABLE"
  | Rec_CONTACT_INVALID => "AUTH_CONTACT_CHANGE_INVALID"
  | Rec_CONTACT_CONFLICT => "AUTH_CONTACT_CONFLICT"
  | Rec_RECENT_MFA_REQUIRED => "AUTH_RECENT_MFA_REQUIRED"
  | Rec_STAFF_FORBIDDEN => "AUTH_STAFF_FORBIDDEN"
  | Rec_TARGET_NOT_FOUND => "AUTH_TARGET_NOT_FOUND"
  | Rec_GOVERNED_INVALID => "AUTH_GOVERNED_REQUEST_INVALID"
  | Rec_FOUR_EYES_REQUIRED => "AUTH_FOUR_EYES_REQUIRED"
  | Rec_GOVERNED_TOO_EARLY => "AUTH_GOVERNED_TOO_EARLY"
  | Rec_TARGET_CHANGED => "AUTH_GOVERNED_TARGET_CHANGED"
  end.
Inductive PasswordResetOutcome := UPDATED | INVALID | REUSED.
Inductive ContactType := EMAIL | PHONE.
Definition contact_value (c : ContactType) : string :=
  match c with EMAIL => "email" | PHONE => "phone" end.
Definition ContactType_of (s : string) : option ContactType :=
  List.find (fun c => contact_value c == s) [EMAIL; PHONE].
Inductive ContactProof := OLD | NEW.
Inductive StaffRole := SUPPORT_AGENT_L2 | SECURITY_SUPERVISOR_L3 | ACCOUNT_ADMIN.
Definition staff_value (r : StaffRole) : string :=
  match r with
  | SUPPORT_AGENT_L2 => "SUPPORT_AGENT_L2"
  | SECURITY_SUPERVISOR_L3 => "SECURITY_SUPERVISOR_L3"
  | ACCOUNT_ADMIN => "ACCOUNT_ADMIN"
  end.
Record RecoveryUser := MkRecoveryUser {
  ru_user_id : UUID; ru_email : option string; ru_phone_e164 : option string;
  ru_state : string; ru_version : Z }.
Record ContactChangeRecord := MkContactChangeRecord {
  cc_request_id : UUID; cc_user_id : UUID; cc_contact_type : ContactType; cc_old_value : string;
  cc_new_value : string; cc_expires_at : Time; cc_old_verified_at : option Time;
  cc_new_verified_at : option Time; cc_applied_at : option Time }.
Record GovernedResetRecord := MkGovernedResetRecord {
  gr_request_id : UUID; gr_target_user_id : UUID; gr_initiator_user_id : UUID;
  gr_approver_user_id : option UUID; gr_state : string; gr_initiated_at : Time;
  gr_execute_after : Time; gr_approved_at : option Time; gr_executed_at : option Time;
  gr_ticket_reference : option string }.

(** ** workspace.py *)

Inductive WorkspaceType := PERSONAL | ORGANIZATION.
Definition workspace_type_value (t : WorkspaceType) : string :=
  match t with PERSONAL => "personal" | ORGANIZATION => "organization" end.
Record WorkspaceSummary := MkWorkspaceSummary {
  ws_workspace_id : UUID; ws_name : string; ws_slug : string; ws_workspace_type : WorkspaceType;
  ws_roles : list string }.

Inductive WorkspaceErrorCode :=
| Ws_FORBIDDEN | Ws_NOT_FOUND | Ws_INVALID | Ws_REFERRAL_INELIGIBLE | Ws_RATE_LIMITED
| Ws_PROVIDER_UNAVAILABLE | Ws_INVITATION_INVALID | Ws_MEMBER_NOT_FOUND | Ws_LAST_OWNER.
Definition workspace_code_value (c : WorkspaceErrorCode) : string :=
  match c with
  | Ws_FORBIDDEN => "AUTH_WORKSPACE_FORBIDDEN"
  | Ws_NOT_FOUND => "AUTH_WORKSPACE_NOT_FOUND"
  | Ws_INVALID => "AUTH_WORKSPACE_INVALID"
  | Ws_REFERRAL_INELIGIBLE => "AUTH_REFERRAL_INELIGIBLE"
  | Ws_RATE_LIMITED => "AUTH_REFERRAL_RATE_LIMITED"
  | Ws_PROVIDER_UNAVAILABLE => "AUTH_PROVIDER_UNAVAILABLE"
  | Ws_INVITATION_INVALID => "AUTH_INVITATION_INVALID"
  | Ws_MEMBER_NOT_FOUND => "AUTH_MEMBER_NOT_FOUND"
  | Ws_LAST_OWNER => "AUTH_LAST_OWNER_REQUIRED"
  end.
(** [WorkspaceType(text)]; [None] is its [ValueError]. *)
Definition WorkspaceType_of (s : string) : option WorkspaceType :=
  List.find (fun t => workspace_type_value t == s) [PERSONAL; ORGANIZATION].
Record ReferralRecord := MkReferralRecord {
  rr_referral_id : UUID; rr_invitee_email : string; rr_state : string; rr_created_at : Time;
  rr_expires_at : Time; rr_registered_at : option Time; rr_verified_at : option Time }.
Inductive ReferralEligibility := ELIGIBLE | SELF | EXISTING_USER.
Inductive OrganizationRole := OWNER | MEMBER | VIEWER.
Definition role_value (r : OrganizationRole) : string :=
  match r with OWNER => "OWNER" | MEMBER => "MEMBER" | VIEWER => "VIEWER" end.
(** [OrganizationRole(text)]; [None] is its [ValueError]. *)
Definition OrganizationRole_of (s : string) : option OrganizationRole :=
  List.find (fun r => role_value r == s) [OWNER; MEMBER; VIEWER].
Record InvitationRecord := MkInvitationRecord {
  ir_invitation_id : UUID; ir_workspace_id : UUID; ir_invitee_email : string;
  ir_role : OrganizationRole; ir_state : string; ir_created_at : Time; ir_expires_at : Time }.
Record MemberSummary := MkMemberSummary {
  mm_user_id : UUID; mm_email : option string; mm_given_name : option string;
  mm_family_name : option string; mm_roles : list OrganizationRole }.
Record OffboardResult := MkOffboardResult { or_user_id : UUID; or_revoked_access_jtis : list UUID }.

(** ** privacy.py *)

Inductive PrivacyErrorCode :=
| Priv_RECENT_MFA_REQUIRED | Priv_AUDIT_FORBIDDEN | Priv_AUDIT_CURSOR_INVALID | Priv_REQUEST_NOT_FOUND
| Priv_EXPORT_UNAVAILABLE | Priv_EXPORT_INTEGRITY_FAILED | Priv_OWNERSHIP_TRANSFER_REQUIRED
| Priv_ERASURE_FAILED.
Definition privacy_code_value (c : PrivacyErrorCode) : string :=
  match c with
  | Priv_RECENT_MFA_REQUIRED => "AUTH_RECENT_MFA_REQUIRED"
  | Priv_AUDIT_FORBIDDEN => "AUTH_AUDIT_FORBIDDEN"
  | Priv_AUDIT_CURSOR_INVALID => "AUTH_AUDIT_CURSOR_INVALID"
  | Priv_REQUEST_NOT_FOUND => "AUTH_PRIVACY_REQUEST_NOT_FOUND"
  | Priv_EXPORT_UNAVAILABLE => "AUTH_PRIVACY_EXPORT_UNAVAILABLE"
  | Priv_EXPORT_INTEGRITY_FAILED => "AUTH_PRIVACY_EXPORT_INTEGRITY_FAILED"
  | Priv_OWNERSHIP_TRANSFER_REQUIRED => "AUTH_PRIVACY_OWNERSHIP_TRANSFER_REQUIRED"
  | Priv_ERASURE_FAILED => "AUTH_PRIVACY_ERASURE_FAILED"
  end.
Record AuditSearchFilter := MkAuditSearchFilter {
  af_subject_user_id : option UUID; af_event_type : option string; af_outcome : option string;
  af_occurred_from : option Time; af_occurred_to : option Time }.
Record AuditRecord := MkAuditRecord {
  au_audit_id : UUID; au_actor_user_id : option UUID; au_subject_user_id : option UUID;
  au_org_id : option UUID; au_event_type : string; au_outcome : string; au_correlation_id : UUID;
  au_metadata : dict; au_occurred_at : Time }.
Record AuditPage := MkAuditPage { ap_items : list AuditRecord; ap_next_cursor : option string }.
Record PrivacyRequestRecord := MkPrivacyRequestRecord {
  pr_request_id : UUID; pr_user_id : UUID; pr_request_type : string; pr_state : string;
  pr_requested_at : Time; pr_completed_at : option Time; pr_artifact_expires_at : option Time;
  pr_failure_code : option string; pr_backup_purge_due_at : option Time }.
Record EncryptedExportArtifact := MkEncryptedExportArtifact {
  ea_request_id : UUID; ea_encrypted_content : string; ea_content_digest : string; ea_expires_at : Time }.
Record ExportDownload := MkExportDownload {
  ed_request_id : UUID; ed_content : string; ed_expires_at : Time }.

(** ** Decidable equality *)

#[export] Instance UserState_eq : EqDecision UserState. Proof. solve_decision. Defined.
#[export] Instance RegistrationErrorCode_eq : EqDecision RegistrationErrorCode. Proof. solve_decision. Defined.
#[export] Instance LoginDecisionType_eq : EqDecision LoginDecisionType. Proof. solve_decision. Defined.
#[export] Instance RiskLevel_eq : EqDecision RiskLevel. Proof. solve_decision. Defined.
#[export] Instance LoginErrorCode_eq : EqDecision LoginErrorCode. Proof. solve_decision. Defined.
#[export] Instance MFAMethod_eq : EqDecision MFAMethod. Proof. solve_decision. Defined.
#[export] Instance MFAErrorCode_eq : EqDecision MFAErrorCode. Proof. solve_decision. Defined.
#[export] Instance ClientType_eq : EqDecision ClientType. Proof. solve_decision. Defined.
#[export] Instance SessionErrorCode_eq : EqDecision SessionErrorCode. Proof. solve_decision. Defined.
#[export] Instance RotationStatus_eq : EqDecision RotationStatus. Proof. solve_decision. Defined.
#[export] Instance RevocationResult_eq : EqDecision RevocationResult. Proof. solve_decision. Defined.
#[export] Instance RecoveryErrorCode_eq : EqDecision RecoveryErrorCode. Proof. solve_decision. Defined.
#[export] Instance PasswordResetOutcome_eq : EqDecision PasswordResetOutcome. Proof. solve_decision. Defined.
#[export] Instance ContactType_eq : EqDecision ContactType. Proof. solve_decision. Defined.
#[export] Instance ContactProof_eq : EqDecision ContactProof. Proof. solve_decision. Defined.
#[export] Instance StaffRole_eq : EqDecision StaffRole. Proof. solve_decision. Defined.
#[export] Instance WorkspaceType_eq : EqDecision WorkspaceType. Proof. solve_decision. Defined.
#[export] Instance WorkspaceErrorCode_eq : EqDecision WorkspaceErrorCode. Proof. solve_decision. Defined.
#[export] Instance PrivacyErrorCode_eq : EqDecision PrivacyErrorCode. Proof. solve_decision. Defined.
#[export] Instance ReferralEligibility_eq : EqDecision ReferralEligibility. Proof. solve_decision. Defined.
#[export] Instance OrganizationRole_eq : EqDecision OrganizationRole. Proof. solve_decision. Defined.

(** The members of an enumeration are recovered from their text. *)
Lemma ClientType_of_value c : ClientType_of (client_value c) = Some c.
Proof. by destruct c. Qed.
Lemma MFAMethod_of_value m : MFAMethod_of (method_value m) = Some m.
Proof. by destruct m. Qed.
Lemma ContactType_of_value c : ContactType_of (contact_value c) = Some c.
Proof. by destruct c. Qed.
Lemma OrganizationRole_of_value r : OrganizationRole_of (role_value r) = Some r.
Proof. by destruct r. Qed.
Lemma OrganizationRole_of_inv s r : OrganizationRole_of s = Some r -> s = role_value r.
Proof. intros [_ H]%find_some. by apply bool_decide_eq_true in H. Qed.
Lemma WorkspaceType_of_value t : WorkspaceType_of (workspace_type_value t) = Some t.
Proof. by destruct t. Qed.
Lemma UserState_of_value s : UserState_of (user_state_value s) = Some s.
Proof. by destruct s. Qed.
Lemma client_value_inj c d : client_value c = client_value d -> c = d.
Proof. by destruct c, d. Qed.

(** ** Exceptions

    The exception classes of the service, and the ones of the standard library and of the
    database driver that its handlers meet.  [ResponseError] is the refusal of a Redis command,
    [ProviderFailure] any exception raised by an external provider. *)

Inductive exc :=
| RegistrationError (code : RegistrationErrorCode) (message : string) (status_code : Z)
| LoginError (code : LoginErrorCode) (message : string) (status_code : Z)
| MFAError (code : MFAErrorCode) (message : string) (status_code : Z)
| SessionError (code : SessionErrorCode) (message : string) (status_code : Z)
| RecoveryError (code : RecoveryErrorCode) (message : string) (status_code : Z)
| WorkspaceError (code : WorkspaceErrorCode) (message : string) (status_code : Z)
| LastOwnerError
| PrivacyError (code : PrivacyErrorCode) (message : string) (status_code : Z)
| DuplicateContactError
| ValueError
| KeyError
| LookupError
| RuntimeError
| IntegrityError
| MultipleResultsFound
| ResponseError
| ProviderFailure.

#[export] Instance exc_eq : EqDecision exc. Proof. solve_decision. Defined.

(** ** password_policy.py *)

Definition enforce_password_policy (password : string) : option exc :=
  if (String.length password <? 12)%nat || (128 <? String.length password)%nat then
    Some (RegistrationError Reg_PASSWORD_POLICY "Use a password between 12 and 128 characters." 400)
  else None.

(** [normalize_email] is idempotent: a normalised address is its own normal form, so lookups
    by a stored address and by the address a user types agree. *)
Lemma normalize_email_idem email : normalize_email (normalize_email email) = normalize_email email.
Proof.
  unfold normalize_email. rewrite strip_casefold. unfold casefold at 1.
  rewrite str_map_idem by apply to_lower_idem. by rewrite strip_idem.
Qed.
