(* ===== verification/Models.v ===== *)
(** The tables of [infrastructure/persistence/models.py].

    A row is a record with the columns of its model, a table the list of its rows in insertion
    order, [Db] the whole schema.  [X_valid] is the conjunction of the CHECK constraints of
    table X, [X_conflict] says that a new row would break a primary key or a unique index; an
    INSERT for which either fails raises [IntegrityError].  The key of an audit row, which nothing
    looks up, is taken to be fresh.  The column [updated_at] and the two
    tables no code touches (outbox events, idempotency records) are left out.  What the classes of
    models.py declare, every column and constraint of every table, is in Metadata. *)
From S2P Require Import Prelude PyText Entity.

(** [email] and [invitee_email] are CITEXT columns: equality ignores case. *)
Definition citext_eq (a b : string) : bool := casefold a == casefold b.
Definition opt_citext_eq (a : option string) (b : string) : bool :=
  match a with Some a => citext_eq a b | None => false end.

Record User := MkUser {
  u_user_id : UUID; u_email : option string; u_given_name : option string;
  u_family_name : option string; u_phone_e164 : option string; u_state : string; u_version : Z;
  u_anonymized_at : option Time; u_created_at : Time }.
Definition user_valid (r : User) : bool :=
  (u_state r is_in ["pending"; "active"; "locked"; "suspended"; "disabled"; "anonymized"])
  && (1 <=? u_version r).
(** The partial unique indexes [uq_users_email_active] and [uq_users_phone_active]. *)
Definition user_clash (r s : User) : bool :=
  is_none (u_anonymized_at r) && is_none (u_anonymized_at s)
  && (match u_email r, u_email s with Some a, Some b => citext_eq a b | _, _ => false end
      || match u_phone_e164 r, u_phone_e164 s with Some a, Some b => a == b | _, _ => false end).
Definition user_conflict (t : list User) (r : User) : bool :=
  row_exists (fun s => (u_user_id s == u_user_id r) || user_clash r s) t.

Record Identity := MkIdentity {
  i_identity_id : UUID; i_user_id : UUID; i_provider : string; i_provider_subject : string;
  i_password_hash : option string; i_verified : bool; i_last_used_at : option Time;
  i_created_at : Time }.
Definition identity_valid (r : Identity) : bool :=
  (i_provider r is_in ["password"; "google"; "apple"; "microsoft"; "phone"])
  && (((i_provider r == "password") && is_some (i_password_hash r))
      || ((i_provider r != "password") && is_none (i_password_hash r))).
Definition identity_conflict (t : list Identity) (r : Identity) : bool :=
  row_exists (fun s => (i_identity_id s == i_identity_id r)
    || ((i_provider s == i_provider r) && (i_provider_subject s == i_provider_subject r))) t.

Record PasswordHistory := MkPasswordHistory {
  ph_history_id : UUID; ph_identity_id : UUID; ph_password_hash : string; ph_created_at : Time }.

Definition password_history_conflict (t : list PasswordHistory) (r : PasswordHistory) : bool :=
  row_exists (fun s => ph_history_id s == ph_history_id r) t.

Record MFADevice := MkMFADevice {
  m_mfa_id : UUID; m_user_id : UUID; m_factor_type : string; m_encrypted_secret : option string;
  m_status : string; m_label : option string; m_verified_at : option Time;
  m_revoked_at : option Time; m_last_totp_step : option Z; m_last_used_at : option Time }.
Definition mfa_device_valid (r : MFADevice) : bool :=
  (m_factor_type r is_in ["totp"; "sms"; "email"; "passkey"; "backup_codes"])
  && (m_status r is_in ["pending"; "active"; "revoked"])
  && (((m_factor_type r is_in ["totp"; "backup_codes"]) && is_some (m_encrypted_secret r))
      || (negb (m_factor_type r is_in ["totp"; "backup_codes"]) && is_none (m_encrypted_secret r))).

Definition mfa_device_conflict (t : list MFADevice) (r : MFADevice) : bool :=
  row_exists (fun s => m_mfa_id s == m_mfa_id r) t.

Record WebAuthnCredential := MkWebAuthnCredential {
  w_credential_id : string; w_mfa_id : UUID; w_public_key : string; w_sign_count : Z;
  w_transports : list string; w_backup_eligible : bool; w_backup_state : bool }.
Definition webauthn_conflict (t : list WebAuthnCredential) (r : WebAuthnCredential) : bool :=
  row_exists (fun s => (w_credential_id s == w_credential_id r) || (w_mfa_id s == w_mfa_id r)) t.

Record RefreshTokenFamily := MkFamily {
  f_family_id : UUID; f_user_id : UUID; f_device_fingerprint_hash : string; f_client_id : string;
  f_created_at : Time; f_absolute_expires_at : Time; f_revoked_at : option Time;
  f_revocation_reason : option string }.
Definition family_valid (r : RefreshTokenFamily) : bool := f_created_at r <? f_absolute_expires_at r.
Definition family_conflict (t : list RefreshTokenFamily) (r : RefreshTokenFamily) : bool :=
  row_exists (fun s => f_family_id s == f_family_id r) t.

Record RefreshToken := MkRefreshToken {
  t_refresh_token_id : UUID; t_family_id : UUID; t_token_hash : string; t_generation : Z;
  t_issued_at : Time; t_used_at : option Time; t_revoked_at : option Time; t_expires_at : Time }.
Definition refresh_token_valid (r : RefreshToken) : bool :=
  (0 <=? t_generation r) && (t_issued_at r <? t_expires_at r).
Definition refresh_token_conflict (t : list RefreshToken) (r : RefreshToken) : bool :=
  row_exists (fun s => (t_refresh_token_id s == t_refresh_token_id r) || (t_token_hash s == t_token_hash r)
    || ((t_family_id s == t_family_id r) && (t_generation s =? t_generation r))) t.

Record Organization := MkOrganization {
  o_org_id : UUID; o_name : string; o_slug : string; o_workspace_type : string;
  o_personal_owner_user_id : option UUID; o_state : string; o_subscription_metadata : dict }.
Definition organization_valid (r : Organization) : bool :=
  (o_state r is_in ["active"; "suspended"; "closed"])
  && (((o_workspace_type r == "personal") && is_some (o_personal_owner_user_id r))
      || ((o_workspace_type r == "organization") && is_none (o_personal_owner_user_id r))).
Definition organization_conflict (t : list Organization) (r : Organization) : bool :=
  row_exists (fun s => (o_org_id s == o_org_id r) || (o_slug s == o_slug r)
    || ((o_workspace_type s == "personal") && (o_workspace_type r == "personal")
        && (o_personal_owner_user_id s == o_personal_owner_user_id r))) t.

Record Session := MkSession {
  s_session_id : UUID; s_family_id : UUID; s_user_id : UUID; s_org_id : option UUID;
  s_access_jti : UUID; s_client_id : string; s_device_fingerprint_hash : string;
  s_ip_address : option string; s_created_at : Time; s_last_activity_at : Time;
  s_expires_at : Time; s_revoked_at : option Time }.
Definition session_valid (r : Session) : bool := s_created_at r <? s_expires_at r.
Definition session_conflict (t : list Session) (r : Session) : bool :=
  row_exists (fun s => (s_session_id s == s_session_id r) || (s_family_id s == s_family_id r)
    || (s_access_jti s == s_access_jti r)) t.

Record TrustedDevice := MkTrustedDevice {
  d_trusted_device_id : UUID; d_user_id : UUID; d_fingerprint_hash : string; d_trust_state : string;
  d_last_ip_address : option string; d_first_seen_at : Time; d_last_seen_at : Time }.

Definition trusted_device_valid (r : TrustedDevice) : bool :=
  d_trust_state r is_in ["unknown"; "trusted"; "blocked"].
Definition trusted_device_conflict (t : list TrustedDevice) (r : TrustedDevice) : bool :=
  row_exists (fun s => (d_trusted_device_id s == d_trusted_device_id r)
    || ((d_user_id s == d_user_id r) && (d_fingerprint_hash s == d_fingerprint_hash r))) t.

Record EphemeralToken := MkEphemeralToken {
  e_ephemeral_token_id : UUID; e_user_id : option UUID; e_token_hash : string; e_purpose : string;
  e_metadata_json : dict; e_created_at : Time; e_expires_at : Time; e_consumed_at : option Time }.
(** The CHECK on [purpose] is the one in force after migration 0009, which adds
    [support_recovery] to the list models.py declares. *)
Definition ephemeral_purposes : list string :=
  ["email_verify"; "phone_verify"; "password_reset"; "support_recovery"; "invite"].
Definition ephemeral_token_valid (r : EphemeralToken) : bool :=
  (e_purpose r is_in ephemeral_purposes) && (e_created_at r <? e_expires_at r).
Definition ephemeral_token_conflict (t : list EphemeralToken) (r : EphemeralToken) : bool :=
  row_exists (fun s => (e_ephemeral_token_id s == e_ephemeral_token_id r) || (e_token_hash s == e_token_hash r)) t.

Record Referral := MkReferral {
  rf_referral_id : UUID; rf_referrer_user_id : UUID; rf_invitee_email : string;
  rf_token_hash : string; rf_referred_user_id : option UUID; rf_state : string;
  rf_created_at : Time; rf_expires_at : Time; rf_registered_at : option Time;
  rf_verified_at : option Time }.

Definition referral_valid (r : Referral) : bool :=
  (rf_state r is_in ["invited"; "registered"; "verified"; "expired"; "revoked"])
  && (rf_created_at r <? rf_expires_at r).
Definition referral_conflict (t : list Referral) (r : Referral) : bool :=
  row_exists (fun s => (rf_referral_id s == rf_referral_id r) || (rf_token_hash s == rf_token_hash r)
    || (is_some (rf_referred_user_id r) && (rf_referred_user_id s == rf_referred_user_id r))) t.

Record GovernedRequest := MkGovernedRequest {
  g_governed_request_id : UUID; g_org_id : option UUID; g_request_type : string;
  g_target_user_id : UUID; g_initiator_user_id : UUID; g_approver_user_id : option UUID;
  g_state : string; g_initiated_at : Time; g_execute_after : Time; g_approved_at : option Time;
  g_executed_at : option Time; g_target_user_version : Z; g_ticket_reference : option string }.
Definition governed_request_valid (r : GovernedRequest) : bool :=
  match g_approver_user_id r with Some a => g_initiator_user_id r != a | None => true end
  && (g_initiated_at r <=? g_execute_after r)
  && (g_state r is_in ["pending"; "approved"; "rejected"; "executed"; "expired"; "cancelled"]).

Definition governed_conflict (t : list GovernedRequest) (r : GovernedRequest) : bool :=
  row_exists (fun s => g_governed_request_id s == g_governed_request_id r) t.

Record StaffRoleBinding := MkStaffRoleBinding {
  sb_binding_id : UUID; sb_user_id : UUID; sb_role : string; sb_granted_by_user_id : option UUID;
  sb_granted_at : Time; sb_revoked_at : option Time }.

Record ContactChangeRequest := MkContactChangeRequest {
  c_request_id : UUID; c_user_id : UUID; c_contact_type : string; c_old_value : string;
  c_new_value : string; c_old_code_hash : string; c_new_code_hash : string; c_state : string;
  c_created_at : Time; c_expires_at : Time; c_old_verified_at : option Time;
  c_new_verified_at : option Time; c_applied_at : option Time }.
Definition contact_change_valid (r : ContactChangeRequest) : bool :=
  (c_contact_type r is_in ["email"; "phone"])
  && (c_state r is_in ["pending"; "applied"; "expired"; "cancelled"])
  && (c_created_at r <? c_expires_at r).

Definition contact_change_conflict (t : list ContactChangeRequest) (r : ContactChangeRequest) : bool :=
  row_exists (fun s => c_request_id s == c_request_id r) t.

Record AuditLog := MkAuditLog {
  a_audit_id : UUID; a_actor_user_id : option UUID; a_subject_user_id : option UUID;
  a_org_id : option UUID; a_event_type : string; a_outcome : string; a_correlation_id : UUID;
  a_metadata_json : dict; a_occurred_at : Time }.
Definition audit_log_valid (r : AuditLog) : bool :=
  a_outcome r is_in ["success"; "failure"; "denied"].

Record Invitation := MkInvitation {
  in_invitation_id : UUID; in_org_id : UUID; in_invitee_email : string; in_token_hash : string;
  in_proposed_roles : list (list (string * string)); in_issued_by_user_id : UUID; in_state : string;
  in_created_at : Time; in_expires_at : Time; in_accepted_at : option Time }.
Definition invitation_valid (r : Invitation) : bool :=
  (in_state r is_in ["pending"; "accepted"; "expired"; "revoked"]) && (in_created_at r <? in_expires_at r).
Definition invitation_conflict (t : list Invitation) (r : Invitation) : bool :=
  row_exists (fun s => (in_invitation_id s == in_invitation_id r) || (in_token_hash s == in_token_hash r)) t.

Record RolePermissionCatalog := MkCatalog {
  rc_catalog_id : UUID; rc_module : string; rc_role : string; rc_permission : string; rc_version : Z;
  rc_active : bool }.

Record UserRoleBinding := MkBinding {
  b_binding_id : UUID; b_user_id : UUID; b_org_id : UUID; b_catalog_id : UUID;
  b_granted_by_user_id : UUID; b_granted_at : Time; b_revoked_at : option Time }.
(** The primary key and the partial unique index [uq_role_bindings_active]. *)
Definition binding_conflict (t : list UserRoleBinding) (r : UserRoleBinding) : bool :=
  row_exists (fun s => (b_binding_id s == b_binding_id r)
    || (is_none (b_revoked_at s) && is_none (b_revoked_at r) && (b_user_id s == b_user_id r)
        && (b_org_id s == b_org_id r) && (b_catalog_id s == b_catalog_id r))) t.

Record GDPRRequest := MkGDPRRequest {
  gq_gdpr_request_id : UUID; gq_user_id : UUID; gq_request_type : string; gq_state : string;
  gq_requested_at : Time; gq_completed_at : option Time; gq_artifact_reference : option string;
  gq_artifact_expires_at : option Time; gq_failure_code : option string;
  gq_idempotency_key_hash : option string; gq_backup_purge_due_at : option Time }.
Definition gdpr_valid (r : GDPRRequest) : bool :=
  (gq_request_type r is_in ["export"; "erasure"])
  && (gq_state r is_in ["requested"; "processing"; "completed"; "failed"; "cancelled"]).
(** The primary key and the unique constraint on user, type and key, which ignores absent keys. *)
Definition gdpr_conflict (t : list GDPRRequest) (r : GDPRRequest) : bool :=
  row_exists (fun s => (gq_gdpr_request_id s == gq_gdpr_request_id r)
    || ((gq_user_id s == gq_user_id r) && (gq_request_type s == gq_request_type r)
        && is_some (gq_idempotency_key_hash r) && (gq_idempotency_key_hash s == gq_idempotency_key_hash r))) t.

Record PrivacyExportArtifact := MkExportArtifact {
  pa_artifact_id : UUID; pa_gdpr_request_id : UUID; pa_user_id : UUID; pa_encrypted_content : string;
  pa_content_digest : string; pa_created_at : Time; pa_expires_at : Time }.
Definition artifact_conflict (t : list PrivacyExportArtifact) (r : PrivacyExportArtifact) : bool :=
  row_exists (fun s => (pa_artifact_id s == pa_artifact_id r) || (pa_gdpr_request_id s == pa_gdpr_request_id r)) t.

(** ** The schema *)

Record Db := MkDb {
  users : list User; identities : list Identity; password_history : list PasswordHistory;
  mfa_devices : list MFADevice; webauthn_credentials : list WebAuthnCredential;
  families : list RefreshTokenFamily; refresh_tokens : list RefreshToken;
  organizations : list Organization; sessions : list Session;
  trusted_devices : list TrustedDevice; ephemeral_tokens : list EphemeralToken;
  referrals : list Referral; governed_requests : list GovernedRequest;
  staff_role_bindings : list StaffRoleBinding;
  contact_change_requests : list ContactChangeRequest; audit_logs : list AuditLog;
  invitations : list Invitation; role_permission_catalog : list RolePermissionCatalog;
  user_role_bindings : list UserRoleBinding; gdpr_requests : list GDPRRequest;
  privacy_export_artifacts : list PrivacyExportArtifact }.
Definition empty_db : Db := MkDb [] [] [] [] [] [] [] [] [] [] [] [] [] [] [] [] [] [] [] [] [].

#[export] Instance eta_User : Eta User := fun r =>
  MkUser (u_user_id r) (u_email r) (u_given_name r) (u_family_name r) (u_phone_e164 r) (u_state r)
    (u_version r) (u_anonymized_at r) (u_created_at r).
#[export] Instance eta_Identity : Eta Identity := fun r =>
  MkIdentity (i_identity_id r) (i_user_id r) (i_provider r) (i_provider_subject r)
    (i_password_hash r) (i_verified r) (i_last_used_at r) (i_created_at r).
#[export] Instance eta_MFADevice : Eta MFADevice := fun r =>
  MkMFADevice (m_mfa_id r) (m_user_id r) (m_factor_type r) (m_encrypted_secret r) (m_status r)
    (m_label r) (m_verified_at r) (m_revoked_at r) (m_last_totp_step r) (m_last_used_at r).
#[export] Instance eta_WebAuthn : Eta WebAuthnCredential := fun r =>
  MkWebAuthnCredential (w_credential_id r) (w_mfa_id r) (w_public_key r) (w_sign_count r)
    (w_transports r) (w_backup_eligible r) (w_backup_state r).
#[export] Instance eta_Family : Eta RefreshTokenFamily := fun r =>
  MkFamily (f_family_id r) (f_user_id r) (f_device_fingerprint_hash r) (f_client_id r)
    (f_created_at r) (f_absolute_expires_at r) (f_revoked_at r) (f_revocation_reason r).
#[export] Instance eta_RefreshToken : Eta RefreshToken := fun r =>
  MkRefreshToken (t_refresh_token_id r) (t_family_id r) (t_token_hash r) (t_generation r)
    (t_issued_at r) (t_used_at r) (t_revoked_at r) (t_expires_at r).
#[export] Instance eta_Session : Eta Session := fun r =>
  MkSession (s_session_id r) (s_family_id r) (s_user_id r) (s_org_id r) (s_access_jti r)
    (s_client_id r) (s_device_fingerprint_hash r) (s_ip_address r) (s_created_at r)
    (s_last_activity_at r) (s_expires_at r) (s_revoked_at r).
#[export] Instance eta_TrustedDevice : Eta TrustedDevice := fun r =>
  MkTrustedDevice (d_trusted_device_id r) (d_user_id r) (d_fingerprint_hash r) (d_trust_state r)
    (d_last_ip_address r) (d_first_seen_at r) (d_last_seen_at r).
#[export] Instance eta_EphemeralToken : Eta EphemeralToken := fun r =>
  MkEphemeralToken (e_ephemeral_token_id r) (e_user_id r) (e_token_hash r) (e_purpose r)
    (e_metadata_json r) (e_created_at r) (e_expires_at r) (e_consumed_at r).
#[export] Instance eta_Referral : Eta Referral := fun r =>
  MkReferral (rf_referral_id r) (rf_referrer_user_id r) (rf_invitee_email r) (rf_token_hash r)
    (rf_referred_user_id r) (rf_state r) (rf_created_at r) (rf_expires_at r) (rf_registered_at r)
    (rf_verified_at r).
#[export] Instance eta_Governed : Eta GovernedRequest := fun r =>
  MkGovernedRequest (g_governed_request_id r) (g_org_id r) (g_request_type r) (g_target_user_id r)
    (g_initiator_user_id r) (g_approver_user_id r) (g_state r) (g_initiated_at r)
    (g_execute_after r) (g_approved_at r) (g_executed_at r) (g_target_user_version r)
    (g_ticket_reference r).
#[export] Instance eta_Contact : Eta ContactChangeRequest := fun r =>
  MkContactChangeRequest (c_request_id r) (c_user_id r) (c_contact_type r) (c_old_value r)
    (c_new_value r) (c_old_code_hash r) (c_new_code_hash r) (c_state r) (c_created_at r)
    (c_expires_at r) (c_old_verified_at r) (c_new_verified_at r) (c_applied_at r).
#[export] Instance eta_Organization : Eta Organization := fun r =>
  MkOrganization (o_org_id r) (o_name r) (o_slug r) (o_workspace_type r) (o_personal_owner_user_id r)
    (o_state r) (o_subscription_metadata r).
#[export] Instance eta_GDPRRequest : Eta GDPRRequest := fun r =>
  MkGDPRRequest (gq_gdpr_request_id r) (gq_user_id r) (gq_request_type r) (gq_state r) (gq_requested_at r)
    (gq_completed_at r) (gq_artifact_reference r) (gq_artifact_expires_at r) (gq_failure_code r)
    (gq_idempotency_key_hash r) (gq_backup_purge_due_at r).
#[export] Instance eta_Invitation : Eta Invitation := fun r =>
  MkInvitation (in_invitation_id r) (in_org_id r) (in_invitee_email r) (in_token_hash r)
    (in_proposed_roles r) (in_issued_by_user_id r) (in_state r) (in_created_at r) (in_expires_at r)
    (in_accepted_at r).
#[export] Instance eta_Binding : Eta UserRoleBinding := fun r =>
  MkBinding (b_binding_id r) (b_user_id r) (b_org_id r) (b_catalog_id r) (b_granted_by_user_id r)
    (b_granted_at r) (b_revoked_at r).
#[export] Instance eta_Db : Eta Db := fun d =>
  MkDb (users d) (identities d) (password_history d) (mfa_devices d) (webauthn_credentials d)
    (families d) (refresh_tokens d) (organizations d) (sessions d) (trusted_devices d)
    (ephemeral_tokens d) (referrals d) (governed_requests d) (staff_role_bindings d)
    (contact_change_requests d) (audit_logs d) (invitations d) (role_permission_catalog d)
    (user_role_bindings d) (gdpr_requests d) (privacy_export_artifacts d).

(** [personal_workspace_for]: the private workspace every account is created with. *)
Definition personal_workspace_for (org_id : UUID) (user : User) : Organization :=
  let parts := List.filter nonempty (List.map (fun o => or_else o "") [u_given_name user; u_family_name user]) in
  let display_name := strip (String.concat " " parts) in
  MkOrganization org_id
    (if nonempty display_name then display_name +:+ "'s Portfolio" else "My Personal Portfolio")
    ("personal-" +:+ uuid_hex (u_user_id user)) "personal" (Some (u_user_id user)) "active" [].

(** A personal workspace satisfies the constraints of its table. *)
Lemma personal_workspace_valid org_id user : organization_valid (personal_workspace_for org_id user) = true.
Proof. done. Qed.

(** The triggers of migrations 0004 and 0008: a role binding needs an active catalog entry, and
    a personal workspace has neither bindings nor invitations.  They raise a check violation. *)
Definition require_active_role_catalog (catalog_id : UUID) (db : Db) : bool :=
  row_exists (fun c => (rc_catalog_id c == catalog_id) && rc_active c) (role_permission_catalog db).
Definition reject_personal_workspace_collaboration (org_id : UUID) (db : Db) : bool :=
  row_exists (fun o => (o_org_id o == org_id) && (o_workspace_type o == "personal")) (organizations db).
Definition binding_allowed (db : Db) (r : UserRoleBinding) : bool :=
  require_active_role_catalog (b_catalog_id r) db
  && negb (reject_personal_workspace_collaboration (b_org_id r) db).
Definition invitation_allowed (db : Db) (r : Invitation) : bool :=
  invitation_valid r && negb (reject_personal_workspace_collaboration (in_org_id r) db).
(** [auth.user_has_org_membership]. *)
Definition user_has_org_membership (target_org_id target_user_id : UUID) (db : Db) : bool :=
  row_exists (fun b => (b_org_id b == target_org_id) && (b_user_id b == target_user_id)
                       && is_none (b_revoked_at b)) (user_role_bindings db).
(** [auth.organization_invitation_org]. *)
Definition organization_invitation_org (candidate_hash : string) (now : Time) (db : Db) : option UUID :=
  in_org_id <$> scalar (fun i => (in_token_hash i == candidate_hash) && (in_state i == "pending")
                                 && (now <? in_expires_at i)) (invitations db).
