(* ===== verification/RedisClient.v ===== *)
(** The Redis service, as an interface.

    [RedisClient] is what the store of [infrastructure/redis_security.py] relies on: the
    commands it issues and, as laws, their documented effect on the keyspace.  [MemRedis] is an
    in-memory keyspace that satisfies the laws; the witnesses of the development run on it. *)
From S2P Require Import Prelude PyText.

(** Values a key or a hash field holds.  Decimal text is represented by the integer it
    denotes and JSON text by its value. *)
Inductive fval := FText (s : string) | FInt (n : Z).
Inductive rval := RText (s : string) | RInt (n : Z) | RJson (d : dict) | RHash (h : gmap string fval).

(** A key holds a value and, once EXPIRE or SET EX ran, an absolute deadline. *)
Record REntry := MkREntry { re_value : rval; re_deadline : option Time }.

Definition live (now : Time) (e : option REntry) : option rval :=
  match e with
  | Some (MkREntry v None) => Some v
  | Some (MkREntry v (Some d)) => if now <? d then Some v else None
  | None => None
  end.

(** HINCRBY on a field, INCR on a key: an absent counter starts from 0. *)
Definition hash_of (v : option rval) : gmap string fval := match v with Some (RHash h) => h | _ => ∅ end.
Definition int_of_field (f : option fval) : Z := match f with Some (FInt n) => n | _ => 0 end.
Definition int_of_key (v : option rval) : Z := match v with Some (RInt n) => n | _ => 0 end.
(** A write that keeps the time to live of a key that is still alive. *)
Definition keep_deadline (now : Time) (e : option REntry) : option Time :=
  match e with
  | Some (MkREntry _ (Some d)) => if now <? d then Some d else None
  | _ => None
  end.

Class RedisClient (R : Type) := {
  r_entry : R -> string -> option REntry;
  r_set : Time -> string -> rval -> Z -> R -> R;              (* SET key value EX ttl *)
  r_del : string -> R -> R;                                   (* DEL key *)
  r_hset : Time -> string -> gmap string fval -> R -> R;      (* HSET key field value ... *)
  r_hincrby : Time -> string -> string -> Z -> R -> R;        (* HINCRBY key field n *)
  r_incr : Time -> string -> R -> R;                          (* INCR key *)
  r_expire : Time -> string -> Z -> R -> R;                   (* EXPIRE key ttl *)
  r_set_law now k v ttl r k' : r_entry (r_set now k v ttl r) k' =
    if k' == k then Some (MkREntry v (Some (now + seconds ttl))) else r_entry r k';
  r_del_law k r k' : r_entry (r_del k r) k' = if k' == k then None else r_entry r k';
  r_hset_law now k h r k' : r_entry (r_hset now k h r) k' =
    if k' == k then
      Some (MkREntry (RHash (h ∪ hash_of (live now (r_entry r k)))) (keep_deadline now (r_entry r k)))
    else r_entry r k';
  r_hincrby_law now k f n r k' : r_entry (r_hincrby now k f n r) k' =
    if k' == k then
      let h := hash_of (live now (r_entry r k)) in
      Some (MkREntry (RHash (<[f := FInt (int_of_field (h !! f) + n)]> h)) (keep_deadline now (r_entry r k)))
    else r_entry r k';
  r_incr_law now k r k' : r_entry (r_incr now k r) k' =
    if k' == k then
      Some (MkREntry (RInt (int_of_key (live now (r_entry r k)) + 1)) (keep_deadline now (r_entry r k)))
    else r_entry r k';
  r_expire_law now k ttl r k' : r_entry (r_expire now k ttl r) k' =
    if k' == k then
      match live now (r_entry r k) with
      | Some v => Some (MkREntry v (Some (now + seconds ttl)))
      | None => r_entry r k
      end
    else r_entry r k' }.

(** GET, EXISTS, HGET: what a reader sees at an instant. *)
Section Reads.
Context {R : Type} `{RedisClient R}.
Definition r_get (now : Time) (k : string) (r : R) : option rval := live now (r_entry r k).
Definition r_exists (now : Time) (k : string) (r : R) : bool := is_some (r_get now k r).
Definition r_hget (now : Time) (k f : string) (r : R) : option fval := hash_of (r_get now k r) !! f.

Lemma r_get_set_eq now t k v ttl r :
  r_get t k (r_set now k v ttl r) = if t <? now + seconds ttl then Some v else None.
Proof. unfold r_get. rewrite r_set_law, eqb_refl. done. Qed.
Lemma r_get_set_ne now t k k' v ttl r : k' <> k -> r_get t k' (r_set now k v ttl r) = r_get t k' r.
Proof. intros Hk. unfold r_get. by rewrite r_set_law, eqb_neq. Qed.
Lemma r_get_del_eq t k r : r_get t k (r_del k r) = None.
Proof. unfold r_get. by rewrite r_del_law, eqb_refl. Qed.
Lemma r_get_del_ne t k k' r : k' <> k -> r_get t k' (r_del k r) = r_get t k' r.
Proof. intros Hk. unfold r_get. by rewrite r_del_law, eqb_neq. Qed.
Lemma r_get_incr_ne now t k k' r : k' <> k -> r_get t k' (r_incr now k r) = r_get t k' r.
Proof. intros Hk. unfold r_get. by rewrite r_incr_law, eqb_neq. Qed.
Lemma r_get_expire_ne now t k k' ttl r : k' <> k -> r_get t k' (r_expire now k ttl r) = r_get t k' r.
Proof. intros Hk. unfold r_get. by rewrite r_expire_law, eqb_neq. Qed.
Lemma r_get_hincrby_ne now t k k' f n r : k' <> k -> r_get t k' (r_hincrby now k f n r) = r_get t k' r.
Proof. intros Hk. unfold r_get. by rewrite r_hincrby_law, eqb_neq. Qed.
Lemma r_get_hset_ne now t k k' h r : k' <> k -> r_get t k' (r_hset now k h r) = r_get t k' r.
Proof. intros Hk. unfold r_get. by rewrite r_hset_law, eqb_neq. Qed.
End Reads.

#[export] Hint Rewrite @r_get_set_eq @r_get_del_eq : auth_rw.

(** ** A keyspace in memory *)

Abbreviation mem_redis := (gmap string REntry).

#[export, refine] Instance MemRedis : RedisClient mem_redis := {|
  r_entry m k := m !! k;
  r_set now k v ttl m := <[k := MkREntry v (Some (now + seconds ttl))]> m;
  r_del k m := delete k m;
  r_hset now k h m :=
    <[k := MkREntry (RHash (h ∪ hash_of (live now (m !! k)))) (keep_deadline now (m !! k))]> m;
  r_hincrby now k f n m :=
    let h := hash_of (live now (m !! k)) in
    <[k := MkREntry (RHash (<[f := FInt (int_of_field (h !! f) + n)]> h)) (keep_deadline now (m !! k))]> m;
  r_incr now k m :=
    <[k := MkREntry (RInt (int_of_key (live now (m !! k)) + 1)) (keep_deadline now (m !! k))]> m;
  r_expire now k ttl m :=
    match live now (m !! k) with
    | Some v => <[k := MkREntry v (Some (now + seconds ttl))]> m
    | None => m
    end |}.
Proof.
  all: intros; cbn.
  all: try (case_bool_decide as Hk; [subst k'; by rewrite ?lookup_insert_eq, ?lookup_delete_eq|]).
  all: try by rewrite ?lookup_insert_ne, ?lookup_delete_ne by congruence.
  destruct (live now _) eqn:E; case_bool_decide as Hk; try subst k'; try done.
  - by rewrite lookup_insert_eq.
  - by rewrite lookup_insert_ne by congruence.
Defined.
Definition empty_redis : mem_redis := ∅.
