(* ===== verification/World.v ===== *)
(** The world a request runs in, and the monad its handlers are written in.

    A handler is a program [prog R A]: it reads and writes the database, the Redis keyspace,
    the outgoing mail and the source of randomness, and returns or raises.  [Env] gathers what
    lies outside the repository: the configuration, the cryptographic functions, the random
    source and the remote services. *)
From S2P Require Import Prelude PyText Entity Models RedisClient.

(** ** What the service depends on *)

Record Mail := MkMail { mail_from : string; mail_to : string; mail_subject : string; mail_body : string }.

(** The credential a WebAuthn registration yields. *)
Record VerifiedRegistration := MkVerifiedRegistration {
  vr_credential_id : string; vr_credential_public_key : string; vr_sign_count : Z;
  vr_credential_device_type : string; vr_credential_backed_up : bool }.

(** Random values are functions of the number of the draw.  The fields of the first group are
    the settings of [config.py]. *)
Class Env := {
  redis_key_hmac_secret : string;
  otp_hmac_secret : string;
  login_signal_hmac_secret : string;
  backup_code_hmac_secret : string;
  refresh_token_hmac_secret : string;
  recovery_token_hmac_secret : string;
  workspace_token_hmac_secret : string;
  privacy_idempotency_hmac_secret : string;
  privacy_export_ttl_hours : Z;
  privacy_backup_purge_days : Z;
  local_captcha_token : string;
  local_oidc_signing_secret : string;
  local_oidc_frontend_url : string;
  verification_base_url : string;
  password_reset_base_url : string;
  email_sender : string;
  local_sms_inbox : string;
  referral_base_url : string;
  organization_invitation_base_url : string;
  webauthn_rp_id : string;
  webauthn_rp_name : string;
  webauthn_allowed_origins : string;
  jwt_issuer : string;
  jwt_audience : string;
  (* secrets, uuid *)
  token_urlsafe : N -> N -> string;
  token_hex : N -> N -> string;
  randbelow : N -> N -> N;
  uuid4 : N -> UUID;
  (* hmac.new(key, message, sha256).hexdigest(), sha256(text).hexdigest() *)
  hmac_sha256 : string -> string -> string;
  sha256_hex : string -> string;
  (* the unpadded base64url form of sha256(text).digest() *)
  sha256_b64url : string -> string;
  (* argon2: hash with the salt of a draw, verify, check_needs_rehash; None is InvalidHashError
     or VerificationError *)
  argon2_hash : N -> string -> string;
  argon2_verify : string -> string -> option bool;
  argon2_needs_rehash : string -> option bool;
  (* sha1(text).hexdigest() *)
  sha1_hex : string -> string;
  (* the text api.pwnedpasswords.com answers for a prefix; None is an HTTP error *)
  hibp_range : string -> option string;
  (* os.urandom *)
  urandom : nat -> N -> string;
  (* AESGCM: nonce, data, associated data; None is InvalidTag *)
  aes_encrypt : string -> string -> string -> string;
  aes_decrypt : string -> string -> string -> option string;
  (* pyotp: random_base32, provisioning_uri, the code of a time step *)
  random_base32 : N -> string;
  provisioning_uri : string -> string -> string;
  totp_at : string -> Z -> string;
  (* webauthn: the options as JSON and the challenge of a draw, from the identifier and name of the
     relying party, the user, the credentials and the required verification; the values of
     AuthenticatorTransport; base64url_to_bytes; verified responses, from the expected challenge, relying
     party and origins; None is an exception *)
  generate_registration_options : N -> string -> string -> UUID -> string -> list string -> string -> dict * string;
  generate_authentication_options : N -> string -> option (list (string * list string)) -> string -> dict * string;
  authenticator_transports : list string;
  base64url_to_bytes : string -> option string;
  verify_registration_response : dict -> string -> string -> list string -> bool -> option VerifiedRegistration;
  verify_authentication_response : dict -> string -> string -> list string -> string -> Z -> bool -> option (Z * bool);
  (* jwt.encode, and jwt.decode with the checks of its options at an instant; None is
     InvalidTokenError *)
  jwt_encode : dict -> string;
  jwt_decode : string -> Time -> string -> string -> option dict;
  (* the key pair of the token provider: public_numbers() and the fingerprint of the public key *)
  jwt_public_numbers : N * N;
  jwt_kid : string;
  (* the order the collation of the database gives to texts *)
  text_le : string -> string -> bool;
  (* whether the SMTP server accepts a message *)
  smtp_accepts : N -> Mail -> bool }.

(** ** The world and its programs *)

Record World (R : Type) := MkWorld {
  w_db : Db; w_redis : R; w_now : Time; w_seed : N; w_mail : list Mail }.
Arguments MkWorld {R}.
Arguments w_db {R}.
Arguments w_redis {R}.
Arguments w_now {R}.
Arguments w_seed {R}.
Arguments w_mail {R}.
#[export] Instance eta_World {R} : Eta (World R) := fun w =>
  MkWorld (w_db w) (w_redis w) (w_now w) (w_seed w) (w_mail w).

Definition at_time {R} (t : Time) (w : World R) : World R := w <| w_now := t |>.
Definition with_redis {R} (r : R) (w : World R) : World R := w <| w_redis := r |>.
Definition with_db {R} (db : Db) (w : World R) : World R := w <| w_db := db |>.
Definition next_seed {R} (w : World R) : World R := w <| w_seed ::= N.succ |>.

(** The clock does not move within a request: every [datetime.now(UTC)] of a handler and every
    expiry Redis evaluates for it read the same instant. *)
Definition prog (R A : Type) : Type := World R -> (exc + A) * World R.

#[export] Instance prog_ret R : MRet (prog R) := fun A a w => (inr a, w).
#[export] Instance prog_bind R : MBind (prog R) := fun A B k m w =>
  match m w with (inr a, w') => k a w' | (inl e, w') => (inl e, w') end.

Section Effects.
Context {R : Type}.
Definition raise {A} (e : exc) : prog R A := fun w => (inl e, w).
(** [if condition: raise e]. *)
Definition raise_if (b : bool) (e : exc) : prog R unit := if b then raise e else mret ().
Definition get_db : prog R Db := fun w => (inr (w_db w), w).
Definition modify_db (f : Db -> Db) : prog R unit := fun w => (inr (), with_db (f (w_db w)) w).
Definition get_redis : prog R R := fun w => (inr (w_redis w), w).
Definition modify_redis (f : R -> R) : prog R unit :=
  fun w => (inr (), with_redis (f (w_redis w)) w).
Definition append_mail (m : Mail) : prog R unit :=
  fun w => (inr (), w <| w_mail ::= fun l => l ++ [m] |>).
Definition now_utc : prog R Time := fun w => (inr (w_now w), w).
Definition draw : prog R N := fun w => (inr (w_seed w), next_seed w).
(** [async with sessions.begin()]: the block commits, or its writes are rolled back. *)
Definition tx {A} (m : prog R A) : prog R A := fun w =>
  match m w with
  | (inr a, w') => (inr a, w')
  | (inl e, w') => (inl e, with_db (w_db w) w')
  end.
(** [try: m except ...: h]; [h] says whether it handles the exception. *)
Definition try_except {A} (m : prog R A) (h : exc -> option (prog R A)) : prog R A := fun w =>
  match m w with
  | (inr a, w') => (inr a, w')
  | (inl e, w') => match h e with Some k => k w' | None => (inl e, w') end
  end.
(** The item of an optional value, or an exception. *)
Definition get_or {A} (e : exc) (o : option A) : prog R A :=
  match o with Some a => mret a | None => raise e end.
Fixpoint for_ {A} (l : list A) (body : A -> prog R unit) : prog R unit :=
  match l with [] => mret () | a :: l => body a ;; for_ l body end.
Fixpoint map_m {A B} (f : A -> prog R B) (l : list A) : prog R (list B) :=
  match l with [] => mret [] | a :: l => b ← f a; bs ← map_m f l; mret (b :: bs) end.
(** [execute(...).one_or_none()] on the rows of a query. *)
Definition one_row {A} (l : list A) : prog R (option A) :=
  match l with [] => mret None | [a] => mret (Some a) | _ => raise MultipleResultsFound end.
End Effects.

(** [database.add(row)] followed by a flush. *)
Definition add_row {R row} (table : Db -> list row) `{!Setter table} (ok : row -> bool)
    (conflict : list row -> row -> bool) (r : row) : prog R unit :=
  db ← get_db;
  if ok r && negb (conflict (table db) r) then modify_db (fun db => set table (fun t => t ++ [r]) db)
  else raise IntegrityError.
Definition no_check {row} (r : row) : bool := true.
Definition no_conflict {row} (t : list row) (r : row) : bool := false.

Section Draws.
Context {R : Type} {E : Env}.
Definition new_token_urlsafe (nbytes : N) : prog R string := d ← draw; mret (token_urlsafe nbytes d).
Definition new_uuid4 : prog R UUID := d ← draw; mret (uuid4 d).
(** [correlation_id or uuid4()]. *)
Definition or_uuid4 (o : option UUID) : prog R UUID :=
  match o with Some u => mret u | None => new_uuid4 end.
End Draws.

(** [database.add(AuditLog(...))]: identifier and time are column defaults. *)
Definition insert_audit {R} `{!Env} (actor subject org : option UUID) (event_type outcome : string)
    (correlation_id : UUID) (metadata : dict) : prog R unit :=
  now ← now_utc;
  audit_id ← new_uuid4;
  add_row audit_logs audit_log_valid no_conflict
    (MkAuditLog audit_id actor subject org event_type outcome correlation_id metadata now).

(** ** Rules of the programs *)

Section Rules.
Context {R : Type}.
Implicit Types (w : World R).

Lemma bind_inr {A B} (m : prog R A) (k : A -> prog R B) w b w' :
  (m ≫= k) w = (inr b, w') -> exists a w1, m w = (inr a, w1) /\ k a w1 = (inr b, w').
Proof.
  unfold mbind, prog_bind. destruct (m w) as [[e|a] w1] eqn:E; [done|]. intros H. by exists a, w1.
Qed.

Lemma bind_inl {A B} (m : prog R A) (k : A -> prog R B) w e w' :
  (m ≫= k) w = (inl e, w') ->
  m w = (inl e, w') \/ exists a w1, m w = (inr a, w1) /\ k a w1 = (inl e, w').
Proof.
  unfold mbind, prog_bind. destruct (m w) as [[e0|a] w1] eqn:E; [intros [= -> ->]; by left|].
  intros H. right. by exists a, w1.
Qed.

Lemma bind_any {A B} (m : prog R A) (k : A -> prog R B) w x w' :
  (m ≫= k) w = (x, w') ->
  (exists e, m w = (inl e, w') /\ x = inl e) \/ exists a w1, m w = (inr a, w1) /\ k a w1 = (x, w').
Proof.
  unfold mbind, prog_bind. destruct (m w) as [[e|a] w1]; [intros [= <- <-]; left; by exists e|].
  intros H. right. by exists a, w1.
Qed.

Lemma run_bind {A B} (m : prog R A) (k : A -> prog R B) w a w1 :
  m w = (inr a, w1) -> (m ≫= k) w = k a w1.
Proof. intros H. unfold mbind, prog_bind. by rewrite H. Qed.

Lemma run_bind_inl {A B} (m : prog R A) (k : A -> prog R B) w e w1 :
  m w = (inl e, w1) -> (m ≫= k) w = (inl e, w1).
Proof. intros H. unfold mbind, prog_bind. by rewrite H. Qed.

(** The state a program leaves satisfies what the state it found satisfied. *)
Definition keeps {A} (I : World R -> Prop) (m : prog R A) : Prop := forall w, I w -> I (m w).2.

Lemma keeps_ret {A} I (a : A) : keeps I (mret a).
Proof. by intros w. Qed.
Lemma keeps_raise {A} I e : keeps I (raise e : prog R A).
Proof. by intros w. Qed.
Lemma keeps_bind {A B} I (m : prog R A) (k : A -> prog R B) :
  keeps I m -> (forall a, keeps I (k a)) -> keeps I (m ≫= k).
Proof.
  intros Hm Hk w Hw. specialize (Hm w Hw). unfold mbind, prog_bind.
  destruct (m w) as [[e|a] w1]; cbn in *; [done|]. by apply Hk.
Qed.
(** The next step of a program that keeps a property, whether it returns or raises. *)
Lemma keeps_any {A B} I (m : prog R A) (k : A -> prog R B) w x w' : keeps I m -> I w -> (m ≫= k) w = (x, w') ->
  I w' \/ exists a w1, I w1 /\ m w = (inr a, w1) /\ k a w1 = (x, w').
Proof.
  intros Hk Hw H. specialize (Hk w Hw). apply bind_any in H as [(e & Hm & _)|(a & w1 & Hm & H)]; rewrite Hm in Hk; eauto 10.
Qed.
Lemma keeps_for {A} I (l : list A) (body : A -> prog R unit) :
  (forall a, keeps I (body a)) -> keeps I (for_ l body).
Proof. intros H. induction l; cbn; [apply keeps_ret|]. by apply keeps_bind. Qed.
Lemma keeps_map_m {A B} I (f : A -> prog R B) l :
  (forall a, keeps I (f a)) -> keeps I (map_m f l).
Proof.
  intros H. induction l; cbn; [apply keeps_ret|].
  apply keeps_bind; [done|]. intros b. apply keeps_bind; [done|]. intros bs. apply keeps_ret.
Qed.
Lemma keeps_one_row {A} I (l : list A) : keeps I (one_row l).
Proof. destruct l as [|? []]; [apply keeps_ret..|apply keeps_raise]. Qed.
Lemma keeps_raise_if I b e : keeps I (raise_if b e).
Proof. destruct b; [apply keeps_raise|apply keeps_ret]. Qed.
Lemma keeps_get_or {A} I e (o : option A) : keeps I (get_or e o).
Proof. destruct o; [apply keeps_ret|apply keeps_raise]. Qed.
Lemma keeps_get_db I : keeps I get_db.
Proof. by intros w. Qed.
Lemma keeps_now I : keeps I now_utc.
Proof. by intros w. Qed.
Lemma keeps_get_redis I : keeps I get_redis.
Proof. by intros w. Qed.
Lemma keeps_try {A} I (m : prog R A) h :
  keeps I m -> (forall e k, h e = Some k -> keeps I k) -> keeps I (try_except m h).
Proof.
  intros Hm Hh w Hw. specialize (Hm w Hw). unfold try_except.
  destruct (m w) as [[e|a] w1]; cbn in *; [|done]. destruct (h e) eqn:E; [|done]. by eapply Hh.
Qed.

(** A property of the database alone. *)
Definition on_db (P : Db -> Prop) : World R -> Prop := fun w => P (w_db w).

Lemma keeps_tx {A} P (m : prog R A) : keeps (on_db P) m -> keeps (on_db P) (tx m).
Proof.
  intros Hm w Hw. specialize (Hm w Hw). unfold tx.
  by destruct (m w) as [[e|a] w1].
Qed.
(** Only the writes of a block that returned count. *)
Lemma keeps_commit {A} P (m : prog R A) :
  (forall w a w', P (w_db w) -> m w = (inr a, w') -> P (w_db w')) -> keeps (on_db P) (tx m).
Proof.
  intros Hm w Hw. unfold tx. destruct (m w) as [[e|a] w1] eqn:Em; [done|]. by eapply Hm.
Qed.
Lemma run_for_modify {A} (g : A -> Db -> Db) (l : list A) w :
  for_ l (fun a => modify_db (g a)) w
  = (inr (), with_db (List.fold_left (fun db a => g a db) l (w_db w)) w).
Proof.
  revert w. induction l as [|a l IH]; intros w; cbn [for_ List.fold_left]; [by destruct w|].
  change ((modify_db (g a);; for_ l (fun a => modify_db (g a))) w)
    with (for_ l (fun a => modify_db (g a)) (with_db (g a (w_db w)) w)).
  rewrite IH. by destruct w.
Qed.
Lemma keeps_draw P : keeps (on_db P) draw.
Proof. by intros w. Qed.
Lemma keeps_modify_redis P f : keeps (on_db P) (modify_redis f).
Proof. by intros w. Qed.
Lemma keeps_modify_db P f : (forall db, P db -> P (f db)) -> keeps (on_db P) (modify_db f).
Proof. intros H w Hw. by apply H. Qed.
Lemma keeps_uuid4 `{!Env} P : keeps (on_db P) new_uuid4.
Proof. by intros w. Qed.
Lemma keeps_token `{!Env} P n : keeps (on_db P) (new_token_urlsafe n).
Proof. by intros w. Qed.
Lemma keeps_or_uuid4 `{!Env} P o : keeps (on_db P) (or_uuid4 o).
Proof. destruct o; [apply keeps_ret|apply keeps_uuid4]. Qed.
Lemma keeps_add_row {row} P (table : Db -> list row) `{!Setter table} ok conflict r :
  (forall db, P db -> ok r = true -> conflict (table db) r = false ->
     P (set table (fun t => t ++ [r]) db)) ->
  keeps (on_db P) (add_row table ok conflict r).
Proof.
  intros H w Hw. unfold add_row, get_db, mbind, prog_bind.
  destruct (ok r && negb (conflict (table (w_db w)) r)) eqn:E; [|done]. to_prop. by apply H.
Qed.

(** A transaction that raised left the database as it was. *)
Lemma tx_inl {A} (m : prog R A) w e w' : tx m w = (inl e, w') -> w_db w' = w_db w.
Proof. unfold tx. destruct (m w) as [[e0|a] w1]; [|done]. by intros [= <- <-]. Qed.
Lemma tx_inr {A} (m : prog R A) w a w' : tx m w = (inr a, w') -> m w = (inr a, w').
Proof. unfold tx. by destruct (m w) as [[e0|b] w1]. Qed.
Lemma run_tx {A} (m : prog R A) w a w' : m w = (inr a, w') -> tx m w = (inr a, w').
Proof. unfold tx. by intros ->. Qed.

Lemma add_row_inr {row} (table : Db -> list row) `{!Setter table} ok conflict r w u w' :
  add_row table ok conflict r w = (inr u, w') ->
  ok r = true /\ conflict (table (w_db w)) r = false /\
  w' = with_db (set table (fun t => t ++ [r]) (w_db w)) w.
Proof.
  unfold add_row, get_db, mbind, prog_bind.
  destruct (ok r && negb (conflict (table (w_db w)) r)) eqn:E; [|done]. to_prop.
  by intros [= _ <-].
Qed.
Lemma add_row_inl {row} (table : Db -> list row) `{!Setter table} ok conflict r w e w' :
  add_row table ok conflict r w = (inl e, w') -> e = IntegrityError /\ w' = w.
Proof.
  unfold add_row, get_db, mbind, prog_bind.
  destruct (ok r && negb (conflict (table (w_db w)) r)) eqn:E; [done|]. by intros [= <- <-].
Qed.
End Rules.

(** Running a program forwards, one effect at a time. *)
Section Running.
Context {R : Type}.
Implicit Types (w : World R).
Lemma bind_ret {A B} (a : A) (k : A -> prog R B) w : (mret a ≫= k) w = k a w.
Proof. done. Qed.
Lemma bind_raise {A B} e (k : A -> prog R B) w : (raise e ≫= k) w = (inl e, w).
Proof. done. Qed.
Lemma bind_now {B} (k : Time -> prog R B) w : (now_utc ≫= k) w = k (w_now w) w.
Proof. done. Qed.
Lemma bind_get_db {B} (k : Db -> prog R B) w : (get_db ≫= k) w = k (w_db w) w.
Proof. done. Qed.
Lemma bind_get_redis {B} (k : R -> prog R B) w : (get_redis ≫= k) w = k (w_redis w) w.
Proof. done. Qed.
Lemma bind_modify_db {B} f (k : unit -> prog R B) w :
  (modify_db f ≫= k) w = k () (with_db (f (w_db w)) w).
Proof. done. Qed.
Lemma bind_modify_redis {B} f (k : unit -> prog R B) w :
  (modify_redis f ≫= k) w = k () (with_redis (f (w_redis w)) w).
Proof. done. Qed.
Lemma bind_draw {B} (k : N -> prog R B) w :
  (draw ≫= k) w = k (w_seed w) (next_seed w).
Proof. done. Qed.
Lemma bind_uuid4 `{!Env} {B} (k : UUID -> prog R B) w :
  (new_uuid4 ≫= k) w = k (uuid4 (w_seed w)) (next_seed w).
Proof. done. Qed.
Lemma bind_token `{!Env} {B} n (k : string -> prog R B) w :
  (new_token_urlsafe n ≫= k) w = k (token_urlsafe n (w_seed w)) (next_seed w).
Proof. done. Qed.
Lemma bind_bind {A B C} (m : prog R A) (f : A -> prog R B) (g : B -> prog R C) w :
  ((m ≫= f) ≫= g) w = (m ≫= (fun a => f a ≫= g)) w.
Proof. unfold mbind, prog_bind. by destruct (m w) as [[e|a] w1]. Qed.
Lemma bind_raise_if_false {B} e (k : unit -> prog R B) w : (raise_if false e ≫= k) w = k () w.
Proof. done. Qed.
Lemma bind_raise_if_true {B} e (k : unit -> prog R B) w : (raise_if true e ≫= k) w = (inl e, w).
Proof. done. Qed.
Lemma bind_get_or_some {A B} e (a : A) (k : A -> prog R B) w : (get_or e (Some a) ≫= k) w = k a w.
Proof. done. Qed.
Lemma bind_get_or_none {A B} e (k : A -> prog R B) w : (get_or e None ≫= k) w = (inl e, w).
Proof. done. Qed.
End Running.

(** [run_in H]: the same on a program whose outcome is the hypothesis [H]. *)
Ltac run_in_1 H :=
  first
  [ rewrite bind_ret in H | rewrite bind_raise in H | rewrite bind_now in H | rewrite bind_get_db in H
  | rewrite bind_get_redis in H | rewrite bind_modify_db in H | rewrite bind_modify_redis in H
  | rewrite bind_draw in H | rewrite bind_uuid4 in H | rewrite bind_token in H | rewrite bind_bind in H
  | rewrite bind_raise_if_false in H | rewrite bind_raise_if_true in H
  | rewrite bind_get_or_some in H | rewrite bind_get_or_none in H ]; cbv beta in H.

(** [run]: execute the program of the goal as far as its tests are known. *)
Ltac run_1 :=
  first
  [ rewrite bind_ret | rewrite bind_raise | rewrite bind_now | rewrite bind_get_db
  | rewrite bind_get_redis | rewrite bind_modify_db | rewrite bind_modify_redis | rewrite bind_draw
  | rewrite bind_uuid4 | rewrite bind_token | rewrite bind_bind
  | rewrite bind_raise_if_false | rewrite bind_raise_if_true
  | rewrite bind_get_or_some | rewrite bind_get_or_none ]; cbv beta.
Ltac wsimpl :=
  cbn [w_db w_redis w_now w_seed w_mail at_time with_redis with_db next_seed set fst snd].
Ltac run := repeat (run_1; wsimpl).
Ltac wsimpl_in H :=
  cbn [w_db w_redis w_now w_seed w_mail at_time with_redis with_db next_seed set fst snd] in H.
Ltac run_in H := repeat (run_in_1 H; wsimpl_in H).
(** The next step of a program that returned. *)
Ltac step_in H a w' Ha := apply bind_inr in H as (a & w' & Ha & H).
Ltac ltb_true H := rewrite (proj2 (Z.ltb_lt _ _) H).

#[export] Hint Resolve keeps_ret keeps_raise keeps_one_row keeps_raise_if keeps_get_or keeps_get_db keeps_now
  keeps_get_redis keeps_draw keeps_modify_redis keeps_uuid4 keeps_token keeps_or_uuid4 : auth.

(** A property of the Redis keyspace alone; the database programs keep it. *)
Section OnRedis.
Context {R : Type}.
Implicit Types (P : R -> Prop).
Definition on_redis P : World R -> Prop := fun w => P (w_redis w).
Lemma keeps_tx_redis {A} P (m : prog R A) : keeps (on_redis P) m -> keeps (on_redis P) (tx m).
Proof. intros Hm w Hw. specialize (Hm w Hw). unfold tx. by destruct (m w) as [[e|a] w1]. Qed.
Lemma keeps_draw_redis P : keeps (on_redis P) draw.
Proof. by intros w. Qed.
Lemma keeps_uuid4_redis `{!Env} P : keeps (on_redis P) new_uuid4.
Proof. by intros w. Qed.
Lemma keeps_token_redis `{!Env} P n : keeps (on_redis P) (new_token_urlsafe n).
Proof. by intros w. Qed.
Lemma keeps_or_uuid4_redis `{!Env} P o : keeps (on_redis P) (or_uuid4 o).
Proof. destruct o; [apply keeps_ret|apply keeps_uuid4_redis]. Qed.
Lemma keeps_modify_db_redis P f : keeps (on_redis P) (modify_db f).
Proof. by intros w. Qed.
Lemma keeps_add_row_redis {row} P (table : Db -> list row) `{!Setter table} ok conflict r :
  keeps (on_redis P) (add_row table ok conflict r).
Proof. intros w Hw. unfold add_row, get_db, mbind, prog_bind. by case_match. Qed.
End OnRedis.
#[export] Hint Resolve keeps_draw_redis keeps_uuid4_redis keeps_token_redis keeps_or_uuid4_redis
  keeps_modify_db_redis keeps_add_row_redis : auth.

(** The clock, which no program moves. *)
Section OnClock.
Context {R : Type}.
Definition on_clock (t : Time) : World R -> Prop := fun w => w_now w = t.
Lemma keeps_tx_clock {A} t (m : prog R A) : keeps (on_clock t) m -> keeps (on_clock t) (tx m).
Proof. intros Hm w Hw. specialize (Hm w Hw). unfold tx. by destruct (m w) as [[e|a] w1]. Qed.
Lemma keeps_draw_clock t : keeps (on_clock t) draw.
Proof. by intros w. Qed.
Lemma keeps_modify_db_clock t f : keeps (on_clock t) (modify_db f).
Proof. by intros w. Qed.
Lemma keeps_modify_redis_clock t f : keeps (on_clock t) (modify_redis f).
Proof. by intros w. Qed.
Lemma keeps_add_row_clock {row} t (table : Db -> list row) `{!Setter table} ok conflict r :
  keeps (on_clock t) (add_row table ok conflict r).
Proof. intros w Hw. unfold add_row, get_db, mbind, prog_bind. by case_match. Qed.
End OnClock.
#[export] Hint Resolve keeps_draw_clock keeps_modify_db_clock keeps_modify_redis_clock keeps_add_row_clock : auth.

(** The outgoing mail, which only [_send] adds to. *)
Section OnMail.
Context {R : Type}.
Definition on_mail (l : list Mail) : World R -> Prop := fun w => w_mail w = l.
Lemma keeps_tx_mail {A} l (m : prog R A) : keeps (on_mail l) m -> keeps (on_mail l) (tx m).
Proof. intros Hm w Hw. specialize (Hm w Hw). unfold tx. by destruct (m w) as [[e|a] w1]. Qed.
Lemma keeps_draw_mail l : keeps (on_mail l) draw.
Proof. by intros w. Qed.
Lemma keeps_modify_db_mail l f : keeps (on_mail l) (modify_db f).
Proof. by intros w. Qed.
Lemma keeps_modify_redis_mail l f : keeps (on_mail l) (modify_redis f).
Proof. by intros w. Qed.
Lemma keeps_add_row_mail {row} l (table : Db -> list row) `{!Setter table} ok conflict r :
  keeps (on_mail l) (add_row table ok conflict r).
Proof. intros w Hw. unfold add_row, get_db, mbind, prog_bind. by case_match. Qed.
End OnMail.
#[export] Hint Resolve keeps_draw_mail keeps_modify_db_mail keeps_modify_redis_mail keeps_add_row_mail : auth.

(** Follow a program: one bind at a time, with its tests, through the definitions it calls. *)
Ltac head_of t := match t with ?f _ => head_of f | _ => t end.
Ltac keeps_unfold :=
  match goal with
  | |- keeps _ ?m =>
    let h := head_of m in
    lazymatch h with
    | @mbind => fail | @mret => fail | @tx => fail | @for_ => fail | @map_m => fail | @modify_db => fail
    | @modify_redis => fail | @add_row => fail | @try_except => fail
    | _ => unfold h
    end
  end.
Ltac keeps_step :=
  first
  [ solve [eauto 3 with auth]
  | lazymatch goal with
    | |- keeps _ (mbind _ _) => apply keeps_bind; [|intros ?]
    | |- keeps (on_db _) (tx _) => apply keeps_tx
    | |- keeps (on_redis _) (tx _) => apply keeps_tx_redis
    | |- keeps (on_clock _) (tx _) => apply keeps_tx_clock
    | |- keeps (on_mail _) (tx _) => apply keeps_tx_mail
    end
  | apply keeps_for; intros ?
  | apply keeps_map_m; intros ?
  | apply keeps_try
  | progress cbv zeta
  | match goal with |- keeps _ (if _ then _ else _) => case_match end
  | match goal with |- keeps _ (match _ with _ => _ end) => case_match end
  | keeps_unfold ].
Ltac keeps_all := repeat keeps_step.

(** ** What a program may raise *)

Section Raising.
Context {R : Type}.
Implicit Types (P : exc -> Prop) (w : World R).
Definition raises {A} P (m : prog R A) : Prop := forall w e w', m w = (inl e, w') -> P e.
Lemma raises_ret {A} P (a : A) : raises P (mret a).
Proof. by intros w e w'. Qed.
Lemma raises_raise {A} P e : P e -> raises P (raise e : prog R A).
Proof. by intros H w e' w' [= <- <-]. Qed.
Lemma raises_bind {A B} P (m : prog R A) (k : A -> prog R B) :
  raises P m -> (forall a, raises P (k a)) -> raises P (m ≫= k).
Proof. intros Hm Hk w e w' [H|(a & w1 & _ & H)]%bind_inl; [by eapply Hm|by eapply Hk]. Qed.
Lemma raises_tx {A} P (m : prog R A) : raises P m -> raises P (tx m).
Proof. intros Hm w e w' H. unfold tx in H. destruct (m w) as [[e0|a] w1] eqn:E; [|done]. injection H as -> _. by eapply Hm. Qed.
Lemma raises_try {A} P Q (m : prog R A) h : raises Q m ->
  (forall e, Q e -> match h e with Some k => raises P k | None => P e end) -> raises P (try_except m h).
Proof.
  intros Hm Hh w e w' H. unfold try_except in H. destruct (m w) as [[e0|a] w1] eqn:E; [|done].
  specialize (Hh e0 (Hm _ _ _ E)). destruct (h e0); [by eapply Hh|]. by injection H as <- _.
Qed.
Lemma raises_add_row {row} P (table : Db -> list row) `{!Setter table} ok conflict r :
  P IntegrityError -> raises P (add_row table ok conflict r : prog R unit).
Proof. intros HP w e w' [-> _]%add_row_inl. done. Qed.
Lemma raises_raise_if P b e : (b = true -> P e) -> raises P (raise_if b e : prog R unit).
Proof. destruct b; intros H; [by apply raises_raise, H|apply raises_ret]. Qed.
Lemma raises_get_or {A} P e (o : option A) : (o = None -> P e) -> raises P (get_or e o : prog R A).
Proof. destruct o; intros H; [apply raises_ret|by apply raises_raise, H]. Qed.
Lemma raises_get_db P : raises P (get_db : prog R Db). Proof. by intros w. Qed.
Lemma raises_get_redis P : raises P (get_redis : prog R R). Proof. by intros w. Qed.
Lemma raises_now P : raises P (now_utc : prog R Time). Proof. by intros w. Qed.
Lemma raises_draw P : raises P (draw : prog R N). Proof. by intros w. Qed.
Lemma raises_modify_db P f : raises P (modify_db f : prog R unit). Proof. by intros w. Qed.
Lemma raises_modify_redis P f : raises P (modify_redis f : prog R unit). Proof. by intros w. Qed.
Lemma raises_append_mail P m : raises P (append_mail m : prog R unit). Proof. by intros w. Qed.
Lemma raises_for {A} P (l : list A) (body : A -> prog R unit) : (forall a, raises P (body a)) -> raises P (for_ l body).
Proof. intros H. induction l; cbn; [apply raises_ret|]. by apply raises_bind. Qed.
Lemma raises_map_m {A B} P (f : A -> prog R B) l : (forall a, raises P (f a)) -> raises P (map_m f l).
Proof.
  intros H. induction l; cbn; [apply raises_ret|].
  apply raises_bind; [done|]. intros b. apply raises_bind; [done|]. intros bs. apply raises_ret.
Qed.
End Raising.
#[export] Hint Resolve raises_ret raises_get_db raises_get_redis raises_now raises_draw raises_modify_db
  raises_modify_redis raises_append_mail : auth.
(** Follow a program to the exceptions it raises; what is left are the exceptions themselves. *)
Ltac raises_unfold :=
  match goal with
  | |- raises _ ?m =>
    let h := head_of m in
    lazymatch h with
    | @mbind => fail | @mret => fail | @tx => fail | @for_ => fail | @map_m => fail | @modify_db => fail
    | @modify_redis => fail | @add_row => fail | @try_except => fail | @raise => fail | @raise_if => fail | @get_or => fail
    | _ => unfold h
    end
  end.
Ltac raises_step :=
  first
  [ solve [eauto 3 with auth]
  | lazymatch goal with
    | |- raises _ (mbind _ _) => apply raises_bind; [|intros ?]
    | |- raises _ (tx _) => apply raises_tx
    | |- raises _ (raise _) => apply raises_raise
    | |- raises _ (raise_if _ _) => apply raises_raise_if; intros ?
    | |- raises _ (get_or _ _) => apply raises_get_or; intros ?
    | |- raises _ (add_row _ _ _ _) => apply raises_add_row
    | |- raises _ (for_ _ _) => apply raises_for; intros ?
    | |- raises _ (map_m _ _) => apply raises_map_m; intros ?
    end
  | progress cbv zeta
  | match goal with |- raises _ (if _ then _ else _) => case_match end
  | match goal with |- raises _ (match _ with _ => _ end) => case_match end
  | raises_unfold ].
Ltac raises_all := repeat raises_step.

(** [run_inv H]: a program that returned went through each of its steps. *)
Ltac run_step H :=
  match type of H with
  | mret _ _ = _ => injection H; clear H; intros; try subst
  | raise _ _ = (inr _, _) => discriminate H
  | raise _ _ = (inl _, _) => injection H; clear H; intros; try subst
  | (inr _, _) = (inl _, _) => discriminate H
  | (inl _, _) = (inr _, _) => discriminate H
  | (inr _, _) = (inr _, _) => injection H; clear H; intros; try subst
  | (inl _, _) = (inl _, _) => injection H; clear H; intros; try subst
  | get_db _ = _ => injection H; clear H; intros; try subst
  | get_redis _ = _ => injection H; clear H; intros; try subst
  | now_utc _ = _ => injection H; clear H; intros; try subst
  | modify_db _ _ = _ => injection H; clear H; intros; try subst
  | modify_redis _ _ = _ => injection H; clear H; intros; try subst
  | tx _ _ = (inr _, _) => apply tx_inr in H
  | (_ ≫= _) _ = (inr _, _) =>
      let a := fresh "a" in let w := fresh "w" in let H1 := fresh "H" in
      apply bind_inr in H as (a & w & H1 & H); try run_step H1
  | raise_if ?b _ _ = (inr _, _) => destruct b eqn:?; [discriminate H|]; injection H; clear H; intros; try subst
  | get_or _ ?o _ = (inr _, _) => destruct o eqn:?; [|discriminate H]; injection H; clear H; intros; try subst
  end.

(** ** Sequences of requests

    Each request runs at its own instant on the world the previous one left. *)
Fixpoint run_at {R A B} (handler : A -> prog R B) (requests : list (Time * A)) (w : World R)
    : list (exc + B) * World R :=
  match requests with
  | [] => ([], w)
  | (t, a) :: requests =>
    let '(x, w) := handler a (at_time t w) in
    let '(xs, w) := run_at handler requests w in (x :: xs, w)
  end.

Lemma run_at_app {R A B} (handler : A -> prog R B) l1 l2 w :
  run_at handler (l1 ++ l2) w =
  let '(xs, w1) := run_at handler l1 w in let '(ys, w2) := run_at handler l2 w1 in (xs ++ ys, w2).
Proof.
  revert w. induction l1 as [|[t a] l1 IH]; intros w; cbn [run_at app].
  - by destruct (run_at handler l2 w).
  - destruct (handler a (at_time t w)) as [x w1]. rewrite IH. destruct (run_at handler l1 w1) as [xs w2].
    by destruct (run_at handler l2 w2).
Qed.
Lemma run_at_length {R A B} (handler : A -> prog R B) l w : length (run_at handler l w).1 = length l.
Proof.
  revert w. induction l as [|[t a] l IH]; intros w; [done|]. cbn [run_at]. destruct (handler a (at_time t w)) as [x w1].
  specialize (IH w1). destruct (run_at handler l w1). cbn in *. by rewrite IH.
Qed.

(** What every request keeps, a sequence of them keeps. *)
Lemma keeps_run_at {R A B} (P : Db -> Prop) (handler : A -> prog R B) requests w :
  (forall t a, (t, a) ∈ requests -> keeps (on_db P) (handler a)) -> P (w_db w) ->
  P (w_db (run_at handler requests w).2).
Proof.
  revert w. induction requests as [|[t a] requests IH]; intros w Hk Hw; cbn [run_at]; [done|].
  pose proof (Hk t a ltac:(by left) (at_time t w) Hw) as H1. destruct (handler a (at_time t w)) as [x w1].
  specialize (IH w1 ltac:(intros t' a' Hin; apply (Hk t'); by right) H1).
  by destruct (run_at handler requests w1).
Qed.

(** ** An environment for concrete runs *)

(** Stands for SHA-256 in the witnesses: 64 hexadecimal digits of a polynomial of the text. *)
Fixpoint poly_hash (acc : N) (s : string) : N :=
  match s with EmptyString => acc | String c s => poly_hash ((acc * 1000003 + code c + 1) mod 2 ^ 256) s end.
Definition mix (n : N) : N :=
  ((n + 1) * 0x9E3779B97F4A7C15F39CC0605CEDC8341082276BF3A27251F86C6A11D0C18E95 mod 2 ^ 256)%N.
Definition test_hash (s : string) : string := hex_digits 64 (mix (poly_hash 7 s)) "".
Definition test_uuid (n : N) : UUID := uuid_of_N (0xA0000000000000000000000000000000 + n)%N.

Definition test_tag (nonce ad : string) : string := take_s 32 (test_hash (nonce +:+ "/" +:+ ad)).

(** Stands for JWT encoding: a reversible text of a dict of texts, numbers and lists of texts. *)
Definition put_text (s : string) : string := hex_digits 4 (N.of_nat (String.length s)) s.
Definition put_int (n : Z) : string := hex_digits 16 (Z.to_N n) "".
Definition put_json (j : json) : string :=
  match j with
  | JStr s => "s" +:+ put_text s
  | JNum n => "n" +:+ put_int n
  | JList l =>
    "l" +:+ hex_digits 4 (N.of_nat (length l)) "" +:+
    String.concat "" (List.map (fun j => match j with JStr s => put_text s | _ => "" end) l)
  | _ => ""
  end.
Definition put_dict (d : dict) : string :=
  String.concat "" (List.map (fun kv => put_text kv.1 +:+ put_json kv.2) d).
Definition take_text (s : string) : option (string * string) :=
  n ← hex_read 0 (take_s 4 s);
  let n := N.to_nat n in Some (take_s n (drop_s 4 s), drop_s (4 + n) s).
Fixpoint take_texts (n : nat) (s : string) : option (list json * string) :=
  match n with
  | O => Some ([], s)
  | S n => '(t, s) ← take_text s; '(l, s) ← take_texts n s; Some (JStr t :: l, s)
  end.
Definition take_json (s : string) : option (json * string) :=
  match s with
  | String "s" s => '(t, s) ← take_text s; Some (JStr t, s)
  | String "n" s => n ← hex_read 0 (take_s 16 s); Some (JNum (Z.of_N n), drop_s 16 s)
  | String "l" s =>
    n ← hex_read 0 (take_s 4 s); '(l, s) ← take_texts (N.to_nat n) (drop_s 4 s); Some (JList l, s)
  | _ => None
  end.
Fixpoint take_dict (fuel : nat) (s : string) : option dict :=
  match fuel, s with
  | _, EmptyString => Some []
  | O, _ => None
  | S fuel, _ => '(k, s) ← take_text s; '(v, s) ← take_json s; d ← take_dict fuel s; Some ((k, v) :: d)
  end.
Definition jnum (k : string) (d : dict) : option Z :=
  match jget k d with Some (JNum n) => Some n | _ => None end.
Definition test_jwt_decode (token : string) (now : Time) (aud iss : string) : option dict :=
  d ← take_dict 20 token;
  exp ← jnum "exp" d;
  if (now <? fromtimestamp exp) && (jget "aud" d == Some (JStr aud)) && (jget "iss" d == Some (JStr iss))
  then Some d else None.

(** The local settings, with a function standing for HMAC-SHA-256. *)
Definition test_env (hmac : string -> string -> string) : Env := {|
  redis_key_hmac_secret := "local-development-key-change-me";
  otp_hmac_secret := "local-otp-key-change-me";
  login_signal_hmac_secret := "local-login-signal-key-change-me";
  backup_code_hmac_secret := "local-backup-code-key-change-me";
  refresh_token_hmac_secret := "local-refresh-token-key-change-me";
  recovery_token_hmac_secret := "local-recovery-token-key-change-me";
  workspace_token_hmac_secret := "local-workspace-token-key-change-me";
  privacy_idempotency_hmac_secret := "local-privacy-idempotency-key-change-me";
  privacy_export_ttl_hours := 24;
  privacy_backup_purge_days := 30;
  local_captcha_token := "local-development-pass";
  local_oidc_signing_secret := "local-oidc-signing-key-change-me";
  local_oidc_frontend_url := "http://localhost:3000";
  verification_base_url := "http://localhost:3000/verify-email";
  password_reset_base_url := "http://localhost:3000/reset-password";
  email_sender := "no-reply@local.vittavaan.test";
  local_sms_inbox := "sms@local.vittavaan.test";
  referral_base_url := "http://localhost:3000/signup";
  organization_invitation_base_url := "http://localhost:3000/organization-invitation";
  webauthn_rp_id := "localhost";
  webauthn_rp_name := "Vittavaan";
  webauthn_allowed_origins := "http://localhost:3000";
  jwt_issuer := "http://localhost:8000";
  jwt_audience := "grox-platform";
  token_hex nbytes d := hex_digits (2 * N.to_nat nbytes) d "";
  token_urlsafe nbytes d := "tok" +:+ hex_digits 8 d "";
  randbelow n d := (d mod n)%N;
  uuid4 d := test_uuid d;
  hmac_sha256 := hmac;
  sha256_hex := test_hash;
  sha256_b64url := test_hash;
  argon2_hash d password := "argon2$" +:+ password;
  argon2_verify hash password := Some (hash == "argon2$" +:+ password);
  argon2_needs_rehash hash := Some false;
  sha1_hex s := take_s 40 (test_hash s);
  hibp_range prefix := Some ("0018A45C4D1DEF81644B54AB7F969B88D65:3" +:+ String "010" "");
  urandom n d := hex_digits n d "";
  aes_encrypt nonce plaintext ad := test_tag nonce ad +:+ plaintext;
  aes_decrypt nonce ciphertext ad :=
    if take_s 32 ciphertext == test_tag nonce ad then Some (drop_s 32 ciphertext) else None;
  random_base32 d := hex_digits 8 d "";
  provisioning_uri secret account := "otpauth://" +:+ account +:+ "/" +:+ secret;
  totp_at secret step := take_s 6 (test_hash (secret +:+ hex_digits 16 (Z.to_N step) ""));
  generate_registration_options d rp_id rp_name user name existing verification :=
    ([("challenge", JNum (Z.of_N d)); ("rp", JStr rp_id)], hex_digits 8 d "");
  generate_authentication_options d rp_id allowed verification := ([("challenge", JNum (Z.of_N d))], hex_digits 8 d "");
  authenticator_transports := ["usb"; "nfc"; "ble"; "internal"; "cable"; "hybrid"];
  base64url_to_bytes text := Some text;
  verify_registration_response credential challenge rp_id expected_origins verified :=
    match jstr "rawId" credential with
    | Some raw => Some (MkVerifiedRegistration raw ("pk-" +:+ raw) 0 "multi_device" false)
    | None => None
    end;
  verify_authentication_response credential challenge rp_id expected_origins public_key sign_count verified :=
    match jget "signCount" credential with Some (JNum n) => Some (n, false) | _ => None end;
  jwt_encode := put_dict;
  jwt_decode := test_jwt_decode;
  jwt_public_numbers := (65537 * 1000003, 65537)%N;
  jwt_kid := "0123456789abcdef";
  text_le a b := match String.compare a b with Gt => false | _ => true end;
  smtp_accepts d m := true |}.
#[export] Instance TestEnv : Env := test_env (fun key text => test_hash (key +:+ "/" +:+ text)).

Definition test_world (db : Db) (now : Time) : World mem_redis := MkWorld db empty_redis now 0 [].
