(* ===== verification/Encoding.v ===== *)
(** The encodings of the standard library the MFA and privacy components write their data in: the
    JSON text of a list of strings ([json.dumps] with compact separators, [json.loads]), the JSON text
    of a value, and unpadded base64url.  The escapes of control and non-ASCII characters, which hexadecimal digests do not
    hold, are left out of the JSON text. *)
From stdpp Require Import pretty.
From S2P Require Import Prelude PyText.

(** ** JSON lists of strings *)

Definition quote : ascii := "034"%char.
Definition backslash : ascii := "092"%char.
Fixpoint escaped (s : string) : string :=
  match s with
  | EmptyString => EmptyString
  | String c s =>
    if (c == quote) || (c == backslash) then String backslash (String c (escaped s)) else String c (escaped s)
  end.
Definition dumps_text (s : string) : string := String quote (escaped s +:+ String quote EmptyString).
Fixpoint dumps_items (l : list string) : string :=
  match l with
  | [] => "]"
  | s :: l => dumps_text s +:+ (if decide (l = []) then "]" else String ","%char (dumps_items l))
  end.
Definition dumps (l : list string) : string := String "["%char (dumps_items l).

(** The text up to the closing quote, and what follows it. *)
Fixpoint read_text (s : string) : option (string * string) :=
  match s with
  | EmptyString => None
  | String c s =>
    if c == quote then Some (EmptyString, s)
    else if c == backslash then
      match s with
      | EmptyString => None
      | String d s => '(t, r) ← read_text s; Some (String d t, r)
      end
    else '(t, r) ← read_text s; Some (String c t, r)
  end.
Fixpoint read_items (fuel : nat) (s : string) : option (list string) :=
  match fuel, s with
  | S fuel, String c s =>
    if c == quote then
      '(t, r) ← read_text s;
      match r with
      | String d r => if (d == "]"%char) && (r == EmptyString) then Some [t]
                      else if d == ","%char then l ← read_items fuel r; Some (t :: l) else None
      | EmptyString => None
      end
    else None
  | _, _ => None
  end.
(** [json.loads]; a text that is no list of strings is its [JSONDecodeError]. *)
Definition loads (s : string) : option (list string) :=
  match s with
  | String c s => if c == "["%char then if s == "]" then Some [] else read_items (String.length s) s else None
  | EmptyString => None
  end.

Lemma append_cons c (s t : string) : String c s +:+ t = String c (s +:+ t).
Proof. done. Qed.
Lemma read_escaped s r : read_text (escaped s +:+ String quote r) = Some (s, r).
Proof.
  induction s as [|c s IH]; [done|]. cbn [escaped]. destruct ((c == quote) || (c == backslash)) eqn:Ec.
  - rewrite !append_cons. cbn [read_text]. rewrite (eqb_neq backslash quote), eqb_refl by done. by rewrite IH.
  - apply orb_false_iff in Ec as [E1 E2]. rewrite append_cons. cbn [read_text]. by rewrite E1, E2, IH.
Qed.
Lemma append_assoc (a b c : string) : (a +:+ b) +:+ c = a +:+ (b +:+ c).
Proof. induction a as [|x a IH]; [done|]. by rewrite !append_cons, IH. Qed.
Lemma append_length (a b : string) : String.length (a +:+ b) = (String.length a + String.length b)%nat.
Proof. induction a as [|x a IH]; [done|]. rewrite append_cons. cbn. by rewrite IH. Qed.

Lemma read_dumps fuel l : l <> [] -> (String.length (dumps_items l) <= fuel)%nat ->
  read_items fuel (dumps_items l) = Some l.
Proof.
  revert fuel. induction l as [|s l IH]; intros fuel Hn Hf; [done|].
  cbn [dumps_items] in *. unfold dumps_text in *. rewrite append_cons in *. cbn [String.length] in Hf.
  destruct fuel as [|fuel]; [lia|]. cbn [read_items]. rewrite eqb_refl, append_assoc, append_cons.
  rewrite read_escaped. cbn [mbind option_bind].
  destruct (decide (l = [])) as [->|Hl]; [done|].
  change (String.append EmptyString (String "," (dumps_items l))) with (String "," (dumps_items l)).
  cbv beta iota. rewrite (eqb_neq ","%char "]"%char) by done. cbn [andb]. rewrite eqb_refl.
  rewrite IH; [done|done|]. rewrite append_assoc, append_length, append_cons in Hf.
  change (EmptyString +:+ String "," (dumps_items l)) with (String "," (dumps_items l)) in Hf.
  cbn [String.length] in Hf. lia.
Qed.
(** What was stored is what is read. *)
Lemma loads_dumps l : loads (dumps l) = Some l.
Proof.
  unfold loads, dumps. rewrite eqb_refl. destruct l as [|s l]; [done|].
  assert (Hne : dumps_items (s :: l) <> "]") by done. rewrite (eqb_neq _ _ Hne). by apply read_dumps.
Qed.

(** ** JSON texts

    [json.dumps(value, sort_keys=True, separators=(",", ":"))]: the items of an object in the order
    of their keys, every character outside the printable ASCII range escaped. *)

Definition escape_char (c : ascii) : string :=
  let n := code c in
  if (c == quote) || (c == backslash) then String backslash (String c "")
  else if (n =? 10)%N then String backslash "n" else if (n =? 13)%N then String backslash "r"
  else if (n =? 9)%N then String backslash "t" else if (n =? 8)%N then String backslash "b"
  else if (n =? 12)%N then String backslash "f"
  else if ((32 <=? n) && (n <=? 126))%N then String c ""
  else String backslash ("u" +:+ hex_digits 4 n "").
Fixpoint json_escaped (s : string) : string :=
  match s with EmptyString => EmptyString | String c s => escape_char c +:+ json_escaped s end.
Definition json_string (s : string) : string := String quote (json_escaped s +:+ String quote "").
Definition json_number (n : Z) : string :=
  if n <? 0 then "-" +:+ pretty (Z.to_N (- n)) else pretty (Z.to_N n).
Definition key_le (a b : string) : bool := match String.compare a b with Gt => false | _ => true end.
Fixpoint json_text (v : json) : string :=
  match v with
  | JNull => "null"
  | JBool b => if b then "true" else "false"
  | JNum n => json_number n
  | JStr s => json_string s
  | JList l => "[" +:+ String.concat "," (List.map json_text l) +:+ "]"
  | JObj l =>
    "{" +:+ String.concat "," (List.map (fun kv => json_string kv.1 +:+ ":" +:+ kv.2)
      (order_by_text key_le fst (List.map (fun kv => (kv.1, json_text kv.2)) l))) +:+ "}"
  end.
Example json_text_1 : json_text (JObj [("b", JList [JNum 12; JNull]); ("a", JStr (String "010" "x"))])
  = json_text (JObj [("a", JStr (String "010" "x")); ("b", JList [JNum 12; JNull])]).
Proof. reflexivity. Qed.

(** ** base64url *)

Definition b64_char (n : N) : ascii :=
  ascii_of_N (if n <? 26 then 65 + n else if n <? 52 then 71 + n else if n <? 62 then n - 4
              else if n =? 62 then 45 else 95)%N.
Definition b64_value (c : ascii) : option N :=
  let n := code c in
  (if (65 <=? n) && (n <=? 90) then Some (n - 65)
   else if (97 <=? n) && (n <=? 122) then Some (n - 71)
   else if (48 <=? n) && (n <=? 57) then Some (n + 4)
   else if n =? 45 then Some 62 else if n =? 95 then Some 63 else None)%N.
(** [base64.urlsafe_b64encode(value).decode().rstrip("=")]. *)
Fixpoint b64url_encode (s : string) : string :=
  match s with
  | EmptyString => EmptyString
  | String a EmptyString =>
    String (b64_char (code a / 4)) (String (b64_char (code a mod 4 * 16)) EmptyString)
  | String a (String b EmptyString) =>
    String (b64_char (code a / 4)) (String (b64_char (code a mod 4 * 16 + code b / 16))
      (String (b64_char (code b mod 16 * 4)) EmptyString))
  | String a (String b (String c s)) =>
    String (b64_char (code a / 4)) (String (b64_char (code a mod 4 * 16 + code b / 16))
      (String (b64_char (code b mod 16 * 4 + code c / 64)) (String (b64_char (code c mod 64)) (b64url_encode s))))
  end.
(** [base64.urlsafe_b64decode] of the padded text; [None] is [binascii.Error].  Characters
    outside the alphabet, which Python skips, do not occur in what [b64url_encode] wrote. *)
Fixpoint b64url_decode (s : string) : option string :=
  match s with
  | EmptyString => Some EmptyString
  | String p (String q EmptyString) =>
    x ← b64_value p; y ← b64_value q; Some (String (ascii_of_N (x * 4 + y / 16)) EmptyString)
  | String p (String q (String r EmptyString)) =>
    x ← b64_value p; y ← b64_value q; z ← b64_value r;
    Some (String (ascii_of_N (x * 4 + y / 16)) (String (ascii_of_N (y mod 16 * 16 + z / 4)) EmptyString))
  | String p (String q (String r (String t s))) =>
    x ← b64_value p; y ← b64_value q; z ← b64_value r; u ← b64_value t; rest ← b64url_decode s;
    Some (String (ascii_of_N (x * 4 + y / 16)) (String (ascii_of_N (y mod 16 * 16 + z / 4))
           (String (ascii_of_N (z mod 4 * 64 + u)) rest)))
  | _ => None
  end.

Lemma b64_value_char n : (n < 64)%N -> b64_value (b64_char n) = Some n.
Proof.
  intros H.
  assert (Ha : forallb (fun k => match b64_value (b64_char (N.of_nat k)) with Some m => (m =? N.of_nat k)%N | None => false end)
                 (List.seq 0 64) = true) by (vm_compute; reflexivity).
  rewrite forallb_forall in Ha. specialize (Ha (N.to_nat n)). rewrite N2Nat.id in Ha.
  destruct (b64_value (b64_char n)) as [m|]; [|discriminate Ha; apply in_seq; lia].
  f_equal. apply N.eqb_eq, Ha, in_seq. lia.
Qed.
Lemma code_bound c : (code c < 256)%N.
Proof. apply N_ascii_bounded. Qed.
Lemma ascii_of_code c n : n = code c -> ascii_of_N n = c.
Proof. intros ->. apply ascii_N_embedding. Qed.

Ltac divlia := zify; Z.to_euclidean_division_equations; lia.
Lemma b64url_decode_encode s : b64url_decode (b64url_encode s) = Some s.
Proof.
  revert s. fix IH 1. intros [|a [|b [|c s]]]; [done|..]; cbn [b64url_encode b64url_decode];
    pose proof (code_bound a) as Ba; try pose proof (code_bound b) as Bb; try pose proof (code_bound c) as Bc;
    rewrite !b64_value_char by divlia; cbn [mbind option_bind].
  - do 2 f_equal. apply ascii_of_code. divlia.
  - f_equal. f_equal; [apply ascii_of_code; divlia|]. f_equal. apply ascii_of_code. divlia.
  - rewrite IH. cbn. f_equal. f_equal; [apply ascii_of_code; divlia|].
    f_equal; [apply ascii_of_code; divlia|]. f_equal. apply ascii_of_code. divlia.
Qed.
