(* ===== verification/WebAuthn.v ===== *)
(** [infrastructure/providers/webauthn.py]: passkeys, around the functions of py_webauthn. *)
From S2P Require Import Prelude PyText Entity World.
From S2P Require Config.

Section Provider.
Context {E : Env}.

(** [self._origins]: [settings.allowed_webauthn_origins]. *)
Definition _origins : list string := Config.origins webauthn_allowed_origins.
Definition REQUIRED : string := "required".

Definition registration_options (draw : N) (user_id : UUID) (user_name : string) (existing_credentials : list string)
    : dict * string :=
  generate_registration_options draw webauthn_rp_id webauthn_rp_name user_id user_name existing_credentials REQUIRED.

(** Only transports the library knows are kept. *)
Definition known_transport (v : json) : option string :=
  match v with JStr s => if s is_in authenticator_transports then Some s else None | _ => None end.
Definition _transports (credential : dict) : list string :=
  match jget "response" credential with
  | Some (JObj response) =>
    match jget "transports" response with Some (JList values) => omap known_transport values | _ => [] end
  | _ => []
  end.

(** The tuple [verify_registration] returns. *)
Record VerifiedPasskey := MkVerifiedPasskey {
  vp_credential_id : string; vp_public_key : string; vp_sign_count : Z; vp_transports : list string;
  vp_backup_eligible : bool; vp_backup_state : bool }.
Definition verify_registration (credential : dict) (expected_challenge : string) : option VerifiedPasskey :=
  verified ← verify_registration_response credential expected_challenge webauthn_rp_id _origins true;
  Some (MkVerifiedPasskey (vr_credential_id verified) (vr_credential_public_key verified) (vr_sign_count verified)
    (_transports credential) (vr_credential_device_type verified == "multi_device") (vr_credential_backed_up verified)).

(** [None] is the [ValueError] of [AuthenticatorTransport(value)]. *)
Definition descriptor (item : StoredPasskey) : option (string * list string) :=
  if forallb (fun v => v is_in authenticator_transports) (sp_transports item)
  then Some (sp_credential_id item, sp_transports item) else None.
Definition authentication_options (draw : N) (credentials : list StoredPasskey) : option (dict * string) :=
  descriptors ← mapM descriptor credentials;
  Some (generate_authentication_options draw webauthn_rp_id
          (match descriptors with [] => None | _ => Some descriptors end) REQUIRED).

(** [None] is a [ValueError], also of a [rawId] the decoder refuses. *)
Definition credential_id (credential : dict) : option string :=
  raw_id ← jstr "rawId" credential; base64url_to_bytes raw_id.

Definition verify_authentication (credential : dict) (expected_challenge : string) (stored : StoredPasskey)
    : option (Z * bool) :=
  verify_authentication_response credential expected_challenge webauthn_rp_id _origins (sp_public_key stored)
    (sp_sign_count stored) true.

(** What a registration stores as transports, the options of an authentication accept. *)
Lemma stored_transports_accepted credential item :
  sp_transports item = _transports credential -> descriptor item = Some (sp_credential_id item, sp_transports item).
Proof.
  intros H. unfold descriptor. rewrite H.
  assert (Hk : forallb (fun v => v is_in authenticator_transports) (_transports credential) = true); [|by rewrite Hk].
  unfold _transports. destruct (jget "response" credential) as [[]|]; try reflexivity.
  destruct (jget "transports" l) as [[]|]; try reflexivity. apply forallb_forall. intros s Hs%list_elem_of_In.
  apply list_elem_of_omap in Hs as (v & _ & Hv). destruct v; try discriminate Hv. cbn [known_transport] in Hv.
  destruct (s0 is_in authenticator_transports) eqn:Hin; [|discriminate Hv]. by injection Hv as <-.
Qed.
End Provider.
