(* ===== verification/JsonText.v ===== *)
(** Reading JSON: [json.loads] on the texts the service reads back, for the payloads of the local
    OpenID Connect provider.

    Numbers are integers; a fraction or an exponent, which Python reads as a float, and a surrogate pair
    are refused.  White space is accepted where JSON has it. *)
From S2P Require Import Prelude PyText Encoding.

Definition is_blank (c : ascii) : bool := let n := code c in ((n =? 32) || (n =? 9) || (n =? 10) || (n =? 13))%N.
Definition skip (s : string) : string := drop_while is_blank s.

(** The character an escape stands for. *)
Definition unescape (c : ascii) : option ascii :=
  if (c == quote) || (c == backslash) || (c == "/"%char) then Some c
  else if c == "n"%char then Some (ascii_of_N 10) else if c == "r"%char then Some (ascii_of_N 13)
  else if c == "t"%char then Some (ascii_of_N 9) else if c == "b"%char then Some (ascii_of_N 8)
  else if c == "f"%char then Some (ascii_of_N 12) else None.
(** The text up to the closing quote, and what follows it; control characters are refused. *)
Fixpoint read_string (s : string) : option (string * string) :=
  match s with
  | EmptyString => None
  | String c s =>
    if c == quote then Some (EmptyString, s)
    else if c == backslash then
      match s with
      | String "u" (String a (String b (String d (String e s)))) =>
        n ← hex_read 0 (String a (String b (String d (String e EmptyString))));
        if (n <? 256)%N then '(t, r) ← read_string s; Some (String (ascii_of_N n) t, r) else None
      | String d s => x ← unescape d; '(t, r) ← read_string s; Some (String x t, r)
      | EmptyString => None
      end
    else if (code c <? 32)%N then None
    else '(t, r) ← read_string s; Some (String c t, r)
  end.

(** Decimal digits, and what follows them. *)
Fixpoint read_digits (s : string) : string * string :=
  match s with
  | String c r => if is_digit c then let '(d, r) := read_digits r in (String c d, r) else (EmptyString, s)
  | EmptyString => (EmptyString, EmptyString)
  end.
Definition read_natural (s : string) : option (Z * string) :=
  match read_digits s with
  | (EmptyString, _) => None
  | (String "0" (String _ _), _) => None
  | (d, r) =>
    match r with
    | String "." _ | String "e" _ | String "E" _ => None
    | _ => Some (Z.of_N (dec_value 0 d), r)
    end
  end.
Definition read_number (s : string) : option (json * string) :=
  match s with
  | String "-" s => '(n, r) ← read_natural s; Some (JNum (- n), r)
  | _ => '(n, r) ← read_natural s; Some (JNum n, r)
  end.

(** What follows a word the text starts with. *)
Fixpoint after (word s : string) {struct word} : option string :=
  match word, s with
  | EmptyString, _ => Some s
  | String a word, String b s => if a == b then after word s else None
  | String _ _, EmptyString => None
  end.
Definition read_scalar (s : string) : option (json * string) :=
  match after "null" s, after "true" s, after "false" s with
  | Some r, _, _ => Some (JNull, r)
  | _, Some r, _ => Some (JBool true, r)
  | _, _, Some r => Some (JBool false, r)
  | _, _, _ => read_number s
  end.

(** A value and what follows it; every step of the fuel reads at least one character. *)
Fixpoint read_value (fuel : nat) (s : string) {struct fuel} : option (json * string) :=
  match fuel with
  | O => None
  | S fuel =>
    let s := skip s in
    match s with
    | String c r =>
      if c == quote then '(t, r) ← read_string r; Some (JStr t, r)
      else if c == "{"%char then
        match skip r with
        | String "}" r => Some (JObj [], r)
        | r => '(l, r) ← read_members fuel r; Some (JObj (assoc_update [] l), r)
        end
      else if c == "["%char then
        match skip r with
        | String "]" r => Some (JList [], r)
        | r => '(l, r) ← read_elements fuel r; Some (JList l, r)
        end
      else read_scalar s
    | EmptyString => None
    end
  end
with read_members (fuel : nat) (s : string) {struct fuel} : option (dict * string) :=
  match fuel with
  | O => None
  | S fuel =>
    match skip s with
    | String c r =>
      if c == quote then
        '(k, r) ← read_string r;
        match skip r with
        | String ":" r =>
          '(v, r) ← read_value fuel r;
          match skip r with
          | String "," r => '(l, r) ← read_members fuel r; Some ((k, v) :: l, r)
          | String "}" r => Some ([(k, v)], r)
          | _ => None
          end
        | _ => None
        end
      else None
    | EmptyString => None
    end
  end
with read_elements (fuel : nat) (s : string) {struct fuel} : option (list json * string) :=
  match fuel with
  | O => None
  | S fuel =>
    '(v, r) ← read_value fuel s;
    match skip r with
    | String "," r => '(l, r) ← read_elements fuel r; Some (v :: l, r)
    | String "]" r => Some ([v], r)
    | _ => None
    end
  end.
(** [json.loads(text)]; [None] is [JSONDecodeError]. *)
Definition json_loads (s : string) : option json :=
  '(v, r) ← read_value (S (String.length s)) s; if skip r == "" then Some v else None.

(** [json.dumps(value, separators=(",", ":"))] of an object: the items in their order. *)
Definition dumps_member (kv : string * json) : string := json_string kv.1 +:+ ":" +:+ json_text kv.2.
Definition dumps_object (d : dict) : string := "{" +:+ String.concat "," (List.map dumps_member d) +:+ "}".

Example json_loads_1 : json_loads (" " +:+ dumps_object [("a", JList [JNum 1; JNum (-20); JBool true]); ("b", JNull); ("a", JObj [])] +:+ " ")
  = Some (JObj [("a", JObj []); ("b", JNull)]).
Proof. reflexivity. Qed.
Example json_loads_2 : List.map json_loads ["1.5"; "01"; "[1,]"; "nul"; "7 8"] = [None; None; None; None; None].
Proof. reflexivity. Qed.

(** ** What was written is what is read *)

Lemma read_escape c r : read_string (escape_char c +:+ r) = '(t, r) ← read_string r; Some (String c t, r).
Proof. destruct c as [[] [] [] [] [] [] [] []]; reflexivity. Qed.
Lemma read_json_escaped s r : read_string (json_escaped s +:+ String quote r) = Some (s, r).
Proof.
  induction s as [|c s IH]; [reflexivity|]. cbn [json_escaped]. rewrite append_assoc, read_escape, IH. reflexivity.
Qed.

(** The values of a flat object. *)
Definition flat (v : json) : bool := match v with JStr _ | JBool _ | JNull => true | _ => false end.
Lemma read_flat fuel v r : flat v = true -> read_value (S fuel) (json_text v +:+ r) = Some (v, r).
Proof.
  intros Hv. destruct v as [|[]| |t| |]; try discriminate Hv; try reflexivity.
  cbn [json_text]. unfold json_string. rewrite append_cons, append_assoc.
  change (read_value (S fuel) (String quote (json_escaped t +:+ (String quote "" +:+ r))))
    with ('(t0, r0) ← read_string (json_escaped t +:+ String quote r); Some (JStr t0, r0)).
  by rewrite read_json_escaped.
Qed.
Lemma read_member fuel kv r : flat kv.2 = true -> read_members (S (S fuel)) (dumps_member kv +:+ r)
  = match skip r with
    | String "," r => '(l, r) ← read_members (S fuel) r; Some (kv :: l, r)
    | String "}" r => Some ([kv], r)
    | _ => None
    end.
Proof.
  intros Hv. destruct kv as [k v]. cbn [fst snd] in *. unfold dumps_member, json_string. cbn [fst snd].
  rewrite !append_cons, !append_assoc.
  transitivity ('(k0, r0) ← read_string (json_escaped k +:+ String quote (String ":" (json_text v +:+ r)));
          match skip r0 with
          | String ":" r1 => '(v0, r2) ← read_value (S fuel) r1;
            match skip r2 with
            | String "," r3 => '(l, r4) ← read_members (S fuel) r3; Some ((k0, v0) :: l, r4)
            | String "}" r3 => Some ([(k0, v0)], r3)
            | _ => None
            end
          | _ => None
          end); [reflexivity|].
  rewrite read_json_escaped. cbn [mbind option_bind].
  change (skip (String ":" (json_text v +:+ r))) with (String ":" (json_text v +:+ r)). cbv beta iota.
  rewrite (read_flat fuel v r Hv). reflexivity.
Qed.
Lemma read_flat_members fuel d r : d <> [] -> forallb (fun kv => flat kv.2) d = true -> (length d < fuel)%nat ->
  read_members fuel (String.concat "," (List.map dumps_member d) +:+ String "}" r) = Some (d, r).
Proof.
  revert fuel. induction d as [|kv d IH]; intros fuel Hn Hf Hl; [done|]. cbn [forallb length] in *.
  apply andb_true_iff in Hf as [Hkv Hf]. destruct fuel as [|[|fuel]]; [lia|lia|].
  destruct d as [|kv' d].
  - change (String.concat "," (List.map dumps_member [kv])) with (dumps_member kv).
    rewrite read_member by done. reflexivity.
  - change (String.concat "," (List.map dumps_member (kv :: kv' :: d)))
      with (dumps_member kv +:+ ("," +:+ String.concat "," (List.map dumps_member (kv' :: d)))).
    rewrite !append_assoc, read_member by done.
    change (skip ("," +:+ (String.concat "," (List.map dumps_member (kv' :: d)) +:+ String "}" r)))
      with (String "," (String.concat "," (List.map dumps_member (kv' :: d)) +:+ String "}" r)). cbv beta iota.
    rewrite IH; [reflexivity|done|done|lia].
Qed.
Lemma length_members d : (length d <= String.length (String.concat "," (List.map dumps_member d)))%nat.
Proof.
  assert (Hm : forall kv, (1 <= String.length (dumps_member kv))%nat).
  { intros [k v]. unfold dumps_member, json_string. cbn [fst snd]. rewrite append_cons. cbn [String.length]. lia. }
  induction d as [|kv [|kv' d] IH]; [cbn; lia|apply Hm|].
  change (String.concat "," (List.map dumps_member (kv :: kv' :: d)))
    with (dumps_member kv +:+ ("," +:+ String.concat "," (List.map dumps_member (kv' :: d)))).
  rewrite !append_length. specialize (Hm kv). change (String.length ",") with 1%nat. cbn [length] in *. lia.
Qed.
Lemma assoc_set_new {A} k (v : A) l : k ∉ List.map fst l -> assoc_set k v l = l ++ [(k, v)].
Proof.
  induction l as [|[k' v'] l IH]; intros H; [done|]. cbn in *. apply not_elem_of_cons in H as [Hne H].
  rewrite eqb_neq by congruence. by rewrite IH.
Qed.
Lemma assoc_update_app {A} (items : list (string * A)) : NoDup (List.map fst items) -> assoc_update [] items = items.
Proof.
  unfold assoc_update. rewrite <- (app_nil_l items) at 1 3. generalize (@nil (string * A)) as l.
  induction items as [|[k v] items IH]; intros l H; [by rewrite app_nil_r|].
  cbn [List.fold_left fst snd]. rewrite assoc_set_new.
  - rewrite IH; rewrite <- app_assoc; done.
  - rewrite map_app in H. apply list.NoDup_app in H as (_ & H & _). intros Hin. apply (H k Hin). by left.
Qed.
Lemma json_loads_dumps d : d <> [] -> forallb (fun kv => flat kv.2) d = true -> NoDup (List.map fst d) ->
  json_loads (dumps_object d) = Some (JObj d).
Proof.
  intros Hn Hf Hd. unfold json_loads, dumps_object. set (t := String.concat "," (List.map dumps_member d)).
  change ("{" +:+ t +:+ "}") with (String "{" (t +:+ String "}" "")).
  cbn [String.length]. set (n := String.length (t +:+ String "}" "")).
  change (read_value (S (S n)) (String "{" (t +:+ String "}" "")))
    with (match skip (t +:+ String "}" "") with
          | String "}" r => Some (JObj [], r)
          | r => '(l, r) ← read_members (S n) r; Some (JObj (assoc_update [] l), r)
          end).
  assert (Ht : exists r, t = String quote r).
  { destruct d as [|[k v] [|kv' d]]; [done|..]; by eexists. }
  destruct Ht as [r Ht].
  assert (Hs : skip (t +:+ String "}" "") = t +:+ String "}" "") by (by rewrite Ht).
  rewrite Hs. transitivity ('(v, r0) ← ('(l, r) ← read_members (S n) (t +:+ String "}" ""); Some (JObj (assoc_update [] l), r));
    if skip r0 == "" then Some v else None); [by rewrite Ht|].
  unfold t. rewrite read_flat_members; [|done|done|].
  - cbn [mbind option_bind]. by rewrite assoc_update_app.
  - pose proof (length_members d). fold t in H. unfold n. rewrite append_length. cbn [String.length]. lia.
Qed.
