(* ===== verification/OidcProvider.v ===== *)
(** [infrastructure/providers/oidc.py]: the local OpenID Connect provider, whose codes are signed
    profiles.

    A code whose base64 text holds characters [urlsafe_b64encode] never writes is refused, where Python
    skips them; a list or object for a subject or an address is refused, where Python takes its [str], and
    so is a name that is no text. *)
From S2P Require Import Prelude PyText Entity Models World Encoding JsonText.

Section Provider.
Context {E : Env}.

(** [self._frontend_url], [self._issuer], [self._audience]. *)
Definition _frontend_url : string := rstrip (fun c => c == "/"%char) local_oidc_frontend_url.
Definition _issuer : string := _frontend_url +:+ "/auth/local-oidc".
Definition _audience : string := "auth-core-local".

Definition authorization_url (provider state nonce code_challenge : string) : string :=
  _frontend_url +:+ "/auth/local-oidc?provider=" +:+ provider +:+ "&state=" +:+ state
    +:+ "&nonce=" +:+ nonce +:+ "&code_challenge=" +:+ code_challenge.

(** [str(value)] of a claim. *)
Definition claim_text (v : json) : option string :=
  match v with
  | JStr s => Some s
  | JNull => Some "None"
  | JBool b => Some (if b then "True" else "False")
  | JNum n => Some (json_number n)
  | _ => None
  end.
(** [payload.get(key)] as an optional text. *)
Definition optional_claim (key : string) (payload : dict) : option (option string) :=
  match jget key payload with
  | None | Some JNull => Some None
  | Some (JStr s) => Some (Some s)
  | Some _ => None
  end.
(** The key the signature is made over: the payload, the nonce and the verifier, one after the other. *)
Definition signature (payload nonce code_verifier : string) : string :=
  hmac_sha256 local_oidc_signing_secret (payload +:+ nonce +:+ code_verifier).
(** [payload[key] != expected] of a text. *)
Definition claims (key expected : string) (payload : dict) : bool :=
  bool_decide (jget key payload = Some (JStr expected)).

Definition profile_of (provider : string) (payload : dict) : option OIDCProfile :=
  if claims "provider" provider payload && claims "issuer" _issuer payload && claims "audience" _audience payload then
    subject ← jget "subject" payload ≫= claim_text;
    email ← jget "email" payload ≫= claim_text;
    given_name ← optional_claim "given_name" payload;
    family_name ← optional_claim "family_name" payload;
    Some (MkOIDCProfile provider subject email (bool_decide (jget "email_verified" payload = Some (JBool true)))
            given_name family_name)
  else None.
(** [None] is the [ValueError] that every failure becomes. *)
Definition verify_callback (provider code nonce code_verifier : string) : option OIDCProfile :=
  '(encoded_payload, supplied_signature) ← split_once "."%char code;
  payload_bytes ← b64url_decode encoded_payload;
  if supplied_signature == signature payload_bytes nonce code_verifier then
    match json_loads payload_bytes with
    | Some (JObj payload) => profile_of provider payload
    | _ => None
    end
  else None.

Definition profile_payload (profile : OIDCProfile) : dict :=
  let text o := match o with Some s => JStr s | None => JNull end in
  [("provider", JStr (op_provider profile)); ("issuer", JStr _issuer); ("audience", JStr _audience);
   ("subject", JStr (op_subject profile)); ("email", JStr (op_email profile));
   ("email_verified", JBool (op_email_verified profile));
   ("given_name", text (op_given_name profile)); ("family_name", text (op_family_name profile))].
Definition issue_test_code (profile : OIDCProfile) (nonce code_verifier : string) : string :=
  let payload := dumps_object (profile_payload profile) in
  b64url_encode payload +:+ "." +:+ signature payload nonce code_verifier.
End Provider.

(** ** Codes *)

Definition no_dot (c : ascii) : bool := c != "."%char.
Lemma b64_char_no_dot n : (n < 64)%N -> no_dot (b64_char n) = true.
Proof.
  intros Hn. assert (Ha : forallb (fun k => no_dot (b64_char (N.of_nat k))) (List.seq 0 64) = true) by (vm_compute; reflexivity).
  rewrite forallb_forall in Ha. specialize (Ha (N.to_nat n)). rewrite N2Nat.id in Ha. apply Ha, in_seq. lia.
Qed.
Lemma b64url_encode_no_dot s : str_all no_dot (b64url_encode s) = true.
Proof.
  revert s. fix IH 1. intros [|a [|b [|c s]]]; [reflexivity|..]; cbn [b64url_encode str_all];
    pose proof (code_bound a) as Ba; try pose proof (code_bound b) as Bb; try pose proof (code_bound c) as Bc;
    rewrite !b64_char_no_dot by divlia; cbn [andb]; [reflexivity..|apply IH].
Qed.
Lemma split_once_at l r : str_all no_dot l = true -> split_once "."%char (l +:+ "." +:+ r) = Some (l, r).
Proof.
  induction l as [|c l IH]; intros H; [reflexivity|]. cbn [str_all] in H. apply andb_true_iff in H as [Hc H].
  rewrite append_cons. cbn [split_once]. unfold no_dot in Hc. destruct (c == "."%char); [discriminate Hc|]. by rewrite IH.
Qed.

Section Codes.
Context {E : Env}.

(** A payload names its claims once, and reads back as the profile it was written for. *)
Lemma profile_payload_flat p : forallb (fun kv => flat kv.2) (profile_payload p) = true.
Proof. unfold profile_payload. cbn [forallb snd flat andb]. by destruct (op_given_name p), (op_family_name p). Qed.
Lemma profile_payload_keys p : NoDup (List.map fst (profile_payload p)).
Proof. apply (bool_decide_unpack _). vm_compute. exact I. Qed.
Lemma eqb_true (s t : string) : (s == t) = true -> s = t.
Proof. apply bool_decide_eq_true_1. Qed.
Lemma claims_text key expected t payload : jget key payload = Some (JStr t) -> claims key expected payload = (t == expected).
Proof.
  intros H. unfold claims. rewrite H. destruct (t == expected) eqn:Ht.
  - apply eqb_true in Ht as ->. by apply bool_decide_true.
  - apply bool_decide_false. intros [= ->]. by rewrite eqb_refl in Ht.
Qed.
Lemma optional_claim_text key o payload :
  jget key payload = Some (match o with Some t => JStr t | None => JNull end) -> optional_claim key payload = Some o.
Proof. intros H. unfold optional_claim. rewrite H. by destruct o. Qed.
Lemma profile_of_payload provider p :
  profile_of provider (profile_payload p) = if op_provider p == provider then Some p else None.
Proof.
  unfold profile_of. rewrite (claims_text "provider" provider (op_provider p)) by reflexivity.
  rewrite (claims_text "issuer" _ _issuer), (claims_text "audience" _ _audience), !eqb_refl, !andb_true_r by reflexivity.
  destruct (op_provider p == provider) eqn:Hp; [|reflexivity]. apply eqb_true in Hp as <-.
  rewrite (optional_claim_text "given_name" (op_given_name p)), (optional_claim_text "family_name" (op_family_name p))
    by reflexivity.
  destruct p as [op subject email [] given family]; reflexivity.
Qed.
Lemma verify_issued p n v provider n' v' :
  verify_callback provider (issue_test_code p n v) n' v'
  = if signature (dumps_object (profile_payload p)) n v == signature (dumps_object (profile_payload p)) n' v'
    then profile_of provider (profile_payload p) else None.
Proof.
  unfold verify_callback, issue_test_code. rewrite split_once_at by apply b64url_encode_no_dot. cbn [mbind option_bind].
  rewrite b64url_decode_encode. cbn [mbind option_bind].
  rewrite json_loads_dumps; [reflexivity|done|apply profile_payload_flat|apply profile_payload_keys].
Qed.

(** No two texts have the same digest under the secret of the provider. *)
Context (collision_free : forall s t,
  hmac_sha256 local_oidc_signing_secret s = hmac_sha256 local_oidc_signing_secret t -> s = t).

(** A code the local provider issued is accepted exactly for the provider of its profile, with a nonce
    and a verifier that follow one another to the text it was issued for, and it vouches for that profile
    unchanged: the JSON payload, its base64 text and the signature are read back as they were written. *)
Theorem issued_code_verifies p n v provider n' v' q :
  verify_callback provider (issue_test_code p n v) n' v' = Some q
  <-> provider = op_provider p /\ n' +:+ v' = n +:+ v /\ q = p.
Proof.
  rewrite verify_issued, profile_of_payload. split.
  - destruct (signature _ _ _ == _) eqn:Hs; [|discriminate]. apply eqb_true, collision_free, app_cancel_l in Hs.
    destruct (op_provider p == provider) eqn:Hp; [|discriminate]. apply eqb_true in Hp. by intros [= ->].
  - intros (-> & Ht & ->). unfold signature. by rewrite Ht, !eqb_refl.
Qed.
End Codes.

(** ** A code of the local settings, signed with the text itself in place of its digest *)

#[local] Definition clear_env : Env := test_env (fun key text => key +:+ "/" +:+ text).
Definition google_profile : OIDCProfile := MkOIDCProfile "google" "subject-1" "ann@example.com" true (Some "Ann") None.
Lemma clear_collision_free s t :
  @hmac_sha256 clear_env local_oidc_signing_secret s = @hmac_sha256 clear_env local_oidc_signing_secret t -> s = t.
Proof. intros H. by apply app_cancel_l, app_cancel_l in H. Qed.
Lemma issued_code_verifies_witness :
  @verify_callback clear_env "google" (@issue_test_code clear_env google_profile "no" "nce") "no" "nce" = Some google_profile
  /\ @verify_callback clear_env "google" (@issue_test_code clear_env google_profile "no" "nce") "no" "nc" <> Some google_profile.
Proof.
  pose proof (@issued_code_verifies clear_env clear_collision_free google_profile "no" "nce" "google") as H. split.
  - apply H. split; [reflexivity|]. split; reflexivity.
  - intros Hv. apply H in Hv as (_ & Ht & _). discriminate Ht.
Defined.
