(* ===== verification/Providers.v ===== *)
(** The adapters of [infrastructure/providers/] and [infrastructure/security/]: outgoing mail,
    CAPTCHA, TOTP, passwords and the cipher of the stored secrets. *)
From S2P Require Import Prelude PyText Entity Models RedisClient World.

Definition nl : string := String "010" "".

(** ** notifications.py *)

Section Notifications.
Context {R : Type} {E : Env}.
Abbreviation M := (prog R).

(** [_send]: the message is delivered, or [smtplib] raises. *)
Definition _send (message : Mail) : M unit :=
  d ← draw;
  if smtp_accepts d message then append_mail message else raise ProviderFailure.
Definition message_to (email subject body : string) : Mail := MkMail email_sender email subject body.

Definition Mailpit_send_verification (email verification_url : string) : M unit :=
  _send (message_to email "Verify your Vittavaan account"
    ("Welcome to Vittavaan. Verify your email using this single-use link:" +:+ nl +:+ nl
     +:+ verification_url +:+ nl +:+ nl +:+ "This link expires in 15 minutes.")).
Definition Mailpit_send_security_code (email code context : string) : M unit :=
  let detail := if nonempty context then " for " +:+ context else "" in
  _send (message_to email "Your Vittavaan security code"
    ("Your Vittavaan security code" +:+ detail +:+ " is: " +:+ code +:+ nl +:+ nl
     +:+ "This code expires in three minutes. Never share it with anyone.")).
Definition _send_security_message (email subject body : string) : M unit :=
  _send (message_to email subject body).
Definition Mailpit_send_referral (email referral_url : string) : M unit :=
  _send (message_to email "You have been invited to Vittavaan"
    ("A friend invited you to create your own private Vittavaan portfolio. "
     +:+ "This invitation does not share either person's financial information." +:+ nl +:+ nl
     +:+ "Create your profile using this link:" +:+ nl +:+ referral_url +:+ nl +:+ nl
     +:+ "This referral link expires in 30 days.")).
Definition Mailpit_send_organization_invitation (email organization_name invitation_url : string) : M unit :=
  _send (message_to email ("Invitation to join " +:+ organization_name)
    ("You have been invited to join " +:+ organization_name +:+ " on Vittavaan." +:+ nl +:+ nl
     +:+ "Review the invitation using this single-use link:" +:+ nl +:+ invitation_url +:+ nl +:+ nl
     +:+ "This invitation expires in seven days. It does not provide access until "
     +:+ "you sign in with the invited email and accept it.")).
Definition Mailpit_send_password_reset (email reset_url : string) : M unit :=
  _send_security_message email "Reset your Vittavaan password"
    ("Use this single-use link to reset your password:" +:+ nl +:+ nl +:+ reset_url +:+ nl +:+ nl
     +:+ "This link expires in 15 minutes. If you did not request it, you can ignore this message.").
Definition Mailpit_send_password_changed (email : string) : M unit :=
  _send_security_message email "Your Vittavaan password was changed"
    ("Your Vittavaan password was changed and existing sessions were ended. "
     +:+ "Contact support immediately if this was not you.").
Definition Mailpit_send_support_recovery (email recovery_url : string) : M unit :=
  _send_security_message email "Vittavaan support recovery link"
    ("Support issued this single-use recovery link after identity verification:" +:+ nl +:+ nl
     +:+ recovery_url +:+ nl +:+ nl +:+ "This link expires in 15 minutes.").
Definition proof_value (p : ContactProof) : string := match p with OLD => "old" | NEW => "new" end.
Definition Mailpit_send_contact_code (destination code : string) (proof : ContactProof) : M unit :=
  Mailpit_send_security_code destination code (proof_value proof +:+ " contact verification").
Definition Mailpit_send_contact_changed (destination : string) : M unit :=
  _send_security_message destination "Your Vittavaan contact information changed"
    ("A primary contact on your Vittavaan account was changed and existing sessions "
     +:+ "were ended. Contact support immediately if this was not you.").
Definition Mailpit_send_mfa_reset_requested (destination : string) (execute_after : Time) : M unit :=
  _send_security_message destination "A governed MFA reset was requested"
    ("Support requested an MFA reset for your account. It cannot execute before "
     +:+ isoformat execute_after +:+ ". Contact support immediately if this was unexpected.").
Definition Mailpit_send_mfa_reset_completed (destination : string) : M unit :=
  _send_security_message destination "Your Vittavaan MFA methods were reset"
    ("The approved MFA reset completed and existing sessions were ended. You must "
     +:+ "sign in and enroll a new security method.").

(** MailpitSMSProvider: text messages are simulated by mail to an inbox. *)
Definition masked_phone (phone_e164 : string) : string := "***" +:+ last_s 4 phone_e164.
Definition sms_send_verification (phone_e164 code : string) : M unit :=
  Mailpit_send_verification local_sms_inbox
    ("Local SMS simulation for " +:+ masked_phone phone_e164 +:+ ": verification code " +:+ code).
Definition sms_send_security_code (phone_e164 code : string) : M unit :=
  Mailpit_send_security_code local_sms_inbox code
    ("local SMS simulation to " +:+ masked_phone phone_e164).

(** MailpitRecoveryNotificationProvider. *)
Definition is_phone_destination (destination : string) : bool := String.prefix "+" destination.
Definition send_password_reset (email reset_url : string) : M unit :=
  Mailpit_send_password_reset email reset_url.
Definition send_password_changed (email : string) : M unit := Mailpit_send_password_changed email.
Definition send_support_recovery (email recovery_url : string) : M unit :=
  Mailpit_send_support_recovery email recovery_url.
Definition send_contact_code (destination code : string) (proof : ContactProof) : M unit :=
  if is_phone_destination destination then sms_send_security_code destination code
  else Mailpit_send_contact_code destination code proof.
Definition send_contact_changed (destination : string) : M unit :=
  if is_phone_destination destination then Mailpit_send_contact_changed local_sms_inbox
  else Mailpit_send_contact_changed destination.
Definition send_mfa_reset_requested (destination : string) (execute_after : Time) : M unit :=
  if is_phone_destination destination then Mailpit_send_mfa_reset_requested local_sms_inbox execute_after
  else Mailpit_send_mfa_reset_requested destination execute_after.
Definition send_mfa_reset_completed (destination : string) : M unit :=
  if is_phone_destination destination then Mailpit_send_mfa_reset_completed local_sms_inbox
  else Mailpit_send_mfa_reset_completed destination.

(** MailpitMFANotificationProvider. *)
Definition send_email_code (email code : string) : M unit := Mailpit_send_security_code email code "".
Definition send_sms_code (phone_e164 code : string) : M unit := sms_send_security_code phone_e164 code.

(** Sending mail touches neither the database nor Redis. *)
Lemma keeps_send I message :
  (forall w f l, I w -> I (w <| w_seed ::= f |> <| w_mail ::= l |>)) -> keeps I (_send message).
Proof.
  intros HI w Hw. unfold _send, draw, mbind, prog_bind. cbn.
  case_match; cbn.
  - exact (HI w N.succ (fun l => l ++ [message]) Hw).
  - exact (HI w N.succ (fun l => l) Hw).
Qed.
Lemma keeps_send_db P message : keeps (on_db P) (_send message).
Proof. by apply keeps_send. Qed.

Lemma send_spec message w x w' : _send message w = (x, w') ->
  w_db w' = w_db w /\ w_redis w' = w_redis w /\ w_now w' = w_now w.
Proof.
  unfold _send, draw, mbind, prog_bind. cbn. case_match; intros [= <- <-]; done.
Qed.
End Notifications.
#[export] Hint Resolve keeps_send_db : auth.

(** ** captcha.py *)

Definition captcha_verify `{!Env} (token : string) (remote_ip : option string) (action : string) : bool :=
  token == local_captcha_token.

(** ** breach.py *)

Section Breach.
Context {E : Env}.
Definition is_line_break (c : ascii) : bool :=
  ((10 <=? code c) && (code c <=? 13))%N || ((28 <=? code c) && (code c <=? 30))%N.
(** [text.splitlines()]; an empty piece between the two characters of a CR LF is no line. *)
Fixpoint split_lines (acc : string) (s : string) : list string :=
  match s with
  | EmptyString => if nonempty acc then [acc] else []
  | String c s' =>
    if is_line_break c then
      acc :: match s' with
             | String d s'' => if (c == "013"%char) && (d == "010"%char) then split_lines "" s'' else split_lines "" s'
             | EmptyString => []
             end
    else split_lines (acc +:+ String c "") s'
  end.
(** [int(text)] of decimal digits, blanks around them allowed. *)
Fixpoint dec_read (acc : Z) (s : string) : option Z :=
  match s with
  | EmptyString => Some acc
  | String c s => if is_digit c then dec_read (acc * 10 + Z.of_N (code c) - 48) s else None
  end.
Definition parse_int (s : string) : option Z :=
  let t := strip s in if nonempty t then dec_read 0 t else None.

Fixpoint breach_lines (suffix : string) (lines : list string) : option Z :=
  match lines with
  | [] => Some 0
  | line :: lines =>
    '(candidate, count) ← split_once ":" line;
    if candidate == suffix then parse_int count else breach_lines suffix lines
  end.
(** [breach_count]; [None] is an exception: of the HTTP client, or [ValueError]. *)
Definition breach_count (password : string) : option Z :=
  let digest := upper (sha1_hex password) in
  let prefix := take_s 5 digest in
  let suffix := drop_s 5 digest in
  text ← hibp_range prefix;
  breach_lines suffix (split_lines "" text).
End Breach.

(** ** totp.py *)

Section Totp.
Context {E : Env}.
(** [totp.timecode(now)]: the 30-second step of an instant. *)
Definition timecode (now : Time) : Z := timestamp now / 30.
Fixpoint totp_first (secret code : string) (last_step : option Z) (current_step : Z) (offsets : list Z)
    : option Z :=
  match offsets with
  | [] => None
  | offset :: offsets =>
    let candidate_step := current_step + offset in
    if match last_step with Some l => candidate_step <=? l | None => false end
    then totp_first secret code last_step current_step offsets
    else if totp_at secret candidate_step == code then Some candidate_step
    else totp_first secret code last_step current_step offsets
  end.
Definition totp_verify (secret code : string) (last_step : option Z) (now : Time) : option Z :=
  totp_first secret code last_step (timecode now) [-1; 0; 1].

(** The accepted step is one of the three around the clock, is later than the last accepted
    one, and its code is the supplied one. *)
Lemma totp_verify_spec secret code last_step now step :
  totp_verify secret code last_step now = Some step ->
  totp_at secret step = code /\ timecode now - 1 <= step <= timecode now + 1
  /\ match last_step with Some l => l < step | None => True end.
Proof.
  unfold totp_verify. generalize (timecode now). intros c. cbn.
  repeat case_match; intros [= <-]; to_prop; repeat split; try done; lia.
Qed.
End Totp.

(** ** passwords.py *)

Section Passwords.
Context {R : Type} {E : Env}.
Definition password_hash (password : string) : prog R string := d ← draw; mret (argon2_hash d password).
Definition password_verify (hash password : string) : bool :=
  match argon2_verify hash password with Some b => b | None => false end.
Definition password_needs_rehash (hash : string) : bool :=
  match argon2_needs_rehash hash with Some b => b | None => true end.
End Passwords.

(** ** secrets.py *)

Section Cipher.
Context {R : Type} {E : Env}.
Definition cipher_version : string := String "001" "".
Definition cipher_encrypt (plaintext associated_data : string) : prog R string :=
  d ← draw;
  let nonce := urandom 12 d in
  mret (cipher_version +:+ nonce +:+ aes_encrypt nonce plaintext associated_data).
Definition cipher_decrypt (ciphertext associated_data : string) : prog R string :=
  raise_if ((String.length ciphertext <? 30)%nat || (take_s 1 ciphertext != cipher_version)) ValueError;;
  let nonce := take_s 12 (drop_s 1 ciphertext) in
  get_or ValueError (aes_decrypt nonce (drop_s 13 ciphertext) associated_data).
End Cipher.
