(* ===== verification/RedisSecurity.v ===== *)
(** [infrastructure/redis_security.py]: the keys of the security store, its two Lua scripts and
    its operations. *)
From S2P Require Import Prelude PyText Entity Models RedisClient World.

Definition OTP_TTL_SECONDS : Z := 180.
Definition MFA_CHALLENGE_TTL_SECONDS : Z := 300.
Definition WEBAUTHN_CHALLENGE_TTL_SECONDS : Z := 300.
Definition FACTOR_LOCK_TTL_SECONDS : Z := 900.
Definition USER_REVOCATION_TTL_SECONDS : Z := 2592000.
Definition RISK_TTL_SECONDS : Z := 2592000.
Definition LOGIN_LOCK_TTL_SECONDS : Z := 900.
Definition LOGIN_WORKFLOW_TTL_SECONDS : Z := 300.
Definition OIDC_WORKFLOW_TTL_SECONDS : Z := 300.

Record RedisKey := MkRedisKey { name : string; ttl_seconds : Z }.

(** ** SecurityKeyFactory *)

Section Keys.
Context {E : Env}.

Definition _opaque (value : string) : string := take_s 32 (hmac_sha256 redis_key_hmac_secret value).
Definition _opaque_uuid (value : UUID) : string := _opaque (uuid_str value).

Definition otp (user_id : UUID) (purpose : string) : RedisKey :=
  MkRedisKey ("auth:otp:" +:+ _opaque_uuid user_id +:+ ":" +:+ _opaque purpose) OTP_TTL_SECONDS.
Definition mfa_challenge (challenge_id : string) : RedisKey :=
  MkRedisKey ("auth:mfa-challenge:" +:+ _opaque challenge_id) MFA_CHALLENGE_TTL_SECONDS.
Definition webauthn_challenge (challenge_id : string) : RedisKey :=
  MkRedisKey ("auth:webauthn:" +:+ _opaque challenge_id) WEBAUTHN_CHALLENGE_TTL_SECONDS.
Definition rate_limit (route subject : string) (window_seconds : Z) : RedisKey :=
  MkRedisKey ("auth:rate:" +:+ _opaque route +:+ ":" +:+ _opaque subject) window_seconds.
Definition factor_lock (factor_id : UUID) : RedisKey :=
  MkRedisKey ("auth:lock:mfa:" +:+ _opaque_uuid factor_id) FACTOR_LOCK_TTL_SECONDS.
Definition access_revocation (jti : UUID) (remaining_lifetime : Z) : RedisKey :=
  MkRedisKey ("auth:revocation:jti:" +:+ _opaque_uuid jti) remaining_lifetime.
Definition user_revocation (user_id : UUID) : RedisKey :=
  MkRedisKey ("auth:revocation:user:" +:+ _opaque_uuid user_id) USER_REVOCATION_TTL_SECONDS.
Definition family_revocation (family_id : UUID) (remaining_lifetime : Z) : RedisKey :=
  MkRedisKey ("auth:revocation:family:" +:+ _opaque_uuid family_id) remaining_lifetime.
Definition organization_revocation (user_id org_id : UUID) : RedisKey :=
  MkRedisKey ("auth:revocation:org:" +:+ _opaque_uuid user_id +:+ ":" +:+ _opaque_uuid org_id)
    USER_REVOCATION_TTL_SECONDS.
Definition risk (user_id : UUID) (fingerprint : string) : RedisKey :=
  MkRedisKey ("auth:risk:" +:+ _opaque_uuid user_id +:+ ":" +:+ _opaque fingerprint) RISK_TTL_SECONDS.
Definition login_lock (subject : string) : RedisKey :=
  MkRedisKey ("auth:lock:login:" +:+ _opaque subject) LOGIN_LOCK_TTL_SECONDS.
Definition login_workflow (token : string) : RedisKey :=
  MkRedisKey ("auth:login-workflow:" +:+ _opaque token) LOGIN_WORKFLOW_TTL_SECONDS.
Definition oidc_workflow (state : string) : RedisKey :=
  MkRedisKey ("auth:oidc:" +:+ _opaque state) OIDC_WORKFLOW_TTL_SECONDS.
End Keys.

#[global] Arguments _opaque : simpl never.
#[global] Arguments otp : simpl never.
#[global] Arguments mfa_challenge : simpl never.
#[global] Arguments webauthn_challenge : simpl never.
#[global] Arguments rate_limit : simpl never.
#[global] Arguments factor_lock : simpl never.
#[global] Arguments access_revocation : simpl never.
#[global] Arguments user_revocation : simpl never.
#[global] Arguments family_revocation : simpl never.
#[global] Arguments organization_revocation : simpl never.
#[global] Arguments login_lock : simpl never.
#[global] Arguments login_workflow : simpl never.
#[global] Arguments oidc_workflow : simpl never.

(** ** RedisSecurityStore *)

Section Store.
Context {R : Type} {RC : RedisClient R} {E : Env}.
Abbreviation M := (prog R).

(** [SET name value EX ttl]; Redis refuses a time to live that is not positive. *)
Definition redis_set (key : RedisKey) (v : rval) : M unit :=
  raise_if (ttl_seconds key <=? 0) ResponseError;;
  now ← now_utc; modify_redis (r_set now (name key) v (ttl_seconds key)).
Definition redis_get (key : RedisKey) : M (option rval) :=
  now ← now_utc; r ← get_redis; mret (r_get now (name key) r).
Definition redis_exists (key : RedisKey) : M bool :=
  now ← now_utc; r ← get_redis; mret (r_exists now (name key) r).
Definition redis_delete (key : RedisKey) : M unit := modify_redis (r_del (name key)).
(** [GETDEL name]. *)
Definition redis_getdel (key : RedisKey) : M (option rval) :=
  v ← redis_get key; redis_delete key;; mret v.
(** [json.loads(value) if value is not None else None]. *)
Definition json_loads (v : option rval) : M (option dict) :=
  match v with None => mret None | Some (RJson d) => mret (Some d) | Some _ => raise ValueError end.
(** [datetime.fromtimestamp(int(value), UTC) if value is not None else None]. *)
Definition as_datetime (v : option rval) : M (option Time) :=
  match v with
  | None => mret None
  | Some (RInt n) => mret (Some (fromtimestamp n))
  | Some _ => raise ValueError
  end.

Definition store_otp_hash (user_id : UUID) (purpose otp_hash : string) : M unit :=
  let key := otp user_id purpose in
  now ← now_utc;
  modify_redis (r_hset now (name key) {["hash" := FText otp_hash; "attempts" := FInt 0]});;
  modify_redis (r_expire now (name key) (ttl_seconds key)).
Definition record_otp_failure (user_id : UUID) (purpose : string) : M Z :=
  let key := otp user_id purpose in
  now ← now_utc;
  modify_redis (r_hincrby now (name key) "attempts" 1);;
  r ← get_redis; mret (int_of_field (r_hget now (name key) "attempts" r)).
Definition get_otp_hash (user_id : UUID) (purpose : string) : M (option string) :=
  now ← now_utc; r ← get_redis;
  mret (match r_hget now (name (otp user_id purpose)) "hash" r with Some (FText s) => Some s | _ => None end).
Definition consume_otp (user_id : UUID) (purpose : string) : M unit := redis_delete (otp user_id purpose).

(** VERIFY_OTP_SCRIPT, atomic. *)
Definition verify_otp_script (key candidate_hash : string) (max_attempts : Z) : M Z :=
  now ← now_utc; r ← get_redis;
  match r_hget now key "hash" r with
  | None => mret (-1)
  | Some stored =>
    match stored with
    | FText h => 
      if h == candidate_hash then modify_redis (r_del key);; mret 1
      else
        modify_redis (r_hincrby now key "attempts" 1);;
        r ← get_redis;
        (if max_attempts <=? int_of_field (r_hget now key "attempts" r)
         then modify_redis (r_del key) else mret tt);;
        mret 0
    | FInt _ => raise ResponseError
    end
  end.
Definition verify_and_consume_otp (user_id : UUID) (purpose candidate_hash : string) (max_attempts : Z)
    : M Z := verify_otp_script (name (otp user_id purpose)) candidate_hash max_attempts.

(** RATE_LIMIT_SCRIPT, atomic. *)
Definition rate_limit_script (key : string) (ttl : Z) : M Z :=
  now ← now_utc;
  modify_redis (r_incr now key);;
  r ← get_redis;
  let current := int_of_key (r_get now key r) in
  (if current =? 1 then modify_redis (r_expire now key ttl) else mret tt);;
  mret current.
Definition increment_rate_limit (route subject : string) (window_seconds : Z) : M Z :=
  let key := rate_limit route subject window_seconds in
  rate_limit_script (name key) (ttl_seconds key).
Definition reset_rate_limit (route subject : string) (window_seconds : Z) : M unit :=
  redis_delete (rate_limit route subject window_seconds).

Definition lock_login (subject : string) : M unit := redis_set (login_lock subject) (RText "1").
Definition login_is_locked (subject : string) : M bool := redis_exists (login_lock subject).

Definition store_login_workflow (token : string) (payload : dict) : M unit :=
  redis_set (login_workflow token) (RJson payload).
Definition get_login_workflow (token : string) : M (option dict) :=
  redis_get (login_workflow token) ≫= json_loads.
Definition consume_login_workflow (token : string) : M (option dict) :=
  redis_getdel (login_workflow token) ≫= json_loads.
Definition store_mfa_challenge (token : string) (payload : dict) : M unit :=
  redis_set (mfa_challenge token) (RJson payload).
Definition get_mfa_challenge (token : string) : M (option dict) :=
  redis_get (mfa_challenge token) ≫= json_loads.
Definition consume_mfa_challenge (token : string) : M (option dict) :=
  redis_getdel (mfa_challenge token) ≫= json_loads.
Definition store_webauthn_challenge (token : string) (payload : dict) : M unit :=
  redis_set (webauthn_challenge token) (RJson payload).
Definition consume_webauthn_challenge (token : string) : M (option dict) :=
  redis_getdel (webauthn_challenge token) ≫= json_loads.
Definition lock_factor (factor_id : UUID) : M unit := redis_set (factor_lock factor_id) (RText "1").
Definition factor_is_locked (factor_id : UUID) : M bool := redis_exists (factor_lock factor_id).
Definition store_oidc_workflow (state : string) (payload : dict) : M unit :=
  redis_set (oidc_workflow state) (RJson payload).
Definition consume_oidc_workflow (state : string) : M (option dict) :=
  redis_getdel (oidc_workflow state) ≫= json_loads.

Definition revoke_access_token (jti : UUID) (remaining_lifetime : Z) : M unit :=
  redis_set (access_revocation jti remaining_lifetime) (RText "1").
Definition access_token_is_revoked (jti : UUID) : M bool := redis_exists (access_revocation jti 1).
Definition revoke_family (family_id : UUID) (remaining_lifetime : Z) : M unit :=
  redis_set (family_revocation family_id (Z.max 1 remaining_lifetime)) (RText "1").
Definition family_is_revoked (family_id : UUID) : M bool := redis_exists (family_revocation family_id 1).
Definition revoke_user (user_id : UUID) (issued_before : Time) : M unit :=
  redis_set (user_revocation user_id) (RInt (timestamp issued_before)).
Definition user_revoked_at (user_id : UUID) : M (option Time) :=
  redis_get (user_revocation user_id) ≫= as_datetime.
Definition revoke_organization (user_id org_id : UUID) (issued_before : Time) : M unit :=
  redis_set (organization_revocation user_id org_id) (RInt (timestamp issued_before)).
Definition organization_revoked_at (user_id org_id : UUID) : M (option Time) :=
  redis_get (organization_revocation user_id org_id) ≫= as_datetime.
Definition clear_organization_revocation (user_id org_id : UUID) : M unit :=
  redis_delete (organization_revocation user_id org_id).
End Store.

(** ** The namespaces of the keys *)

(** Texts whose heads differ at a common position are different whatever follows. *)
Fixpoint clash (p q : string) : bool :=
  match p, q with String a p, String b q => (a != b) || clash p q | _, _ => false end.
Lemma clash_ne p q s t : clash p q = true -> p +:+ s <> q +:+ t.
Proof.
  revert q. induction p as [|a p IH]; intros [|b q]; try done. cbn [clash].
  destruct (a == b) eqn:E; cbn; intros H; intros [= Hab Heq].
  - by apply (IH q).
  - to_prop. done.
Qed.

(** The thing a key is about; [key_of] is the factory method that names it. *)
Inductive Subject :=
| S_otp (user_id : UUID) (purpose : string)
| S_mfa_challenge (challenge_id : string)
| S_webauthn_challenge (challenge_id : string)
| S_rate_limit (route subject : string)
| S_factor_lock (factor_id : UUID)
| S_access_revocation (jti : UUID)
| S_user_revocation (user_id : UUID)
| S_family_revocation (family_id : UUID)
| S_organization_revocation (user_id org_id : UUID)
| S_risk (user_id : UUID) (fingerprint : string)
| S_login_lock (subject : string)
| S_login_workflow (token : string)
| S_oidc_workflow (state : string).

Section Namespaces.
Context {E : Env}.
Definition key_of (s : Subject) : RedisKey :=
  match s with
  | S_otp u p => otp u p
  | S_mfa_challenge c => mfa_challenge c
  | S_webauthn_challenge c => webauthn_challenge c
  | S_rate_limit r s => rate_limit r s 1
  | S_factor_lock f => factor_lock f
  | S_access_revocation j => access_revocation j 1
  | S_user_revocation u => user_revocation u
  | S_family_revocation f => family_revocation f 1
  | S_organization_revocation u o => organization_revocation u o
  | S_risk u f => risk u f
  | S_login_lock s => login_lock s
  | S_login_workflow t => login_workflow t
  | S_oidc_workflow s => oidc_workflow s
  end.
Definition key_text (s : Subject) : string := name (key_of s).
Definition kind (s : Subject) : nat :=
  match s with
  | S_otp _ _ => 0 | S_mfa_challenge _ => 1 | S_webauthn_challenge _ => 2 | S_rate_limit _ _ => 3
  | S_factor_lock _ => 4 | S_access_revocation _ => 5 | S_user_revocation _ => 6
  | S_family_revocation _ => 7 | S_organization_revocation _ _ => 8 | S_risk _ _ => 9
  | S_login_lock _ => 10 | S_login_workflow _ => 11 | S_oidc_workflow _ => 12
  end%nat.
(** The values whose HMACs make the name. *)
Definition parts (s : Subject) : list string :=
  match s with
  | S_otp u p => [uuid_str u; p] | S_mfa_challenge c => [c] | S_webauthn_challenge c => [c]
  | S_rate_limit r s => [r; s] | S_factor_lock f => [uuid_str f] | S_access_revocation j => [uuid_str j]
  | S_user_revocation u => [uuid_str u] | S_family_revocation f => [uuid_str f]
  | S_organization_revocation u o => [uuid_str u; uuid_str o] | S_risk u f => [uuid_str u; f]
  | S_login_lock s => [s] | S_login_workflow t => [t] | S_oidc_workflow s => [s]
  end.

Lemma key_kind_ne a b : kind a <> kind b -> key_text a <> key_text b.
Proof. destruct a, b; intros H; try done; by apply clash_ne. Qed.

Hypothesis hmac_hexdigest : forall key text, String.length (hmac_sha256 key text) = 64%nat.

Lemma take_s_length n s : (n <= String.length s)%nat -> String.length (take_s n s) = n.
Proof. revert s. induction n as [|n IH]; intros [|c s]; cbn; intros; try lia. rewrite IH; lia. Qed.
Lemma opaque_length v : String.length (_opaque v) = 32%nat.
Proof. apply take_s_length. rewrite hmac_hexdigest. lia. Qed.

Lemma opaque_pair a b c d :
  _opaque a +:+ ":" +:+ _opaque b = _opaque c +:+ ":" +:+ _opaque d ->
  [_opaque a; _opaque b] = [_opaque c; _opaque d].
Proof.
  intros H. apply app_inj_l in H as [-> H]; [|by rewrite !opaque_length].
  apply app_cancel_l in H. by rewrite H.
Qed.

Lemma key_text_inj a b :
  key_text a = key_text b -> kind a = kind b /\ List.map _opaque (parts a) = List.map _opaque (parts b).
Proof.
  intros H. assert (Hk : kind a = kind b).
  { destruct (decide (kind a = kind b)); [done|]. by apply key_kind_ne in H. }
  split; [done|].
  destruct a, b; try discriminate Hk; clear Hk; apply app_cancel_l in H;
    first [by apply opaque_pair | cbn [parts List.map]; by f_equal].
Qed.
End Namespaces.

(** ** How the operations act on the keyspace *)

Section StoreLemmas.
Context {R : Type} {RC : RedisClient R} {E : Env}.
Implicit Types (w : World R).

Lemma run_redis_set key v w : 0 < ttl_seconds key ->
  redis_set key v w = (inr (), with_redis (r_set (w_now w) (name key) v (ttl_seconds key) (w_redis w)) w).
Proof.
  intros H. unfold redis_set. rewrite (proj2 (Z.leb_gt _ _) H). by destruct w.
Qed.

Lemma redis_set_inr key v w u w' : redis_set key v w = (inr u, w') ->
  w' = with_redis (r_set (w_now w) (name key) v (ttl_seconds key) (w_redis w)) w.
Proof.
  unfold redis_set, raise_if. destruct (ttl_seconds key <=? 0); [done|]. by intros [= _ <-].
Qed.

(** GETDEL returns what a reader saw and leaves nothing behind. *)
Lemma run_getdel key w :
  redis_getdel key w =
  (inr (r_get (w_now w) (name key) (w_redis w)), with_redis (r_del (name key) (w_redis w)) w).
Proof. by destruct w. Qed.

(** Every [consume_*] operation: the stored value is returned once, then it is gone. *)
Definition json_result (v : option rval) : exc + option dict :=
  match v with None => inr None | Some (RJson d) => inr (Some d) | Some _ => inl ValueError end.
Lemma run_consume key w :
  (redis_getdel key ≫= json_loads) w
  = (json_result (r_get (w_now w) (name key) (w_redis w)), with_redis (r_del (name key) (w_redis w)) w).
Proof. rewrite (run_bind _ _ _ _ _ (run_getdel _ _)). by destruct (r_get _ _ _) as [[]|]. Qed.
(** A counter that is alive is incremented, and its deadline stays. *)
Lemma run_rate_limit key ttl w n d :
  r_entry (w_redis w) key = Some (MkREntry (RInt n) (Some d)) -> w_now w < d -> 0 < n ->
  exists r', rate_limit_script key ttl w = (inr (n + 1), with_redis r' w) /\
    r_entry r' key = Some (MkREntry (RInt (n + 1)) (Some d)).
Proof.
  intros He Hd Hn. exists (r_incr (w_now w) key (w_redis w)).
  assert (He' : r_entry (r_incr (w_now w) key (w_redis w)) key = Some (MkREntry (RInt (n + 1)) (Some d))).
  { rewrite r_incr_law, eqb_refl, He. cbn. by rewrite (proj2 (Z.ltb_lt _ _) Hd). }
  split; [|done]. unfold rate_limit_script. run. unfold r_get. rewrite He'. cbn.
  rewrite (proj2 (Z.ltb_lt _ _) Hd). cbn. destruct (Z.eqb_spec (n + 1) 1); [lia|]. by destruct w.
Qed.

(** A counter that is absent or expired starts a window. *)
Lemma run_rate_limit_fresh key ttl w :
  r_get (w_now w) key (w_redis w) = None ->
  exists r', rate_limit_script key ttl w = (inr 1, with_redis r' w) /\
    r_entry r' key = Some (MkREntry (RInt 1) (Some (w_now w + seconds ttl))).
Proof.
  intros Hg. exists (r_expire (w_now w) key ttl (r_incr (w_now w) key (w_redis w))).
  assert (He : r_entry (r_incr (w_now w) key (w_redis w)) key = Some (MkREntry (RInt 1) None)).
  { rewrite r_incr_law, eqb_refl. unfold r_get in Hg. rewrite Hg. cbn. f_equal. f_equal.
    unfold keep_deadline. destruct (r_entry (w_redis w) key) as [[v [d|]]|]; try done.
    cbn in Hg. by case_match. }
  split; [|by rewrite r_expire_law, eqb_refl, He].
  unfold rate_limit_script. run. unfold r_get. rewrite He. cbn. by destruct w.
Qed.

Lemma rate_limit_window key ttl d reqs w n :
  r_entry (w_redis w) key = Some (MkREntry (RInt n) (Some d)) -> 0 < n ->
  Forall (fun q : Time * unit => q.1 < d) reqs ->
  exists w', run_at (fun _ => rate_limit_script key ttl) reqs w
    = (List.map (fun i => inr (n + Z.of_nat i)) (List.seq 1 (length reqs)), w') /\
    exists m, r_entry (w_redis w') key = Some (MkREntry (RInt m) (Some d)).
Proof.
  revert w n. induction reqs as [|[t []] reqs IH]; intros w n He Hn Hr; cbn.
  { exists w. eauto. }
  inversion Hr as [|? ? Ht Hrs]; subst. cbn in Ht.
  edestruct (run_rate_limit key ttl (at_time t w) n d) as (r' & Hrun & He'); [done..|].
  rewrite Hrun.
  edestruct (IH (with_redis r' (at_time t w)) (n + 1)) as (w' & Hw & Hm); [done|lia|done|].
  rewrite Hw. exists w'. split; [|done]. f_equal. f_equal.
  rewrite <- (seq_shift _ 1), map_map. apply map_ext. intros i. f_equal. lia.
Qed.

(** A stored one-time code, as the verification script sees it. *)
Definition otp_entry (h : string) (a : Z) (d : Time) (e : option REntry) : Prop :=
  exists m, e = Some (MkREntry (RHash m) (Some d)) /\ m !! "hash" = Some (FText h)
    /\ m !! "attempts" = Some (FInt a).

Lemma run_otp_match u p h a d w max : otp_entry h a d (r_entry (w_redis w) (name (otp u p))) ->
  w_now w < d ->
  verify_and_consume_otp u p h max w = (inr 1, with_redis (r_del (name (otp u p)) (w_redis w)) w).
Proof.
  intros (m & He & Hh & _) Hd. unfold verify_and_consume_otp, verify_otp_script.
  set (k := name (otp u p)) in *. run.
  unfold r_hget, r_get. rewrite He. cbn. rewrite (proj2 (Z.ltb_lt _ _) Hd). cbn. rewrite Hh, eqb_refl.
  by destruct w.
Qed.

Lemma run_otp_mismatch u p h c a d w max : otp_entry h a d (r_entry (w_redis w) (name (otp u p))) ->
  w_now w < d -> h <> c ->
  exists r', verify_and_consume_otp u p c max w = (inr 0, with_redis r' w) /\
    if max <=? a + 1 then r_entry r' (name (otp u p)) = None
    else otp_entry h (a + 1) d (r_entry r' (name (otp u p))).
Proof.
  intros (m & He & Hh & Ha) Hd Hne. set (k := name (otp u p)) in *.
  set (r1 := r_hincrby (w_now w) k "attempts" 1 (w_redis w)).
  assert (He1 : r_entry r1 k = Some (MkREntry (RHash (<["attempts" := FInt (a + 1)]> m)) (Some d))).
  { unfold r1. rewrite r_hincrby_law, eqb_refl, He. cbn.
    rewrite (proj2 (Z.ltb_lt _ _) Hd). cbn. by rewrite Ha. }
  exists (if max <=? a + 1 then r_del k r1 else r1). split.
  - unfold verify_and_consume_otp, verify_otp_script. fold k. run.
    unfold r_hget at 1, r_get at 1. rewrite He. cbn. rewrite (proj2 (Z.ltb_lt _ _) Hd). cbn.
    rewrite Hh, (eqb_neq h c Hne). run. fold r1.
    unfold r_hget, r_get. rewrite He1. cbn. rewrite (proj2 (Z.ltb_lt _ _) Hd). cbn.
    rewrite lookup_insert_eq. cbn. by case_match; destruct w.
  - case_match; [by rewrite r_del_law, eqb_refl|]. rewrite He1. eexists. split; [done|].
    split; [by rewrite lookup_insert_ne|by rewrite lookup_insert_eq].
Qed.

Lemma run_otp_absent u p c w max : r_get (w_now w) (name (otp u p)) (w_redis w) = None ->
  verify_and_consume_otp u p c max w = (inr (-1), w).
Proof.
  intros Hg. unfold verify_and_consume_otp, verify_otp_script.
  set (k := name (otp u p)) in *. run. unfold r_hget. rewrite Hg. by destruct w.
Qed.

Lemma run_store_otp u p h w : exists r',
  store_otp_hash u p h w = (inr (), with_redis r' w) /\
  otp_entry h 0 (w_now w + seconds OTP_TTL_SECONDS) (r_entry r' (name (otp u p))).
Proof.
  exists (r_expire (w_now w) (name (otp u p)) OTP_TTL_SECONDS (r_hset (w_now w) (name (otp u p))
            {["hash" := FText h; "attempts" := FInt 0]} (w_redis w))).
  split; [done|]. rewrite r_expire_law, eqb_refl, r_hset_law, eqb_refl.
  set (m := _ ∪ hash_of _). set (e := r_entry (w_redis w) _).
  assert (Hl : live (w_now w) (Some (MkREntry (RHash m) (keep_deadline (w_now w) e))) = Some (RHash m)).
  { cbn. destruct e as [[v [d|]]|]; cbn; try done. destruct (w_now w <? d) eqn:Ed; [by rewrite Ed|done]. }
  rewrite Hl. exists m. split; [done|]. unfold m.
  split; apply lookup_union_Some_l; [by rewrite lookup_insert_eq|].
  by rewrite lookup_insert_ne, lookup_singleton_eq by done.
Qed.

Lemma run_otp_absents u p max reqs w : r_entry (w_redis w) (name (otp u p)) = None ->
  (run_at (fun c => verify_and_consume_otp u p c max) reqs w).1 = List.map (fun _ => inr (-1)) reqs.
Proof.
  revert w. induction reqs as [|[t c] reqs IH]; intros w He; [done|]. cbn [run_at].
  rewrite run_otp_absent by (unfold r_get; cbn; by rewrite He).
  destruct (run_at _ reqs _) as [xs w'] eqn:Er. cbn. f_equal.
  specialize (IH (at_time t w) He). by rewrite Er in IH.
Qed.

(** What the service should answer to a sequence of candidates while the code is alive, with
    [left] attempts left: 1 for the code, 0 for another candidate, -1 once it is gone. *)
Fixpoint otp_reference (h : string) (left : nat) (candidates : list string) : list Z :=
  match candidates, left with
  | [], _ => []
  | _ :: cs, O => -1 :: otp_reference h O cs
  | c :: cs, S n => if h == c then 1 :: otp_reference h O cs else 0 :: otp_reference h n cs
  end.
Lemma otp_reference_gone h cs : otp_reference h O cs = List.map (fun _ => -1) cs.
Proof. induction cs as [|c cs IH]; cbn; [done|]. by rewrite IH. Qed.
Lemma otp_reference_bound h n cs :
  (length (List.filter (fun x => (0 <=? x)%Z) (otp_reference h n cs)) <= n)%nat.
Proof.
  revert n. induction cs as [|c cs IH]; intros n; cbn; [lia|].
  destruct n as [|n]; cbn; [apply IH|]. case_match; cbn.
  - specialize (IH O). lia.
  - specialize (IH n). lia.
Qed.

Lemma otp_run u p h d max reqs : forall w a left,
  otp_entry h a d (r_entry (w_redis w) (name (otp u p))) ->
  max = a + Z.of_nat (S left) -> Forall (fun q : Time * string => q.1 < d) reqs ->
  (run_at (fun c => verify_and_consume_otp u p c max) reqs w).1
  = List.map inr (otp_reference h (S left) (List.map snd reqs)).
Proof.
  induction reqs as [|[t c] reqs IH]; intros w a left He Hmax Hr; [done|].
  inversion Hr as [|? ? Ht Hrs]; subst max. cbn in Ht. cbn [run_at List.map snd otp_reference].
  destruct (decide (h = c)) as [<-|Hne].
  - rewrite (run_otp_match _ _ _ _ _ (at_time t w) _ He Ht), eqb_refl.
    destruct (run_at _ reqs _) as [xs w'] eqn:Er. cbn. f_equal.
    apply (f_equal fst) in Er. rewrite run_otp_absents in Er by (cbn; by rewrite r_del_law, eqb_refl).
    cbn in Er. rewrite <- Er, otp_reference_gone, !map_map. done.
  - destruct (run_otp_mismatch _ _ _ _ _ _ (at_time t w) (a + Z.of_nat (S left)) He Ht Hne)
      as (r' & Hrun & He'). rewrite Hrun, (eqb_neq h c Hne).
    destruct (run_at _ reqs _) as [xs w'] eqn:Er. cbn. f_equal. apply (f_equal fst) in Er.
    destruct left as [|left].
    + rewrite (proj2 (Z.leb_le _ _)) in He' by lia.
      rewrite run_otp_absents in Er by done. cbn in Er.
      rewrite <- Er, otp_reference_gone, !map_map. done.
    + rewrite (proj2 (Z.leb_gt _ _)) in He' by lia.
      rewrite (IH _ (a + 1) left) in Er by (try done; lia). done.
Qed.
End StoreLemmas.

(** ** Properties *)

Section Properties.
Context {R : Type} {RC : RedisClient R} {E : Env}.
Implicit Types (w : World R).

(** The thirteen namespaces of the key factory never overlap: two keys with the same name
    are of the same kind, and the HMACs of their parts agree one by one.  (HMAC-SHA256 hex
    digests have 64 characters.) *)
Theorem keys_separate (hmac_hexdigest : forall key text, String.length (hmac_sha256 key text) = 64%nat) a b :
  key_text a = key_text b -> kind a = kind b /\ List.map _opaque (parts a) = List.map _opaque (parts b).
Proof. by apply key_text_inj. Qed.

(** Within a window the limiter counts every request exactly once: n+1 requests at
    instants inside the window answer 1, 2, ..., n+1 however they are spaced, because only the
    first one sets the expiry; a request after the window starts again from 1. *)
Theorem rate_limit_counts route subject window w t0 (later : list Time) t1 :
  r_get t0 (name (rate_limit route subject window)) (w_redis w) = None ->
  Forall (fun t => t < t0 + seconds window) later ->
  t0 + seconds window <= t1 ->
  let hit := fun _ : unit => increment_rate_limit route subject window in
  let '(answers, w') := run_at hit (List.map (fun t => (t, ())) (t0 :: later)) w in
  answers = List.map (fun i => inr (Z.of_nat i)) (List.seq 1 (S (length later))) /\
  (hit () (at_time t1 w')).1 = inr 1.
Proof.
  intros Hg Hl Ht1 hit. set (k := name (rate_limit route subject window)) in *.
  destruct (run_rate_limit_fresh k window (at_time t0 w) Hg) as (r' & Hrun & He).
  edestruct (rate_limit_window k window (t0 + seconds window) (List.map (fun t => (t, ())) later)
    (with_redis r' (at_time t0 w)) 1) as (w' & Hw & m & Hm); [done..| |].
  { by apply Forall_map. }
  cbn [List.map run_at]. 
  change (hit ()) with (rate_limit_script (R := R) k window). rewrite Hrun.
  change (run_at hit) with (run_at (B := Z) (fun _ : unit => rate_limit_script (R := R) k window)).
  rewrite Hw, length_map. split.
  - change (List.seq 1 (S (length later))) with (1%nat :: List.seq 2 (length later)).
    cbn [List.map]. f_equal. rewrite <- (seq_shift _ 1), map_map. apply map_ext. intros i. f_equal. lia.
  - change (hit ()) with (rate_limit_script (R := R) k window).
    destruct (run_rate_limit_fresh k window (at_time t1 w')) as (r'' & Hr & _); [|by rewrite Hr].
    unfold r_get. cbn. rewrite Hm. cbn. by rewrite (proj2 (Z.ltb_ge _ _) Ht1).
Qed.

(** C30: a stored one-time code behaves as the reference automaton during its lifetime: right
    once, wrong otherwise, and gone after the code was used or after [max_attempts] wrong
    candidates, so at most [max_attempts] candidates are ever compared with it. *)
Theorem otp_attempts_bounded user_id purpose h (max_attempts : nat) (reqs : list (Time * string)) w :
  (0 < max_attempts)%nat ->
  Forall (fun q => q.1 < w_now w + seconds OTP_TTL_SECONDS) reqs ->
  let w1 := (store_otp_hash user_id purpose h w).2 in
  let answers := (run_at (fun c => verify_and_consume_otp user_id purpose c (Z.of_nat max_attempts)) reqs w1).1 in
  exists zs, answers = List.map inr zs /\ zs = otp_reference h max_attempts (List.map snd reqs) /\
    (length (List.filter (fun z => (0 <=? z)%Z) zs) <= max_attempts)%nat.
Proof.
  intros Hm Hr. cbv zeta. destruct (run_store_otp user_id purpose h w) as (r' & -> & He).
  destruct max_attempts as [|left]; [lia|].
  exists (otp_reference h (S left) (List.map snd reqs)). split; [|split; [done|apply otp_reference_bound]].
  by apply (otp_run _ _ _ (w_now w + seconds OTP_TTL_SECONDS) _ _ _ 0).
Qed.

(** a login workflow is delivered at most once and only during its five minutes: the
    first consumer within the time to live gets the stored payload, every later one gets
    nothing, and so does the first one when it comes too late. *)
Theorem login_workflow_single_use token payload w t1 t2 :
  let w0 := (store_login_workflow token payload w).2 in
  let '(x1, w1) := consume_login_workflow token (at_time t1 w0) in
  x1 = inr (if t1 <? w_now w + seconds LOGIN_WORKFLOW_TTL_SECONDS then Some payload else None) /\
  (consume_login_workflow token (at_time t2 w1)).1 = inr None.
Proof.
  cbv zeta. unfold store_login_workflow, consume_login_workflow. rewrite run_redis_set by done.
  rewrite run_consume. wsimpl. rewrite r_get_set_eq, run_consume. wsimpl. rewrite r_get_del_eq.
  change (ttl_seconds (login_workflow token)) with LOGIN_WORKFLOW_TTL_SECONDS.
  by destruct (t1 <? _).
Qed.
End Properties.

Lemma keys_separate_witness :
  kind (S_otp (uuid4 1) "mfa") = kind (S_otp (uuid4 1) "mfa") /\
  List.map _opaque (parts (S_otp (uuid4 1) "mfa")) = List.map _opaque (parts (S_otp (uuid4 1) "mfa")).
Proof.
  apply keys_separate; [|reflexivity]. intros key text.
  exact (hex_digits_length 64 (mix (poly_hash 7 (key +:+ "/" +:+ text))) "").
Defined.

Lemma rate_limit_counts_witness :
  let hit := fun _ : unit => increment_rate_limit "register" "ip" 60 in
  let '(answers, w') := run_at hit (List.map (fun t => (t, ())) (seconds 5 :: [seconds 20; seconds 64]))
    (test_world empty_db 0) in
  answers = List.map (fun i => inr (Z.of_nat i)) (List.seq 1 (S (length [seconds 20; seconds 64]))) /\
  (hit () (at_time (seconds 65) w')).1 = inr 1.
Proof.
  refine (rate_limit_counts "register" "ip" 60 (test_world empty_db 0) (seconds 5)
    [seconds 20; seconds 64] (seconds 65) _ _ _).
  - reflexivity.
  - repeat constructor.
  - vm_compute. discriminate.
Defined.

Lemma otp_attempts_bounded_witness :
  exists zs,
    (run_at (fun c => verify_and_consume_otp (uuid4 1) "mfa" c (Z.of_nat 2))
       [(seconds 1, "000000"); (seconds 2, "000001"); (seconds 3, "h")]
       (store_otp_hash (uuid4 1) "mfa" "h" (test_world empty_db 0)).2).1 = List.map inr zs /\
    zs = [0; 0; -1] /\ (length (List.filter (fun z => (0 <=? z)%Z) zs) <= 2)%nat.
Proof.
  apply (otp_attempts_bounded (uuid4 1) "mfa" "h" 2
    [(seconds 1, "000000"); (seconds 2, "000001"); (seconds 3, "h")] (test_world empty_db 0)).
  - lia.
  - repeat constructor.
Defined.
