(* ===== verification/SessionRepo.v ===== *)
(** [infrastructure/persistence/session_repository.py]: sessions, refresh token families and
    refresh tokens in the database. *)
From S2P Require Import Prelude PyText Entity Models RedisClient World.

Definition MAX_ACTIVE_SESSIONS : nat := 10.

(** ** SqlAlchemySessionRepository *)

Section Repository.
Context {R : Type} {E : Env}.
Abbreviation M := (prog R).

Definition user_is_active (user_id : UUID) : M bool :=
  db ← get_db;
  mret (match scalar (fun u => u_user_id u == user_id) (users db) with
        | Some user => (u_state user == "active") && is_none (u_anonymized_at user)
        | None => false
        end).

(** [_record]. *)
Definition _record (value : Session) : M SessionRecord :=
  client_type ← get_or ValueError (ClientType_of (s_client_id value));
  mret (MkSessionRecord (s_session_id value) (s_family_id value) (s_user_id value)
    (s_access_jti value) client_type (s_device_fingerprint_hash value) (s_ip_address value)
    (s_created_at value) (s_last_activity_at value) (s_expires_at value) (s_revoked_at value)).

(** Attribute writes on rows the unit of work holds. *)
Definition set_family (family_id : UUID) (f : RefreshTokenFamily -> RefreshTokenFamily) (db : Db) : Db :=
  db <| families ::= update_ (fun r => f_family_id r == family_id) f |>.
Definition set_session (session_id : UUID) (f : Session -> Session) (db : Db) : Db :=
  db <| sessions ::= update_ (fun r => s_session_id r == session_id) f |>.
Definition set_token (refresh_token_id : UUID) (f : RefreshToken -> RefreshToken) (db : Db) : Db :=
  db <| refresh_tokens ::= update_ (fun r => t_refresh_token_id r == refresh_token_id) f |>.

(** The rows of a user's live sessions, oldest first. *)
Definition active_pair (user_id : UUID) (now : Time) (p : RefreshTokenFamily * Session) : bool :=
  (f_user_id p.1 == user_id) && is_none (f_revoked_at p.1)
  && is_none (s_revoked_at p.2) && (now <? s_expires_at p.2).
Definition active_rows (user_id : UUID) (now : Time) (db : Db) : list (RefreshTokenFamily * Session) :=
  order_by (fun p => s_created_at p.2)
    (where_ (active_pair user_id now)
       (join_on (fun f s => s_family_id s == f_family_id f) (families db) (sessions db))).

(** One turn of the eviction loop. *)
Definition evict (now : Time) (p : RefreshTokenFamily * Session) (db : Db) : Db :=
  set_session (s_session_id p.2) (fun s => s <| s_revoked_at := Some now |>)
    (set_family (f_family_id p.1)
       (fun f => f <| f_revoked_at := Some now |> <| f_revocation_reason := Some "session_cap" |>) db)
  <| refresh_tokens ::= update_ (fun t => t_family_id t == f_family_id p.1)
                          (fun t => t <| t_revoked_at := Some now |>) |>.

Definition create_session (user_id : UUID) (client_type : ClientType) (device_fingerprint_hash : string)
    (ip_address : option string) (refresh_token_hash : string) (access_jti : UUID)
    (family_expires_at session_expires_at refresh_expires_at : Time) : M CreatedSession :=
  now ← now_utc;
  tx (
    db ← get_db;
    let active_rows := active_rows user_id now db in
    let overflow := (length active_rows + 1 - MAX_ACTIVE_SESSIONS)%nat in
    for_ (List.firstn overflow active_rows) (fun p => modify_db (evict now p));;
    let evicted := List.map (fun p => MkRevocationResult user_id (f_family_id p.1) (s_access_jti p.2))
                     (List.firstn overflow active_rows) in
    family_id ← new_uuid4;
    session_id ← new_uuid4;
    add_row families family_valid family_conflict
      (MkFamily family_id user_id device_fingerprint_hash (client_value client_type) now
         family_expires_at None None);;
    refresh_token_id ← new_uuid4;
    let created_session :=
      MkSession session_id family_id user_id None access_jti (client_value client_type)
        device_fingerprint_hash ip_address now now session_expires_at None in
    add_row sessions session_valid session_conflict created_session;;
    add_row refresh_tokens refresh_token_valid refresh_token_conflict
      (MkRefreshToken refresh_token_id family_id refresh_token_hash 0 now None None refresh_expires_at);;
    record ← _record created_session;
    mret (MkCreatedSession record evicted)).

(** [_revoke_locked]. *)
Definition _revoke_locked (family : RefreshTokenFamily) (active_session : Session) (now : Time)
    (reason : string) (db : Db) : Db :=
  set_session (s_session_id active_session)
    (fun s => s <| s_revoked_at := Some (or_else (s_revoked_at s) now) |>)
    (set_family (f_family_id family)
       (fun f => f <| f_revoked_at := Some (or_else (f_revoked_at f) now) |>
                   <| f_revocation_reason := str_or (f_revocation_reason f) (Some reason) |>) db)
  <| refresh_tokens ::=
       update_ (fun t => (t_family_id t == f_family_id family) && is_none (t_revoked_at t))
               (fun t => t <| t_revoked_at := Some now |>) |>.

(** The refresh token with its family and session. *)
Definition token_rows (token_hash : string) (db : Db) : list (RefreshToken * (RefreshTokenFamily * Session)) :=
  where_ (fun p => t_token_hash p.1 == token_hash)
    (join_on (fun t p => f_family_id p.1 == t_family_id t) (refresh_tokens db)
       (join_on (fun f s => s_family_id s == f_family_id f) (families db) (sessions db))).

Definition token_expired (token : RefreshToken) (family : RefreshTokenFamily) (active_session : Session)
    (idle_timeout_seconds : Z) (now : Time) : bool :=
  (t_expires_at token <=? now) || (f_absolute_expires_at family <=? now)
  || (s_expires_at active_session <=? now)
  || (s_last_activity_at active_session + seconds idle_timeout_seconds <=? now).

(** The writes of a rotation that succeeds. *)
Definition rotated_session (new_access_jti : UUID) (now : Time) (s : Session) : Session :=
  s <| s_access_jti := new_access_jti |> <| s_org_id := None |> <| s_last_activity_at := now |>.
Definition spent_token (now : Time) (t : RefreshToken) : RefreshToken :=
  t <| t_used_at := Some now |> <| t_revoked_at := Some now |>.

Definition rotate_refresh_token (token_hash replacement_hash : string) (replacement_expires_at : Time)
    (new_access_jti : UUID) (client_type : ClientType) (device_fingerprint_hash : string)
    (idle_timeout_seconds : Z) (now : Time) : M RotationResult :=
  tx (
    db ← get_db;
    row ← one_row (token_rows token_hash db);
    match row with
    | None => mret (MkRotationResult Rot_INVALID None None)
    | Some (token, (family, active_session)) =>
      let revoked := MkRevocationResult (s_user_id active_session) (f_family_id family)
                       (s_access_jti active_session) in
      if is_some (t_used_at token) then
        modify_db (_revoke_locked family active_session now "token_reuse");;
        mret (MkRotationResult Rot_REUSED None (Some revoked))
      else if is_some (t_revoked_at token) || is_some (f_revoked_at family)
              || is_some (s_revoked_at active_session) then
        mret (MkRotationResult Rot_INVALID None None)
      else if token_expired token family active_session idle_timeout_seconds now then
        modify_db (_revoke_locked family active_session now "expired");;
        mret (MkRotationResult Rot_EXPIRED None (Some revoked))
      else if (f_client_id family != client_value client_type)
              || (f_device_fingerprint_hash family != device_fingerprint_hash) then
        modify_db (_revoke_locked family active_session now "client_mismatch");;
        mret (MkRotationResult Rot_CLIENT_MISMATCH None (Some revoked))
      else
        modify_db (set_token (t_refresh_token_id token) (spent_token now));;
        refresh_token_id ← new_uuid4;
        add_row refresh_tokens refresh_token_valid refresh_token_conflict
          (MkRefreshToken refresh_token_id (f_family_id family) replacement_hash
             (t_generation token + 1) now None None
             (Z.min replacement_expires_at (f_absolute_expires_at family)));;
        modify_db (set_session (s_session_id active_session) (rotated_session new_access_jti now));;
        record ← _record (rotated_session new_access_jti now active_session);
        mret (MkRotationResult Rot_ROTATED (Some record) (Some revoked))
    end).

(** Sessions joined with their family. *)
Definition session_rows (P : Session -> RefreshTokenFamily -> bool) (db : Db) : list (Session * RefreshTokenFamily) :=
  where_ (fun p => P p.1 p.2)
    (join_on (fun s f => f_family_id f == s_family_id s) (sessions db) (families db)).

Definition revoke_session (user_id session_id : UUID) (reason : string) (now : Time)
    : M (option RevocationResult) :=
  tx (
    db ← get_db;
    row ← one_row (session_rows (fun s _ => (s_session_id s == session_id) && (s_user_id s == user_id)) db);
    match row with
    | None => mret None
    | Some (active_session, family) =>
      modify_db (_revoke_locked family active_session now reason);;
      mret (Some (MkRevocationResult (s_user_id active_session) (f_family_id family)
                    (s_access_jti active_session)))
    end).

Definition revoke_all (user_id : UUID) (reason : string) (now : Time) : M (list RevocationResult) :=
  tx (
    db ← get_db;
    let rows := session_rows (fun s f => (s_user_id s == user_id) && is_none (s_revoked_at s)
                                         && is_none (f_revoked_at f)) db in
    for_ rows (fun p => modify_db (_revoke_locked p.2 p.1 now reason));;
    mret (List.map (fun p => MkRevocationResult (s_user_id p.1) (f_family_id p.2) (s_access_jti p.1)) rows)).

(** The tests of a live session at an instant. *)
Definition live_session (now : Time) (s : Session) (f : RefreshTokenFamily) : bool :=
  is_none (s_revoked_at s) && (now <? s_expires_at s)
  && is_none (f_revoked_at f) && (now <? f_absolute_expires_at f).

(** [f"{item.device_fingerprint_hash[:8]}…"]. *)
Definition device_hint (fingerprint_hash : string) : string := take_s 8 fingerprint_hash +:+ "…".
Definition session_summary (item : Session) : M SessionSummary :=
  client_type ← get_or ValueError (ClientType_of (s_client_id item));
  mret (MkSessionSummary (s_session_id item) client_type (device_hint (s_device_fingerprint_hash item))
    (s_ip_address item) (s_created_at item) (s_last_activity_at item) (s_expires_at item) false).

Definition list_sessions (user_id : UUID) (now : Time) : M (list SessionSummary) :=
  db ← get_db;
  let rows := session_rows (fun s f => (s_user_id s == user_id) && live_session now s f) db in
  map_m session_summary (order_by_desc s_last_activity_at (List.map fst rows)).

Definition session_is_active (session_id : UUID) (now : Time) : M bool :=
  db ← get_db;
  mret (is_some (head (session_rows (fun s f => (s_session_id s == session_id) && live_session now s f) db))).

Definition scope_session (user_id session_id workspace_id access_jti : UUID) (now : Time)
    : M (option UUID) :=
  tx (
    db ← get_db;
    match session_rows (fun s f => (s_session_id s == session_id) && (s_user_id s == user_id)
                                   && live_session now s f) db with
    | [] => mret None
    | (active_session, _) :: _ =>
      modify_db (set_session (s_session_id active_session)
        (fun s => s <| s_org_id := Some workspace_id |> <| s_access_jti := access_jti |>
                    <| s_last_activity_at := now |>));;
      mret (Some (s_access_jti active_session))
    end).

(** [audit]: the identifier and the time of the row are column defaults. *)
Definition session_audit (event_type outcome : string) (correlation_id user_id : UUID) (metadata : dict)
    : M unit :=
  now ← now_utc;
  tx (
    audit_id ← new_uuid4;
    add_row audit_logs audit_log_valid no_conflict
      (MkAuditLog audit_id (Some user_id) (Some user_id) None event_type outcome correlation_id
         metadata now)).
End Repository.
