(* ===== verification/SessionInv.v ===== *)
(** The invariant of the session tables and what the repository operations do to it.

    [session_inv] ties sessions, families and refresh tokens together; every operation of
    SessionRepo keeps it, so it holds on every database reached from one that satisfies it. *)
From S2P Require Import Prelude PyText Entity Models RedisClient World SessionRepo.

Record session_inv (db : Db) : Prop := {
  inv_family_ids : NoDup (List.map f_family_id (families db));
  inv_session_ids : NoDup (List.map s_session_id (sessions db));
  inv_session_families : NoDup (List.map s_family_id (sessions db));
  inv_token_ids : NoDup (List.map t_refresh_token_id (refresh_tokens db));
  inv_token_hashes : NoDup (List.map t_token_hash (refresh_tokens db));
  (* a session belongs to a family of its user, and is revoked exactly when the family is *)
  inv_session_family s : s ∈ sessions db -> exists f, f ∈ families db /\ f_family_id f = s_family_id s
    /\ f_user_id f = s_user_id s /\ (f_revoked_at f = None <-> s_revoked_at s = None);
  (* a refresh token belongs to a family with a session, and cannot outlive the family *)
  inv_token_session t : t ∈ refresh_tokens db -> exists s, s ∈ sessions db /\ s_family_id s = t_family_id t;
  inv_token_expiry t f : t ∈ refresh_tokens db -> f ∈ families db -> f_family_id f = t_family_id t ->
    t_expires_at t <= f_absolute_expires_at f;
  (* no token of a revoked family is alive, nor is a used one *)
  inv_revoked_family t f : t ∈ refresh_tokens db -> f ∈ families db -> f_family_id f = t_family_id t ->
    f_revoked_at f <> None -> t_revoked_at t <> None;
  inv_used t : t ∈ refresh_tokens db -> t_used_at t <> None -> t_revoked_at t <> None;
  (* the live token of a family is unique and the last of its generations *)
  inv_live t t' : t ∈ refresh_tokens db -> t' ∈ refresh_tokens db -> t_family_id t = t_family_id t' ->
    t_revoked_at t = None -> t_generation t' <= t_generation t /\ (t_revoked_at t' = None -> t = t') }.

Lemma session_inv_empty : session_inv empty_db.
Proof.
  split; cbn; try apply NoDup_nil_2; intros *; intros H; exfalso; by apply elem_of_nil in H.
Qed.

Section Tables.
Context (db : Db) (I : session_inv db).

Lemma family_unique f g : f ∈ families db -> g ∈ families db -> f_family_id f = f_family_id g -> f = g.
Proof. apply nodup_key. apply I. Qed.
Lemma session_unique s r : s ∈ sessions db -> r ∈ sessions db -> s_session_id s = s_session_id r -> s = r.
Proof. apply nodup_key. apply I. Qed.
Lemma session_of_family s r : s ∈ sessions db -> r ∈ sessions db -> s_family_id s = s_family_id r -> s = r.
Proof. apply nodup_key. apply I. Qed.
Lemma token_unique t r : t ∈ refresh_tokens db -> r ∈ refresh_tokens db ->
  t_refresh_token_id t = t_refresh_token_id r -> t = r.
Proof. apply nodup_key. apply I. Qed.
Lemma token_hash_unique t r : t ∈ refresh_tokens db -> r ∈ refresh_tokens db ->
  t_token_hash t = t_token_hash r -> t = r.
Proof. apply nodup_key. apply I. Qed.
Lemma revoked_together f s : f ∈ families db -> s ∈ sessions db -> f_family_id f = s_family_id s ->
  (f_revoked_at f = None <-> s_revoked_at s = None).
Proof.
  intros Hf Hs Hfs. destruct (inv_session_family _ I s Hs) as (g & Hg & Hgs & _ & Hr).
  assert (f = g) as -> by (apply family_unique; [done..|congruence]). done.
Qed.
Lemma same_user f s : f ∈ families db -> s ∈ sessions db -> f_family_id f = s_family_id s ->
  f_user_id f = s_user_id s.
Proof.
  intros Hf Hs Hfs. destruct (inv_session_family _ I s Hs) as (g & Hg & Hgs & Hu & _).
  assert (f = g) as -> by (apply family_unique; [done..|congruence]). done.
Qed.
End Tables.

(** ** Ending one family

    Eviction and [_revoke_locked] are instances of one transformation: the family, its session
    and at least its live tokens become revoked; nothing else of the rows changes. *)

Record same_family (f g : RefreshTokenFamily) : Prop := {
  sf_id : f_family_id f = f_family_id g; sf_user : f_user_id f = f_user_id g;
  sf_exp : f_absolute_expires_at f = f_absolute_expires_at g;
  sf_rev : f_revoked_at f <> None }.
Record same_session (s r : Session) : Prop := {
  ss_id : s_session_id s = s_session_id r; ss_fam : s_family_id s = s_family_id r;
  ss_user : s_user_id s = s_user_id r; ss_rev : s_revoked_at s <> None }.
Record same_token (t r : RefreshToken) : Prop := {
  st_id : t_refresh_token_id t = t_refresh_token_id r; st_fam : t_family_id t = t_family_id r;
  st_hash : t_token_hash t = t_token_hash r; st_gen : t_generation t = t_generation r;
  st_exp : t_expires_at t = t_expires_at r; st_rev : t_revoked_at t <> None }.

Definition end_family (fid sid : UUID) ff fs Pt ft (db : Db) : Db :=
  set_session sid fs (set_family fid ff db) <| refresh_tokens ::= update_ Pt ft |>.

Lemma end_families fid sid ff fs Pt ft db :
  families (end_family fid sid ff fs Pt ft db) = update_ (fun f => f_family_id f == fid) ff (families db).
Proof. done. Qed.
Lemma end_sessions fid sid ff fs Pt ft db :
  sessions (end_family fid sid ff fs Pt ft db) = update_ (fun s => s_session_id s == sid) fs (sessions db).
Proof. done. Qed.
Lemma end_tokens fid sid ff fs Pt ft db :
  refresh_tokens (end_family fid sid ff fs Pt ft db) = update_ Pt ft (refresh_tokens db).
Proof. done. Qed.

Section EndFamily.
Context (fid sid : UUID) (ff : RefreshTokenFamily -> RefreshTokenFamily) (fs : Session -> Session)
  (Pt : RefreshToken -> bool) (ft : RefreshToken -> RefreshToken).
Context (Hff : forall f, same_family (ff f) f) (Hfs : forall s, same_session (fs s) s)
  (Hft : forall t, same_token (ft t) t)
  (HP1 : forall t, Pt t = true -> t_family_id t = fid)
  (HP2 : forall t, t_family_id t = fid -> Pt t = false -> t_revoked_at t <> None).
Context (db : Db) (I : session_inv db).
Context (Hsid : forall s, s ∈ sessions db -> (s_session_id s = sid <-> s_family_id s = fid)).

Let up_f f := if f_family_id f == fid then ff f else f.
Let up_s s := if s_session_id s == sid then fs s else s.
Let up_t t := if Pt t then ft t else t.

Lemma up_family f : f_family_id (up_f f) = f_family_id f /\ f_user_id (up_f f) = f_user_id f
  /\ f_absolute_expires_at (up_f f) = f_absolute_expires_at f
  /\ (f_revoked_at (up_f f) = None <-> f_revoked_at f = None /\ f_family_id f <> fid).
Proof.
  unfold up_f. destruct (Hff f). case_bool_decide; repeat split; try done; tauto.
Qed.
Lemma up_session s : s_session_id (up_s s) = s_session_id s /\ s_family_id (up_s s) = s_family_id s
  /\ s_user_id (up_s s) = s_user_id s
  /\ (s_revoked_at (up_s s) = None <-> s_revoked_at s = None /\ s_session_id s <> sid).
Proof.
  unfold up_s. destruct (Hfs s). case_bool_decide; repeat split; try done; tauto.
Qed.
Lemma up_token t : t_refresh_token_id (up_t t) = t_refresh_token_id t
  /\ t_family_id (up_t t) = t_family_id t /\ t_token_hash (up_t t) = t_token_hash t
  /\ t_generation (up_t t) = t_generation t /\ t_expires_at (up_t t) = t_expires_at t
  /\ (t_revoked_at (up_t t) = None <-> t_revoked_at t = None /\ t_family_id t <> fid).
Proof.
  unfold up_t. destruct (Hft t). specialize (HP1 t). specialize (HP2 t).
  destruct (Pt t); repeat split; try done; try tauto.
Qed.

Lemma end_family_inv (Hused : forall t, t_used_at (ft t) = t_used_at t) :
  session_inv (end_family fid sid ff fs Pt ft db).
Proof.
  split; rewrite ?end_families, ?end_sessions, ?end_tokens.
  - rewrite key_update by apply Hff. apply I.
  - rewrite key_update by apply Hfs. apply I.
  - rewrite key_update by apply Hfs. apply I.
  - rewrite key_update by apply Hft. apply I.
  - rewrite key_update by apply Hft. apply I.
  - intros s (s0 & Hs & ->)%elem_of_update. destruct (inv_session_family _ I s0 Hs) as (f & Hf & Hfid & Hu & Hr).
    exists (up_f f).
    split; [exact (elem_of_update_fwd (fun f => f_family_id f == fid) ff _ _ Hf)|]. fold (up_s s0).
    destruct (up_family f) as (-> & -> & _ & ->), (up_session s0) as (_ & -> & -> & ->).
    repeat split; try done; specialize (Hsid s0 Hs); rewrite <- Hfid in Hsid; tauto.
  - intros t (t0 & Ht & ->)%elem_of_update. destruct (inv_token_session _ I t0 Ht) as (s & Hs & He).
    exists (up_s s).
    split; [exact (elem_of_update_fwd (fun s => s_session_id s == sid) fs _ _ Hs)|]. fold (up_t t0).
    destruct (up_session s) as (_ & -> & _), (up_token t0) as (_ & -> & _). done.
  - intros t f (t0 & Ht & ->)%elem_of_update (f0 & Hf & ->)%elem_of_update.
    fold (up_t t0) (up_f f0). destruct (up_token t0) as (_ & -> & _ & _ & -> & _), (up_family f0) as (-> & _ & -> & _).
    by apply I.
  - intros t f (t0 & Ht & ->)%elem_of_update (f0 & Hf & ->)%elem_of_update.
    fold (up_t t0) (up_f f0). destruct (up_token t0) as (_ & -> & _ & _ & _ & Ht'), (up_family f0) as (-> & _ & _ & Hf').
    intros He Hr Hn. apply Hr, Hf'. apply Ht' in Hn as [Hn Hne]. split; [|congruence].
    destruct (f_revoked_at f0) eqn:Ef; [|done]. exfalso.
    by apply (inv_revoked_family _ I t0 f0 Ht Hf He); [rewrite Ef|].
  - intros t (t0 & Ht & ->)%elem_of_update. fold (up_t t0). intros Hu Hn.
    apply up_token in Hn as [Hn _]. apply (inv_used _ I t0 Ht); [|done].
    unfold up_t in Hu. destruct (Pt t0); [by rewrite Hused in Hu|done].
  - intros t r (t0 & Ht & ->)%elem_of_update (r0 & Hr & ->)%elem_of_update. fold (up_t t0) (up_t r0).
    destruct (up_token t0) as (_ & -> & _ & -> & _ & Ht'), (up_token r0) as (_ & -> & _ & -> & _ & Hr').
    intros He [Hn Hne]%Ht'. destruct (inv_live _ I t0 r0 Ht Hr He Hn) as [Hg Hu].
    split; [done|]. intros [Hn' _]%Hr'. by rewrite (Hu Hn').
Qed.
End EndFamily.

(** Sessions and families stay linked. *)
Definition links (db : Db) : list (UUID * UUID) :=
  List.map (fun s => (s_session_id s, s_family_id s)) (sessions db).

Lemma links_iff db fid sid : session_inv db -> (sid, fid) ∈ links db ->
  forall s, s ∈ sessions db -> (s_session_id s = sid <-> s_family_id s = fid).
Proof.
  intros I Hin s Hs. unfold links in Hin. rewrite list_elem_of_In in Hin.
  apply in_map_iff in Hin as (r & [= <- <-] & Hr). apply list_elem_of_In in Hr.
  split; intros H.
  - by rewrite (session_unique db I s r).
  - by rewrite (session_of_family db I s r).
Qed.
Lemma links_in db s : s ∈ sessions db -> (s_session_id s, s_family_id s) ∈ links db.
Proof.
  intros H. unfold links. apply list_elem_of_In, (in_map (fun s => (s_session_id s, s_family_id s))).
  by apply list_elem_of_In.
Qed.
Lemma links_end fid sid ff fs Pt ft db : (forall s, same_session (fs s) s) ->
  links (end_family fid sid ff fs Pt ft db) = links db.
Proof.
  intros H. unfold links. rewrite end_sessions. apply key_update. intros s. by destruct (H s) as [-> -> _ _].
Qed.

(** Eviction and [_revoke_locked] as such transformations. *)
Definition revoke_locked_at (fid sid : UUID) (now : Time) (reason : string) : Db -> Db :=
  end_family fid sid
    (fun f => f <| f_revoked_at := Some (or_else (f_revoked_at f) now) |>
                <| f_revocation_reason := str_or (f_revocation_reason f) (Some reason) |>)
    (fun s => s <| s_revoked_at := Some (or_else (s_revoked_at s) now) |>)
    (fun t => (t_family_id t == fid) && is_none (t_revoked_at t))
    (fun t => t <| t_revoked_at := Some now |>).
Lemma revoke_locked_eq f s now reason db :
  _revoke_locked f s now reason db = revoke_locked_at (f_family_id f) (s_session_id s) now reason db.
Proof. done. Qed.

Definition evict_at (fid sid : UUID) (now : Time) : Db -> Db :=
  end_family fid sid
    (fun f => f <| f_revoked_at := Some now |> <| f_revocation_reason := Some "session_cap" |>)
    (fun s => s <| s_revoked_at := Some now |>)
    (fun t => t_family_id t == fid)
    (fun t => t <| t_revoked_at := Some now |>).
Lemma evict_eq p now db : evict now p db = evict_at (f_family_id p.1) (s_session_id p.2) now db.
Proof. done. Qed.

Lemma evict_inv fid sid now db : session_inv db -> (sid, fid) ∈ links db ->
  session_inv (evict_at fid sid now db) /\ links (evict_at fid sid now db) = links db.
Proof.
  intros I Hl. split; [|by apply links_end; intros s; split].
  apply end_family_inv; try (by intros; split); try done.
  - intros t. by intros ?%bool_decide_eq_true.
  - intros t Ht Hn. to_prop. done.
  - by apply links_iff.
Qed.

Lemma revoke_locked_inv fid sid now reason db : session_inv db -> (sid, fid) ∈ links db ->
  session_inv (revoke_locked_at fid sid now reason db) /\
  links (revoke_locked_at fid sid now reason db) = links db.
Proof.
  intros I Hl. split; [|by apply links_end; intros s; split].
  apply end_family_inv; try (by intros; split); try done.
  - intros t Ht. by to_prop.
  - intros t Ht Hn. rewrite Ht, eqb_refl in Hn. cbn in Hn. by destruct (t_revoked_at t).
  - by apply links_iff.
Qed.

(** A loop over rows keeps what one turn keeps. *)
Lemma fold_links {A} (g : A -> Db -> Db) (lk : A -> UUID * UUID) l db :
  (forall a db, session_inv db -> lk a ∈ links db -> session_inv (g a db) /\ links (g a db) = links db) ->
  session_inv db -> Forall (fun a => lk a ∈ links db) l ->
  session_inv (List.fold_left (fun db a => g a db) l db) /\
  links (List.fold_left (fun db a => g a db) l db) = links db.
Proof.
  intros Hg. revert db. induction l as [|a l IH]; intros db I Hl; [done|]. cbn.
  inversion_clear Hl as [|? ? Ha Hl']. rename Hl' into Hl. destruct (Hg a db I Ha) as [I' L']. rewrite <- L' in Hl.
  destruct (IH _ I' Hl) as [I2 L2]. by rewrite L2, L'.
Qed.

(** ** Opening a session *)

Lemma active_rows_elem user_id now db p : p ∈ active_rows user_id now db <->
  p.1 ∈ families db /\ p.2 ∈ sessions db /\ s_family_id p.2 = f_family_id p.1 /\ active_pair user_id now p = true.
Proof.
  destruct p as [f s]. unfold active_rows. rewrite (order_by_perm (fun p => s_created_at p.2)).
  rewrite elem_of_where, elem_of_join, bool_decide_eq_true. cbn. tauto.
Qed.

Definition evict_all (now : Time) (rows : list (RefreshTokenFamily * Session)) (db : Db) : Db :=
  List.fold_left (fun db p => evict now p db) rows db.

Lemma elem_of_firstn {A} n (l : list A) x : x ∈ List.firstn n l -> x ∈ l.
Proof. rewrite !list_elem_of_In. intros H. rewrite <- (firstn_skipn n l). apply in_or_app. by left. Qed.

Lemma evict_all_inv user_id now n db : session_inv db ->
  session_inv (evict_all now (List.firstn n (active_rows user_id now db)) db) /\
  links (evict_all now (List.firstn n (active_rows user_id now db)) db) = links db.
Proof.
  intros I. apply (fold_links (evict now) (fun p => (s_session_id p.2, f_family_id p.1))); [|done|].
  - intros p db' I' Hl. rewrite evict_eq. by apply evict_inv.
  - apply Forall_forall. intros p Hp%list_elem_of_In%elem_of_firstn. apply active_rows_elem in Hp as (_ & Hs & <- & _).
    by apply links_in.
Qed.

Definition opened (f : RefreshTokenFamily) (s : Session) (t : RefreshToken) (db : Db) : Db :=
  db <| families ::= (fun l => l ++ [f]) |> <| sessions ::= (fun l => l ++ [s]) |>
     <| refresh_tokens ::= (fun l => l ++ [t]) |>.

Lemma opened_families f s t db : families (opened f s t db) = families db ++ [f].
Proof. done. Qed.
Lemma opened_sessions f s t db : sessions (opened f s t db) = sessions db ++ [s].
Proof. done. Qed.
Lemma opened_tokens f s t db : refresh_tokens (opened f s t db) = refresh_tokens db ++ [t].
Proof. done. Qed.

Lemma fresh_key {row K} `{EqDecision K} (key : row -> K) (l : list row) r :
  (forall s, s ∈ l -> (key s == key r) = false) -> NoDup (List.map key l) -> NoDup (List.map key (l ++ [r])).
Proof.
  intros H Hnd. apply nodup_key_snoc; [done|]. intros s Hs. apply H in Hs. by to_prop.
Qed.

Section Opening.
Context (db : Db) (I : session_inv db) (f : RefreshTokenFamily) (s : Session) (t : RefreshToken).
Context (Hf : family_conflict (families db) f = false) (Hs : session_conflict (sessions db) s = false)
  (Ht : refresh_token_conflict (refresh_tokens db) t = false).
Context (Hfs : s_family_id s = f_family_id f) (Hft : t_family_id t = f_family_id f)
  (Hu : f_user_id f = s_user_id s) (Hrf : f_revoked_at f = None) (Hrs : s_revoked_at s = None)
  (Hrt : t_revoked_at t = None) (Hut : t_used_at t = None)
  (Hexp : t_expires_at t <= f_absolute_expires_at f).

Lemma fresh_family g : g ∈ families db -> f_family_id g <> f_family_id f.
Proof. intros Hg E. apply row_exists_false with (r := g) in Hf; [|done]. by to_prop. Qed.
Lemma old_session_family r : r ∈ sessions db -> s_family_id r <> f_family_id f.
Proof.
  intros Hr E. destruct (inv_session_family _ I r Hr) as (g & Hg & Eg & _).
  apply (fresh_family g Hg). congruence.
Qed.
Lemma old_token_family r : r ∈ refresh_tokens db -> t_family_id r <> f_family_id f.
Proof.
  intros Hr E. destruct (inv_token_session _ I r Hr) as (x & Hx & Ex).
  apply (old_session_family x Hx). congruence.
Qed.

Lemma opened_inv : session_inv (opened f s t db).
Proof.
  unfold family_conflict, session_conflict, refresh_token_conflict in *.
  assert (Hsc := proj1 (row_exists_false _ _) Hs). assert (Htc := proj1 (row_exists_false _ _) Ht).
  assert (Hfc := proj1 (row_exists_false _ _) Hf). cbn beta in *.
  pose proof fresh_family as F. pose proof old_session_family as OS. pose proof old_token_family as OT.
  split; cbn [opened set families sessions refresh_tokens].
  - apply fresh_key; [done|apply I].
  - apply fresh_key; [|apply I]. intros r Hr. specialize (Hsc r Hr). by apply orb_false_iff in Hsc as [[? _]%orb_false_iff _].
  - apply fresh_key; [|apply I]. intros r Hr. specialize (Hsc r Hr). by apply orb_false_iff in Hsc as [[_ ?]%orb_false_iff _].
  - apply fresh_key; [|apply I]. intros r Hr. specialize (Htc r Hr). by apply orb_false_iff in Htc as [[? _]%orb_false_iff _].
  - apply fresh_key; [|apply I]. intros r Hr. specialize (Htc r Hr). by apply orb_false_iff in Htc as [[_ ?]%orb_false_iff _].
  - intros r [Hr| ->]%elem_of_snoc.
    + destruct (inv_session_family _ I r Hr) as (g & Hg & ?). exists g. rewrite elem_of_snoc. tauto.
    + exists f. rewrite elem_of_snoc, Hrf, Hrs. repeat split; try done; by right.
  - intros r [Hr| ->]%elem_of_snoc.
    + destruct (inv_token_session _ I r Hr) as (g & Hg & ?). exists g. rewrite elem_of_snoc. tauto.
    + exists s. rewrite elem_of_snoc. split; [by right|congruence].
  - intros r g [Hr| ->]%elem_of_snoc [Hg| ->]%elem_of_snoc E; [by eapply I|exfalso..|done].
    + by apply (OT r).
    + apply (F g); congruence.
  - intros r g [Hr| ->]%elem_of_snoc [Hg| ->]%elem_of_snoc E; [by eapply I|by rewrite Hrf|exfalso|by rewrite Hrf].
    apply (F g); congruence.
  - intros r [Hr| ->]%elem_of_snoc; [by apply I|by rewrite Hut].
  - intros r r' [Hr| ->]%elem_of_snoc [Hr'| ->]%elem_of_snoc E; [by apply I|exfalso..|done].
    + apply (OT r); congruence.
    + apply (OT r'); congruence.
Qed.
End Opening.

(** What [create_session] leaves when it returns. *)
Section CreateSpec.
Context {R : Type} {E : Env}.
Implicit Types (w : World R).

Lemma create_session_spec user_id client_type fp ip rh jti fexp sexp rexp w c w' :
  create_session user_id client_type fp ip rh jti fexp sexp rexp w = (inr c, w') ->
  let now := w_now w in
  let rows := active_rows user_id now (w_db w) in
  let doomed := List.firstn (length rows + 1 - MAX_ACTIVE_SESSIONS) rows in
  let db1 := evict_all now doomed (w_db w) in
  let f := MkFamily (uuid4 (w_seed w)) user_id fp (client_value client_type) now fexp None None in
  let s := MkSession (uuid4 (N.succ (w_seed w))) (f_family_id f) user_id None jti
             (client_value client_type) fp ip now now sexp None in
  let t := MkRefreshToken (uuid4 (N.succ (N.succ (w_seed w)))) (f_family_id f) rh 0 now None None rexp in
  family_conflict (families db1) f = false /\ session_conflict (sessions db1) s = false /\
  refresh_token_conflict (refresh_tokens db1) t = false /\
  w_db w' = opened f s t db1 /\ w_redis w' = w_redis w /\ w_now w' = w_now w /\
  c = MkCreatedSession
        (MkSessionRecord (s_session_id s) (f_family_id f) user_id jti client_type fp ip now now sexp None)
        (List.map (fun p => MkRevocationResult user_id (f_family_id p.1) (s_access_jti p.2)) doomed).
Proof.
  unfold create_session. intros H. run_in H. apply tx_inr in H. run_in H. cbv zeta in H |- *.
  rewrite (run_bind _ _ _ _ _ (run_for_modify (evict (w_now w)) _ w)) in H. run_in H.
  fold (evict_all (w_now w) (take (length (active_rows user_id (w_now w) (w_db w)) + 1 - MAX_ACTIVE_SESSIONS)
     (active_rows user_id (w_now w) (w_db w))) (w_db w)) in H.
  set (db1 := evict_all _ _ _) in *.
  step_in H u1 w1 H1. apply add_row_inr in H1 as (_ & Hc1 & ->). run_in H.
  step_in H u2 w2 H2. apply add_row_inr in H2 as (_ & Hc2 & ->). run_in H.
  step_in H u3 w3 H3. apply add_row_inr in H3 as (_ & Hc3 & ->). unfold _record in H.
  wsimpl_in H. cbn [s_client_id] in H. rewrite ClientType_of_value in H. run_in H.
  injection H as <- <-. done.
Qed.

Lemma keeps_create_session user_id client_type fp ip rh jti fexp sexp rexp : rexp <= fexp ->
  keeps (R := R) (on_db session_inv) (create_session user_id client_type fp ip rh jti fexp sexp rexp).
Proof.
  intros Hexp w Hw. destruct (create_session _ _ _ _ _ _ _ _ _ w) as [[e|c] w'] eqn:Ec; cbn.
  - unfold create_session in Ec. run_in Ec. apply tx_inl in Ec. unfold on_db. by rewrite Ec.
  - apply create_session_spec in Ec as (Hf & Hs & Ht & Hdb & _). unfold on_db. rewrite Hdb.
    apply opened_inv; try done. by apply evict_all_inv.
Qed.
End CreateSpec.

(** ** Rotation *)

Section Rotation.
Context (db : Db) (I : session_inv db) (t : RefreshToken) (f : RefreshTokenFamily) (s : Session).

Lemma token_rows_elem h p : p ∈ token_rows h db <->
  p.1 ∈ refresh_tokens db /\ p.2.1 ∈ families db /\ p.2.2 ∈ sessions db /\
  t_token_hash p.1 = h /\ f_family_id p.2.1 = t_family_id p.1 /\ s_family_id p.2.2 = f_family_id p.2.1.
Proof.
  destruct p as [x [g r]]. unfold token_rows. rewrite elem_of_where, !elem_of_join, !bool_decide_eq_true.
  cbn. tauto.
Qed.

Lemma token_rows_nodup h : NoDup (token_rows h db).
Proof.
  apply nodup_where, nodup_join; [|apply nodup_join]; eapply nodup_key_rows; apply I.
Qed.

(** A token hash identifies one token, its family and its session. *)
Lemma token_rows_unique h p q : p ∈ token_rows h db -> q ∈ token_rows h db -> p = q.
Proof.
  intros (Ht & Hf & Hs & Hh & Hft & Hsf)%token_rows_elem (Ht' & Hf' & Hs' & Hh' & Hft' & Hsf')%token_rows_elem.
  destruct p as [x [g r]], q as [x' [g' r']]; cbn in *.
  assert (x = x') as -> by (apply (token_hash_unique db I); congruence).
  assert (g = g') as -> by (apply (family_unique db I); congruence).
  assert (r = r') as -> by (apply (session_of_family db I); congruence). done.
Qed.

Lemma token_rows_cases h : token_rows h db = [] \/ exists p, token_rows h db = [p] /\ p ∈ token_rows h db.
Proof.
  destruct (nodup_singletons (token_rows h db)) as [?|[p Hp]]; [apply token_rows_nodup|apply token_rows_unique|by left|].
  right. exists p. split; [done|]. rewrite Hp. by left.
Qed.

(** The row of a known token. *)
Lemma token_rows_known : t ∈ refresh_tokens db -> exists f s,
  token_rows (t_token_hash t) db = [(t, (f, s))] /\ f ∈ families db /\ s ∈ sessions db /\
  f_family_id f = t_family_id t /\ s_family_id s = f_family_id f.
Proof.
  intros Ht. destruct (inv_token_session _ I t Ht) as (r & Hr & Er).
  destruct (inv_session_family _ I r Hr) as (g & Hg & Eg & _).
  exists g, r. split; [|repeat split; try done; congruence].
  assert (Hin : (t, (g, r)) ∈ token_rows (t_token_hash t) db).
  { apply token_rows_elem. cbn. repeat split; try done; congruence. }
  apply nodup_unique; [apply token_rows_nodup|done|]. intros b Hb. by apply (token_rows_unique (t_token_hash t)).
Qed.

Definition rotated (now : Time) (jti : UUID) (fresh : RefreshToken) (db : Db) : Db :=
  set_session (s_session_id s) (rotated_session jti now)
    ((set_token (t_refresh_token_id t) (spent_token now) db) <| refresh_tokens ::= (fun l => l ++ [fresh]) |>).

Context (Ht : t ∈ refresh_tokens db) (Hf : f ∈ families db) (Hs : s ∈ sessions db)
  (Hft : f_family_id f = t_family_id t) (Hsf : s_family_id s = f_family_id f)
  (Hlive : t_revoked_at t = None) (Hflive : f_revoked_at f = None).
Context (now : Time) (jti : UUID) (fresh : RefreshToken).
Context (Hc : refresh_token_conflict (refresh_tokens (set_token (t_refresh_token_id t) (spent_token now) db)) fresh = false)
  (Hff : t_family_id fresh = f_family_id f) (Hfl : t_revoked_at fresh = None) (Hfu : t_used_at fresh = None)
  (Hfg : t_generation fresh = t_generation t + 1) (Hfe : t_expires_at fresh <= f_absolute_expires_at f).

Let up (r : RefreshToken) := if t_refresh_token_id r == t_refresh_token_id t then spent_token now r else r.
Lemma up_props r : t_refresh_token_id (up r) = t_refresh_token_id r /\ t_family_id (up r) = t_family_id r /\
  t_token_hash (up r) = t_token_hash r /\ t_generation (up r) = t_generation r /\
  t_expires_at (up r) = t_expires_at r.
Proof. unfold up. by case_bool_decide. Qed.
Lemma up_revoked r : r ∈ refresh_tokens db -> t_revoked_at (up r) = None <-> t_revoked_at r = None /\ r <> t.
Proof.
  intros Hr. unfold up. case_bool_decide as Hd; cbn.
  - apply (token_unique db I) in Hd as ->; [|done..]. split; [done|tauto].
  - split; [|tauto]. intros H. split; [done|]. by intros ->.
Qed.
Lemma up_used r : r ∈ refresh_tokens db -> t_used_at (up r) <> None -> t_used_at r <> None \/ r = t.
Proof.
  intros Hr. unfold up. case_bool_decide as Hd; cbn; [|tauto].
  apply (token_unique db I) in Hd as ->; [|done..]. by right.
Qed.

Lemma rotated_tokens x :
  x ∈ refresh_tokens (rotated now jti fresh db) <->
  (exists r, r ∈ refresh_tokens db /\ x = up r) \/ x = fresh.
Proof.
  change (refresh_tokens (rotated now jti fresh db)) with
    (update_ (fun r => t_refresh_token_id r == t_refresh_token_id t) (spent_token now) (refresh_tokens db) ++ [fresh]).
  rewrite elem_of_snoc, elem_of_update. done.
Qed.
Lemma rotated_sessions : sessions (rotated now jti fresh db) =
  update_ (fun r => s_session_id r == s_session_id s) (rotated_session jti now) (sessions db).
Proof. done. Qed.

(** No other token of the family is alive. *)
Lemma family_spent r : r ∈ refresh_tokens db -> t_family_id r = f_family_id f -> t_revoked_at (up r) <> None.
Proof.
  intros Hr Hrf Hn. apply up_revoked in Hn as [Hn Hne]; [|done]. apply Hne.
  symmetry. apply (inv_live _ I t r); [done..|congruence|done|done].
Qed.

Lemma rotated_inv : session_inv (rotated now jti fresh db).
Proof.
  assert (Hcs := proj1 (row_exists_false _ _) Hc). cbn beta in Hcs.
  assert (Hse : forall r, r ∈ sessions (rotated now jti fresh db) -> exists r0, r0 ∈ sessions db /\
     s_family_id r = s_family_id r0 /\ s_user_id r = s_user_id r0 /\ s_revoked_at r = s_revoked_at r0).
  { intros r (r0 & Hr & ->)%elem_of_update. exists r0. case_bool_decide; done. }
  assert (Hsb : forall r, r ∈ sessions db -> exists r0, r0 ∈ sessions (rotated now jti fresh db) /\
     s_family_id r0 = s_family_id r).
  { intros r Hr. eexists. split; [exact (elem_of_update_fwd (fun r => s_session_id r == s_session_id s)
      (rotated_session jti now) _ _ Hr)|]. by case_bool_decide. }
  split.
  - apply I.
  - rewrite rotated_sessions, key_update by done. apply I.
  - rewrite rotated_sessions, key_update by done. apply I.
  - apply fresh_key; [|unfold set_token; cbn [refresh_tokens set]; rewrite key_update by done; apply I].
    intros r Hr. specialize (Hcs r Hr). by apply orb_false_iff in Hcs as [[? _]%orb_false_iff _].
  - apply fresh_key; [|unfold set_token; cbn [refresh_tokens set]; rewrite key_update by done; apply I].
    intros r Hr. specialize (Hcs r Hr). by apply orb_false_iff in Hcs as [[_ ?]%orb_false_iff _].
  - intros r (r0 & Hr0 & -> & -> & ->)%Hse. by apply I.
  - intros x [(r & Hr & ->)| ->]%rotated_tokens.
    + destruct (inv_token_session _ I r Hr) as (y & Hy & Ey). destruct (Hsb y Hy) as (y0 & Hy0 & E0).
      exists y0. destruct (up_props r) as (_ & -> & _). split; [done|congruence].
    + destruct (Hsb s Hs) as (y0 & Hy0 & E0). exists y0. split; [done|congruence].
  - intros x g [(r & Hr & ->)| ->]%rotated_tokens Hg Eg.
    + destruct (up_props r) as (_ & Ef & _ & _ & ->). rewrite Ef in Eg. by apply (inv_token_expiry _ I r g).
    + assert (g = f) as -> by (apply (family_unique db I); [done..|congruence]). done.
  - intros x g [(r & Hr & ->)| ->]%rotated_tokens Hg Eg Hrev.
    + destruct (up_props r) as (_ & Ef & _ & _ & _). rewrite Ef in Eg. intros [Hn _]%up_revoked; [|done].
      by apply (inv_revoked_family _ I r g).
    + assert (g = f) as -> by (apply (family_unique db I); [done..|congruence]). done.
  - intros x [(r & Hr & ->)| ->]%rotated_tokens; [|done].
    intros [Hu| ->]%up_used; [|intros [_ ?]%up_revoked; done|done].
    intros [Hn _]%up_revoked; [|done]. by apply (inv_used _ I r).
  - intros x y [(r & Hr & ->)| ->]%rotated_tokens [(r' & Hr' & ->)| ->]%rotated_tokens; intros Exy Hn.
    + destruct (up_props r) as (_ & E1 & _ & -> & _), (up_props r') as (_ & E2 & _ & -> & _).
      rewrite E1, E2 in Exy. apply up_revoked in Hn as [Hn Hne]; [|done].
      destruct (inv_live _ I r r' Hr Hr' Exy Hn) as [Hg Hu]. split; [done|].
      intros [Hn' _]%up_revoked; [|done]. by rewrite (Hu Hn').
    + exfalso. destruct (up_props r) as (_ & E1 & _). apply (family_spent r Hr); [congruence|done].
    + destruct (up_props r') as (_ & E2 & _ & -> & _). split.
      * destruct (inv_live _ I t r' Ht Hr') as [Hg _]; [congruence|done|]. lia.
      * intros Hn'. exfalso. apply (family_spent r' Hr'); [congruence|done].
    + split; [lia|done].
Qed.
End Rotation.

(** The decision [rotate_refresh_token] takes on the row of a token. *)
Definition rotation_verdict (t : RefreshToken) (f : RefreshTokenFamily) (s : Session)
    (client_type : ClientType) (fingerprint : string) (idle : Z) (now : Time) : RotationStatus :=
  if is_some (t_used_at t) then Rot_REUSED
  else if is_some (t_revoked_at t) || is_some (f_revoked_at f) || is_some (s_revoked_at s) then Rot_INVALID
  else if token_expired t f s idle now then Rot_EXPIRED
  else if (f_client_id f != client_value client_type) || (f_device_fingerprint_hash f != fingerprint)
  then Rot_CLIENT_MISMATCH
  else Rot_ROTATED.

(** The reason the family is ended with, for a verdict that ends it. *)
Definition verdict_reason (v : RotationStatus) : option string :=
  match v with
  | Rot_REUSED => Some "token_reuse" | Rot_EXPIRED => Some "expired"
  | Rot_CLIENT_MISMATCH => Some "client_mismatch" | Rot_INVALID | Rot_ROTATED => None
  end.

Definition revocation_of (f : RefreshTokenFamily) (s : Session) : RevocationResult :=
  MkRevocationResult (s_user_id s) (f_family_id f) (s_access_jti s).

Section RotateSpec.
Context {R : Type} {E : Env}.
Implicit Types (w : World R).
Context (h rh : string) (rexp : Time) (jti : UUID) (ct : ClientType) (fp : string) (idle : Z) (now : Time).
Abbreviation rotate := (rotate_refresh_token (R := R) h rh rexp jti ct fp idle now).

Lemma rotate_unknown w : token_rows h (w_db w) = [] -> rotate w = (inr (MkRotationResult Rot_INVALID None None), w).
Proof. intros H. unfold rotate_refresh_token. apply run_tx. run. by rewrite H. Qed.

Lemma rotate_ends t f s w r : token_rows h (w_db w) = [(t, (f, s))] ->
  verdict_reason (rotation_verdict t f s ct fp idle now) = Some r ->
  rotate w = (inr (MkRotationResult (rotation_verdict t f s ct fp idle now) None (Some (revocation_of f s))),
              with_db (revoke_locked_at (f_family_id f) (s_session_id s) now r (w_db w)) w).
Proof.
  intros H Hv. unfold rotate_refresh_token. apply run_tx. run. rewrite H. cbn [one_row]. run.
  unfold rotation_verdict in *. repeat (case_match; try done); injection Hv as <-; done.
Qed.

Lemma rotate_invalid t f s w : token_rows h (w_db w) = [(t, (f, s))] ->
  rotation_verdict t f s ct fp idle now = Rot_INVALID ->
  rotate w = (inr (MkRotationResult Rot_INVALID None None), w).
Proof.
  intros H Hv. unfold rotate_refresh_token. apply run_tx. run. rewrite H. cbn [one_row]. run.
  unfold rotation_verdict in *. by repeat (case_match; try done).
Qed.

Definition replacement (t : RefreshToken) (f : RefreshTokenFamily) w : RefreshToken :=
  MkRefreshToken (uuid4 (w_seed w)) (f_family_id f) rh (t_generation t + 1) now None None
    (Z.min rexp (f_absolute_expires_at f)).

Lemma rotate_rotates t f s w x w' : token_rows h (w_db w) = [(t, (f, s))] ->
  rotation_verdict t f s ct fp idle now = Rot_ROTATED -> rotate w = (x, w') ->
  w_redis w' = w_redis w /\ w_now w' = w_now w /\
  match x with
  | inl e => w_db w' = w_db w
  | inr res =>
    refresh_token_conflict (refresh_tokens (set_token (t_refresh_token_id t) (spent_token now) (w_db w)))
      (replacement t f w) = false /\
    w_db w' = rotated t s now jti (replacement t f w) (w_db w) /\
    rr_status res = Rot_ROTATED /\ rr_revoked res = Some (revocation_of f s) /\
    exists c, ClientType_of (s_client_id s) = Some c /\
      rr_record res = Some (MkSessionRecord (s_session_id s) (s_family_id s) (s_user_id s) jti c
        (s_device_fingerprint_hash s) (s_ip_address s) (s_created_at s) now (s_expires_at s) (s_revoked_at s))
  end.
Proof.
  intros H Hv Hr. unfold rotate_refresh_token, tx in Hr. run_in Hr. rewrite H in Hr. cbn [one_row] in Hr.
  run_in Hr. unfold rotation_verdict in Hv.
  do 4 (case_test_in Hv; [discriminate|]). run_in Hr. unfold add_row in Hr. run_in Hr. wsimpl_in Hr.
  fold (replacement t f w) in Hr.
  set (d := set_token _ _ _) in *.
  destruct (refresh_token_valid (replacement t f w) && negb (refresh_token_conflict (refresh_tokens d) (replacement t f w))) eqn:Ec.
  2: { rewrite bind_raise in Hr. by injection Hr as <- <-. }
  to_prop. run_in Hr. unfold _record in Hr. cbn [rotated_session s_client_id set] in Hr.
  destruct (ClientType_of (s_client_id s)) as [c|] eqn:Ect; run_in Hr; injection Hr as <- <-; [|done].
  repeat split; try done. by exists c.
Qed.

Lemma keeps_rotate : keeps (on_db session_inv) rotate.
Proof.
  intros w I. unfold on_db in *. destruct (token_rows_cases (w_db w) I h) as [Hn|([t [f s]] & Hp & Hin)].
  { by rewrite rotate_unknown. }
  apply token_rows_elem in Hin as (Ht & Hf & Hs & Hh & Hft & Hsf); cbn in *.
  destruct (rotation_verdict t f s ct fp idle now) eqn:Ev.
  2: { by rewrite (rotate_invalid t f s). }
  2-4: rewrite (rotate_ends t f s w _ Hp) by (by rewrite Ev); cbn [snd w_db with_db set];
    apply revoke_locked_inv; [done|]; rewrite <- Hsf; by apply links_in.
  destruct (rotate w) as [x w'] eqn:Er. apply (rotate_rotates t f s) in Er as (_ & _ & Hx); [|done..].
  destruct x as [e|res]; cbn [snd]; [by rewrite Hx|]. destruct Hx as (Hc & -> & _).
  unfold rotation_verdict in Ev. repeat (case_match; try done). to_prop.
  assert (t_revoked_at t = None) by (by destruct (t_revoked_at t)).
  assert (f_revoked_at f = None) by (by destruct (f_revoked_at f)).
  apply (rotated_inv _ I t f s); try done. cbn. lia.
Qed.
End RotateSpec.

(** ** Revocation and scoping *)

Section RevokeSpec.
Context (db : Db) (I : session_inv db).

Lemma session_rows_elem P s f : (s, f) ∈ session_rows P db <->
  s ∈ sessions db /\ f ∈ families db /\ f_family_id f = s_family_id s /\ P s f = true.
Proof.
  unfold session_rows. rewrite elem_of_where, elem_of_join, bool_decide_eq_true. cbn. tauto.
Qed.
Lemma session_rows_nodup P : NoDup (session_rows P db).
Proof. apply nodup_where, nodup_join; eapply nodup_key_rows; apply I. Qed.

(** A selection by session identifier has at most one row. *)
Lemma session_rows_by_id P sid : (forall s f, P s f = true -> s_session_id s = sid) ->
  session_rows P db = [] \/ exists s f, session_rows P db = [(s, f)] /\ (s, f) ∈ session_rows P db.
Proof.
  intros HP. destruct (nodup_singletons (session_rows P db)) as [?|[[s f] Hp]].
  - apply session_rows_nodup.
  - intros [s f] [r g] (Hs & Hf & Hfs & Hp)%session_rows_elem (Hr & Hg & Hgr & Hq)%session_rows_elem.
    apply HP in Hp, Hq. assert (s = r) as -> by (apply (session_unique db I); congruence).
    assert (f = g) as -> by (apply (family_unique db I); congruence). done.
  - by left.
  - right. exists s, f. split; [done|]. rewrite Hp. by left.
Qed.
End RevokeSpec.

Definition revoke_rows (now : Time) (reason : string) (rows : list (Session * RefreshTokenFamily)) (db : Db) : Db :=
  List.fold_left (fun db p => _revoke_locked p.2 p.1 now reason db) rows db.

Lemma revoke_rows_inv now reason P db : session_inv db ->
  session_inv (revoke_rows now reason (session_rows P db) db) /\
  links (revoke_rows now reason (session_rows P db) db) = links db.
Proof.
  intros I. apply (fold_links (fun p db => _revoke_locked p.2 p.1 now reason db)
    (fun p => (s_session_id p.1, f_family_id p.2))); [|done|].
  - intros p db' I' Hl. rewrite revoke_locked_eq. by apply revoke_locked_inv.
  - apply Forall_forall. intros [s f] Hp%list_elem_of_In. apply session_rows_elem in Hp as (Hs & _ & Hfs & _).
    cbn [fst snd]. rewrite Hfs. by apply links_in.
Qed.

(** Changes of a session that leave its identity and its state alone. *)
Lemma touch_session_inv sid g db :
  (forall s, s_session_id (g s) = s_session_id s /\ s_family_id (g s) = s_family_id s /\
     s_user_id (g s) = s_user_id s /\ s_revoked_at (g s) = s_revoked_at s) ->
  session_inv db -> session_inv (set_session sid g db).
Proof.
  intros Hg I. pose (P := fun s => s_session_id s == sid). split; try apply I.
  - change (NoDup (List.map s_session_id (update_ P g (sessions db)))).
    rewrite key_update by apply Hg. apply I.
  - change (NoDup (List.map s_family_id (update_ P g (sessions db)))).
    rewrite key_update by apply Hg. apply I.
  - intros s (s0 & Hs & ->)%elem_of_update. destruct (inv_session_family _ I s0 Hs) as (f & Hf & ?).
    exists f. split; [done|]. case_bool_decide; [|done]. by destruct (Hg s0) as (_ & -> & -> & ->).
  - intros t Ht. destruct (inv_token_session _ I t Ht) as (s & Hs & He).
    eexists. split; [exact (elem_of_update_fwd P g _ _ Hs)|]. unfold P. case_bool_decide; [|done].
    by destruct (Hg s) as (_ & -> & _).
Qed.

Section RevokeRuns.
Context {R : Type} {E : Env}.
Implicit Types (w : World R).

Lemma run_revoke_session user_id sid reason now w : session_inv (w_db w) ->
  let P := fun (s : Session) (_ : RefreshTokenFamily) => (s_session_id s == sid) && (s_user_id s == user_id) in
  (session_rows P (w_db w) = [] /\ revoke_session user_id sid reason now w = (inr None, w)) \/
  exists s f, (s, f) ∈ session_rows P (w_db w) /\
    revoke_session user_id sid reason now w =
    (inr (Some (revocation_of f s)),
     with_db (revoke_locked_at (f_family_id f) (s_session_id s) now reason (w_db w)) w).
Proof.
  intros I P. destruct (session_rows_by_id (w_db w) I P sid) as [Hn|(s & f & Hp & Hin)].
  - intros s f Hp. unfold P in Hp. by to_prop.
  - left. split; [done|]. apply run_tx. run. unfold P in Hn. rewrite Hn. done.
  - right. exists s, f. split; [done|]. apply run_tx. run. unfold P in Hp. rewrite Hp. done.
Qed.

Lemma run_revoke_all user_id reason now w :
  let rows := session_rows (fun s f => (s_user_id s == user_id) && is_none (s_revoked_at s)
                                       && is_none (f_revoked_at f)) (w_db w) in
  revoke_all user_id reason now w =
  (inr (List.map (fun p => revocation_of p.2 p.1) rows), with_db (revoke_rows now reason rows (w_db w)) w).
Proof.
  cbv zeta. apply run_tx. run.
  by rewrite (run_bind _ _ _ _ _ (run_for_modify (fun p db => _revoke_locked p.2 p.1 now reason db) _ w)).
Qed.

Lemma run_scope user_id sid wid jti now w :
  let P := fun s f => (s_session_id s == sid) && (s_user_id s == user_id) && live_session now s f in
  match session_rows P (w_db w) with
  | [] => scope_session user_id sid wid jti now w = (inr None, w)
  | (s, _) :: _ =>
    scope_session user_id sid wid jti now w =
    (inr (Some (s_access_jti s)),
     with_db (set_session (s_session_id s)
       (fun s => s <| s_org_id := Some wid |> <| s_access_jti := jti |> <| s_last_activity_at := now |>) (w_db w)) w)
  end.
Proof.
  intros P. destruct (session_rows P (w_db w)) as [|[s f] l] eqn:Er; apply run_tx; run; unfold P in Er; by rewrite Er.
Qed.

Lemma keeps_revoke_session user_id sid reason now : keeps (R := R) (on_db session_inv) (revoke_session user_id sid reason now).
Proof.
  intros w I. unfold on_db in *. destruct (run_revoke_session user_id sid reason now w I) as [[_ ->]|(s & f & Hin & ->)]; [done|].
  apply session_rows_elem in Hin as (Hs & _ & Hfs & _). wsimpl. rewrite Hfs.
  by apply revoke_locked_inv, links_in.
Qed.
Lemma keeps_revoke_all user_id reason now : keeps (R := R) (on_db session_inv) (revoke_all user_id reason now).
Proof. intros w I. rewrite run_revoke_all. by apply revoke_rows_inv. Qed.
Lemma keeps_scope user_id sid wid jti now : keeps (R := R) (on_db session_inv) (scope_session user_id sid wid jti now).
Proof.
  intros w I. unfold on_db in *. pose proof (run_scope user_id sid wid jti now w) as H. cbv zeta in H.
  destruct (session_rows _ (w_db w)) as [|[s f] l]; rewrite H; [done|]. by apply touch_session_inv.
Qed.
Lemma audit_append db t : session_inv db -> session_inv (db <| audit_logs := t |>).
Proof. intros []. by split. Qed.
Lemma keeps_session_audit et o c u m : keeps (R := R) (on_db session_inv) (session_audit et o c u m).
Proof. unfold session_audit. keeps_all. apply keeps_add_row. intros db I _ _. exact (audit_append db _ I). Qed.
End RevokeRuns.

Lemma session_inv_of_empty db :
  families db = [] -> Models.sessions db = [] -> refresh_tokens db = [] -> session_inv db.
Proof.
  intros Hf Hs Ht. split; rewrite ?Hf, ?Hs, ?Ht; cbn; try apply NoDup_nil_2;
    intros *; intros Hin; exfalso; by apply elem_of_nil in Hin.
Qed.
