(* ===== verification/SessionProps.v ===== *)
(** What the session repository guarantees over whole histories. *)
From S2P Require Import Prelude PyText Entity Models RedisClient World SessionRepo SessionInv.

(** A call of a state-changing operation of the repository, with its arguments. *)
Inductive SessionOp :=
| OpCreate (user_id : UUID) (client_type : ClientType) (fingerprint : string) (ip : option string)
    (token_hash : string) (jti : UUID) (family_expires_at session_expires_at refresh_expires_at : Time)
| OpRotate (token_hash replacement_hash : string) (replacement_expires_at : Time) (jti : UUID)
    (client_type : ClientType) (fingerprint : string) (idle : Z)
| OpRevoke (user_id session_id : UUID) (reason : string)
| OpRevokeAll (user_id : UUID) (reason : string)
| OpScope (user_id session_id workspace_id jti : UUID)
| OpAudit (event outcome : string) (correlation user_id : UUID) (metadata : dict).

(** SessionControl gives the first refresh token the lifetime of its family. *)
Definition well_timed (op : SessionOp) : Prop :=
  match op with OpCreate _ _ _ _ _ _ fexp _ rexp => rexp <= fexp | _ => True end.

Section Histories.
Context {R : Type} {E : Env}.
Implicit Types (w : World R).
Abbreviation M := (prog R).

Definition exec (op : SessionOp) : M unit :=
  now ← now_utc;
  match op with
  | OpCreate u c fp ip h j fexp sexp rexp => create_session u c fp ip h j fexp sexp rexp;; mret ()
  | OpRotate h rh rexp j c fp idle => rotate_refresh_token h rh rexp j c fp idle now;; mret ()
  | OpRevoke u s r => revoke_session u s r now;; mret ()
  | OpRevokeAll u r => revoke_all u r now;; mret ()
  | OpScope u s wid j => scope_session u s wid j now;; mret ()
  | OpAudit e o c u m => session_audit e o c u m
  end.

Lemma keeps_exec op : well_timed op -> keeps (R := R) (on_db session_inv) (exec op).
Proof.
  intros Hw. apply keeps_bind; [apply keeps_now|]. intros now.
  destruct op; try (apply keeps_bind; [|intros ?; apply keeps_ret]).
  - by apply keeps_create_session.
  - apply keeps_rotate.
  - apply keeps_revoke_session.
  - apply keeps_revoke_all.
  - apply keeps_scope.
  - apply keeps_session_audit.
Qed.

(** What every operation keeps, a history keeps. *)
Lemma run_at_keeps {A B} (P : Db -> Prop) (Q : A -> Prop) (h : A -> prog R B) reqs w :
  (forall a, Q a -> keeps (on_db P) (h a)) -> Forall (fun r => Q r.2) reqs ->
  P (w_db w) -> P (w_db (run_at h reqs w).2).
Proof.
  intros Hh. revert w. induction reqs as [|[t a] reqs IH]; intros w HQ Hw; [done|]. cbn [run_at].
  inversion_clear HQ as [|? ? Ha Hr]. pose proof (Hh a Ha (at_time t w) Hw) as H1.
  destruct (h a (at_time t w)) as [x w1]. cbn in H1. specialize (IH w1 Hr H1).
  by destruct (run_at h reqs w1).
Qed.

(** A family that has been ended. *)
Definition family_ended (fid : UUID) (db : Db) : Prop :=
  exists f, f ∈ families db /\ f_family_id f = fid /\ f_revoked_at f <> None.
Definition ended_inv (fid : UUID) (db : Db) : Prop := session_inv db /\ family_ended fid db.

Lemma ended_end_family fid g sid ff fs Pt ft db : (forall f, same_family (ff f) f) ->
  family_ended fid db -> family_ended fid (end_family g sid ff fs Pt ft db).
Proof.
  intros Hff (f & Hf & Hi & Hr). eexists.
  split; [exact (elem_of_update_fwd (fun f => f_family_id f == g) ff _ _ Hf)|].
  destruct (Hff f). case_bool_decide; [split; [congruence|done]|done].
Qed.
Lemma ended_locked fid g sid now r db : family_ended fid db -> family_ended fid (revoke_locked_at g sid now r db).
Proof. apply ended_end_family. by split. Qed.
Lemma ended_fold {A} fid (g : A -> Db -> Db) l db :
  (forall a db, family_ended fid db -> family_ended fid (g a db)) ->
  family_ended fid db -> family_ended fid (List.fold_left (fun db a => g a db) l db).
Proof. intros Hg. revert db. induction l as [|a l IH]; intros db H; [done|]. cbn. by apply IH, Hg. Qed.

Lemma keeps_ended fid op : well_timed op -> keeps (R := R) (on_db (ended_inv fid)) (exec op).
Proof.
  intros Hw w [I He]. split; [by apply (keeps_exec op Hw w)|].
  unfold exec. rewrite bind_now. destruct op; unfold mbind, prog_bind.
  - destruct (create_session _ _ _ _ _ _ _ _ _ w) as [[e|c] w'] eqn:Ec; cbn.
    + unfold create_session in Ec. run_in Ec. apply tx_inl in Ec. by rewrite Ec.
    + apply create_session_spec in Ec as (_ & _ & _ & -> & _).
      destruct (ended_fold fid (evict (w_now w))
        (take (length (active_rows user_id (w_now w) (w_db w)) + 1 - MAX_ACTIVE_SESSIONS)
           (active_rows user_id (w_now w) (w_db w))) (w_db w)) as (f & Hf & Hx); [|done|].
      * intros p db. rewrite evict_eq. apply ended_end_family. by split.
      * exists f. split; [|done]. cbn. apply elem_of_app. by left.
  - destruct (token_rows_cases (w_db w) I token_hash) as [Hn|([t [f s]] & Hp & Hin)].
    { by rewrite rotate_unknown. }
    destruct (rotation_verdict t f s client_type fingerprint idle (w_now w)) eqn:Ev.
    2: { by rewrite (rotate_invalid _ _ _ _ _ _ _ _ t f s). }
    2-4: rewrite (rotate_ends _ _ _ _ _ _ _ _ t f s w _ Hp) by (by rewrite Ev); wsimpl; by apply ended_locked.
    destruct (rotate_refresh_token _ _ _ _ _ _ _ _ w) as [x w'] eqn:Er.
    apply (rotate_rotates _ _ _ _ _ _ _ _ t f s) in Er as (_ & _ & Hx); [|done..].
    destruct x as [e|res]; cbn [snd mret prog_ret]; [by rewrite Hx|]. destruct Hx as (_ & Hdb & _).
    unfold mret, prog_ret. cbn [snd]. by rewrite Hdb.
  - destruct (run_revoke_session user_id session_id reason (w_now w) w I) as [[_ ->]|(s & f & _ & ->)]; [done|].
    by apply ended_locked.
  - rewrite run_revoke_all. apply (ended_fold fid (fun p => _revoke_locked p.2 p.1 (w_now w) reason)); [|done].
    intros p db. rewrite revoke_locked_eq. apply ended_locked.
  - pose proof (run_scope user_id session_id workspace_id jti (w_now w) w) as H. cbv zeta in H.
    by destruct (session_rows _ (w_db w)) as [|[s f] l]; rewrite H.
  - assert (Hk : keeps (R := R) (on_db (family_ended fid)) (session_audit event outcome correlation user_id metadata)).
    { unfold session_audit. keeps_all. by apply keeps_add_row. }
    by apply Hk.
Qed.
End Histories.

(** ** The cap on concurrent sessions *)

Lemma not_doomed_live (l : list (RefreshTokenFamily * Session)) n p : p ∈ l -> p ∉ List.firstn n l -> p ∈ List.skipn n l.
Proof.
  intros Hp Hn. rewrite <- (firstn_skipn n l) in Hp. apply elem_of_app in Hp as [?|?]; [done|done].
Qed.

Section Evictions.
Context (now : Time).

(** The families and sessions an eviction run leaves. *)
Lemma evict_all_families rows db : families (evict_all now rows db) =
  List.map (fun f => if existsb (fun p => f_family_id f == f_family_id p.1) rows
    then f <| f_revoked_at := Some now |> <| f_revocation_reason := Some "session_cap" |> else f) (families db).
Proof.
  unfold evict_all. revert db. induction rows as [|p rows IH]; intros db; cbn [List.fold_left].
  - cbn. by rewrite map_id.
  - rewrite IH, evict_eq. unfold evict_at. rewrite end_families. unfold update_. rewrite map_map.
    apply map_ext. intros f. cbn [existsb]. case_bool_decide; cbn; [|done]. by case_match.
Qed.
Lemma evict_all_sessions rows db : sessions (evict_all now rows db) =
  List.map (fun s => if existsb (fun p => s_session_id s == s_session_id p.2) rows
    then s <| s_revoked_at := Some now |> else s) (sessions db).
Proof.
  unfold evict_all. revert db. induction rows as [|p rows IH]; intros db; cbn [List.fold_left].
  - cbn. by rewrite map_id.
  - rewrite IH, evict_eq. unfold evict_at. rewrite end_sessions. unfold update_. rewrite map_map.
    apply map_ext. intros s. cbn [existsb]. case_bool_decide; cbn; [|done]. by case_match.
Qed.
End Evictions.

Section Cap.
Context (db : Db) (I : session_inv db) (user_id : UUID) (now : Time).
Let rows := active_rows user_id now db.

Lemma active_rows_nodup : NoDup (active_rows user_id now db).
Proof.
  unfold active_rows. rewrite (order_by_perm (fun p => s_created_at p.2)).
  apply nodup_where, nodup_join; eapply nodup_key_rows; apply I.
Qed.
Lemma active_same_family p q : p ∈ rows -> q ∈ rows -> f_family_id p.1 = f_family_id q.1 -> p = q.
Proof.
  intros (Hf & Hs & Hl & _)%active_rows_elem (Hf' & Hs' & Hl' & _)%active_rows_elem E.
  destruct p as [f s], q as [f' s']; cbn in *.
  assert (f = f') as -> by (apply (family_unique db I); congruence).
  assert (s = s') as -> by (apply (session_of_family db I); congruence). done.
Qed.
Lemma active_same_session p q : p ∈ rows -> q ∈ rows -> s_session_id p.2 = s_session_id q.2 -> p = q.
Proof.
  intros Hp Hq E. apply active_same_family; [done..|].
  apply active_rows_elem in Hp as (_ & Hs & Hl & _), Hq as (_ & Hs' & Hl' & _).
  rewrite <- Hl, <- Hl'. f_equal. by apply (session_unique db I).
Qed.

Context (n : nat) (f : RefreshTokenFamily) (s : Session) (t : RefreshToken).
Let doomed := List.firstn n rows.
Let db1 := evict_all now doomed db.
Context (Hfc : family_conflict (families db1) f = false)
  (Hu : f_user_id f = user_id) (Hlf : s_family_id s = f_family_id f) (Hrf : f_revoked_at f = None)
  (Hrs : s_revoked_at s = None) (Hx : now < s_expires_at s).

Lemma doomed_row p : p ∈ doomed -> p ∈ rows.
Proof. apply elem_of_firstn. Qed.
Lemma disjoint_rows p : p ∈ List.skipn n rows -> p ∈ doomed -> False.
Proof.
  pose proof active_rows_nodup as Hnd. fold rows in Hnd. rewrite <- (firstn_skipn n rows) in Hnd.
  apply list.NoDup_app in Hnd as (_ & Hd & _). intros Hp Hq. by apply (Hd p Hq).
Qed.

(** The live rows after an eviction and the opening of a session. *)
Lemma active_after p : p ∈ active_rows user_id now (opened f s t db1) <-> p ∈ List.skipn n rows \/ p = (f, s).
Proof.
  assert (I1 : session_inv db1) by (by apply evict_all_inv).
  rewrite active_rows_elem, opened_families, opened_sessions. split.
  - intros (Hf & Hs & Hl & Ha). destruct p as [g r]; cbn [fst snd] in *.
    apply elem_of_snoc in Hf as [Hf| ->], Hs as [Hs| ->].
    + left. unfold db1 in Hf, Hs. rewrite evict_all_families in Hf. rewrite evict_all_sessions in Hs.
      rewrite list_elem_of_In in Hf. rewrite list_elem_of_In in Hs.
      apply in_map_iff in Hf as (g0 & Eg & Hg). apply in_map_iff in Hs as (r0 & Er & Hr).
      unfold active_pair in Ha. cbn [fst snd] in Ha. to_prop.
      destruct (existsb _ doomed) eqn:Ed in Eg; [subst g; done|]. subst g0.
      destruct (existsb _ doomed) eqn:Ed' in Er; [subst r; done|]. subst r0.
      assert (Hin : (g, r) ∈ rows).
      { apply active_rows_elem. rewrite !list_elem_of_In. unfold active_pair. cbn.
        repeat split; try done. rewrite !andb_true_iff, bool_decide_eq_true. repeat split; try done.
        - by destruct (f_revoked_at g).
        - by destruct (s_revoked_at r).
        - by apply Z.ltb_lt. }
      apply not_doomed_live; [done|]. intros Hd.
      rewrite <- not_true_iff_false, existsb_exists in Ed. apply Ed. exists (g, r).
      split; [by apply list_elem_of_In|apply eqb_refl].
    + exfalso. apply (fresh_family db1 f Hfc g Hf). congruence.
    + exfalso. apply (old_session_family db1 I1 f Hfc r Hs). congruence.
    + by right.
  - intros [Hp| ->].
    + assert (Hr : p ∈ rows) by (rewrite <- (firstn_skipn n rows); apply elem_of_app; by right).
      pose proof Hr as (Hf & Hs & Hl & Ha)%active_rows_elem. destruct p as [g r]; cbn [fst snd] in *.
      repeat split; [apply elem_of_snoc; left..|done|done]; unfold db1.
      * rewrite evict_all_families, list_elem_of_In. apply in_map_iff. exists g. rewrite <- list_elem_of_In.
        split; [|done]. destruct (existsb _ doomed) eqn:Ed; [exfalso|done].
        apply existsb_exists in Ed as (q & Hq & Eq). apply list_elem_of_In in Hq. to_prop.
        apply (disjoint_rows _ Hp). by rewrite (active_same_family (g, r) q Hr (doomed_row _ Hq) Eq).
      * rewrite evict_all_sessions, list_elem_of_In. apply in_map_iff. exists r. rewrite <- list_elem_of_In.
        split; [|done]. destruct (existsb _ doomed) eqn:Ed; [exfalso|done].
        apply existsb_exists in Ed as (q & Hq & Eq). apply list_elem_of_In in Hq. to_prop.
        apply (disjoint_rows _ Hp). by rewrite (active_same_session (g, r) q Hr (doomed_row _ Hq) Eq).
    + cbn. repeat split; [by apply elem_of_snoc; right..|done|]. unfold active_pair. cbn.
      by rewrite Hu, eqb_refl, Hrf, Hrs, (proj2 (Z.ltb_lt _ _) Hx).
Qed.

Context (Hsc : session_conflict (sessions db1) s = false).
Lemma active_after_perm : active_rows user_id now (opened f s t db1) ≡ₚ (f, s) :: List.skipn n rows.
Proof.
  assert (I1 : session_inv db1) by (by apply evict_all_inv).
  assert (Hso := proj1 (row_exists_false _ _) Hsc). cbn beta in Hso.
  apply NoDup_Permutation.
  - unfold active_rows. rewrite (order_by_perm (fun p => s_created_at p.2)), opened_families, opened_sessions.
    apply nodup_where, nodup_join; [apply (nodup_key_rows f_family_id)|apply (nodup_key_rows s_session_id)].
    + apply fresh_key; [|apply I1]. intros g Hg. by apply (row_exists_false _ _) with (r := g) in Hfc.
    + apply fresh_key; [|apply I1]. intros r Hr. specialize (Hso r Hr).
      by apply orb_false_iff in Hso as [[? _]%orb_false_iff _].
  - pose proof active_rows_nodup as Hnd. fold rows in Hnd. rewrite <- (firstn_skipn n rows) in Hnd.
    apply list.NoDup_app in Hnd as (_ & _ & Hnd). apply list.NoDup_cons. split; [|done].
    intros Hin. assert (Hr : (f, s) ∈ rows) by (rewrite <- (firstn_skipn n rows); apply elem_of_app; by right).
    apply active_rows_elem in Hr as (Hf & _). cbn in Hf.
    assert (Hf1 : exists g, g ∈ families db1 /\ f_family_id g = f_family_id f).
    { eexists. unfold db1. rewrite evict_all_families, list_elem_of_In. split.
      - apply in_map. by apply list_elem_of_In.
      - by case_match. }
    destruct Hf1 as (g & Hg & Eg). by apply (fresh_family db1 f Hfc g Hg).
  - intros p. rewrite active_after, elem_of_cons. tauto.
Qed.
End Cap.

Lemma sorted_split {A} (key : A -> Z) n l p q :
  Sorted (fun a b => key a <= key b) l -> p ∈ List.firstn n l -> q ∈ List.skipn n l -> key p <= key q.
Proof.
  intros Hs. apply Sorted_StronglySorted in Hs; [|intros a b c ? ?; lia].
  revert l Hs. induction n as [|n IH]; intros [|x l] Hs Hp Hq; cbn in *; try by apply elem_of_nil in Hp.
  apply StronglySorted_inv in Hs as [Hs Hx]. rewrite Forall_forall in Hx.
  apply elem_of_cons in Hp as [->|Hp]; [|by eapply IH].
  apply Hx. apply list_elem_of_In. rewrite <- (firstn_skipn n l). apply elem_of_app. by right.
Qed.

(** ** Properties *)

Section Properties.
Context {R : Type} {E : Env}.
Implicit Types (w : World R).

(** Whatever sequence of repository operations runs, at whatever instants, failing calls
    included, the session tables stay well formed: identifiers and token hashes are unique, a
    session is revoked exactly when its family is, a used token or a token of a revoked
    family is revoked, a family has at most one live refresh token, the one of its last
    generation, and no token outlives its family. *)
Theorem session_store_invariant (history : list (Time * SessionOp)) w :
  session_inv (w_db w) -> Forall (fun r => well_timed r.2) history ->
  session_inv (w_db (run_at exec history w).2).
Proof. intros I Hw. apply (run_at_keeps session_inv well_timed); [|done|done]. apply keeps_exec. Qed.

(** A refresh token works once.  Presenting a token that was already used, by any client
    from any device at any later time, is answered REUSED, and ends the family: afterwards the
    family and its session are revoked and so is every token of the family. *)
Theorem refresh_replay_ends_family t rh rexp jti client_type fingerprint idle now w :
  session_inv (w_db w) -> t ∈ refresh_tokens (w_db w) -> t_used_at t <> None ->
  exists f s res,
    s ∈ sessions (w_db w) /\ s_family_id s = t_family_id t /\
    rotate_refresh_token (t_token_hash t) rh rexp jti client_type fingerprint idle now w
    = (inr res, with_db (revoke_locked_at (t_family_id t) (s_session_id s) now "token_reuse" (w_db w)) w) /\
    rr_status res = Rot_REUSED /\ rr_record res = None /\ rr_revoked res = Some (revocation_of f s) /\
    let db' := revoke_locked_at (t_family_id t) (s_session_id s) now "token_reuse" (w_db w) in
    (forall g, g ∈ families db' -> f_family_id g = t_family_id t -> f_revoked_at g <> None) /\
    (forall r, r ∈ sessions db' -> s_family_id r = t_family_id t -> s_revoked_at r <> None) /\
    (forall r, r ∈ refresh_tokens db' -> t_family_id r = t_family_id t -> t_revoked_at r <> None).
Proof.
  intros I Ht Hu. destruct (token_rows_known (w_db w) I t Ht) as (f & s & Hp & Hf & Hs & Hft & Hsf).
  assert (Hv : rotation_verdict t f s client_type fingerprint idle now = Rot_REUSED).
  { unfold rotation_verdict. by destruct (t_used_at t). }
  exists f, s, (MkRotationResult Rot_REUSED None (Some (revocation_of f s))).
  split; [done|]. split; [congruence|]. split; [|split; [done|split; [done|split; [done|]]]].
  { rewrite (rotate_ends _ _ _ _ _ _ _ _ t f s w "token_reuse" Hp) by (by rewrite Hv). by rewrite Hv, Hft. }
  assert (Hl := links_in (w_db w) s Hs). rewrite Hsf, Hft in Hl.
  cbv zeta. unfold revoke_locked_at. rewrite end_families, end_sessions, end_tokens.
  repeat split; intros x (y & Hy & ->)%elem_of_update.
  - case_bool_decide; [done|]. intros E0. congruence.
  - case_bool_decide as Hd; [done|]. intros E0. exfalso. apply Hd.
    by apply (links_iff (w_db w) (t_family_id t) (s_session_id s) I Hl).
  - destruct ((t_family_id y == t_family_id t) && is_none (t_revoked_at y)) eqn:Ey; [done|].
    intros E0. rewrite E0, eqb_refl in Ey. cbn in Ey. by destruct (t_revoked_at y).
Qed.

(** C8: the end of a family is final: after any further history of operations the family is
    still revoked, and no token of it can be rotated: presenting one is INVALID or REUSED. *)
Theorem ended_family_stays_ended (history : list (Time * SessionOp)) fid w rh rexp jti client_type fp idle now t :
  session_inv (w_db w) -> family_ended fid (w_db w) -> Forall (fun r => well_timed r.2) history ->
  let w' := (run_at exec history w).2 in
  family_ended fid (w_db w') /\
  (t ∈ refresh_tokens (w_db w') -> t_family_id t = fid ->
   exists res, (rotate_refresh_token (t_token_hash t) rh rexp jti client_type fp idle now w').1 = inr res /\
     (rr_status res = Rot_INVALID \/ rr_status res = Rot_REUSED)).
Proof.
  intros I He Hw w'. assert (H : ended_inv fid (w_db w')).
  { apply (run_at_keeps (ended_inv fid) well_timed); [|done|done]. apply keeps_ended. }
  destruct H as [I' (g & Hg & Hgid & Hgr)]. split; [by exists g|]. intros Ht Htf.
  destruct (token_rows_known (w_db w') I' t Ht) as (f & s & Hp & Hf & Hs & Hft & Hsf).
  assert (f = g) as -> by (apply (family_unique _ I'); congruence).
  assert (Hr := inv_revoked_family _ I' t g Ht Hg Hft Hgr).
  destruct (is_some (t_used_at t)) eqn:Eu.
  - assert (Hv : rotation_verdict t g s client_type fp idle now = Rot_REUSED) by (unfold rotation_verdict; by rewrite Eu).
    rewrite (rotate_ends _ _ _ _ _ _ _ _ t g s w' "token_reuse" Hp) by (by rewrite Hv).
    eexists. split; [done|]. right. done.
  - assert (Hv : rotation_verdict t g s client_type fp idle now = Rot_INVALID).
    { unfold rotation_verdict. rewrite Eu. by destruct (t_revoked_at t). }
    rewrite (rotate_invalid _ _ _ _ _ _ _ _ t g s w' Hp Hv). eexists. split; [done|]. by left.
Qed.

(** C31: a user never has more than ten live sessions.  Creating one when [k] are live leaves
    [min k 9 + 1]; the evicted ones are reported, and each was created no later than any
    session that survives. *)
Theorem session_cap user_id client_type fp ip rh jti fexp sexp rexp w c w' :
  session_inv (w_db w) -> w_now w < sexp ->
  create_session user_id client_type fp ip rh jti fexp sexp rexp w = (inr c, w') ->
  let rows := active_rows user_id (w_now w) (w_db w) in
  let evicted := List.firstn (length rows - 9) rows in
  length (active_rows user_id (w_now w) (w_db w')) = S (Nat.min (length rows) 9) /\
  cs_evicted c = List.map (fun p => MkRevocationResult user_id (f_family_id p.1) (s_access_jti p.2)) evicted /\
  (forall p q, p ∈ evicted -> q ∈ active_rows user_id (w_now w) (w_db w') ->
     s_session_id q.2 = sr_session_id (cs_record c) \/ s_created_at p.2 <= s_created_at q.2).
Proof.
  intros I Hx Hc rows evicted. apply create_session_spec in Hc as (Hfc & Hsc & Htc & -> & _ & _ & ->).
  fold rows in Hfc, Hsc, Htc |- *.
  replace (length rows + 1 - MAX_ACTIVE_SESSIONS)%nat with (length rows - 9)%nat in *
    by (unfold MAX_ACTIVE_SESSIONS; lia).
  fold evicted in Hfc, Hsc, Htc |- *.
  match goal with |- context [opened ?f ?s ?t _] => set (t0 := t); set (s0 := s); set (f0 := f) end.
  assert (Ha := fun p => active_after (w_db w) I user_id (w_now w) (length rows - 9) f0 s0 t0 Hfc
    eq_refl eq_refl eq_refl eq_refl Hx p).
  fold rows evicted in Ha. split; [|split; [done|]].
  - pose proof (active_after_perm (w_db w) I user_id (w_now w) (length rows - 9) f0 s0 t0 Hfc
      eq_refl eq_refl eq_refl eq_refl Hx Hsc) as Hp. fold rows evicted in Hp.
    rewrite Hp. cbn [length]. rewrite length_skipn. lia.
  - intros p q Hp [Hq| ->]%Ha; [right|by left].
    apply (sorted_split (fun p => s_created_at p.2) (length rows - 9) rows); [|done|done].
    apply order_by_sorted.
Qed.
End Properties.

(** ** A concrete history *)

Definition t0 : Time := seconds 1700000000.
Definition demo_user : UUID := test_uuid 900.
Definition demo_create : SessionOp :=
  OpCreate demo_user WEB "fp" None "hash-0" (test_uuid 901) (t0 + days 30) (t0 + days 1) (t0 + days 30).
Definition demo_rotate : SessionOp :=
  OpRotate "hash-0" "hash-1" (t0 + days 30) (test_uuid 902) WEB "fp" 900.
Definition demo_history : list (Time * SessionOp) := [(t0, demo_create); (t0 + seconds 60, demo_rotate)].
Definition demo_world : World mem_redis := (run_at exec demo_history (test_world empty_db t0)).2.
Definition demo_token : RefreshToken :=
  MkRefreshToken (test_uuid 2) (test_uuid 0) "hash-0" 0 t0 (Some (t0 + seconds 60)) (Some (t0 + seconds 60)) (t0 + days 30).

Lemma demo_timed : Forall (fun r => well_timed r.2) demo_history.
Proof. repeat constructor; vm_compute; discriminate. Qed.
Lemma demo_inv : session_inv (w_db demo_world).
Proof.
  apply (run_at_keeps session_inv well_timed); [apply keeps_exec|apply demo_timed|apply session_inv_empty].
Qed.
Lemma demo_token_in : demo_token ∈ refresh_tokens (w_db demo_world).
Proof. apply list_elem_of_In. vm_compute. by left. Qed.

Lemma session_store_invariant_witness : session_inv (w_db (run_at exec demo_history (test_world empty_db t0)).2).
Proof. apply (session_store_invariant demo_history); [apply session_inv_empty|apply demo_timed]. Defined.

Lemma refresh_replay_ends_family_witness : exists f s res,
  s ∈ sessions (w_db demo_world) /\ s_family_id s = t_family_id demo_token /\
  rotate_refresh_token (t_token_hash demo_token) "hash-2" (t0 + days 30) (test_uuid 903) MOBILE "fp" 900
    (t0 + seconds 90) demo_world
  = (inr res, with_db (revoke_locked_at (t_family_id demo_token) (s_session_id s) (t0 + seconds 90) "token_reuse"
                         (w_db demo_world)) demo_world) /\
  rr_status res = Rot_REUSED /\ rr_record res = None /\ rr_revoked res = Some (revocation_of f s) /\
  let db' := revoke_locked_at (t_family_id demo_token) (s_session_id s) (t0 + seconds 90) "token_reuse"
               (w_db demo_world) in
  (forall g, g ∈ families db' -> f_family_id g = t_family_id demo_token -> f_revoked_at g <> None) /\
  (forall r, r ∈ sessions db' -> s_family_id r = t_family_id demo_token -> s_revoked_at r <> None) /\
  (forall r, r ∈ refresh_tokens db' -> t_family_id r = t_family_id demo_token -> t_revoked_at r <> None).
Proof.
  refine (refresh_replay_ends_family demo_token "hash-2" (t0 + days 30) (test_uuid 903) MOBILE "fp" 900
    (t0 + seconds 90) demo_world demo_inv demo_token_in _).
  discriminate.
Defined.

Definition ended_history : list (Time * SessionOp) := demo_history ++ [(t0 + seconds 90, demo_rotate)].
Definition ended_world : World mem_redis := (run_at exec ended_history (test_world empty_db t0)).2.
Lemma ended_inv_demo : session_inv (w_db ended_world).
Proof.
  apply (run_at_keeps session_inv well_timed); [apply keeps_exec| |apply session_inv_empty].
  repeat constructor; vm_compute; discriminate.
Qed.

Lemma ended_family_stays_ended_witness :
  let w' := (run_at exec [(t0 + seconds 120, demo_create)] ended_world).2 in
  family_ended (test_uuid 0) (w_db w') /\
  (forall t, t ∈ refresh_tokens (w_db w') -> t_family_id t = test_uuid 0 ->
   exists res, (rotate_refresh_token (t_token_hash t) "hash-9" (t0 + days 30) (test_uuid 904) WEB "fp" 900
      (t0 + seconds 180) w').1 = inr res /\ (rr_status res = Rot_INVALID \/ rr_status res = Rot_REUSED)).
Proof.
  assert (He : family_ended (test_uuid 0) (w_db ended_world)).
  { exists (MkFamily (test_uuid 0) demo_user "fp" "WEB" t0 (t0 + days 30) (Some (t0 + seconds 90)) (Some "token_reuse")).
    split; [apply list_elem_of_In; vm_compute; by left|]. split; [done|discriminate]. }
  assert (Hw : Forall (fun r => well_timed r.2) [(t0 + seconds 120, demo_create)]).
  { repeat constructor; vm_compute; discriminate. }
  split.
  - exact (proj1 (ended_family_stays_ended [(t0 + seconds 120, demo_create)] (test_uuid 0) ended_world "hash-9"
      (t0 + days 30) (test_uuid 904) WEB "fp" 900 (t0 + seconds 180) demo_token ended_inv_demo He Hw)).
  - intros t. exact (proj2 (ended_family_stays_ended [(t0 + seconds 120, demo_create)] (test_uuid 0) ended_world "hash-9"
      (t0 + days 30) (test_uuid 904) WEB "fp" 900 (t0 + seconds 180) t ended_inv_demo He Hw)).
Defined.

(** Eleven sessions in a row: the eleventh evicts the first. *)
Definition nth_create (n : nat) : Time * SessionOp :=
  (t0 + seconds (Z.of_nat n),
   OpCreate demo_user WEB "fp" None ("hash-" +:+ hex_digits 4 (N.of_nat n) "") (test_uuid (1000 + N.of_nat n))
     (t0 + days 30) (t0 + days 1) (t0 + days 30)).
Definition ten_base : World mem_redis := (run_at exec (List.map nth_create (List.seq 0 10)) (test_world empty_db t0)).2.
Definition ten_world : World mem_redis := at_time (t0 + seconds 60) ten_base.
Lemma inv_at_time {R} t (w : World R) : session_inv (w_db w) -> session_inv (w_db (at_time t w)).
Proof. done. Qed.
Lemma ten_base_inv : session_inv (w_db ten_base).
Proof.
  apply (run_at_keeps session_inv well_timed); [apply keeps_exec| |apply session_inv_empty].
  repeat constructor; vm_compute; discriminate.
Qed.
Lemma ten_inv : session_inv (w_db ten_world).
Proof. unfold ten_world. apply inv_at_time, ten_base_inv. Qed.
Abbreviation eleventh := (create_session demo_user MOBILE "fp2" None "hash-x" (test_uuid 2000)
  (t0 + days 30) (t0 + days 1) (t0 + days 30) ten_world).
Lemma eleventh_ok : match eleventh with (inr _, _) => true | _ => false end = true.
Proof. vm_compute. reflexivity. Qed.
Lemma ten_rows : length (active_rows demo_user (w_now ten_world) (w_db ten_world)) = 10%nat.
Proof. vm_compute. reflexivity. Qed.
Lemma ten_now : w_now ten_world < t0 + days 1.
Proof. vm_compute. reflexivity. Qed.
Lemma session_cap_witness : exists c w',
  eleventh = (inr c, w') /\ length (active_rows demo_user (w_now ten_world) (w_db w')) = 10%nat.
Proof.
  destruct eleventh as [[e|c] w'] eqn:Ec.
  - pose proof eleventh_ok as H. rewrite Ec in H. discriminate H.
  - exists c, w'. split; [reflexivity|].
    pose proof (proj1 (session_cap _ _ _ _ _ _ _ _ _ _ _ _ ten_inv ten_now Ec)) as Hl.
    exact (eq_trans Hl (f_equal (fun n => S (Nat.min n 9)) ten_rows)).
Defined.
