(* ===== verification/Tokens.v ===== *)
(** [infrastructure/security/tokens.py]: access tokens, around the JWT library. *)
From S2P Require Import Prelude PyText Entity Models RedisClient World.

Definition ACCESS_TOKEN_TTL_SECONDS : Z := 900.

Definition access_token_invalid : exc :=
  SessionError Ses_TOKEN_INVALID "The access token is invalid or expired." 401.

Section Provider.
Context {R : Type} {E : Env}.
Abbreviation M := (prog R).

(** The claims [issue] signs; datetimes travel as whole seconds. *)
Definition issue_claims (user_id session_id family_id jti : UUID) (client_type : ClientType)
    (assurance : list string) (now : Time) (workspace_id : option UUID) (workspace_type : option string)
    (roles : list string) : dict :=
  let issued_at := now in
  let expires_at := issued_at + seconds ACCESS_TOKEN_TTL_SECONDS in
  [("iss", JStr jwt_issuer); ("aud", JStr jwt_audience); ("sub", JStr (uuid_str user_id));
   ("sid", JStr (uuid_str session_id)); ("fid", JStr (uuid_str family_id)); ("jti", JStr (uuid_str jti));
   ("iat", JNum (timestamp issued_at)); ("nbf", JNum (timestamp issued_at));
   ("exp", JNum (timestamp expires_at)); ("client_type", JStr (client_value client_type));
   ("amr", JList (List.map JStr assurance))]
  ++ match workspace_id, workspace_type with
     | Some wid, Some wtype =>
       [("wid", JStr (uuid_str wid)); ("wtype", JStr wtype); ("roles", JList (List.map JStr roles))]
     | _, _ => []
     end.
Definition issue (user_id session_id family_id jti : UUID) (client_type : ClientType)
    (assurance : list string) (now : Time) (workspace_id : option UUID) (workspace_type : option string)
    (roles : list string) : string * Time :=
  (jwt_encode (issue_claims user_id session_id family_id jti client_type assurance now workspace_id
     workspace_type roles),
   now + seconds ACCESS_TOKEN_TTL_SECONDS).

(** [tuple(str(item) for item in payload.get(key, []))] for a list of texts; claims of another
    shape are not in the tokens the service signs, and are refused. *)
Fixpoint json_texts (l : list json) : option (list string) :=
  match l with
  | [] => Some []
  | JStr s :: l => rest ← json_texts l; Some (s :: rest)
  | _ :: _ => None
  end.
Definition texts_claim (key : string) (payload : dict) : option (list string) :=
  match jget key payload with None => Some [] | Some (JList l) => json_texts l | Some _ => None end.
(** [str(payload[key]) if payload.get(key) else None]. *)
Definition optional_text (key : string) (payload : dict) : option (option string) :=
  match jget key payload with
  | None | Some JNull => Some None
  | Some (JStr s) => Some (if nonempty s then Some s else None)
  | Some _ => None
  end.
Definition required_claims : list string := ["exp"; "iat"; "nbf"; "sub"; "sid"; "fid"; "jti"].

(** The claims of a decoded payload; [None] for any of the exceptions [verify] handles. *)
Definition claims_of (payload : dict) : option AccessClaims :=
  if forallb (fun k => is_some (jget k payload)) required_claims then
    iat ← jnum "iat" payload;
    exp ← jnum "exp" payload;
    assurance ← texts_claim "amr" payload;
    wid ← optional_text "wid" payload;
    workspace_id ← match wid with
                   | None => Some None
                   | Some s => u ← uuid_parse s; Some (Some u)
                   end;
    workspace_type ← optional_text "wtype" payload;
    roles ← texts_claim "roles" payload;
    user_id ← juuid "sub" payload;
    session_id ← juuid "sid" payload;
    family_id ← juuid "fid" payload;
    jti ← juuid "jti" payload;
    client ← jstr "client_type" payload;
    client_type ← ClientType_of client;
    Some (MkAccessClaims user_id session_id family_id jti (fromtimestamp iat) (fromtimestamp exp)
            client_type assurance workspace_id workspace_type roles)
  else None.

(** [verify]: the library checks the signature and the registered claims against its clock. *)
Definition verify (token : string) : M AccessClaims :=
  now ← now_utc;
  payload ← get_or access_token_invalid (jwt_decode token now jwt_audience jwt_issuer);
  get_or access_token_invalid (claims_of payload).

Lemma json_texts_map l : json_texts (List.map JStr l) = Some l.
Proof. induction l as [|s l IH]; cbn; [done|]. by rewrite IH. Qed.

Lemma uuid_str_nonempty u : nonempty (uuid_str u) = true.
Proof.
  apply negb_true_iff, bool_decide_eq_false. intros H. pose proof (uuid_parse_str u) as Hp.
  by rewrite H in Hp.
Qed.

(** The claims of a payload [issue] signed. *)
Lemma claims_of_issue user_id session_id family_id jti client_type assurance now workspace roles :
  (forall wid wtype, workspace = Some (wid, wtype) -> nonempty wtype = true) ->
  claims_of (issue_claims user_id session_id family_id jti client_type assurance now
               (fst <$> workspace) (snd <$> workspace) roles)
  = Some (MkAccessClaims user_id session_id family_id jti (fromtimestamp (timestamp now))
            (fromtimestamp (timestamp (now + seconds ACCESS_TOKEN_TTL_SECONDS))) client_type assurance
            (fst <$> workspace) (snd <$> workspace) (if workspace is Some _ then roles else [])).
Proof.
  intros Hw. unfold claims_of. set (c := issue_claims _ _ _ _ _ _ _ _ _ _).
  replace (forallb _ _) with true by (destruct workspace as [[? ?]|]; reflexivity).
  replace (jnum "iat" c) with (Some (timestamp now)) by (destruct workspace as [[? ?]|]; reflexivity).
  replace (jnum "exp" c) with (Some (timestamp (now + seconds ACCESS_TOKEN_TTL_SECONDS)))
    by (destruct workspace as [[? ?]|]; reflexivity).
  replace (texts_claim "amr" c) with (json_texts (List.map JStr assurance))
    by (destruct workspace as [[? ?]|]; reflexivity).
  replace (juuid "sub" c) with (uuid_parse (uuid_str user_id)) by (destruct workspace as [[? ?]|]; reflexivity).
  replace (juuid "sid" c) with (uuid_parse (uuid_str session_id)) by (destruct workspace as [[? ?]|]; reflexivity).
  replace (juuid "fid" c) with (uuid_parse (uuid_str family_id)) by (destruct workspace as [[? ?]|]; reflexivity).
  replace (juuid "jti" c) with (uuid_parse (uuid_str jti)) by (destruct workspace as [[? ?]|]; reflexivity).
  replace (jstr "client_type" c) with (Some (client_value client_type))
    by (destruct workspace as [[? ?]|]; reflexivity).
  rewrite !uuid_parse_str, json_texts_map. cbn [mbind option_bind]. rewrite ClientType_of_value.
  destruct workspace as [[wid wtype]|]; [|reflexivity].
  replace (optional_text "wid" c) with (Some (if nonempty (uuid_str wid) then Some (uuid_str wid) else None))
    by reflexivity.
  replace (optional_text "wtype" c) with (Some (if nonempty wtype then Some wtype else None)) by reflexivity.
  replace (texts_claim "roles" c) with (json_texts (List.map JStr roles)) by reflexivity.
  rewrite uuid_str_nonempty, (Hw wid wtype eq_refl), json_texts_map. cbn [mbind option_bind].
  by rewrite uuid_parse_str.
Qed.

Lemma verify_keeps I token : keeps I (verify token).
Proof. unfold verify. keeps_all. Qed.

Lemma verify_inr token w claims w' : verify token w = (inr claims, w') ->
  w' = w /\ exists payload, jwt_decode token (w_now w) jwt_audience jwt_issuer = Some payload
    /\ claims_of payload = Some claims.
Proof.
  unfold verify. intros H. run_in H. destruct (jwt_decode _ _ _ _) as [payload|]; run_in H; [|done].
  destruct (claims_of payload) eqn:Ec; [|done]. injection H as <- <-. eauto.
Qed.
End Provider.
