(* ===== verification/SessionControl.v ===== *)
(** [control/session.py]: creation, rotation, authentication and revocation of sessions, above
    the repository, the token provider and the Redis store. *)
From S2P Require Import Prelude PyText Entity Models RedisClient World RedisSecurity Tokens.
From S2P Require SessionRepo.

Definition ACCESS_TTL_SECONDS : Z := 900.
Definition IDLE_TIMEOUT_SECONDS : Z := 900.
Definition SESSION_ABSOLUTE_SECONDS : Z := 86400.
Definition REFRESH_FAMILY_SECONDS : Z := 2592000.

Definition _workflow_invalid : exc :=
  SessionError Ses_WORKFLOW_INVALID "This session workflow is invalid or expired." 400.
Definition _token_invalid : exc :=
  SessionError Ses_TOKEN_INVALID "The session token is invalid or expired." 401.
Definition token_reused : exc :=
  SessionError Ses_TOKEN_REUSED "This session may have been stolen and has been ended. Please sign in again." 401.
Definition client_mismatch : exc :=
  SessionError Ses_CLIENT_MISMATCH "This refresh token does not belong to this client or device." 401.
Definition session_expired : exc :=
  SessionError Ses_SESSION_EXPIRED "This session has expired. Please sign in again." 401.
Definition session_not_found : exc :=
  SessionError Ses_SESSION_NOT_FOUND "The selected session was not found." 404.

(** [_assurance]. *)
Definition _assurance (workflow : dict) : list string :=
  let method := or_else (str_or (str_or (jstr "mfa_method" workflow) (jstr "primary_method" workflow))
                  (Some "unknown")) "unknown" in
  match jstr "assurance" workflow with
  | Some assurance => if nonempty assurance then [method; assurance] else [method]
  | None => [method]
  end.

Section Control.
Context {R : Type} {RC : RedisClient R} {E : Env}.
Abbreviation M := (prog R).

Definition _token_hash (value : string) : string := hmac_sha256 refresh_token_hmac_secret value.
Definition _fingerprint_hash (value : string) : string := hmac_sha256 login_signal_hmac_secret value.

Definition _apply_revocation (value : RevocationResult) : M unit :=
  revoke_access_token (rv_access_jti value) ACCESS_TTL_SECONDS;;
  revoke_family (rv_family_id value) REFRESH_FAMILY_SECONDS.

(** [secrets.token_urlsafe(32) if client_type == ClientType.WEB else None]. *)
Definition csrf_for (client_type : ClientType) : M (option string) :=
  match client_type with WEB => t ← new_token_urlsafe 32; mret (Some t) | MOBILE => mret None end.

Definition create_session (workflow_token : string) (client_type : ClientType) (device_fingerprint : string)
    (ip_address : option string) (correlation_id : UUID) : M TokenPair :=
  workflow ← consume_login_workflow workflow_token;
  workflow ← get_or _workflow_invalid workflow;
  raise_if (negb (bool_decide (jget "decision" workflow = Some (JStr "session_ready")))) _workflow_invalid;;
  user_id ← get_or _workflow_invalid (juuid "user_id" workflow);
  active ← SessionRepo.user_is_active user_id;
  raise_if (negb active) _workflow_invalid;;
  now ← now_utc;
  refresh_token ← new_token_urlsafe 48;
  csrf_token ← csrf_for client_type;
  access_jti ← new_uuid4;
  let family_expires_at := now + seconds REFRESH_FAMILY_SECONDS in
  let session_expires_at := now + seconds SESSION_ABSOLUTE_SECONDS in
  created ← SessionRepo.create_session user_id client_type (_fingerprint_hash device_fingerprint) ip_address
    (_token_hash refresh_token) access_jti family_expires_at session_expires_at family_expires_at;
  let assurance := _assurance workflow in
  let '(access_token, access_expires_at) :=
    issue user_id (sr_session_id (cs_record created)) (sr_family_id (cs_record created)) access_jti
      client_type assurance now None None [] in
  for_ (cs_evicted created) _apply_revocation;;
  SessionRepo.session_audit "SESSION_CREATED" "success" correlation_id user_id
    [("client_type", JStr (client_value client_type));
     ("evicted_sessions", JNum (Z.of_nat (length (cs_evicted created))))];;
  mret (MkTokenPair access_token refresh_token access_expires_at session_expires_at
          (sr_session_id (cs_record created)) csrf_token).

Definition refresh (refresh_token : string) (client_type : ClientType) (device_fingerprint : string)
    (correlation_id : UUID) : M TokenPair :=
  now ← now_utc;
  replacement ← new_token_urlsafe 48;
  new_jti ← new_uuid4;
  result ← SessionRepo.rotate_refresh_token (_token_hash refresh_token) (_token_hash replacement)
    (now + seconds REFRESH_FAMILY_SECONDS) new_jti client_type (_fingerprint_hash device_fingerprint)
    IDLE_TIMEOUT_SECONDS now;
  match rr_revoked result with
  | Some revoked =>
    if bool_decide (rr_status result = Rot_ROTATED)
    then revoke_access_token (rv_access_jti revoked) ACCESS_TTL_SECONDS
    else _apply_revocation revoked
  | None => mret ()
  end;;
  match rr_status result with
  | Rot_REUSED =>
    match rr_revoked result with
    | Some revoked =>
      SessionRepo.session_audit "REFRESH_TOKEN_REUSE_DETECTED" "denied" correlation_id (rv_user_id revoked)
        [("family_revoked", JBool true)]
    | None => mret ()
    end;;
    raise token_reused
  | Rot_CLIENT_MISMATCH => raise client_mismatch
  | Rot_EXPIRED => raise session_expired
  | Rot_INVALID => raise _token_invalid
  | Rot_ROTATED =>
    record ← get_or _token_invalid (rr_record result);
    let '(access_token, access_expires_at) :=
      issue (sr_user_id record) (sr_session_id record) (sr_family_id record) new_jti client_type
        ["refresh_token"] now None None [] in
    SessionRepo.session_audit "SESSION_REFRESHED" "success" correlation_id (sr_user_id record)
      [("client_type", JStr (client_value client_type))];;
    csrf_token ← csrf_for client_type;
    mret (MkTokenPair access_token replacement access_expires_at (sr_expires_at record)
            (sr_session_id record) csrf_token)
  end.

Definition authenticate (access_token : string) : M AccessClaims :=
  now ← now_utc;
  claims ← verify access_token;
  b ← access_token_is_revoked (ac_jti claims);
  raise_if b _token_invalid;;
  b ← family_is_revoked (ac_family_id claims);
  raise_if b _token_invalid;;
  revoked_at ← user_revoked_at (ac_user_id claims);
  raise_if (match revoked_at with Some t => ac_issued_at claims <=? t | None => false end) _token_invalid;;
  (if is_some (ac_workspace_id claims) && (ac_workspace_type claims == Some "organization") then
     match ac_workspace_id claims with
     | Some workspace_id =>
       org_revoked_at ← organization_revoked_at (ac_user_id claims) workspace_id;
       raise_if (match org_revoked_at with Some t => ac_issued_at claims <=? t | None => false end)
         _token_invalid
     | None => mret ()
     end
   else mret ());;
  active ← SessionRepo.session_is_active (ac_session_id claims) now;
  raise_if (negb active) _token_invalid;;
  mret claims.

Definition issue_workspace_scope (claims : AccessClaims) (workspace : WorkspaceSummary) (correlation_id : UUID)
    : M (string * Time) :=
  now ← now_utc;
  new_jti ← new_uuid4;
  previous_jti ← SessionRepo.scope_session (ac_user_id claims) (ac_session_id claims)
    (ws_workspace_id workspace) new_jti now;
  previous_jti ← get_or _token_invalid previous_jti;
  revoke_access_token previous_jti ACCESS_TTL_SECONDS;;
  let '(token, expires_at) :=
    issue (ac_user_id claims) (ac_session_id claims) (ac_family_id claims) new_jti (ac_client_type claims)
      (ac_assurance claims) now (Some (ws_workspace_id workspace))
      (Some (workspace_type_value (ws_workspace_type workspace))) (ws_roles workspace) in
  SessionRepo.session_audit "WORKSPACE_CONTEXT_SWITCHED" "success" correlation_id (ac_user_id claims)
    [("workspace_id", JStr (uuid_str (ws_workspace_id workspace)));
     ("workspace_type", JStr (workspace_type_value (ws_workspace_type workspace)))];;
  mret (token, expires_at).

Definition revoke_organization_access (user_id workspace_id : UUID) (access_jtis : list UUID) : M unit :=
  now ← now_utc;
  revoke_organization user_id workspace_id now;;
  for_ access_jtis (fun access_jti => revoke_access_token access_jti ACCESS_TTL_SECONDS).

Definition revoke_user_access (user_id : UUID) (reason : string) : M Z :=
  now ← now_utc;
  results ← SessionRepo.revoke_all user_id reason now;
  revoke_user user_id now;;
  for_ results _apply_revocation;;
  mret (Z.of_nat (length results)).

Definition restore_organization_access (user_id workspace_id : UUID) : M unit :=
  clear_organization_revocation user_id workspace_id.

Definition logout (claims : AccessClaims) (correlation_id : UUID) : M unit :=
  now ← now_utc;
  result ← SessionRepo.revoke_session (ac_user_id claims) (ac_session_id claims) "logout" now;
  match result with Some result => _apply_revocation result | None => mret () end;;
  SessionRepo.session_audit "SESSION_LOGGED_OUT" "success" correlation_id (ac_user_id claims)
    [("session_id", JStr (uuid_str (ac_session_id claims)))].

Definition logout_all (claims : AccessClaims) (correlation_id : UUID) : M Z :=
  now ← now_utc;
  results ← SessionRepo.revoke_all (ac_user_id claims) "logout_all" now;
  revoke_user (ac_user_id claims) now;;
  for_ results _apply_revocation;;
  SessionRepo.session_audit "ALL_SESSIONS_LOGGED_OUT" "success" correlation_id (ac_user_id claims)
    [("revoked_sessions", JNum (Z.of_nat (length results)))];;
  mret (Z.of_nat (length results)).

Definition sessions (claims : AccessClaims) : M (list SessionSummary) :=
  now ← now_utc;
  values ← SessionRepo.list_sessions (ac_user_id claims) now;
  mret (List.map (fun item => item <| ss_current := ss_session_id item == ac_session_id claims |>) values).

Definition revoke_selected (claims : AccessClaims) (session_id correlation_id : UUID) : M unit :=
  now ← now_utc;
  result ← SessionRepo.revoke_session (ac_user_id claims) session_id "user_selected" now;
  result ← get_or session_not_found result;
  _apply_revocation result;;
  SessionRepo.session_audit "SESSION_REVOKED" "success" correlation_id (ac_user_id claims)
    [("session_id", JStr (uuid_str session_id))].
End Control.
