(* ===== verification/SessionControlProps.v ===== *)
(** What SessionControl guarantees: which tokens authenticate, what a stolen refresh token can
    do, and that ending sessions ends them for good. *)
From S2P Require Import Prelude PyText Entity Models RedisClient World RedisSecurity Tokens.
From S2P Require Import SessionInv SessionProps SessionControl.
From S2P Require SessionRepo.

Section Lemmas.
Context {R : Type} {RC : RedisClient R} {E : Env}.
Implicit Types (w : World R).

(** ** Revocations in Redis *)

(** The keyspace after [_apply_revocation]. *)
Definition revoke_keys (now : Time) (v : RevocationResult) (r : R) : R :=
  r_set now (name (family_revocation (rv_family_id v) REFRESH_FAMILY_SECONDS)) (RText "1") REFRESH_FAMILY_SECONDS
    (r_set now (name (access_revocation (rv_access_jti v) ACCESS_TTL_SECONDS)) (RText "1") ACCESS_TTL_SECONDS r).

Lemma run_revoke_access jti w : revoke_access_token jti ACCESS_TTL_SECONDS w
  = (inr (), with_redis (r_set (w_now w) (name (access_revocation jti ACCESS_TTL_SECONDS)) (RText "1")
                           ACCESS_TTL_SECONDS (w_redis w)) w).
Proof. unfold revoke_access_token. by rewrite run_redis_set. Qed.

Lemma run_apply v w : _apply_revocation v w = (inr (), with_redis (revoke_keys (w_now w) v (w_redis w)) w).
Proof.
  unfold _apply_revocation. rewrite (run_bind _ _ _ _ _ (run_revoke_access _ _)).
  unfold revoke_family. by rewrite run_redis_set.
Qed.

Lemma run_apply_all l w : for_ l _apply_revocation w
  = (inr (), with_redis (List.fold_left (fun r v => revoke_keys (w_now w) v r) l (w_redis w)) w).
Proof.
  revert w. induction l as [|v l IH]; intros w; cbn [for_ List.fold_left]; [by destruct w|].
  rewrite (run_bind _ _ _ _ _ (run_apply _ _)), IH. by destruct w.
Qed.

Lemma run_revoke_user u t w : revoke_user u t w
  = (inr (), with_redis (r_set (w_now w) (name (user_revocation u)) (RInt (timestamp t))
                           USER_REVOCATION_TTL_SECONDS (w_redis w)) w).
Proof. unfold revoke_user. by rewrite run_redis_set. Qed.

Lemma run_audit et o c u m w : audit_log_valid (MkAuditLog (uuid4 (w_seed w)) (Some u) (Some u) None et o c m (w_now w)) = true ->
  exists row, SessionRepo.session_audit et o c u m w
  = (inr (), next_seed (with_db ((w_db w) <| audit_logs ::= (fun l => l ++ [row]) |>) w)).
Proof.
  intros H. eexists. unfold SessionRepo.session_audit. run. apply run_tx. run. unfold add_row. run.
  rewrite H. cbn [andb negb no_conflict]. by destruct w.
Qed.

(** A mark that is visible at an instant stays visible through writes that outlive it. *)
Lemma exists_set now t k k' v ttl (r : R) :
  t < now + seconds ttl -> r_exists t k' r = true -> r_exists t k' (r_set now k v ttl r) = true.
Proof.
  intros Ht Hr. unfold r_exists in *. destruct (decide (k' = k)) as [->|Hk].
  - rewrite r_get_set_eq. by rewrite (proj2 (Z.ltb_lt _ _) Ht).
  - by rewrite r_get_set_ne.
Qed.
Lemma exists_set_eq now t k v ttl (r : R) : t < now + seconds ttl -> r_exists t k (r_set now k v ttl r) = true.
Proof. intros Ht. unfold r_exists. by rewrite r_get_set_eq, (proj2 (Z.ltb_lt _ _) Ht). Qed.

Definition jti_marked (t : Time) (j : UUID) (r : R) : bool := r_exists t (name (access_revocation j 1)) r.
Definition family_marked (t : Time) (f : UUID) (r : R) : bool := r_exists t (name (family_revocation f 1)) r.

Lemma revoke_keys_marks now t v (r : R) : t < now + seconds ACCESS_TTL_SECONDS ->
  jti_marked t (rv_access_jti v) (revoke_keys now v r) = true
  /\ family_marked t (rv_family_id v) (revoke_keys now v r) = true.
Proof.
  intros Ht. assert (Ht' : t < now + seconds REFRESH_FAMILY_SECONDS).
  { unfold seconds, second, ACCESS_TTL_SECONDS, REFRESH_FAMILY_SECONDS in *. lia. }
  split; [|by apply exists_set_eq]. apply exists_set; [done|]. by apply exists_set_eq.
Qed.

(** Revoking tokens and families leaves the keys of other kinds alone. *)
Lemma revoke_keys_other t now v s (r : R) : kind s <> 5%nat -> kind s <> 7%nat ->
  r_get t (key_text s) (revoke_keys now v r) = r_get t (key_text s) r.
Proof.
  intros H5 H7. unfold revoke_keys. rewrite !r_get_set_ne; [done|..].
  - by apply (key_kind_ne s (S_access_revocation (rv_access_jti v))).
  - by apply (key_kind_ne s (S_family_revocation (rv_family_id v))).
Qed.
Lemma revoke_all_keys_other t now l s (r : R) : kind s <> 5%nat -> kind s <> 7%nat ->
  r_get t (key_text s) (List.fold_left (fun r v => revoke_keys now v r) l r) = r_get t (key_text s) r.
Proof.
  intros H5 H7. revert r. induction l as [|v l IH]; intros r; cbn; [done|]. by rewrite IH, revoke_keys_other.
Qed.
(** ** Authentication *)

(** The instant before which the tokens of a user are revoked, as Redis holds it. *)
Definition user_revocation_instant (t : Time) (u : UUID) (r : R) : option Time :=
  match r_get t (name (user_revocation u)) r with Some (RInt n) => Some (fromtimestamp n) | _ => None end.

Lemma run_exists key w : redis_exists key w = (inr (r_exists (w_now w) (name key) (w_redis w)), w).
Proof. by destruct w. Qed.

Lemma datetime_inr key w x w' : (redis_get key ≫= as_datetime) w = (inr x, w') ->
  w' = w /\ x = match r_get (w_now w) (name key) (w_redis w) with Some (RInt n) => Some (fromtimestamp n) | _ => None end.
Proof.
  unfold redis_get. intros H. run_in H. unfold as_datetime in H.
  destruct (r_get _ _ _) as [[]|]; first [discriminate H | by injection H as <- <-].
Qed.

Lemma active_inv sid now w : session_inv (w_db w) ->
  SessionRepo.session_is_active sid now w = (inr true, w) ->
  exists s f, s ∈ Models.sessions (w_db w) /\ f ∈ families (w_db w) /\ f_family_id f = s_family_id s /\
    s_session_id s = sid /\ s_revoked_at s = None /\ f_revoked_at f = None /\ now < s_expires_at s
    /\ now < f_absolute_expires_at f.
Proof.
  intros I H. unfold SessionRepo.session_is_active in H. run_in H.
  match type of H with context [head ?l] => destruct l as [|[s f] l'] eqn:El end; [discriminate|].
  exists s, f. assert (Hin : (s, f) ∈ (s, f) :: l') by by left. rewrite <- El in Hin.
  apply session_rows_elem in Hin as (Hs & Hf & Hfs & Hp). unfold SessionRepo.live_session in Hp. to_prop. done.
Qed.

(** What [authenticate] checked when it returned. *)
Lemma authenticate_inr token w claims w' : authenticate token w = (inr claims, w') ->
  w' = w /\ verify token w = (inr claims, w) /\
  jti_marked (w_now w) (ac_jti claims) (w_redis w) = false /\
  family_marked (w_now w) (ac_family_id claims) (w_redis w) = false /\
  (forall t, user_revocation_instant (w_now w) (ac_user_id claims) (w_redis w) = Some t -> t < ac_issued_at claims) /\
  SessionRepo.session_is_active (ac_session_id claims) (w_now w) w = (inr true, w) /\
  (forall org n, ac_workspace_id claims = Some org -> ac_workspace_type claims = Some "organization" ->
     r_get (w_now w) (name (organization_revocation (ac_user_id claims) org)) (w_redis w) = Some (RInt n) ->
     fromtimestamp n < ac_issued_at claims).
Proof.
  intros H. unfold authenticate in H. run_in H.
  step_in H c w1 Hv. pose proof Hv as [-> _]%verify_inr.
  unfold access_token_is_revoked in H. rewrite (run_bind _ _ _ _ _ (run_exists _ _)) in H.
  destruct (r_exists _ (name (access_revocation _ _)) _) eqn:Ej; run_in H; [done|].
  unfold family_is_revoked in H. rewrite (run_bind _ _ _ _ _ (run_exists _ _)) in H.
  destruct (r_exists _ (name (family_revocation _ _)) _) eqn:Ef; run_in H; [done|].
  step_in H ra w2 Hu. apply datetime_inr in Hu as [-> Hu].
  match type of H with context [raise_if ?b] => destruct b eqn:Eu; run_in H; [done|] end.
  step_in H u3 w3 Ho.
  assert (Hw3 : w3 = w /\ (forall org n, ac_workspace_id c = Some org -> ac_workspace_type c = Some "organization" ->
     r_get (w_now w) (name (organization_revocation (ac_user_id c) org)) (w_redis w) = Some (RInt n) ->
     fromtimestamp n < ac_issued_at c)).
  { destruct (ac_workspace_id c) as [org|] eqn:Ew; cbn [is_some is_none negb andb] in Ho.
    2: { injection Ho as <- <-. split; [done|]. intros * [=]. }
    case_bool_decide as Et.
    2: { injection Ho as <- <-. split; [done|]. intros * _ ?. done. }
    step_in Ho ro w4 Hr. apply datetime_inr in Hr as [-> Hr]. unfold raise_if in Ho.
    match type of Ho with context [if ?b then _ else _] => destruct b eqn:Eo; [discriminate|] end.
    injection Ho as <- <-. split; [done|]. intros org' n [= <-] _ Hg. rewrite Hg in Hr. subst ro.
    by apply Z.leb_gt. }
  destruct Hw3 as [-> Horg].
  step_in H b w5 Ha. assert (w5 = w) as -> by (by injection Ha).
  destruct b; run_in H; [|done]. injection H as <- <-.
  repeat split; try done. intros t Ht. unfold user_revocation_instant in Ht. rewrite Ht in Hu. subst ra.
  by apply Z.leb_gt.
Qed.
End Lemmas.

(** ** Ending every session of a user *)

Lemma revoke_rows_sessions now reason l db s' :
  s' ∈ Models.sessions (revoke_rows now reason l db) ->
  exists s, s ∈ Models.sessions db /\ s_session_id s' = s_session_id s /\ s_family_id s' = s_family_id s
    /\ s_user_id s' = s_user_id s
    /\ (s_revoked_at s' = None -> s_revoked_at s = None /\ Forall (fun p => s_session_id p.1 <> s_session_id s) l).
Proof.
  revert db. induction l as [|p l IH]; intros db; cbn [revoke_rows List.fold_left]; [by eauto 10|].
  intros (s1 & Hs1 & E1 & E2 & E3 & Hr)%IH. rewrite revoke_locked_eq in Hs1.
  unfold revoke_locked_at in Hs1. rewrite end_sessions in Hs1.
  apply elem_of_update in Hs1 as (s & Hs & ->). exists s. split; [done|].
  case_bool_decide as Hd; cbn in *.
  - split_and!; try done. intros H; by destruct (Hr H).
  - split_and!; try done. intros H; destruct (Hr H). split; [done|]. constructor; [congruence|done].
Qed.

Lemma revoke_all_dead u reason now db s : session_inv db ->
  s ∈ Models.sessions (revoke_rows now reason
        (SessionRepo.session_rows (fun s f => (s_user_id s == u) && is_none (s_revoked_at s)
                                              && is_none (f_revoked_at f)) db) db) ->
  s_user_id s = u -> s_revoked_at s <> None.
Proof.
  intros I Hs Hu Hn. apply revoke_rows_sessions in Hs as (s0 & Hs0 & E1 & E2 & E3 & Hr).
  destruct (Hr Hn) as [Hn0 Hf]. destruct (inv_session_family _ I s0 Hs0) as (f & Hf0 & Ef & _ & Hrev).
  rewrite Forall_forall in Hf. apply (Hf (s0, f)); [|done]. apply list_elem_of_In, session_rows_elem.
  repeat split; try done. rewrite <- E3, Hu, eqb_refl, Hn0. rewrite (proj2 Hrev Hn0). done.
Qed.

Lemma revoke_rows_ids now reason l db : links (revoke_rows now reason l db) = links db.
Proof.
  revert db. induction l as [|p l IH]; intros db; cbn [revoke_rows List.fold_left]; [done|].
  unfold revoke_rows in IH. rewrite IH, revoke_locked_eq. apply links_end. by split.
Qed.

(** ** Refreshing *)

Section Refresh.
Context {R : Type} {RC : RedisClient R} {E : Env}.
Implicit Types (w : World R).

Definition add_audit (row : AuditLog) (db : Db) : Db := db <| audit_logs ::= (fun l => l ++ [row]) |>.

(** The control's call of the repository, in the world it makes it. *)
Definition rotation_of (tok : string) (ct : ClientType) (fp : string) w : (exc + RotationResult) * World R :=
  SessionRepo.rotate_refresh_token (_token_hash tok) (_token_hash (token_urlsafe 48 (w_seed w)))
    (w_now w + seconds REFRESH_FAMILY_SECONDS) (uuid4 (N.succ (w_seed w))) ct (_fingerprint_hash fp)
    IDLE_TIMEOUT_SECONDS (w_now w) (next_seed (next_seed w)).

Lemma refresh_reused tok ct fp cid w t f s :
  SessionRepo.token_rows (_token_hash tok) (w_db w) = [(t, (f, s))] -> t_used_at t <> None ->
  exists row w', refresh tok ct fp cid w = (inl token_reused, w') /\ w_now w' = w_now w /\
    w_db w' = add_audit row (revoke_locked_at (f_family_id f) (s_session_id s) (w_now w) "token_reuse" (w_db w)) /\
    w_redis w' = revoke_keys (w_now w) (revocation_of f s) (w_redis w).
Proof.
  intros Hp Hu. unfold refresh. run.
  assert (Hv : rotation_verdict t f s ct (_fingerprint_hash fp) IDLE_TIMEOUT_SECONDS (w_now w) = Rot_REUSED).
  { unfold rotation_verdict. by destruct (t_used_at t). }
  rewrite (run_bind _ _ _ _ _ (rotate_ends _ _ _ _ _ _ _ _ t f s (next_seed (next_seed w)) "token_reuse" Hp
    ltac:(by rewrite Hv))). rewrite Hv. cbn [rr_revoked rr_status]. cbv iota.
  rewrite bool_decide_eq_false_2 by done. rewrite (run_bind _ _ _ _ _ (run_apply _ _)).
  match goal with |- context [SessionRepo.session_audit ?et ?o ?c ?u ?m] =>
    match goal with |- context [(SessionRepo.session_audit _ _ _ _ _ ≫= ?k) ?w0] =>
      destruct (run_audit et o c u m w0 eq_refl) as (row & Ha) end end.
  rewrite (run_bind _ _ _ _ _ Ha). exists row. by eexists.
Qed.

Lemma refresh_spent tok ct fp cid w t f s :
  SessionRepo.token_rows (_token_hash tok) (w_db w) = [(t, (f, s))] -> t_used_at t = None ->
  t_revoked_at t <> None -> refresh tok ct fp cid w = (inl _token_invalid, next_seed (next_seed w)).
Proof.
  intros Hp Hu Hr. unfold refresh. run.
  rewrite (run_bind _ _ _ _ _ (rotate_invalid _ _ _ _ _ _ _ _ t f s (next_seed (next_seed w)) Hp
    ltac:(unfold rotation_verdict; rewrite Hu; by destruct (t_revoked_at t)))). done.
Qed.

(** A refresh that returned rotated a live token. *)
Lemma refresh_inr tok ct fp cid w pair w' : session_inv (w_db w) ->
  refresh tok ct fp cid w = (inr pair, w') ->
  exists t f s fresh row,
    t ∈ refresh_tokens (w_db w) /\ f ∈ families (w_db w) /\ s ∈ Models.sessions (w_db w) /\
    t_token_hash t = _token_hash tok /\ f_family_id f = t_family_id t /\ s_family_id s = f_family_id f /\
    rotation_verdict t f s ct (_fingerprint_hash fp) IDLE_TIMEOUT_SECONDS (w_now w) = Rot_ROTATED /\
    t_token_hash fresh = _token_hash (tp_refresh_token pair) /\ t_family_id fresh = t_family_id t /\
    t_used_at fresh = None /\ t_revoked_at fresh = None /\ tp_session_id pair = s_session_id s /\
    session_inv (rotated t s (w_now w) (uuid4 (N.succ (w_seed w))) fresh (w_db w)) /\
    w_db w' = add_audit row (rotated t s (w_now w) (uuid4 (N.succ (w_seed w))) fresh (w_db w)) /\
    w_now w' = w_now w /\
    w_redis w' = r_set (w_now w) (name (access_revocation (s_access_jti s) ACCESS_TTL_SECONDS)) (RText "1")
                   ACCESS_TTL_SECONDS (w_redis w).
Proof.
  intros I H. unfold refresh in H. run_in H. step_in H res w1 Hrot.
  destruct (token_rows_cases (w_db w) I (_token_hash tok)) as [Hn|([t [f s]] & Hp & Hin)].
  { rewrite (rotate_unknown _ _ _ _ _ _ _ _ (next_seed (next_seed w)) Hn) in Hrot. by injection Hrot as <- <-. }
  set (v := rotation_verdict t f s ct (_fingerprint_hash fp) IDLE_TIMEOUT_SECONDS (w_now w)).
  destruct (verdict_reason v) as [r|] eqn:Er.
  { rewrite (rotate_ends _ _ _ _ _ _ _ _ t f s (next_seed (next_seed w)) r Hp Er) in Hrot.
    fold v in Hrot. injection Hrot as <- <-. exfalso. cbn [rr_revoked rr_status] in H.
    rewrite bool_decide_eq_false_2 in H by (intros Hv; rewrite Hv in Er; discriminate).
    rewrite (run_bind _ _ _ _ _ (run_apply _ _)) in H.
    destruct v; try discriminate; run_in H; discriminate. }
  destruct (decide (v = Rot_ROTATED)) as [Ev|Ev].
  2: { assert (Hv : v = Rot_INVALID) by (by destruct v).
       rewrite (rotate_invalid _ _ _ _ _ _ _ _ t f s (next_seed (next_seed w)) Hp Hv) in Hrot.
       by injection Hrot as <- <-. }
  pose proof Hin as (Ht & Hf & Hs & Hh & Hft & Hsf)%token_rows_elem. cbn in Ht, Hf, Hs, Hh, Hft, Hsf.
  pose proof (keeps_rotate (_token_hash tok) (_token_hash (token_urlsafe 48 (w_seed w)))
    (w_now w + seconds REFRESH_FAMILY_SECONDS) (uuid4 (N.succ (w_seed w))) ct (_fingerprint_hash fp)
    IDLE_TIMEOUT_SECONDS (w_now w) (next_seed (next_seed w)) I) as I'. unfold on_db in I'.
  rewrite Hrot in I'. cbn [snd] in I'.
  apply (rotate_rotates _ _ _ _ _ _ _ _ t f s) in Hrot as (Er1 & En1 & Hc & Hdb & Hst & Hrev & c & Hct & Hrec); [|done..].
  rewrite Hst, Hrev, Hrec in H. rewrite bool_decide_eq_true_2 in H by done.
  rewrite (run_bind _ _ _ _ _ (run_revoke_access _ _)) in H. run_in H.
  step_in H u w2 Ha. destruct (run_audit "SESSION_REFRESHED" "success" cid (s_user_id s)
    [("client_type", JStr (client_value ct))] (with_redis (r_set (w_now w1) (name (access_revocation
       (rv_access_jti (revocation_of f s)) ACCESS_TTL_SECONDS)) (RText "1") ACCESS_TTL_SECONDS (w_redis w1)) w1) eq_refl) as (row & Ha').
  cbn [sr_user_id sr_session_id sr_family_id] in Ha, H. rewrite Ha in Ha'. injection Ha' as -> ->.
  exists t, f, s, (replacement (_token_hash (token_urlsafe 48 (w_seed w))) (w_now w + seconds REFRESH_FAMILY_SECONDS)
    (w_now w) t f (next_seed (next_seed w))), row.
  assert (Hp' : tp_refresh_token pair = token_urlsafe 48 (w_seed w) /\ tp_session_id pair = s_session_id s
    /\ w_db w' = add_audit row (w_db w1) /\ w_now w' = w_now w1 /\
    w_redis w' = r_set (w_now w1) (name (access_revocation (s_access_jti s) ACCESS_TTL_SECONDS)) (RText "1")
                   ACCESS_TTL_SECONDS (w_redis w1)).
  { unfold csrf_for in H. destruct ct; run_in H; injection H as <- <-; done. }
  destruct Hp' as (-> & -> & -> & -> & ->). rewrite Hdb in *. rewrite En1, Er1.
  split_and!; done.
Qed.

Lemma add_audit_inv row db : session_inv db -> session_inv (add_audit row db).
Proof. apply audit_append. Qed.
End Refresh.

(** ** Logging out everywhere *)

Section LogoutAll.
Context {R : Type} {RC : RedisClient R} {E : Env}.
Implicit Types (w : World R).

Definition live_rows (u : UUID) (db : Db) : list (Session * RefreshTokenFamily) :=
  SessionRepo.session_rows (fun s f => (s_user_id s == u) && is_none (s_revoked_at s) && is_none (f_revoked_at f)) db.
(** The keyspace after the revocation of a user and of the live sessions found. *)
Definition revoke_user_keys (u : UUID) (now : Time) (rows : list (Session * RefreshTokenFamily)) (r : R) : R :=
  List.fold_left (fun r v => revoke_keys now v r) (List.map (fun p => revocation_of p.2 p.1) rows)
    (r_set now (name (user_revocation u)) (RInt (timestamp now)) USER_REVOCATION_TTL_SECONDS r).

Lemma logout_all_inr claims cid w n w' : logout_all claims cid w = (inr n, w') ->
  let u := ac_user_id claims in
  n = Z.of_nat (length (live_rows u (w_db w))) /\ w_now w' = w_now w /\
  (exists row, w_db w' = add_audit row (revoke_rows (w_now w) "logout_all" (live_rows u (w_db w)) (w_db w))) /\
  w_redis w' = revoke_user_keys u (w_now w) (live_rows u (w_db w)) (w_redis w).
Proof.
  intros H. unfold logout_all in H. run_in H.
  rewrite (run_bind _ _ _ _ _ (run_revoke_all _ _ _ _)) in H.
  rewrite (run_bind _ _ _ _ _ (run_revoke_user _ _ _)) in H.
  rewrite (run_bind _ _ _ _ _ (run_apply_all _ _)) in H. step_in H x w3 Haud.
  match type of Haud with SessionRepo.session_audit ?et ?o ?c ?us ?m ?w0 = _ =>
    destruct (run_audit et o c us m w0 eq_refl) as (row & Ha') end.
  rewrite Ha' in Haud. injection Haud as _ <-. injection H as <- <-. rewrite length_map.
  split_and!; try done. by exists row.
Qed.
End LogoutAll.

(** ** Creating and scoping *)

Section Creating.
Context {R : Type} {RC : RedisClient R} {E : Env}.
Implicit Types (w : World R).

Lemma run_consume_workflow tok w : consume_login_workflow tok w
  = (json_result (r_get (w_now w) (name (login_workflow tok)) (w_redis w)),
     with_redis (r_del (name (login_workflow tok)) (w_redis w)) w).
Proof. apply run_consume. Qed.

Lemma create_without_workflow tok ct fp ip cid w :
  r_get (w_now w) (name (login_workflow tok)) (w_redis w) = None ->
  create_session tok ct fp ip cid w
  = (inl _workflow_invalid, with_redis (r_del (name (login_workflow tok)) (w_redis w)) w).
Proof.
  intros H. unfold create_session. unfold mbind at 1, prog_bind at 1. rewrite run_consume_workflow, H. done.
Qed.

(** The writes of a successful creation, and what they rested on. *)
Lemma create_inr tok ct fp ip cid w pair w' : create_session tok ct fp ip cid w = (inr pair, w') ->
  exists workflow uid u jti c w1 row,
    r_get (w_now w) (name (login_workflow tok)) (w_redis w) = Some (RJson workflow) /\
    jget "decision" workflow = Some (JStr "session_ready") /\ juuid "user_id" workflow = Some uid /\
    u ∈ users (w_db w) /\ u_user_id u = uid /\ u_state u = "active" /\ u_anonymized_at u = None /\
    w_db w1 = w_db w /\ w_now w1 = w_now w /\ w_redis w1 = r_del (name (login_workflow tok)) (w_redis w) /\
    (exists w2, SessionRepo.create_session uid ct (_fingerprint_hash fp) ip (_token_hash (tp_refresh_token pair)) jti
      (w_now w + seconds REFRESH_FAMILY_SECONDS) (w_now w + seconds SESSION_ABSOLUTE_SECONDS)
      (w_now w + seconds REFRESH_FAMILY_SECONDS) w1 = (inr c, w2) /\ w_db w' = add_audit row (w_db w2)) /\
    w_now w' = w_now w /\ tp_session_id pair = sr_session_id (cs_record c) /\
    tp_refresh_expires_at pair = w_now w + seconds SESSION_ABSOLUTE_SECONDS /\
    w_redis w' = List.fold_left (fun r v => revoke_keys (w_now w) v r) (cs_evicted c)
                   (r_del (name (login_workflow tok)) (w_redis w)).
Proof.
  intros H. unfold create_session in H. unfold mbind at 1, prog_bind at 1 in H. rewrite run_consume_workflow in H.
  unfold json_result in H. destruct (r_get _ _ _) as [[| | d |]|] eqn:Eg; cbv iota in H; run_in H; try discriminate H.
  destruct (bool_decide (jget "decision" d = Some (JStr "session_ready"))) eqn:Ed; cbn [negb] in H; run_in H; [|discriminate].
  destruct (juuid "user_id" d) as [uid|] eqn:Eu; run_in H; [|discriminate].
  step_in H b w1 Hb. unfold SessionRepo.user_is_active in Hb. run_in Hb. injection Hb as Hb <-.
  destruct (scalar _ _) as [u|] eqn:Es; [|subst b; discriminate].
  apply scalar_Some in Es as [Hu Hid]. destruct b; cbn [negb] in H; run_in H; [|discriminate].
  step_in H csrf w1 Hcsrf.
  assert (Hw1 : w_db w1 = w_db w /\ w_now w1 = w_now w /\ w_redis w1 = r_del (name (login_workflow tok)) (w_redis w)).
  { unfold csrf_for in Hcsrf. destruct ct; run_in Hcsrf; injection Hcsrf as _ <-; done. }
  clear Hcsrf. destruct Hw1 as (Hd1 & Hn1 & Hr1). run_in H.
  step_in H c w2 Hc. unfold issue in H. cbv beta iota in H.
  rewrite (run_bind _ _ _ _ _ (run_apply_all _ _)) in H.
  step_in H x w3 Haud.
  match type of Haud with SessionRepo.session_audit ?et ?o ?c ?us ?m ?w0 = _ =>
    destruct (run_audit et o c us m w0 eq_refl) as (row & Ha') end.
  rewrite Ha' in Haud. injection Haud as _ <-. injection H as <- <-.
  pose proof Hc as (_ & _ & _ & _ & Hr2 & Hn2 & _)%create_session_spec.
  cbn [next_seed w_redis w_now set] in Hr2, Hn2.
  exists d, uid, u, (uuid4 (w_seed w1)), c, (next_seed w1), row. to_prop.
  cbn [next_seed with_db with_redis w_db w_redis w_now set tp_refresh_token tp_session_id tp_refresh_expires_at].
  rewrite Hn2, Hr2, Hn1, Hr1.
  split_and!; try done. by exists w2.
Qed.

Lemma create_keeps_inv tok ct fp ip cid w pair w' :
  session_inv (w_db w) -> create_session tok ct fp ip cid w = (inr pair, w') -> session_inv (w_db w').
Proof.
  intros I H. apply create_inr in H as (d & uid & u & jti & c & w1 & row & _ & _ & _ & _ & _ & _ & _ & Hdb1 & Hn1 &
    _ & (w2 & Hc & Hdb') & _).
  pose proof (keeps_create_session uid ct (_fingerprint_hash fp) ip (_token_hash (tp_refresh_token pair)) jti
    (w_now w + seconds REFRESH_FAMILY_SECONDS) (w_now w + seconds SESSION_ABSOLUTE_SECONDS)
    (w_now w + seconds REFRESH_FAMILY_SECONDS) ltac:(done) w1) as Hk. unfold on_db in Hk.
  rewrite Hc, Hdb1 in Hk. rewrite Hdb'. by apply add_audit_inv, Hk.
Qed.

Lemma scope_inr claims ws cid w tok exp w' : session_inv (w_db w) ->
  issue_workspace_scope claims ws cid w = (inr (tok, exp), w') ->
  exists s row, s ∈ Models.sessions (w_db w) /\ s_session_id s = ac_session_id claims /\
    s_user_id s = ac_user_id claims /\ s_revoked_at s = None /\
    tok = jwt_encode (issue_claims (ac_user_id claims) (ac_session_id claims) (ac_family_id claims)
            (uuid4 (w_seed w)) (ac_client_type claims) (ac_assurance claims) (w_now w)
            (Some (ws_workspace_id ws)) (Some (workspace_type_value (ws_workspace_type ws))) (ws_roles ws)) /\
    w_now w' = w_now w /\
    w_db w' = add_audit row (SessionRepo.set_session (s_session_id s)
      (fun s => s <| s_org_id := Some (ws_workspace_id ws) |> <| s_access_jti := uuid4 (w_seed w) |>
                  <| s_last_activity_at := w_now w |>) (w_db w)) /\
    w_redis w' = r_set (w_now w) (name (access_revocation (s_access_jti s) ACCESS_TTL_SECONDS)) (RText "1")
                   ACCESS_TTL_SECONDS (w_redis w).
Proof.
  intros I H. unfold issue_workspace_scope in H. run_in H. step_in H prev w1 Hs.
  pose proof (run_scope (ac_user_id claims) (ac_session_id claims) (ws_workspace_id ws) (uuid4 (w_seed w)) (w_now w)
    (next_seed w)) as Hr. cbv zeta in Hr.
  match type of Hr with context [match ?l with _ => _ end] => destruct l as [|[s f] l'] eqn:El end;
    rewrite Hr in Hs; injection Hs as <- <-; run_in H; [discriminate|].
  assert (Hin : (s, f) ∈ (s, f) :: l') by by left. rewrite <- El in Hin.
  apply session_rows_elem in Hin as (Hss & _ & _ & Hp). unfold SessionRepo.live_session in Hp. to_prop.
  rewrite (run_bind _ _ _ _ _ (run_revoke_access _ _)) in H. run_in H.
  step_in H x w3 Haud.
  match type of Haud with SessionRepo.session_audit ?et ?o ?c ?us ?m ?w0 = _ =>
    destruct (run_audit et o c us m w0 eq_refl) as (row & Ha') end.
  rewrite Ha' in Haud. injection Haud as _ <-. injection H as <- <- <-.
  exists s, row. split_and!; done.
Qed.
End Creating.

(** ** Properties *)

Section Properties.
Context {R : Type} {RC : RedisClient R} {E : Env}.
Implicit Types (w : World R).

(** C1: a bearer token authenticates only if every check passes, and authentication changes
    nothing: the token decodes to the returned claims, neither its jti nor its family is
    revoked in Redis, it was issued after the last global revocation of its user, and the
    database holds its session with the family, both unrevoked and unexpired. *)
Theorem authenticate_sound token w claims w' :
  session_inv (w_db w) -> authenticate token w = (inr claims, w') ->
  w' = w /\
  (exists payload, jwt_decode token (w_now w) jwt_audience jwt_issuer = Some payload /\ claims_of payload = Some claims) /\
  jti_marked (w_now w) (ac_jti claims) (w_redis w) = false /\
  family_marked (w_now w) (ac_family_id claims) (w_redis w) = false /\
  (forall t, user_revocation_instant (w_now w) (ac_user_id claims) (w_redis w) = Some t -> t < ac_issued_at claims) /\
  exists s f, s ∈ Models.sessions (w_db w) /\ f ∈ families (w_db w) /\ f_family_id f = s_family_id s /\
    s_session_id s = ac_session_id claims /\ s_revoked_at s = None /\ f_revoked_at f = None /\
    w_now w < s_expires_at s /\ w_now w < f_absolute_expires_at f.
Proof.
  intros I H. apply authenticate_inr in H as (-> & Hv & Hj & Hf & Hu & Ha & _).
  apply verify_inr in Hv as [_ Hp]. apply (active_inv _ _ _ I) in Ha. split_and!; done.
Qed.

(** C7: "log out everywhere" ends every token of the user.  After it returned, at any later
    instant, no token of that user authenticates whose session row existed, and for thirty days
    none at all that was issued up to the second of the call. *)
Theorem logout_all_ends_every_token claims cid w n w' token t k :
  session_inv (w_db w) -> logout_all claims cid w = (inr n, w') -> ac_user_id k = ac_user_id claims ->
  (exists s, s ∈ Models.sessions (w_db w) /\ s_session_id s = ac_session_id k /\ s_user_id s = ac_user_id k) \/
  (ac_issued_at k <= fromtimestamp (timestamp (w_now w)) /\ t < w_now w + seconds USER_REVOCATION_TTL_SECONDS) ->
  forall w2, authenticate token (at_time t w') <> (inr k, w2).
Proof.
  intros I H Hk Hor w2 Ha. apply logout_all_inr in H as (_ & Hn & (row & Hdb) & Hr).
  assert (Iw : session_inv (w_db (at_time t w'))).
  { cbn [at_time w_db set]. rewrite Hdb. apply add_audit_inv. by apply revoke_rows_inv. }
  apply authenticate_inr in Ha as (_ & _ & _ & _ & Hu & Hact & _). destruct Hor as [(s & Hs & Es & Eu)|[Hi Ht]].
  - apply (active_inv _ _ _ Iw) in Hact as (s' & f' & Hs' & _ & _ & Es' & Hrev & _).
    cbn [at_time w_db set] in Hs'. rewrite Hdb in Hs'.
    apply (revoke_all_dead (ac_user_id claims) "logout_all" (w_now w) (w_db w) s' I Hs'); [|done].
    destruct (revoke_rows_sessions _ _ _ _ _ Hs') as (s0 & Hs0 & E1 & _ & E3 & _).
    assert (s0 = s) as -> by (apply (session_unique (w_db w) I); congruence). congruence.
  - specialize (Hu (fromtimestamp (timestamp (w_now w)))). rewrite Hk in Hu.
    assert (Hlt : fromtimestamp (timestamp (w_now w)) < ac_issued_at k); [|lia].
    apply Hu. unfold user_revocation_instant. cbn [at_time w_redis w_now set]. rewrite Hr.
    unfold revoke_user_keys.
    pose proof (revoke_all_keys_other (R := R) t (w_now w) (List.map (fun p => revocation_of p.2 p.1)
      (live_rows (ac_user_id claims) (w_db w))) (S_user_revocation (ac_user_id claims))) as Hk'.
    unfold key_text in Hk'. cbn [key_of] in Hk'. rewrite Hk', r_get_set_eq by done. by rewrite (proj2 (Z.ltb_lt _ _) Ht).
Qed.

(** C2: theft of a refresh token is detected and contained.  After a refresh, presenting the
    replaced token again, from any client and device at any time, raises TOKEN_REUSED; from
    then on the token that replaced it is refused too, and the family and the current access
    token are revoked in Redis for the whole lifetime of an access token. *)
Theorem refresh_theft_contained tok ct fp cid w pair w1 t1 ct1 fp1 cid1 :
  session_inv (w_db w) -> refresh tok ct fp cid w = (inr pair, w1) ->
  exists w2 fid jti,
    refresh tok ct1 fp1 cid1 (at_time t1 w1) = (inl token_reused, w2) /\
    family_ended fid (w_db w2) /\
    (forall t2 ct2 fp2 cid2, (refresh (tp_refresh_token pair) ct2 fp2 cid2 (at_time t2 w2)).1 = inl _token_invalid) /\
    (exists s, s ∈ Models.sessions (w_db w1) /\ s_session_id s = tp_session_id pair /\
       s_family_id s = fid /\ s_access_jti s = jti) /\
    (forall t, t < t1 + seconds ACCESS_TTL_SECONDS ->
       jti_marked t jti (w_redis w2) = true /\ family_marked t fid (w_redis w2) = true).
Proof.
  intros I H. apply refresh_inr in H as (t & f & s & fresh & row & Ht & Hf & Hs & Hh & Hft & Hsf & Hv & Hfh &
    Hff & Hfu & Hfr & Hps & I1 & Hdb1 & Hn1 & Hr1); [|done].
  set (now := w_now w) in *. set (jti1 := uuid4 (N.succ (w_seed w))) in *.
  set (rdb := rotated t s now jti1 fresh (w_db w)) in *.
  assert (Hin : SessionRepo.spent_token now t ∈ refresh_tokens rdb).
  { apply rotated_tokens. left. exists t. split; [done|]. by rewrite eqb_refl. }
  assert (Hin' : fresh ∈ refresh_tokens rdb) by (apply rotated_tokens; by right).
  destruct (token_rows_known rdb I1 _ Hin) as (f1 & s1 & Hp1 & Hf1 & Hs1 & Hft1 & Hsf1).
  assert (I1' : session_inv (add_audit row rdb)) by (by apply add_audit_inv).
  destruct (refresh_reused tok ct1 fp1 cid1 (at_time t1 w1) (SessionRepo.spent_token now t) f1 s1)
    as (row2 & w2 & H2 & Hn2 & Hdb2 & Hr2).
  { cbn [at_time w_db set]. rewrite Hdb1, <- Hh. exact Hp1. }
  { done. }
  cbn [at_time w_db w_now w_redis set] in Hdb2, Hr2. rewrite Hdb1 in Hdb2.
  set (db2 := revoke_locked_at (f_family_id f1) (s_session_id s1) t1 "token_reuse" (add_audit row rdb)) in *.
  assert (Hl : (s_session_id s1, f_family_id f1) ∈ links (add_audit row rdb)).
  { rewrite <- Hsf1. by apply links_in. }
  assert (I2 : session_inv db2) by (by apply revoke_locked_inv).
  exists w2, (f_family_id f1), (s_access_jti s1). split_and!; [done|..].
  - rewrite Hdb2. eexists. split; [exact (elem_of_update_fwd (fun g => f_family_id g == f_family_id f1) _ _ _ Hf1)|].
    rewrite eqb_refl. by split.
  - intros t2 ct2 fp2 cid2.
    assert (Hfe : exists r, r ∈ refresh_tokens db2 /\ t_token_hash r = t_token_hash fresh /\
      t_used_at r = None /\ t_revoked_at r <> None).
    { eexists. split; [exact (elem_of_update_fwd (fun r => (t_family_id r == f_family_id f1) && is_none (t_revoked_at r))
        (fun r => r <| t_revoked_at := Some t1 |>) _ _ Hin')|].
      assert (Hb : (t_family_id fresh == f_family_id f1) && is_none (t_revoked_at fresh) = true).
      { rewrite Hff, Hfr, Hft1. cbn. by rewrite eqb_refl. }
      rewrite Hb. by split_and!. }
    destruct Hfe as (r & Hr & Hrh & Hru & Hrr).
    destruct (token_rows_known db2 I2 r Hr) as (f3 & s3 & Hp3 & _).
    rewrite (refresh_spent _ _ _ _ (at_time t2 w2) r f3 s3); [done| |done|done].
    cbn [at_time w_db set]. rewrite Hdb2, <- Hfh, <- Hrh. exact Hp3.
  - exists s1. split_and!; try done; [by rewrite Hdb1|].
    unfold rdb in Hs1. rewrite rotated_sessions in Hs1. apply elem_of_update in Hs1 as (s0 & Hs0 & E1).
    assert (E2 : s_session_id s1 = s_session_id s0 /\ s_family_id s1 = s_family_id s0)
      by (rewrite E1; by case_bool_decide). destruct E2 as [E2 E3].
    rewrite E2, Hps. f_equal. apply (session_of_family (w_db w) I); [done..|].
    rewrite <- E3, Hsf1, Hft1, Hsf, Hft. done.
  - intros t' Ht'. rewrite Hr2. exact (revoke_keys_marks t1 t' (revocation_of f1 s1) (w_redis w1) Ht').
Qed.

(** C9: a session is only ever created for an active user out of a stored [session_ready]
    workflow, and the workflow is spent: the new session, unrevoked, lasts one day and holds
    the returned refresh token as its only, live, token; any later attempt with the same
    workflow fails with WORKFLOW_INVALID and leaves the database alone. *)
Theorem session_needs_ready_workflow tok ct fp ip cid w pair w' :
  session_inv (w_db w) -> create_session tok ct fp ip cid w = (inr pair, w') ->
  exists workflow uid u s t,
    r_get (w_now w) (name (login_workflow tok)) (w_redis w) = Some (RJson workflow) /\
    jget "decision" workflow = Some (JStr "session_ready") /\ juuid "user_id" workflow = Some uid /\
    (u ∈ users (w_db w) /\ u_user_id u = uid /\ u_state u = "active" /\ u_anonymized_at u = None) /\
    (s ∈ Models.sessions (w_db w') /\ s_session_id s = tp_session_id pair /\ s_user_id s = uid /\
     s_revoked_at s = None /\ s_expires_at s = w_now w + days 1) /\
    (t ∈ refresh_tokens (w_db w') /\ t_token_hash t = _token_hash (tp_refresh_token pair) /\
     t_family_id t = s_family_id s /\ t_revoked_at t = None /\ t_used_at t = None /\
     forall r, r ∈ refresh_tokens (w_db w') -> t_family_id r = t_family_id t -> r = t) /\
    session_inv (w_db w') /\
    forall t1 ct1 fp1 ip1 cid1, exists w2,
      create_session tok ct1 fp1 ip1 cid1 (at_time t1 w') = (inl _workflow_invalid, w2) /\ w_db w2 = w_db w'.
Proof.
  intros I H. pose proof (create_keeps_inv _ _ _ _ _ _ _ _ I H) as I'.
  apply create_inr in H as (d & uid & u & jti & c & w1 & row & Hg & Hd & Hu & Hin & Hid & Hst & Han & Hdb1 & Hn1 &
    Hr1 & (w2 & Hc & Hdb') & Hn' & Hsid & _ & Hr').
  apply create_session_spec in Hc as (Hfc & Hsc & Htc & Hdb2 & _ & _ & Ec). rewrite Hn1, Hdb1 in *.
  match type of Hdb2 with _ = opened ?f ?s ?t ?d =>
    set (t0 := t) in Hdb2; set (s0 := s) in Hdb2; set (f0 := f) in Hdb2; set (db1 := d) in Hdb2 end.
  exists d, uid, u, s0, t0. rewrite Hdb'. split_and!; try done.
  - rewrite Hdb2. apply elem_of_app. right. by left.
  - rewrite Hsid, Ec. done.
  - rewrite Hdb2. apply elem_of_app. right. by left.
  - intros r Hr Hfam. rewrite Hdb2 in Hr. apply elem_of_snoc in Hr as [Hr| ->]; [exfalso|done].
    assert (I1 : session_inv db1) by (by apply evict_all_inv).
    by apply (old_token_family db1 I1 f0 Hfc r Hr).
  - by rewrite <- Hdb'.
  - intros t1 ct1 fp1 ip1 cid1. eexists. rewrite create_without_workflow; [by split|].
    cbn [at_time w_now w_redis set]. rewrite Hr'.
    pose proof (revoke_all_keys_other (R := R) t1 (w_now w) (cs_evicted c) (S_login_workflow tok)) as Hk'.
    unfold key_text in Hk'. cbn [key_of] in Hk'. rewrite Hk' by done. apply r_get_del_eq.
Qed.

(** Switching to a workspace replaces the access token.  The session row then carries the
    new jti and the workspace, and for the fifteen minutes the previous access token could
    still live, no token with the previous jti authenticates. *)
Theorem scope_revokes_previous_token claims ws cid w tok exp w' :
  session_inv (w_db w) -> issue_workspace_scope claims ws cid w = (inr (tok, exp), w') ->
  exists s s', s ∈ Models.sessions (w_db w) /\ s' ∈ Models.sessions (w_db w') /\
    s_session_id s = ac_session_id claims /\ s_session_id s' = ac_session_id claims /\
    s_org_id s' = Some (ws_workspace_id ws) /\ s_access_jti s' = uuid4 (w_seed w) /\
    exp = w_now w + seconds ACCESS_TTL_SECONDS /\
    forall t token k w2, t < w_now w + seconds ACCESS_TTL_SECONDS -> ac_jti k = s_access_jti s ->
      authenticate token (at_time t w') <> (inr k, w2).
Proof.
  intros I H. assert (He : exp = w_now w + seconds ACCESS_TTL_SECONDS).
  { unfold issue_workspace_scope in H. run_in H. unfold issue in H. step_in H p w1 Hp. step_in H q w2 Hq.
    step_in H x w3 Hx. step_in H y w4 Hy. by injection H as _ <- _. }
  apply scope_inr in H as (s & row & Hs & Hsid & _ & _ & _ & _ & Hdb & Hr); [|done].
  match type of Hdb with context [SessionRepo.set_session _ ?g _] => set (touch := g) in Hdb end.
  pose proof (elem_of_update_hit (fun r => s_session_id r == s_session_id s) touch _ _ Hs (eqb_refl _)) as Hm.
  exists s, (touch s). split_and!; try done.
  - rewrite Hdb. exact Hm.
  - intros t token k w2 Ht Hj Ha. apply authenticate_inr in Ha as (_ & _ & Hx & _).
    cbn [at_time w_now w_redis set] in Hx. rewrite Hr, Hj in Hx.
    unfold jti_marked in Hx. by rewrite exists_set_eq in Hx.
Qed.

(** What the service signs is what it reads back: while the library decodes an issued
    token to the claims it encodes, [verify] returns exactly the identifiers, client, assurance
    and workspace given to [issue], with the times rounded down to the second. *)
Theorem token_roundtrip user_id session_id family_id jti client_type assurance now workspace roles w :
  let claims := issue_claims user_id session_id family_id jti client_type assurance now
                  (fst <$> workspace) (workspace_type_value ∘ snd <$> workspace) roles in
  jwt_decode (jwt_encode claims) (w_now w) jwt_audience jwt_issuer = Some claims ->
  verify (issue user_id session_id family_id jti client_type assurance now
            (fst <$> workspace) (workspace_type_value ∘ snd <$> workspace) roles).1 w
  = (inr (MkAccessClaims user_id session_id family_id jti (fromtimestamp (timestamp now))
            (fromtimestamp (timestamp (now + seconds ACCESS_TTL_SECONDS))) client_type assurance
            (fst <$> workspace) (workspace_type_value ∘ snd <$> workspace)
            (if workspace is Some _ then roles else [])), w).
Proof.
  intros claims Hd. unfold verify, issue. cbn [fst]. fold claims. run. rewrite Hd. run.
  pose proof (claims_of_issue user_id session_id family_id jti client_type assurance now
    ((fun p => (p.1, workspace_type_value p.2)) <$> workspace) roles) as Hc.
  destruct workspace as [[wid wt]|]; cbn in Hc; unfold claims; cbn; rewrite Hc; try done.
  intros ? ? [= <- <-]. by destruct wt.
Qed.
End Properties.
