(* ===== verification/SessionDemo.v ===== *)
(** Concrete runs of SessionControl: the witnesses of its theorems. *)
From S2P Require Import Prelude PyText Entity Models RedisClient World RedisSecurity Tokens.
From S2P Require Import SessionInv SessionProps SessionControl SessionControlProps.
From S2P Require SessionRepo.

Definition ann : User := MkUser demo_user (Some "ann@example.com") None None None "active" 1 None (t0 - days 3).
Definition demo_db : Db := empty_db <| users := [ann] |>.
Definition cid : UUID := test_uuid 777.
Definition ready_workflow : dict :=
  [("decision", JStr "session_ready"); ("user_id", JStr (uuid_str demo_user)); ("primary_method", JStr "password")].
Definition login_world : World mem_redis := (store_login_workflow "wf" ready_workflow (test_world demo_db t0)).2.
Abbreviation opening := (create_session "wf" WEB "device" (Some "10.0.0.1") cid login_world).
Definition open_world : World mem_redis := opening.2.
Definition open_pair : TokenPair :=
  match opening.1 with inr p => p | inl _ => MkTokenPair "" "" 0 0 cid None end.

Lemma opening_ok : match opening.1 with inr _ => true | _ => false end = true.
Proof. vm_compute. reflexivity. Qed.
Lemma login_inv : session_inv (w_db login_world).
Proof. apply session_inv_of_empty; vm_compute; reflexivity. Qed.


(** [returned ok p w E]: the run that [ok] says returned gave [p] and left [w]. *)
Ltac returned ok p w E :=
  let H := fresh in
  pose proof ok as H; revert H;
  match goal with |- match ?run.1 with _ => _ end = true -> _ =>
    destruct run as [[?|p] w] eqn:E; intros H; [discriminate H|]
  end; clear H.

Lemma open_inv : session_inv (w_db open_world).
Proof.
  unfold open_world. returned opening_ok p w E. cbn [snd].
  exact (create_keeps_inv _ _ _ _ _ _ _ _ login_inv E).
Qed.

Lemma session_needs_ready_workflow_witness : exists pair w' s,
  opening = (inr pair, w') /\ session_inv (w_db w') /\ s ∈ Models.sessions (w_db w') /\
  s_session_id s = tp_session_id pair /\ s_revoked_at s = None.
Proof.
  returned opening_ok p w E. exists p, w.
  destruct (session_needs_ready_workflow _ _ _ _ _ _ _ _ login_inv E)
    as (d & uid & u & s & t & _ & _ & _ & _ & (Hs & Hid & _ & Hr & _) & _ & I & _).
  exists s. split; [reflexivity|]. auto.
Defined.

Definition bearer : string := tp_access_token open_pair.
Definition soon (w : World mem_redis) : World mem_redis := at_time (t0 + seconds 10) w.
Abbreviation arrival := (authenticate bearer (soon open_world)).
Lemma arrival_ok : match arrival.1 with inr _ => true | _ => false end = true.
Proof. vm_compute. reflexivity. Qed.
Lemma soon_inv w : session_inv (w_db w) -> session_inv (w_db (soon w)).
Proof. apply inv_at_time. Qed.

Lemma authenticate_sound_witness : exists claims s,
  arrival = (inr claims, soon open_world) /\ s ∈ Models.sessions (w_db (soon open_world)) /\
  s_session_id s = ac_session_id claims.
Proof.
  returned arrival_ok c w E.
  destruct (authenticate_sound _ _ _ _ (soon_inv _ open_inv) E) as (Hw & _ & _ & _ & _ & s & f & Hs & _ & _ & Hid & _).
  exists c, s. split; [by rewrite Hw|]. auto.
Defined.

Definition ann_claims : AccessClaims :=
  match arrival.1 with
  | inr c => c
  | inl _ => MkAccessClaims cid cid cid cid 0 0 WEB [] None None []
  end.
Abbreviation leaving := (logout_all ann_claims cid (soon open_world)).
Lemma leaving_ok : match leaving.1 with inr _ => true | _ => false end = true.
Proof. vm_compute. reflexivity. Qed.
Lemma issued_before : ac_issued_at ann_claims <= fromtimestamp (timestamp (w_now (soon open_world))).
Proof. vm_compute. discriminate. Qed.
Lemma within_month : t0 + days 29 < w_now (soon open_world) + seconds USER_REVOCATION_TTL_SECONDS.
Proof. vm_compute. reflexivity. Qed.

Lemma logout_all_ends_every_token_witness : exists n w', leaving = (inr n, w') /\
  forall w2, authenticate bearer (at_time (t0 + days 29) w') <> (inr ann_claims, w2).
Proof.
  returned leaving_ok n w E. exists n, w. split; [reflexivity|].
  exact (logout_all_ends_every_token ann_claims cid (soon open_world) n w bearer (t0 + days 29) ann_claims
    (soon_inv _ open_inv) E eq_refl (or_intror (conj issued_before within_month))).
Defined.

Abbreviation renewal := (refresh (tp_refresh_token open_pair) WEB "device" cid (soon open_world)).
Lemma renewal_ok : match renewal.1 with inr _ => true | _ => false end = true.
Proof. vm_compute. reflexivity. Qed.
Lemma refresh_theft_contained_witness : exists pair w1 w2,
  renewal = (inr pair, w1) /\
  refresh (tp_refresh_token open_pair) MOBILE "thief" cid (at_time (t0 + seconds 20) w1) = (inl token_reused, w2) /\
  (refresh (tp_refresh_token pair) WEB "device" cid (at_time (t0 + seconds 30) w2)).1 = inl _token_invalid.
Proof.
  returned renewal_ok p w E.
  destruct (refresh_theft_contained _ WEB "device" cid _ p w (t0 + seconds 20) MOBILE "thief" cid (soon_inv _ open_inv) E)
    as (w2 & fid & jti & H1 & _ & H2 & _).
  exists p, w, w2. split; [reflexivity|]. split; [exact H1|]. apply H2.
Defined.

Definition home : WorkspaceSummary := MkWorkspaceSummary (test_uuid 55) "Home" "home" PERSONAL ["OWNER"].
Abbreviation scoping := (issue_workspace_scope ann_claims home cid (soon open_world)).
Lemma scoping_ok : match scoping.1 with inr _ => true | _ => false end = true.
Proof. vm_compute. reflexivity. Qed.
Lemma scope_revokes_previous_token_witness : exists tok exp w' s,
  scoping = (inr (tok, exp), w') /\ s ∈ Models.sessions (w_db (soon open_world)) /\
  (forall k w2, ac_jti k = s_access_jti s -> authenticate bearer (at_time (t0 + seconds 60) w') <> (inr k, w2)).
Proof.
  returned scoping_ok p w E. destruct p as [tok exp].
  destruct (scope_revokes_previous_token _ _ _ _ tok exp w (soon_inv _ open_inv) E)
    as (s & s' & Hs & _ & _ & _ & _ & _ & _ & Hno).
  exists tok, exp, w, s. split; [reflexivity|]. split; [exact Hs|]. intros k w2. apply Hno. vm_compute. reflexivity.
Defined.

Lemma token_roundtrip_witness : verify (issue demo_user (test_uuid 1) (test_uuid 2) (test_uuid 3) MOBILE ["totp"; "strong"]
    (t0 + 7) (Some (test_uuid 55)) (Some "organization") ["ADMIN"]).1 (test_world empty_db (t0 + seconds 5))
  = (inr (MkAccessClaims demo_user (test_uuid 1) (test_uuid 2) (test_uuid 3) t0 (t0 + seconds 900) MOBILE
            ["totp"; "strong"] (Some (test_uuid 55)) (Some "organization") ["ADMIN"]),
     test_world empty_db (t0 + seconds 5)).
Proof.
  refine (token_roundtrip demo_user (test_uuid 1) (test_uuid 2) (test_uuid 3) MOBILE ["totp"; "strong"] (t0 + 7)
    (Some (test_uuid 55, ORGANIZATION)) ["ADMIN"] (test_world empty_db (t0 + seconds 5)) _).
  vm_compute. reflexivity.
Defined.
