(* ===== verification/RecoveryRepo.v ===== *)
(** [infrastructure/persistence/recovery_repository.py]: password reset tokens, contact changes,
    staff roles and governed MFA resets in the database. *)
From S2P Require Import Prelude PyText Entity Models RedisClient World Providers.

Definition PASSWORD_HISTORY_LIMIT : nat := 5.

Definition contact_conflict : exc :=
  RecoveryError Rec_CONTACT_CONFLICT "That contact is already associated with another account." 409.
Definition four_eyes_required : exc :=
  RecoveryError Rec_FOUR_EYES_REQUIRED "A different security supervisor must approve this request." 409.
Definition target_changed : exc :=
  RecoveryError Rec_TARGET_CHANGED "The account changed after this request began. Start a new request." 409.
Definition target_changed_after_approval : exc :=
  RecoveryError Rec_TARGET_CHANGED "The account changed after approval. Start a new request." 409.
Definition governed_too_early : exc :=
  RecoveryError Rec_GOVERNED_TOO_EARLY "The mandatory protection delay has not finished." 409.

(** [_user], [_contact], [_governed]. *)
Definition _user (user : User) : RecoveryUser :=
  MkRecoveryUser (u_user_id user) (u_email user) (u_phone_e164 user) (u_state user) (u_version user).
Definition _contact (request : ContactChangeRequest) : option ContactChangeRecord :=
  contact_type ← ContactType_of (c_contact_type request);
  Some (MkContactChangeRecord (c_request_id request) (c_user_id request) contact_type
    (c_old_value request) (c_new_value request) (c_expires_at request) (c_old_verified_at request)
    (c_new_verified_at request) (c_applied_at request)).
Definition _governed (request : GovernedRequest) : GovernedResetRecord :=
  MkGovernedResetRecord (g_governed_request_id request) (g_target_user_id request)
    (g_initiator_user_id request) (g_approver_user_id request) (g_state request)
    (g_initiated_at request) (g_execute_after request) (g_approved_at request)
    (g_executed_at request) (g_ticket_reference request).

(** ** Reading and writing rows *)

Definition user_by_id (user_id : UUID) (db : Db) : option User :=
  scalar (fun u => u_user_id u == user_id) (users db).
Definition set_user (user_id : UUID) (f : User -> User) (db : Db) : Db :=
  db <| users ::= update_ (fun u => u_user_id u == user_id) f |>.
Definition set_governed (request_id : UUID) (f : GovernedRequest -> GovernedRequest) (db : Db) : Db :=
  db <| governed_requests ::= update_ (fun g => g_governed_request_id g == request_id) f |>.
Definition set_contact (request_id : UUID) (f : ContactChangeRequest -> ContactChangeRequest) (db : Db) : Db :=
  db <| contact_change_requests ::= update_ (fun c => c_request_id c == request_id) f |>.
Definition set_ephemeral (token_id : UUID) (f : EphemeralToken -> EphemeralToken) (db : Db) : Db :=
  db <| ephemeral_tokens ::= update_ (fun e => e_ephemeral_token_id e == token_id) f |>.

(** Uniqueness of a user's contacts and of provider subjects, after an UPDATE. *)
Definition user_update_conflict (user_id : UUID) (t : list User) : bool :=
  existsb (fun u => (u_user_id u == user_id)
                    && row_exists (fun s => (u_user_id s != user_id) && user_clash u s) t) t.
Definition identity_update_conflict (P : Identity -> bool) (t : list Identity) : bool :=
  existsb (fun r => P r && row_exists (fun s => (i_identity_id s != i_identity_id r)
                       && (i_provider s == i_provider r) && (i_provider_subject s == i_provider_subject r)) t) t.

(** The rows of the password history of an identity, newest first. *)
Definition history_of (identity_id : UUID) (db : Db) : list PasswordHistory :=
  order_by_desc ph_created_at (where_ (fun h => ph_identity_id h == identity_id) (password_history db)).

(** What the operations write. *)
Definition bump_version (u : User) : User := u <| u_version ::= Z.succ |>.
Definition in_state (state : string) (u : User) : User := bump_version (u <| u_state := state |>).
Definition unlocked (u : User) : User := if u_state u == "locked" then in_state "active" u else bump_version u.
Definition new_contact (contact_type value : string) (u : User) : User :=
  bump_version (if contact_type == contact_value EMAIL then u <| u_email := Some value |>
                else u <| u_phone_e164 := Some value |>).
Definition spent_link (now : Time) (e : EphemeralToken) : EphemeralToken := e <| e_consumed_at := Some now |>.
Definition new_password (new_hash : string) (now : Time) (i : Identity) : Identity :=
  i <| i_password_hash := Some new_hash |> <| i_last_used_at := Some now |>.
Definition set_password (identity_id : UUID) (new_hash : string) (now : Time) (db : Db) : Db :=
  db <| identities ::= update_ (fun i => i_identity_id i == identity_id) (new_password new_hash now) |>.
Definition forget_old (identity_id : UUID) (db : Db) : Db :=
  let old_history_ids := List.map ph_history_id (List.skipn (PASSWORD_HISTORY_LIMIT - 1) (history_of identity_id db)) in
  db <| password_history ::= delete_ (fun h => ph_history_id h is_in old_history_ids) |>.
Definition cancelled (g : GovernedRequest) : GovernedRequest := g <| g_state := "cancelled" |>.
Definition approved_by (actor : UUID) (now : Time) (g : GovernedRequest) : GovernedRequest :=
  g <| g_approver_user_id := Some actor |> <| g_approved_at := Some now |> <| g_state := "approved" |>.
Definition executed_on (now : Time) (g : GovernedRequest) : GovernedRequest :=
  g <| g_state := "executed" |> <| g_executed_at := Some now |>.
Definition revoked_device (now : Time) (m : MFADevice) : MFADevice :=
  m <| m_status := "revoked" |> <| m_revoked_at := Some now |>.
Definition revoke_devices (user_id : UUID) (now : Time) (db : Db) : Db :=
  db <| mfa_devices ::= update_ (fun m => (m_user_id m == user_id) && (m_status m != "revoked")) (revoked_device now) |>.
Definition applied (now : Time) (c : ContactChangeRequest) : ContactChangeRequest :=
  c <| c_state := "applied" |> <| c_applied_at := Some now |>.
(** The request after a proof was presented. *)
Definition proved (proof : ContactProof) (now : Time) (c : ContactChangeRequest) : ContactChangeRequest :=
  match proof with
  | OLD => c <| c_old_verified_at := Some (or_else (c_old_verified_at c) now) |>
  | NEW => c <| c_new_verified_at := Some (or_else (c_new_verified_at c) now) |>
  end.
Definition supersede_links (user_id : UUID) (now : Time) (db : Db) : Db :=
  db <| ephemeral_tokens ::=
    update_ (fun e => bool_decide (e_user_id e = Some user_id) && (e_purpose e is_in ["password_reset"; "support_recovery"])
                      && is_none (e_consumed_at e)) (spent_link now) |>.
Definition cancel_changes (user_id : UUID) (contact_type : ContactType) (db : Db) : Db :=
  db <| contact_change_requests ::=
    update_ (fun c => (c_user_id c == user_id) && (c_contact_type c == contact_value contact_type)
                      && (c_state c == "pending"))
            (fun c => c <| c_state := "cancelled" |>) |>.
Definition set_subjects (P : Identity -> bool) (subject : string) (db : Db) : Db :=
  db <| identities ::= update_ P (fun i => i <| i_provider_subject := subject |>) |>.

Section Repository.
Context {R : Type} {E : Env}.
Abbreviation M := (prog R).

Definition update_user (user_id : UUID) (f : User -> User) : M unit :=
  modify_db (set_user user_id f);;
  db ← get_db;
  raise_if (user_update_conflict user_id (users db)) IntegrityError.
Definition update_subjects (P : Identity -> bool) (subject : string) : M unit :=
  modify_db (set_subjects P subject);;
  db ← get_db;
  raise_if (identity_update_conflict P (identities db)) IntegrityError.

(** [_audit]: every event has a subject, not every one an actor. *)
Definition recovery_audit (event_type outcome : string) (correlation_id subject_user_id : UUID)
    (actor_user_id : option UUID) (metadata : dict) : M unit :=
  insert_audit actor_user_id (Some subject_user_id) None event_type outcome correlation_id metadata.

Definition eligible_user_by_email (email : string) : M (option RecoveryUser) :=
  db ← get_db;
  mret (user ← scalar (fun u => opt_citext_eq (u_email u) email && is_none (u_anonymized_at u)) (users db);
        if negb (u_state user is_in ["active"; "locked"]) then None else
        _ ← scalar (fun i => (i_user_id i == u_user_id user) && (i_provider i == "password")
                             && i_verified i) (identities db);
        Some (_user user)).

Definition reset_purposes : list string := ["password_reset"; "support_recovery"].

Definition ticket_metadata (ticket_reference : option string) : dict :=
  match ticket_reference with
  | Some t => if nonempty t then [("ticket_reference", JStr t)] else []
  | None => []
  end.

Definition issue_password_reset (user_id : UUID) (token_hash purpose : string) (expires_at : Time)
    (correlation_id : UUID) (actor_user_id : option UUID) (ticket_reference : option string) : M unit :=
  now ← now_utc;
  tx (
    modify_db (supersede_links user_id now);;
    ephemeral_token_id ← new_uuid4;
    add_row ephemeral_tokens ephemeral_token_valid ephemeral_token_conflict
      (MkEphemeralToken ephemeral_token_id (Some user_id) token_hash purpose
         (ticket_metadata ticket_reference) now expires_at None);;
    recovery_audit (if purpose == "password_reset" then "PASSWORD_RESET_REQUESTED" else "SUPPORT_RECOVERY_ISSUED")
      "success" correlation_id user_id actor_user_id (ticket_metadata ticket_reference)).

Definition consume_password_reset (token_hash password new_hash : string) (now : Time) (correlation_id : UUID)
    : M (PasswordResetOutcome * option RecoveryUser) :=
  tx (
    db ← get_db;
    match scalar (fun e => (e_token_hash e == token_hash) && (e_purpose e is_in reset_purposes))
            (ephemeral_tokens db) with
    | None => mret (INVALID, None)
    | Some token =>
      match e_user_id token with
      | None => mret (INVALID, None)
      | Some user_id =>
        if is_some (e_consumed_at token) || (e_expires_at token <=? now) then mret (INVALID, None) else
        match user_by_id user_id db,
              scalar (fun i => (i_user_id i == user_id) && (i_provider i == "password")) (identities db) with
        | Some user, Some ident =>
          if u_state user is_in ["suspended"; "disabled"; "anonymized"] then mret (INVALID, None) else
          let history := List.firstn PASSWORD_HISTORY_LIMIT (history_of (i_identity_id ident) db) in
          if existsb (fun item => password_verify (ph_password_hash item) password) history
          then mret (REUSED, Some (_user user))
          else
            modify_db (set_ephemeral (e_ephemeral_token_id token) (spent_link now));;
            modify_db (set_password (i_identity_id ident) new_hash now);;
            history_id ← new_uuid4;
            add_row password_history no_check password_history_conflict
              (MkPasswordHistory history_id (i_identity_id ident) new_hash now);;
            modify_db (forget_old (i_identity_id ident));;
            modify_db (set_user user_id unlocked);;
            recovery_audit "PASSWORD_RESET_COMPLETED" "success" correlation_id user_id (Some user_id)
              [("source", JStr (e_purpose token))];;
            mret (UPDATED, Some (_user (unlocked user)))
        | _, _ => mret (INVALID, None)
        end
      end
    end).

Definition create_contact_change (user_id : UUID) (contact_type : ContactType)
    (new_value old_code_hash new_code_hash : string) (expires_at : Time) (correlation_id : UUID)
    : M (option ContactChangeRecord) :=
  now ← now_utc;
  tx (
    db ← get_db;
    match user_by_id user_id db with
    | None => mret None
    | Some user =>
      if u_state user != "active" then mret None else
      match (match contact_type with EMAIL => u_email user | PHONE => u_phone_e164 user end) with
      | None => mret None
      | Some old_value =>
        if negb (nonempty old_value) || (old_value == new_value) then mret None else
        raise_if (row_exists (fun u =>
            (match contact_type with
             | EMAIL => opt_citext_eq (u_email u) new_value
             | PHONE => bool_decide (u_phone_e164 u = Some new_value)
             end) && (u_user_id u != user_id) && is_none (u_anonymized_at u)) (users db)) contact_conflict;;
        modify_db (cancel_changes user_id contact_type);;
        request_id ← new_uuid4;
        let request := MkContactChangeRequest request_id user_id (contact_value contact_type) old_value
          new_value old_code_hash new_code_hash "pending" now expires_at None None None in
        add_row contact_change_requests contact_change_valid contact_change_conflict request;;
        recovery_audit "CONTACT_CHANGE_STARTED" "success" correlation_id user_id (Some user_id)
          [("contact_type", JStr (contact_value contact_type))];;
        record ← get_or ValueError (_contact request);
        mret (Some record)
      end
    end).

Definition verify_contact_change_block (user_id request_id : UUID) (proof : ContactProof) (code_hash : string)
    (now : Time) (correlation_id : UUID) : M (option ContactChangeRecord) :=
  tx (
    db ← get_db;
    match scalar (fun c => (c_request_id c == request_id) && (c_user_id c == user_id))
            (contact_change_requests db) with
    | None => mret None
    | Some request =>
      if (c_state request != "pending") || (c_expires_at request <=? now) then mret None else
      let expected := match proof with OLD => c_old_code_hash request | NEW => c_new_code_hash request end in
      if expected != code_hash then mret None else
      modify_db (set_contact request_id (proved proof now));;
      let request := proved proof now request in
      if is_some (c_old_verified_at request) && is_some (c_new_verified_at request) then
        match user_by_id user_id db with
        | None => mret None
        | Some user =>
          if u_state user != "active" then mret None else
          update_user user_id (new_contact (c_contact_type request) (c_new_value request));;
          let provider := if c_contact_type request == contact_value EMAIL then "password" else "phone" in
          update_subjects (fun i => (i_user_id i == user_id) && (i_provider i == provider)) (c_new_value request);;
          modify_db (set_contact request_id (applied now));;
          recovery_audit "CONTACT_CHANGE_COMPLETED" "success" correlation_id user_id (Some user_id)
            [("contact_type", JStr (c_contact_type request))];;
          record ← get_or ValueError (_contact (applied now request));
          mret (Some record)
        end
      else
        record ← get_or ValueError (_contact request);
        mret (Some record)
    end).
Definition on_integrity_error {A} (e : exc) (m : M A) : M A :=
  try_except m (fun err => match err with IntegrityError => Some (raise e) | _ => None end).
Definition verify_contact_change (user_id request_id : UUID) (proof : ContactProof) (code_hash : string)
    (now : Time) (correlation_id : UUID) : M (option ContactChangeRecord) :=
  on_integrity_error contact_conflict
    (verify_contact_change_block user_id request_id proof code_hash now correlation_id).

Definition staff_has_role (user_id : UUID) (role : StaffRole) : M bool :=
  db ← get_db;
  mret (row_exists (fun b => (sb_user_id b == user_id) && (sb_role b == staff_value role)
                             && is_none (sb_revoked_at b)) (staff_role_bindings db)).

Definition unlock_user (actor_user_id target_user_id : UUID) (ticket_reference : string) (correlation_id : UUID)
    : M (option RecoveryUser) :=
  tx (
    db ← get_db;
    match user_by_id target_user_id db with
    | None => mret None
    | Some user =>
      if negb (u_state user is_in ["active"; "locked"]) then mret None else
      modify_db (set_user target_user_id (in_state "active"));;
      recovery_audit "ACCOUNT_UNLOCKED" "success" correlation_id target_user_id (Some actor_user_id)
        [("ticket_reference", JStr ticket_reference)];;
      mret (Some (_user (in_state "active" user)))
    end).

Definition suspend_user (actor_user_id target_user_id : UUID) (ticket_reference reason : string)
    (correlation_id : UUID) : M (option RecoveryUser) :=
  tx (
    db ← get_db;
    match user_by_id target_user_id db with
    | None => mret None
    | Some user =>
      if u_state user is_in ["disabled"; "anonymized"] then mret None else
      modify_db (set_user target_user_id (in_state "suspended"));;
      recovery_audit "ACCOUNT_SUSPENDED" "success" correlation_id target_user_id (Some actor_user_id)
        [("ticket_reference", JStr ticket_reference); ("reason", JStr reason)];;
      mret (Some (_user (in_state "suspended" user)))
    end).

Definition initiate_mfa_reset (actor_user_id target_user_id : UUID) (ticket_reference : string)
    (execute_after : Time) (correlation_id : UUID) : M (option (GovernedResetRecord * RecoveryUser)) :=
  now ← now_utc;
  tx (
    db ← get_db;
    match user_by_id target_user_id db with
    | None => mret None
    | Some user =>
      if negb (u_state user is_in ["active"; "locked"]) then mret None else
      request_id ← new_uuid4;
      let request := MkGovernedRequest request_id None "mfa_reset" target_user_id actor_user_id None "pending"
        now execute_after None None (u_version user) (Some ticket_reference) in
      add_row governed_requests governed_request_valid governed_conflict request;;
      recovery_audit "ADMIN_MFA_RESET_INITIATED" "success" correlation_id target_user_id (Some actor_user_id)
        [("request_id", JStr (uuid_str request_id))];;
      mret (Some (_governed request, _user user))
    end).

Definition mfa_reset_request (request_id : UUID) (db : Db) : option GovernedRequest :=
  scalar (fun g => (g_governed_request_id g == request_id) && (g_request_type g == "mfa_reset"))
    (governed_requests db).

Definition approve_mfa_reset (actor_user_id request_id : UUID) (now : Time) (correlation_id : UUID)
    : M (option GovernedResetRecord) :=
  tx (
    db ← get_db;
    match mfa_reset_request request_id db with
    | None => mret None
    | Some request =>
      if g_state request != "pending" then mret None else
      raise_if (g_initiator_user_id request == actor_user_id) four_eyes_required;;
      match user_by_id (g_target_user_id request) db with
      | Some user =>
        if u_version user != g_target_user_version request then
          modify_db (set_governed request_id cancelled);;
          raise target_changed
        else
          modify_db (set_governed request_id (approved_by actor_user_id now));;
          recovery_audit "ADMIN_MFA_RESET_APPROVED" "success" correlation_id (g_target_user_id request)
            (Some actor_user_id) [("request_id", JStr (uuid_str request_id))];;
          mret (Some (_governed (approved_by actor_user_id now request)))
      | None =>
        modify_db (set_governed request_id cancelled);;
        raise target_changed
      end
    end).

Definition get_mfa_reset (request_id : UUID) : M (option GovernedResetRecord) :=
  db ← get_db; mret (_governed <$> mfa_reset_request request_id db).

Definition execute_mfa_reset (actor_user_id request_id : UUID) (now : Time) (correlation_id : UUID)
    : M (option (GovernedResetRecord * RecoveryUser)) :=
  tx (
    db ← get_db;
    match mfa_reset_request request_id db with
    | None => mret None
    | Some request =>
      if (g_state request != "approved") || is_none (g_approver_user_id request) then mret None else
      raise_if (now <? g_execute_after request) governed_too_early;;
      match user_by_id (g_target_user_id request) db with
      | Some user =>
        if u_version user != g_target_user_version request then
          modify_db (set_governed request_id cancelled);;
          raise target_changed_after_approval
        else
          modify_db (revoke_devices (u_user_id user) now);;
          modify_db (set_user (u_user_id user) bump_version);;
          modify_db (set_governed request_id (executed_on now));;
          recovery_audit "ADMIN_MFA_RESET_EXECUTED" "success" correlation_id (u_user_id user)
            (Some actor_user_id) [("request_id", JStr (uuid_str request_id))];;
          mret (Some (_governed (executed_on now request), _user (bump_version user)))
      | None =>
        modify_db (set_governed request_id cancelled);;
        raise target_changed_after_approval
      end
    end).
End Repository.
