(* ===== verification/Recovery.v ===== *)
(** [control/recovery.py]: password recovery, contact changes, and the governed actions of support
    staff, above the recovery repository, mail, and whatever ends the sessions of a user. *)
From S2P Require Import Prelude PyText Entity Models RedisClient World Providers RedisSecurity SessionInv.
From S2P Require RecoveryRepo.

(** ** The port GlobalSessionRevoker

    Recovery calls one operation of the session component.  [SessionRevokerLaws] is what it
    relies on: the call always returns, touches no table but those of the sessions, and leaves
    no live session of the user. *)

Class SessionRevoker (R : Type) := { revoke_access : UUID -> string -> prog R Z }.

(** The tables of accounts agree. *)
Record same_accounts (a b : Db) : Prop := {
  sa_users : users a = users b; sa_identities : identities a = identities b;
  sa_history : password_history a = password_history b; sa_devices : mfa_devices a = mfa_devices b;
  sa_tokens : ephemeral_tokens a = ephemeral_tokens b;
  sa_staff : staff_role_bindings a = staff_role_bindings b;
  sa_governed : governed_requests a = governed_requests b;
  sa_contacts : contact_change_requests a = contact_change_requests b;
  sa_audit : audit_logs a = audit_logs b }.
(** The session tables are well formed and hold no live session of the user. *)
Definition signed_out (user_id : UUID) (db : Db) : Prop :=
  session_inv db /\ forall s, s ∈ sessions db -> s_user_id s = user_id -> s_revoked_at s <> None.

Class SessionRevokerLaws (R : Type) `{SessionRevoker R} : Prop := {
  revoker_total user_id reason (w : World R) : exists n w', revoke_access user_id reason w = (inr n, w');
  revoker_frame user_id reason (w : World R) n w' : revoke_access user_id reason w = (inr n, w') ->
    same_accounts (w_db w) (w_db w') /\ w_now w' = w_now w /\ w_mail w' = w_mail w;
  revoker_ends user_id reason (w : World R) n w' : session_inv (w_db w) ->
    revoke_access user_id reason w = (inr n, w') -> signed_out user_id (w_db w') }.

(** ** Constants and errors *)

Definition RESET_TTL : Z := minutes 15.
Definition CONTACT_CHANGE_TTL : Z := minutes 10.
Definition GOVERNED_DELAY : Z := hours 12.
Definition PASSWORD_RESET_LIMIT : Z := 3.
Definition PASSWORD_RESET_WINDOW_SECONDS : Z := 3600.
Definition STRONG_METHODS : list string := ["totp"; "passkey"; "email"; "sms"; "backup_code"; "backup_codes"].

Definition rate_limited : exc :=
  RecoveryError Rec_RATE_LIMITED "Too many requests. Please wait and try again." 429.
Definition password_breached : exc :=
  RecoveryError Rec_PASSWORD_BREACHED "Choose a password that has not appeared in a known public breach." 400.
Definition provider_unavailable : exc :=
  RecoveryError Rec_PROVIDER_UNAVAILABLE
    "A required security service is temporarily unavailable. Please try again." 503.
Definition password_reused : exc :=
  RecoveryError Rec_PASSWORD_REUSED "Choose a password you have not used recently." 400.
Definition token_invalid : exc :=
  RecoveryError Rec_TOKEN_INVALID "This recovery link is invalid, expired, or has already been used." 400.
Definition recent_mfa_required : exc :=
  RecoveryError Rec_RECENT_MFA_REQUIRED "Complete a recent extra security check before continuing." 403.
Definition _contact_invalid : exc :=
  RecoveryError Rec_CONTACT_INVALID
    "The contact-change request or verification code is invalid or expired." 400.
Definition _forbidden : exc :=
  RecoveryError Rec_STAFF_FORBIDDEN "This staff action is not authorized." 403.
Definition _target_missing : exc :=
  RecoveryError Rec_TARGET_NOT_FOUND "The target account is unavailable for this action." 404.
Definition _governed_invalid : exc :=
  RecoveryError Rec_GOVERNED_INVALID "This governed request is unavailable in its current state." 409.

(** [enforce_password_policy], its error turned into one of recovery. *)
Definition recovery_policy (password : string) : option exc :=
  match enforce_password_policy password with
  | Some (RegistrationError _ message status_code) => Some (RecoveryError Rec_PASSWORD_POLICY message status_code)
  | o => o
  end.

(** ** RecoveryControl *)

Section Control.
Context {R : Type} {RC : RedisClient R} {E : Env} {SV : SessionRevoker R}.
Abbreviation M := (prog R).

Definition _token_hash (token : string) : string := hmac_sha256 recovery_token_hmac_secret token.
Definition _otp_hash (code : string) : string := hmac_sha256 otp_hmac_secret code.
Definition is_slash (c : ascii) : bool := c == "/"%char.
(** The link that carries a token; the base was stripped of trailing slashes. *)
Definition reset_url (token : string) : string :=
  rstrip is_slash password_reset_base_url +:+ "?token=" +:+ token.

Definition request_password_reset (email : string) (correlation_id : UUID) : M unit :=
  let normalized := normalize_email email in
  count ← increment_rate_limit "password_reset" normalized PASSWORD_RESET_WINDOW_SECONDS;
  raise_if (PASSWORD_RESET_LIMIT <? count) rate_limited;;
  user ← RecoveryRepo.eligible_user_by_email normalized;
  match (user ← user; address ← ru_email user; Some (user, address)) with
  | None => mret ()
  | Some (user, address) =>
    token ← new_token_urlsafe 32;
    now ← now_utc;
    RecoveryRepo.issue_password_reset (ru_user_id user) (_token_hash token) "password_reset"
      (now + RESET_TTL) correlation_id None None;;
    try_except (send_password_reset address (reset_url token)) (fun _ => Some (mret ()))
  end.

Definition reset_password (token password : string) (correlation_id : UUID) : M unit :=
  match recovery_policy password with Some e => raise e | None => mret () end;;
  count ← get_or provider_unavailable (breach_count password);
  raise_if (0 <? count) password_breached;;
  new_hash ← password_hash password;
  now ← now_utc;
  '(outcome, user) ← RecoveryRepo.consume_password_reset (_token_hash token) password new_hash now correlation_id;
  raise_if (outcome == REUSED) password_reused;;
  raise_if (outcome != UPDATED) token_invalid;;
  user ← get_or token_invalid user;
  _ ← revoke_access (ru_user_id user) "password_reset";
  match ru_email user with
  | Some address => if nonempty address then send_password_changed address else mret ()
  | None => mret ()
  end.

Definition require_recent_mfa (claims : AccessClaims) : M unit :=
  raise_if (negb (existsb (fun m => m is_in STRONG_METHODS) (ac_assurance claims))) recent_mfa_required.

Definition _normalize_contact (contact_type : ContactType) (value : string) : M string :=
  match contact_type with
  | EMAIL => mret (normalize_email value)
  | PHONE =>
    let normalized := str_filter (fun c => negb (is_phone_noise c)) value in
    raise_if (negb (matches_e164 normalized)) _contact_invalid;; mret normalized
  end.

(** [f"{secrets.randbelow(1_000_000):06d}"]. *)
Definition new_code : M string := d ← draw; mret (dec_digits 6 (randbelow 1000000 d) "").

Definition start_contact_change (claims : AccessClaims) (contact_type : ContactType) (new_value : string)
    (correlation_id : UUID) : M ContactChangeRecord :=
  require_recent_mfa claims;;
  normalized ← _normalize_contact contact_type new_value;
  old_code ← new_code;
  fresh_code ← new_code;
  now ← now_utc;
  record ← RecoveryRepo.create_contact_change (ac_user_id claims) contact_type normalized (_otp_hash old_code)
    (_otp_hash fresh_code) (now + CONTACT_CHANGE_TTL) correlation_id;
  record ← get_or _contact_invalid record;
  send_contact_code (cc_old_value record) old_code OLD;;
  send_contact_code (cc_new_value record) fresh_code NEW;;
  mret record.

Definition verify_contact_change (claims : AccessClaims) (request_id : UUID) (proof : ContactProof)
    (code : string) (correlation_id : UUID) : M ContactChangeRecord :=
  require_recent_mfa claims;;
  raise_if (negb (matches_six_digits code)) _contact_invalid;;
  now ← now_utc;
  record ← RecoveryRepo.verify_contact_change (ac_user_id claims) request_id proof (_otp_hash code) now
    correlation_id;
  record ← get_or _contact_invalid record;
  (if is_some (cc_applied_at record) then
     _ ← revoke_access (ac_user_id claims) "contact_change";
     send_contact_changed (cc_old_value record);;
     send_contact_changed (cc_new_value record)
   else mret ());;
  mret record.

(** ** SupportAdminControl *)

Definition support_token_hash (token : string) : string := hmac_sha256 recovery_token_hmac_secret token.

Definition _authorize (claims : AccessClaims) (role : StaffRole) : M unit :=
  require_recent_mfa claims;;
  b ← RecoveryRepo.staff_has_role (ac_user_id claims) role;
  raise_if (negb b) _forbidden.

Definition unlock (claims : AccessClaims) (target_user_id : UUID) (ticket_reference : string)
    (correlation_id : UUID) : M unit :=
  _authorize claims SUPPORT_AGENT_L2;;
  user ← RecoveryRepo.unlock_user (ac_user_id claims) target_user_id ticket_reference correlation_id;
  raise_if (is_none user) _target_missing.

Definition suspend (claims : AccessClaims) (target_user_id : UUID) (ticket_reference reason : string)
    (correlation_id : UUID) : M unit :=
  _authorize claims ACCOUNT_ADMIN;;
  user ← RecoveryRepo.suspend_user (ac_user_id claims) target_user_id ticket_reference reason correlation_id;
  raise_if (is_none user) _target_missing;;
  _ ← revoke_access target_user_id "account_suspended"; mret ().

Definition support_recovery (claims : AccessClaims) (target_user_id : UUID)
    (ticket_reference evidence_reference : string) (correlation_id : UUID) : M unit :=
  _authorize claims SUPPORT_AGENT_L2;;
  user ← RecoveryRepo.unlock_user (ac_user_id claims) target_user_id ticket_reference correlation_id;
  address ← get_or _target_missing (user ← user; ru_email user);
  token ← new_token_urlsafe 32;
  now ← now_utc;
  RecoveryRepo.issue_password_reset target_user_id (support_token_hash token) "support_recovery" (now + RESET_TTL)
    correlation_id (Some (ac_user_id claims)) (Some (ticket_reference +:+ ":" +:+ evidence_reference));;
  send_support_recovery address (reset_url token).

(** [user.email or user.phone_e164], if it is a text that is not empty. *)
Definition destination_of (user : RecoveryUser) : option string :=
  let destination := str_or (ru_email user) (ru_phone_e164 user) in
  if truthy destination then destination else None.

Definition initiate_mfa_reset (claims : AccessClaims) (target_user_id : UUID) (ticket_reference : string)
    (correlation_id : UUID) : M GovernedResetRecord :=
  _authorize claims SUPPORT_AGENT_L2;;
  now ← now_utc;
  result ← RecoveryRepo.initiate_mfa_reset (ac_user_id claims) target_user_id ticket_reference
    (now + GOVERNED_DELAY) correlation_id;
  '(record, user) ← get_or _target_missing result;
  match destination_of user with
  | Some destination => send_mfa_reset_requested destination (gr_execute_after record)
  | None => mret ()
  end;;
  mret record.

Definition approve_mfa_reset (claims : AccessClaims) (request_id correlation_id : UUID)
    : M GovernedResetRecord :=
  _authorize claims SECURITY_SUPERVISOR_L3;;
  now ← now_utc;
  record ← RecoveryRepo.approve_mfa_reset (ac_user_id claims) request_id now correlation_id;
  get_or _governed_invalid record.

Definition execute_mfa_reset (claims : AccessClaims) (request_id correlation_id : UUID)
    : M GovernedResetRecord :=
  _authorize claims SECURITY_SUPERVISOR_L3;;
  now ← now_utc;
  result ← RecoveryRepo.execute_mfa_reset (ac_user_id claims) request_id now correlation_id;
  '(record, user) ← get_or _governed_invalid result;
  _ ← revoke_access (ru_user_id user) "governed_mfa_reset";
  match destination_of user with
  | Some destination => send_mfa_reset_completed destination
  | None => mret ()
  end;;
  mret record.

Definition get_mfa_reset (claims : AccessClaims) (request_id : UUID) : M GovernedResetRecord :=
  require_recent_mfa claims;;
  l2 ← RecoveryRepo.staff_has_role (ac_user_id claims) SUPPORT_AGENT_L2;
  allowed ← (if l2 : bool then mret true
             else RecoveryRepo.staff_has_role (ac_user_id claims) SECURITY_SUPERVISOR_L3);
  raise_if (negb allowed) _forbidden;;
  record ← RecoveryRepo.get_mfa_reset request_id;
  get_or _governed_invalid record.
End Control.
