(* ===== verification/RecoveryInv.v ===== *)
(** How the recovery repository acts on the database: one lemma per operation that returned,
    the frames of the operations, and the invariant of the governed requests. *)
From S2P Require Import Prelude PyText Entity Models RedisClient World Providers RedisSecurity SessionInv.
From S2P Require Import RecoveryRepo.
From S2P Require Recovery.

Section Runs.
Context {R : Type} {RC : RedisClient R} {E : Env}.
Implicit Types (w : World R).

(** Only the database and the random source move. *)
Definition db_step (w w' : World R) : Prop :=
  w_now w' = w_now w /\ w_redis w' = w_redis w /\ w_mail w' = w_mail w.

Definition with_audit (row : AuditLog) (db : Db) : Db := db <| audit_logs ::= (fun l => l ++ [row]) |>.

Lemma run_recovery_audit et c s a m w :
  exists row, recovery_audit et "success" c s a m w = (inr (), next_seed (with_db (with_audit row (w_db w)) w)).
Proof. eexists. unfold recovery_audit, insert_audit. run. unfold add_row. run. by destruct w. Qed.

Lemma recovery_audit_inr et c s a m w u w' : recovery_audit et "success" c s a m w = (inr u, w') ->
  exists row, w_db w' = with_audit row (w_db w) /\ db_step w w'.
Proof.
  destruct (run_recovery_audit et c s a m w) as (row & ->). intros [= _ <-]. by exists row.
Qed.

Lemma user_by_id_Some uid db u : user_by_id uid db = Some u -> u ∈ users db /\ u_user_id u = uid.
Proof. intros [Hin H]%scalar_Some. by to_prop. Qed.

Lemma mfa_reset_request_Some rid db g : mfa_reset_request rid db = Some g ->
  g ∈ governed_requests db /\ g_governed_request_id g = rid /\ g_request_type g = "mfa_reset".
Proof. intros [Hin H]%scalar_Some. by to_prop. Qed.

(** *** Governed requests *)

Lemma initiate_inr actor target ticket after c w x w' :
  initiate_mfa_reset actor target ticket after c w = (inr (Some x), w') ->
  exists u g row, user_by_id target (w_db w) = Some u /\ u_state u ∈ ["active"; "locked"] /\
    g = MkGovernedRequest (uuid4 (w_seed w)) None "mfa_reset" target actor None "pending" (w_now w) after None None
          (u_version u) (Some ticket) /\
    governed_conflict (governed_requests (w_db w)) g = false /\ x = (_governed g, _user u) /\
    w_db w' = with_audit row ((w_db w) <| governed_requests ::= (fun l => l ++ [g]) |>) /\ db_step w w'.
Proof.
  intros H. unfold initiate_mfa_reset in H. run_in H. apply tx_inr in H. run_in H.
  destruct (user_by_id target (w_db w)) as [u|] eqn:Eu; [|by injection H].
  destruct (u_state u is_in _) eqn:Es; cbn [negb] in H; [|by injection H]. to_prop.
  run_in H. step_in H x1 w1 H1. apply add_row_inr in H1 as (_ & Hc & ->). run_in H.
  step_in H x2 w2 H2. apply recovery_audit_inr in H2 as (row & Hdb & Hs). injection H as <- <-.
  exists u. do 2 eexists. split_and!; [done..|exact Hc|done|exact Hdb|exact Hs].
Qed.

Lemma approve_inr actor rid now c w x w' :
  approve_mfa_reset actor rid now c w = (inr (Some x), w') ->
  exists g u row, mfa_reset_request rid (w_db w) = Some g /\ g_state g = "pending" /\
    g_initiator_user_id g <> actor /\ user_by_id (g_target_user_id g) (w_db w) = Some u /\
    u_version u = g_target_user_version g /\ x = _governed (approved_by actor now g) /\
    w_db w' = with_audit row (set_governed rid (approved_by actor now) (w_db w)) /\ db_step w w'.
Proof.
  intros H. unfold approve_mfa_reset in H. apply tx_inr in H. run_in H.
  destruct (mfa_reset_request rid (w_db w)) as [g|] eqn:Eg; [|by injection H].
  destruct (g_state g != "pending") eqn:Es; [by injection H|]. to_prop.
  destruct (g_initiator_user_id g == actor) eqn:Ei; run_in H; [done|]. to_prop.
  destruct (user_by_id (g_target_user_id g) (w_db w)) as [u|] eqn:Eu; [|by run_in H].
  destruct (u_version u != g_target_user_version g) eqn:Ev; [by run_in H|]. to_prop.
  run_in H. step_in H x2 w2 H2. apply recovery_audit_inr in H2 as (row & Hdb & Hs). injection H as <- <-.
  exists g, u, row. split_and!; done.
Qed.

Lemma execute_inr actor rid now c w x w' :
  execute_mfa_reset actor rid now c w = (inr (Some x), w') ->
  exists g u row, mfa_reset_request rid (w_db w) = Some g /\ g_state g = "approved" /\
    g_approver_user_id g <> None /\ g_execute_after g <= now /\
    user_by_id (g_target_user_id g) (w_db w) = Some u /\ u_version u = g_target_user_version g /\
    x = (_governed (executed_on now g), _user (bump_version u)) /\
    w_db w' = with_audit row (set_governed rid (executed_on now) (set_user (u_user_id u) bump_version
      (revoke_devices (u_user_id u) now (w_db w)))) /\ db_step w w'.
Proof.
  intros H. unfold execute_mfa_reset in H. apply tx_inr in H. run_in H.
  destruct (mfa_reset_request rid (w_db w)) as [g|] eqn:Eg; [|by injection H].
  destruct (_ || _) eqn:Es; [by injection H|]. to_prop.
  destruct (now <? g_execute_after g) eqn:Ei; run_in H; [done|]. to_prop.
  destruct (user_by_id (g_target_user_id g) (w_db w)) as [u|] eqn:Eu; [|by run_in H].
  destruct (u_version u != g_target_user_version g) eqn:Ev; [by run_in H|]. to_prop.
  run_in H. step_in H x2 w2 H2. apply recovery_audit_inr in H2 as (row & Hdb & Hs). injection H as <- <-.
  exists g, u, row. split_and!; try done. by destruct (g_approver_user_id g).
Qed.

(** An operation that did not succeed wrote nothing. *)
Definition succeeded {A} (x : exc + option A) : bool := match x with inr (Some _) => true | _ => false end.

Lemma initiate_unchanged actor target ticket after c w :
  succeeded (initiate_mfa_reset actor target ticket after c w).1 = false ->
  w_db (initiate_mfa_reset actor target ticket after c w).2 = w_db w.
Proof.
  destruct (initiate_mfa_reset actor target ticket after c w) as [[e|[x|]] w'] eqn:H; [| done |]; intros _; cbn [snd].
  - unfold initiate_mfa_reset in H. run_in H. by apply tx_inl in H.
  - unfold initiate_mfa_reset in H. run_in H. apply tx_inr in H. run_in H.
    destruct (user_by_id target (w_db w)) as [u|]; [|by injection H as <-].
    destruct (u_state u is_in _); cbn [negb] in H; [|by injection H as <-].
    run_in H. step_in H x1 w1 H1. step_in H x2 w2 H2. done.
Qed.
Lemma approve_unchanged actor rid now c w :
  succeeded (approve_mfa_reset actor rid now c w).1 = false -> w_db (approve_mfa_reset actor rid now c w).2 = w_db w.
Proof.
  destruct (approve_mfa_reset actor rid now c w) as [[e|[x|]] w'] eqn:H; [| done |]; intros _; cbn [snd].
  - unfold approve_mfa_reset in H. by apply tx_inl in H.
  - unfold approve_mfa_reset in H. apply tx_inr in H. run_in H.
    destruct (mfa_reset_request rid (w_db w)) as [g|]; [|by injection H as <-].
    destruct (g_state g != "pending"); [by injection H as <-|].
    destruct (g_initiator_user_id g == actor); run_in H; [done|].
    destruct (user_by_id _ _) as [u|]; [|by run_in H].
    destruct (u_version u != g_target_user_version g); [by run_in H|].
    run_in H. step_in H x2 w2 H2. done.
Qed.
Lemma execute_unchanged actor rid now c w :
  succeeded (execute_mfa_reset actor rid now c w).1 = false -> w_db (execute_mfa_reset actor rid now c w).2 = w_db w.
Proof.
  destruct (execute_mfa_reset actor rid now c w) as [[e|[x|]] w'] eqn:H; [| done |]; intros _; cbn [snd].
  - unfold execute_mfa_reset in H. by apply tx_inl in H.
  - unfold execute_mfa_reset in H. apply tx_inr in H. run_in H.
    destruct (mfa_reset_request rid (w_db w)) as [g|]; [|by injection H as <-].
    destruct (_ || _); [by injection H as <-|].
    destruct (now <? g_execute_after g); run_in H; [done|].
    destruct (user_by_id _ _) as [u|]; [|by run_in H].
    destruct (u_version u != g_target_user_version g); [by run_in H|].
    run_in H. step_in H x2 w2 H2. done.
Qed.
End Runs.

Lemma run_execute_not_approved {R} {E : Env} actor rid now c (w : World R) g :
  mfa_reset_request rid (w_db w) = Some g -> g_state g <> "approved" ->
  execute_mfa_reset actor rid now c w = (inr None, w).
Proof.
  intros Hg Hs. apply run_tx. run. rewrite Hg. by rewrite (eqb_neq _ _ Hs).
Qed.

(** ** The invariant of governed requests *)

Definition holds_role (staff : list StaffRoleBinding) (u : UUID) (role : StaffRole) : Prop :=
  exists b, b ∈ staff /\ sb_user_id b = u /\ sb_role b = staff_value role /\ sb_revoked_at b = None.

(** A request was initiated by a support agent, waits the protection delay, is approved by a
    security supervisor other than its initiator, and executed only after approval and delay. *)
Record governed_ok (staff : list StaffRoleBinding) (g : GovernedRequest) : Prop := {
  go_initiator : holds_role staff (g_initiator_user_id g) SUPPORT_AGENT_L2;
  go_delay : g_execute_after g = g_initiated_at g + Recovery.GOVERNED_DELAY;
  go_state : g_state g ∈ ["pending"; "approved"; "executed"];
  go_approver : g_state g <> "pending" -> exists a, g_approver_user_id g = Some a /\
    a <> g_initiator_user_id g /\ holds_role staff a SECURITY_SUPERVISOR_L3 /\ is_Some (g_approved_at g);
  go_executed : g_state g = "executed" -> exists t, g_executed_at g = Some t /\ g_execute_after g <= t }.

Record governed_inv (staff : list StaffRoleBinding) (db : Db) : Prop := {
  gi_staff b : b ∈ staff_role_bindings db -> b ∈ staff;
  gi_ids : NoDup (List.map g_governed_request_id (governed_requests db));
  gi_ok g : g ∈ governed_requests db -> g_request_type g = "mfa_reset" -> governed_ok staff g }.

Lemma governed_inv_ext staff a b : staff_role_bindings a = staff_role_bindings b ->
  governed_requests a = governed_requests b -> governed_inv staff a -> governed_inv staff b.
Proof. intros Hs Hg []. split; rewrite <- ?Hs, <- ?Hg; done. Qed.

(** Rewriting the request an operation found keeps the invariant if the new row is in order. *)
Lemma governed_inv_set staff rid f db g : governed_inv staff db -> mfa_reset_request rid db = Some g ->
  (forall r, g_governed_request_id (f r) = g_governed_request_id r) -> governed_ok staff (f g) ->
  governed_inv staff (set_governed rid f db).
Proof.
  intros [Hs Hn Hok] (Hg & Hid & Hty)%mfa_reset_request_Some Hf Hfg. split; [done|..].
  - cbn [set_governed set governed_requests]. by rewrite key_update.
  - intros r Hr Ht. apply elem_of_update in Hr as (r0 & Hr0 & ->).
    case_bool_decide as Hd; [|by apply Hok].
    assert (r0 = g) as -> by (apply (nodup_key _ _ _ _ Hn Hr0 Hg); congruence). done.
Qed.

Lemma governed_inv_append staff g db : governed_inv staff db -> governed_conflict (governed_requests db) g = false ->
  governed_ok staff g -> governed_inv staff (db <| governed_requests ::= (fun l => l ++ [g]) |>).
Proof.
  intros [Hs Hn Hok] Hc Hg. split; [done|..]; cbn [set governed_requests].
  - apply nodup_key_snoc; [done|]. intros s Hin Heq.
    apply (proj1 (row_exists_false _ _) Hc) in Hin. to_prop. done.
  - intros r [Hr| ->]%elem_of_snoc ?; [by apply Hok|done].
Qed.
