(* ===== verification/RecoveryProps.v ===== *)
(** What recovery guarantees, for any session component that keeps the promises of its port. *)
From S2P Require Import Prelude PyText Entity Models RedisClient World Providers RedisSecurity SessionInv.
From S2P Require Import RecoveryInv Recovery.
From S2P Require RecoveryRepo SessionRepo.

Import RecoveryRepo(approved_by, executed_on, revoked_device, bump_version, in_state, unlocked, new_contact).

(** The requests of the recovery and support endpoints. *)
Inductive RecoveryRequest :=
| Q_request_password_reset (email : string) (correlation_id : UUID)
| Q_reset_password (token password : string) (correlation_id : UUID)
| Q_start_contact_change (claims : AccessClaims) (contact_type : ContactType) (new_value : string) (correlation_id : UUID)
| Q_verify_contact_change (claims : AccessClaims) (request_id : UUID) (proof : ContactProof) (code : string)
    (correlation_id : UUID)
| Q_unlock (claims : AccessClaims) (target_user_id : UUID) (ticket : string) (correlation_id : UUID)
| Q_suspend (claims : AccessClaims) (target_user_id : UUID) (ticket reason : string) (correlation_id : UUID)
| Q_support_recovery (claims : AccessClaims) (target_user_id : UUID) (ticket evidence : string) (correlation_id : UUID)
| Q_initiate_mfa_reset (claims : AccessClaims) (target_user_id : UUID) (ticket : string) (correlation_id : UUID)
| Q_approve_mfa_reset (claims : AccessClaims) (request_id correlation_id : UUID)
| Q_execute_mfa_reset (claims : AccessClaims) (request_id correlation_id : UUID)
| Q_get_mfa_reset (claims : AccessClaims) (request_id : UUID).

Section Lemmas.
Context {R : Type} {RC : RedisClient R} {E : Env} {SV : SessionRevoker R} {SL : SessionRevokerLaws R}.
Implicit Types (w : World R).
Abbreviation M := (prog R).

Definition serve (q : RecoveryRequest) : M unit :=
  match q with
  | Q_request_password_reset e c => request_password_reset e c
  | Q_reset_password t p c => reset_password t p c
  | Q_start_contact_change k ct v c => _ ← start_contact_change k ct v c; mret ()
  | Q_verify_contact_change k r p code c => _ ← verify_contact_change k r p code c; mret ()
  | Q_unlock k u t c => unlock k u t c
  | Q_suspend k u t r c => suspend k u t r c
  | Q_support_recovery k u t e c => support_recovery k u t e c
  | Q_initiate_mfa_reset k u t c => _ ← initiate_mfa_reset k u t c; mret ()
  | Q_approve_mfa_reset k r c => _ ← approve_mfa_reset k r c; mret ()
  | Q_execute_mfa_reset k r c => _ ← execute_mfa_reset k r c; mret ()
  | Q_get_mfa_reset k r => _ ← get_mfa_reset k r; mret ()
  end.

Lemma keeps_revoke (P : Db -> Prop) u reason :
  (forall a b, same_accounts a b -> P a -> P b) -> keeps (on_db P) (revoke_access u reason).
Proof.
  intros HP w Hw. destruct (revoker_total u reason w) as (n & w' & H). rewrite H.
  apply revoker_frame in H as (Hsa & _). by eapply HP.
Qed.

(** A program whose continuation needs what its first step established. *)
Lemma keeps_after {A B} (I : World R -> Prop) (m : M A) (k : A -> M B) w :
  I (m w).2 -> (forall a w1, m w = (inr a, w1) -> I w1 -> I (k a w1).2) -> I ((m ≫= k) w).2.
Proof.
  intros Hm Hk. unfold mbind, prog_bind. destruct (m w) as [[e|a] w1] eqn:Em; cbn in *; [done|]. by apply Hk.
Qed.

(** *** Authorisation *)

Definition strong (claims : AccessClaims) : bool :=
  existsb (fun m => m is_in STRONG_METHODS) (ac_assurance claims).
Definition authorised (claims : AccessClaims) (role : StaffRole) (db : Db) : bool :=
  strong claims && row_exists (fun b => (sb_user_id b == ac_user_id claims) && (sb_role b == staff_value role)
                                        && is_none (sb_revoked_at b)) (staff_role_bindings db).

Lemma run_authorize claims role w : _authorize claims role w
  = (if authorised claims role (w_db w) then inr () else inl (if strong claims then _forbidden else recent_mfa_required), w).
Proof.
  unfold _authorize, require_recent_mfa, authorised. fold (strong claims). destruct (strong claims); [|done].
  cbn [negb andb]. run. unfold RecoveryRepo.staff_has_role. run. by destruct (row_exists _ _).
Qed.

Lemma authorised_role claims role db : authorised claims role db = true ->
  strong claims = true /\ holds_role (staff_role_bindings db) (ac_user_id claims) role.
Proof.
  unfold authorised. intros H. to_prop. split; [done|].
  apply row_exists_true in H0 as (b & Hb & Hp). to_prop. exists b. split_and!; try done.
Qed.

(** A program behind an authorisation. *)
Lemma run_authorized {A} claims role (k : M A) w :
  (_authorize claims role;; k) w
  = if authorised claims role (w_db w) then k w
    else (inl (if strong claims then _forbidden else recent_mfa_required), w).
Proof.
  unfold mbind at 1, prog_bind at 1. rewrite run_authorize. by destruct (authorised claims role (w_db w)).
Qed.

(** *** Governed requests through every handler *)

Section Governed.
Context (staff : list StaffRoleBinding).
Abbreviation Inv := (on_db (R := R) (governed_inv staff)).

Lemma keeps_revoke_governed u reason : keeps Inv (revoke_access u reason).
Proof.
  apply keeps_revoke. intros a b Hab. apply governed_inv_ext; by destruct Hab.
Qed.
Hint Resolve keeps_revoke_governed : auth.

Lemma keeps_authorized {A} claims role (k : M A) :
  (holds_role staff (ac_user_id claims) role -> keeps Inv k) -> keeps Inv (_authorize claims role;; k).
Proof.
  intros Hk w I. rewrite run_authorized. destruct (authorised _ _ _) eqn:Ea; [|done].
  apply authorised_role in Ea as [_ (b & Hb%(gi_staff _ _ I) & Hr)]. apply Hk; [by exists b|done].
Qed.

Ltac frame_step :=
  first
  [ apply keeps_modify_db; intros; eapply governed_inv_ext; [..|eassumption]; reflexivity
  | apply keeps_add_row; intros; eapply governed_inv_ext; [..|eassumption]; reflexivity
  | intros ? ? [= <-]
  | intros [] ? ?; simplify_eq ].
Ltac frame_all := repeat first [progress keeps_all | frame_step].

Lemma keeps_request_password_reset e c : keeps Inv (request_password_reset e c).
Proof. frame_all. Qed.
Lemma keeps_reset_password t p c : keeps Inv (reset_password t p c).
Proof. frame_all. Qed.
Lemma keeps_start_contact_change k ct v c : keeps Inv (start_contact_change k ct v c).
Proof. frame_all. Qed.
Lemma keeps_verify_contact_change k r p code c : keeps Inv (verify_contact_change k r p code c).
Proof. frame_all. Qed.
Lemma keeps_unlock k u t c : keeps Inv (unlock k u t c).
Proof. frame_all. Qed.
Lemma keeps_suspend k u t r c : keeps Inv (suspend k u t r c).
Proof. frame_all. Qed.
Lemma keeps_support_recovery k u t e c : keeps Inv (support_recovery k u t e c).
Proof. frame_all. Qed.
Lemma keeps_get_mfa_reset k r : keeps Inv (get_mfa_reset k r).
Proof. frame_all. Qed.
(** What a repository operation on governed requests leaves, given the actor's role. *)
Lemma keeps_initiate_repo actor target ticket c w : holds_role staff actor SUPPORT_AGENT_L2 ->
  Inv w -> Inv (RecoveryRepo.initiate_mfa_reset actor target ticket (w_now w + GOVERNED_DELAY) c w).2.
Proof.
  intros Hr I. destruct (succeeded (RecoveryRepo.initiate_mfa_reset actor target ticket (w_now w + GOVERNED_DELAY) c w).1) eqn:Es.
  2: { unfold on_db. by rewrite initiate_unchanged. }
  destruct (RecoveryRepo.initiate_mfa_reset _ _ _ _ _ w) as [[e|[x|]] w'] eqn:H; [done| |done].
  apply initiate_inr in H as (u & g & row & _ & _ & Eg & Hc & _ & Hdb & _). unfold on_db. cbn [snd]. rewrite Hdb.
  apply (governed_inv_ext staff ((w_db w) <| governed_requests ::= (fun l => l ++ [g]) |>)); [done..|].
  apply governed_inv_append; [done..|]. subst g. split; cbn; try done.
  - by apply (proj1 (bool_decide_eq_true _)).
Qed.
Lemma keeps_approve_repo actor rid now c w : holds_role staff actor SECURITY_SUPERVISOR_L3 ->
  Inv w -> Inv (RecoveryRepo.approve_mfa_reset actor rid now c w).2.
Proof.
  intros Hr I. destruct (succeeded (RecoveryRepo.approve_mfa_reset actor rid now c w).1) eqn:Es.
  2: { unfold on_db. by rewrite approve_unchanged. }
  destruct (RecoveryRepo.approve_mfa_reset _ _ _ _ w) as [[e|[x|]] w'] eqn:H; [done| |done].
  apply approve_inr in H as (g & u & row & Hg & Hs & Hi & _ & _ & _ & Hdb & _). unfold on_db. cbn [snd]. rewrite Hdb.
  pose proof (mfa_reset_request_Some _ _ _ Hg) as (Hin & Hid & Hty). destruct (gi_ok _ _ I g Hin Hty) as [Ha Hd Ht Hap He].
  apply (governed_inv_ext staff (RecoveryRepo.set_governed rid (approved_by actor now) (w_db w))); [done..|].
  apply (governed_inv_set _ _ _ _ g); [done..|]. split; cbn; try done.
  - by apply (proj1 (bool_decide_eq_true _)).
  - intros _. by exists actor.
Qed.
Lemma keeps_execute_repo actor rid now c w : Inv w -> Inv (RecoveryRepo.execute_mfa_reset actor rid now c w).2.
Proof.
  intros I. destruct (succeeded (RecoveryRepo.execute_mfa_reset actor rid now c w).1) eqn:Es.
  2: { unfold on_db. by rewrite execute_unchanged. }
  destruct (RecoveryRepo.execute_mfa_reset _ _ _ _ w) as [[e|[x|]] w'] eqn:H; [done| |done].
  apply execute_inr in H as (g & u & row & Hg & Hs & _ & Hl & _ & _ & _ & Hdb & _). unfold on_db. cbn [snd]. rewrite Hdb.
  pose proof (mfa_reset_request_Some _ _ _ Hg) as (Hin & Hid & Hty). destruct (gi_ok _ _ I g Hin Hty) as [Ha Hd Ht Hap He].
  apply (governed_inv_ext staff (RecoveryRepo.set_governed rid (executed_on now) (w_db w))); [done..|].
  apply (governed_inv_set _ _ _ _ g); [done..|]. split; cbn; try done.
  - by apply (proj1 (bool_decide_eq_true _)).
  - intros _. apply Hap. rewrite Hs. done.
  - intros _. by exists now.
Qed.

Lemma keeps_initiate k u t c : keeps Inv (initiate_mfa_reset k u t c).
Proof.
  apply keeps_authorized. intros Hr w I. rewrite bind_now. apply keeps_after; [by apply keeps_initiate_repo|].
  intros o w1 _ I1. refine ((_ : keeps Inv _) w1 I1). keeps_all.
Qed.
Lemma keeps_approve k r c : keeps Inv (approve_mfa_reset k r c).
Proof.
  apply keeps_authorized. intros Hr w I. rewrite bind_now. apply keeps_after; [by apply keeps_approve_repo|].
  intros o w1 _ I1. by apply keeps_get_or.
Qed.
Lemma keeps_execute k r c : keeps Inv (execute_mfa_reset k r c).
Proof.
  apply keeps_authorized. intros Hr w I. rewrite bind_now. apply keeps_after; [by apply keeps_execute_repo|].
  intros o w1 _ I1. refine ((_ : keeps Inv _) w1 I1). keeps_all.
Qed.

Lemma keeps_serve q : keeps Inv (serve q).
Proof.
  destruct q; cbn [serve]; try (apply keeps_bind; [|intros; apply keeps_ret]).
  - apply keeps_request_password_reset.
  - apply keeps_reset_password.
  - apply keeps_start_contact_change.
  - apply keeps_verify_contact_change.
  - apply keeps_unlock.
  - apply keeps_suspend.
  - apply keeps_support_recovery.
  - apply keeps_initiate.
  - apply keeps_approve.
  - apply keeps_execute.
  - apply keeps_get_mfa_reset.
Qed.
End Governed.
End Lemmas.

(** ** Runs of the handlers that returned *)

Section Returns.
Context {R : Type} {RC : RedisClient R} {E : Env} {SV : SessionRevoker R} {SL : SessionRevokerLaws R}.
Implicit Types (w : World R).

(** Sending mail leaves database, keyspace and clock as they are. *)
Definition same_state w0 w : Prop := w_db w = w_db w0 /\ w_redis w = w_redis w0 /\ w_now w = w_now w0.
Lemma keeps_send_state w0 m : keeps (same_state w0) (_send m).
Proof. by apply keeps_send. Qed.
Hint Resolve keeps_send_state : auth.

Lemma optional_mail {A} (d : option A) (send : A -> prog R unit) w x w' :
  (forall a w0, keeps (same_state w0) (send a)) ->
  (match d with Some a => send a | None => mret () end) w = (x, w') -> same_state w w'.
Proof.
  intros Hk H. assert (Hs : same_state w w) by done.
  destruct d as [a|]; [|by injection H as _ <-]. specialize (Hk a w w Hs). by rewrite H in Hk.
Qed.
Lemma notify_completed_state d w0 : keeps (same_state w0) (send_mfa_reset_completed d).
Proof. keeps_all. Qed.
Lemma password_changed_state d w0 : keeps (same_state w0) (if nonempty d then send_password_changed d else mret ()).
Proof. keeps_all. Qed.

Lemma session_inv_ext a b : families a = families b -> sessions a = sessions b ->
  refresh_tokens a = refresh_tokens b -> session_inv a -> session_inv b.
Proof. intros Hf Hs Ht []. split; rewrite <- ?Hf, <- ?Hs, <- ?Ht; done. Qed.

(** What executing a governed reset did. *)
Lemma execute_control_inr claims rid c w record w' : session_inv (w_db w) ->
  execute_mfa_reset claims rid c w = (inr record, w') ->
  exists g u db1, authorised claims SECURITY_SUPERVISOR_L3 (w_db w) = true /\
    RecoveryRepo.mfa_reset_request rid (w_db w) = Some g /\ g_state g = "approved" /\
    g_approver_user_id g <> None /\ g_execute_after g <= w_now w /\
    RecoveryRepo.user_by_id (g_target_user_id g) (w_db w) = Some u /\ u_version u = g_target_user_version g /\
    record = RecoveryRepo._governed (executed_on (w_now w) g) /\
    mfa_devices db1 = update_ (fun m => (m_user_id m == u_user_id u) && (m_status m != "revoked"))
                        (revoked_device (w_now w)) (mfa_devices (w_db w)) /\
    governed_requests db1 = update_ (fun r => g_governed_request_id r == rid) (executed_on (w_now w))
                              (governed_requests (w_db w)) /\
    same_accounts db1 (w_db w') /\ signed_out (u_user_id u) (w_db w').
Proof.
  intros I H. unfold execute_mfa_reset in H. rewrite run_authorized in H.
  destruct (authorised claims SECURITY_SUPERVISOR_L3 (w_db w)) eqn:Ea; [|done]. run_in H.
  step_in H o w1 Hx. destruct o as [[r v]|]; run_in H; [|done].
  apply execute_inr in Hx as (g & u & row & Hg & Hs & Hap & Hl & Hu & Hv & [= -> ->] & Hdb & _).
  step_in H n w2 Hr. assert (I1 : session_inv (w_db w1)) by (rewrite Hdb; by eapply session_inv_ext; [..|exact I]).
  pose proof (revoker_frame _ _ _ _ _ Hr) as (Hsa & _). apply (revoker_ends _ _ _ _ _ I1) in Hr.
  step_in H y w3 Hm. injection H as <- <-.
  apply optional_mail in Hm as (Hdb3 & _); [|intros; apply notify_completed_state].
  exists g, u, (w_db w1). rewrite Hdb3. split_and!; try done; by rewrite Hdb.
Qed.
End Returns.

#[export] Hint Resolve keeps_send_state : auth.

(** ** Suspended accounts *)

Definition suspended (target : UUID) (db : Db) : Prop :=
  forall u, u ∈ users db -> u_user_id u = target -> u_state u = "suspended".

Section Suspension.
Context {R : Type} {RC : RedisClient R} {E : Env} {SV : SessionRevoker R} {SL : SessionRevokerLaws R}.
Context (target : UUID).
Abbreviation Sus := (on_db (R := R) (suspended target)).

Lemma suspended_ext a b : users a = users b -> suspended target a -> suspended target b.
Proof. intros Hu H u. rewrite <- Hu. apply H. Qed.
(** Updates that change no identifier and suspend rather than revive. *)
Lemma suspended_set uid f db :
  (forall u, u_user_id (f u) = u_user_id u /\ (u_state u = "suspended" -> u_state (f u) = "suspended")) ->
  suspended target db -> suspended target (RecoveryRepo.set_user uid f db).
Proof.
  intros Hf H u (u0 & Hu0 & ->)%elem_of_update Ht. destruct (u_user_id u0 == uid); [|by apply H].
  destruct (Hf u0) as [Hid Hs]. apply Hs, H; congruence.
Qed.
Lemma keeps_revoke_suspended u reason : keeps Sus (revoke_access u reason).
Proof. apply keeps_revoke. intros a b Hab. apply suspended_ext. by destruct Hab. Qed.
Hint Resolve keeps_revoke_suspended : auth.

Lemma keeps_unlock_suspended a u t c : keeps Sus (RecoveryRepo.unlock_user a u t c).
Proof.
  apply keeps_commit. intros w x w' I H. run_in H.
  destruct (RecoveryRepo.user_by_id u (w_db w)) as [v|] eqn:Ev; [|by injection H as <- <-].
  destruct (u_state v is_in _) eqn:Es; cbn [negb] in H; [|by injection H as <- <-]. to_prop.
  run_in H. step_in H y w1 Ha. apply recovery_audit_inr in Ha as (row & Hdb & _). injection H as <- <-.
  rewrite Hdb. apply user_by_id_Some in Ev as [Hv Hid].
  assert (Hne : u <> target).
  { intros ->. rewrite (I v Hv Hid) in Es. apply list_elem_of_In in Es. by destruct Es as [?|[?|[]]]. }
  intros x0 (u0 & Hu0 & ->)%elem_of_update Ht. destruct (decide (u_user_id u0 = u)) as [Hd|Hd].
  - rewrite Hd, eqb_refl in Ht. cbn in Ht. congruence.
  - rewrite (eqb_neq _ _ Hd) in *. by apply I.
Qed.
Hint Resolve keeps_unlock_suspended : auth.

Ltac suspended_step :=
  first
  [ apply keeps_modify_db; intros; eapply suspended_ext; [|eassumption]; reflexivity
  | apply keeps_modify_db; intros; apply suspended_set; [|assumption]; intros [];
      unfold unlocked, new_contact, in_state, bump_version; repeat case_bool_decide; cbn in *; by simplify_eq
  | apply keeps_add_row; intros; eapply suspended_ext; [|eassumption]; reflexivity
  | intros ? ? [= <-]
  | intros [] ? ?; simplify_eq ].

Lemma keeps_serve_suspended q : keeps Sus (serve q).
Proof.
  destruct q; cbn [serve]; repeat first [progress keeps_all | suspended_step].
Qed.
End Suspension.

(** ** Properties *)

Section Properties.
Context {R : Type} {RC : RedisClient R} {E : Env} {SV : SessionRevoker R} {SL : SessionRevokerLaws R}.
Implicit Types (w : World R).

(** C4: four eyes.  Whatever requests reach the recovery and support endpoints, at whatever
    times and with whatever claims, a governed MFA reset that was executed had been initiated by a
    support agent, approved by a security supervisor who is somebody else, and was executed no
    earlier than twelve hours after its initiation. *)
Theorem governed_reset_four_eyes requests w g :
  governed_requests (w_db w) = [] ->
  g ∈ governed_requests (w_db (run_at serve requests w).2) ->
  g_request_type g = "mfa_reset" -> g_state g = "executed" ->
  exists approver t, g_approver_user_id g = Some approver /\ approver <> g_initiator_user_id g /\
    holds_role (staff_role_bindings (w_db w)) (g_initiator_user_id g) SUPPORT_AGENT_L2 /\
    holds_role (staff_role_bindings (w_db w)) approver SECURITY_SUPERVISOR_L3 /\
    g_executed_at g = Some t /\ g_initiated_at g + hours 12 <= t.
Proof.
  intros H0 Hg Hty Hs. set (staff := staff_role_bindings (w_db w)).
  assert (I : governed_inv staff (w_db (run_at serve requests w).2)).
  { apply keeps_run_at; [intros; apply keeps_serve|]. split; [done|rewrite H0; constructor|].
    rewrite H0. intros r Hr. by apply elem_of_nil in Hr. }
  destruct (gi_ok _ _ I g Hg Hty) as [Hi Hd _ Hap He].
  destruct Hap as (a & Ha & Hne & Hr & _); [by rewrite Hs|]. destruct (He Hs) as (t & Ht & Hle).
  exists a, t. split_and!; try done. by rewrite Hd in Hle.
Qed.

(** What executing a governed reset does, and that it does it once.  The request was
    approved, its delay over and the account unchanged since its initiation; afterwards no MFA
    device of the account is usable, the devices of other accounts are untouched, no session of
    the account is alive, and no later execution of the request returns. *)
Theorem executed_reset_effect claims rid cid w record w' :
  session_inv (w_db w) -> execute_mfa_reset claims rid cid w = (inr record, w') ->
  exists g u, RecoveryRepo.mfa_reset_request rid (w_db w) = Some g /\ g_state g = "approved" /\
    g_approver_user_id g <> None /\ g_execute_after g <= w_now w /\
    RecoveryRepo.user_by_id (g_target_user_id g) (w_db w) = Some u /\ u_version u = g_target_user_version g /\
    (forall m, m ∈ mfa_devices (w_db w') -> m_user_id m = g_target_user_id g -> m_status m = "revoked") /\
    where_ (fun m => m_user_id m != g_target_user_id g) (mfa_devices (w_db w'))
      = where_ (fun m => m_user_id m != g_target_user_id g) (mfa_devices (w_db w)) /\
    signed_out (g_target_user_id g) (w_db w') /\
    forall t2 claims2 cid2, exists e, (execute_mfa_reset claims2 rid cid2 (at_time t2 w')).1 = inl e.
Proof.
  intros I H. apply execute_control_inr in H as (g & u & db1 & _ & Hg & Hs & Hap & Hl & Hu & Hv & _ & Hm & Hgr & Hsa & Hso);
    [|done]. pose proof (RecoveryInv.user_by_id_Some _ _ _ Hu) as [_ Hid]. rewrite Hid in *.
  exists g, u. split_and!; try done.
  - intros m. rewrite <- (sa_devices _ _ Hsa), Hm. intros (m0 & Hm0 & ->)%elem_of_update Hw.
    destruct ((m_user_id m0 == g_target_user_id g) && (m_status m0 != "revoked")) eqn:Eb; [done|].
    rewrite Hw, eqb_refl in Eb. cbn in Eb. by to_prop.
  - rewrite <- (sa_devices _ _ Hsa), Hm, where_update.
    erewrite where_ext; [|intros r _; instantiate (1 := fun m => m_user_id m != g_target_user_id g); by destruct (_ && _)].
    rewrite <- (map_id (where_ _ (mfa_devices (w_db w)))) at 2. apply map_ext_in. intros r Hr.
    apply list_elem_of_In, elem_of_where in Hr as [_ Hr]. to_prop. by rewrite (eqb_neq _ _ Hr).
  - intros t2 claims2 cid2. unfold execute_mfa_reset. rewrite run_authorized.
    destruct (authorised _ _ _); [|by eexists]. run.
    assert (Hx : RecoveryRepo.mfa_reset_request rid (w_db w') = Some (executed_on (w_now w) g)).
    { unfold RecoveryRepo.mfa_reset_request. rewrite <- (sa_governed _ _ Hsa), Hgr, scalar_update_stable by done.
      fold (RecoveryRepo.mfa_reset_request rid (w_db w)). rewrite Hg. cbn.
      apply mfa_reset_request_Some in Hg as (_ & -> & _). by rewrite eqb_refl. }
    exists _governed_invalid.
    rewrite (run_bind _ _ _ _ _ (run_execute_not_approved _ _ _ _ (at_time t2 w') _ Hx ltac:(done))). done.
Qed.

(** The claims a staff request carries and the roles of which one is needed. *)
Definition staff_request (q : RecoveryRequest) : option (AccessClaims * list StaffRole) :=
  match q with
  | Q_unlock k _ _ _ | Q_support_recovery k _ _ _ _ | Q_initiate_mfa_reset k _ _ _ => Some (k, [SUPPORT_AGENT_L2])
  | Q_suspend k _ _ _ _ => Some (k, [ACCOUNT_ADMIN])
  | Q_approve_mfa_reset k _ _ | Q_execute_mfa_reset k _ _ => Some (k, [SECURITY_SUPERVISOR_L3])
  | Q_get_mfa_reset k _ => Some (k, [SUPPORT_AGENT_L2; SECURITY_SUPERVISOR_L3])
  | _ => None
  end.

(** A staff action needs a recent strong authentication and a live binding of the role the
    action is for.  Without either it raises RECENT_MFA_REQUIRED or STAFF_FORBIDDEN and changes
    nothing at all: no row, no key, no mail, no random draw. *)
Theorem staff_authorisation q claims roles w :
  staff_request q = Some (claims, roles) ->
  existsb (fun role => authorised claims role (w_db w)) roles = false ->
  serve q w = (inl (if strong claims then _forbidden else recent_mfa_required), w).
Proof.
  intros Hq Hr. destruct q; try discriminate Hq; injection Hq as <- <-; cbn [existsb] in Hr;
    cbn [serve]; rewrite ?orb_false_r in Hr;
    try (unfold unlock, suspend, support_recovery; by rewrite run_authorized, Hr);
    try (apply run_bind_inl; unfold initiate_mfa_reset, approve_mfa_reset, execute_mfa_reset; by rewrite run_authorized, Hr).
  apply run_bind_inl. unfold get_mfa_reset, require_recent_mfa. unfold authorised in Hr. fold (strong claims0).
  destruct (strong claims0); [|done]. cbn [negb andb] in Hr |- *. apply orb_false_iff in Hr as [H1 H2].
  unfold RecoveryRepo.staff_has_role. run. rewrite H1. run. by rewrite H2.
Qed.

(** A governed request is bound to the version of the account it was made for.  Once the
    account has changed, approving the pending request and executing the approved one fail with
    TARGET_CHANGED; the failure rolls the transaction back, so the request keeps its state. *)
Theorem changed_target_blocks claims rid cid w g u :
  authorised claims SECURITY_SUPERVISOR_L3 (w_db w) = true ->
  RecoveryRepo.mfa_reset_request rid (w_db w) = Some g ->
  RecoveryRepo.user_by_id (g_target_user_id g) (w_db w) = Some u -> u_version u <> g_target_user_version g ->
  (g_state g = "pending" -> g_initiator_user_id g <> ac_user_id claims ->
   approve_mfa_reset claims rid cid w = (inl RecoveryRepo.target_changed, w)) /\
  (g_state g = "approved" -> is_Some (g_approver_user_id g) -> g_execute_after g <= w_now w ->
   execute_mfa_reset claims rid cid w = (inl RecoveryRepo.target_changed_after_approval, w)).
Proof.
  intros Ha Hg Hu Hv. split.
  - intros Hs Hi. unfold approve_mfa_reset. rewrite run_authorized, Ha. run. apply run_bind_inl.
    unfold RecoveryRepo.approve_mfa_reset, tx. run. rewrite Hg, Hs, eqb_refl, (eqb_neq _ _ Hi). cbn [negb]. run.
    rewrite Hu, (eqb_neq _ _ Hv). by destruct w.
  - intros Hs [a Hap] Hl. unfold execute_mfa_reset. rewrite run_authorized, Ha. run. apply run_bind_inl.
    unfold RecoveryRepo.execute_mfa_reset, tx. run. rewrite Hg, Hs, eqb_refl, Hap. cbn [negb orb is_none].
    rewrite (proj2 (Z.ltb_ge _ _) Hl). run. rewrite Hu, (eqb_neq _ _ Hv). by destruct w.
Qed.

(** C29: a suspension is final for everything recovery offers.  It ends every session of the
    account, and whatever recovery and support requests follow, at whatever times (resets with
    links issued before, unlocking, support recovery, contact changes), the account stays
    suspended, so that no session can be opened for it. *)
Theorem suspension_is_final claims target ticket reason cid w w' :
  session_inv (w_db w) -> suspend claims target ticket reason cid w = (inr (), w') ->
  signed_out target (w_db w') /\
  forall requests,
    suspended target (w_db (run_at serve requests w').2) /\
    (SessionRepo.user_is_active target (run_at serve requests w').2).1 = inr false.
Proof.
  intros I H. unfold suspend in H. rewrite run_authorized in H. destruct (authorised _ _ _); [|done].
  step_in H o w1 Ho. destruct o as [v|]; run_in H; [|done].
  step_in H n w2 Hr. injection H as <-.
  unfold RecoveryRepo.suspend_user in Ho. apply tx_inr in Ho. run_in Ho.
  destruct (RecoveryRepo.user_by_id target (w_db w)) as [u|]; [|done].
  destruct (_ is_in _); [done|]. run_in Ho. step_in Ho x w3 Ha.
  apply recovery_audit_inr in Ha as (row & Hdb & _). injection Ho as _ <-.
  assert (I1 : session_inv (w_db w3)) by (rewrite Hdb; by eapply session_inv_ext; [..|exact I]).
  assert (S1 : suspended target (w_db w3)).
  { rewrite Hdb. intros r (r0 & _ & ->)%elem_of_update Hid.
    destruct (u_user_id r0 == target) eqn:E0; [done|]. to_prop. done. }
  assert (S2 : suspended target (w_db w2)).
  { apply revoker_frame in Hr as (Hsa & _). by eapply suspended_ext; [apply Hsa|]. }
  split; [by eapply revoker_ends|]. intros requests.
  assert (S3 : suspended target (w_db (run_at serve requests w2).2))
    by (apply keeps_run_at; [intros; apply keeps_serve_suspended|done]).
  split; [done|]. unfold SessionRepo.user_is_active. rewrite bind_get_db.
  destruct (scalar _ _) as [r|] eqn:Er; [|done]. apply scalar_Some in Er as [Hr0 E0]. to_prop.
  by rewrite (S3 r Hr0 E0).
Qed.
End Properties.
