(* ===== verification/PasswordReset.v ===== *)
(** Password resets and contact changes: what the user-facing half of recovery guarantees. *)
From S2P Require Import Prelude PyText Entity Models RedisClient World Providers RedisSecurity SessionInv.
From S2P Require Import RecoveryInv Recovery RecoveryProps.
From S2P Require RecoveryRepo.

Import RecoveryRepo(PASSWORD_HISTORY_LIMIT, history_of, reset_purposes, set_ephemeral, set_user, user_by_id,
  unlocked, spent_link, new_password, set_password, forget_old).

Section Consume.
Context {R : Type} {RC : RedisClient R} {E : Env}.
Implicit Types (w : World R).

(** The row a reset link names, and the password identity of a user. *)
Definition reset_token (token_hash : string) (db : Db) : option EphemeralToken :=
  scalar (fun e => (e_token_hash e == token_hash) && (e_purpose e is_in reset_purposes)) (ephemeral_tokens db).
Definition password_identity (user_id : UUID) (db : Db) : option Identity :=
  scalar (fun i => (i_user_id i == user_id) && (i_provider i == "password")) (identities db).

(** The writes of a reset that went through, in their order. *)
Definition recorded (h : PasswordHistory) (db : Db) : Db := db <| password_history ::= (fun l => l ++ [h]) |>.
Definition reset_db (e : EphemeralToken) (user_id : UUID) (i : Identity) (h : PasswordHistory) (now : Time) (db : Db) : Db :=
  set_user user_id unlocked (forget_old (i_identity_id i) (recorded h
    (set_password (i_identity_id i) (ph_password_hash h) now (set_ephemeral (e_ephemeral_token_id e) (spent_link now) db)))).

Lemma consume_updated th pw nh now c w x w' :
  RecoveryRepo.consume_password_reset th pw nh now c w = (inr (UPDATED, x), w') ->
  exists e uid u i h row, reset_token th (w_db w) = Some e /\ e_user_id e = Some uid /\ e_consumed_at e = None /\
    now < e_expires_at e /\ user_by_id uid (w_db w) = Some u /\ password_identity uid (w_db w) = Some i /\
    (u_state u ∉ ["suspended"; "disabled"; "anonymized"]) /\
    Forall (fun h => password_verify (ph_password_hash h) pw = false)
      (List.firstn PASSWORD_HISTORY_LIMIT (history_of (i_identity_id i) (w_db w))) /\
    h = MkPasswordHistory (uuid4 (w_seed w)) (i_identity_id i) nh now /\
    password_history_conflict (password_history (w_db w)) h = false /\
    x = Some (RecoveryRepo._user (unlocked u)) /\
    w_db w' = with_audit row (reset_db e uid i h now (w_db w)) /\ db_step w w'.
Proof.
  intros H. unfold RecoveryRepo.consume_password_reset in H. apply tx_inr in H. run_in H.
  fold (reset_token th (w_db w)) in H. destruct (reset_token th (w_db w)) as [e|] eqn:Ee; [|by injection H].
  destruct (e_user_id e) as [uid|] eqn:Euid; [|by injection H].
  destruct (_ || _) eqn:Eb; [by injection H|]. to_prop.
  destruct (user_by_id uid (w_db w)) as [u|] eqn:Eu; [|by injection H].
  fold (password_identity uid (w_db w)) in H.
  destruct (password_identity uid (w_db w)) as [i|] eqn:Ei; [|by injection H].
  destruct (u_state u is_in _) eqn:Es; [by injection H|]. to_prop.
  destruct (existsb _ _) eqn:Eh; [by injection H|].
  run_in H. step_in H y w1 Hadd. apply add_row_inr in Hadd as (_ & Hc & ->). run_in H.
  step_in H z w2 Ha. apply recovery_audit_inr in Ha as (row & Hdb & Hs). injection H as <- <-.
  exists e, uid, u, i. do 2 eexists. split_and!; [done|done|by destruct (e_consumed_at e)|lia|done..| |reflexivity|exact Hc|done|exact Hdb|exact Hs].
  apply Forall_forall. intros h Hin. destruct (password_verify _ _) eqn:Ev; [|done].
  exfalso. eapply eq_true_false_abs; [|exact Eh]. apply existsb_exists. exists h. split; [|done].
  done.
Qed.

Lemma run_consume_spent th pw nh now c w e :
  reset_token th (w_db w) = Some e -> is_Some (e_consumed_at e) ->
  RecoveryRepo.consume_password_reset th pw nh now c w = (inr (INVALID, None), w).
Proof.
  intros He [t Ht]. apply run_tx. run. fold (reset_token th (w_db w)). rewrite He, Ht.
  by destruct (e_user_id e).
Qed.

Lemma reset_token_spent th e uid i h now db row : reset_token th db = Some e ->
  reset_token th (with_audit row (reset_db e uid i h now db)) = Some (spent_link now e).
Proof.
  intros He. unfold reset_token.
  change (ephemeral_tokens (with_audit row (reset_db e uid i h now db)))
    with (update_ (fun r => e_ephemeral_token_id r == e_ephemeral_token_id e) (spent_link now) (ephemeral_tokens db)).
  rewrite scalar_update_stable by done. unfold reset_token in He. rewrite He. cbn. by rewrite eqb_refl.
Qed.

Lemma history_of_perm i db : history_of i db ≡ₚ where_ (fun h => ph_identity_id h == i) (password_history db).
Proof. apply order_by_perm. Qed.

(** Forgetting keeps one row fewer than the limit. *)
Lemma forget_old_count i db :
  (count_ (fun h => ph_identity_id h == i) (password_history (forget_old i db)) <= PASSWORD_HISTORY_LIMIT - 1)%nat.
Proof.
  unfold count_. set (old := List.map ph_history_id (List.skipn (PASSWORD_HISTORY_LIMIT - 1) (history_of i db))).
  set (P := fun h => ph_identity_id h == i).
  change (password_history (forget_old i db)) with (delete_ (fun h => ph_history_id h is_in old) (password_history db)).
  rewrite where_delete. unfold delete_.
  assert (Hp : where_ P (password_history db) ≡ₚ history_of i db) by (symmetry; apply history_of_perm).
  apply (where_perm (fun h => negb (ph_history_id h is_in old))) in Hp. unfold where_ at 1 in Hp.
  rewrite (Permutation_length Hp).
  rewrite <- (firstn_skipn (PASSWORD_HISTORY_LIMIT - 1) (history_of i db)) at 1. rewrite where_app, length_app.
  rewrite (where_nil _ (List.skipn _ _)).
  - cbn [length]. rewrite Nat.add_0_r. etrans; [apply filter_length_le|]. apply firstn_le_length.
  - intros h Hh. apply negb_false_iff, bool_decide_eq_true, list_elem_of_In, in_map. by apply list_elem_of_In.
Qed.
End Consume.

Section Resets.
Context {R : Type} {RC : RedisClient R} {E : Env} {SV : SessionRevoker R} {SL : SessionRevokerLaws R}.
Implicit Types (w : World R).

(** The checks before the database is asked. *)
Definition password_refused (password : string) : option exc :=
  match recovery_policy password with
  | Some e => Some e
  | None =>
    match breach_count password with
    | None => Some provider_unavailable
    | Some n => if 0 <? n then Some password_breached else None
    end
  end.

Lemma run_reset token password cid w :
  reset_password token password cid w =
  match password_refused password with
  | Some e => (inl e, w)
  | None =>
    ('(outcome, user) ← RecoveryRepo.consume_password_reset (_token_hash token) password
       (argon2_hash (w_seed w) password) (w_now w) cid;
     raise_if (outcome == REUSED) password_reused;;
     raise_if (outcome != UPDATED) token_invalid;;
     user ← get_or token_invalid user;
     _ ← revoke_access (ru_user_id user) "password_reset";
     match ru_email user with
     | Some address => if nonempty address then send_password_changed address else mret ()
     | None => mret ()
     end) (next_seed w)
  end.
Proof.
  unfold reset_password, password_refused. destruct (recovery_policy password); [done|]. run.
  destruct (breach_count password) as [n|]; [|done]. run. destruct (0 <? n); [done|]. run.
  unfold password_hash. run. done.
Qed.

Lemma reset_inr token password cid w u w' : session_inv (w_db w) ->
  reset_password token password cid w = (inr u, w') ->
  exists e uid v i h row, password_refused password = None /\
    reset_token (_token_hash token) (w_db w) = Some e /\ e_user_id e = Some uid /\ e_consumed_at e = None /\
    w_now w < e_expires_at e /\ user_by_id uid (w_db w) = Some v /\ password_identity uid (w_db w) = Some i /\
    (u_state v ∉ ["suspended"; "disabled"; "anonymized"]) /\
    Forall (fun h => password_verify (ph_password_hash h) password = false)
      (List.firstn PASSWORD_HISTORY_LIMIT (history_of (i_identity_id i) (w_db w))) /\
    ph_identity_id h = i_identity_id i /\ ph_password_hash h = argon2_hash (w_seed w) password /\
    same_accounts (with_audit row (reset_db e uid i h (w_now w) (w_db w))) (w_db w') /\ signed_out uid (w_db w').
Proof.
  intros I H. rewrite run_reset in H. destruct (password_refused password) eqn:Ep; [done|].
  step_in H p w1 Hc. destruct p as [outcome user].
  destruct (outcome == REUSED) eqn:Er; run_in H; [done|].
  destruct (outcome != UPDATED) eqn:Eu; run_in H; [done|]. to_prop. subst outcome.
  apply consume_updated in Hc as (e & uid & v & i & h & row & He & Hu & Hs & Hx & Hv & Hi & Hst & Hh & Eh & _ & -> & Hdb & _).
  run_in H. step_in H n w2 Hr.
  assert (Hid : u_user_id (unlocked v) = uid).
  { apply RecoveryInv.user_by_id_Some in Hv as [_ <-]. unfold unlocked. by destruct (_ == _). }
  assert (I1 : session_inv (w_db w1)) by (rewrite Hdb; by eapply session_inv_ext; [..|exact I]).
  pose proof (revoker_frame _ _ _ _ _ Hr) as (Hsa & _). apply (revoker_ends _ _ _ _ _ I1) in Hr.
  rewrite Hdb in Hsa. cbn [RecoveryRepo._user ru_user_id] in Hr. rewrite Hid in Hr.
  apply (optional_mail (ru_email _)) in H as (Hdb3 & _); [|intros; apply password_changed_state].
  exists e, uid, v, i, h, row. rewrite Hdb3. subst h. split_and!; done.
Qed.
End Resets.

Section Requests.
Context {R : Type} {RC : RedisClient R} {E : Env} {SV : SessionRevoker R} {SL : SessionRevokerLaws R}.
Implicit Types (w : World R).

(** The count a request reads, and the keyspace it leaves: functions of keyspace and clock. *)
Definition hit_count (email : string) (now : Time) (r : R) : Z :=
  let key := name (rate_limit "password_reset" (normalize_email email) PASSWORD_RESET_WINDOW_SECONDS) in
  int_of_key (r_get now key (r_incr now key r)).
Definition hit_redis (email : string) (now : Time) (r : R) : R :=
  let key := name (rate_limit "password_reset" (normalize_email email) PASSWORD_RESET_WINDOW_SECONDS) in
  if hit_count email now r =? 1 then r_expire now key PASSWORD_RESET_WINDOW_SECONDS (r_incr now key r)
  else r_incr now key r.

Lemma run_hit email w :
  increment_rate_limit "password_reset" (normalize_email email) PASSWORD_RESET_WINDOW_SECONDS w
  = (inr (hit_count email (w_now w) (w_redis w)), with_redis (hit_redis email (w_now w) (w_redis w)) w).
Proof.
  unfold increment_rate_limit, rate_limit_script, hit_redis. run. fold (hit_count email (w_now w) (w_redis w)).
  unfold hit_count. destruct (_ =? 1); by destruct w.
Qed.

(** The draws of the next link collide with no stored one. *)
Definition link_is_fresh (w : World R) : bool :=
  negb (row_exists (fun e => (e_ephemeral_token_id e == uuid4 (N.succ (w_seed w)))
    || (e_token_hash e == _token_hash (token_urlsafe 32 (w_seed w)))) (ephemeral_tokens (w_db w))).

Lemma run_issue uid th cid w :
  negb (row_exists (fun e => (e_ephemeral_token_id e == uuid4 (w_seed w)) || (e_token_hash e == th))
    (ephemeral_tokens (w_db w))) = true ->
  exists w', RecoveryRepo.issue_password_reset uid th "password_reset" (w_now w + RESET_TTL) cid None None w = (inr (), w')
    /\ w_redis w' = w_redis w /\ w_now w' = w_now w.
Proof.
  intros Hf. unfold RecoveryRepo.issue_password_reset. run.
  match goal with |- context [tx ?m ?w0] => set (body := m); destruct (body w0) as [[err|[]] w'] eqn:Eb end.
  - exfalso. unfold body in Eb. run_in Eb. apply bind_inl in Eb as [Eb|(x & w1 & Ha & Eb)].
    + unfold add_row in Eb. run_in Eb. unfold ephemeral_token_valid, ephemeral_token_conflict in Eb.
      assert (Hx : row_exists (fun e => (e_ephemeral_token_id e == uuid4 (w_seed w)) || (e_token_hash e == th))
        (ephemeral_tokens (RecoveryRepo.supersede_links uid (w_now w) (w_db w))) = false).
      { apply negb_true_iff in Hf. apply row_exists_false. intros r (r0 & Hr0 & ->)%elem_of_update.
        pose proof (proj1 (row_exists_false _ _) Hf r0 Hr0) as Hn.
        match goal with |- context [if ?b then _ else _] => by destruct b end. }
      cbn [e_ephemeral_token_id e_token_hash e_purpose e_created_at e_expires_at] in Eb. rewrite Hx in Eb.
      rewrite (proj2 (Z.ltb_lt _ _)) in Eb by (unfold RESET_TTL, minutes, seconds, second; lia). discriminate Eb.
    + match type of Eb with RecoveryRepo.recovery_audit ?et _ ?c ?s ?a ?m ?w0 = _ =>
        destruct (run_recovery_audit et c s a m w0) as (row & Hrow) end.
      cbn [eqb] in Eb. unfold RecoveryRepo.recovery_audit in *. cbn in Eb. discriminate Eb.
  - exists w'. split; [by apply run_tx|]. unfold body in Eb. run_in Eb. step_in Eb x w1 Ha.
    apply add_row_inr in Ha as (_ & _ & ->). apply recovery_audit_inr in Eb as (row & _ & Hn & Hr & _). done.
Qed.
End Requests.

Section Properties.
Context {R : Type} {RC : RedisClient R} {E : Env} {SV : SessionRevoker R} {SL : SessionRevokerLaws R}.
Implicit Types (w : World R).

(** C6: a reset link works once, in time, and ends what the old password opened.  The link was
    unused and unexpired, the password is none of the remembered ones; afterwards the password
    identity of the account carries the hash of the new password, no session of the account is
    alive, and the same link never resets a password again, whatever the password and the time. *)
Theorem password_reset_single_use token password cid w w' :
  session_inv (w_db w) -> reset_password token password cid w = (inr (), w') ->
  exists e uid i, reset_token (_token_hash token) (w_db w) = Some e /\ e_user_id e = Some uid /\
    e_consumed_at e = None /\ w_now w < e_expires_at e /\ password_identity uid (w_db w) = Some i /\
    Forall (fun h => password_verify (ph_password_hash h) password = false)
      (List.firstn PASSWORD_HISTORY_LIMIT (history_of (i_identity_id i) (w_db w))) /\
    new_password (argon2_hash (w_seed w) password) (w_now w) i ∈ identities (w_db w') /\
    signed_out uid (w_db w') /\
    forall t2 password2 cid2, exists err, (reset_password token password2 cid2 (at_time t2 w')).1 = inl err.
Proof.
  intros I H. apply reset_inr in H as (e & uid & v & i & h & row & _ & He & Hu & Hc & Hx & _ & Hi & _ & Hh & Ehi & Ehp & Hsa & Hso);
    [|done]. exists e, uid, i. split_and!; try done.
  - rewrite <- (sa_identities _ _ Hsa). apply scalar_Some in Hi as [Hin _]. rewrite <- Ehp.
    exact (elem_of_update_hit (fun j => i_identity_id j == i_identity_id i) _ _ _ Hin (eqb_refl _)).
  - intros t2 password2 cid2. rewrite run_reset. destruct (password_refused password2); [by eexists|].
    exists token_invalid.
    assert (Ht : reset_token (_token_hash token) (w_db (next_seed (at_time t2 w'))) = Some (spent_link (w_now w) e)).
    { cbn [next_seed at_time w_db set]. unfold reset_token. rewrite <- (sa_tokens _ _ Hsa). by apply reset_token_spent. }
    by rewrite (run_bind _ _ _ _ _ (run_consume_spent _ _ _ _ _ (next_seed (at_time t2 w')) _ Ht ltac:(by eexists))).
Qed.

(** How many old passwords are remembered: after a completed reset at most four hashes of
    the identity are on record, the newest ones, so that only the last four passwords are
    refused by the next reset. *)
Theorem password_history_bounded token password cid w w' :
  session_inv (w_db w) -> reset_password token password cid w = (inr (), w') ->
  exists uid i, password_identity uid (w_db w) = Some i /\
    (count_ (fun h => ph_identity_id h == i_identity_id i) (password_history (w_db w')) <= 4)%nat.
Proof.
  intros I H. apply reset_inr in H as (e & uid & v & i & h & row & _ & _ & _ & _ & _ & _ & Hi & _ & _ & Ehi & Ehp & Hsa & _);
    [|done]. exists uid, i. split; [done|]. rewrite <- (sa_history _ _ Hsa). apply forget_old_count.
Qed.

(** Asking for a reset link says nothing about who has an account.  The answer, and the
    state of the limiter, are the same whatever the database holds: silence for the first three
    requests of an hour for an address, RATE_LIMITED from the fourth on; not even the failure of
    the mail server shows. *)
Theorem reset_request_is_silent email cid w :
  link_is_fresh w = true ->
  (request_password_reset email cid w).1
    = (if PASSWORD_RESET_LIMIT <? hit_count email (w_now w) (w_redis w) then inl rate_limited else inr ()) /\
  w_redis (request_password_reset email cid w).2 = hit_redis email (w_now w) (w_redis w).
Proof.
  intros Hf. unfold request_password_reset. rewrite (run_bind _ _ _ _ _ (run_hit _ _)).
  destruct (_ <? _); run; [done|]. unfold RecoveryRepo.eligible_user_by_email. run.
  match goal with |- context [match ?o with Some _ => _ | None => mret () end] => destruct o as [[v address]|] end; [|done].
  run. match goal with |- context [(RecoveryRepo.issue_password_reset ?u ?h _ _ ?c _ _ ≫= _) ?w0] =>
    destruct (run_issue u h c w0) as (w1 & H1 & Hr & Hn) end.
  { exact Hf. }
  rewrite (run_bind _ _ _ _ _ H1). unfold try_except, send_password_reset.
  destruct (Mailpit_send_password_reset address _ w1) as [[err|[]] w2] eqn:Em; apply send_spec in Em as (_ & Hr2 & _);
    split; try done; change (w_redis w2 = hit_redis email (w_now w) (w_redis w)); by rewrite Hr2, Hr.
Qed.
End Properties.
