(* ===== verification/ContactChange.v ===== *)
(** Changing the e-mail address or the phone number of an account: both codes are needed. *)
From S2P Require Import Prelude PyText Entity Models RedisClient World Providers RedisSecurity SessionInv.
From S2P Require Import RecoveryInv Recovery RecoveryProps.
From S2P Require RecoveryRepo.

Import RecoveryRepo(set_contact, set_user, user_by_id, proved, applied, new_contact, set_subjects, cancel_changes).

(** What a request keeps of one of its two proofs. *)
Definition code_hash_of (p : ContactProof) (c : ContactChangeRequest) : string :=
  match p with OLD => c_old_code_hash c | NEW => c_new_code_hash c end.
Definition verified_of (p : ContactProof) (c : ContactChangeRequest) : option Time :=
  match p with OLD => c_old_verified_at c | NEW => c_new_verified_at c end.
(** The request is on record, its proof [p], the code of hash [h], was never given, and it was
    never applied. *)
Record unproved (p : ContactProof) (rid : UUID) (h : string) (db : Db) : Prop := {
  up_exists : exists c, c ∈ contact_change_requests db /\ c_request_id c = rid;
  up_rows c : c ∈ contact_change_requests db -> c_request_id c = rid ->
    code_hash_of p c = h /\ verified_of p c = None /\ c_applied_at c = None }.

Section Unproved.
Context {R : Type} {RC : RedisClient R} {E : Env} {SV : SessionRevoker R} {SL : SessionRevokerLaws R}.
Context (p : ContactProof) (rid : UUID) (h : string).
Abbreviation Unp := (on_db (R := R) (unproved p rid h)).

Lemma unproved_ext a b : contact_change_requests a = contact_change_requests b ->
  unproved p rid h a -> unproved p rid h b.
Proof. intros Hc []. split; rewrite <- ?Hc; done. Qed.

(** Rewriting requests, but not the proof of this one. *)
Lemma unproved_update db P f : unproved p rid h db ->
  (forall c, c_request_id (f c) = c_request_id c) ->
  (forall c, c ∈ contact_change_requests db -> P c = true -> c_request_id c = rid ->
     code_hash_of p (f c) = code_hash_of p c /\ verified_of p (f c) = verified_of p c /\ c_applied_at (f c) = c_applied_at c) ->
  unproved p rid h (db <| contact_change_requests ::= update_ P f |>).
Proof.
  intros [(c & Hc & Hid) Hu] Hk Hf. split.
  - exists (if P c then f c else c). split; [by apply elem_of_update_fwd|]. destruct (P c); by rewrite ?Hk.
  - intros c' (c0 & Hc0 & ->)%elem_of_update. destruct (P c0) eqn:EP; [|by apply Hu].
    intros Hid'. rewrite Hk in Hid'. destruct (Hf c0 Hc0 EP Hid') as (-> & -> & ->). by apply Hu.
Qed.

Lemma keeps_revoke_unproved u reason : keeps Unp (revoke_access u reason).
Proof. apply keeps_revoke. intros a b Hab. apply unproved_ext. by destruct Hab. Qed.
Hint Resolve keeps_revoke_unproved : auth.

Lemma keeps_cancel_unproved u ct : keeps Unp (modify_db (cancel_changes u ct)).
Proof. apply keeps_modify_db. intros db I. apply unproved_update; [done..|]. by destruct p. Qed.
Lemma keeps_open_unproved c1 :
  keeps Unp (add_row contact_change_requests contact_change_valid contact_change_conflict c1).
Proof.
  apply keeps_add_row. intros db [(c0 & Hc0 & Hid) Hu] _ Hc. split.
  - exists c0. split; [apply elem_of_app; by left|done].
  - intros c2 [Hc2| ->]%elem_of_snoc; [by apply Hu|]. intros Hid2. exfalso.
    apply (proj1 (row_exists_false _ _) Hc) in Hc0. to_prop. congruence.
Qed.
Lemma keeps_log_unproved row : keeps Unp (add_row audit_logs audit_log_valid no_conflict row).
Proof. apply keeps_add_row. intros db I _ _. by eapply unproved_ext; [|exact I]. Qed.
Hint Resolve keeps_cancel_unproved keeps_open_unproved keeps_log_unproved : auth.
Lemma keeps_create_unproved u ct v oh nh ex c : keeps Unp (RecoveryRepo.create_contact_change u ct v oh nh ex c).
Proof. keeps_all. Qed.
Hint Resolve keeps_create_unproved : auth.

(** Presenting a proof to a request: the other request, the other proof or a wrong code. *)
Lemma keeps_verify_block u r q ch now c : (r = rid -> q = p -> ch <> h) ->
  keeps Unp (RecoveryRepo.verify_contact_change_block u r q ch now c).
Proof.
  intros Hch. apply keeps_commit. intros w x w' I H. run_in H.
  destruct (scalar _ (contact_change_requests (w_db w))) as [c0|] eqn:Ec; [|by injection H as <- <-].
  apply scalar_Some in Ec as [Hin Hp]. to_prop. rename H0 into Hr, H1 into Hu.
  destruct (_ || _); [by injection H as <- <-|].
  fold (code_hash_of q c0) in H. destruct (code_hash_of q c0 != ch) eqn:Eq; [by injection H as <- <-|]. to_prop.
  assert (Hq : r = rid -> q <> p).
  { intros -> ->. destruct (up_rows _ _ _ _ I c0 Hin Hr) as (Hh & _). by apply (Hch eq_refl eq_refl); congruence. }
  assert (I1 : unproved p rid h (set_contact r (proved q now) (w_db w))).
  { apply unproved_update; [done|by destruct q|]. intros r1 _ Hb Hid. to_prop.
    assert (Hne : q <> p) by (apply Hq; congruence). by destruct p, q. }
  run_in H. destruct (_ && _) eqn:Eb.
  - assert (Hne : r <> rid).
    { intros ->. to_prop. destruct (up_rows _ _ _ _ I c0 Hin Hr) as (_ & Hv & _). specialize (Hq eq_refl).
      destruct p, q; try done; cbn in *; by rewrite Hv in *. }
    destruct (user_by_id u (w_db w)); [|by injection H as <- <-].
    destruct (_ != "active"); [by injection H as <- <-|].
    unfold RecoveryRepo.update_user, RecoveryRepo.update_subjects in H. run_in H.
    step_in H y1 w1 H1. unfold raise_if in H1. destruct (RecoveryRepo.user_update_conflict _ _); [done|]. injection H1 as _ <-.
    run_in H. step_in H y2 w2 H2. unfold raise_if in H2. destruct (RecoveryRepo.identity_update_conflict _ _); [done|]. injection H2 as _ <-.
    run_in H. step_in H y3 w3 H3. apply recovery_audit_inr in H3 as (row & Hdb & _).
    step_in H y4 w4 H4. unfold get_or in H4. destruct (RecoveryRepo._contact _); [|done]. injection H4 as _ <-. injection H as _ <-.
    rewrite Hdb. eapply (unproved_ext (set_contact r (applied now) (set_contact r (proved q now) (w_db w)))); [done|].
    apply unproved_update; [done..|]. intros r1 _ Hb Hid. to_prop. congruence.
  - step_in H y4 w4 H4. unfold get_or in H4. destruct (RecoveryRepo._contact _); [|done]. injection H4 as _ <-. by injection H as _ <-.
Qed.

Lemma keeps_verify_unproved k r q code c :
  (r = rid -> q = p -> _otp_hash code <> h) -> keeps Unp (verify_contact_change k r q code c).
Proof.
  intros Hch. assert (Hb : forall now, keeps Unp (RecoveryRepo.verify_contact_change_block (ac_user_id k) r q (_otp_hash code) now c))
    by (intros; by apply keeps_verify_block).
  keeps_all. intros [] ? ?; simplify_eq. keeps_all.
Qed.

Ltac unproved_step :=
  first
  [ apply keeps_modify_db; intros; eapply unproved_ext; [|eassumption]; reflexivity
  | apply keeps_add_row; intros; eapply unproved_ext; [|eassumption]; reflexivity
  | intros ? ? [= <-] ].
(** Every request but the presentation of the very code keeps a request unproved. *)
Lemma keeps_serve_unproved q :
  (forall k code c, q = Q_verify_contact_change k rid p code c -> _otp_hash code <> h) -> keeps Unp (serve q).
Proof.
  intros Hq. destruct q; cbn [serve];
    try (apply keeps_bind; [apply keeps_verify_unproved; intros -> ->; by eapply Hq|intros; apply keeps_ret]);
    repeat first [progress keeps_all | unproved_step].
Qed.
End Unproved.

Section Returns.
Context {R : Type} {RC : RedisClient R} {E : Env} {SV : SessionRevoker R} {SL : SessionRevokerLaws R}.
Implicit Types (w : World R).

Lemma create_change_inr uid ct v oh nh ex c w record w' :
  RecoveryRepo.create_contact_change uid ct v oh nh ex c w = (inr (Some record), w') ->
  exists c0 row old, c0 = MkContactChangeRequest (uuid4 (w_seed w)) uid (contact_value ct) old v oh nh "pending"
      (w_now w) ex None None None /\ RecoveryRepo._contact c0 = Some record /\
    contact_change_conflict (contact_change_requests (cancel_changes uid ct (w_db w))) c0 = false /\
    w_db w' = with_audit row ((cancel_changes uid ct (w_db w)) <| contact_change_requests ::= (fun l => l ++ [c0]) |>).
Proof.
  intros H. unfold RecoveryRepo.create_contact_change in H. run_in H. apply tx_inr in H. run_in H.
  destruct (user_by_id uid (w_db w)) as [u|]; [|by injection H]. destruct (_ != "active"); [by injection H|].
  destruct (match ct with EMAIL => u_email u | PHONE => u_phone_e164 u end) as [old|]; [|by injection H].
  destruct (_ || _); [by injection H|]. step_in H x w1 Hx. unfold raise_if in Hx.
  destruct (row_exists _ _); [done|]. injection Hx as _ <-. run_in H.
  step_in H y w2 Hy. apply add_row_inr in Hy as (_ & Hc & ->). run_in H.
  step_in H z w3 Hz. apply recovery_audit_inr in Hz as (row & Hdb & _).
  step_in H r w4 Hr. unfold get_or in Hr. destruct (RecoveryRepo._contact _) as [r0|] eqn:Er; [|done].
  injection Hr as -> <-. injection H as -> <-. do 3 eexists. split_and!; [reflexivity|exact Er|exact Hc|exact Hdb].
Qed.

Lemma code_mail d code p w x w' : send_contact_code d code p w = (x, w') -> same_state w w'.
Proof.
  assert (Hk : keeps (same_state w) (send_contact_code d code p)) by keeps_all. specialize (Hk w). intros H. rewrite H in Hk. by apply Hk.
Qed.

(** The code a start draws for a proof. *)
Definition drawn_code (p : ContactProof) w : string :=
  dec_digits 6 (randbelow 1000000 (match p with OLD => w_seed w | NEW => N.succ (w_seed w) end)) "".

Lemma start_unproved claims ct v cid w record w' p :
  start_contact_change claims ct v cid w = (inr record, w') ->
  unproved p (cc_request_id record) (_otp_hash (drawn_code p w)) (w_db w').
Proof.
  intros H. unfold start_contact_change in H. step_in H x w1 Hx. unfold require_recent_mfa, raise_if in Hx.
  destruct (negb _); [done|]. injection Hx as _ <-.
  step_in H v' w1 Hv. assert (w1 = w) as ->.
  { unfold _normalize_contact in Hv. destruct ct; [by injection Hv|].
    destruct (matches_e164 _); run_in Hv; [by injection Hv|done]. }
  unfold new_code in H. run_in H. step_in H o w2 Hc. destruct o as [record'|]; run_in H; [|done].
  apply create_change_inr in Hc as (c0 & row & old & E0 & Er & Hc & Hdb).
  step_in H y w3 Hm1. apply code_mail in Hm1 as (H1 & _). step_in H z w4 Hm2. apply code_mail in Hm2 as (H2 & _).
  injection H as -> <-. rewrite H2, H1, Hdb.
  assert (Hid : cc_request_id record = c_request_id c0).
  { unfold RecoveryRepo._contact in Er. apply bind_Some in Er as (t & _ & [= <-]). done. }
  rewrite Hid. split.
  - exists c0. split; [apply elem_of_app; right; by left|done].
  - intros c [Hin| ->]%elem_of_snoc.
    + intros He. apply (proj1 (row_exists_false _ _) Hc) in Hin. by rewrite He, eqb_refl in Hin.
    + intros _. subst c0. by destruct p.
Qed.

Lemma changed_mail d w x w' : send_contact_changed d w = (x, w') -> same_state w w'.
Proof.
  assert (Hk : keeps (same_state w) (send_contact_changed d)) by keeps_all. specialize (Hk w).
  intros H. rewrite H in Hk. by apply Hk.
Qed.

(** The writes that apply a change. *)
Definition applied_db (uid rid : UUID) (c : ContactChangeRequest) (p : ContactProof) (now : Time) (db : Db) : Db :=
  set_contact rid (applied now)
    (set_subjects (fun i => (i_user_id i == uid)
                            && (i_provider i == (if c_contact_type c == contact_value EMAIL then "password" else "phone")))
       (c_new_value c)
       (set_user uid (new_contact (c_contact_type c) (c_new_value c)) (set_contact rid (proved p now) db))).

Lemma verify_block_inr uid rid p ch now cid w record w' :
  RecoveryRepo.verify_contact_change uid rid p ch now cid w = (inr (Some record), w') ->
  exists c, c ∈ contact_change_requests (w_db w) /\ c_request_id c = rid /\ c_user_id c = uid /\
    c_state c = "pending" /\ now < c_expires_at c /\ code_hash_of p c = ch /\
    ((cc_applied_at record = c_applied_at c /\ w_db w' = set_contact rid (proved p now) (w_db w)) \/
     (is_Some (verified_of (match p with OLD => NEW | NEW => OLD end) c) /\
      exists row, w_db w' = with_audit row (applied_db uid rid c p now (w_db w)))).
Proof.
  intros H. unfold RecoveryRepo.verify_contact_change, RecoveryRepo.on_integrity_error, try_except in H.
  destruct (RecoveryRepo.verify_contact_change_block uid rid p ch now cid w) as [[err|o] w0] eqn:Hb.
  { destruct err; try discriminate H. }
  injection H as -> ->. unfold RecoveryRepo.verify_contact_change_block in Hb. apply tx_inr in Hb. run_in Hb.
  destruct (scalar _ (contact_change_requests (w_db w))) as [c|] eqn:Ec; [|by injection Hb].
  apply scalar_Some in Ec as [Hin Hp]. to_prop. rename H into Hr, H0 into Hu.
  destruct (_ || _) eqn:Est; [by injection Hb|]. to_prop. rename H into Hst, H0 into Hx.
  fold (code_hash_of p c) in Hb. destruct (code_hash_of p c != ch) eqn:Eq; [by injection Hb|]. to_prop.
  exists c. split_and!; [done..|]. run_in Hb. destruct (_ && _) eqn:Eb.
  - right. destruct (user_by_id uid (w_db w)); [|by injection Hb]. destruct (_ != "active"); [by injection Hb|].
    unfold RecoveryRepo.update_user, RecoveryRepo.update_subjects in Hb. run_in Hb.
    step_in Hb y1 w1 H1. unfold raise_if in H1. destruct (RecoveryRepo.user_update_conflict _ _); [done|]. injection H1 as _ <-.
    run_in Hb. step_in Hb y2 w2 H2. unfold raise_if in H2. destruct (RecoveryRepo.identity_update_conflict _ _); [done|]. injection H2 as _ <-.
    run_in Hb. step_in Hb y3 w3 H3. apply recovery_audit_inr in H3 as (row & Hdb & _).
    step_in Hb y4 w4 H4. unfold get_or in H4. destruct (RecoveryRepo._contact _); [|done]. injection H4 as _ <-. injection Hb as _ <-.
    split.
    + to_prop. destruct p; cbn in *; [by destruct (c_new_verified_at c)|by destruct (c_old_verified_at c)].
    + exists row. rewrite Hdb. by destruct p.
  - left. step_in Hb y4 w4 H4. unfold get_or in H4. destruct (RecoveryRepo._contact _) as [r0|] eqn:Er; [|done].
    injection H4 as -> <-. injection Hb as -> <-. split; [|done].
    unfold RecoveryRepo._contact in Er. apply bind_Some in Er as (t & _ & [= <-]). by destruct p.
Qed.
End Returns.

(** ** Properties *)

Section Properties.
Context {R : Type} {RC : RedisClient R} {E : Env} {SV : SessionRevoker R} {SL : SessionRevokerLaws R}.
Implicit Types (w : World R).

(** C5: a contact change needs both codes.  After a change was started, as long as nobody
    presents the code drawn for one of its two proofs (a code of the same hash) to that request,
    no sequence of recovery and support requests, by whoever and whenever, applies it. *)
Theorem contact_change_needs_both_codes claims ct v cid w record w' p requests :
  start_contact_change claims ct v cid w = (inr record, w') ->
  (forall t k code c, (t, Q_verify_contact_change k (cc_request_id record) p code c) ∈ requests ->
     _otp_hash code <> _otp_hash (drawn_code p w)) ->
  forall c, c ∈ contact_change_requests (w_db (run_at serve requests w').2) ->
    c_request_id c = cc_request_id record -> c_applied_at c = None.
Proof.
  intros H Hq c Hc Hid. apply (start_unproved _ _ _ _ _ _ _ p) in H.
  assert (Hu : unproved p (cc_request_id record) (_otp_hash (drawn_code p w)) (w_db (run_at serve requests w').2)).
  { apply keeps_run_at; [|done]. intros t q Hin. apply keeps_serve_unproved. intros k code c' ->. by eapply Hq. }
  by apply (up_rows _ _ _ _ Hu c Hc Hid).
Qed.

(** What applying a contact change does.  A verification that reports the change applied
    found the request pending and unexpired with its other proof already given, and the code
    right; afterwards the account has the new contact, its identity of that kind signs in with
    it, and no session of the account is alive. *)
Theorem contact_change_applies claims rid p code cid w record w' :
  session_inv (w_db w) -> verify_contact_change claims rid p code cid w = (inr record, w') ->
  (forall c, c ∈ contact_change_requests (w_db w) -> c_request_id c = rid -> c_applied_at c = None) ->
  cc_applied_at record <> None ->
  exists c, c ∈ contact_change_requests (w_db w) /\ c_request_id c = rid /\ c_user_id c = ac_user_id claims /\
    c_state c = "pending" /\ w_now w < c_expires_at c /\ code_hash_of p c = _otp_hash code /\
    is_Some (verified_of (match p with OLD => NEW | NEW => OLD end) c) /\
    (forall u, u ∈ users (w_db w') -> u_user_id u = ac_user_id claims ->
       (if c_contact_type c == contact_value EMAIL then u_email u else u_phone_e164 u) = Some (c_new_value c)) /\
    (forall i, i ∈ identities (w_db w') -> i_user_id i = ac_user_id claims ->
       i_provider i = (if c_contact_type c == contact_value EMAIL then "password" else "phone") ->
       i_provider_subject i = c_new_value c) /\
    signed_out (ac_user_id claims) (w_db w').
Proof.
  intros I H Hna Hap. unfold verify_contact_change in H. step_in H x w1 Hx. unfold require_recent_mfa, raise_if in Hx.
  destruct (negb _); [done|]. injection Hx as _ <-. destruct (negb (matches_six_digits code)); run_in H; [done|].
  step_in H o w2 Hv. destruct o as [r|]; run_in H; [|done]. step_in H y w3 Hrest. injection H as -> <-.
  apply verify_block_inr in Hv as (c & Hin & Hr & Hu & Hst & Hx & Hc & [[Ha _]|[Ho (row & Hdb)]]).
  { exfalso. apply Hap. rewrite Ha. by apply Hna. }
  destruct (cc_applied_at record) as [t|]; [|done]. cbn [is_some is_none negb] in Hrest.
  step_in Hrest n w4 Hrev. step_in Hrest y1 w5 Hm1. apply changed_mail in Hm1 as (H1 & _). apply changed_mail in Hrest as (H2 & _).
  assert (I2 : session_inv (w_db w2)) by (rewrite Hdb; by eapply session_inv_ext; [..|exact I]).
  pose proof (revoker_frame _ _ _ _ _ Hrev) as (Hsa & _). apply (revoker_ends _ _ _ _ _ I2) in Hrev. rewrite Hdb in Hsa.
  exists c. rewrite H2, H1. split_and!; try done.
  - intros u. rewrite <- (sa_users _ _ Hsa). intros (u0 & _ & ->)%elem_of_update Hid.
    destruct (u_user_id u0 == ac_user_id claims) eqn:E0; [|by to_prop].
    unfold new_contact. by destruct (c_contact_type c == contact_value EMAIL).
  - intros i. rewrite <- (sa_identities _ _ Hsa). intros (i0 & _ & ->)%elem_of_update Hid Hpr.
    match goal with |- context [if ?b then _ else _] => destruct b eqn:E0; [done|] end.
    by rewrite Hid, Hpr, !eqb_refl in E0.
Qed.
End Properties.
