(* ===== verification/Wiring.v ===== *)
(** SessionControl keeps the promises of the port GlobalSessionRevoker. *)
From S2P Require Import Prelude PyText Entity Models RedisClient World RedisSecurity.
From S2P Require Import SessionInv SessionControl SessionControlProps Recovery.
From S2P Require SessionRepo.

Section Revoker.
Context {R : Type} {RC : RedisClient R} {E : Env}.
Implicit Types (w : World R).

#[export] Instance session_revoker : SessionRevoker R := {| revoke_access := revoke_user_access |}.

Lemma run_revoke_user_access u reason w :
  revoke_user_access u reason w
  = (inr (Z.of_nat (length (live_rows u (w_db w)))),
     with_redis (revoke_user_keys u (w_now w) (live_rows u (w_db w)) (w_redis w))
       (with_db (revoke_rows (w_now w) reason (live_rows u (w_db w)) (w_db w)) w)).
Proof.
  unfold revoke_user_access. run. rewrite (run_bind _ _ _ _ _ (run_revoke_all _ _ _ _)).
  rewrite (run_bind _ _ _ _ _ (run_revoke_user _ _ _)), (run_bind _ _ _ _ _ (run_apply_all _ _)).
  rewrite length_map. by destruct w.
Qed.

Lemma revoke_rows_accounts now reason l db : same_accounts db (revoke_rows now reason l db).
Proof.
  revert db. induction l as [|p l IH]; intros db; [by split|].
  cbn [revoke_rows List.fold_left]. destruct (IH (SessionRepo._revoke_locked p.2 p.1 now reason db)). by split.
Qed.

#[export] Instance session_revoker_laws : SessionRevokerLaws R.
Proof.
  split; cbn [revoke_access session_revoker].
  - intros u reason w. do 2 eexists. apply run_revoke_user_access.
  - intros u reason w n w' H. rewrite run_revoke_user_access in H. injection H as _ <-.
    split; [|done]. apply revoke_rows_accounts.
  - intros u reason w n w' I H. rewrite run_revoke_user_access in H. injection H as _ <-. split.
    + by apply revoke_rows_inv.
    + intros s Hs Hu. by apply (revoke_all_dead u reason (w_now w) (w_db w) s I).
Qed.
End Revoker.
