(* ===== verification/RecoveryDemo.v ===== *)
(** Concrete runs of recovery, over the sessions of SessionControl: the witnesses. *)
From S2P Require Import Prelude PyText Entity Models RedisClient World Providers RedisSecurity.
From S2P Require Import SessionInv SessionProps SessionControl SessionControlProps SessionDemo.
From S2P Require Import Recovery RecoveryInv RecoveryProps PasswordReset ContactChange Wiring.
From S2P Require RecoveryRepo.

Definition bob : UUID := test_uuid 201.
Definition carol : UUID := test_uuid 202.
Definition dave : UUID := test_uuid 203.
Definition staff_claims (u : UUID) (assurance : list string) : AccessClaims :=
  MkAccessClaims u (test_uuid 301) (test_uuid 302) (test_uuid 303) t0 (t0 + minutes 15) WEB assurance None None [].
Definition binding (n : N) (u : UUID) (role : StaffRole) : StaffRoleBinding :=
  MkStaffRoleBinding (test_uuid n) u (staff_value role) None (t0 - days 1) None.
Definition old_password : string := "argon2$correct horse battery".
Definition ann_password : Identity :=
  MkIdentity (test_uuid 401) demo_user "password" "ann@example.com" (Some old_password) true None (t0 - days 3).
Definition ann_totp : MFADevice :=
  MkMFADevice (test_uuid 402) demo_user "totp" (Some "secret") "active" None (Some (t0 - days 2)) None None None.
Definition ann_link : EphemeralToken :=
  MkEphemeralToken (test_uuid 403) (Some demo_user) (_token_hash "link") "password_reset" [] t0 (t0 + minutes 15) None.
Definition ann_change : ContactChangeRequest :=
  MkContactChangeRequest (test_uuid 404) demo_user "email" "ann@example.com" "ann@new.example.com"
    (_otp_hash "111111") (_otp_hash "222222") "pending" t0 (t0 + minutes 10) None (Some t0) None.
Definition approved_reset (version : Z) : GovernedRequest :=
  MkGovernedRequest (test_uuid 405) None "mfa_reset" demo_user bob (Some carol) "approved" (t0 - hours 13)
    (t0 - hours 1) (Some (t0 - hours 2)) None version (Some "T-1").

(** Ann is signed in; her account has a password, a TOTP device, an unused reset link and a
    contact change with one proof given; a governed reset waits for execution. *)
Definition recovery_db (version : Z) (db : Db) : Db :=
  db <| identities := [ann_password] |> <| mfa_devices := [ann_totp] |> <| ephemeral_tokens := [ann_link] |>
     <| contact_change_requests := [ann_change] |> <| governed_requests := [approved_reset version] |>
     <| staff_role_bindings := [binding 501 bob SUPPORT_AGENT_L2; binding 502 carol SECURITY_SUPERVISOR_L3;
                                binding 503 dave ACCOUNT_ADMIN] |>
     <| password_history := [MkPasswordHistory (test_uuid 406) (test_uuid 401) old_password (t0 - days 2)] |>.
Definition recovery_world : World mem_redis := with_db (recovery_db 1 (w_db open_world)) (soon open_world).
Lemma recovery_db_inv version db : session_inv db -> session_inv (recovery_db version db).
Proof. by apply session_inv_ext. Qed.
Lemma inv_with_db {R} db (w : World R) : session_inv db -> session_inv (w_db (with_db db w)).
Proof. done. Qed.
Lemma recovery_inv : session_inv (w_db recovery_world).
Proof. unfold recovery_world. apply inv_with_db, recovery_db_inv. exact open_inv. Qed.

Lemma executed_reset_effect_witness : exists record w',
  execute_mfa_reset (staff_claims carol ["totp"]) (test_uuid 405) cid recovery_world = (inr record, w') /\
  signed_out demo_user (w_db w').
Proof.
  assert (ok : match (execute_mfa_reset (staff_claims carol ["totp"]) (test_uuid 405) cid recovery_world).1 with inr _ => true | _ => false end = true)
    by (vm_compute; reflexivity).
  returned ok record w' E. exists record, w'. split; [reflexivity|].
  destruct (executed_reset_effect _ _ _ _ record w' recovery_inv E) as (g & u & Hg & _ & _ & _ & _ & _ & _ & _ & Hs & _).
  assert (Hd : g_target_user_id g = demo_user).
  { assert (Hx : RecoveryRepo.mfa_reset_request (test_uuid 405) (w_db recovery_world) = Some (approved_reset 1))
      by (vm_compute; reflexivity). rewrite Hg in Hx. by injection Hx as ->. }
  rewrite Hd in Hs. exact Hs.
Defined.

Lemma staff_authorisation_witness :
  serve (Q_approve_mfa_reset (staff_claims bob ["totp"]) (test_uuid 405) cid) recovery_world = (inl _forbidden, recovery_world) /\
  serve (Q_approve_mfa_reset (staff_claims carol ["password"]) (test_uuid 405) cid) recovery_world
    = (inl recent_mfa_required, recovery_world).
Proof.
  split.
  - refine (staff_authorisation (Q_approve_mfa_reset (staff_claims bob ["totp"]) (test_uuid 405) cid) _ _ recovery_world eq_refl _).
    vm_compute. reflexivity.
  - refine (staff_authorisation (Q_approve_mfa_reset (staff_claims carol ["password"]) (test_uuid 405) cid) _ _ recovery_world eq_refl _).
    vm_compute. reflexivity.
Defined.

Definition changed_world : World mem_redis := with_db (recovery_db 7 (w_db open_world)) (soon open_world).
Lemma changed_target_blocks_witness :
  execute_mfa_reset (staff_claims carol ["totp"]) (test_uuid 405) cid changed_world
  = (inl RecoveryRepo.target_changed_after_approval, changed_world).
Proof.
  refine (proj2 (changed_target_blocks (staff_claims carol ["totp"]) (test_uuid 405) cid changed_world (approved_reset 7) ann _ _ _ _) _ _ _).
  - vm_compute. reflexivity.
  - vm_compute. reflexivity.
  - vm_compute. reflexivity.
  - vm_compute. discriminate.
  - reflexivity.
  - by exists carol.
  - vm_compute. discriminate.
Defined.

Lemma suspension_is_final_witness : exists w',
  suspend (staff_claims dave ["passkey"]) demo_user "T-2" "fraud" cid recovery_world = (inr (), w') /\
  signed_out demo_user (w_db w') /\
  suspended demo_user (w_db (run_at serve [(t0 + minutes 1, Q_reset_password "link" "a long new password" cid);
    (t0 + minutes 2, Q_unlock (staff_claims bob ["totp"]) demo_user "T-3" cid)] w').2).
Proof.
  assert (ok : match (suspend (staff_claims dave ["passkey"]) demo_user "T-2" "fraud" cid recovery_world).1 with inr _ => true | _ => false end = true)
    by (vm_compute; reflexivity).
  returned ok u w' E. destruct u. exists w'. split; [reflexivity|].
  destruct (suspension_is_final _ _ _ _ _ _ w' recovery_inv E) as [Hs Hq]. split; [exact Hs|]. apply Hq.
Defined.

Abbreviation resetting := (reset_password "link" "a long new password" cid recovery_world).
Lemma resetting_ok : match resetting.1 with inr _ => true | _ => false end = true.
Proof. vm_compute. reflexivity. Qed.
Lemma password_reset_single_use_witness : exists w' err,
  resetting = (inr (), w') /\ signed_out demo_user (w_db w') /\
  (reset_password "link" "another long password" cid (at_time (t0 + minutes 1) w')).1 = inl err.
Proof.
  returned resetting_ok u w' E. destruct u. exists w'.
  destruct (password_reset_single_use _ _ _ _ w' recovery_inv E) as (e & uid & i & He & Hu & _ & _ & _ & _ & _ & Hs & Hq).
  destruct (Hq (t0 + minutes 1) "another long password" cid) as [err Herr]. exists err. split; [reflexivity|].
  assert (Hx : reset_token (_token_hash "link") (w_db recovery_world) = Some ann_link) by (vm_compute; reflexivity).
  rewrite He in Hx. injection Hx as ->. injection Hu as <-. split; [exact Hs|exact Herr].
Defined.
Lemma password_history_bounded_witness : exists w' i,
  resetting = (inr (), w') /\
  (count_ (fun h => ph_identity_id h == i) (password_history (w_db w')) <= 4)%nat.
Proof.
  returned resetting_ok u w' E. destruct u. exists w'.
  destruct (password_history_bounded _ _ _ _ w' recovery_inv E) as (uid & i & _ & Hc). exists (i_identity_id i).
  split; [reflexivity|exact Hc].
Defined.

Lemma fresh_ok : link_is_fresh recovery_world = true.
Proof. vm_compute. reflexivity. Qed.
Lemma first_hits :
  (PASSWORD_RESET_LIMIT <? hit_count "Ann@Example.com " (w_now recovery_world) (w_redis recovery_world)) = false /\
  (PASSWORD_RESET_LIMIT <? hit_count "nobody@example.com" (w_now recovery_world) (w_redis recovery_world)) = false.
Proof. vm_compute. split; reflexivity. Qed.
Lemma reset_request_is_silent_witness :
  (request_password_reset "Ann@Example.com " cid recovery_world).1 = inr () /\
  (request_password_reset "nobody@example.com" cid recovery_world).1 = inr ().
Proof.
  split.
  - destruct (reset_request_is_silent "Ann@Example.com " cid recovery_world fresh_ok) as [H _].
    rewrite (proj1 first_hits) in H. exact H.
  - destruct (reset_request_is_silent "nobody@example.com" cid recovery_world fresh_ok) as [H _].
    rewrite (proj2 first_hits) in H. exact H.
Defined.

Definition ann_strong : AccessClaims := staff_claims demo_user ["totp"].
Abbreviation starting := (start_contact_change ann_strong EMAIL "Ann@Other.example.com" cid recovery_world).
Lemma starting_ok : match starting.1 with inr _ => true | _ => false end = true.
Proof. vm_compute. reflexivity. Qed.
Definition wrong_new (record : ContactChangeRecord) : list (Time * RecoveryRequest) :=
  [(t0 + minutes 1, Q_verify_contact_change ann_strong (cc_request_id record) OLD (drawn_code OLD recovery_world) cid);
   (t0 + minutes 2, Q_verify_contact_change ann_strong (cc_request_id record) NEW "999999" cid)].
Lemma contact_change_needs_both_codes_witness : exists record w',
  starting = (inr record, w') /\
  forall c, c ∈ contact_change_requests (w_db (run_at serve (wrong_new record) w').2) ->
    c_request_id c = cc_request_id record -> c_applied_at c = None.
Proof.
  returned starting_ok record w' E. exists record, w'. split; [reflexivity|].
  refine (contact_change_needs_both_codes _ _ _ _ _ record w' NEW (wrong_new record) E _).
  intros t k code c Hin. apply list_elem_of_In in Hin as [Hin|[Hin|[]]]; [discriminate Hin|].
  injection Hin as _ _ <- _. vm_compute. discriminate.
Defined.

Abbreviation applying := (verify_contact_change ann_strong (test_uuid 404) OLD "111111" cid recovery_world).
Lemma applying_ok :
  match applying.1 with inr r => match cc_applied_at r with Some _ => true | None => false end | _ => false end = true.
Proof. vm_compute. reflexivity. Qed.
Lemma contact_change_applies_witness : exists record w',
  applying = (inr record, w') /\ signed_out demo_user (w_db w') /\
  forall u, u ∈ users (w_db w') -> u_user_id u = demo_user -> u_email u = Some "ann@new.example.com".
Proof.
  pose proof applying_ok as ok. destruct applying as [[?|record] w'] eqn:E; [discriminate ok|].
  exists record, w'. split; [reflexivity|].
  destruct (contact_change_applies _ _ _ _ _ _ record w' recovery_inv E) as (c & Hin & _ & _ & _ & _ & _ & _ & Hu & _ & Hs).
  - intros c Hin _. apply list_elem_of_In in Hin as [<-|[]]. reflexivity.
  - cbn [fst] in ok. destruct (cc_applied_at record); [discriminate|discriminate ok].
  - split; [exact Hs|]. intros u Hin' Hid. apply list_elem_of_In in Hin as [<-|[]]. exact (Hu u Hin' Hid).
Defined.

(** A reset from its initiation to its execution, with the twelve hours in between. *)
Definition empty_governed : World mem_redis :=
  with_db ((w_db recovery_world) <| governed_requests := [] |>) recovery_world.
Definition reset_id : UUID :=
  match (initiate_mfa_reset (staff_claims bob ["totp"]) demo_user "T-9" cid (at_time t0 empty_governed)).1 with
  | inr r => gr_request_id r | inl _ => cid end.
Definition reset_requests : list (Time * RecoveryRequest) :=
  [(t0, Q_initiate_mfa_reset (staff_claims bob ["totp"]) demo_user "T-9" cid);
   (t0 + hours 1, Q_approve_mfa_reset (staff_claims carol ["totp"]) reset_id cid);
   (t0 + hours 12, Q_execute_mfa_reset (staff_claims carol ["totp"]) reset_id cid)].
Abbreviation executed_requests :=
  (governed_requests (w_db (run_at serve reset_requests empty_governed).2)).
Lemma executed_ok : match executed_requests with
  | [g] => (g_request_type g == "mfa_reset") && (g_state g == "executed") | _ => false end = true.
Proof. vm_compute. reflexivity. Qed.
Lemma none_governed : governed_requests (w_db empty_governed) = [].
Proof. vm_compute. reflexivity. Qed.
Lemma governed_reset_four_eyes_witness : exists g approver,
  g ∈ executed_requests /\ g_approver_user_id g = Some approver /\ approver <> g_initiator_user_id g.
Proof.
  pose proof executed_ok as ok. revert ok. destruct executed_requests as [|g [|]] eqn:El; intros ok; [discriminate ok| |discriminate ok].
  apply andb_true_iff in ok as [Ht Hs]. apply bool_decide_eq_true in Ht, Hs.
  assert (Hg : g ∈ executed_requests) by (rewrite El; left). clear El.
  destruct (governed_reset_four_eyes reset_requests empty_governed g none_governed Hg Ht Hs) as (a & t & Ha & Hne & _).
  exists g, a. split; [left|]. split; assumption.
Defined.
