(* ===== verification/MfaRepo.v ===== *)
(** [infrastructure/persistence/mfa_repository.py]: profiles, factors, backup codes and passkeys in
    the database. *)
From S2P Require Import Prelude PyText Entity Models RedisClient World Encoding.

(** [_factor], [_passkey]. *)
Definition _factor (item : MFADevice) : MFAFactor :=
  MkMFAFactor (m_mfa_id item) (m_user_id item) (m_factor_type item) (m_status item) (m_label item)
    (m_encrypted_secret item) (m_last_totp_step item).
Definition _passkey (credential : WebAuthnCredential) (factor : MFADevice) : StoredPasskey :=
  MkStoredPasskey (w_credential_id credential) (m_mfa_id factor) (m_user_id factor) (w_public_key credential)
    (w_sign_count credential) (w_transports credential) (w_backup_eligible credential) (w_backup_state credential).

(** ** The selections and the writes *)

Definition is_active_device (user_id : UUID) (m : MFADevice) : bool :=
  (m_user_id m == user_id) && (m_status m == "active").
Definition active_devices (user_id : UUID) (db : Db) : list MFADevice :=
  where_ (is_active_device user_id) (mfa_devices db).
Definition pending_totp (user_id : UUID) (m : MFADevice) : bool :=
  (m_user_id m == user_id) && (m_factor_type m == "totp") && (m_status m == "pending").
Definition active_backup (user_id : UUID) (m : MFADevice) : bool :=
  (m_user_id m == user_id) && (m_factor_type m == "backup_codes") && (m_status m == "active").
(** The row of the backup codes of a user, with its text. *)
Definition backup_row (user_id : UUID) (db : Db) : option (MFADevice * string) :=
  factor ← scalar (active_backup user_id) (mfa_devices db);
  encoded ← m_encrypted_secret factor; Some (factor, encoded).
Definition set_device (mfa_id : UUID) (f : MFADevice -> MFADevice) (db : Db) : Db :=
  db <| mfa_devices ::= update_ (fun m => m_mfa_id m == mfa_id) f |>.
Definition set_devices (P : MFADevice -> bool) (f : MFADevice -> MFADevice) (db : Db) : Db :=
  db <| mfa_devices ::= update_ P f |>.
Definition set_credentials (P : WebAuthnCredential -> bool) (f : WebAuthnCredential -> WebAuthnCredential) (db : Db) : Db :=
  db <| webauthn_credentials ::= update_ P f |>.
Definition revoked (now : Time) (m : MFADevice) : MFADevice :=
  m <| m_status := "revoked" |> <| m_revoked_at := Some now |>.
Definition activated (now : Time) (step : Z) (m : MFADevice) : MFADevice :=
  m <| m_status := "active" |> <| m_verified_at := Some now |> <| m_last_used_at := Some now |>
    <| m_last_totp_step := Some step |>.
Definition advanced (now : Time) (step : Z) (m : MFADevice) : MFADevice :=
  m <| m_last_totp_step := Some step |> <| m_last_used_at := Some now |>.
Definition with_codes (hashes : list string) (m : MFADevice) : MFADevice :=
  m <| m_encrypted_secret := Some (dumps hashes) |>.
Definition never_used (m : MFADevice) : MFADevice := m <| m_last_used_at := None |>.
Definition used_at (now : Time) (m : MFADevice) : MFADevice := m <| m_last_used_at := Some now |>.
Definition counted (count : Z) (backup_state : bool) (c : WebAuthnCredential) : WebAuthnCredential :=
  c <| w_sign_count := count |> <| w_backup_state := backup_state |>.
(** [hashes.remove(match)]: the first occurrence goes. *)
Fixpoint remove_first (x : string) (l : list string) : list string :=
  match l with [] => [] | y :: l => if y == x then l else y :: remove_first x l end.

Lemma backup_row_Some user_id db m enc : backup_row user_id db = Some (m, enc) ->
  scalar (active_backup user_id) (mfa_devices db) = Some m /\ m_encrypted_secret m = Some enc.
Proof.
  unfold backup_row. intros (m' & Hm & (e' & He & [= <- <-])%bind_Some)%bind_Some. done.
Qed.

Section Repository.
Context {R : Type} {E : Env}.
Abbreviation M := (prog R).

Definition user_profile (user_id : UUID) : M (option MFAUserProfile) :=
  db ← get_db;
  mret (user ← scalar (fun u => u_user_id u == user_id) (users db);
        if is_some (u_anonymized_at user) then None else
        let verified := where_ (fun i => (i_user_id i == user_id) && i_verified i) (identities db) in
        let has_email_identity := existsb (fun i => i_provider i is_in ["password"; "google"; "apple"; "microsoft"]) verified in
        let has_phone_identity := existsb (fun i => i_provider i == "phone") verified in
        Some (MkMFAUserProfile (u_user_id user) (u_state user)
                (if has_email_identity then u_email user else None)
                (if has_phone_identity then u_phone_e164 user else None))).

Definition password_hash (user_id : UUID) : M (option string) :=
  db ← get_db;
  mret (identity_ ← scalar (fun i => (i_user_id i == user_id) && (i_provider i == "password") && i_verified i)
                     (identities db);
        i_password_hash identity_).

Definition active_factors (user_id : UUID) : M (list MFAFactor) :=
  db ← get_db; mret (List.map _factor (active_devices user_id db)).

Definition create_pending_totp (user_id : UUID) (encrypted_secret label : string) : M MFAFactor :=
  tx (
    now ← now_utc;
    modify_db (set_devices (pending_totp user_id) (revoked now));;
    mfa_id ← new_uuid4;
    let created := MkMFADevice mfa_id user_id "totp" (Some encrypted_secret) "pending" (Some label) None None None None in
    add_row mfa_devices mfa_device_valid mfa_device_conflict created;;
    mret (_factor created)).

Definition factor (user_id mfa_id : UUID) : M (option MFAFactor) :=
  db ← get_db;
  mret (_factor <$> scalar (fun m => (m_user_id m == user_id) && (m_mfa_id m == mfa_id)) (mfa_devices db)).

Definition activate_totp (user_id mfa_id : UUID) (accepted_step : Z) : M bool :=
  tx (
    db ← get_db;
    match scalar (fun m => pending_totp user_id m && (m_mfa_id m == mfa_id)) (mfa_devices db) with
    | None => mret false
    | Some _ =>
      now ← now_utc;
      modify_db (set_device mfa_id (activated now accepted_step));;
      mret true
    end).

Definition advance_totp_step (mfa_id : UUID) (previous_step : option Z) (accepted_step : Z) : M bool :=
  tx (
    now ← now_utc;
    db ← get_db;
    let P := fun m => (m_mfa_id m == mfa_id) && (m_status m == "active") && (m_last_totp_step m == previous_step) in
    modify_db (set_devices P (advanced now accepted_step));;
    mret (row_exists P (mfa_devices db))).

Definition store_backup_codes (user_id : UUID) (hashes : list string) : M unit :=
  tx (
    db ← get_db;
    match scalar (active_backup user_id) (mfa_devices db) with
    | None =>
      mfa_id ← new_uuid4;
      now ← now_utc;
      add_row mfa_devices mfa_device_valid mfa_device_conflict
        (MkMFADevice mfa_id user_id "backup_codes" (Some (dumps hashes)) "active" (Some "Recovery codes")
           (Some now) None None None)
    | Some factor =>
      modify_db (set_device (m_mfa_id factor) (with_codes hashes));;
      modify_db (set_device (m_mfa_id factor) never_used)
    end).

Definition consume_backup_code (user_id : UUID) (candidate_hash : string) : M bool :=
  tx (
    db ← get_db;
    match backup_row user_id db with
    | None => mret false
    | Some (factor, encoded) =>
      hashes ← get_or ValueError (loads encoded);
      if negb (candidate_hash is_in hashes) then mret false else
      now ← now_utc;
      let hashes := remove_first candidate_hash hashes in
      modify_db (set_device (m_mfa_id factor) (with_codes hashes));;
      modify_db (set_device (m_mfa_id factor) (used_at now));;
      (if hashes == [] then modify_db (set_device (m_mfa_id factor) (revoked now)) else mret ());;
      mret true
    end).

(** Credentials joined with their device. *)
Definition passkey_rows (P : WebAuthnCredential -> MFADevice -> bool) (db : Db) : list (WebAuthnCredential * MFADevice) :=
  join_on (fun c m => (m_mfa_id m == w_mfa_id c) && P c m) (webauthn_credentials db) (mfa_devices db).
Definition passkeys (user_id : UUID) : M (list StoredPasskey) :=
  db ← get_db;
  mret (List.map (fun p => _passkey p.1 p.2) (passkey_rows (fun _ m => is_active_device user_id m) db)).
Definition passkey (credential_id : string) : M (option StoredPasskey) :=
  db ← get_db;
  row ← one_row (passkey_rows (fun c m => (w_credential_id c == credential_id) && (m_status m == "active")) db);
  mret ((fun p => _passkey p.1 p.2) <$> row).

Definition create_passkey (user_id : UUID) (label credential_id public_key : string) (sign_count : Z)
    (transports : list string) (backup_eligible backup_state : bool) : M unit :=
  tx (
    mfa_id ← new_uuid4;
    now ← now_utc;
    add_row mfa_devices mfa_device_valid mfa_device_conflict
      (MkMFADevice mfa_id user_id "passkey" None "active" (Some label) (Some now) None None None);;
    add_row webauthn_credentials no_check webauthn_conflict
      (MkWebAuthnCredential credential_id mfa_id public_key sign_count transports backup_eligible backup_state)).

Definition update_passkey_counter (credential_id : string) (previous_count new_count : Z) (backup_state : bool)
    : M bool :=
  tx (
    db ← get_db;
    let P := fun c => (w_credential_id c == credential_id) && (w_sign_count c =? previous_count) in
    modify_db (set_credentials P (counted new_count backup_state));;
    mret (row_exists P (webauthn_credentials db))).

Definition revoke_factor (user_id mfa_id : UUID) : M bool :=
  tx (
    db ← get_db;
    match scalar (fun m => is_active_device user_id m && (m_mfa_id m == mfa_id)) (mfa_devices db) with
    | None => mret false
    | Some _ =>
      now ← now_utc;
      modify_db (set_device mfa_id (revoked now));;
      mret true
    end).

Definition link_oidc_identity (user_id : UUID) (provider subject : string) : M bool :=
  try_except
    (tx (identity_id ← new_uuid4;
         now ← now_utc;
         add_row identities identity_valid identity_conflict
           (MkIdentity identity_id user_id provider subject None true None now));;
     mret true)
    (fun err => match err with IntegrityError => Some (mret false) | _ => None end).

Definition mfa_audit (event_type outcome : string) (correlation_id : UUID) (user_id : option UUID)
    (metadata : dict) : M unit :=
  tx (insert_audit None user_id None event_type outcome correlation_id metadata).
End Repository.
