(* ===== verification/Mfa.v ===== *)
(** [control/mfa.py]: challenges, enrolment of factors, passkeys, backup codes and the completion of
    a login workflow. *)
From S2P Require Import Prelude PyText Entity Models RedisClient World Encoding Providers RedisSecurity.
From S2P Require WebAuthn MfaRepo.

Definition MFA_FAILURE_LIMIT : Z := 3.
Definition MFA_FAILURE_WINDOW : Z := 900.
Definition OTP_MAX_ATTEMPTS : Z := 3.
Definition OTP_REQUEST_LIMIT : Z := 3.
Definition OTP_REQUEST_WINDOW : Z := 60.
Definition BACKUP_CODE_COUNT : nat := 10.
Definition BACKUP_CODE_ALPHABET : string := "ABCDEFGHIJKLMNOPQRSTUVWXYZ0123456789".

Definition _workflow_invalid : exc :=
  MFAError Mfa_WORKFLOW_INVALID "This security workflow is invalid or expired." 400.
Definition _challenge_invalid : exc :=
  MFAError Mfa_CHALLENGE_INVALID "This security challenge is invalid or expired." 400.
Definition _code_invalid : exc := MFAError Mfa_CODE_INVALID "The security code is invalid or expired." 400.
Definition _factor_locked : exc :=
  MFAError Mfa_FACTOR_LOCKED "This security method is temporarily locked. Please wait and try again." 429.
Definition too_many_codes : exc :=
  MFAError Mfa_FACTOR_LOCKED "Too many security-code requests. Please wait and try again." 429.
Definition _method_unavailable : exc :=
  MFAError Mfa_METHOD_UNAVAILABLE "This security method is not available for the current workflow." 400.
Definition _enrollment_invalid : exc :=
  MFAError Mfa_ENROLLMENT_INVALID "This enrollment is invalid or expired." 400.
Definition _passkey_invalid : exc :=
  MFAError Mfa_PASSKEY_INVALID "The passkey response could not be verified." 400.
Definition last_factor : exc :=
  MFAError Mfa_LAST_FACTOR "Enroll another strong security method before removing this one." 409.
Definition _provider_unavailable : exc :=
  MFAError Mfa_PROVIDER_UNAVAILABLE "A required security-code service is temporarily unavailable." 503.

(** [_methods], in the order [available_methods] sorts them. *)
Definition methods_by_value : list MFAMethod := [BACKUP_CODE; EMAIL_OTP; PASSKEY; SMS_OTP; TOTP].
Definition _methods (has_email has_phone : bool) (factors : list MFAFactor) : list MFAMethod :=
  List.filter (fun m =>
    match m with
    | EMAIL_OTP => has_email
    | SMS_OTP => has_phone
    | TOTP => existsb (fun f => mf_factor_type f == "totp") factors
    | PASSKEY => existsb (fun f => mf_factor_type f == "passkey") factors
    | BACKUP_CODE => existsb (fun f => mf_factor_type f == "backup_codes") factors
    end) methods_by_value.

Definition is_strong (factor : MFAFactor) : bool := mf_factor_type factor is_in ["totp"; "passkey"].

(** [_mask_email]; an address without an at sign is the [ValueError] of the unpacking. *)
Definition _mask_email (email : string) : option string :=
  '(local, domain) ← split_once "@" email; Some (take_s 1 local +:+ "***@" +:+ domain).
Definition _otp_purpose (challenge_token : string) : string := "mfa:" +:+ challenge_token.
Definition phone_hint (phone : string) : string := "***" +:+ last_s 4 phone.
Definition is_hyphen (c : ascii) : bool := c == "-"%char.

(** A factor that is on record with a secret. *)
Definition with_secret (factor : option MFAFactor) : option (MFAFactor * string) :=
  factor ← factor; secret ← mf_encrypted_secret factor; Some (factor, secret).
Lemma with_secret_Some o factor secret : with_secret o = Some (factor, secret) ->
  o = Some factor /\ mf_encrypted_secret factor = Some secret.
Proof. unfold with_secret. intros (f & -> & (s & Hs & [= <- <-])%bind_Some)%bind_Some. done. Qed.

(** The dict a completed factor stores for SessionControl. *)
Definition ready_payload (user_id : UUID) (method : string) : dict :=
  [("user_id", JStr (uuid_str user_id)); ("decision", JStr "session_ready"); ("assurance", JStr "mfa");
   ("mfa_method", JStr method)].

Section Control.
Context {R : Type} {RC : RedisClient R} {E : Env}.
Abbreviation M := (prog R).

Definition _otp_hash (code : string) : string := hmac_sha256 otp_hmac_secret code.
Definition _backup_hash (code : string) : string :=
  hmac_sha256 backup_code_hmac_secret (upper (str_filter (fun c => negb (is_hyphen c)) code)).

(** [UUID(str(payload[key]))]. *)
Definition payload_uuid (key : string) (payload : dict) : M UUID :=
  match jget key payload with
  | None => raise KeyError
  | Some (JStr s) => get_or ValueError (uuid_parse s)
  | Some _ => raise ValueError
  end.
Definition payload_method (payload : dict) : M MFAMethod :=
  match jget "method" payload with
  | None => raise KeyError
  | Some (JStr s) => get_or ValueError (MFAMethod_of s)
  | Some _ => raise ValueError
  end.
Definition payload_workflow (payload : dict) : M dict := get_or KeyError (jobj "workflow" payload).
Definition has_purpose (purpose : string) (payload : option dict) : bool :=
  match payload with Some d => bool_decide (jget "purpose" d = Some (JStr purpose)) | None => false end.

Definition _workflow (token : string) : M (dict * UUID) :=
  payload ← get_login_workflow token;
  payload ← get_or _workflow_invalid payload;
  user_id ← get_or _workflow_invalid (juuid "user_id" payload);
  mret (payload, user_id).

Definition _active_profile (user_id : UUID) : M MFAUserProfile :=
  profile ← MfaRepo.user_profile user_id;
  profile ← get_or _workflow_invalid profile;
  raise_if (mp_state profile != "active") _workflow_invalid;;
  mret profile.

Definition has_mfa_assurance (workflow : dict) : bool := bool_decide (jget "assurance" workflow = Some (JStr "mfa")).
Definition _require_mfa_assurance (workflow : dict) : M unit :=
  raise_if (negb (has_mfa_assurance workflow)) _workflow_invalid.

Definition _require_enrollment_assurance (workflow : dict) (user_id : UUID) : M unit :=
  factors ← MfaRepo.active_factors user_id;
  if existsb is_strong factors then _require_mfa_assurance workflow else mret ().

(** [consumed = await consume_login_workflow(token); if consumed is None: raise]. *)
Definition consume_workflow (token : string) : M dict :=
  consumed ← consume_login_workflow token; get_or _workflow_invalid consumed.

Definition _complete (user_id : UUID) (workflow : dict) (method : string) (correlation_id : UUID)
    : M MFACompletion :=
  if bool_decide (jget "decision" workflow = Some (JStr "collision_proof_required")) then
    '(provider, subject) ← get_or _workflow_invalid
      (provider ← jstr "oidc_provider" workflow; subject ← jstr "oidc_subject" workflow; Some (provider, subject));
    linked ← MfaRepo.link_oidc_identity user_id provider subject;
    raise_if (negb linked) _workflow_invalid;;
    MfaRepo.mfa_audit "OIDC_ACCOUNT_COLLISION_RESOLVED" "success" correlation_id (Some user_id)
      [("method", JStr method); ("provider", JStr provider)];;
    mret (MkMFACompletion IDENTITY_LINKED None [])
  else
    token ← new_token_urlsafe 32;
    store_login_workflow token (ready_payload user_id method);;
    MfaRepo.mfa_audit "MFA_VERIFIED" "success" correlation_id (Some user_id) [("method", JStr method)];;
    mret (MkMFACompletion MFA_SESSION_READY (Some token) []).

(** [secrets.choice(BACKUP_CODE_ALPHABET)]. *)
Definition choose_char : M ascii :=
  d ← draw;
  mret (or_else (String.get (N.to_nat (randbelow (N.of_nat (String.length BACKUP_CODE_ALPHABET)) d))
                   BACKUP_CODE_ALPHABET) "A"%char).
Definition of_chars (l : list ascii) : string := List.fold_right String EmptyString l.
Definition _new_backup_code : M string :=
  raw ← map_m (fun _ => choose_char) (List.seq 0 16);
  let raw := of_chars raw in
  mret (String.concat "-" (List.map (fun index => take_s 4 (drop_s index raw)) [0; 4; 8; 12]%nat)).
Definition _ensure_backup_codes (user_id : UUID) : M (list string) :=
  factors ← MfaRepo.active_factors user_id;
  if existsb (fun item => mf_factor_type item == "backup_codes") factors then mret [] else
  codes ← map_m (fun _ => _new_backup_code) (List.seq 0 BACKUP_CODE_COUNT);
  MfaRepo.store_backup_codes user_id (List.map _backup_hash codes);;
  mret codes.

Definition _send_otp (challenge_token : string) (user_id : UUID) (method : MFAMethod) (email phone : option string)
    : M unit :=
  subject ← get_or _method_unavailable (str_or email phone);
  count ← increment_rate_limit ("mfa_" +:+ method_value method) subject OTP_REQUEST_WINDOW;
  raise_if (OTP_REQUEST_LIMIT <? count) too_many_codes;;
  d ← draw;
  let code := dec_digits 6 (randbelow 1000000 d) "" in
  store_otp_hash user_id (_otp_purpose challenge_token) (_otp_hash code);;
  try_except
    (match email, phone with
     | Some address, _ => if nonempty address then send_email_code address code else
                          match phone with Some p => if nonempty p then send_sms_code p code else mret () | None => mret () end
     | None, Some p => if nonempty p then send_sms_code p code else mret ()
     | None, None => mret ()
     end)
    (fun _ => Some (consume_otp user_id (_otp_purpose challenge_token);; raise _provider_unavailable)).

Definition _record_factor_failure (factor_id : UUID) : M unit :=
  count ← increment_rate_limit "mfa_factor_failure" (uuid_str factor_id) MFA_FAILURE_WINDOW;
  if MFA_FAILURE_LIMIT <=? count then lock_factor factor_id else mret ().

(** [_record_failure], without the exception it ends in. *)
Definition count_failure (challenge_token : string) (user_id : UUID) (method : MFAMethod) (payload : dict) : M unit :=
  if method == TOTP then
    factor_id ← payload_uuid "factor_id" payload;
    _record_factor_failure factor_id
  else
    count ← increment_rate_limit "mfa_challenge_failure" (uuid_str user_id) MFA_FAILURE_WINDOW;
    if MFA_FAILURE_LIMIT <=? count then _ ← consume_mfa_challenge challenge_token; mret () else mret ().
Definition _record_failure (challenge_token : string) (user_id : UUID) (method : MFAMethod) (payload : dict) : M unit :=
  count_failure challenge_token user_id method payload;; raise _code_invalid.

Definition _verify_totp (payload : dict) (code : string) : M bool :=
  factor_id ← payload_uuid "factor_id" payload;
  locked ← factor_is_locked factor_id;
  raise_if locked _factor_locked;;
  user_id ← payload_uuid "user_id" payload;
  factor ← MfaRepo.factor user_id factor_id;
  match with_secret factor with
  | None => mret false
  | Some (factor, encrypted) =>
    if mf_status factor != "active" then mret false else
    secret ← cipher_decrypt encrypted (uuid_hex user_id);
    now ← now_utc;
    match totp_verify secret code (mf_last_totp_step factor) now with
    | None => mret false
    | Some accepted_step => MfaRepo.advance_totp_step (mf_mfa_id factor) (mf_last_totp_step factor) accepted_step
    end
  end.

(** ** The operations *)

Definition available_methods (workflow_token : string) : M (list MFAMethod) :=
  '(workflow, user_id) ← _workflow workflow_token;
  profile ← _active_profile user_id;
  factors ← MfaRepo.active_factors user_id;
  mret (_methods (is_some (mp_email profile)) (is_some (mp_phone_e164 profile)) factors).

Definition list_factors (workflow_token : string) : M (list MFAFactorSummary) :=
  '(workflow, user_id) ← _workflow workflow_token;
  _require_mfa_assurance workflow;;
  _ ← _active_profile user_id;
  factors ← MfaRepo.active_factors user_id;
  mret (List.map (fun item => MkMFAFactorSummary (mf_mfa_id item) (mf_factor_type item) (mf_label item)) factors).

Definition revoke_factor (workflow_token : string) (factor_id : UUID) (correlation_id : option UUID)
    : M MFACompletion :=
  '(workflow, user_id) ← _workflow workflow_token;
  _require_mfa_assurance workflow;;
  factors ← MfaRepo.active_factors user_id;
  target ← get_or _method_unavailable (List.find (fun item => mf_mfa_id item == factor_id) factors);
  let strong_factors := List.filter is_strong factors in
  raise_if (is_strong target && (length strong_factors <=? 1)%nat) last_factor;;
  _ ← consume_workflow workflow_token;
  revoked ← MfaRepo.revoke_factor user_id factor_id;
  raise_if (negb revoked) _workflow_invalid;;
  event_id ← or_uuid4 correlation_id;
  MfaRepo.mfa_audit "MFA_FACTOR_REVOKED" "success" event_id (Some user_id)
    [("factor_type", JStr (mf_factor_type target))];;
  event_id ← or_uuid4 correlation_id;
  _complete user_id workflow "factor_management" event_id.

(** The code is sent and the hint given; TOTP notes its factor in the payload. *)
Definition prepare_challenge (token : string) (user_id : UUID) (method : MFAMethod) (profile : MFAUserProfile)
    (factors : list MFAFactor) (payload : dict) : M (dict * option string) :=
  match method with
  | TOTP =>
    factor ← get_or ValueError (List.find (fun item => mf_factor_type item == "totp") factors);
    mret (payload ++ [("factor_id", JStr (uuid_str (mf_mfa_id factor)))], None)
  | EMAIL_OTP =>
    match mp_email profile with
    | Some email =>
      if negb (nonempty email) then mret (payload, None) else
      hint ← get_or ValueError (_mask_email email);
      _send_otp token user_id method (Some email) None;; mret (payload, Some hint)
    | None => mret (payload, None)
    end
  | SMS_OTP =>
    match mp_phone_e164 profile with
    | Some phone =>
      if negb (nonempty phone) then mret (payload, None) else
      _send_otp token user_id method None (Some phone);; mret (payload, Some (phone_hint phone))
    | None => mret (payload, None)
    end
  | PASSKEY | BACKUP_CODE => mret (payload, None)
  end.

Definition issue_challenge (workflow_token : string) (method : MFAMethod) : M MFAChallenge :=
  '(workflow, user_id) ← _workflow workflow_token;
  profile ← _active_profile user_id;
  factors ← MfaRepo.active_factors user_id;
  let available := _methods (is_some (mp_email profile)) (is_some (mp_phone_e164 profile)) factors in
  raise_if (negb (method is_in available) || (method == PASSKEY)) _method_unavailable;;
  consumed ← consume_workflow workflow_token;
  token ← new_token_urlsafe 32;
  let payload := [("purpose", JStr "verify"); ("method", JStr (method_value method));
                  ("user_id", JStr (uuid_str user_id)); ("workflow", JObj consumed)] in
  '(payload, destination_hint) ← prepare_challenge token user_id method profile factors payload;
  store_mfa_challenge token payload;;
  mret (MkMFAChallenge token method destination_hint).

Definition resend_challenge (challenge_token : string) : M MFAChallenge :=
  payload ← get_mfa_challenge challenge_token;
  raise_if (negb (has_purpose "verify" payload)) _challenge_invalid;;
  payload ← get_or _challenge_invalid payload;
  method ← payload_method payload;
  raise_if (negb (method is_in [EMAIL_OTP; SMS_OTP])) _method_unavailable;;
  user_id ← payload_uuid "user_id" payload;
  profile ← _active_profile user_id;
  let email := if method == EMAIL_OTP then mp_email profile else None in
  let phone := if method == SMS_OTP then mp_phone_e164 profile else None in
  raise_if (is_none email && is_none phone) _method_unavailable;;
  _send_otp challenge_token user_id method email phone;;
  hint ← (if truthy email then h ← get_or ValueError (email ≫= _mask_email); mret (Some h)
          else if truthy phone then mret (phone_hint <$> phone) else mret None);
  mret (MkMFAChallenge challenge_token method hint).

Definition verify_challenge (challenge_token code : string) (correlation_id : option UUID) : M MFACompletion :=
  payload ← get_mfa_challenge challenge_token;
  raise_if (negb (has_purpose "verify" payload)) _challenge_invalid;;
  payload ← get_or _challenge_invalid payload;
  user_id ← payload_uuid "user_id" payload;
  method ← payload_method payload;
  valid ← match method with
          | TOTP => _verify_totp payload code
          | EMAIL_OTP | SMS_OTP =>
            outcome ← verify_and_consume_otp user_id (_otp_purpose challenge_token) (_otp_hash code) OTP_MAX_ATTEMPTS;
            mret (outcome =? 1)
          | BACKUP_CODE => MfaRepo.consume_backup_code user_id (_backup_hash code)
          | PASSKEY => mret false
          end;
  (if negb valid then _record_failure challenge_token user_id method payload else mret ());;
  consumed ← consume_mfa_challenge challenge_token;
  consumed ← get_or _challenge_invalid consumed;
  workflow ← payload_workflow consumed;
  event_id ← or_uuid4 correlation_id;
  _complete user_id workflow (method_value method) event_id.

(** [profile.email or profile.phone_e164 or str(user_id)]. *)
Definition account_name (profile : MFAUserProfile) (user_id : UUID) : string :=
  or_else (str_or (str_or (mp_email profile) (mp_phone_e164 profile)) (Some (uuid_str user_id))) "".

Definition setup_totp (workflow_token label : string) : M TOTPEnrollment :=
  '(workflow, user_id) ← _workflow workflow_token;
  profile ← _active_profile user_id;
  _require_enrollment_assurance workflow user_id;;
  consumed ← consume_workflow workflow_token;
  d ← draw;
  let secret := random_base32 d in
  encrypted ← cipher_encrypt secret (uuid_hex user_id);
  factor ← MfaRepo.create_pending_totp user_id encrypted label;
  token ← new_token_urlsafe 32;
  store_mfa_challenge token
    [("purpose", JStr "enroll_totp"); ("user_id", JStr (uuid_str user_id));
     ("factor_id", JStr (uuid_str (mf_mfa_id factor))); ("workflow", JObj consumed)];;
  mret (MkTOTPEnrollment token (provisioning_uri secret (account_name profile user_id)) secret).

Definition confirm_totp (enrollment_token code : string) (correlation_id : option UUID) : M MFACompletion :=
  payload ← get_mfa_challenge enrollment_token;
  raise_if (negb (has_purpose "enroll_totp" payload)) _enrollment_invalid;;
  payload ← get_or _enrollment_invalid payload;
  user_id ← payload_uuid "user_id" payload;
  factor_id ← payload_uuid "factor_id" payload;
  factor ← MfaRepo.factor user_id factor_id;
  '(factor, encrypted) ← get_or _enrollment_invalid (with_secret factor);
  raise_if (mf_status factor != "pending") _enrollment_invalid;;
  secret ← cipher_decrypt encrypted (uuid_hex user_id);
  now ← now_utc;
  accepted_step ← match totp_verify secret code None now with
                  | Some step => mret step
                  | None => _record_factor_failure factor_id;; raise _code_invalid
                  end;
  activated ← MfaRepo.activate_totp user_id factor_id accepted_step;
  raise_if (negb activated) _enrollment_invalid;;
  consumed ← consume_mfa_challenge enrollment_token;
  consumed ← get_or _enrollment_invalid consumed;
  backup_codes ← _ensure_backup_codes user_id;
  workflow ← payload_workflow consumed;
  event_id ← or_uuid4 correlation_id;
  completion ← _complete user_id workflow "totp_enrollment" event_id;
  mret (MkMFACompletion (mx_result completion) (mx_workflow_token completion) backup_codes).

Definition passkey_registration_options (workflow_token label : string) : M PasskeyOptions :=
  '(workflow, user_id) ← _workflow workflow_token;
  profile ← _active_profile user_id;
  _require_enrollment_assurance workflow user_id;;
  consumed ← consume_workflow workflow_token;
  existing ← MfaRepo.passkeys user_id;
  d ← draw;
  let '(options, challenge) := WebAuthn.registration_options d user_id (account_name profile user_id)
                                 (List.map sp_credential_id existing) in
  token ← new_token_urlsafe 32;
  store_webauthn_challenge token
    [("purpose", JStr "register"); ("user_id", JStr (uuid_str user_id)); ("label", JStr label);
     ("challenge", JStr (b64url_encode challenge)); ("workflow", JObj consumed)];;
  mret (MkPasskeyOptions token options).

(** [except Exception as error: raise self._passkey_invalid() from error]. *)
Definition or_passkey_invalid {A} (m : M A) : M A := try_except m (fun _ => Some (raise _passkey_invalid)).
Definition payload_challenge (payload : dict) : M string :=
  text ← get_or KeyError (jstr "challenge" payload); get_or ValueError (b64url_decode text).

Definition confirm_passkey_registration (challenge_token : string) (credential : dict) (correlation_id : option UUID)
    : M MFACompletion :=
  payload ← consume_webauthn_challenge challenge_token;
  raise_if (negb (has_purpose "register" payload)) _passkey_invalid;;
  payload ← get_or _passkey_invalid payload;
  user_id ← payload_uuid "user_id" payload;
  or_passkey_invalid (
    challenge ← payload_challenge payload;
    result ← get_or ValueError (WebAuthn.verify_registration credential challenge);
    label ← get_or KeyError (jstr "label" payload);
    MfaRepo.create_passkey user_id label (WebAuthn.vp_credential_id result) (WebAuthn.vp_public_key result)
      (WebAuthn.vp_sign_count result) (WebAuthn.vp_transports result) (WebAuthn.vp_backup_eligible result)
      (WebAuthn.vp_backup_state result));;
  backup_codes ← _ensure_backup_codes user_id;
  workflow ← payload_workflow payload;
  event_id ← or_uuid4 correlation_id;
  completion ← _complete user_id workflow "passkey_enrollment" event_id;
  mret (MkMFACompletion (mx_result completion) (mx_workflow_token completion) backup_codes).

Definition passkey_authentication_options (workflow_token : option string) : M PasskeyOptions :=
  '(workflow, credentials) ←
    match workflow_token with
    | Some workflow_token =>
      if negb (nonempty workflow_token) then mret (JNull, []) else
      '(workflow, user_id) ← _workflow workflow_token;
      credentials ← MfaRepo.passkeys user_id;
      raise_if (match credentials with [] => true | _ => false end) _method_unavailable;;
      consumed ← consume_workflow workflow_token;
      mret (JObj consumed, credentials)
    | None => mret (JNull, [])
    end;
  d ← draw;
  '(options, challenge) ← get_or ValueError (WebAuthn.authentication_options d credentials);
  token ← new_token_urlsafe 32;
  store_webauthn_challenge token
    [("purpose", JStr "authenticate"); ("challenge", JStr (b64url_encode challenge)); ("workflow", workflow)];;
  mret (MkPasskeyOptions token options).

Definition verify_passkey (challenge_token : string) (credential : dict) (correlation_id : option UUID)
    : M MFACompletion :=
  payload ← consume_webauthn_challenge challenge_token;
  raise_if (negb (has_purpose "authenticate" payload)) _passkey_invalid;;
  payload ← get_or _passkey_invalid payload;
  let workflow := jobj "workflow" payload in
  stored ← or_passkey_invalid (
    credential_id ← get_or ValueError (WebAuthn.credential_id credential);
    stored ← MfaRepo.passkey credential_id;
    stored ← get_or ValueError stored;
    raise_if (match workflow with
              | Some workflow => negb (bool_decide (jget "user_id" workflow = Some (JStr (uuid_str (sp_user_id stored)))))
              | None => false
              end) ValueError;;
    challenge ← payload_challenge payload;
    '(new_count, backup_state) ← get_or ValueError (WebAuthn.verify_authentication credential challenge stored);
    updated ← MfaRepo.update_passkey_counter credential_id (sp_sign_count stored) new_count backup_state;
    raise_if (negb updated) ValueError;;
    mret stored);
  let effective_workflow :=
    match workflow with
    | Some workflow => workflow
    | None => [("decision", JStr "passkey_primary"); ("user_id", JStr (uuid_str (sp_user_id stored)))]
    end in
  event_id ← or_uuid4 correlation_id;
  _complete (sp_user_id stored) effective_workflow "passkey" event_id.

Definition prove_collision_password (workflow_token password : string) (correlation_id : option UUID)
    : M MFACompletion :=
  '(workflow, user_id) ← _workflow workflow_token;
  raise_if (negb (bool_decide (jget "decision" workflow = Some (JStr "collision_proof_required")))) _workflow_invalid;;
  hash ← MfaRepo.password_hash user_id;
  raise_if (match hash with Some hash => negb (password_verify hash password) | None => true end) _code_invalid;;
  consumed ← consume_workflow workflow_token;
  event_id ← or_uuid4 correlation_id;
  _complete user_id consumed "password_reauthentication" event_id.
End Control.
