(* ===== verification/MfaProps.v ===== *)
(** What the MFA component guarantees: strong factors are not lost, TOTP codes, backup codes and
    challenges are used once. *)
From S2P Require Import Prelude PyText Entity Models RedisClient World Encoding Providers RedisSecurity.
From S2P Require Import Mfa.
From S2P Require MfaRepo.

Import MfaRepo(set_device, set_devices, revoked, activated, advanced, with_codes, never_used, used_at, pending_totp,
  active_backup, is_active_device, remove_first).

(** The requests of the MFA endpoints. *)
Inductive MfaRequest :=
| A_available (workflow_token : string)
| A_list (workflow_token : string)
| A_revoke (workflow_token : string) (factor_id : UUID) (correlation_id : option UUID)
| A_issue (workflow_token : string) (method : MFAMethod)
| A_resend (challenge_token : string)
| A_verify (challenge_token code : string) (correlation_id : option UUID)
| A_setup_totp (workflow_token label : string)
| A_confirm_totp (enrollment_token code : string) (correlation_id : option UUID)
| A_passkey_options (workflow_token label : string)
| A_confirm_passkey (challenge_token : string) (credential : dict) (correlation_id : option UUID)
| A_passkey_login (workflow_token : option string)
| A_verify_passkey (challenge_token : string) (credential : dict) (correlation_id : option UUID)
| A_prove_password (workflow_token password : string) (correlation_id : option UUID).

Definition mfa_serve {R} {RC : RedisClient R} {E : Env} (q : MfaRequest) : prog R unit :=
  match q with
  | A_available t => _ ← available_methods t; mret ()
  | A_list t => _ ← list_factors t; mret ()
  | A_revoke t f c => _ ← revoke_factor t f c; mret ()
  | A_issue t m => _ ← issue_challenge t m; mret ()
  | A_resend t => _ ← resend_challenge t; mret ()
  | A_verify t code c => _ ← verify_challenge t code c; mret ()
  | A_setup_totp t l => _ ← setup_totp t l; mret ()
  | A_confirm_totp t code c => _ ← confirm_totp t code c; mret ()
  | A_passkey_options t l => _ ← passkey_registration_options t l; mret ()
  | A_confirm_passkey t k c => _ ← confirm_passkey_registration t k c; mret ()
  | A_passkey_login t => _ ← passkey_authentication_options t; mret ()
  | A_verify_passkey t k c => _ ← verify_passkey t k c; mret ()
  | A_prove_password t p c => _ ← prove_collision_password t p c; mret ()
  end.

Definition device_ids (db : Db) : Prop := NoDup (List.map m_mfa_id (mfa_devices db)).

(** ** The writes of the repository, up to a property of the device table *)

Section Devices.
Context {R : Type} {RC : RedisClient R} {E : Env}.
Context (P : list MFADevice -> Prop).
Abbreviation Dev := (on_db (R := R) (fun db => P (mfa_devices db))).

(** The writes that may touch any property of the devices are those of a pending enrolment, the
    activation of one, a later step, the codes, a revocation and a new device. *)
Record device_frame : Prop := {
  df_retire u now t : P t -> P (update_ (pending_totp u) (revoked now) t);
  df_activate u mid now step t : P t -> scalar (fun m => pending_totp u m && (m_mfa_id m == mid)) t <> None ->
    P (update_ (fun m => m_mfa_id m == mid) (activated now step) t);
  df_advance mid prev now step t : (match prev with Some p => p < step | None => True end) -> P t ->
    P (update_ (fun m => (m_mfa_id m == mid) && (m_status m == "active") && (m_last_totp_step m == prev)) (advanced now step) t);
  df_codes mid f t : (forall m, m_mfa_id (f m) = m_mfa_id m /\ m_user_id (f m) = m_user_id m /\
      m_factor_type (f m) = m_factor_type m /\ m_status (f m) = m_status m /\ m_last_totp_step (f m) = m_last_totp_step m) ->
    P t -> P (update_ (fun m => m_mfa_id m == mid) f t);
  df_used_up u mid now t m : P t -> m ∈ t -> active_backup u m = true -> m_mfa_id m = mid ->
    P (update_ (fun m => m_mfa_id m == mid) (revoked now) t);
  df_add t m : P t -> mfa_device_conflict t m = false -> P (t ++ [m]) }.
Context (F : device_frame).

Ltac other_table := first [apply keeps_modify_db; intros; assumption | apply keeps_add_row; intros; assumption].

Lemma keeps_audit_dev et o c u m : keeps Dev (MfaRepo.mfa_audit et o c u m).
Proof. keeps_all; other_table. Qed.
Lemma keeps_link_dev u p s : keeps Dev (MfaRepo.link_oidc_identity u p s).
Proof. keeps_all; [other_table|]. intros []; intros; simplify_eq. keeps_all. Qed.
Lemma keeps_add_dev m : keeps Dev (add_row mfa_devices mfa_device_valid mfa_device_conflict m).
Proof. apply keeps_add_row. intros db I _ Hc. by apply F. Qed.
Hint Resolve keeps_audit_dev keeps_link_dev keeps_add_dev : auth.
Lemma keeps_create_totp_dev u s l : keeps Dev (MfaRepo.create_pending_totp u s l).
Proof. keeps_all. apply keeps_modify_db. intros db I. by apply F. Qed.
Lemma keeps_activate_dev u mid step : keeps Dev (MfaRepo.activate_totp u mid step).
Proof.
  apply keeps_commit. intros w x w' I H. run_in H. destruct (scalar _ _) as [m|] eqn:Em; [|by injection H as <- <-].
  run_in H. injection H as <- <-. apply (df_activate F u); [done|]. by rewrite Em.
Qed.
Lemma keeps_set_codes mid f : (forall m, m_mfa_id (f m) = m_mfa_id m /\ m_user_id (f m) = m_user_id m /\
      m_factor_type (f m) = m_factor_type m /\ m_status (f m) = m_status m /\ m_last_totp_step (f m) = m_last_totp_step m) ->
  keeps Dev (modify_db (set_device mid f)).
Proof. intros Hf. apply keeps_modify_db. intros db I. by apply F. Qed.
Lemma keeps_store_dev u hs : keeps Dev (MfaRepo.store_backup_codes u hs).
Proof. keeps_all; by apply keeps_set_codes. Qed.
Lemma keeps_consume_dev u h : keeps Dev (MfaRepo.consume_backup_code u h).
Proof.
  apply keeps_commit. intros w x w' I H. run_in H.
  destruct (MfaRepo.backup_row u (w_db w)) as [[m enc]|] eqn:Em; [|by injection H as <- <-].
  apply MfaRepo.backup_row_Some in Em as [[Hin Hb]%scalar_Some _].
  destruct (loads enc) as [hs|]; run_in H; [|done]. destruct (negb _); [by injection H as <- <-|].
  run_in H. set (m1 := with_codes (remove_first h hs) m) in *.
  assert (I1 : P (mfa_devices (set_device (m_mfa_id m) (with_codes (remove_first h hs)) (w_db w)))) by (by apply F).
  assert (I2 : P (mfa_devices (set_device (m_mfa_id m) (used_at (w_now w))
                (set_device (m_mfa_id m) (with_codes (remove_first h hs)) (w_db w))))) by (by apply F).
  destruct (remove_first h hs == []); [|by injection H as <- <-].
  run_in H. injection H as <- <-. apply (df_used_up F u _ _ _ (used_at (w_now w) m1)); [exact I2| |exact Hb|done].
  assert (H1 : m1 ∈ mfa_devices (set_device (m_mfa_id m) (with_codes (remove_first h hs)) (w_db w)))
    by exact (elem_of_update_hit (fun x => m_mfa_id x == m_mfa_id m) (with_codes (remove_first h hs)) _ _ Hin (eqb_refl _)).
  exact (elem_of_update_hit (fun x => m_mfa_id x == m_mfa_id m) (used_at (w_now w)) _ _ H1 (eqb_refl _)).
Qed.
Lemma keeps_create_passkey_dev u l c k n t b s : keeps Dev (MfaRepo.create_passkey u l c k n t b s).
Proof. keeps_all; other_table. Qed.
Lemma keeps_counter_dev c p n b : keeps Dev (MfaRepo.update_passkey_counter c p n b).
Proof. keeps_all; other_table. Qed.
Hint Resolve keeps_create_totp_dev keeps_activate_dev keeps_store_dev keeps_consume_dev
  keeps_create_passkey_dev keeps_counter_dev : auth.

(** The handlers, save the revocation of a factor. *)
Lemma keeps_send_dev t u m e p : keeps Dev (_send_otp t u m e p).
Proof. keeps_all; intros ? ? [= <-]; keeps_all. Qed.
Hint Resolve keeps_send_dev : auth.
Lemma keeps_verify_totp_dev payload code : keeps Dev (_verify_totp payload code).
Proof.
  keeps_all. apply keeps_modify_db. intros db I. apply (df_advance F); [|done].
  match goal with H : totp_verify _ _ _ _ = Some _ |- _ => by apply totp_verify_spec in H as (_ & _ & H) end.
Qed.
Hint Resolve keeps_verify_totp_dev : auth.

Lemma keeps_serve_dev q : (forall t f c, q <> A_revoke t f c) -> keeps Dev (mfa_serve q).
Proof.
  intros Hq. destruct q; cbn [mfa_serve]; try (by exfalso; eapply Hq);
    repeat first [progress keeps_all | intros ? ? [= <-]].
Qed.
End Devices.

(** ** Revoking a factor *)

Section Revoke.
Context {R : Type} {RC : RedisClient R} {E : Env}.
Implicit Types (w : World R).

Abbreviation Same T := (on_db (R := R) (fun db => mfa_devices db = T)).
Ltac same_table := keeps_all; first [apply keeps_modify_db; intros; assumption | apply keeps_add_row; intros; assumption].
Lemma workflow_table T token : keeps (R := R) (on_db (fun db => mfa_devices db = T)) (_workflow token).
Proof. keeps_all. Qed.
Lemma consume_table T token : keeps (R := R) (on_db (fun db => mfa_devices db = T)) (consume_workflow token).
Proof. keeps_all. Qed.
Lemma audit_table T et o c u m : keeps (R := R) (on_db (fun db => mfa_devices db = T)) (MfaRepo.mfa_audit et o c u m).
Proof. same_table. Qed.
Lemma link_table T u p s : keeps (R := R) (on_db (fun db => mfa_devices db = T)) (MfaRepo.link_oidc_identity u p s).
Proof. keeps_all; [apply keeps_add_row; intros; assumption|]. intros []; intros; simplify_eq. keeps_all. Qed.
Hint Resolve audit_table link_table : auth.
Lemma complete_table T u d m c : keeps (R := R) (on_db (fun db => mfa_devices db = T)) (_complete u d m c).
Proof. keeps_all. Qed.
Hint Resolve complete_table : auth.

Definition strong_device (m : MFADevice) : bool := m_factor_type m is_in ["totp"; "passkey"].

Lemma strong_factors l : length (List.filter is_strong (List.map MfaRepo._factor l)) = length (where_ strong_device l).
Proof.
  unfold where_. induction l as [|m l IH]; [done|]. cbn [List.map List.filter].
  change (is_strong (MfaRepo._factor m)) with (strong_device m). destruct (strong_device m); cbn [length]; by rewrite IH.
Qed.
Lemma repo_revoke_any u mid w x w' : MfaRepo.revoke_factor u mid w = (x, w') ->
  w_db w' = w_db w \/
  exists m now, x = inr true /\ m ∈ mfa_devices (w_db w) /\ is_active_device u m = true /\ m_mfa_id m = mid /\
    w_db w' = set_device mid (revoked now) (w_db w).
Proof.
  intros H. destruct x as [e|b]; [left; by apply tx_inl in H|]. apply tx_inr in H. run_in H.
  destruct (scalar _ _) as [m|] eqn:Em; [|by injection H as _ <-; left]. run_in H. injection H as <- <-. right.
  apply scalar_Some in Em as [Hin Hp]. to_prop. by exists m, (w_now w).
Qed.

(** What a revocation does to the devices: nothing, or the device goes, and it was not the last
    strong one. *)
Lemma revoke_cases token fid c w x w' :
  NoDup (List.map m_mfa_id (mfa_devices (w_db w))) -> revoke_factor token fid c w = (x, w') ->
  mfa_devices (w_db w') = mfa_devices (w_db w) \/
  exists uid m now, m ∈ mfa_devices (w_db w) /\ is_active_device uid m = true /\ m_mfa_id m = fid /\
    mfa_devices (w_db w') = update_ (fun m => m_mfa_id m == fid) (revoked now) (mfa_devices (w_db w)) /\
    (strong_device m = true ->
     (1 < length (where_ strong_device (where_ (is_active_device uid) (mfa_devices (w_db w)))))%nat).
Proof.
  set (T := mfa_devices (w_db w)). intros Hnd H. unfold revoke_factor in H.
  assert (I0 : Same T w) by done.
  apply (keeps_any (Same T)) in H as [Hx|([wf uid] & w1 & I1 & _ & H)]; [by left| |apply workflow_table|done].
  apply (keeps_any (Same T)) in H as [Hx|(u2 & w2 & I2 & _ & H)]; [by left| |apply keeps_raise_if|done].
  unfold MfaRepo.active_factors in H. rewrite !bind_bind, bind_get_db, bind_ret in H. unfold MfaRepo.active_devices in H.
  rewrite (I2 : mfa_devices (w_db w2) = T) in H.
  set (act := where_ (is_active_device uid) T) in *.
  apply (keeps_any (Same T)) in H as [Hx|(target & w3 & I3 & Ht & H)]; [by left| |apply keeps_get_or|done].
  apply bind_any in H as [(e & Hm & _)|(u4 & w4 & Hm & H)]; unfold raise_if in Hm;
    destruct (is_strong target && (_ <=? 1)%nat) eqn:Eg; try discriminate Hm; injection Hm as ? ?; subst; [by left|].
  apply (keeps_any (Same T)) in H as [Hx|(wf' & w5 & I5 & _ & H)]; [by left| |apply consume_table|done].
  assert (Htail : forall b w6, (raise_if (negb b) _workflow_invalid;;
      event_id ← or_uuid4 c; MfaRepo.mfa_audit "MFA_FACTOR_REVOKED" "success" event_id (Some uid)
        [("factor_type", JStr (mf_factor_type target))];;
      event_id ← or_uuid4 c; _complete uid wf "factor_management" event_id) w6 = (x, w') ->
      mfa_devices (w_db w') = mfa_devices (w_db w6)).
  { intros b w6 H6. assert (Hk : keeps (on_db (R := R) (fun db => mfa_devices db = mfa_devices (w_db w6)))
      (raise_if (negb b) _workflow_invalid;;
      event_id ← or_uuid4 c; MfaRepo.mfa_audit "MFA_FACTOR_REVOKED" "success" event_id (Some uid)
        [("factor_type", JStr (mf_factor_type target))];;
      event_id ← or_uuid4 c; _complete uid wf "factor_management" event_id)) by keeps_all.
    specialize (Hk w6 eq_refl). by rewrite H6 in Hk. }
  apply bind_any in H as [(e & Hm & _)|(b & w6 & Hm & H)]; apply repo_revoke_any in Hm as [Hm|(m & now & Hb & Hin & Ha & Hid & Hm)].
  - left. by rewrite Hm.
  - done.
  - left. apply Htail in H. by rewrite H, Hm.
  - right. apply Htail in H. rewrite (I5 : mfa_devices (w_db w5) = T) in Hin.
    exists uid, m, now. rewrite H, Hm. split_and!; [done..| |].
    + cbn [set_device set mfa_devices]. by rewrite (I5 : mfa_devices (w_db w5) = T).
    + intros Hs. unfold get_or in Ht. destruct (List.find _ _) as [target'|] eqn:Ef; [|done].
      injection Ht as -> <-. apply find_some in Ef as [Hf Hfid]. to_prop.
      apply in_map_iff in Hf as (m' & <- & Hm'%list_elem_of_In). pose proof Hm' as [Hin' _]%elem_of_where.
      assert (m' = m) as -> by (apply (nodup_key _ _ _ _ Hnd Hin' Hin); cbn in Hfid; congruence).
      change (is_strong (MfaRepo._factor m)) with (strong_device m) in Eg. rewrite Hs in Eg. cbn [andb] in Eg.
      apply Nat.leb_gt in Eg. by rewrite strong_factors in Eg.
Qed.
End Revoke.

(** ** Invariants of the device table *)

Section Invariants.
Context {R : Type} {RC : RedisClient R} {E : Env}.
Implicit Types (w : World R) (t : list MFADevice).

Lemma ids_update P f t : (forall m, m_mfa_id (f m) = m_mfa_id m) -> NoDup (List.map m_mfa_id t) ->
  NoDup (List.map m_mfa_id (update_ P f t)).
Proof. intros Hf Hn. by rewrite key_update. Qed.
Lemma ids_add t m : NoDup (List.map m_mfa_id t) -> mfa_device_conflict t m = false ->
  NoDup (List.map m_mfa_id (t ++ [m])).
Proof.
  intros Hn Hc. apply nodup_key_snoc; [done|]. intros x Hx He.
  apply (proj1 (row_exists_false _ _) Hc) in Hx. to_prop. done.
Qed.

(** *** Strong factors *)

Record has_strong (u : UUID) t : Prop := {
  hs_ids : NoDup (List.map m_mfa_id t);
  hs_some : exists m, m ∈ t /\ is_active_device u m = true /\ strong_device m = true }.

Lemma has_strong_update u P f t : has_strong u t -> (forall m, m_mfa_id (f m) = m_mfa_id m) ->
  (forall m, m ∈ t -> P m = true -> is_active_device u m = true -> strong_device m = true ->
     is_active_device u (f m) = true /\ strong_device (f m) = true) ->
  has_strong u (update_ P f t).
Proof.
  intros [Hn (m & Hin & Ha & Hs)] Hf Hk. split; [by apply ids_update|].
  exists (if P m then f m else m). split; [by apply elem_of_update_fwd|]. destruct (P m) eqn:EP; [by apply Hk|done].
Qed.

Lemma strong_frame u : device_frame (has_strong u).
Proof.
  split.
  - intros v now t H. apply has_strong_update; [done..|]. intros m _ Hp Ha _. unfold pending_totp, is_active_device in *.
    to_prop. congruence.
  - intros v mid now step t H _. apply has_strong_update; [done..|]. intros m _ _ Ha Hs. split; [|done].
    unfold is_active_device in *. to_prop. cbn. by rewrite H0, eqb_refl.
  - intros mid prev now step t _ H. by apply has_strong_update.
  - intros mid f t Hf H. apply has_strong_update; [done|apply Hf|]. intros m _ _ Ha Hs.
    destruct (Hf m) as (_ & E1 & E2 & E3 & _). unfold is_active_device, strong_device in *. by rewrite E1, E2, E3.
  - intros v mid now t m H Hin Hb Hid. apply has_strong_update; [done..|]. intros x Hx Hp Ha Hs. to_prop. exfalso.
    assert (x = m) as -> by (apply (nodup_key _ _ _ _ (hs_ids _ _ H) Hx Hin); congruence).
    unfold active_backup, strong_device in *. to_prop.
    match goal with H : m_factor_type m = "backup_codes" |- _ => rewrite H in Hs end. apply list_elem_of_In in Hs.
    by destruct Hs as [?|[?|[]]].
  - intros t m [Hn (x & Hx & Hp)] Hc. split; [by apply ids_add|]. exists x. split; [apply elem_of_app; by left|done].
Qed.

Lemma another_device t P fid : NoDup (List.map m_mfa_id t) -> (1 < length (where_ P t))%nat ->
  exists m, m ∈ where_ P t /\ m_mfa_id m <> fid.
Proof.
  intros Hn Hl. pose proof (nodup_where P t (nodup_key_rows _ _ Hn)) as Hnd.
  assert (Hw : forall m, m ∈ where_ P t -> m ∈ t) by (intros m [Hm _]%elem_of_where; done).
  destruct (where_ P t) as [|a [|b l]]; cbn in Hl; try lia.
  destruct (decide (m_mfa_id a = fid)) as [Ha|Ha]; [|exists a; split; [by left|done]].
  exists b. split; [by right; left|]. intros Hb. apply list.NoDup_cons in Hnd as [Hab _]. apply Hab.
  assert (a = b) as ->; [|by left]. apply (nodup_key _ _ _ _ Hn); [apply Hw; by left|apply Hw; by right; left|congruence].
Qed.

Lemma revoke_keeps_strong u token fid c : keeps (R := R) (on_db (fun db => has_strong u (mfa_devices db))) (revoke_factor token fid c).
Proof.
  intros w I. unfold on_db in *. destruct (revoke_factor token fid c w) as [x w'] eqn:H. cbn [snd].
  apply revoke_cases in H as [->|(uid & m & now & Hin & Ha & Hid & -> & Hl)]; [done| |apply I].
  destruct I as [Hn (s & Hs & Has & Hss)]. split; [by apply ids_update|].
  assert (Hother : exists y, y ∈ mfa_devices (w_db w) /\ is_active_device u y = true /\ strong_device y = true /\ m_mfa_id y <> fid).
  { destruct (decide (m_mfa_id s = fid)) as [Hd|Hd]; [|by exists s].
    assert (s = m) as -> by (apply (nodup_key _ _ _ _ Hn Hs Hin); congruence).
    assert (uid = u) as -> by (unfold is_active_device in Ha, Has; to_prop; congruence).
    specialize (Hl Hss). rewrite where_where in Hl. apply (another_device _ _ fid Hn) in Hl as (y & [Hy Hp]%elem_of_where & Hne).
    to_prop. by exists y. }
  destruct Hother as (y & Hy & Hay & Hsy & Hne). exists y. split; [|done].
  pose proof (elem_of_update_fwd (fun m => m_mfa_id m == fid) (revoked now) _ _ Hy) as Hf.
  cbv beta in Hf. by rewrite (eqb_neq _ _ Hne) in Hf.
Qed.

(** *** TOTP steps *)

(** The factor is on record, past enrolment, and unusable or at step [s] at least. *)
Record step_from (fid : UUID) (s : Z) t : Prop := {
  sf_ids : NoDup (List.map m_mfa_id t);
  sf_some : exists m, m ∈ t /\ m_mfa_id m = fid;
  sf_rows m : m ∈ t -> m_mfa_id m = fid -> m_status m <> "pending" /\
    (m_status m = "active" -> exists k, m_last_totp_step m = Some k /\ s <= k) }.

Lemma step_from_update fid s P f t : step_from fid s t -> (forall m, m_mfa_id (f m) = m_mfa_id m) ->
  (forall m, m ∈ t -> P m = true -> m_mfa_id m = fid -> m_status (f m) <> "pending" /\
    (m_status (f m) = "active" -> exists k, m_last_totp_step (f m) = Some k /\ s <= k)) ->
  step_from fid s (update_ P f t).
Proof.
  intros [Hn (m & Hin & Hid) Hr] Hf Hk. split; [by apply ids_update|..].
  - exists (if P m then f m else m). split; [by apply elem_of_update_fwd|]. destruct (P m); by rewrite ?Hf.
  - intros x (x0 & Hx0 & ->)%elem_of_update. destruct (P x0) eqn:EP; [|by apply Hr].
    rewrite Hf. by apply Hk.
Qed.

Lemma step_frame fid s : device_frame (step_from fid s).
Proof.
  split.
  - intros v now t H. by apply step_from_update.
  - intros v mid now step t H He. apply step_from_update; [done..|]. intros m Hm Hp Hid. to_prop. exfalso.
    destruct (scalar _ t) as [x|] eqn:Ex; [|done]. apply scalar_Some in Ex as [Hx Hpx]. to_prop.
    assert (x = m) as -> by (apply (nodup_key _ _ _ _ (sf_ids _ _ _ H) Hx Hm); congruence).
    destruct (sf_rows _ _ _ H m Hm Hid) as [Hnp _]. unfold pending_totp in *. by to_prop.
  - intros mid prev now step t Hs H. apply step_from_update; [done..|]. intros m Hm Hp Hid. to_prop. cbn.
    destruct (sf_rows _ _ _ H m Hm Hid) as [Hnp Hk]. split; [done|]. intros Ha. exists step. split; [done|].
    destruct (Hk Ha) as (k & Hk1 & Hk2). destruct prev as [p|]; [|congruence].
    assert (p = k) by congruence. lia.
  - intros mid f t Hf H. apply step_from_update; [done|apply Hf|]. intros m Hm _ Hid.
    destruct (Hf m) as (_ & _ & _ & E3 & E4). rewrite E3, E4. by apply (sf_rows _ _ _ H).
  - intros v mid now t m H _ _ _. by apply step_from_update.
  - intros t m [Hn (x & Hx & Hid) Hr] Hc. split; [by apply ids_add|..].
    + exists x. split; [apply elem_of_app; by left|done].
    + intros y [Hy| ->]%elem_of_snoc; [by apply Hr|]. intros Hy. exfalso.
      apply (proj1 (row_exists_false _ _) Hc) in Hx. to_prop. congruence.
Qed.

Lemma revoke_keeps_step s u token fid c : keeps (R := R) (on_db (fun db => step_from u s (mfa_devices db))) (revoke_factor token fid c).
Proof.
  intros w I. unfold on_db in *. destruct (revoke_factor token fid c w) as [x w'] eqn:H. cbn [snd].
  apply revoke_cases in H as [->|(uid & m & now & _ & _ & _ & -> & _)]; [done| |apply I]. by apply step_from_update.
Qed.

(** Both invariants survive every request. *)
Lemma serve_keeps P q : device_frame P ->
  (forall token fid c, keeps (R := R) (on_db (fun db => P (mfa_devices db))) (revoke_factor token fid c)) ->
  keeps (R := R) (on_db (fun db => P (mfa_devices db))) (mfa_serve q).
Proof.
  intros HF Hr. destruct q; try (by apply keeps_serve_dev).
  cbn [mfa_serve]. apply keeps_bind; [apply Hr|intros; apply keeps_ret].
Qed.
End Invariants.

(** ** Runs that returned *)

Section Returns.
Context {R : Type} {RC : RedisClient R} {E : Env}.
Implicit Types (w : World R).

Lemma payload_uuid_inr key payload w u w' : payload_uuid key payload w = (inr u, w') ->
  w' = w /\ juuid key payload = Some u.
Proof.
  unfold payload_uuid, juuid, jstr, get_or. destruct (jget key payload) as [[]|]; try discriminate.
  destruct (uuid_parse s) as [v|] eqn:Ev; [|discriminate]. intros [= -> ->]. split; [done|]. exact Ev.
Qed.
Lemma payload_method_inr payload w m w' : payload_method payload w = (inr m, w') ->
  w' = w /\ (jstr "method" payload ≫= MFAMethod_of) = Some m.
Proof.
  unfold payload_method, jstr, get_or. destruct (jget "method" payload) as [[]|]; try discriminate.
  destruct (MFAMethod_of s) as [v|] eqn:Ev; [|discriminate]. intros [= -> ->]. split; [done|]. exact Ev.
Qed.

Lemma run_get_challenge ct w : get_mfa_challenge ct w
  = (json_result (r_get (w_now w) (name (mfa_challenge ct)) (w_redis w)), w).
Proof. unfold get_mfa_challenge, redis_get. run. by destruct (r_get _ _ _) as [[]|]. Qed.
Lemma run_consume_challenge ct w : consume_mfa_challenge ct w
  = (json_result (r_get (w_now w) (name (mfa_challenge ct)) (w_redis w)),
     with_redis (r_del (name (mfa_challenge ct)) (w_redis w)) w).
Proof. apply run_consume. Qed.

(** A factor whose code was accepted moves on to the step of the code. *)
Lemma verify_totp_inr payload code w w' : NoDup (List.map m_mfa_id (mfa_devices (w_db w))) ->
  _verify_totp payload code w = (inr true, w') ->
  exists fid m secret step, juuid "factor_id" payload = Some fid /\ m ∈ mfa_devices (w_db w) /\ m_mfa_id m = fid /\
    m_status m = "active" /\ totp_at secret step = code /\ timecode (w_now w) - 1 <= step <= timecode (w_now w) + 1 /\
    (match m_last_totp_step m with Some l => l < step | None => True end) /\
    step_from fid step (mfa_devices (w_db w')).
Proof.
  intros Hn H. unfold _verify_totp in H. step_in H fid w1 H1. apply payload_uuid_inr in H1 as [-> Hfid].
  unfold factor_is_locked, redis_exists in H. run_in H. unfold raise_if at 1 in H.
  destruct (r_exists _ _ _); run_in H; [done|]. step_in H uid w2 H2. apply payload_uuid_inr in H2 as [-> Huid].
  unfold MfaRepo.factor in H. run_in H.
  destruct (with_secret _) as [[f enc]|] eqn:Es; [|by injection H]. apply with_secret_Some in Es as [Hf He].
  apply fmap_Some in Hf as (m & [Hin Hp]%scalar_Some & ->). to_prop.
  destruct (mf_status (MfaRepo._factor m) != "active") eqn:Est; [by injection H|]. to_prop. cbn [mf_status MfaRepo._factor] in Est.
  step_in H secret w3 H3. assert (w3 = w) as ->.
  { unfold cipher_decrypt, raise_if, get_or in H3. destruct (_ || _); run_in H3; [done|].
    destruct (aes_decrypt _ _ _); [by injection H3|done]. }
  run_in H. destruct (totp_verify _ _ _ _) as [step|] eqn:Ev; [|by injection H].
  apply totp_verify_spec in Ev as (Hc & Hw & Hl). cbn [mf_last_totp_step mf_mfa_id MfaRepo._factor] in H, Hl.
  exists fid, m, secret, step. split_and!; try done; try lia.
  unfold MfaRepo.advance_totp_step in H. apply tx_inr in H. run_in H. injection H as _ <-.
  assert (Hid : m_mfa_id m = fid) by done.
  pose proof (elem_of_update_fwd (fun x => (m_mfa_id x == m_mfa_id m) && (m_status x == "active") && (m_last_totp_step x == m_last_totp_step m))
    (advanced (w_now w) step) _ _ Hin) as Hm. cbv beta in Hm. rewrite Est, !eqb_refl in Hm. cbn [andb] in Hm.
  split; [by apply ids_update|by exists (advanced (w_now w) step m)|].
  intros x (x0 & Hx0 & ->)%elem_of_update Hx.
  assert (x0 = m) as ->.
  { apply (nodup_key _ _ _ _ Hn Hx0 Hin). destruct (_ && _) in Hx; cbn in Hx; congruence. }
  rewrite Est, !eqb_refl. cbn. split; [by rewrite Est|]. intros _. by exists step.
Qed.

(** *** Completing a workflow *)

Lemma complete_inr uid workflow method c w x w' : _complete uid workflow method c w = (inr x, w') ->
  (mx_result x = IDENTITY_LINKED /\ jget "decision" workflow = Some (JStr "collision_proof_required") /\
     w_redis w' = w_redis w) \/
  (exists tok, x = MkMFACompletion MFA_SESSION_READY (Some tok) [] /\
     w_redis w' = r_set (w_now w) (name (login_workflow tok)) (RJson (ready_payload uid method))
                    (ttl_seconds (login_workflow tok)) (w_redis w)).
Proof.
  intros H. unfold _complete in H.
  assert (Haud : forall et m w0, w_redis (MfaRepo.mfa_audit et "success" c (Some uid) m w0).2 = w_redis w0).
  { intros et m w0. assert (Hk : keeps (on_redis (fun r => r = w_redis w0)) (MfaRepo.mfa_audit et "success" c (Some uid) m)) by keeps_all.
    by apply (Hk w0). }
  case_bool_decide as Hd.
  - left. step_in H p w1 H1. unfold get_or in H1. destruct (_ ≫= _) as [[provider subject]|]; [|done].
    injection H1 as <- <-. step_in H b w2 H2.
    assert (Hr : w_redis w2 = w_redis w).
    { assert (Hk : keeps (on_redis (fun r => r = w_redis w)) (MfaRepo.link_oidc_identity uid provider subject)).
      { keeps_all. intros []; intros; simplify_eq. keeps_all. }
      specialize (Hk w eq_refl). by rewrite H2 in Hk. }
    unfold raise_if in H. destruct (negb b); run_in H; [done|]. step_in H y w3 H3. injection H as <- <-.
    specialize (Haud "OIDC_ACCOUNT_COLLISION_RESOLVED" [("method", JStr method); ("provider", JStr provider)] w2).
    rewrite H3 in Haud. cbn [snd] in Haud. split_and!; [done..|]. by rewrite Haud, Hr.
  - right. run_in H. step_in H y w1 H1. apply redis_set_inr in H1 as ->. step_in H z w2 H2. injection H as <- <-.
    eexists. split; [done|].
    match type of H2 with MfaRepo.mfa_audit ?et _ _ _ ?m ?w0 = _ => specialize (Haud et m w0) end. by rewrite H2 in Haud.
Qed.

(** *** Guards *)

Lemma run_workflow token w wf uid : r_get (w_now w) (name (login_workflow token)) (w_redis w) = Some (RJson wf) ->
  juuid "user_id" wf = Some uid -> _workflow token w = (inr (wf, uid), w).
Proof. intros Hg Hu. unfold _workflow, get_login_workflow, redis_get. run. rewrite Hg. cbn [json_loads]. run. by rewrite Hu. Qed.
Lemma active_profile_cases u w : (exists p, _active_profile u w = (inr p, w)) \/ _active_profile u w = (inl _workflow_invalid, w).
Proof.
  unfold _active_profile, MfaRepo.user_profile. run. match goal with |- context [get_or _ ?o] => destruct o as [p|] end; run; [|by right].
  destruct (mp_state p != "active"); run; [by right|]. left. by exists p.
Qed.
Lemma enrollment_refused wf u w : has_mfa_assurance wf = false ->
  (exists m, m ∈ mfa_devices (w_db w) /\ is_active_device u m = true /\ strong_device m = true) ->
  _require_enrollment_assurance wf u w = (inl _workflow_invalid, w).
Proof.
  intros Ha (m & Hin & Hact & Hs). unfold _require_enrollment_assurance, MfaRepo.active_factors. run.
  rewrite (proj2 (existsb_exists _ _)); [unfold _require_mfa_assurance; by rewrite Ha|].
  exists (MfaRepo._factor m). split; [|exact Hs]. apply in_map. apply list_elem_of_In. by apply elem_of_where.
Qed.

(** The part of [verify_challenge] that checks the code, and the part that follows. *)
Definition check_code (payload : dict) (ct code : string) (user_id : UUID) (method : MFAMethod) : prog R bool :=
  match method with
  | TOTP => _verify_totp payload code
  | EMAIL_OTP | SMS_OTP =>
    outcome ← verify_and_consume_otp user_id (_otp_purpose ct) (_otp_hash code) OTP_MAX_ATTEMPTS;
    mret (outcome =? 1)
  | BACKUP_CODE => MfaRepo.consume_backup_code user_id (_backup_hash code)
  | PASSKEY => mret false
  end.
Lemma clock_of {A} (m : prog R A) w x w' : keeps (on_clock (w_now w)) m -> m w = (x, w') -> w_now w' = w_now w.
Proof. intros Hk H. specialize (Hk w eq_refl). by rewrite H in Hk. Qed.
Lemma clock_check payload ct code uid method w x w' :
  check_code payload ct code uid method w = (x, w') -> w_now w' = w_now w.
Proof. apply clock_of. destruct method; keeps_all. Qed.
Lemma clock_record (b : bool) ct uid method payload w x w' :
  (if b then _record_failure ct uid method payload else mret ()) w = (x, w') -> w_now w' = w_now w.
Proof. apply clock_of. destruct b; keeps_all. Qed.
Lemma complete_tail consumed uid method cid w x w' :
  (consumed ← get_or _challenge_invalid consumed;
   workflow ← payload_workflow consumed;
   event_id ← or_uuid4 cid;
   _complete uid workflow (method_value method) event_id) w = (inr x, w') ->
  exists w1, w_now w1 = w_now w /\ w_redis w1 = w_redis w /\ exists workflow c,
    _complete uid workflow (method_value method) c w1 = (inr x, w').
Proof.
  intros H. destruct consumed as [consumed|]; run_in H; [|done]. unfold payload_workflow in H.
  destruct (jobj _ _) as [workflow|]; run_in H; [|done]. step_in H c w1 H1.
  exists w1. destruct cid; injection H1 as <- <-; split_and!; try done; eauto.
Qed.
End Returns.

(** ** Backup codes *)

(** What a set of code hashes answers, and how often it accepts one of them. *)
Fixpoint backup_reference (hashes candidates : list string) : list bool :=
  match candidates with
  | [] => []
  | c :: candidates => (c is_in hashes) :: backup_reference (remove_first c hashes) candidates
  end.
Definition times_accepted (c : string) (candidates : list string) (answers : list bool) : nat :=
  count_ (fun p => (p.1 == c) && p.2) (List.combine candidates answers).

Lemma remove_first_absent h l : h ∉ l -> remove_first h l = l.
Proof.
  induction l as [|x l IH]; [done|]. intros [Hx Hl]%not_elem_of_cons. cbn. rewrite eqb_neq by congruence. by rewrite IH.
Qed.
Lemma remove_first_count h c l :
  count_ (fun x => x == c) (remove_first h l) = (count_ (fun x => x == c) l - (if (h == c) && (h is_in l) then 1 else 0))%nat.
Proof.
  induction l as [|x l IH].
  { by destruct (h == c). }
  cbn [remove_first]. destruct (decide (x = h)) as [->|Hx]; [rewrite eqb_refl|rewrite (eqb_neq _ _ Hx)].
  - rewrite (proj2 (bool_decide_eq_true (h ∈ h :: l))) by (by left). rewrite count_cons.
    destruct (h == c); cbn [andb]; lia.
  - assert (Hd : (h is_in (x :: l)) = (h is_in l)).
    { apply bool_decide_ext. rewrite elem_of_cons. split; [intros [->|]; done|by right]. }
    rewrite Hd, !count_cons, IH. destruct (x == c) eqn:Ex; [|done].
    to_prop. rewrite (eqb_neq h c) by congruence. cbn [andb]. lia.
Qed.
Lemma reference_accepts c hashes candidates :
  (times_accepted c candidates (backup_reference hashes candidates) <= count_ (fun x => x == c) hashes)%nat.
Proof.
  revert hashes. induction candidates as [|h candidates IH]; intros hashes; [cbn; lia|].
  specialize (IH (remove_first h hashes)). rewrite remove_first_count in IH.
  unfold times_accepted in *. cbn [backup_reference List.combine]. rewrite count_cons. cbn [fst snd].
  destruct ((h == c) && (h is_in hashes)) eqn:Eh; [|lia]. to_prop. subst h.
  assert (0 < count_ (fun x => x == c) hashes)%nat; [|lia]. unfold count_.
  assert (Hin : c ∈ where_ (fun x => x == c) hashes) by (apply elem_of_where; by rewrite eqb_refl).
  destruct (where_ _ _); [by apply elem_of_nil in Hin|cbn; lia].
Qed.

Section Backup.
Context {R : Type} {RC : RedisClient R} {E : Env}.
Implicit Types (w : World R).

(** The hashes a user has left; when there are none the factor is gone. *)
Definition codes_left (u : UUID) (hashes : list string) (db : Db) : Prop :=
  device_ids db /\
  ((hashes = [] /\ forall m, m ∈ mfa_devices db -> active_backup u m = false) \/
   exists m, m ∈ mfa_devices db /\ active_backup u m = true /\ m_encrypted_secret m = Some (dumps hashes) /\
     forall m', m' ∈ mfa_devices db -> active_backup u m' = true -> m' = m).

Lemma codes_left_row u hashes db m : m ∈ mfa_devices db -> active_backup u m = true ->
  m_encrypted_secret m = Some (dumps hashes) ->
  (forall m', m' ∈ mfa_devices db -> active_backup u m' = true -> m' = m) ->
  MfaRepo.backup_row u db = Some (m, dumps hashes).
Proof.
  intros Hin Hb He Hu. unfold MfaRepo.backup_row. rewrite (scalar_unique _ _ m) by done. cbn. by rewrite He.
Qed.

Lemma set_device_twice i f g db : (forall m, m_mfa_id (g m) = m_mfa_id m) ->
  set_device i f (set_device i g db) = set_device i (fun m => f (g m)) db.
Proof.
  intros Hg. destruct db. unfold set_device. cbn. f_equal. unfold update_. rewrite map_map. apply map_ext. intros m.
  destruct (m_mfa_id m == i) eqn:Em; [by rewrite Hg, Em|by rewrite Em].
Qed.

Lemma revoked_inactive u now m : active_backup u (revoked now m) = false.
Proof. exact (andb_false_r _). Qed.

(** One rewriting of the row of the codes. *)
Lemma codes_left_set u hashes db m f : device_ids db -> m ∈ mfa_devices db ->
  (forall m', m' ∈ mfa_devices db -> active_backup u m' = true -> m' = m) ->
  m_mfa_id (f m) = m_mfa_id m -> 
  (if active_backup u (f m) then m_encrypted_secret (f m) = Some (dumps hashes) else hashes = []) ->
  codes_left u hashes (set_device (m_mfa_id m) f db).
Proof.
  intros Hn Hin Hu Hid Hf.
  assert (Hrows : forall x, x ∈ mfa_devices (set_device (m_mfa_id m) f db) -> x = f m \/ active_backup u x = false).
  { intros x (x0 & Hx0 & ->)%elem_of_update. destruct (m_mfa_id x0 == m_mfa_id m) eqn:Ex.
    - to_prop. left. f_equal. by apply (nodup_key _ _ _ _ Hn).
    - right. destruct (active_backup u x0) eqn:Ea; [|done]. apply Hu in Ea as ->; [|done]. by rewrite eqb_refl in Ex. }
  split.
  - unfold device_ids. cbn [mfa_devices set_device set]. unfold update_. rewrite map_map.
    assert (Heq : List.map (fun x => m_mfa_id (if m_mfa_id x == m_mfa_id m then f x else x)) (mfa_devices db)
                  = List.map m_mfa_id (mfa_devices db)); [|by rewrite Heq].
    apply map_ext_in. intros x Hx%list_elem_of_In. destruct (m_mfa_id x == m_mfa_id m) eqn:Ex; [|done]. to_prop.
    by rewrite (nodup_key _ _ _ _ Hn Hx Hin Ex).
  - destruct (active_backup u (f m)) eqn:Ea.
    + right. exists (f m). split_and!; [|done..|].
      * exact (elem_of_update_hit (fun x => m_mfa_id x == m_mfa_id m) f _ _ Hin (eqb_refl _)).
      * intros x Hx Hb. destruct (Hrows x Hx) as [->|Hb']; [done|congruence].
    + left. split; [done|]. intros x Hx. by destruct (Hrows x Hx) as [->|].
Qed.

Lemma run_consume_backup u hashes h w : codes_left u hashes (w_db w) ->
  exists w', MfaRepo.consume_backup_code u h w = (inr (h is_in hashes), w') /\
    codes_left u (remove_first h hashes) (w_db w').
Proof.
  intros I. pose proof I as (Hn & [[-> Hnone]|(m & Hin & Hb & He & Hu)]); unfold MfaRepo.consume_backup_code.
  - exists w. split; [|done]. apply run_tx. run. unfold MfaRepo.backup_row.
    destruct (scalar _ _) as [m|] eqn:Em; [|done]. apply scalar_Some in Em as [Hin Hb]. rewrite Hnone in Hb; done.
  - destruct (decide (h ∈ hashes)) as [Hh|Hh].
    + rewrite bool_decide_eq_true_2 by done. destruct (remove_first h hashes == []) eqn:Er; eexists;
        (split; [apply run_tx; run; rewrite (codes_left_row u hashes _ m) by done; rewrite loads_dumps; run;
                 rewrite bool_decide_eq_true_2 by done; run; rewrite Er; run; done|]); wsimpl; rewrite !set_device_twice by done.
      * to_prop. apply codes_left_set; [done..|]. by rewrite revoked_inactive.
      * apply codes_left_set; try done. change (active_backup u (used_at (w_now w) (with_codes (remove_first h hashes) m)))
          with (active_backup u m). by rewrite Hb.
    + rewrite bool_decide_eq_false_2, remove_first_absent by done. exists w. split; [|done].
      apply run_tx. run. rewrite (codes_left_row u hashes _ m) by done. rewrite loads_dumps. run.
      by rewrite bool_decide_eq_false_2.
Qed.

Lemma run_backup_codes u hashes requests w : codes_left u (List.map _backup_hash hashes) (w_db w) ->
  (run_at (fun code => MfaRepo.consume_backup_code u (_backup_hash code)) requests w).1
  = List.map inr (backup_reference (List.map _backup_hash hashes) (List.map (fun q => _backup_hash q.2) requests)).
Proof.
  generalize (List.map _backup_hash hashes) as left. intros left. revert left w.
  induction requests as [|[t code] requests IH]; intros left w I; [done|]. cbn [run_at].
  destruct (run_consume_backup u left (_backup_hash code) (at_time t w) I) as (w1 & -> & I1).
  specialize (IH _ _ I1). destruct (run_at _ requests w1) as [xs w2]. cbn [fst] in IH |- *. by rewrite IH.
Qed.

Lemma ensure_codes_left u w codes w' : device_ids (w_db w) ->
  _ensure_backup_codes u w = (inr codes, w') -> codes <> [] -> codes_left u (List.map _backup_hash codes) (w_db w').
Proof.
  intros Hn H Hc. unfold _ensure_backup_codes, MfaRepo.active_factors in H. run_in H.
  destruct (existsb _ _) eqn:Ex; [by injection H as <- <-|]. step_in H cs w1 H1.
  assert (Hdb : w_db w1 = w_db w).
  { assert (Hk : keeps (R := R) (on_db (fun db => db = w_db w)) (map_m (fun _ => _new_backup_code) (List.seq 0 BACKUP_CODE_COUNT))) by keeps_all.
    specialize (Hk w eq_refl). by rewrite H1 in Hk. }
  step_in H y w2 H2. injection H as <- <-.
  assert (Hnone : forall m, m ∈ mfa_devices (w_db w) -> active_backup u m = false).
  { intros m Hm. destruct (active_backup u m) eqn:Eb; [|done]. exfalso. apply not_true_iff_false in Ex. apply Ex.
    unfold active_backup in Eb. to_prop. apply existsb_exists. exists (MfaRepo._factor m). split.
    - apply in_map. apply list_elem_of_In. apply elem_of_where. unfold is_active_device. split; [done|].
      apply andb_true_iff. split; by apply bool_decide_eq_true.
    - by apply bool_decide_eq_true. }
  unfold MfaRepo.store_backup_codes in H2. apply tx_inr in H2. run_in H2. rewrite Hdb in H2.
  destruct (scalar _ _) as [m|] eqn:Em; [apply scalar_Some in Em as [Hm Hb]; by rewrite Hnone in Hb|].
  run_in H2. apply add_row_inr in H2 as (_ & Hf & ->). wsimpl_in Hf. wsimpl. rewrite Hdb in *. split.
  - by apply ids_add.
  - right. eexists. split_and!; [apply elem_of_app; right; by left| |done|].
    + unfold active_backup. cbn [m_user_id]. by rewrite eqb_refl.
    + intros m' [Hm'| ->]%elem_of_snoc Hb; [by rewrite Hnone in Hb|done].
Qed.
End Backup.

(** ** Properties *)

Section Properties.
Context {R : Type} {RC : RedisClient R} {E : Env}.
Implicit Types (w : World R).

(** C16: a user who has a strong factor (an active TOTP device or passkey) keeps one: no sequence
    of MFA requests, at whatever times and with whatever tokens, takes the last one away. *)
Theorem strong_factor_never_lost u requests w :
  has_strong u (mfa_devices (w_db w)) -> has_strong u (mfa_devices (w_db (run_at mfa_serve requests w).2)).
Proof.
  intros H. apply (keeps_run_at (fun db => has_strong u (mfa_devices db))); [|done]. intros t q _.
  apply serve_keeps; [apply strong_frame|apply revoke_keeps_strong].
Qed.

(** C14: a TOTP code is not accepted twice.  A code is accepted for a time step at most one away
    from the clock; whatever MFA requests follow, at whatever times, the next code the same factor
    accepts is one of a later step. *)
Theorem totp_steps_increase payload code w w1 requests payload2 code2 t2 w3 :
  NoDup (List.map m_mfa_id (mfa_devices (w_db w))) ->
  _verify_totp payload code w = (inr true, w1) ->
  juuid "factor_id" payload2 = juuid "factor_id" payload ->
  _verify_totp payload2 code2 (at_time t2 (run_at mfa_serve requests w1).2) = (inr true, w3) ->
  exists secret step secret2 step2,
    totp_at secret step = code /\ timecode (w_now w) - 1 <= step <= timecode (w_now w) + 1 /\
    totp_at secret2 step2 = code2 /\ timecode t2 - 1 <= step2 <= timecode t2 + 1 /\ step < step2.
Proof.
  intros Hn H1 Hf H2. apply verify_totp_inr in H1 as (fid & m & secret & step & Hfid & _ & _ & _ & Hc & Hw & _ & I); [|done].
  assert (I2 : step_from fid step (mfa_devices (w_db (run_at mfa_serve requests w1).2))).
  { apply (keeps_run_at (fun db => step_from fid step (mfa_devices db))); [|done]. intros t q _.
    apply serve_keeps; [apply step_frame|intros; apply revoke_keeps_step]. }
  apply verify_totp_inr in H2 as (fid2 & m2 & secret2 & step2 & Hfid2 & Hin2 & Hid2 & Ha2 & Hc2 & Hw2 & Hl2 & _); [|apply I2].
  assert (fid2 = fid) as -> by congruence. destruct (sf_rows _ _ _ I2 m2 Hin2 Hid2) as [_ Hk].
  destruct (Hk Ha2) as (k & Ek & Hle). rewrite Ek in Hl2. exists secret, step, secret2, step2. split_and!; try done; cbn in Hw2; lia.
Qed.

(** Managing factors takes the second factor.  On a workflow that does not carry MFA
    assurance the factors are neither listed nor revoked, and for a user who has a strong factor
    neither a TOTP factor nor a passkey can be enrolled: each request raises WORKFLOW_INVALID and
    changes nothing, the workflow included. *)
Theorem factor_management_needs_mfa token w wf uid label fid cid :
  r_get (w_now w) (name (login_workflow token)) (w_redis w) = Some (RJson wf) ->
  juuid "user_id" wf = Some uid -> has_mfa_assurance wf = false ->
  list_factors token w = (inl _workflow_invalid, w) /\
  revoke_factor token fid cid w = (inl _workflow_invalid, w) /\
  ((exists m, m ∈ mfa_devices (w_db w) /\ is_active_device uid m = true /\ strong_device m = true) ->
   setup_totp token label w = (inl _workflow_invalid, w) /\
   passkey_registration_options token label w = (inl _workflow_invalid, w)).
Proof.
  intros Hg Hu Ha. pose proof (run_workflow _ _ _ _ Hg Hu) as Hw.
  unfold list_factors, revoke_factor, setup_totp, passkey_registration_options.
  rewrite !(run_bind _ _ _ _ _ Hw). cbv beta iota. unfold _require_mfa_assurance. rewrite Ha. split_and!; [done..|].
  intros Hs. destruct (active_profile_cases uid w) as [[p Hp]|Hp]; [|by rewrite !(run_bind_inl _ _ _ _ _ Hp)].
  rewrite !(run_bind _ _ _ _ _ Hp). by rewrite !(run_bind_inl _ _ _ _ _ (enrollment_refused _ _ _ Ha Hs)).
Qed.

(** The backup codes handed out at an enrolment work once each.  Whatever codes are presented
    afterwards, at whatever times, the answers are those of the set of the hashes of the handed
    out codes, each hash leaving the set when it is used: a code is accepted at most as often as
    it was handed out. *)
Theorem backup_codes_single_use u w codes w1 requests :
  device_ids (w_db w) -> _ensure_backup_codes u w = (inr codes, w1) -> codes <> [] ->
  let hashes := List.map _backup_hash codes in
  let candidates := List.map (fun q => _backup_hash q.2) requests in
  let answers := backup_reference hashes candidates in
  (run_at (fun code => MfaRepo.consume_backup_code u (_backup_hash code)) requests w1).1 = List.map inr answers /\
  forall c, (times_accepted c candidates answers <= count_ (fun h => h == c) hashes)%nat.
Proof.
  intros Hn H Hc hashes candidates answers. split; [|intros c; apply reference_accepts].
  apply run_backup_codes. by eapply ensure_codes_left.
Qed.

(** C15: a security challenge is answered once, for the user it was issued to.  A verification
    that returned found the challenge stored; a token it hands out opens exactly the
    [session_ready] workflow of that user and that method, and the challenge is gone: every later
    attempt with it, whatever the code and the time, fails with CHALLENGE_INVALID and changes
    nothing. *)
Theorem challenge_single_use ct code cid w completion w' :
  verify_challenge ct code cid w = (inr completion, w') ->
  exists payload uid method,
    r_get (w_now w) (name (mfa_challenge ct)) (w_redis w) = Some (RJson payload) /\
    juuid "user_id" payload = Some uid /\ (jstr "method" payload ≫= MFAMethod_of) = Some method /\
    (mx_result completion = MFA_SESSION_READY -> exists tok, mx_workflow_token completion = Some tok /\
       r_get (w_now w) (name (login_workflow tok)) (w_redis w') = Some (RJson (ready_payload uid (method_value method)))) /\
    forall t2 code2 cid2,
      verify_challenge ct code2 cid2 (at_time t2 w') = (inl _challenge_invalid, at_time t2 w').
Proof.
  intros H. assert (Hgone : forall code2 cid2 w2, r_get (w_now w2) (name (mfa_challenge ct)) (w_redis w2) = None ->
    verify_challenge ct code2 cid2 w2 = (inl _challenge_invalid, w2)).
  { intros code2 cid2 w2 Hg. unfold verify_challenge. unfold mbind at 1, prog_bind at 1.
    by rewrite run_get_challenge, Hg. }
  unfold verify_challenge in H. step_in H o w1 Hg. rewrite run_get_challenge in Hg.
  destruct (r_get _ _ _) as [[| |payload|]|] eqn:Ep; try discriminate Hg; injection Hg as <- <-; cbn [has_purpose negb] in H; [|by run_in H].
  destruct (negb _); run_in H; [done|]. step_in H uid w2 H2. apply payload_uuid_inr in H2 as [-> Huid].
  step_in H method w3 H3. apply payload_method_inr in H3 as [-> Hm].
  step_in H valid w4 H4. step_in H u5 w5 H5. step_in H consumed w6 H6. rewrite run_consume_challenge in H6.
  assert (Hnow : w_now w5 = w_now w).
  { apply clock_check in H4. apply clock_record in H5. by rewrite H5, H4. }
  injection H6 as _ <-. apply complete_tail in H as (w7 & Hn7 & Hr7 & workflow & c & H). wsimpl_in Hr7. wsimpl_in Hn7.
  exists payload, uid, method. split_and!; [done..| |].
  - intros Hx. apply complete_inr in H as [(Hx' & _)|(tok & -> & ->)]; [congruence|]. exists tok. split; [done|].
    rewrite r_get_set_eq, Hn7, Hnow. cbn [ttl_seconds login_workflow].
    unfold login_workflow at 1. cbn [ttl_seconds]. destruct (Z.ltb_spec (w_now w) (w_now w + seconds LOGIN_WORKFLOW_TTL_SECONDS)) as [|Hl]; [done|].
    unfold seconds, LOGIN_WORKFLOW_TTL_SECONDS, second in Hl. lia.
  - intros t2 code2 cid2. apply Hgone. wsimpl.
    apply complete_inr in H as [(_ & _ & ->)|(tok & _ & ->)]; rewrite ?r_get_set_ne, Hr7; try apply r_get_del_eq.
    apply (key_kind_ne (S_mfa_challenge ct) (S_login_workflow tok)). done.
Qed.
End Properties.
