(* ===== verification/MfaDemo.v ===== *)
(** Concrete runs of MFAControl: the witnesses of its theorems, and two runs that show what an
    account without a strong factor is exposed to. *)
From S2P Require Import Prelude PyText Entity Models RedisClient World Encoding Providers RedisSecurity.
From S2P Require Import SessionInv SessionProps SessionDemo Mfa MfaProps.
From S2P Require MfaRepo.

(** Ann signs in with her password from a new device; she has no second factor yet. *)
Definition ann_password : Identity :=
  MkIdentity (test_uuid 801) demo_user "password" "ann@example.com" (Some "argon2$correct horse battery") true None (t0 - days 3).
Definition mfa_db : Db := empty_db <| users := [ann] |> <| identities := [ann_password] |>.
Definition login_payload (decision : string) (context : dict) : dict :=
  [("user_id", JStr (uuid_str demo_user)); ("decision", JStr decision); ("risk", JStr "high");
   ("allowed_methods", JList [JStr "email_otp"; JStr "password"]); ("primary_method", JStr "password")] ++ context.
Definition workflow_world (payload : dict) : World mem_redis :=
  (store_login_workflow "wf" payload (test_world mfa_db t0)).2.
Definition bootstrap_world : World mem_redis := workflow_world (login_payload "mfa_required" []).

(** *** Enrolling a TOTP factor *)

Definition enrolling (w : World mem_redis) := setup_totp "wf" "phone" w.
Definition enrollment (w : World mem_redis) : TOTPEnrollment :=
  match (enrolling w).1 with inr e => e | inl _ => MkTOTPEnrollment "" "" "" end.
Definition code_at (secret : string) (t : Time) : string := totp_at secret (timecode t).
Definition confirming (w : World mem_redis) :=
  confirm_totp (te_enrollment_token (enrollment w)) (code_at (te_manual_secret (enrollment w)) t0) None (enrolling w).2.
Definition enrolled_world : World mem_redis := (confirming bootstrap_world).2.

(** An [mfa_required] login is completed without a second factor: the requester enrols a TOTP
    factor of their own and confirms it. *)
Theorem enrollment_completes_login :
  match (confirming bootstrap_world).1 with
  | inr c => (mx_result c, length (mx_backup_codes c)) = (MFA_SESSION_READY, 10%nat) /\
             r_get t0 (name (login_workflow (or_else (mx_workflow_token c) ""))) (w_redis enrolled_world)
               = Some (RJson (ready_payload demo_user "totp_enrollment"))
  | inl _ => False
  end.
Proof. vm_compute. split; reflexivity. Qed.

(** A colliding OpenID Connect identity is linked to the account without a proof of that account:
    enrolling a TOTP factor on the collision workflow is enough. *)
Definition collision_world : World mem_redis := workflow_world
  (login_payload "collision_proof_required" [("oidc_provider", JStr "google"); ("oidc_subject", JStr "mallory")]).
Theorem enrollment_links_identity :
  row_exists (fun i => (i_user_id i == demo_user) && (i_provider i == "google") && (i_provider_subject i == "mallory") && i_verified i)
    (identities (w_db (confirming collision_world).2)) = true.
Proof. vm_compute. reflexivity. Qed.

(** *** Witnesses *)

Lemma enrolled_strong : has_strong demo_user (mfa_devices (w_db enrolled_world)).
Proof.
  assert (H : match mfa_devices (w_db enrolled_world) with
              | [a; b] => bool_decide (NoDup [m_mfa_id a; m_mfa_id b]) && MfaRepo.is_active_device demo_user a && strong_device a
              | _ => false end = true) by (vm_compute; reflexivity).
  destruct (mfa_devices (w_db enrolled_world)) as [|a [|b [|]]]; try discriminate H. to_prop. split; [done|].
  exists a. split; [left|done].
Qed.
Lemma strong_factor_never_lost_witness :
  has_strong demo_user (mfa_devices (w_db (run_at mfa_serve
    [(t0, A_revoke "wf" (test_uuid 4) None); (t0 + hours 1, A_available "tok")] enrolled_world).2)).
Proof. apply strong_factor_never_lost, enrolled_strong. Defined.

Definition no_device : MFADevice := MkMFADevice cid cid "" None "" None None None None None.
Definition first_device (w : World mem_redis) : MFADevice := List.hd no_device (mfa_devices (w_db w)).
Definition totp_device : MFADevice := first_device enrolled_world.
Definition totp_payload : dict :=
  [("user_id", JStr (uuid_str demo_user)); ("factor_id", JStr (uuid_str (m_mfa_id totp_device)))].
Definition secret : string := te_manual_secret (enrollment bootstrap_world).
Definition later : Time := t0 + minutes 5.
Abbreviation first_code := (_verify_totp totp_payload (code_at secret later) (at_time later enrolled_world)).
Lemma first_code_ok : match first_code.1 with inr true => true | _ => false end = true.
Proof. vm_compute. reflexivity. Qed.
Definition next : Time := t0 + minutes 6.
Abbreviation second_code := (_verify_totp totp_payload (code_at secret next) (at_time next (run_at mfa_serve [] first_code.2).2)).
Lemma second_code_ok : match second_code.1 with inr true => true | _ => false end = true.
Proof. vm_compute. reflexivity. Qed.

Lemma ids_at_time t (w : World mem_redis) u : has_strong u (mfa_devices (w_db w)) ->
  NoDup (List.map m_mfa_id (mfa_devices (w_db (at_time t w)))).
Proof. intros H. exact (hs_ids _ _ H). Qed.

Lemma totp_steps_increase_witness : exists step step2,
  timecode later - 1 <= step < step2 /\ timecode next - 1 <= step2.
Proof.
  pose proof first_code_ok as H1. pose proof second_code_ok as H2.
  destruct first_code as [[?|[]] w1] eqn:E1; try discriminate H1.
  cbn [run_at fst snd] in H2.
  destruct (_verify_totp totp_payload (code_at secret next) (at_time next w1)) as [[?|[]] w3] eqn:E3; try discriminate H2.
  destruct (totp_steps_increase totp_payload (code_at secret later) (at_time later enrolled_world) w1 []
    totp_payload (code_at secret next) next w3 (ids_at_time later _ _ enrolled_strong) E1 eq_refl E3)
    as (s & step & s2 & step2 & _ & [Hl _] & _ & [Hl2 _] & H).
  exists step, step2. split; [split; assumption|exact Hl2].
Defined.

(** The same factor answers a challenge of a later login. *)
Definition second_login : World mem_redis :=
  (store_login_workflow "wf2" (login_payload "mfa_required" []) (at_time later enrolled_world)).2.
Abbreviation issuing := (issue_challenge "wf2" TOTP second_login).
Lemma issuing_ok : match issuing.1 with inr c => true | _ => false end = true.
Proof. vm_compute. reflexivity. Qed.
Definition challenge_token : string := match issuing.1 with inr c => mc_challenge_token c | inl _ => "" end.
Abbreviation answering := (verify_challenge challenge_token (code_at secret later) None issuing.2).
Lemma answering_ok : match answering.1 with inr _ => true | _ => false end = true.
Proof. vm_compute. reflexivity. Qed.
Lemma challenge_single_use_witness : exists completion w',
  answering = (inr completion, w') /\
  verify_challenge challenge_token "000000" None (at_time next w') = (inl _challenge_invalid, at_time next w').
Proof.
  returned answering_ok c w E. exists c, w. split; [reflexivity|].
  destruct (challenge_single_use challenge_token (code_at secret later) None issuing.2 c w E)
    as (_ & _ & _ & _ & _ & _ & _ & H).
  apply H.
Defined.

Lemma bootstrap_ids : device_ids (w_db bootstrap_world).
Proof. vm_compute. constructor. Qed.
Abbreviation handing_out := (_ensure_backup_codes demo_user bootstrap_world).
Lemma handing_out_ok : match handing_out.1 with inr (_ :: _) => true | _ => false end = true.
Proof. vm_compute. reflexivity. Qed.
Lemma backup_codes_single_use_witness : exists codes w1,
  handing_out = (inr codes, w1) /\ codes <> [] /\
  (run_at (fun code => MfaRepo.consume_backup_code demo_user (_backup_hash code)) [(t0, "x"); (t0, "x")] w1).1
  = List.map inr (backup_reference (List.map _backup_hash codes) [_backup_hash "x"; _backup_hash "x"]).
Proof.
  pose proof handing_out_ok as H. destruct handing_out as [[?|codes] w1] eqn:E; [discriminate H|].
  assert (Hc : codes <> []) by (destruct codes; [discriminate H|discriminate]).
  exists codes, w1. split; [reflexivity|]. split; [exact Hc|].
  exact (proj1 (backup_codes_single_use demo_user bootstrap_world codes w1 [(t0, "x"); (t0, "x")] bootstrap_ids E Hc)).
Defined.

(** Without MFA assurance the second login manages no factors. *)
Lemma factor_management_needs_mfa_witness :
  list_factors "wf" bootstrap_world = (inl _workflow_invalid, bootstrap_world) /\
  revoke_factor "wf" cid None bootstrap_world = (inl _workflow_invalid, bootstrap_world).
Proof.
  destruct (factor_management_needs_mfa "wf" bootstrap_world (login_payload "mfa_required" []) demo_user "phone" cid None)
    as (H1 & H2 & _); [vm_compute; reflexivity..|split; assumption].
Defined.
