(* ===== verification/LoginRepo.v ===== *)
(** [infrastructure/persistence/login_repository.py]: identities, device signals and fallback
    methods in the database. *)
From S2P Require Import Prelude PyText Entity Models RedisClient World.

(** ** The selections and the writes *)

(** Accounts joined with their identities. *)
Definition identity_rows (provider subject : string) (db : Db) : list (User * Identity) :=
  where_ (fun p => (i_provider p.2 == provider) && (i_provider_subject p.2 == subject) && is_none (u_anonymized_at p.1))
    (join_on (fun u i => i_user_id i == u_user_id u) (users db) (identities db)).
Definition login_identity (user : User) (identity : Identity) : LoginIdentity :=
  MkLoginIdentity (u_user_id user) (u_state user) (i_password_hash identity) (i_verified identity)
    (is_some (u_phone_e164 user)).
Definition user_identity (user : User) : LoginIdentity :=
  MkLoginIdentity (u_user_id user) (u_state user) None (u_state user == "active") (is_some (u_phone_e164 user)).
(** The account an address names; the column ignores case. *)
Definition has_address (email : string) (u : User) : bool :=
  opt_citext_eq (u_email u) (normalize_email email) && is_none (u_anonymized_at u).

Definition is_device (user_id : UUID) (fingerprint_hash : string) (d : TrustedDevice) : bool :=
  (d_user_id d == user_id) && (d_fingerprint_hash d == fingerprint_hash).
Definition seen (ip_address : option string) (now : Time) (d : TrustedDevice) : TrustedDevice :=
  d <| d_last_ip_address := ip_address |> <| d_last_seen_at := now |>.
Definition set_trusted_device (device_id : UUID) (f : TrustedDevice -> TrustedDevice) (db : Db) : Db :=
  db <| trusted_devices ::= update_ (fun d => d_trusted_device_id d == device_id) f |>.
Definition moved (ip_address last_ip_address : option string) : bool :=
  truthy ip_address && truthy last_ip_address && (last_ip_address != ip_address).

Definition identity_methods (i : Identity) : list string :=
  if i_provider i == "password" then ["password"; "email_otp"]
  else if i_provider i == "phone" then ["sms_otp"] else [i_provider i].
(** [factor_methods.get(factor_type, factor_type)]. *)
Definition factor_method (factor_type : string) : string :=
  if factor_type == "email" then "email_otp" else if factor_type == "sms" then "sms_otp"
  else if factor_type == "backup_codes" then "backup_code" else factor_type.

Definition with_password_hash (password_hash : string) (i : Identity) : Identity :=
  i <| i_password_hash := Some password_hash |>.
Definition set_identity (identity_id : UUID) (f : Identity -> Identity) (db : Db) : Db :=
  db <| identities ::= update_ (fun i => i_identity_id i == identity_id) f |>.

Section Repository.
Context {R : Type} {E : Env}.
Abbreviation M := (prog R).

Definition _identity (provider subject : string) : M (option LoginIdentity) :=
  db ← get_db;
  row ← one_row (identity_rows provider subject db);
  mret ((fun p => login_identity p.1 p.2) <$> row).
Definition password_identity (email : string) : M (option LoginIdentity) :=
  _identity "password" (normalize_email email).
Definition phone_identity (phone_e164 : string) : M (option LoginIdentity) := _identity "phone" phone_e164.
Definition oidc_identity (provider subject : string) : M (option LoginIdentity) := _identity provider subject.

Definition active_user_by_email (email : string) : M (option LoginIdentity) :=
  db ← get_db; mret (user_identity <$> scalar (has_address email) (users db)).

(** [_audit_model], added to the session. *)
Definition _audit_model (event_type outcome : string) (correlation_id : UUID) (subject_user_id : option UUID)
    (metadata : dict) : M unit :=
  insert_audit None subject_user_id None event_type outcome correlation_id metadata.

Definition provision_oidc (profile : OIDCProfile) (correlation_id : UUID) : M LoginIdentity :=
  try_except
    (tx (
      now ← now_utc;
      user_id ← new_uuid4;
      let user := MkUser user_id (Some (normalize_email (op_email profile))) (op_given_name profile)
                    (op_family_name profile) None "active" 1 None now in
      add_row users user_valid user_conflict user;;
      org_id ← new_uuid4;
      add_row organizations organization_valid organization_conflict (personal_workspace_for org_id user);;
      identity_id ← new_uuid4;
      add_row identities identity_valid identity_conflict
        (MkIdentity identity_id user_id (op_provider profile) (op_subject profile) None true None now);;
      _audit_model "OIDC_USER_PROVISIONED" "success" correlation_id (Some user_id)
        [("provider", JStr (op_provider profile))];;
      mret (MkLoginIdentity user_id "active" None true false)))
    (fun err => match err with IntegrityError => Some (raise DuplicateContactError) | _ => None end).

Definition device_signals (user_id : UUID) (fingerprint_hash : string) (ip_address : option string)
    : M DeviceSignals :=
  tx (
    db ← get_db;
    now ← now_utc;
    match scalar (is_device user_id fingerprint_hash) (trusted_devices db) with
    | None =>
      device_id ← new_uuid4;
      add_row trusted_devices trusted_device_valid trusted_device_conflict
        (MkTrustedDevice device_id user_id fingerprint_hash "unknown" ip_address now now);;
      mret (MkDeviceSignals false false false)
    | Some device =>
      modify_db (set_trusted_device (d_trusted_device_id device) (seen ip_address now));;
      mret (MkDeviceSignals true (d_trust_state device == "trusted") (moved ip_address (d_last_ip_address device)))
    end).

Definition fallback_methods (user_id : UUID) : M (list string) :=
  db ← get_db;
  let verified := where_ (fun i => (i_user_id i == user_id) && i_verified i) (identities db) in
  let factors := where_ (fun m => (m_user_id m == user_id) && (m_status m == "active")) (mfa_devices db) in
  mret (sorted_set (List.flat_map identity_methods verified
                    ++ List.map (fun m => factor_method (m_factor_type m)) factors)).

Definition update_password_hash (user_id : UUID) (password_hash : string) : M unit :=
  tx (
    db ← get_db;
    match scalar (fun i => (i_user_id i == user_id) && (i_provider i == "password")) (identities db) with
    | None => mret ()
    | Some identity => modify_db (set_identity (i_identity_id identity) (with_password_hash password_hash))
    end).

Definition login_audit (event_type outcome : string) (correlation_id : UUID) (subject_user_id : option UUID)
    (metadata : dict) : M unit :=
  tx (_audit_model event_type outcome correlation_id subject_user_id metadata).
End Repository.
