(* ===== verification/Login.v ===== *)
(** [control/login.py]: primary login by password, phone and OpenID Connect, and the decision
    whether a second factor is needed. *)
From S2P Require Import Prelude PyText Entity Models RedisClient World Providers RedisSecurity.
From S2P Require OidcProvider LoginRepo.

Definition PASSWORD_ATTEMPT_LIMIT : Z := 5.
Definition PASSWORD_ATTEMPT_WINDOW : Z := 60.
Definition PHONE_OTP_LIMIT : Z := 3.
Definition PHONE_OTP_WINDOW : Z := 60.
Definition OTP_MAX_ATTEMPTS : Z := 3.
Definition OIDC_PROVIDERS : list string := ["google"; "apple"; "microsoft"].

Definition _invalid_credentials : exc :=
  LoginError Login_INVALID_CREDENTIALS "The supplied credentials could not be verified." 401.
Definition _invalid_otp : exc := LoginError Login_OTP_INVALID "The verification code is invalid or expired." 400.
Definition _invalid_oidc : exc :=
  LoginError Login_OIDC_INVALID "The social login response could not be verified." 400.
Definition _provider_unavailable : exc :=
  LoginError Login_PROVIDER_UNAVAILABLE
    "A required login service is temporarily unavailable. Please try again." 503.
Definition login_locked : exc :=
  LoginError Login_TEMPORARILY_LOCKED "Login is temporarily unavailable. Please wait and try again." 429.
Definition too_many_requests : exc :=
  LoginError Login_TEMPORARILY_LOCKED "Too many requests. Please wait and try again." 429.
Definition workflow_invalid : exc :=
  LoginError Login_WORKFLOW_INVALID "This login workflow is invalid or expired." 400.
Definition captcha_invalid : exc :=
  LoginError Login_CAPTCHA_INVALID "The security check could not be verified. Please try again." 400.

(** The score of [_primary_decision]. *)
Definition risk_of (signals : DeviceSignals) : RiskLevel :=
  let score := (if ds_known signals then 0 else 50) + (if ds_trusted signals then 0 else 20)
               + (if ds_ip_changed signals then 30 else 0) in
  if 50 <=? score then HIGH else if 25 <=? score then MEDIUM else LOW.
Definition decision_of (risk : RiskLevel) : LoginDecisionType := if risk == LOW then SESSION_READY else MFA_REQUIRED.
(** An identity that may sign in. *)
Definition may_sign_in (identity : LoginIdentity) : bool := li_verified identity && (li_state identity == "active").
(** [identity is None or not valid or not identity.verified or identity.state != "active"], the
    other way round. *)
Definition accepted (valid : bool) (identity : option LoginIdentity) : option LoginIdentity :=
  identity ← identity; if valid && may_sign_in identity then Some identity else None.
(** [identity.password_hash if identity and identity.password_hash else dummy]. *)
Definition hash_or (dummy : string) (identity : option LoginIdentity) : string :=
  or_else (str_or (identity ≫= li_password_hash) (Some dummy)) dummy.
(** [str(item) for item in payload.get("allowed_methods", [])]: the list holds texts. *)
Definition json_text (j : json) : string := match j with JStr s => s | _ => "" end.
Definition allowed_methods (payload : dict) : list string :=
  match jget "allowed_methods" payload with Some (JList l) => List.map json_text l | _ => [] end.
Definition workflow_payload (identity : LoginIdentity) (decision : LoginDecisionType) (risk : RiskLevel)
    (methods : list string) (method : string) (context : dict) : dict :=
  assoc_update
    [("user_id", JStr (uuid_str (li_user_id identity))); ("decision", JStr (decision_value decision));
     ("risk", JStr (risk_value risk)); ("allowed_methods", JList (List.map JStr methods));
     ("primary_method", JStr method)] context.

Section Control.
Context {R : Type} {RC : RedisClient R} {E : Env}.
Abbreviation M := (prog R).

(** Hashed when the control is built, with the salt of the first draw. *)
Definition _dummy_password_hash : string := argon2_hash 0 "dummy-password-used-only-for-constant-work".
Definition _signal_hash (value : string) : string := hmac_sha256 login_signal_hmac_secret value.
Definition _otp_hash (value : string) : string := hmac_sha256 otp_hmac_secret value.

Definition _normalize_phone (phone : string) : M string :=
  let normalized := str_filter (fun c => negb (is_phone_noise c)) phone in
  raise_if (negb (matches_e164 normalized)) _invalid_otp;; mret normalized.
Definition _provider (provider : string) : M string :=
  let normalized := casefold provider in
  raise_if (negb (normalized is_in OIDC_PROVIDERS)) _invalid_oidc;; mret normalized.
(** The local provider does not raise. *)
Definition _verify_captcha (token : string) (ip_address : option string) (action : string) : M unit :=
  raise_if (negb (captcha_verify token ip_address action)) captcha_invalid.

Definition _check_login_lock (email : string) (ip_address : option string) : M unit :=
  locked ← login_is_locked email;
  raise_if locked login_locked;;
  match ip_address with
  | Some ip => if nonempty ip then ip_locked ← login_is_locked ip; raise_if ip_locked login_locked else mret ()
  | None => mret ()
  end.

Definition _record_password_failure (email : string) (ip_address : option string)
    (identity : option LoginIdentity) (correlation_id : UUID) : M unit :=
  email_count ← increment_rate_limit "login_password" email PASSWORD_ATTEMPT_WINDOW;
  let ip := if truthy ip_address then ip_address else None in
  ip_count ← match ip with
             | Some ip => increment_rate_limit "login_password_ip" ip PASSWORD_ATTEMPT_WINDOW
             | None => mret 0
             end;
  (if PASSWORD_ATTEMPT_LIMIT <=? email_count then lock_login email else mret ());;
  match ip with
  | Some ip => if PASSWORD_ATTEMPT_LIMIT <=? ip_count then lock_login ip else mret ()
  | None => mret ()
  end;;
  LoginRepo.login_audit "PASSWORD_LOGIN_FAILED" "failure" correlation_id (li_user_id <$> identity) [].

Definition _workflow_decision (identity : LoginIdentity) (decision : LoginDecisionType) (risk : RiskLevel)
    (methods : list string) (method : string) (correlation_id : UUID) (context : dict) : M LoginDecision :=
  token ← new_token_urlsafe 32;
  store_login_workflow token (workflow_payload identity decision risk methods method context);;
  LoginRepo.login_audit
    (if decision == COLLISION_PROOF_REQUIRED then "OIDC_ACCOUNT_COLLISION_DETECTED" else "PRIMARY_LOGIN_VERIFIED")
    (if decision == COLLISION_PROOF_REQUIRED then "denied" else "success")
    correlation_id (Some (li_user_id identity))
    [("method", JStr method); ("risk", JStr (risk_value risk)); ("decision", JStr (decision_value decision))];;
  mret (MkLoginDecision decision risk token methods).

Definition _primary_decision (identity : LoginIdentity) (fingerprint : string) (ip_address : option string)
    (method : string) (correlation_id : UUID) : M LoginDecision :=
  signals ← LoginRepo.device_signals (li_user_id identity) (_signal_hash fingerprint) ip_address;
  let risk := risk_of signals in
  methods ← LoginRepo.fallback_methods (li_user_id identity);
  _workflow_decision identity (decision_of risk) risk methods method correlation_id [].

(** ** The operations *)

Definition login_password (email password fingerprint : string) (ip_address : option string)
    (correlation_id : option UUID) : M LoginDecision :=
  let normalized_email := normalize_email email in
  event_id ← or_uuid4 correlation_id;
  _check_login_lock normalized_email ip_address;;
  identity ← LoginRepo.password_identity normalized_email;
  let password_hash := hash_or _dummy_password_hash identity in
  let valid := password_verify password_hash password in
  match accepted valid identity with
  | None =>
    _record_password_failure normalized_email ip_address identity event_id;; raise _invalid_credentials
  | Some identity =>
    reset_rate_limit "login_password" normalized_email PASSWORD_ATTEMPT_WINDOW;;
    (if password_needs_rehash password_hash then
       updated ← Providers.password_hash password;
       LoginRepo.update_password_hash (li_user_id identity) updated
     else mret ());;
    _primary_decision identity fingerprint ip_address "password" event_id
  end.

Definition request_phone_otp (phone captcha_token : string) (ip_address : option string) : M unit :=
  normalized_phone ← _normalize_phone phone;
  _verify_captcha captcha_token ip_address "login_phone_request";;
  count ← increment_rate_limit "login_phone_request" normalized_phone PHONE_OTP_WINDOW;
  raise_if (PHONE_OTP_LIMIT <? count) too_many_requests;;
  identity ← LoginRepo.phone_identity normalized_phone;
  match identity with
  | None => mret ()
  | Some identity =>
    if negb (may_sign_in identity) then mret () else
    d ← draw;
    let code := dec_digits 6 (randbelow 1000000 d) "" in
    store_otp_hash (li_user_id identity) "phone_login" (_otp_hash code);;
    try_except (sms_send_verification normalized_phone code)
      (fun _ => Some (consume_otp (li_user_id identity) "phone_login";; raise _provider_unavailable))
  end.

Definition login_phone (phone code captcha_token fingerprint : string) (ip_address : option string)
    (correlation_id : option UUID) : M LoginDecision :=
  normalized_phone ← _normalize_phone phone;
  event_id ← or_uuid4 correlation_id;
  _verify_captcha captcha_token ip_address "login_phone_confirm";;
  identity ← LoginRepo.phone_identity normalized_phone;
  identity ← get_or _invalid_otp identity;
  raise_if (negb (may_sign_in identity)) _invalid_otp;;
  outcome ← verify_and_consume_otp (li_user_id identity) "phone_login" (_otp_hash code) OTP_MAX_ATTEMPTS;
  (if outcome =? 1 then mret ()
   else LoginRepo.login_audit "PHONE_LOGIN_FAILED" "failure" event_id (Some (li_user_id identity)) [];;
        raise _invalid_otp);;
  _primary_decision identity fingerprint ip_address "phone_otp" event_id.

Definition start_oidc (provider : string) : M (string * string) :=
  normalized_provider ← _provider provider;
  state ← new_token_urlsafe 24;
  nonce ← new_token_urlsafe 24;
  verifier ← new_token_urlsafe 48;
  let challenge := sha256_b64url verifier in
  store_oidc_workflow state
    [("provider", JStr normalized_provider); ("nonce", JStr nonce); ("code_verifier", JStr verifier)];;
  mret (OidcProvider.authorization_url normalized_provider state nonce challenge, state).

(** The profile the provider vouches for; whatever goes wrong on the way is OIDC_INVALID. *)
Definition callback_profile (provider code : string) (workflow : dict) : option OIDCProfile :=
  nonce ← jstr "nonce" workflow;
  verifier ← jstr "code_verifier" workflow;
  OidcProvider.verify_callback provider code nonce verifier.
Definition from_provider (provider : string) (workflow : dict) : bool :=
  bool_decide (jget "provider" workflow = Some (JStr provider)).

(** [login_oidc], from the consumed state on. *)
Definition oidc_callback (provider code fingerprint : string) (ip_address : option string) (event_id : UUID)
    (workflow : option dict) : M LoginDecision :=
  workflow ← get_or _invalid_oidc workflow;
  raise_if (negb (from_provider provider workflow)) _invalid_oidc;;
  profile ← get_or _invalid_oidc (callback_profile provider code workflow);
  raise_if (negb (op_email_verified profile)) _invalid_oidc;;
  identity ← LoginRepo.oidc_identity (op_provider profile) (op_subject profile);
  match identity with
  | Some identity =>
    raise_if (negb (may_sign_in identity)) _invalid_oidc;;
    _primary_decision identity fingerprint ip_address (op_provider profile) event_id
  | None =>
    collision ← LoginRepo.active_user_by_email (op_email profile);
    match collision with
    | Some collision =>
      methods ← LoginRepo.fallback_methods (li_user_id collision);
      _workflow_decision collision COLLISION_PROOF_REQUIRED HIGH methods "oidc_collision" event_id
        [("oidc_provider", JStr (op_provider profile)); ("oidc_subject", JStr (op_subject profile))]
    | None =>
      identity ← try_except (LoginRepo.provision_oidc profile event_id)
                   (fun err => match err with DuplicateContactError => Some (raise _invalid_oidc) | _ => None end);
      raise_if (negb (may_sign_in identity)) _invalid_oidc;;
      _primary_decision identity fingerprint ip_address (op_provider profile) event_id
    end
  end.

Definition login_oidc (provider state code fingerprint : string) (ip_address : option string)
    (correlation_id : option UUID) : M LoginDecision :=
  normalized_provider ← _provider provider;
  event_id ← or_uuid4 correlation_id;
  workflow ← consume_oidc_workflow state;
  oidc_callback normalized_provider code fingerprint ip_address event_id workflow.

Definition fallback_options (workflow_token : string) : M (list string) :=
  payload ← get_login_workflow workflow_token;
  payload ← get_or workflow_invalid payload;
  mret (allowed_methods payload).
End Control.
