(* ===== verification/LoginProps.v ===== *)
(** What primary login guarantees: who gets in, what a refusal reveals, when an address is locked,
    and what an OpenID Connect answer may do. *)
From S2P Require Import Prelude PyText Entity Models RedisClient World Providers RedisSecurity.
From S2P Require Import Login.
From S2P Require OidcProvider LoginRepo.

Import LoginRepo(identity_rows, login_identity, is_device, has_address, moved).

(** ** The rate limiter and the locks as functions of the keyspace *)

Section Keyspace.
Context {R : Type} {RC : RedisClient R} {E : Env}.
Implicit Types (w : World R) (r : R).

Definition bumped (now : Time) (key : string) (ttl : Z) (r : R) : R :=
  let r1 := r_incr now key r in
  if int_of_key (r_get now key r1) =? 1 then r_expire now key ttl r1 else r1.
Definition count_at (now : Time) (key : string) (r : R) : Z := int_of_key (r_get now key (r_incr now key r)).
Lemma run_bump key ttl w :
  rate_limit_script key ttl w = (inr (count_at (w_now w) key (w_redis w)), with_redis (bumped (w_now w) key ttl (w_redis w)) w).
Proof. unfold rate_limit_script, bumped, count_at. run. destruct (_ =? 1); run; by destruct w. Qed.

Lemma bumped_other key k now ttl r : k <> key -> r_entry (bumped now k ttl r) key = r_entry r key.
Proof.
  intros Hk. assert (Hi : r_entry (r_incr now k r) key = r_entry r key) by (rewrite r_incr_law, eqb_neq; congruence).
  unfold bumped. destruct (_ =? 1); [|done]. rewrite r_expire_law, eqb_neq; congruence.
Qed.
(** A counter that is alive and at least [n]. *)
Definition counting (key : string) (n : Z) (d : Time) (r : R) : Prop :=
  exists m, r_entry r key = Some (MkREntry (RInt m) (Some d)) /\ n <= m.
Lemma bumped_counting key n d now ttl k r : counting key n d r -> now < d -> 0 < n ->
  counting key (if k == key then n + 1 else n) d (bumped now k ttl r) /\ (k = key -> n + 1 <= count_at now k r).
Proof.
  intros (m & He & Hm) Hd Hn. unfold bumped, count_at. case_bool_decide as Hk; [subst k|].
  - assert (Hi : r_entry (r_incr now key r) key = Some (MkREntry (RInt (m + 1)) (Some d))).
    { rewrite r_incr_law, eqb_refl, He. cbn. by ltb_true Hd. }
    unfold r_get. rewrite Hi. cbn. ltb_true Hd. cbn. split; [|lia].
    destruct (Z.eqb_spec (m + 1) 1); [lia|]. exists (m + 1). split; [done|lia].
  - split; [|done]. exists m. split; [|done]. rewrite <- He. exact (bumped_other key k now ttl r Hk).
Qed.
Lemma bumped_fresh key now ttl r : r_get now key r = None ->
  counting key 1 (now + seconds ttl) (bumped now key ttl r) /\ count_at now key r = 1.
Proof.
  intros Hg. assert (Hi : r_entry (r_incr now key r) key = Some (MkREntry (RInt 1) None)).
  { rewrite r_incr_law, eqb_refl. unfold r_get in Hg. rewrite Hg. cbn. f_equal. f_equal. unfold keep_deadline.
    destruct (r_entry r key) as [[v [d|]]|]; try done. cbn in Hg. by case_match. }
  unfold bumped, count_at. unfold r_get. rewrite Hi. cbn. split; [|done].
  exists 1. split; [|done]. by rewrite r_expire_law, eqb_refl, Hi.
Qed.

(** A lock is a key that exists. *)
Definition locked_at (now : Time) (email : string) (ip : option string) (r : R) : bool :=
  r_exists now (name (login_lock email)) r ||
  match ip with Some ip => nonempty ip && r_exists now (name (login_lock ip)) r | None => false end.
Lemma run_check_lock email ip w : _check_login_lock email ip w
  = (if locked_at (w_now w) email ip (w_redis w) then inl login_locked else inr (), w).
Proof.
  unfold _check_login_lock, locked_at, login_is_locked, redis_exists. run.
  destruct (r_exists _ _ _); run; [done|]. destruct ip as [ip|]; [|done]. destruct (nonempty ip); run; [|done].
  by destruct (r_exists _ _ _).
Qed.
Lemma run_lock subject w : lock_login subject w
  = (inr (), with_redis (r_set (w_now w) (name (login_lock subject)) (RText "1") LOGIN_LOCK_TTL_SECONDS (w_redis w)) w).
Proof. unfold lock_login. by rewrite run_redis_set. Qed.

(** The keyspace after a refused password. *)
Definition email_key (email : string) : string := name (rate_limit "login_password" email PASSWORD_ATTEMPT_WINDOW).
Definition ip_key (ip : string) : string := name (rate_limit "login_password_ip" ip PASSWORD_ATTEMPT_WINDOW).
Definition locked_if (now : Time) (b : bool) (subject : string) (r : R) : R :=
  if b then r_set now (name (login_lock subject)) (RText "1") LOGIN_LOCK_TTL_SECONDS r else r.
Definition after_refusal (now : Time) (email : string) (ip : option string) (r : R) : R :=
  let r1 := bumped now (email_key email) PASSWORD_ATTEMPT_WINDOW r in
  let lock_email := locked_if now (PASSWORD_ATTEMPT_LIMIT <=? count_at now (email_key email) r) email in
  match (if truthy ip then ip else None) with
  | Some ip => locked_if now (PASSWORD_ATTEMPT_LIMIT <=? count_at now (ip_key ip) r1) ip
                 (lock_email (bumped now (ip_key ip) PASSWORD_ATTEMPT_WINDOW r1))
  | None => lock_email r1
  end.

Lemma run_login_audit et o c s m w : (o is_in ["success"; "failure"; "denied"]) = true -> exists row,
  LoginRepo.login_audit et o c s m w
  = (inr (), with_db ((w_db w) <| audit_logs ::= fun t => t ++ [row] |>) (next_seed w)).
Proof.
  intros Ho. unfold LoginRepo.login_audit, LoginRepo._audit_model, insert_audit. eexists. apply run_tx. run.
  unfold add_row. run. unfold audit_log_valid. cbn [a_outcome]. rewrite Ho. reflexivity.
Qed.

Lemma run_lock_if (b : bool) subject w : (if b then lock_login subject else mret ()) w
  = (inr (), with_redis (locked_if (w_now w) b subject (w_redis w)) w).
Proof. destruct b; [apply run_lock|by destruct w]. Qed.
Lemma run_email_count email w : increment_rate_limit "login_password" email PASSWORD_ATTEMPT_WINDOW w
  = (inr (count_at (w_now w) (email_key email) (w_redis w)),
     with_redis (bumped (w_now w) (email_key email) PASSWORD_ATTEMPT_WINDOW (w_redis w)) w).
Proof. apply run_bump. Qed.
Lemma run_ip_count ip w : increment_rate_limit "login_password_ip" ip PASSWORD_ATTEMPT_WINDOW w
  = (inr (count_at (w_now w) (ip_key ip) (w_redis w)),
     with_redis (bumped (w_now w) (ip_key ip) PASSWORD_ATTEMPT_WINDOW (w_redis w)) w).
Proof. apply run_bump. Qed.
Lemma run_record_failure email ip identity c w : exists row,
  _record_password_failure email ip identity c w
  = (inr (), with_db ((w_db w) <| audit_logs ::= fun t => t ++ [row] |>)
       (next_seed (with_redis (after_refusal (w_now w) email ip (w_redis w)) w))).
Proof.
  destruct (run_login_audit "PASSWORD_LOGIN_FAILED" "failure" c (li_user_id <$> identity) []
    (with_redis (after_refusal (w_now w) email ip (w_redis w)) w) eq_refl) as [row Hrow]. exists row.
  unfold _record_password_failure. rewrite (run_bind _ _ _ _ _ (run_email_count _ _)). cbv zeta.
  revert Hrow. unfold after_refusal. destruct (if truthy ip then ip else None) as [a|]; intros Hrow.
  - rewrite (run_bind _ _ _ _ _ (run_ip_count _ _)), !(run_bind _ _ _ _ _ (run_lock_if _ _ _)). exact Hrow.
  - run. rewrite (run_bind _ _ _ _ _ (run_lock_if _ _ _)). run. exact Hrow.
Qed.
End Keyspace.

(** ** Refused passwords *)

Section Refusals.
Context {R : Type} {RC : RedisClient R} {E : Env}.
Implicit Types (w : World R).

(** No account lets this address and password in. *)
Definition refused (email password : string) (db : Db) : Prop :=
  match identity_rows "password" (normalize_email (normalize_email email)) db with
  | [] => True
  | [p] => let identity := Some (login_identity p.1 p.2) in
           accepted (password_verify (hash_or _dummy_password_hash identity) password) identity = None
  | _ => False
  end.

Lemma refused_accounts email password db1 db2 : users db1 = users db2 -> identities db1 = identities db2 ->
  refused email password db1 -> refused email password db2.
Proof. unfold refused, identity_rows. by intros -> ->. Qed.

Lemma run_refused email password fp ip cid w : refused email password (w_db w) -> exists w',
  let locked := locked_at (w_now w) (normalize_email email) ip (w_redis w) in
  login_password email password fp ip cid w = (inl (if locked then login_locked else _invalid_credentials), w') /\
  w_redis w' = (if locked then w_redis w else after_refusal (w_now w) (normalize_email email) ip (w_redis w)) /\
  w_mail w' = w_mail w /\ users (w_db w') = users (w_db w) /\ identities (w_db w') = identities (w_db w).
Proof.
  intros Hr. cbv zeta. unfold login_password.
  assert (Hid : exists e w1, or_uuid4 cid w = (inr e, w1) /\ w_db w1 = w_db w /\ w_redis w1 = w_redis w /\
    w_now w1 = w_now w /\ w_mail w1 = w_mail w) by (destruct cid; by do 2 eexists).
  destruct Hid as (e & w1 & H1 & Hdb & Hre & Hnow & Hmail).
  rewrite (run_bind _ _ _ _ _ H1). rewrite <- Hnow, <- Hre, <- Hmail, <- Hdb. rewrite <- Hdb in Hr. clear H1 Hdb Hre Hnow Hmail w.
  unfold mbind at 1, prog_bind at 1. rewrite run_check_lock.
  destruct (locked_at _ _ _ _); [by exists w1|].
  unfold LoginRepo.password_identity, LoginRepo._identity. run. unfold refused in Hr.
  destruct (identity_rows _ _ _) as [|p [|]]; [..|done]; cbn [one_row]; run.
  - cbn [fmap option_fmap option_map accepted mbind option_bind].
    destruct (run_record_failure (normalize_email email) ip None e w1) as [row Hrow].
    rewrite (run_bind _ _ _ _ _ Hrow). by eexists.
  - cbn [fmap option_fmap option_map]. cbv zeta in Hr. rewrite Hr.
    destruct (run_record_failure (normalize_email email) ip (Some (login_identity p.1 p.2)) e w1) as [row Hrow].
    rewrite (run_bind _ _ _ _ _ Hrow). by eexists.
Qed.

(** An address that was refused often enough is locked. *)
Record attempt := MkAttempt { at_password : string; at_fingerprint : string; at_ip : option string; at_id : option UUID }.
Definition try_login (email : string) (a : attempt) : prog R LoginDecision :=
  login_password email (at_password a) (at_fingerprint a) (at_ip a) (at_id a).

Lemma lock_rate_ne s1 route s2 n : name (login_lock s1) <> name (rate_limit route s2 n).
Proof. by apply clash_ne. Qed.
Lemma locked_if_counting now b s key n d r : key <> name (login_lock s) -> counting key n d r -> counting key n d (locked_if now b s r).
Proof.
  intros Hk (m & He & Hm). exists m. split; [|done]. unfold locked_if. destruct b; [|done].
  by rewrite r_set_law, eqb_neq.
Qed.
Lemma after_refusal_counting now email ip n d r : counting (email_key email) n d r -> now < d -> 0 < n ->
  counting (email_key email) (n + 1) d (after_refusal now email ip r).
Proof.
  intros Hc Hd Hn. pose proof (bumped_counting _ _ _ now PASSWORD_ATTEMPT_WINDOW (email_key email) _ Hc Hd Hn) as [H1 _].
  rewrite eqb_refl in H1. unfold after_refusal.
  assert (Hl : forall s, email_key email <> name (login_lock s)) by (intros s Hs; by apply (lock_rate_ne s "login_password" email PASSWORD_ATTEMPT_WINDOW)).
  destruct (if truthy ip then ip else None) as [a|]; repeat (apply locked_if_counting; [done|]); [|done].
  destruct (bumped_counting _ _ _ now PASSWORD_ATTEMPT_WINDOW (ip_key a) _ H1 Hd ltac:(lia)) as [(m & He & Hm) _].
  exists m. split; [done|]. case_bool_decide; lia.
Qed.
Lemma after_refusal_locks now email ip n d r t : counting (email_key email) n d r -> now < d -> PASSWORD_ATTEMPT_LIMIT <= n + 1 ->
  t < now + seconds LOGIN_LOCK_TTL_SECONDS -> forall ip2, locked_at t email ip2 (after_refusal now email ip r) = true.
Proof.
  unfold PASSWORD_ATTEMPT_LIMIT. intros Hc Hd Hn Ht ip2. unfold locked_at. apply orb_true_iff. left.
  destruct (bumped_counting _ _ _ now PASSWORD_ATTEMPT_WINDOW (email_key email) _ Hc Hd ltac:(lia)) as [_ Hcount]. specialize (Hcount eq_refl).
  unfold after_refusal. rewrite (proj2 (Z.leb_le PASSWORD_ATTEMPT_LIMIT (count_at now (email_key email) r))) by (unfold PASSWORD_ATTEMPT_LIMIT; lia).
  assert (Hset : forall b s r0, r_exists t (name (login_lock email)) (locked_if now b s (r_set now (name (login_lock email)) (RText "1") LOGIN_LOCK_TTL_SECONDS r0)) = true).
  { intros b s r0. unfold r_exists, r_get, locked_if. destruct b; rewrite !r_set_law, ?eqb_refl; [|cbn; by ltb_true Ht].
    case_bool_decide; cbn; by ltb_true Ht. }
  destruct (if truthy ip then ip else None); [apply Hset|]. apply (Hset false "").
Qed.
Lemma after_refusal_fresh now email ip r : r_get now (email_key email) r = None ->
  counting (email_key email) 1 (now + seconds PASSWORD_ATTEMPT_WINDOW) (after_refusal now email ip r).
Proof.
  intros Hg. destruct (bumped_fresh _ now PASSWORD_ATTEMPT_WINDOW _ Hg) as [H1 _]. unfold after_refusal.
  assert (Hl : forall s, email_key email <> name (login_lock s)) by (intros s Hs; by apply (lock_rate_ne s "login_password" email PASSWORD_ATTEMPT_WINDOW)).
  assert (Hd : now < now + seconds PASSWORD_ATTEMPT_WINDOW) by (unfold seconds, second, PASSWORD_ATTEMPT_WINDOW; lia).
  destruct (if truthy ip then ip else None) as [a|]; repeat (apply locked_if_counting; [done|]); [|done].
  destruct (bumped_counting _ _ _ now PASSWORD_ATTEMPT_WINDOW (ip_key a) _ H1 Hd ltac:(lia)) as [(m & He & Hm) _].
  exists m. split; [done|]. case_bool_decide; lia.
Qed.

(** One more refusal that was answered as such, on a counter that is alive. *)
Lemma try_counts email a n d w w' : refused email (at_password a) (w_db w) ->
  counting (email_key (normalize_email email)) n d (w_redis w) -> w_now w < d -> 0 < n ->
  try_login email a w = (inl _invalid_credentials, w') ->
  counting (email_key (normalize_email email)) (n + 1) d (w_redis w') /\
  users (w_db w') = users (w_db w) /\ identities (w_db w') = identities (w_db w) /\
  (PASSWORD_ATTEMPT_LIMIT <= n + 1 -> forall t ip, t < w_now w + seconds LOGIN_LOCK_TTL_SECONDS ->
     locked_at t (normalize_email email) ip (w_redis w') = true).
Proof.
  intros Hr Hc Hd Hn H. unfold try_login in H.
  destruct (run_refused email _ (at_fingerprint a) (at_ip a) (at_id a) w Hr) as (w1 & Hrun & Hre & _ & Hu & Hi).
  rewrite Hrun in H. injection H as He <-. destruct (locked_at _ _ _ _) in He, Hre; [done|]. rewrite Hre.
  split_and!; [by apply after_refusal_counting|done..|]. intros Hl t ip Ht. by eapply after_refusal_locks.
Qed.

Lemma tries_count email attempts n d w w' :
  Forall (fun q => refused email (at_password q.2) (w_db w) /\ q.1 < d) attempts ->
  counting (email_key (normalize_email email)) n d (w_redis w) -> 0 < n ->
  run_at (try_login email) attempts w = (List.map (fun _ => inl _invalid_credentials) attempts, w') ->
  counting (email_key (normalize_email email)) (n + Z.of_nat (length attempts)) d (w_redis w') /\
  users (w_db w') = users (w_db w) /\ identities (w_db w') = identities (w_db w).
Proof.
  revert n w. induction attempts as [|[t a] attempts IH]; intros n w Hf Hc Hn H; cbn [run_at List.map] in H.
  { injection H as <-. rewrite Z.add_0_r. done. }
  inversion Hf as [|? ? [Hr Ht] Hrest]; subst. cbn [fst snd] in Hr, Ht.
  destruct (try_login email a (at_time t w)) as [x w1] eqn:E1. destruct (run_at (try_login email) attempts w1) as [xs w2] eqn:E2.
  injection H as -> -> <-. destruct (try_counts email a n d (at_time t w) w1 Hr Hc Ht Hn E1) as (Hc1 & Hu & Hi & _).
  destruct (IH (n + 1) w1) as (Hc2 & Hu2 & Hi2); [|done|lia|done|].
  - eapply List.Forall_impl; [|exact Hrest]. intros [t' a'] [Hr' Ht']. split; [|done]. by eapply refused_accounts.
  - rewrite Hu2, Hi2, Hu, Hi. cbn [length]. rewrite Nat2Z.inj_succ. split_and!; [|done..].
    by replace (n + Z.succ (Z.of_nat (length attempts))) with (n + 1 + Z.of_nat (length attempts)) by lia.
Qed.

(** The window that the attempts are counted in: [n] refusals are in it, and it closes at [d].  Without a live counter
    the first attempt opens it. *)
Definition window (email : string) (attempts : list (Time * attempt)) (n : Z) (d : Time) (r : R) : Prop :=
  (0 < n /\ counting (email_key (normalize_email email)) n d r) \/
  exists t0 a0 rest, attempts = (t0, a0) :: rest /\ n = 0 /\
    r_get t0 (email_key (normalize_email email)) r = None /\ d = t0 + seconds PASSWORD_ATTEMPT_WINDOW.
Lemma window_tries email attempts q n d w w' : window email (attempts ++ [q]) n d (w_redis w) ->
  1 < n + Z.of_nat (length attempts) + 1 ->
  Forall (fun q => refused email (at_password q.2) (w_db w) /\ q.1 < d) attempts ->
  run_at (try_login email) attempts w = (List.map (fun _ => inl _invalid_credentials) attempts, w') ->
  counting (email_key (normalize_email email)) (n + Z.of_nat (length attempts)) d (w_redis w') /\
  0 < n + Z.of_nat (length attempts) /\ users (w_db w') = users (w_db w) /\ identities (w_db w') = identities (w_db w).
Proof.
  intros [[Hn Hc]|(t0 & a0 & rest & Ha & -> & Hg & ->)] Hl Hf H.
  { destruct (tries_count email attempts n d w w' Hf Hc Hn H) as (H1 & H2 & H3). split_and!; try done. lia. }
  destruct attempts as [|[t0' a0'] others]; [cbn in Hl; lia|]. injection Ha as -> -> _.
  apply list.Forall_cons in Hf as [[Hr0 _] Hf]. cbn [fst snd] in Hr0. cbn [run_at List.map] in H.
  destruct (try_login email a0 (at_time t0 w)) as [x0 w0] eqn:E0.
  destruct (run_at (try_login email) others w0) as [xs w1] eqn:E1. injection H as -> -> <-.
  destruct (run_refused email (at_password a0) (at_fingerprint a0) (at_ip a0) (at_id a0) (at_time t0 w) Hr0)
    as (w0' & Hrun & Hre & _ & Hu & Hi).
  unfold try_login in E0. rewrite Hrun in E0. injection E0 as He ->. destruct (locked_at _ _ _ _) in He, Hre; [done|].
  pose proof (after_refusal_fresh t0 (normalize_email email) (at_ip a0) _ Hg) as Hc0. wsimpl_in Hre. rewrite <- Hre in Hc0.
  destruct (tries_count email others 1 (t0 + seconds PASSWORD_ATTEMPT_WINDOW) w0 w1) as (Hc1 & Hu1 & Hi1); [|exact Hc0|lia|exact E1|].
  { eapply List.Forall_impl; [|exact Hf]. intros [t' a'] [Hr' Ht']. split; [|done]. by eapply refused_accounts. }
  cbn [length]. replace (0 + Z.of_nat (S (length others))) with (1 + Z.of_nat (length others)) by lia.
  split_and!; [exact Hc1|lia|cbn in *; congruence..].
Qed.
End Refusals.

(** ** Accepted logins *)

Section Acceptance.
Context {R : Type} {RC : RedisClient R} {E : Env}.
Implicit Types (w : World R).

(** The account behind a row of the join. *)
Lemma identity_rows_elem provider subject db u i : (u, i) ∈ identity_rows provider subject db <->
  u ∈ users db /\ i ∈ identities db /\ i_user_id i = u_user_id u /\ i_provider i = provider /\
  i_provider_subject i = subject /\ u_anonymized_at u = None.
Proof.
  unfold identity_rows. rewrite elem_of_where, elem_of_join. cbn [fst snd]. rewrite !andb_true_iff, !bool_decide_eq_true.
  unfold is_none. destruct (u_anonymized_at u); intuition congruence.
Qed.
Lemma identity_inr provider subject w o w' : LoginRepo._identity provider subject w = (inr o, w') -> w' = w /\
  match o with
  | Some li => exists u i, (u, i) ∈ identity_rows provider subject (w_db w) /\ li = login_identity u i
  | None => identity_rows provider subject (w_db w) = []
  end.
Proof.
  unfold LoginRepo._identity. intros H. run_in H. destruct (identity_rows _ _ _) as [|[u i] [|]]; cbn [one_row] in H; run_in H;
    [| |done]; injection H as <- <-; (split; [done|]); [done|]. exists u, i. split; [by left|done].
Qed.

(** The device a login came from, when it was seen before at the same address. *)
Definition recognised (user_id : UUID) (fingerprint : string) (ip : option string) (db : Db) : Prop :=
  exists d, scalar (is_device user_id (_signal_hash fingerprint)) (trusted_devices db) = Some d /\
    moved ip (d_last_ip_address d) = false.
Lemma signals_inr user_id fingerprint ip w s w' :
  LoginRepo.device_signals user_id (_signal_hash fingerprint) ip w = (inr s, w') ->
  (risk_of s = LOW <-> recognised user_id fingerprint ip (w_db w)) /\
  w_redis w' = w_redis w /\ w_now w' = w_now w /\ identities (w_db w') = identities (w_db w) /\ users (w_db w') = users (w_db w).
Proof.
  unfold LoginRepo.device_signals, recognised. intros H. apply tx_inr in H. run_in H.
  destruct (scalar _ _) as [d|] eqn:Ed; run_in H.
  - injection H as <- <-. split_and!; [|done..]. split.
    + intros Hl. exists d. split; [done|]. unfold risk_of in Hl. cbn in Hl. by destruct (d_trust_state d == "trusted"), (moved _ _).
    + intros (d' & [= <-] & Hm). unfold risk_of. cbn. rewrite Hm. by destruct (d_trust_state d == "trusted").
  - step_in H u w1 H1. apply add_row_inr in H1 as (_ & _ & ->). injection H as <- <-. split_and!; [|done..].
    split; [done|]. by intros (d & ? & _).
Qed.

Lemma run_store_workflow token payload w : store_login_workflow token payload w
  = (inr (), with_redis (r_set (w_now w) (name (login_workflow token)) (RJson payload) LOGIN_WORKFLOW_TTL_SECONDS (w_redis w)) w).
Proof. unfold store_login_workflow. by rewrite run_redis_set. Qed.

(** What a decision leaves behind. *)
Lemma workflow_decision_inr identity decision risk methods method cid context w d w' :
  _workflow_decision identity decision risk methods method cid context w = (inr d, w') ->
  d = MkLoginDecision decision risk (ld_workflow_token d) methods /\
  w_redis w' = r_set (w_now w) (name (login_workflow (ld_workflow_token d)))
    (RJson (workflow_payload identity decision risk methods method context)) LOGIN_WORKFLOW_TTL_SECONDS (w_redis w) /\
  w_now w' = w_now w /\ identities (w_db w') = identities (w_db w) /\ users (w_db w') = users (w_db w).
Proof.
  unfold _workflow_decision. intros H. run_in H. step_in H u w1 H1. apply redis_set_inr in H1 as ->.
  match type of H with (LoginRepo.login_audit ?e ?o ?c ?s ?m ≫= _) ?w0 = _ =>
    destruct (run_login_audit e o c s m w0) as [row Hrow]; [by destruct decision|] end.
  rewrite (run_bind _ _ _ _ _ Hrow) in H. injection H as <- <-. done.
Qed.
Lemma primary_decision_inr identity fingerprint ip method cid w d w' :
  _primary_decision identity fingerprint ip method cid w = (inr d, w') ->
  ld_decision d <> COLLISION_PROOF_REQUIRED /\
  (ld_decision d = SESSION_READY <-> recognised (li_user_id identity) fingerprint ip (w_db w)) /\
  (exists payload, jget "user_id" payload = Some (JStr (uuid_str (li_user_id identity))) /\
     jget "decision" payload = Some (JStr (decision_value (ld_decision d))) /\
     w_redis w' = r_set (w_now w) (name (login_workflow (ld_workflow_token d))) (RJson payload)
                    LOGIN_WORKFLOW_TTL_SECONDS (w_redis w)) /\
  w_now w' = w_now w /\ identities (w_db w') = identities (w_db w) /\ users (w_db w') = users (w_db w).
Proof.
  unfold _primary_decision. intros H. step_in H s w1 H1. apply signals_inr in H1 as (Hl & Hre & Hn & Hi & Hu).
  unfold LoginRepo.fallback_methods in H. rewrite bind_bind, bind_get_db, bind_ret in H.
  apply workflow_decision_inr in H as (Hd & Hr & Hn' & Hi' & Hu'). rewrite Hd. cbn [ld_decision ld_workflow_token].
  split_and!.
  - unfold decision_of. by destruct (risk_of s).
  - rewrite <- Hl. unfold decision_of. by destruct (risk_of s).
  - rewrite Hr, Hre, Hn. eexists. split_and!; [..|done]; done.
  - by rewrite Hn'.
  - by rewrite Hi'.
  - by rewrite Hu'.
Qed.

(** A login that is accepted returns. *)
Definition fresh_device_ids (db : Db) : Prop := forall d n, d ∈ trusted_devices db -> d_trusted_device_id d <> uuid4 n.
Lemma run_signals user_id fingerprint_hash ip w : fresh_device_ids (w_db w) ->
  exists s w', LoginRepo.device_signals user_id fingerprint_hash ip w = (inr s, w').
Proof.
  intros Hf. unfold LoginRepo.device_signals.
  destruct (scalar (is_device user_id fingerprint_hash) (trusted_devices (w_db w))) as [d|] eqn:Ed.
  - do 2 eexists. apply run_tx. run. rewrite Ed. run. done.
  - do 2 eexists. apply run_tx. run. rewrite Ed. run. unfold add_row. run. unfold trusted_device_conflict. wsimpl.
    rewrite (proj2 (row_exists_false _ _)); [done|]. intros d Hd. cbn [d_trusted_device_id d_user_id d_fingerprint_hash].
    rewrite (eqb_neq _ _ (Hf d _ Hd)). exact (scalar_None _ _ _ Ed Hd).
Qed.
Lemma run_workflow_decision identity decision risk methods method cid context w :
  exists d w', _workflow_decision identity decision risk methods method cid context w = (inr d, w').
Proof.
  unfold _workflow_decision. run. rewrite (run_bind _ _ _ _ _ (run_store_workflow _ _ _)).
  match goal with |- context [(LoginRepo.login_audit ?e ?o ?c ?s ?m ≫= _) ?w0] =>
    destruct (run_login_audit e o c s m w0) as [row Hrow]; [by destruct decision|] end.
  rewrite (run_bind _ _ _ _ _ Hrow). by do 2 eexists.
Qed.
Lemma run_primary_decision identity fingerprint ip method cid w : fresh_device_ids (w_db w) ->
  exists d w', _primary_decision identity fingerprint ip method cid w = (inr d, w').
Proof.
  intros Hf. unfold _primary_decision. destruct (run_signals (li_user_id identity) (_signal_hash fingerprint) ip w Hf) as (s & w1 & H1).
  rewrite (run_bind _ _ _ _ _ H1). unfold LoginRepo.fallback_methods. run. apply run_workflow_decision.
Qed.
Lemma run_login_accepted email password fingerprint ip cid w u i :
  identity_rows "password" (normalize_email email) (w_db w) = [(u, i)] ->
  i_verified i = true -> u_state u = "active" ->
  password_verify (hash_or _dummy_password_hash (Some (login_identity u i))) password = true ->
  locked_at (w_now w) (normalize_email email) ip (w_redis w) = false -> fresh_device_ids (w_db w) ->
  exists d w', login_password email password fingerprint ip cid w = (inr d, w').
Proof.
  intros Hrow Hv Hs Hp Hl Hf. unfold login_password.
  assert (Hid : exists e w1, or_uuid4 cid w = (inr e, w1) /\ w_db w1 = w_db w /\ w_redis w1 = w_redis w /\ w_now w1 = w_now w)
    by (destruct cid; by do 2 eexists).
  destruct Hid as (e & w1 & H1 & Hdb & Hre & Hnow). rewrite (run_bind _ _ _ _ _ H1).
  unfold mbind at 1, prog_bind at 1. rewrite run_check_lock, Hnow, Hre, Hl.
  unfold LoginRepo.password_identity, LoginRepo._identity. run. rewrite normalize_email_idem, Hdb, Hrow. cbn [one_row]. run.
  cbn [fmap option_fmap option_map fst snd]. rewrite Hp. unfold accepted, may_sign_in. cbn [mbind option_bind login_identity li_verified li_state].
  rewrite Hv, Hs. cbn [andb]. rewrite eqb_refl. unfold reset_rate_limit, redis_delete. run.
  destruct (password_needs_rehash _); [|run; by apply run_primary_decision; cbn; rewrite Hdb].
  unfold Providers.password_hash. run. unfold LoginRepo.update_password_hash.
  match goal with |- context [(tx ?m ≫= _) ?w0] => assert (Hup : exists w2, tx m w0 = (inr (), w2) /\
    trusted_devices (w_db w2) = trusted_devices (w_db w)) end.
  { destruct (scalar (fun i0 => (i_user_id i0 == u_user_id u) && (i_provider i0 == "password")) (identities (w_db w1))) as [i0|] eqn:Ei;
      eexists; (split; [apply run_tx; run; cbn [li_user_id login_identity]; rewrite Ei; run; reflexivity|]); cbn; by rewrite Hdb. }
  destruct Hup as (w2 & Hup & Htd). rewrite (run_bind _ _ _ _ _ Hup).
  apply run_primary_decision. unfold fresh_device_ids. by rewrite Htd.
Qed.

(** The key a decision stored its workflow under holds it. *)
Lemma r_get_workflow now token payload r :
  r_get now (name (login_workflow token)) (r_set now (name (login_workflow token)) (RJson payload) LOGIN_WORKFLOW_TTL_SECONDS r)
  = Some (RJson payload).
Proof.
  rewrite r_get_set_eq. assert (H : now < now + seconds LOGIN_WORKFLOW_TTL_SECONDS)
    by (unfold seconds, second, LOGIN_WORKFLOW_TTL_SECONDS; lia). by ltb_true H.
Qed.
End Acceptance.

(** ** OpenID Connect *)

Section Oidc.
Context {R : Type} {RC : RedisClient R} {E : Env}.
Implicit Types (w : World R).

(** A state that is absent stays absent. *)
Abbreviation Gone state := (on_redis (R := R) (fun r => r_entry r (name (oidc_workflow state)) = None)).
Lemma keeps_store_workflow_gone state token payload : keeps (Gone state) (store_login_workflow token payload).
Proof.
  intros w I. unfold store_login_workflow. rewrite run_redis_set by done. unfold on_redis in *. wsimpl.
  rewrite r_set_law, eqb_neq; [done|]. apply (key_kind_ne (S_oidc_workflow state) (S_login_workflow token)). done.
Qed.
Hint Resolve keeps_store_workflow_gone : auth.
Lemma keeps_workflow_decision_gone state i d r ms m c ctx : keeps (Gone state) (_workflow_decision i d r ms m c ctx).
Proof. keeps_all. Qed.
Lemma keeps_primary_gone state i f ip m c : keeps (Gone state) (_primary_decision i f ip m c).
Proof. keeps_all. Qed.
Lemma keeps_provision_gone state p c : keeps (Gone state) (LoginRepo.provision_oidc p c).
Proof. keeps_all. intros []; intros; simplify_eq; keeps_all. Qed.
Hint Resolve keeps_workflow_decision_gone keeps_primary_gone keeps_provision_gone : auth.

Lemma keeps_callback_gone state p code f ip e wf : keeps (Gone state) (oidc_callback p code f ip e wf).
Proof. keeps_all. intros []; intros; simplify_eq; keeps_all. Qed.

Lemma run_event (cid : option UUID) w : exists e w1, or_uuid4 cid w = (inr e, w1) /\ w_db w1 = w_db w /\
  w_redis w1 = w_redis w /\ w_now w1 = w_now w.
Proof. destruct cid; by do 2 eexists. Qed.

(** A callback whose provider is known consumes the state before anything else. *)
Lemma run_login_oidc provider state code f ip cid w : (casefold provider is_in OIDC_PROVIDERS) = true ->
  exists e w1, w_db w1 = w_db w /\ w_now w1 = w_now w /\
  w_redis w1 = r_del (name (oidc_workflow state)) (w_redis w) /\
  login_oidc provider state code f ip cid w =
    match json_result (r_get (w_now w) (name (oidc_workflow state)) (w_redis w)) with
    | inr wf => oidc_callback (casefold provider) code f ip e wf w1
    | inl err => (inl err, w1)
    end.
Proof.
  intros Hp. destruct (run_event cid w) as (e & w1 & H1 & Hdb & Hre & Hn).
  exists e, (with_redis (r_del (name (oidc_workflow state)) (w_redis w1)) w1). wsimpl. rewrite Hre. split_and!; [done..|].
  unfold login_oidc, _provider. rewrite Hp. run. rewrite (run_bind _ _ _ _ _ H1).
  unfold consume_oidc_workflow, mbind at 1, prog_bind at 1. rewrite run_consume, Hn, Hre.
  by destruct (json_result _).
Qed.
Lemma run_oidc_gone provider state code f ip cid w : (casefold provider is_in OIDC_PROVIDERS) = true ->
  r_entry (w_redis w) (name (oidc_workflow state)) = None -> exists w',
  login_oidc provider state code f ip cid w = (inl _invalid_oidc, w') /\ w_db w' = w_db w.
Proof.
  intros Hp Hg. destruct (run_login_oidc provider state code f ip cid w Hp) as (e & w1 & Hdb & _ & _ & ->).
  unfold r_get. rewrite Hg. cbn [live json_result]. exists w1. unfold oidc_callback. run. done.
Qed.
End Oidc.

(** ** Properties *)

Section Properties.
Context {R : Type} {RC : RedisClient R} {E : Env}.
Implicit Types (w : World R).

(** C17: who a password lets in.  A login that returned found neither the address nor the client's
    IP locked, and a verified password identity of an active account whose hash accepts the
    password; the token it hands out opens a workflow of that account.  It is ready for a session
    exactly when the device was seen before at an unchanged address, and needs a second factor
    otherwise. *)
Theorem login_password_sound email password fingerprint ip cid w d w' :
  login_password email password fingerprint ip cid w = (inr d, w') ->
  locked_at (w_now w) (normalize_email email) ip (w_redis w) = false /\
  exists u i, u ∈ users (w_db w) /\ i ∈ identities (w_db w) /\ i_user_id i = u_user_id u /\
    i_provider i = "password" /\ i_provider_subject i = normalize_email email /\
    u_anonymized_at u = None /\ u_state u = "active" /\ i_verified i = true /\
    password_verify (hash_or _dummy_password_hash (Some (login_identity u i))) password = true /\
    ld_decision d <> COLLISION_PROOF_REQUIRED /\
    (ld_decision d = SESSION_READY <-> recognised (u_user_id u) fingerprint ip (w_db w)) /\
    exists payload, r_get (w_now w') (name (login_workflow (ld_workflow_token d))) (w_redis w') = Some (RJson payload) /\
      jget "user_id" payload = Some (JStr (uuid_str (u_user_id u))) /\
      jget "decision" payload = Some (JStr (decision_value (ld_decision d))).
Proof.
  unfold login_password. intros H. destruct (run_event cid w) as (e & w1 & H1 & Hdb & Hre & Hn).
  rewrite (run_bind _ _ _ _ _ H1) in H. unfold mbind at 1, prog_bind at 1 in H. rewrite run_check_lock, Hre, Hn in H.
  destruct (locked_at _ _ _ _) eqn:El; [done|]. split; [done|].
  step_in H o w2 H2. apply identity_inr in H2 as [-> Hrow]. destruct (accepted _ o) as [li|] eqn:Ea.
  2:{ step_in H x w3 H3. done. }
  destruct o as [li'|]; [|done]. cbn [accepted mbind option_bind] in Ea. destruct (_ && _) eqn:Ev; [|done]. injection Ea as ->.
  destruct Hrow as (u & i & Hrow & ->). rewrite normalize_email_idem in Hrow. rewrite Hdb in Hrow.
  apply identity_rows_elem in Hrow as (Hu & Hi & Hui & Hp & Hs & Han).
  unfold may_sign_in in Ev. cbn [li_verified li_state login_identity] in Ev. to_prop.
  exists u, i. do 9 (split; [done|]).
  run_in H. unfold reset_rate_limit, redis_delete in H. run_in H. step_in H x w3 Hw3.
  assert (Hsame : w_now w3 = w_now w1 /\ trusted_devices (w_db w3) = trusted_devices (w_db w1)).
  { destruct (password_needs_rehash _); [|by injection Hw3 as <- <-]. unfold Providers.password_hash in Hw3. run_in Hw3.
    unfold LoginRepo.update_password_hash in Hw3. apply tx_inr in Hw3. run_in Hw3. by destruct (scalar _ _); injection Hw3 as <- <-. }
  destruct Hsame as [Hnow Htd].
  apply primary_decision_inr in H as (Hc & Hd & (payload & Hju & Hjd & Hr) & Hn' & _ & _).
  split; [done|]. split.
  - rewrite Hd. unfold recognised. by rewrite Htd, Hdb.
  - exists payload. rewrite Hr, Hn'. split; [apply r_get_workflow|done].
Qed.

(** A refusal does not say why.  An address nobody registered and one whose password is wrong
    (or whose account may not sign in) get the same answer and leave the same keyspace, whatever
    the rest of the database holds; no mail is sent. *)
Theorem refusals_alike email password fingerprint ip cid w1 w2 :
  refused email password (w_db w1) -> refused email password (w_db w2) ->
  w_redis w1 = w_redis w2 -> w_now w1 = w_now w2 ->
  let '(x1, w1') := login_password email password fingerprint ip cid w1 in
  let '(x2, w2') := login_password email password fingerprint ip cid w2 in
  x1 = x2 /\ (x1 = inl _invalid_credentials \/ x1 = inl login_locked) /\
  w_redis w1' = w_redis w2' /\ w_mail w1' = w_mail w1 /\ w_mail w2' = w_mail w2.
Proof.
  intros H1 H2 Hr Hn.
  destruct (run_refused email password fingerprint ip cid w1 H1) as (v1 & -> & Hr1 & Hm1 & _).
  destruct (run_refused email password fingerprint ip cid w2 H2) as (v2 & -> & Hr2 & Hm2 & _).
  rewrite Hr, Hn in *. destruct (locked_at _ _ _ _); rewrite Hr1, Hr2; auto 6.
Qed.

(** C20: a run of refusals locks the address.  The counter of an address lives in a window of a minute that is
    opened by the first refusal counted and does not move.  When refusals answered INVALID_CREDENTIALS, together
    with the [n] already counted in the window, make five before it closes (at a minute from the first of them, where
    no counter was live then), every login with the address, from whatever IP and with whatever password, the right
    one included, is answered TEMPORARILY_LOCKED for a quarter of an hour from the last of them.  Nothing is promised
    of refusals on both sides of the end of a window: LoginDemo.refusals_across_windows has a run in which they lock
    nothing. *)
Theorem five_refusals_lock email attempts n d t5 a5 w w' t password fingerprint ip cid :
  window email (attempts ++ [(t5, a5)]) n d (w_redis w) ->
  PASSWORD_ATTEMPT_LIMIT <= n + Z.of_nat (length (attempts ++ [(t5, a5)])) ->
  Forall (fun q => refused email (at_password q.2) (w_db w) /\ q.1 < d) (attempts ++ [(t5, a5)]) ->
  run_at (try_login email) (attempts ++ [(t5, a5)]) w =
    (List.map (fun _ => inl _invalid_credentials) (attempts ++ [(t5, a5)]), w') ->
  t < t5 + seconds LOGIN_LOCK_TTL_SECONDS ->
  (login_password email password fingerprint ip cid (at_time t w')).1 = inl login_locked.
Proof.
  intros Hw Hl Hf H Ht. rewrite length_app in Hl. cbn [length] in Hl. apply list.Forall_app in Hf as [Hf H5].
  apply list.Forall_cons in H5 as [[Hr5 Ht5] _]. cbn [fst snd] in *.
  rewrite run_at_app in H. destruct (run_at (try_login email) attempts w) as [xs w1] eqn:E1. cbn [run_at] in H.
  destruct (try_login email a5 (at_time t5 w1)) as [x5 w5] eqn:E5. rewrite map_app in H. injection H as H <-.
  apply app_inj_2 in H as [-> [= ->]]; [|done].
  destruct (window_tries email attempts (t5, a5) n d w w1 Hw ltac:(unfold PASSWORD_ATTEMPT_LIMIT in Hl; lia) Hf E1) as (Hc1 & Hp & Hu1 & Hi1).
  assert (Hr5' : refused email (at_password a5) (w_db (at_time t5 w1)))
    by (eapply refused_accounts; [..|exact Hr5]; cbn in *; congruence).
  destruct (try_counts email a5 _ _ (at_time t5 w1) w5 Hr5' Hc1 Ht5 Hp E5) as (_ & _ & _ & Hlock).
  unfold login_password. destruct (run_event cid (at_time t w5)) as (e & w6 & H6 & _ & Hre6 & Hn6).
  rewrite (run_bind _ _ _ _ _ H6). unfold mbind at 1, prog_bind at 1. rewrite run_check_lock, Hre6, Hn6. wsimpl.
  rewrite Hlock; [done|lia|exact Ht].
Qed.

(** An OpenID Connect callback is accepted once, for the flow it was started in.  A login that
    returned found its state stored for this provider, and its profile is what the provider
    vouches for, with the nonce and the code verifier of that flow, and with a verified address;
    returned or not, the state is spent: every later callback with it, whatever the provider, the
    code and the time, fails with OIDC_INVALID and leaves the database alone. *)
Theorem oidc_state_single_use provider state code fingerprint ip cid w x w' :
  (casefold provider is_in OIDC_PROVIDERS) = true ->
  login_oidc provider state code fingerprint ip cid w = (x, w') ->
  (forall d, x = inr d -> exists workflow profile nonce verifier,
     r_get (w_now w) (name (oidc_workflow state)) (w_redis w) = Some (RJson workflow) /\
     jstr "provider" workflow = Some (casefold provider) /\
     jstr "nonce" workflow = Some nonce /\ jstr "code_verifier" workflow = Some verifier /\
     OidcProvider.verify_callback (casefold provider) code nonce verifier = Some profile /\ op_email_verified profile = true) /\
  forall t2 provider2 code2 fp2 ip2 cid2, (casefold provider2 is_in OIDC_PROVIDERS) = true -> exists w2,
    login_oidc provider2 state code2 fp2 ip2 cid2 (at_time t2 w') = (inl _invalid_oidc, w2) /\ w_db w2 = w_db w'.
Proof.
  intros Hp H. destruct (run_login_oidc provider state code fingerprint ip cid w Hp) as (e & w1 & _ & _ & Hre & Hrun).
  rewrite Hrun in H. clear Hrun. split.
  - intros d ->. destruct (r_get _ _ _) as [[| |wf|]|] eqn:Eg; cbn [json_result] in H; try discriminate H;
      unfold oidc_callback in H; run_in H; try discriminate H.
    destruct (from_provider _ wf) eqn:Ef; cbn [negb] in H; run_in H; [|done].
    destruct (callback_profile _ _ wf) as [profile|] eqn:Ec; run_in H; [|done].
    destruct (op_email_verified profile) eqn:Ev; cbn [negb] in H; run_in H; [|done].
    unfold from_provider in Ef. apply bool_decide_eq_true in Ef.
    unfold callback_profile in Ec. apply bind_Some in Ec as (nonce & Hn & Ec). apply bind_Some in Ec as (verifier & Hv & Ec).
    exists wf, profile, nonce, verifier. split_and!; try done. unfold jstr. by rewrite Ef.
  - intros t2 provider2 code2 fp2 ip2 cid2 Hp2.
    assert (Hw : r_entry (w_redis w') (name (oidc_workflow state)) = None);
      [|destruct (run_oidc_gone provider2 state code2 fp2 ip2 cid2 (at_time t2 w') Hp2 Hw) as (w2 & H2 & Hd2); by exists w2].
    assert (Hg : r_entry (w_redis w1) (name (oidc_workflow state)) = None) by by rewrite Hre, r_del_law, eqb_refl.
    destruct (json_result _) as [err|wf]; [by injection H as _ <-|].
    pose proof (keeps_callback_gone state (casefold provider) code fingerprint ip e wf w1 Hg) as Hk. by rewrite H in Hk.
Qed.

(** C18: an OpenID Connect identity is never linked to an account on the strength of its address.
    When the identity is not on record and the verified address is that of an existing account,
    the callback asks for a proof of that account: no account and no identity is added or changed,
    and the stored workflow names the account, the decision and the identity to link. *)
Theorem oidc_collision_links_nothing provider state code fingerprint ip cid w workflow profile u :
  (casefold provider is_in OIDC_PROVIDERS) = true ->
  r_get (w_now w) (name (oidc_workflow state)) (w_redis w) = Some (RJson workflow) ->
  from_provider (casefold provider) workflow = true ->
  callback_profile (casefold provider) code workflow = Some profile -> op_email_verified profile = true ->
  identity_rows (op_provider profile) (op_subject profile) (w_db w) = [] ->
  scalar (has_address (op_email profile)) (users (w_db w)) = Some u ->
  exists d w', login_oidc provider state code fingerprint ip cid w = (inr d, w') /\
    ld_decision d = COLLISION_PROOF_REQUIRED /\
    users (w_db w') = users (w_db w) /\ identities (w_db w') = identities (w_db w) /\
    exists payload, r_get (w_now w') (name (login_workflow (ld_workflow_token d))) (w_redis w') = Some (RJson payload) /\
      jget "user_id" payload = Some (JStr (uuid_str (u_user_id u))) /\
      jget "decision" payload = Some (JStr "collision_proof_required") /\
      jget "oidc_provider" payload = Some (JStr (op_provider profile)) /\
      jget "oidc_subject" payload = Some (JStr (op_subject profile)).
Proof.
  intros Hp Hg Hf Hc Hv Hnone Hu.
  destruct (run_login_oidc provider state code fingerprint ip cid w Hp) as (e & w1 & Hdb & Hn & _ & Hrun).
  rewrite Hrun, Hg. cbn [json_result]. clear Hrun. unfold oidc_callback. run. rewrite Hf. run. rewrite Hc. run. rewrite Hv. run.
  unfold LoginRepo.oidc_identity, LoginRepo._identity. run. rewrite Hdb, Hnone. cbn [one_row]. run.
  cbn [fmap option_fmap option_map]. unfold LoginRepo.active_user_by_email. run. rewrite Hdb, Hu. cbn [fmap option_fmap option_map].
  unfold LoginRepo.fallback_methods. run.
  match goal with |- context [_workflow_decision ?i ?d ?r ?ms ?m ?c ?ctx w1] =>
    destruct (run_workflow_decision i d r ms m c ctx w1) as (d' & w' & Hok) end. rename d' into d.
  rewrite Hok. exists d, w'. split; [done|].
  apply workflow_decision_inr in Hok as (Hd & Hr & Hn' & Hi' & Hu'). rewrite Hd. cbn [ld_decision ld_workflow_token].
  rewrite Hi', Hu', Hr, Hn', Hdb. split_and!; [done..|]. eexists. split; [apply r_get_workflow|done].
Qed.
End Properties.
