(* ===== verification/RegistrationRepo.v ===== *)
(** [infrastructure/persistence/registration_repository.py]: pending accounts, their verification
    and the referrals they claim, in the database.

    [set_user_context] sets the context of row level security, which [RowSecurity] models. *)
From S2P Require Import Prelude PyText Entity Models RedisClient World.
From S2P Require RecoveryRepo.
Import RecoveryRepo(user_by_id, set_user, set_ephemeral, in_state, spent_link).

(** ** The selections and the writes *)

Definition _pending_contact (user : User) : PendingContact := MkPendingContact (u_user_id user) (u_state user).
Definition by_email (email : string) (u : User) : bool :=
  opt_citext_eq (u_email u) (normalize_email email) && is_none (u_anonymized_at u).
Definition by_phone (phone_e164 : string) (u : User) : bool :=
  (u_phone_e164 u == Some phone_e164) && is_none (u_anonymized_at u).
Definition is_link (token_hash : string) (e : EphemeralToken) : bool :=
  (e_token_hash e == token_hash) && (e_purpose e == "email_verify").
Definition open_link (user_id : UUID) (e : EphemeralToken) : bool :=
  (e_user_id e == Some user_id) && (e_purpose e == "email_verify") && is_none (e_consumed_at e).
(** The account of a link that is on record, unused and in time. *)
Definition link_account (now : Time) (e : EphemeralToken) : option UUID :=
  if is_some (e_consumed_at e) || (e_expires_at e <=? now) then None else e_user_id e.
Definition may_verify (user : User) : bool := u_state user is_in ["pending"; "active"].
Definition confirmed (i : Identity) : Identity := i <| i_verified := true |>.
Definition set_identities (P : Identity -> bool) (f : Identity -> Identity) (db : Db) : Db :=
  db <| identities ::= update_ P f |>.
Definition set_links (P : EphemeralToken -> bool) (f : EphemeralToken -> EphemeralToken) (db : Db) : Db :=
  db <| ephemeral_tokens ::= update_ P f |>.
Definition set_referrals (P : Referral -> bool) (f : Referral -> Referral) (db : Db) : Db :=
  db <| referrals ::= update_ P f |>.
Definition referral_registered (user_id : UUID) (now : Time) (r : Referral) : Referral :=
  r <| rf_referred_user_id := Some user_id |> <| rf_state := "registered" |> <| rf_registered_at := Some now |>.
Definition referral_verified (now : Time) (r : Referral) : Referral :=
  r <| rf_state := "verified" |> <| rf_verified_at := Some now |>.
Definition claimable (email : string) (user_id : UUID) (now : Time) (r : Referral) : bool :=
  (rf_state r == "invited") && (now <? rf_expires_at r) && (normalize_email (rf_invitee_email r) == email)
  && (rf_referrer_user_id r != user_id).

Section Repository.
Context {R : Type} {E : Env}.
Abbreviation M := (prog R).

Definition get_by_email (email : string) : M (option PendingContact) :=
  db ← get_db; mret (_pending_contact <$> scalar (by_email email) (users db)).
Definition get_by_phone (phone_e164 : string) : M (option PendingContact) :=
  db ← get_db; mret (_pending_contact <$> scalar (by_phone phone_e164) (users db)).

Definition _audit (event_type outcome : string) (correlation_id subject_user_id : UUID) (metadata : dict) : M unit :=
  insert_audit None (Some subject_user_id) None event_type outcome correlation_id metadata.

Definition _claim_referral (referral_token_hash : option string) (email : string) (user_id : UUID) : M unit :=
  match referral_token_hash with
  | None => mret ()
  | Some token_hash =>
    now ← now_utc;
    db ← get_db;
    match scalar (fun r => rf_token_hash r == token_hash) (referrals db) with
    | None => mret ()
    | Some referral =>
      if claimable email user_id now referral then
        modify_db (set_referrals (fun r => rf_referral_id r == rf_referral_id referral) (referral_registered user_id now))
      else mret ()
    end
  end.

(** [except IntegrityError as error: raise DuplicateContactError]. *)
Definition or_duplicate {A} (m : M A) : M A :=
  try_except m (fun err => match err with IntegrityError => Some (raise DuplicateContactError) | _ => None end).

Definition email_link (token_id user_id : UUID) (token_hash : string) (now expires_at : Time) : EphemeralToken :=
  MkEphemeralToken token_id (Some user_id) token_hash "email_verify" [] now expires_at None.

Definition create_email_registration (email given_name family_name password_hash token_hash : string)
    (expires_at : Time) (correlation_id : UUID) (referral_token_hash : option string) : M UUID :=
  or_duplicate (tx (
    now ← now_utc;
    user_id ← new_uuid4;
    let user := MkUser user_id (Some (normalize_email email)) (Some (strip given_name)) (Some (strip family_name))
                  None "pending" 1 None now in
    add_row users user_valid user_conflict user;;
    org_id ← new_uuid4;
    add_row organizations organization_valid organization_conflict (personal_workspace_for org_id user);;
    _claim_referral referral_token_hash (normalize_email email) user_id;;
    identity_id ← new_uuid4;
    add_row identities identity_valid identity_conflict
      (MkIdentity identity_id user_id "password" (normalize_email email) (Some password_hash) false None now);;
    history_id ← new_uuid4;
    add_row password_history no_check password_history_conflict
      (MkPasswordHistory history_id identity_id password_hash now);;
    token_id ← new_uuid4;
    add_row ephemeral_tokens ephemeral_token_valid ephemeral_token_conflict
      (email_link token_id user_id token_hash now expires_at);;
    _audit "USER_REGISTRATION_PENDING" "success" correlation_id user_id [("method", JStr "email")];;
    mret user_id)).

Definition issue_email_verification (user_id : UUID) (token_hash : string) (expires_at : Time) (correlation_id : UUID)
    : M unit :=
  now ← now_utc;
  tx (
    modify_db (set_links (open_link user_id) (spent_link now));;
    token_id ← new_uuid4;
    add_row ephemeral_tokens ephemeral_token_valid ephemeral_token_conflict
      (email_link token_id user_id token_hash now expires_at);;
    _audit "EMAIL_VERIFICATION_REISSUED" "success" correlation_id user_id []).

Definition verify_email (token_hash : string) (now : Time) (correlation_id : UUID) : M bool :=
  tx (
    db ← get_db;
    let token := scalar (is_link token_hash) (ephemeral_tokens db) in
    match (token ← token; user_id ← link_account now token; Some (token, user_id)) with
    | None => mret false
    | Some (token, user_id) =>
      modify_db (set_ephemeral (e_ephemeral_token_id token) (spent_link now));;
      db ← get_db;
      match user_by_id user_id db with
      | None => mret false
      | Some user =>
        if negb (may_verify user) then mret false else
        modify_db (set_user user_id (in_state "active"));;
        modify_db (set_identities (fun i => (i_user_id i == user_id) && (i_provider i == "password")) confirmed);;
        _audit "EMAIL_VERIFIED" "success" correlation_id user_id [];;
        modify_db (set_referrals (fun r => (rf_referred_user_id r == Some user_id) && (rf_state r == "registered"))
                     (referral_verified now));;
        mret true
      end
    end).

Definition create_phone_registration (phone_e164 : string) (given_name family_name : option string)
    (correlation_id : UUID) : M UUID :=
  or_duplicate (tx (
    now ← now_utc;
    user_id ← new_uuid4;
    let given := if truthy given_name then strip <$> given_name else None in
    let family := if truthy family_name then strip <$> family_name else None in
    let user := MkUser user_id None given family (Some phone_e164) "pending" 1 None now in
    add_row users user_valid user_conflict user;;
    org_id ← new_uuid4;
    add_row organizations organization_valid organization_conflict (personal_workspace_for org_id user);;
    identity_id ← new_uuid4;
    add_row identities identity_valid identity_conflict
      (MkIdentity identity_id user_id "phone" phone_e164 None false None now);;
    _audit "USER_REGISTRATION_PENDING" "success" correlation_id user_id [("method", JStr "phone")];;
    mret user_id)).

Definition verify_phone (user_id correlation_id : UUID) : M bool :=
  tx (
    db ← get_db;
    match user_by_id user_id db with
    | None => mret false
    | Some user =>
      if negb (may_verify user) then mret false else
      modify_db (set_user user_id (in_state "active"));;
      db ← get_db;
      match scalar (fun i => (i_user_id i == user_id) && (i_provider i == "phone")) (identities db) with
      | None => mret false
      | Some phone_identity =>
        modify_db (set_identities (fun i => i_identity_id i == i_identity_id phone_identity) confirmed);;
        _audit "PHONE_VERIFIED" "success" correlation_id user_id [];;
        mret true
      end
    end).
End Repository.
