(* ===== verification/Registration.v ===== *)
(** [control/registration.py]: sign-up by e-mail and by phone, and the verification of contacts. *)
From S2P Require Import Prelude PyText Entity Models RedisClient World Providers RedisSecurity.
From S2P Require RegistrationRepo.

Definition EMAIL_TOKEN_LIFETIME : Z := minutes 15.
Definition PHONE_RATE_WINDOW_SECONDS : Z := 60.
Definition PHONE_RATE_LIMIT : Z := 3.
Definition EMAIL_RATE_LIMIT : Z := 5.
Definition OTP_MAX_ATTEMPTS : Z := 3.

Definition _invalid_otp : exc :=
  RegistrationError Reg_OTP_INVALID "The verification code is invalid or expired." 400.
Definition _provider_unavailable : exc :=
  RegistrationError Reg_PROVIDER_UNAVAILABLE
    "A required verification service is temporarily unavailable. Please try again." 503.
Definition captcha_invalid : exc :=
  RegistrationError Reg_CAPTCHA_INVALID "The security check could not be verified. Please try again." 400.
Definition rate_limited : exc :=
  RegistrationError Reg_RATE_LIMITED "Too many requests. Please wait and try again." 429.
Definition password_breached : exc :=
  RegistrationError Reg_PASSWORD_BREACHED
    "Choose a password that has not appeared in a known public breach." 400.
Definition verification_invalid : exc :=
  RegistrationError Reg_VERIFICATION_INVALID
    "This verification link is invalid, expired, or has already been used." 400.
Definition phone_invalid : exc :=
  RegistrationError Reg_VERIFICATION_INVALID
    "Enter a valid international phone number, including the country code." 400.

Section Control.
Context {R : Type} {RC : RedisClient R} {E : Env}.
Abbreviation M := (prog R).

Definition _token_hash (token : string) : string := sha256_hex token.
Definition _otp_hash (code : string) : string := hmac_sha256 otp_hmac_secret code.
Definition _referral_hash (token : string) : string := hmac_sha256 workspace_token_hmac_secret token.

Definition _normalize_phone (phone : string) : M string :=
  let normalized := str_filter (fun c => negb (is_phone_noise c)) phone in
  raise_if (negb (matches_e164 normalized)) phone_invalid;; mret normalized.
(** The local provider does not raise, and neither does a counter of the store. *)
Definition _verify_captcha (token : string) (remote_ip : option string) (action : string) : M unit :=
  raise_if (negb (captcha_verify token remote_ip action)) captcha_invalid.
Definition _limit (route subject : string) (limit window : Z) : M unit :=
  count ← increment_rate_limit route subject window;
  raise_if (limit <? count) rate_limited.

(** [except Exception as error: raise self._provider_unavailable() from error]. *)
Definition or_unavailable (m : M unit) : M unit := try_except m (fun _ => Some (raise _provider_unavailable)).
Definition is_slash (c : ascii) : bool := c == "/"%char.
Definition verification_url (raw_token : string) : string :=
  rstrip is_slash verification_base_url +:+ "?token=" +:+ raw_token.
Definition _send_email (email raw_token : string) : M unit :=
  or_unavailable (Mailpit_send_verification email (verification_url raw_token)).
Definition _new_email_token : M (string * string * Time) :=
  token ← new_token_urlsafe 32;
  now ← now_utc;
  mret (token, _token_hash token, now + EMAIL_TOKEN_LIFETIME).
Definition _send_email_token (user_id : UUID) (email : string) (correlation_id : option UUID) : M unit :=
  '(raw_token, token_hash, expires_at) ← _new_email_token;
  event_id ← or_uuid4 correlation_id;
  RegistrationRepo.issue_email_verification user_id token_hash expires_at event_id;;
  _send_email email raw_token.
Definition _send_phone_otp (user_id : UUID) (phone : string) : M unit :=
  d ← draw;
  let code := dec_digits 6 (randbelow 1000000 d) "" in
  store_otp_hash user_id "phone_verify" (_otp_hash code);;
  try_except (sms_send_verification phone code)
    (fun _ => Some (consume_otp user_id "phone_verify";; raise _provider_unavailable)).

(** ** The operations *)

(** The password of a registration: the policy, then the breach lookup. *)
Definition check_password (password : string) : M unit :=
  match enforce_password_policy password with Some err => raise err | None => mret () end;;
  count ← get_or _provider_unavailable (breach_count password);
  raise_if (0 <? count) password_breached.

(** The account is created and its link sent; a contact taken meanwhile is no error. *)
Definition create_account (email password given_name family_name : string) (correlation_id : option UUID)
    (referral_token : option string) : M unit :=
  '(raw_token, token_hash, expires_at) ← _new_email_token;
  password_hash ← Providers.password_hash password;
  event_id ← or_uuid4 correlation_id;
  created ← try_except
    (_ ← RegistrationRepo.create_email_registration email given_name family_name password_hash token_hash
           expires_at event_id (if truthy referral_token then _referral_hash <$> referral_token else None);
     mret true)
    (fun err => match err with DuplicateContactError => Some (mret false) | _ => None end);
  if (created : bool) then _send_email email raw_token else mret ().

Definition register_email (email password given_name family_name captcha_token : string)
    (remote_ip : option string) (correlation_id : option UUID) (referral_token : option string)
    : M RegistrationAccepted :=
  let normalized_email := normalize_email email in
  _verify_captcha captcha_token remote_ip "signup_email";;
  _limit "signup_email" normalized_email EMAIL_RATE_LIMIT 60;;
  check_password password;;
  existing ← RegistrationRepo.get_by_email normalized_email;
  match existing with
  | Some existing =>
    if pc_state existing == "pending" then _send_email_token (pc_user_id existing) normalized_email correlation_id
    else mret ()
  | None => create_account normalized_email password given_name family_name correlation_id referral_token
  end;;
  mret registration_accepted.

Definition request_email_verification (email captcha_token : string) (remote_ip : option string)
    (correlation_id : option UUID) : M RegistrationAccepted :=
  let normalized_email := normalize_email email in
  _verify_captcha captcha_token remote_ip "verify_email_request";;
  _limit "verify_email_request" normalized_email 3 900;;
  existing ← RegistrationRepo.get_by_email normalized_email;
  match existing with
  | Some existing =>
    if pc_state existing == "pending" then _send_email_token (pc_user_id existing) normalized_email correlation_id
    else mret ()
  | None => mret ()
  end;;
  mret registration_accepted.

Definition verify_email (token : string) (correlation_id : option UUID) : M unit :=
  now ← now_utc;
  event_id ← or_uuid4 correlation_id;
  valid ← RegistrationRepo.verify_email (_token_hash token) now event_id;
  raise_if (negb valid) verification_invalid.

(** The account a code is sent to, if any. *)
Definition phone_account (phone : string) (given_name family_name : option string) (correlation_id : option UUID)
    : M (option UUID) :=
  existing ← RegistrationRepo.get_by_phone phone;
  match existing with
  | None =>
    event_id ← or_uuid4 correlation_id;
    try_except
      (user_id ← RegistrationRepo.create_phone_registration phone given_name family_name event_id; mret (Some user_id))
      (fun err => match err with DuplicateContactError => Some (mret None) | _ => None end)
  | Some existing => mret (if pc_state existing == "pending" then Some (pc_user_id existing) else None)
  end.

Definition register_phone (phone_e164 captcha_token : string) (remote_ip given_name family_name : option string)
    (correlation_id : option UUID) : M RegistrationAccepted :=
  phone ← _normalize_phone phone_e164;
  _verify_captcha captcha_token remote_ip "signup_phone";;
  _limit "signup_phone" phone PHONE_RATE_LIMIT PHONE_RATE_WINDOW_SECONDS;;
  user_id ← phone_account phone given_name family_name correlation_id;
  match user_id with Some user_id => _send_phone_otp user_id phone | None => mret () end;;
  mret registration_accepted.

Definition request_phone_verification (phone_e164 captcha_token : string) (remote_ip : option string)
    : M RegistrationAccepted :=
  phone ← _normalize_phone phone_e164;
  _verify_captcha captcha_token remote_ip "verify_phone_request";;
  _limit "verify_phone_request" phone PHONE_RATE_LIMIT PHONE_RATE_WINDOW_SECONDS;;
  existing ← RegistrationRepo.get_by_phone phone;
  match existing with
  | Some existing =>
    if pc_state existing == "pending" then _send_phone_otp (pc_user_id existing) phone else mret ()
  | None => mret ()
  end;;
  mret registration_accepted.

Definition verify_phone (phone_e164 code captcha_token : string) (remote_ip : option string)
    (correlation_id : option UUID) : M unit :=
  phone ← _normalize_phone phone_e164;
  _verify_captcha captcha_token remote_ip "verify_phone_confirm";;
  existing ← RegistrationRepo.get_by_phone phone;
  existing ← get_or _invalid_otp existing;
  raise_if (pc_state existing != "pending") _invalid_otp;;
  outcome ← verify_and_consume_otp (pc_user_id existing) "phone_verify" (_otp_hash code) OTP_MAX_ATTEMPTS;
  raise_if (negb (outcome =? 1)) _invalid_otp;;
  event_id ← or_uuid4 correlation_id;
  verified ← RegistrationRepo.verify_phone (pc_user_id existing) event_id;
  raise_if (negb verified) _invalid_otp.
End Control.
