(* ===== verification/RegistrationProps.v ===== *)
(** What registration guarantees: links are used once, answers do not tell who has an account, and
    a registration that is verified in time lets its owner in. *)
From S2P Require Import Prelude PyText Entity Models RedisClient World Providers RedisSecurity.
From S2P Require Import Registration.
From S2P Require RegistrationRepo RecoveryRepo LoginRepo Login LoginProps.

Import RegistrationRepo(is_link, open_link, link_account, may_verify, by_email, by_phone, confirmed, email_link,
  set_identities, set_links, set_referrals).
Import RecoveryRepo(user_by_id, set_user, set_ephemeral, in_state, spent_link).

(** ** Runs of the repository *)

Section Runs.
Context {R : Type} {RC : RedisClient R} {E : Env}.
Implicit Types (w : World R).

Definition logged (row : AuditLog) (db : Db) : Db := db <| audit_logs ::= fun t => t ++ [row] |>.
Lemma run_registration_audit et o c u m w : (o is_in ["success"; "failure"; "denied"]) = true ->
  exists row, RegistrationRepo._audit et o c u m w = (inr (), with_db (logged row (w_db w)) (next_seed w)).
Proof.
  intros Ho. unfold RegistrationRepo._audit, insert_audit. eexists. run.
  unfold add_row. run. unfold audit_log_valid. cbn [a_outcome]. rewrite Ho. reflexivity.
Qed.

(** *** Links *)

(** A link that is on record, unused and in time, of an account that may be verified. *)
Record usable_link (token_hash : string) (now : Time) (db : Db) (e : EphemeralToken) (u : User) : Prop := {
  ul_link : scalar (is_link token_hash) (ephemeral_tokens db) = Some e;
  ul_open : link_account now e = Some (u_user_id u);
  ul_user : user_by_id (u_user_id u) db = Some u;
  ul_state : may_verify u = true }.

(** The database after a link was used. *)
Definition verified_db (e : EphemeralToken) (u : User) (now : Time) (row : AuditLog) (db : Db) : Db :=
  set_referrals (fun r => (rf_referred_user_id r == Some (u_user_id u)) && (rf_state r == "registered"))
    (RegistrationRepo.referral_verified now)
  (logged row
  (set_identities (fun i => (i_user_id i == u_user_id u) && (i_provider i == "password")) confirmed
  (set_user (u_user_id u) (in_state "active")
  (set_ephemeral (e_ephemeral_token_id e) (spent_link now) db)))).

Lemma run_verify token_hash now c w e u : usable_link token_hash now (w_db w) e u -> exists row w',
  RegistrationRepo.verify_email token_hash now c w = (inr true, w') /\ w_db w' = verified_db e u now row (w_db w) /\
  w_redis w' = w_redis w /\ w_now w' = w_now w /\ w_mail w' = w_mail w.
Proof.
  intros [Hl Ho Hu Hs]. unfold RegistrationRepo.verify_email.
  edestruct (run_registration_audit "EMAIL_VERIFIED" "success" c (u_user_id u) []) as [row Hrow]; [done|].
  eexists row, _. split; [|].
  - apply run_tx. run. rewrite Hl. cbn [mbind option_bind]. rewrite Ho. cbn [mbind option_bind]. run.
    change (user_by_id (u_user_id u) (set_ephemeral (e_ephemeral_token_id e) (spent_link now) (w_db w)))
      with (user_by_id (u_user_id u) (w_db w)). rewrite Hu, Hs. cbn [negb]. run.
    rewrite (run_bind _ _ _ _ _ Hrow). run. reflexivity.
  - done.
Qed.

(** What the repository answers otherwise. *)
Lemma verify_cases token_hash now c w b w' : RegistrationRepo.verify_email token_hash now c w = (inr b, w') ->
  if b then exists e u, usable_link token_hash now (w_db w) e u
  else users (w_db w') = users (w_db w) /\ identities (w_db w') = identities (w_db w).
Proof.
  unfold RegistrationRepo.verify_email. intros H. apply tx_inr in H. run_in H.
  destruct (scalar _ _) as [e|] eqn:Ee; cbn [mbind option_bind] in H; [|by injection H as <- <-].
  destruct (link_account now e) as [uid|] eqn:Eo; cbn [mbind option_bind] in H; [|by injection H as <- <-].
  run_in H. change (user_by_id uid (set_ephemeral (e_ephemeral_token_id e) (spent_link now) (w_db w)))
      with (user_by_id uid (w_db w)) in H.
  destruct (user_by_id uid (w_db w)) as [u|] eqn:Eu; [|by injection H as <- <-].
  destruct (may_verify u) eqn:Em; cbn [negb] in H; [|by injection H as <- <-].
  run_in H. step_in H x w1 H1. run_in H. injection H as <- <-.
  pose proof Eu as Hu. unfold user_by_id in Hu. apply scalar_Some in Hu as [_ Hid]. to_prop.
  exists e, u. split; [done|by rewrite Hid|by rewrite Hid|done].
Qed.
Lemma run_verify_spent token_hash now c w e : scalar (is_link token_hash) (ephemeral_tokens (w_db w)) = Some e ->
  is_some (e_consumed_at e) = true -> RegistrationRepo.verify_email token_hash now c w = (inr false, w).
Proof.
  intros He Hc. unfold RegistrationRepo.verify_email. apply run_tx. run. rewrite He. cbn [mbind option_bind].
  unfold link_account. by rewrite Hc.
Qed.
(** A used link is found used. *)
Lemma verified_spent token_hash e u now row db : scalar (is_link token_hash) (ephemeral_tokens db) = Some e ->
  exists e', scalar (is_link token_hash) (ephemeral_tokens (verified_db e u now row db)) = Some e' /\
    is_some (e_consumed_at e') = true.
Proof.
  intros He. change (ephemeral_tokens (verified_db e u now row db))
    with (update_ (fun x => e_ephemeral_token_id x == e_ephemeral_token_id e) (spent_link now) (ephemeral_tokens db)).
  rewrite scalar_update_stable, He by done. cbn. rewrite eqb_refl. by eexists.
Qed.

Lemma run_registration_event (cid : option UUID) w : exists e w1, or_uuid4 cid w = (inr e, w1) /\ w_db w1 = w_db w /\
  w_redis w1 = w_redis w /\ w_now w1 = w_now w /\ w_mail w1 = w_mail w.
Proof. destruct cid; by do 2 eexists. Qed.

(** The operation of the control. *)
Lemma run_verify_email token cid w : exists c w1, w_db w1 = w_db w /\ w_redis w1 = w_redis w /\ w_now w1 = w_now w /\
  w_mail w1 = w_mail w /\
  verify_email token cid w =
    match RegistrationRepo.verify_email (_token_hash token) (w_now w) c w1 with
    | (inr true, w2) => (inr (), w2)
    | (inr false, w2) => (inl verification_invalid, w2)
    | (inl err, w2) => (inl err, w2)
    end.
Proof.
  destruct (run_registration_event cid w) as (c & w1 & H1 & Hdb & Hre & Hn & Hm). exists c, w1. split_and!; [done..|].
  unfold verify_email. run. rewrite (run_bind _ _ _ _ _ H1). unfold mbind, prog_bind.
  by destruct (RegistrationRepo.verify_email _ _ _ _) as [[?|[]] ?].
Qed.
End Runs.

(** ** Answers *)

Section Answers.
Context {R : Type} {RC : RedisClient R} {E : Env}.
Implicit Types (w : World R) (r : R).

(** The checks every registration by e-mail starts with. *)
Definition gate (password captcha_token email : string) (remote_ip : option string) : prog R unit :=
  _verify_captcha captcha_token remote_ip "signup_email";;
  _limit "signup_email" email EMAIL_RATE_LIMIT 60;;
  check_password password.
(** What follows them. *)
Definition proceed (email password given_name family_name : string) (correlation_id : option UUID)
    (referral_token : option string) : prog R RegistrationAccepted :=
  existing ← RegistrationRepo.get_by_email email;
  match existing with
  | Some existing =>
    if pc_state existing == "pending" then _send_email_token (pc_user_id existing) email correlation_id
    else mret ()
  | None => create_account email password given_name family_name correlation_id referral_token
  end;;
  mret registration_accepted.
Lemma register_steps email password given family captcha ip cid referral w :
  register_email email password given family captcha ip cid referral w =
  (gate password captcha (normalize_email email) ip;; proceed (normalize_email email) password given family cid referral) w.
Proof.
  unfold register_email, gate. rewrite bind_bind. unfold mbind at 1 6, prog_bind at 1 6.
  destruct (_verify_captcha _ _ _ w) as [[e|[]] w1]; [done|]. by rewrite bind_bind.
Qed.

Lemma check_password_pure password : exists x, forall w, check_password password w = (x, w).
Proof.
  unfold check_password. destruct (enforce_password_policy password) as [err|]; [by exists (inl err)|].
  destruct (breach_count password) as [count|]; [|by eexists]. by destruct (0 <? count) eqn:Ec; eexists; intros w; run; rewrite Ec.
Qed.
(** The checks depend on the keyspace and the clock alone. *)
Lemma gate_alike password captcha email ip w1 w2 : w_redis w1 = w_redis w2 -> w_now w1 = w_now w2 ->
  exists x r, gate password captcha email ip w1 = (x, with_redis r w1) /\ gate password captcha email ip w2 = (x, with_redis r w2).
Proof.
  intros Hr Hn. unfold gate, _verify_captcha. destruct (captcha_verify _ _ _); cbn [negb]; run.
  2:{ exists (inl captcha_invalid), (w_redis w1). by destruct w1, w2; cbn in *; subst. }
  unfold _limit, increment_rate_limit. run. rewrite !(run_bind _ _ _ _ _ (LoginProps.run_bump _ _ _)), Hr, Hn.
  destruct (EMAIL_RATE_LIMIT <? _); run; [by do 2 eexists|].
  destruct (check_password_pure password) as [x Hx]. rewrite !Hx. by do 2 eexists.
Qed.

Hypothesis mail_accepted : forall d m, smtp_accepts d m = true.
Lemma raises_send P message : raises P (_send message : prog R unit).
Proof. intros w e w'. unfold _send. run. by rewrite mail_accepted. Qed.
Lemma raises_proceed email password given family cid referral :
  raises (fun e => e = IntegrityError) (proceed email password given family cid referral : prog R RegistrationAccepted).
Proof.
  assert (Hs : forall m, raises (fun e => e = IntegrityError) (or_unavailable (_send m) : prog R unit)).
  { intros m. apply (raises_try _ (fun _ => False)); [apply raises_send|done]. }
  unfold proceed. raises_all; try apply Hs; try done.
  apply (raises_try _ (fun e => e = DuplicateContactError)); [|intros e ->; apply raises_ret].
  raises_all. apply (raises_try _ (fun e => e = IntegrityError)); [raises_all; done|]. by intros e ->; apply raises_raise.
Qed.
Lemma keeps_proceed P email password given family cid referral :
  keeps (on_redis P) (proceed email password given family cid referral : prog R RegistrationAccepted).
Proof.
  assert (Hs : forall m, keeps (on_redis P) (_send m : prog R unit)) by (intros m; by apply keeps_send).
  keeps_all; try apply Hs; intros []; intros; simplify_eq; keeps_all.
Qed.
End Answers.

(** ** From registration to login *)

Section Completion.
Context {R : Type} {RC : RedisClient R} {E : Env}.
Implicit Types (w : World R).

(** The rows of a new account, and the tables they are added to. *)
Definition pending_user (uid : UUID) (email given family : string) (now : Time) : User :=
  MkUser uid (Some (normalize_email email)) (Some (strip given)) (Some (strip family)) None "pending" 1 None now.
Definition pending_identity (iid uid : UUID) (email hash : string) (now : Time) : Identity :=
  MkIdentity iid uid "password" (normalize_email email) (Some hash) false None now.
Record account_opened (uid iid lid : UUID) (email given family hash token_hash : string) (expires_at : Time)
    (w w' : World R) : Prop := {
  on_users : users (w_db w') = users (w_db w) ++ [pending_user uid email given family (w_now w)];
  on_identities : identities (w_db w') = identities (w_db w) ++ [pending_identity iid uid email hash (w_now w)];
  on_links : ephemeral_tokens (w_db w') = ephemeral_tokens (w_db w) ++ [email_link lid uid token_hash (w_now w) expires_at];
  on_devices : trusted_devices (w_db w') = trusted_devices (w_db w);
  on_rest : w_redis w' = w_redis w /\ w_now w' = w_now w /\ w_mail w' = w_mail w;
  new_user : user_conflict (users (w_db w)) (pending_user uid email given family (w_now w)) = false;
  new_identity : identity_conflict (identities (w_db w)) (pending_identity iid uid email hash (w_now w)) = false;
  new_link : ephemeral_token_conflict (ephemeral_tokens (w_db w)) (email_link lid uid token_hash (w_now w) expires_at) = false }.

Lemma or_duplicate_inr {A} (m : prog R A) w a w' : RegistrationRepo.or_duplicate m w = (inr a, w') -> m w = (inr a, w').
Proof.
  unfold RegistrationRepo.or_duplicate, try_except. destruct (m w) as [[[]|x] w1]; cbn; try done.
Qed.
Lemma claim_inr o email u w x w' : RegistrationRepo._claim_referral o email u w = (inr x, w') ->
  exists rs, w' = with_db ((w_db w) <| referrals := rs |>) w.
Proof.
  assert (Hid : w = with_db ((w_db w) <| referrals := referrals (w_db w) |>) w) by (by destruct w as [[]]).
  unfold RegistrationRepo._claim_referral. destruct o as [h|]; [|intros [= _ <-]; by eexists].
  intros H. run_in H. destruct (scalar _ _) as [r|]; [|injection H as _ <-; by eexists].
  destruct (RegistrationRepo.claimable _ _ _ _); injection H as _ <-; [|by eexists].
  by eexists (update_ _ _ _).
Qed.

Lemma registration_inr email given family hash token_hash expires_at c referral w uid w' :
  RegistrationRepo.create_email_registration email given family hash token_hash expires_at c referral w = (inr uid, w') ->
  exists iid lid, account_opened uid iid lid email given family hash token_hash expires_at w w'.
Proof.
  unfold RegistrationRepo.create_email_registration. intros H. apply or_duplicate_inr, tx_inr in H. run_in H.
  set (u := uuid4 (w_seed w)) in *. fold (pending_user u email given family (w_now w)) in H.
  step_in H x1 w1 H1. apply add_row_inr in H1 as (_ & Hu & E1). run_in H.
  step_in H x2 w2 H2. apply add_row_inr in H2 as (_ & _ & E2).
  step_in H x3 w3 H3. apply claim_inr in H3 as [rs E3]. run_in H.
  step_in H x4 w4 H4. apply add_row_inr in H4 as (_ & Hi & E4). run_in H.
  step_in H x5 w5 H5. apply add_row_inr in H5 as (_ & _ & E5). run_in H.
  step_in H x6 w6 H6. apply add_row_inr in H6 as (_ & Hl & E6).
  match type of H with (RegistrationRepo._audit ?e ?o ?c ?u ?m ≫= _) ?w0 = _ =>
    destruct (run_registration_audit e o c u m w0) as [row Hrow]; [done|] end.
  rewrite (run_bind _ _ _ _ _ Hrow) in H. injection H as <- <-.
  do 2 eexists. subst w6 w5 w4 w3 w2 w1.
  split; [reflexivity..|split_and!; reflexivity|exact Hu|exact Hi|exact Hl].
Qed.

(** The account of a link that was just sent is verified with it. *)
Lemma opened_usable uid iid lid email given family hash token_hash expires_at w w' t :
  account_opened uid iid lid email given family hash token_hash expires_at w w' -> t < expires_at ->
  usable_link token_hash t (w_db w') (email_link lid uid token_hash (w_now w) expires_at)
    (pending_user uid email given family (w_now w)).
Proof.
  intros H Ht. split.
  - rewrite (on_links _ _ _ _ _ _ _ _ _ _ _ H). apply scalar_unique; [apply elem_of_snoc; by right| |].
    + unfold is_link. cbn. by rewrite eqb_refl.
    + intros e [He| ->]%elem_of_snoc Hp; [|done]. exfalso.
      apply (proj1 (row_exists_false _ _) (new_link _ _ _ _ _ _ _ _ _ _ _ H)) in He. unfold is_link in Hp. to_prop. done.
  - unfold link_account. cbn [e_consumed_at email_link is_some is_none negb orb e_expires_at e_user_id].
    by rewrite (proj2 (Z.leb_gt _ _) Ht).
  - unfold user_by_id. rewrite (on_users _ _ _ _ _ _ _ _ _ _ _ H). apply scalar_unique; [apply elem_of_snoc; by right|apply eqb_refl|].
    intros u [Hu| ->]%elem_of_snoc Hp; [|done]. exfalso.
    apply (proj1 (row_exists_false _ _) (new_user _ _ _ _ _ _ _ _ _ _ _ H)) in Hu. to_prop. done.
  - done.
Qed.

(** After the verification the password of the registration is the only identity of its address. *)
Lemma opened_identity uid iid lid email given family hash token_hash expires_at w w' row t :
  account_opened uid iid lid email given family hash token_hash expires_at w w' ->
  NoDup (List.map u_user_id (users (w_db w))) -> NoDup (List.map i_identity_id (identities (w_db w))) ->
  LoginRepo.identity_rows "password" (normalize_email email)
    (verified_db (email_link lid uid token_hash (w_now w) expires_at) (pending_user uid email given family (w_now w))
       t row (w_db w'))
  = [(in_state "active" (pending_user uid email given family (w_now w)), confirmed (pending_identity iid uid email hash (w_now w)))].
Proof.
  intros H Hnu Hni. set (db := verified_db _ _ _ _ _).
  assert (Hu : users db = update_ (fun u => u_user_id u == uid) (in_state "active") (users (w_db w)
    ++ [pending_user uid email given family (w_now w)])) by (by rewrite <- (on_users _ _ _ _ _ _ _ _ _ _ _ H)).
  assert (Hi : identities db = update_ (fun i => (i_user_id i == uid) && (i_provider i == "password")) confirmed
    (identities (w_db w) ++ [pending_identity iid uid email hash (w_now w)])) by (by rewrite <- (on_identities _ _ _ _ _ _ _ _ _ _ _ H)).
  pose proof (proj1 (row_exists_false _ _) (new_user _ _ _ _ _ _ _ _ _ _ _ H)) as Fu.
  pose proof (proj1 (row_exists_false _ _) (new_identity _ _ _ _ _ _ _ _ _ _ _ H)) as Fi. cbv beta in Fu, Fi.
  apply nodup_unique.
  - unfold LoginRepo.identity_rows. apply nodup_where, nodup_join.
    + apply (nodup_key_rows u_user_id). rewrite Hu, key_update by done. apply nodup_key_snoc; [done|].
      intros s Hs Hid. apply Fu in Hs. to_prop. done.
    + apply (nodup_key_rows i_identity_id). rewrite Hi, key_update by done. apply nodup_key_snoc; [done|].
      intros s Hs Hid. apply Fi in Hs. to_prop. done.
  - apply LoginProps.identity_rows_elem. rewrite Hu, Hi. split_and!; try done.
    + apply elem_of_update_hit; [apply elem_of_snoc; by right|apply eqb_refl].
    + apply elem_of_update_hit; [apply elem_of_snoc; by right|]. cbn. by rewrite eqb_refl.
  - intros [u i] Hin. apply LoginProps.identity_rows_elem in Hin as (Hu' & Hi' & Hui & Hp & Hs & _). rewrite Hu in Hu'. rewrite Hi in Hi'.
    apply elem_of_update in Hi' as (i0 & Hi0 & ->).
    assert (i0 = pending_identity iid uid email hash (w_now w)) as ->.
    { apply elem_of_snoc in Hi0 as [Hi0|Hi0]; [|done]. exfalso. apply Fi in Hi0. to_prop.
      assert (Hq : i_provider i0 = "password" /\ i_provider_subject i0 = normalize_email email).
      { revert Hp Hs. clear. destruct ((i_user_id i0 == uid) && (i_provider i0 == "password")); intros; by split. }
      destruct Hq as [Hq1 Hq2]. cbn [i_provider i_provider_subject pending_identity] in *. apply andb_false_iff in H1 as [H1|H1]; to_prop; done. }
    cbn [i_user_id i_provider pending_identity] in Hui |- *. rewrite eqb_refl in Hui |- *. cbn [andb] in Hui |- *.
    change (i_user_id (confirmed (pending_identity iid uid email hash (w_now w)))) with uid in Hui. f_equal.
    apply elem_of_update in Hu' as (u0 & Hu0 & ->).
    assert (u0 = pending_user uid email given family (w_now w)) as ->.
    { apply elem_of_snoc in Hu0 as [Hu0|Hu0]; [|done]. exfalso. apply Fu in Hu0. to_prop.
      match goal with Hne : u_user_id u0 <> _ |- _ => apply Hne end. cbn [u_user_id pending_user].
      destruct (u_user_id u0 == uid) eqn:Eu in Hui; to_prop; [done|]. exact (eq_sym Hui). }
    cbn [u_user_id pending_user]. by rewrite eqb_refl.
Qed.

Lemma hash_kept h dummy : h <> "" -> or_else (str_or (Some h) (Some dummy)) dummy = h.
Proof. intros Hh. unfold str_or, truthy, nonempty. by rewrite (eqb_neq _ _ Hh). Qed.

(** A registration of an address nobody has returned: an account was opened and its link sent, or
    nobody was written to. *)
Definition link_mail (email token : string) : Mail :=
  message_to email "Verify your Vittavaan account"
    ("Welcome to Vittavaan. Verify your email using this single-use link:" +:+ nl +:+ nl
     +:+ verification_url token +:+ nl +:+ nl +:+ "This link expires in 15 minutes.").
Lemma send_email_inr email token w u w' : _send_email email token w = (inr u, w') ->
  w_db w' = w_db w /\ w_redis w' = w_redis w /\ w_now w' = w_now w /\ w_mail w' = w_mail w ++ [link_mail email token].
Proof.
  unfold _send_email, or_unavailable, try_except, Mailpit_send_verification, _send. run.
  destruct (smtp_accepts _ _); [|done]. by intros [= _ <-].
Qed.
Lemma duplicate_inl {A} (m : prog R A) w e w' : RegistrationRepo.or_duplicate (tx m) w = (inl e, w') -> w_db w' = w_db w.
Proof.
  unfold RegistrationRepo.or_duplicate, try_except. destruct (tx m w) as [[err|a] w1] eqn:Em; [|done].
  apply tx_inl in Em. by destruct err; intros [= _ <-].
Qed.
(** The password and the state of every account. *)
Definition same_accounts (db0 db : Db) : Prop :=
  users db = users db0 /\ identities db = identities db0 /\ password_history db = password_history db0.
Lemma keeps_resent db0 user_id email cid : keeps (R := R) (on_db (same_accounts db0)) (_send_email_token user_id email cid).
Proof. keeps_all; [by apply keeps_add_row|]. intros _ k [= <-]. keeps_all. Qed.
Lemma create_account_inr email password given family cid referral w u w' :
  create_account email password given family cid referral w = (inr u, w') ->
  (w_mail w' = w_mail w /\ w_db w' = w_db w) \/
  exists d token uid iid lid w1 w2, w_db w1 = w_db w /\ w_now w1 = w_now w /\ w_mail w1 = w_mail w /\
    account_opened uid iid lid email given family (argon2_hash d password) (_token_hash token)
      (w_now w + EMAIL_TOKEN_LIFETIME) w1 w2 /\
    w_db w' = w_db w2 /\ w_redis w' = w_redis w2 /\ w_mail w' = w_mail w ++ [link_mail email token].
Proof.
  unfold create_account, _new_email_token, Providers.password_hash. intros H. run_in H.
  step_in H e w1 H1.
  assert (Hw1 : w_db w1 = w_db w /\ w_now w1 = w_now w /\ w_mail w1 = w_mail w).
  { destruct cid; [by injection H1 as <- <-|]. by injection H1 as <- <-. }
  destruct Hw1 as (Hdb & Hn & Hm). step_in H b w2 H2. unfold try_except in H2.
  match type of H2 with match ?m with _ => _ end = _ => destruct m as [[err|b'] w2'] eqn:Em end.
  - left. assert (Hm2 : w_mail w2' = w_mail w1 /\ w_db w2' = w_db w1).
    { apply bind_inl in Em as [Em|(a & w3 & _ & Em)]; [|done]. split; [|by eapply duplicate_inl].
      match type of Em with ?m _ = _ => assert (Hk : keeps (on_mail (w_mail w1)) m) end.
      { keeps_all. intros []; intros; simplify_eq; keeps_all. }
      specialize (Hk w1 eq_refl). by rewrite Em in Hk. }
    destruct Hm2 as [Hm2 Hd2]. destruct err; try discriminate H2. injection H2 as <- <-. injection H as _ <-.
    by rewrite Hm2, Hd2.
  - injection H2 as <- <-. step_in Em uid w3 H3. injection Em as <- <-. right.
    apply registration_inr in H3 as (iid & lid & Ho). apply send_email_inr in H as (Hd & Hr & _ & Hma).
    exists (N.succ (w_seed w)), (token_urlsafe 32 (w_seed w)), uid, iid, lid, w1, w3. split_and!; try done.
    rewrite Hma. destruct (on_rest _ _ _ _ _ _ _ _ _ _ _ Ho) as (_ & _ & ->). by rewrite Hm.
Qed.
End Completion.

(** ** Properties *)

Section Properties.
Context {R : Type} {RC : RedisClient R} {E : Env}.
Implicit Types (w : World R).

(** A verification link is used once, in time, and only for an account that is pending or
    active.  A verification that returned found the link on record, unused and unexpired; it
    makes the account active, with its password identities verified, and every later
    verification with the link, at whatever time, fails with VERIFICATION_INVALID and leaves the
    database alone. *)
Theorem email_link_single_use token cid w w' :
  verify_email token cid w = (inr (), w') ->
  exists e u, e ∈ ephemeral_tokens (w_db w) /\ e_token_hash e = _token_hash token /\ e_purpose e = "email_verify" /\
    e_consumed_at e = None /\ w_now w < e_expires_at e /\ e_user_id e = Some (u_user_id u) /\
    u ∈ users (w_db w) /\ (u_state u = "pending" \/ u_state u = "active") /\
    (forall v, v ∈ users (w_db w') -> u_user_id v = u_user_id u -> u_state v = "active") /\
    (forall i, i ∈ identities (w_db w') -> i_user_id i = u_user_id u -> i_provider i = "password" -> i_verified i = true) /\
    forall t2 cid2, exists w2, verify_email token cid2 (at_time t2 w') = (inl verification_invalid, w2) /\ w_db w2 = w_db w'.
Proof.
  intros H. destruct (run_verify_email token cid w) as (c & w1 & Hdb & Hre & Hn & Hm & Hrun). rewrite Hrun in H. clear Hrun.
  destruct (RegistrationRepo.verify_email _ _ _ _) as [[?|b] w2] eqn:Ev; [done|]. destruct b; [|done]. injection H as ->.
  pose proof (verify_cases _ _ _ _ _ _ Ev) as (e & u & Hl). rewrite Hdb in Hl.
  destruct (run_verify (_token_hash token) (w_now w) c w1 e u) as (row & w2 & Hv & Hdb2 & _); [by rewrite Hdb|].
  rewrite Hv in Ev. injection Ev as ->. rewrite Hdb in Hdb2. destruct Hl as [He Ho Hu Hs].
  pose proof He as [Hin Hp]%scalar_Some. unfold is_link in Hp. to_prop.
  unfold user_by_id in Hu. apply scalar_Some in Hu as [Huin _].
  unfold link_account in Ho. destruct (is_some (e_consumed_at e)) eqn:Ec; [done|]. cbn [orb] in Ho.
  destruct (e_expires_at e <=? w_now w) eqn:Ex; [done|]. to_prop.
  exists e, u. split_and!; try done.
  - unfold is_some in Ec. to_prop. by destruct (e_consumed_at e).
  - unfold may_verify in Hs. apply bool_decide_eq_true, list_elem_of_In in Hs. destruct Hs as [?|[?|[]]]; auto.
  - rewrite Hdb2. intros v Hv' Hid. cbn [verified_db set_referrals logged set_identities set_user set_ephemeral users set] in Hv'.
    apply elem_of_update in Hv' as (v0 & _ & ->). destruct (u_user_id v0 == u_user_id u) eqn:Eid; [done|]. to_prop. done.
  - rewrite Hdb2. intros i Hi Hid Hpw. apply elem_of_update in Hi as (i0 & _ & ->).
    destruct (_ && _) eqn:Eid; [done|]. apply andb_false_iff in Eid as [Eid|Eid]; to_prop; done.
  - intros t2 cid2. destruct (run_verify_email token cid2 (at_time t2 w')) as (c2 & w3 & Hdb3 & _ & _ & _ & ->).
    destruct (verified_spent (_token_hash token) e u (w_now w) row (w_db w) He) as (e' & He' & Hc').
    rewrite (run_verify_spent _ _ _ _ e'); [by exists w3| |done]. rewrite Hdb3. wsimpl. by rewrite Hdb2.
Qed.

(** Registering does not tell who has an account.  Whatever the database holds (no account,
    a pending one, an active or a suspended one), a registration gets the same answer and leaves
    the same keyspace, as long as mail is accepted and no fresh identifier is already taken. *)
Theorem registration_is_silent email password given family captcha ip cid referral w1 w2 :
  (forall d m, smtp_accepts d m = true) -> w_redis w1 = w_redis w2 -> w_now w1 = w_now w2 ->
  let '(x1, w1') := register_email email password given family captcha ip cid referral w1 in
  let '(x2, w2') := register_email email password given family captcha ip cid referral w2 in
  x1 <> inl IntegrityError -> x2 <> inl IntegrityError -> x1 = x2 /\ w_redis w1' = w_redis w2'.
Proof.
  intros Hmail Hr Hn. rewrite !register_steps.
  destruct (gate_alike password captcha (normalize_email email) ip w1 w2 Hr Hn) as ([e|[]] & r & H1 & H2).
  { rewrite (run_bind_inl _ _ _ _ _ H1), (run_bind_inl _ _ _ _ _ H2). done. }
  rewrite (run_bind _ _ _ _ _ H1), (run_bind _ _ _ _ _ H2).
  set (m := proceed _ _ _ _ _ _). assert (Hm : forall w, w_redis w = r ->
    m w = (inr registration_accepted, (m w).2) /\ w_redis (m w).2 = r \/ (m w).1 = inl IntegrityError).
  { intros w Hw. pose proof (keeps_proceed (fun r' => r' = r) (normalize_email email) password given family cid referral w Hw) as Hk.
    fold m in Hk. destruct (m w) as [[e|a] w'] eqn:Em; cbn [fst snd] in *.
    - right. f_equal. by eapply raises_proceed.
    - left. split; [|done]. unfold m, proceed in Em. step_in Em o wa Ha. step_in Em u wb Hb. by injection Em as <- <-. }
  destruct (Hm (with_redis r w1) eq_refl) as [[E1 R1]|E1], (Hm (with_redis r w2) eq_refl) as [[E2 R2]|E2];
    destruct (m (with_redis r w1)) as [x1 w1'], (m (with_redis r w2)) as [x2 w2']; cbn [fst snd] in *; try done; [|by subst..].
  injection E1 as ->. injection E2 as ->. by rewrite R1, R2.
Qed.

(** C19: a registration that is verified in time lets its owner in.  When nobody has the address, a registration that
    returned either wrote to nobody and left the database alone (a fresh identifier, or an identity of the address
    left behind, was in the way) or sent one mail with a link; any verification with the link within its fifteen
    minutes succeeds, and afterwards a login with the registered password succeeds, from every device and IP that is
    not locked.  When the address has an account, pending or not, a registration changes no account, no password and
    no history of one: a pending account keeps the password it was first registered with. *)
Theorem registration_completes email password given family captcha ip cid referral w a w1 :
  (forall d p, argon2_verify (argon2_hash d p) p = Some true) -> (forall d p, argon2_hash d p <> "") ->
  NoDup (List.map u_user_id (users (w_db w))) -> NoDup (List.map i_identity_id (identities (w_db w))) ->
  LoginProps.fresh_device_ids (w_db w) ->
  register_email email password given family captcha ip cid referral w = (inr a, w1) ->
  match scalar (by_email (normalize_email email)) (users (w_db w)) with
  | Some _ => same_accounts (w_db w) (w_db w1)
  | None =>
    (w_mail w1 = w_mail w /\ w_db w1 = w_db w) \/
    exists token, w_mail w1 = w_mail w ++ [link_mail (normalize_email email) token] /\
      forall t cid2, t < w_now w + EMAIL_TOKEN_LIFETIME -> exists w2,
        verify_email token cid2 (at_time t w1) = (inr (), w2) /\
        forall t3 fingerprint ip3 cid3, LoginProps.locked_at t3 (normalize_email email) ip3 (w_redis w2) = false ->
          exists d w3, Login.login_password email password fingerprint ip3 cid3 (at_time t3 w2) = (inr d, w3)
  end.
Proof.
  intros Hargon Hne Hnu Hni Hdev H. rewrite register_steps in H.
  destruct (gate_alike password captcha (normalize_email email) ip w w eq_refl eq_refl) as (x & r & Hg & _).
  destruct x as [e|[]]; [by rewrite (run_bind_inl _ _ _ _ _ Hg) in H|]. rewrite (run_bind _ _ _ _ _ Hg) in H.
  destruct (scalar _ _) as [u0|] eqn:Hnone.
  { unfold proceed, RegistrationRepo.get_by_email in H. run_in H. rewrite Hnone in H.
    cbn [fmap option_fmap option_map] in H. step_in H u w0 H0. injection H as _ <-.
    destruct (_ == _) in H0; [|by injection H0 as _ <-].
    match type of H0 with _send_email_token ?x ?y ?z _ = _ => pose proof (keeps_resent (w_db w) x y z (with_redis r w)) as Hk end.
    rewrite H0 in Hk. by apply Hk. }
  unfold proceed, RegistrationRepo.get_by_email in H. run_in H. rewrite Hnone in H. cbn [fmap option_fmap option_map] in H.
  step_in H u w0 H0. injection H as _ <-. apply create_account_inr in H0 as [H0|H0]; [by left|right].
  destruct H0 as (d & token & uid & iid & lid & wa & wb & Hdb & Hn & Hm & Ho & Hdb0 & Hre0 & Hm0). wsimpl_in Hdb. wsimpl_in Hn.
  exists token. split; [done|]. intros t cid2 Ht. rewrite <- Hdb in Hnu, Hni, Hdev.
  destruct (run_verify_email token cid2 (at_time t w0)) as (c & wv & Hdbv & Hrev & Hnv & _ & ->). wsimpl_in Hdbv. wsimpl_in Hrev.
  assert (Hul : usable_link (_token_hash token) (w_now (at_time t w0)) (w_db wv)
    (email_link lid uid (_token_hash token) (w_now wa) (w_now w + EMAIL_TOKEN_LIFETIME))
    (pending_user uid (normalize_email email) given family (w_now wa))).
  { rewrite Hdbv, Hdb0. by apply (opened_usable _ _ _ _ _ _ _ _ _ _ _ _ Ho). }
  destruct (run_verify _ _ c wv _ _ Hul) as (row & w2 & -> & Hdb2 & Hre2 & _ & _). exists w2. split; [done|].
  intros t3 fingerprint ip3 cid3 Hl. rewrite Hdbv, Hdb0 in Hdb2.
  eapply (LoginProps.run_login_accepted email password fingerprint ip3 cid3 (at_time t3 w2)).
  - wsimpl. rewrite Hdb2. rewrite <- (normalize_email_idem email).
    exact (opened_identity _ _ _ _ _ _ _ _ _ _ _ row _ Ho Hnu Hni).
  - done.
  - done.
  - assert (Hh : Login.hash_or Login._dummy_password_hash (Some (LoginRepo.login_identity
        (in_state "active" (pending_user uid (normalize_email email) given family (w_now wa)))
        (confirmed (pending_identity iid uid (normalize_email email) (argon2_hash d password) (w_now wa))))) = argon2_hash d password)
      by exact (hash_kept _ _ (Hne d password)).
    unfold password_verify. by rewrite Hh, Hargon.
  - exact Hl.
  - wsimpl. rewrite Hdb2. unfold LoginProps.fresh_device_ids in *.
    change (trusted_devices (verified_db _ _ _ _ (w_db wb))) with (trusted_devices (w_db wb)).
    by rewrite (on_devices _ _ _ _ _ _ _ _ _ _ _ Ho).
Qed.
End Properties.
