(* ===== verification/LoginDemo.v ===== *)
(** Concrete runs of login and registration: the witnesses of their theorems. *)
From S2P Require Import Prelude PyText Entity Models RedisClient World Providers RedisSecurity.
From S2P Require Import SessionInv SessionProps SessionDemo MfaDemo Login LoginProps Registration RegistrationProps.
From S2P Require OidcProvider LoginRepo RegistrationRepo.

Definition account_world : World mem_redis := test_world mfa_db t0.
Definition pw : string := "correct horse battery".

(** *** Passwords *)

Abbreviation entering := (login_password "Ann@Example.com" pw "laptop" (Some "10.0.0.1") None account_world).
Lemma entering_ok : match entering.1 with inr _ => true | _ => false end = true.
Proof. vm_compute. reflexivity. Qed.
Lemma login_password_sound_witness : exists d w' u,
  entering = (inr d, w') /\ u ∈ users (w_db account_world) /\ u_state u = "active" /\
  (ld_decision d = SESSION_READY <-> recognised (u_user_id u) "laptop" (Some "10.0.0.1") (w_db account_world)).
Proof.
  returned entering_ok d w E.
  destruct (login_password_sound "Ann@Example.com" pw "laptop" (Some "10.0.0.1") None account_world d w E)
    as (_ & u & i & Hu & _ & _ & _ & _ & _ & Hs & _ & _ & _ & Hd & _).
  exists d, w, u. repeat split; try assumption; apply Hd.
Defined.

Lemma wrong_refused : refused "ann@example.com" "wrong" (w_db account_world).
Proof. vm_compute. reflexivity. Qed.
Lemma unknown_refused : refused "ann@example.com" "wrong" empty_db.
Proof. vm_compute. exact I. Qed.
Lemma refusals_alike_witness :
  (login_password "ann@example.com" "wrong" "laptop" None None account_world).1 =
  (login_password "ann@example.com" "wrong" "laptop" None None (test_world empty_db t0)).1.
Proof.
  pose proof (refusals_alike "ann@example.com" "wrong" "laptop" None None account_world (test_world empty_db t0)
    wrong_refused unknown_refused eq_refl eq_refl) as H.
  destruct (login_password _ _ _ _ _ account_world) as [x1 w1]. destruct (login_password _ _ _ _ _ (test_world empty_db t0)) as [x2 w2].
  destruct H as [H _]. exact H.
Defined.

Definition guess : attempt := MkAttempt "wrong" "laptop" (Some "10.0.0.2") None.
Definition guesses : list (Time * attempt) :=
  [(t0 + seconds 1, guess); (t0 + seconds 2, guess); (t0 + seconds 3, guess); (t0 + seconds 4, guess); (t0 + seconds 5, guess)].
Abbreviation guessing := (run_at (try_login "ann@example.com") guesses account_world).
Lemma guessing_ok : guessing.1 = List.map (fun _ => inl _invalid_credentials) guesses.
Proof. vm_compute. reflexivity. Qed.
Lemma guesses_refused :
  Forall (fun q => refused "ann@example.com" (at_password q.2) (w_db account_world) /\
    q.1 < t0 + seconds 1 + seconds PASSWORD_ATTEMPT_WINDOW) guesses.
Proof.
  assert (H : forall t, t < t0 + seconds 1 + seconds PASSWORD_ATTEMPT_WINDOW ->
    refused "ann@example.com" (at_password (t, guess).2) (w_db account_world) /\ (t, guess).1 < t0 + seconds 1 + seconds PASSWORD_ATTEMPT_WINDOW)
    by (intros t Ht; split; [exact wrong_refused|exact Ht]).
  unfold guesses. repeat (apply list.Forall_cons; split; [apply H; vm_compute; reflexivity|]). apply list.Forall_nil. exact I.
Qed.
Lemma first_guess : r_get (t0 + seconds 1) (email_key (normalize_email "ann@example.com")) (w_redis account_world) = None.
Proof. vm_compute. reflexivity. Qed.
Lemma guessing_window : window "ann@example.com" guesses 0 (t0 + seconds 1 + seconds PASSWORD_ATTEMPT_WINDOW) (w_redis account_world).
Proof. right. do 3 eexists. split; [reflexivity|]. split; [reflexivity|]. split; [exact first_guess|reflexivity]. Qed.
Lemma within_lock : t0 + minutes 10 < t0 + seconds 5 + seconds LOGIN_LOCK_TTL_SECONDS.
Proof. vm_compute. reflexivity. Qed.
Lemma enough_guesses : PASSWORD_ATTEMPT_LIMIT <= 0 + Z.of_nat (length guesses).
Proof. apply Z.leb_le. reflexivity. Qed.
Lemma five_refusals_lock_witness : exists w',
  guessing = (List.map (fun _ => inl _invalid_credentials) guesses, w') /\
  (login_password "ann@example.com" pw "laptop" (Some "10.0.0.1") None (at_time (t0 + minutes 10) w')).1 = inl login_locked.
Proof.
  pose proof guessing_ok as H. destruct guessing as [xs w'] eqn:E. cbn [fst] in H. subst xs. exists w'. split; [reflexivity|].
  exact (five_refusals_lock "ann@example.com"
    [(t0 + seconds 1, guess); (t0 + seconds 2, guess); (t0 + seconds 3, guess); (t0 + seconds 4, guess)] 0
    (t0 + seconds 1 + seconds PASSWORD_ATTEMPT_WINDOW) (t0 + seconds 5) guess account_world w'
    (t0 + minutes 10) pw "laptop" (Some "10.0.0.1") None guessing_window enough_guesses guesses_refused E within_lock).
Defined.

(** The window does not move with the attempts: five refusals in four seconds, the third of which is the first after
    its end, leave the address open. *)
Definition straddling : list (Time * attempt) :=
  List.map (fun n => (t0 + seconds n, guess)) [0; 58; 59; 61; 62; 62].
Lemma refusals_across_windows :
  let '(xs, w) := run_at (try_login "ann@example.com") straddling account_world in
  xs = List.map (fun _ => inl _invalid_credentials) straddling /\
  match (login_password "ann@example.com" pw "laptop" (Some "10.0.0.1") None (at_time (t0 + seconds 63) w)).1 with
  | inr _ => True | inl _ => False end.
Proof. vm_compute. split; [reflexivity|exact I]. Qed.

(** *** OpenID Connect *)

Definition flow (payload : World mem_redis) : World mem_redis :=
  (store_oidc_workflow "st" [("provider", JStr "google"); ("nonce", JStr "n"); ("code_verifier", JStr "v")] payload).2.
Definition stranger_world : World mem_redis := flow (test_world empty_db t0).
Definition google_code : string := OidcProvider.issue_test_code OidcProvider.google_profile "n" "v".
Abbreviation calling_back := (login_oidc "Google" "st" google_code "laptop" None None stranger_world).
Lemma calling_back_ok : match calling_back.1 with inr _ => true | _ => false end = true.
Proof. vm_compute. reflexivity. Qed.
Lemma oidc_state_single_use_witness : exists d w', calling_back = (inr d, w') /\
  exists w2, login_oidc "google" "st" google_code "laptop" None None (at_time (t0 + minutes 1) w') = (inl Login._invalid_oidc, w2).
Proof.
  returned calling_back_ok d w E. exists d, w. split; [reflexivity|].
  destruct (oidc_state_single_use "Google" "st" google_code "laptop" None None stranger_world _ w eq_refl E) as [_ H].
  destruct (H (t0 + minutes 1) "google" google_code "laptop" None None eq_refl) as (w2 & H2 & _). exists w2. exact H2.
Defined.

Definition ann_world : World mem_redis := flow account_world.
Definition ann_flow : dict := [("provider", JStr "google"); ("nonce", JStr "n"); ("code_verifier", JStr "v")].
Lemma ann_flow_stored :
  r_get (w_now ann_world) (name (oidc_workflow "st")) (w_redis ann_world) = Some (RJson ann_flow).
Proof. vm_compute. reflexivity. Qed.
Lemma google_vouches : callback_profile "google" google_code ann_flow = Some OidcProvider.google_profile.
Proof. vm_compute. reflexivity. Qed.
Lemma oidc_collision_links_nothing_witness : exists d w',
  login_oidc "google" "st" google_code "laptop" None None ann_world = (inr d, w') /\ ld_decision d = COLLISION_PROOF_REQUIRED.
Proof.
  destruct (oidc_collision_links_nothing "google" "st" google_code "laptop" None None ann_world
    ann_flow OidcProvider.google_profile ann eq_refl ann_flow_stored eq_refl google_vouches eq_refl eq_refl eq_refl) as (d & w' & H & Hd & _).
  exists d, w'. split; assumption.
Defined.

(** *** Registration *)

Definition new_world : World mem_redis := test_world empty_db t0.
Abbreviation joining := (register_email "Bob@Example.com" pw "Bob" "B" local_captcha_token None None None new_world).
Lemma joining_ok : match joining.1 with inr _ => true | _ => false end = true.
Proof. vm_compute. reflexivity. Qed.
Lemma registration_is_silent_witness :
  joining.1 = (register_email "Bob@Example.com" pw "Bob" "B" local_captcha_token None None None account_world).1.
Proof.
  pose proof (registration_is_silent "Bob@Example.com" pw "Bob" "B" local_captcha_token None None None new_world account_world
    (fun _ _ => eq_refl) eq_refl eq_refl) as H.
  assert (H1 : joining.1 <> inl IntegrityError) by (vm_compute; discriminate).
  assert (H2 : (register_email "Bob@Example.com" pw "Bob" "B" local_captcha_token None None None account_world).1 <> inl IntegrityError)
    by (vm_compute; discriminate).
  destruct joining as [x1 w1]. destruct (register_email _ _ _ _ _ _ _ _ account_world) as [x2 w2].
  exact (proj1 (H H1 H2)).
Defined.

Lemma test_hash_nonempty (d : N) (p : string) : argon2_hash d p <> "".
Proof. discriminate. Qed.
Lemma test_hash_accepts (d : N) (p : string) : argon2_verify (argon2_hash d p) p = Some true.
Proof. unfold argon2_verify, argon2_hash, TestEnv, test_env. by rewrite eqb_refl. Qed.
Lemma no_devices : fresh_device_ids (w_db new_world).
Proof. intros d n Hd. by apply elem_of_nil in Hd. Qed.
Lemma registration_completes_witness : exists a w1, joining = (inr a, w1) /\
  exists token w2 d w3,
    verify_email token None (at_time (t0 + minutes 5) w1) = (inr (), w2) /\
    login_password "Bob@Example.com" pw "phone" None None (at_time (t0 + minutes 6) w2) = (inr d, w3).
Proof.
  assert (Hmail : w_mail joining.2 <> []) by (vm_compute; discriminate).
  returned joining_ok a w1 E. exists a, w1. split; [reflexivity|].
  assert (Hl : forall token w2, verify_email token None (at_time (t0 + minutes 5) w1) = (inr (), w2) ->
    locked_at (t0 + minutes 6) (normalize_email "Bob@Example.com") None (w_redis w2) = false).
  { intros token w2 Hv. destruct (run_verify_email token None (at_time (t0 + minutes 5) w1)) as (c & wv & _ & Hre & _ & _ & Hrun).
    rewrite Hrun in Hv. clear Hrun.
    destruct (RegistrationRepo.verify_email _ _ _ _) as [[?|[]] w3] eqn:E3; try discriminate Hv. injection Hv as <-.
    assert (Hk : keeps (on_redis (fun r => r = w_redis wv)) (RegistrationRepo.verify_email (_token_hash token) (w_now (at_time (t0 + minutes 5) w1)) c))
      by keeps_all.
    specialize (Hk wv eq_refl). rewrite E3 in Hk. unfold on_redis in Hk. cbn [snd] in Hk. rewrite Hk, Hre.
    assert (Hjoin : locked_at (t0 + minutes 6) (normalize_email "Bob@Example.com") None (w_redis joining.2) = false)
      by (vm_compute; reflexivity).
    rewrite E in Hjoin. exact Hjoin. }
  pose proof (registration_completes "Bob@Example.com" pw "Bob" "B" local_captcha_token None None None new_world a w1
    test_hash_accepts test_hash_nonempty (NoDup_nil_2) (NoDup_nil_2) no_devices E) as H0.
  change (scalar _ _) with (@None User) in H0. destruct H0 as [[Hm _]|(token & _ & H)].
  { exfalso. exact (Hmail Hm). }
  destruct (H (t0 + minutes 5) None) as (w2 & Hv & Hlogin); [vm_compute; reflexivity|].
  destruct (Hlogin (t0 + minutes 6) "phone" None None (Hl token w2 Hv)) as (d & w3 & Hd).
  exists token, w2, d, w3. split; assumption.
Defined.

(** The link of the registration is spent by its first use. *)
Abbreviation confirming_link := (verify_email "tok00000000" None (at_time (t0 + minutes 5) joining.2)).
Lemma confirming_link_ok : match confirming_link.1 with inr _ => true | _ => false end = true.
Proof. vm_compute. reflexivity. Qed.
Lemma email_link_single_use_witness : exists w', confirming_link = (inr (), w') /\
  exists w2, verify_email "tok00000000" None (at_time (t0 + minutes 6) w') = (inl verification_invalid, w2).
Proof.
  returned confirming_link_ok x w' E. destruct x. exists w'. split; [reflexivity|].
  destruct (email_link_single_use "tok00000000" None (at_time (t0 + minutes 5) joining.2) w' E)
    as (_ & _ & _ & _ & _ & _ & _ & _ & _ & _ & _ & _ & H).
  destruct (H (t0 + minutes 6) None) as (w2 & H2 & _). exists w2. exact H2.
Defined.

(** A phone confirmation that fails for want of a phone identity is committed all the same: the
    answer is OTP_INVALID and the account is active. *)
Definition carol : User := MkUser (test_uuid 900) None None None (Some "+4915112345678") "pending" 1 None t0.
Definition carol_world : World mem_redis :=
  (store_otp_hash (test_uuid 900) "phone_verify" (Registration._otp_hash "123456") (test_world (empty_db <| users := [carol] |>) t0)).2.
Theorem failed_phone_verification_commits :
  let '(x, w) := verify_phone "+49 151 12345678" "123456" local_captcha_token None None carol_world in
  x = inl Registration._invalid_otp /\ List.map u_state (users (w_db w)) = ["active"].
Proof. vm_compute. split; reflexivity. Qed.
