(* ===== verification/WorkspaceRepo.v ===== *)
(** [infrastructure/persistence/workspace_repository.py]: workspaces, members, invitations and
    referrals in the database.

    [set_user_context] and [set_tenant_context] set the context of row level security, which
    [RowSecurity] models. *)
From stdpp Require Import pretty.
From S2P Require Import Prelude PyText Entity Models RedisClient World.
From S2P Require SessionRepo.

#[export] Instance User_eq : EqDecision User. Proof. solve_decision. Defined.

(** ** The selections and the writes *)

Definition org_by_id (org_id : UUID) (db : Db) : option Organization :=
  scalar (fun o => o_org_id o == org_id) (organizations db).
Definition account_by_id (user_id : UUID) (db : Db) : option User :=
  scalar (fun u => u_user_id u == user_id) (users db).
Definition personal_of (user_id : UUID) (o : Organization) : bool :=
  (o_workspace_type o == "personal") && (o_personal_owner_user_id o == Some user_id).
Definition account_of_email (normalized : string) (u : User) : bool :=
  opt_citext_eq (u_email u) normalized && is_none (u_anonymized_at u).

(** Role bindings joined with their catalog entries. *)
Definition grants (P : UserRoleBinding -> bool) (db : Db) : list (UserRoleBinding * RolePermissionCatalog) :=
  where_ (fun p => P p.1 && rc_active p.2)
    (join_on (fun b c => rc_catalog_id c == b_catalog_id b) (user_role_bindings db) (role_permission_catalog db)).
Definition binding_of (user_id org_id : UUID) (b : UserRoleBinding) : bool :=
  (b_user_id b == user_id) && (b_org_id b == org_id) && is_none (b_revoked_at b).
Definition binding_in (org_id : UUID) (b : UserRoleBinding) : bool :=
  (b_org_id b == org_id) && is_none (b_revoked_at b).
(** [_roles], [_has_permission], [_catalog_for_role], [_owner_count]. *)
Definition _roles `{!Env} (user_id org_id : UUID) (db : Db) : list string :=
  order_by_text text_le (fun role => role)
    (distinct (List.map (fun p => rc_role p.2) (grants (binding_of user_id org_id) db))).
Definition _has_permission (user_id org_id : UUID) (permission : string) (db : Db) : bool :=
  row_exists (fun p => rc_permission p.2 == permission) (grants (binding_of user_id org_id) db).
Definition _catalog_for_role (role : string) (db : Db) : list RolePermissionCatalog :=
  where_ (fun c => (rc_role c == role) && rc_active c) (role_permission_catalog db).
Definition owners (org_id : UUID) (db : Db) : list UUID :=
  distinct (List.map (fun p => b_user_id p.1)
    (where_ (fun p => rc_role p.2 == role_value OWNER) (grants (binding_in org_id) db))).
Definition _owner_count (org_id : UUID) (db : Db) : nat := length (owners org_id db).

Definition set_bindings (P : UserRoleBinding -> bool) (f : UserRoleBinding -> UserRoleBinding) (db : Db) : Db :=
  db <| user_role_bindings ::= update_ P f |>.
Definition set_invitations (P : Invitation -> bool) (f : Invitation -> Invitation) (db : Db) : Db :=
  db <| invitations ::= update_ P f |>.
Definition set_referrals (P : Referral -> bool) (f : Referral -> Referral) (db : Db) : Db :=
  db <| referrals ::= update_ P f |>.
Definition binding_revoked (now : Time) (b : UserRoleBinding) : UserRoleBinding := b <| b_revoked_at := Some now |>.
Definition invitation_revoked (i : Invitation) : Invitation := i <| in_state := "revoked" |>.
Definition invitation_accepted (now : Time) (i : Invitation) : Invitation :=
  i <| in_state := "accepted" |> <| in_accepted_at := Some now |>.
Definition referral_in_state (state : string) (r : Referral) : Referral := r <| rf_state := state |>.
Definition unscoped (access_jti : UUID) (now : Time) (s : Session) : Session :=
  s <| s_org_id := None |> <| s_access_jti := access_jti |> <| s_last_activity_at := now |>.
Definition scoped_to (user_id org_id : UUID) (s : Session) : bool :=
  (s_user_id s == user_id) && (s_org_id s == Some org_id) && is_none (s_revoked_at s).
Definition pending_for (org_id : UUID) (email : string) (i : Invitation) : bool :=
  (in_org_id i == org_id) && citext_eq (in_invitee_email i) email && (in_state i == "pending").
Definition invited_by (referrer : UUID) (r : Referral) : bool :=
  (rf_referrer_user_id r == referrer) && (rf_state r == "invited").

(** The text of the role an invitation proposes. *)
Definition proposed_role (i : Invitation) : string :=
  match in_proposed_roles i with [] => "" | item :: _ => or_else (assoc "role" item) "" end.

(** [_referral_record], [_member_summary]; the roles of a member are sorted by their text. *)
Definition _referral_record (r : Referral) : ReferralRecord :=
  MkReferralRecord (rf_referral_id r) (rf_invitee_email r) (rf_state r) (rf_created_at r) (rf_expires_at r)
    (rf_registered_at r) (rf_verified_at r).
Definition _member_summary (user : User) (roles : list OrganizationRole) : MemberSummary :=
  MkMemberSummary (u_user_id user) (u_email user) (u_given_name user) (u_family_name user)
    (List.filter (fun r => r is_in roles) [MEMBER; OWNER; VIEWER]).
(** [grouped]: the users of the rows in order of appearance, with the set of their roles. *)
Fixpoint add_member (user : User) (role : OrganizationRole) (grouped : list (User * list OrganizationRole))
    : list (User * list OrganizationRole) :=
  match grouped with
  | [] => [(user, [role])]
  | (u, roles) :: grouped =>
    if u_user_id u == u_user_id user then (u, roles ++ [role]) :: grouped
    else (u, roles) :: add_member user role grouped
  end.

Section Repository.
Context {R : Type} {E : Env}.
Abbreviation M := (prog R).

Definition _workspace_summary (workspace : Organization) (roles : list string) : M WorkspaceSummary :=
  workspace_type ← get_or ValueError (WorkspaceType_of (o_workspace_type workspace));
  mret (MkWorkspaceSummary (o_org_id workspace) (o_name workspace) (o_slug workspace) workspace_type roles).
Definition _invitation_record (i : Invitation) : M InvitationRecord :=
  role ← get_or ValueError (OrganizationRole_of (proposed_role i));
  mret (MkInvitationRecord (in_invitation_id i) (in_org_id i) (in_invitee_email i) role (in_state i)
    (in_created_at i) (in_expires_at i)).
Definition workspace_audit (event_type : string) (correlation_id actor_user_id : UUID) (org_id : option UUID)
    (metadata : dict) : M unit :=
  insert_audit (Some actor_user_id) None org_id event_type "success" correlation_id metadata.
Definition insert_binding (user_id org_id granted_by : UUID) (granted_at : Time) (catalog : RolePermissionCatalog)
    : M unit :=
  binding_id ← new_uuid4;
  db ← get_db;
  add_row user_role_bindings (binding_allowed db) binding_conflict
    (MkBinding binding_id user_id org_id (rc_catalog_id catalog) granted_by granted_at None).

Definition ensure_personal_workspace (user_id : UUID) : M WorkspaceSummary :=
  tx (
    db ← get_db;
    match scalar (personal_of user_id) (organizations db) with
    | Some workspace => _workspace_summary workspace ["OWNER"]
    | None =>
      user ← get_or LookupError (account_by_id user_id db);
      raise_if (is_some (u_anonymized_at user)) LookupError;;
      org_id ← new_uuid4;
      let workspace := personal_workspace_for org_id user in
      add_row organizations organization_valid organization_conflict workspace;;
      _workspace_summary workspace ["OWNER"]
    end).

Definition listed_workspaces (user_id : UUID) (db : Db) : list Organization :=
  order_by_text text_le o_workspace_type (order_by_text text_le o_name
    (where_ (fun o => (o_state o == "active") && ((o_personal_owner_user_id o == Some user_id)
                      || user_has_org_membership (o_org_id o) user_id db)) (organizations db))).
Definition list_workspaces (user_id : UUID) : M (list WorkspaceSummary) :=
  db ← get_db;
  map_m (fun workspace =>
    _workspace_summary workspace
      (if o_workspace_type workspace == "personal" then ["OWNER"] else _roles user_id (o_org_id workspace) db))
    (listed_workspaces user_id db).

Definition create_organization (user_id : UUID) (name slug : string) (correlation_id : UUID) : M WorkspaceSummary :=
  tx (
    workspace_id ← new_uuid4;
    db ← get_db;
    user ← get_or LookupError (account_by_id user_id db);
    raise_if (u_state user != "active") LookupError;;
    let owner_catalog := _catalog_for_role "OWNER" db in
    raise_if (match owner_catalog with [] => true | _ => false end) RuntimeError;;
    let workspace := MkOrganization workspace_id name slug "organization" None "active" [] in
    add_row organizations organization_valid organization_conflict workspace;;
    now ← now_utc;
    for_ owner_catalog (insert_binding user_id workspace_id user_id now);;
    workspace_audit "ORGANIZATION_CREATED" correlation_id user_id (Some workspace_id)
      [("workspace_type", JStr "organization")];;
    _workspace_summary workspace ["OWNER"]).

Definition referral_eligibility (referrer_user_id : UUID) (invitee_email : string) : M ReferralEligibility :=
  db ← get_db;
  match account_by_id referrer_user_id db with
  | None => mret EXISTING_USER
  | Some referrer =>
    if u_state referrer != "active" then mret EXISTING_USER else
    let normalized := normalize_email invitee_email in
    if truthy (u_email referrer) && bool_decide (normalize_email <$> u_email referrer = Some normalized)
    then mret SELF
    else if is_some (scalar (account_of_email normalized) (users db)) then mret EXISTING_USER
    else mret ELIGIBLE
  end.

Definition create_referral (referrer_user_id : UUID) (invitee_email token_hash : string) (expires_at : Time)
    (correlation_id : UUID) : M ReferralRecord :=
  tx (
    modify_db (set_referrals (fun r => invited_by referrer_user_id r
                                       && citext_eq (rf_invitee_email r) (normalize_email invitee_email))
                 (referral_in_state "revoked"));;
    referral_id ← new_uuid4;
    now ← now_utc;
    let referral := MkReferral referral_id referrer_user_id (normalize_email invitee_email) token_hash None
                      "invited" now expires_at None None in
    add_row referrals referral_valid referral_conflict referral;;
    workspace_audit "REFERRAL_CREATED" correlation_id referrer_user_id None
      [("referral_id", JStr (uuid_str referral_id))];;
    mret (_referral_record referral)).

Definition revoke_referral (referrer_user_id referral_id : UUID) : M unit :=
  tx (modify_db (set_referrals (fun r => (rf_referral_id r == referral_id) && invited_by referrer_user_id r)
                   (referral_in_state "revoked"))).

Definition list_referrals (referrer_user_id : UUID) (now : Time) : M (list ReferralRecord) :=
  tx (
    modify_db (set_referrals (fun r => invited_by referrer_user_id r && (rf_expires_at r <=? now))
                 (referral_in_state "expired"));;
    db ← get_db;
    mret (List.map _referral_record
      (order_by_desc rf_created_at (where_ (fun r => rf_referrer_user_id r == referrer_user_id) (referrals db))))).

Definition get_workspace_access (user_id workspace_id : UUID) : M (option WorkspaceSummary) :=
  db ← get_db;
  match org_by_id workspace_id db with
  | None => mret None
  | Some workspace =>
    if o_state workspace != "active" then mret None
    else if o_workspace_type workspace == "personal" then
      if o_personal_owner_user_id workspace != Some user_id then mret None
      else summary ← _workspace_summary workspace ["OWNER"]; mret (Some summary)
    else match _roles user_id workspace_id db with
         | [] => mret None
         | roles => summary ← _workspace_summary workspace roles; mret (Some summary)
         end
  end.

(** [workspace] is an organization whose members the actor may manage. *)
Definition manages (actor_user_id workspace_id : UUID) (db : Db) : bool :=
  match org_by_id workspace_id db with
  | None => false
  | Some workspace => (o_workspace_type workspace == "organization")
                      && _has_permission actor_user_id workspace_id "members.manage" db
  end.
(** An account with the address that already has a role. *)
Definition already_member (normalized_email : string) (workspace_id : UUID) (db : Db) : bool :=
  match scalar (account_of_email normalized_email) (users db) with
  | None => false
  | Some user => match _roles (u_user_id user) workspace_id db with [] => false | _ => true end
  end.

Definition create_organization_invitation (actor_user_id workspace_id : UUID) (invitee_email : string)
    (role : OrganizationRole) (token_hash : string) (expires_at : Time) (correlation_id : UUID)
    : M (option InvitationRecord) :=
  tx (
    db ← get_db;
    if negb (manages actor_user_id workspace_id db) then mret None else
    let normalized_email := normalize_email invitee_email in
    if already_member normalized_email workspace_id db then mret None else
    modify_db (set_invitations (pending_for workspace_id normalized_email) invitation_revoked);;
    invitation_id ← new_uuid4;
    now ← now_utc;
    db ← get_db;
    let invitation := MkInvitation invitation_id workspace_id normalized_email token_hash
                        [[("role", role_value role)]] actor_user_id "pending" now expires_at None in
    add_row invitations (invitation_allowed db) invitation_conflict invitation;;
    workspace_audit "ORGANIZATION_INVITATION_CREATED" correlation_id actor_user_id (Some workspace_id)
      [("invitation_id", JStr (uuid_str invitation_id)); ("role", JStr (role_value role))];;
    record ← _invitation_record invitation;
    mret (Some record)).

Definition revoke_organization_invitation (actor_user_id workspace_id invitation_id : UUID) : M unit :=
  tx (modify_db (set_invitations (fun i => (in_invitation_id i == invitation_id) && (in_org_id i == workspace_id)
        && (in_issued_by_user_id i == actor_user_id) && (in_state i == "pending")) invitation_revoked)).

(** The tests of an invitation and of the account that accepts it. *)
Definition acceptable (invitation : Invitation) (user : User) (now : Time) : bool :=
  (u_state user == "active") && (in_state invitation == "pending") && (now <? in_expires_at invitation)
  && match u_email user with
     | Some email => normalize_email email == normalize_email (in_invitee_email invitation)
     | None => false
     end.
(** The role an invitation can grant. *)
Definition grantable (invitation : Invitation) : option OrganizationRole :=
  role ← OrganizationRole_of (proposed_role invitation);
  if role is_in [MEMBER; VIEWER] then Some role else None.

Definition accept_organization_invitation (user_id : UUID) (token_hash : string) (now : Time) (correlation_id : UUID)
    : M (option WorkspaceSummary) :=
  tx (
    clock ← now_utc;
    db ← get_db;
    match organization_invitation_org token_hash clock db with
    | None => mret None
    | Some workspace_id =>
      match scalar (fun i => in_token_hash i == token_hash) (invitations db), account_by_id user_id db with
      | Some invitation, Some user =>
        if negb (acceptable invitation user now) then mret None else
        match grantable invitation with
        | None => mret None
        | Some role =>
          match _roles user_id (in_org_id invitation) db with
          | [] =>
            match _catalog_for_role (role_value role) db with
            | [] => mret None
            | catalog =>
              for_ catalog (insert_binding user_id (in_org_id invitation) (in_issued_by_user_id invitation) clock);;
              modify_db (set_invitations (fun i => in_invitation_id i == in_invitation_id invitation)
                           (invitation_accepted now));;
              match org_by_id (in_org_id invitation) db with
              | None => mret None
              | Some workspace =>
                workspace_audit "ORGANIZATION_INVITATION_ACCEPTED" correlation_id user_id
                  (Some (in_org_id invitation))
                  [("invitation_id", JStr (uuid_str (in_invitation_id invitation))); ("role", JStr (role_value role))];;
                summary ← _workspace_summary workspace [role_value role];
                mret (Some summary)
              end
            end
          | _ => mret None
          end
        end
      | _, _ => mret None
      end
    end).

(** The rows [list_members] reads: users with the roles of their bindings. *)
Definition member_rows (workspace_id : UUID) (db : Db) : list (User * string) :=
  order_by (fun p => u_created_at p.1) (order_by_text text_le snd
    (distinct (List.flat_map (fun p =>
        List.map (fun u => (u, rc_role p.2)) (where_ (fun u => u_user_id u == b_user_id p.1) (users db)))
      (grants (binding_in workspace_id) db)))).
Definition list_members (actor_user_id workspace_id : UUID) : M (option (list MemberSummary)) :=
  db ← get_db;
  if negb (_has_permission actor_user_id workspace_id "members.manage" db) then mret None else
  rows ← map_m (fun p => role ← get_or ValueError (OrganizationRole_of p.2); mret (p.1, role))
           (member_rows workspace_id db);
  let grouped := List.fold_left (fun grouped p => add_member p.1 p.2 grouped) rows [] in
  mret (Some (List.map (fun p => _member_summary p.1 p.2) grouped)).

(** A change would leave the organization without an owner. *)
Definition last_owner (member_user_id workspace_id : UUID) (db : Db) : bool :=
  ("OWNER" is_in (_roles member_user_id workspace_id db)) && (_owner_count workspace_id db <=? 1)%nat.

Definition replace_member_role (actor_user_id workspace_id member_user_id : UUID) (role : OrganizationRole)
    (now : Time) (correlation_id : UUID) : M (option MemberSummary) :=
  tx (
    db ← get_db;
    if negb (_has_permission actor_user_id workspace_id "members.manage" db) then mret None else
    match _roles member_user_id workspace_id db with
    | [] => mret None
    | _ =>
      raise_if ((role != OWNER) && last_owner member_user_id workspace_id db) LastOwnerError;;
      match _catalog_for_role (role_value role) db with
      | [] => mret None
      | catalog =>
        modify_db (set_bindings (binding_of member_user_id workspace_id) (binding_revoked now));;
        for_ catalog (insert_binding member_user_id workspace_id actor_user_id now);;
        match account_by_id member_user_id db with
        | None => mret None
        | Some user =>
          workspace_audit "ORGANIZATION_MEMBER_ROLE_REPLACED" correlation_id actor_user_id (Some workspace_id)
            [("member_user_id", JStr (uuid_str member_user_id)); ("role", JStr (role_value role))];;
          mret (Some (_member_summary user [role]))
        end
      end
    end).

Definition offboard_member (actor_user_id workspace_id member_user_id : UUID) (now : Time) (correlation_id : UUID)
    : M (option OffboardResult) :=
  tx (
    db ← get_db;
    if negb (_has_permission actor_user_id workspace_id "members.manage" db) then mret None else
    match _roles member_user_id workspace_id db with
    | [] => mret None
    | _ =>
      raise_if (last_owner member_user_id workspace_id db) LastOwnerError;;
      modify_db (set_bindings (binding_of member_user_id workspace_id) (binding_revoked now));;
      let active_sessions := where_ (scoped_to member_user_id workspace_id) (sessions db) in
      for_ active_sessions (fun s =>
        jti ← new_uuid4; modify_db (SessionRepo.set_session (s_session_id s) (unscoped jti now)));;
      let access_jtis := List.map s_access_jti active_sessions in
      workspace_audit "ORGANIZATION_MEMBER_OFFBOARDED" correlation_id actor_user_id (Some workspace_id)
        [("member_user_id", JStr (uuid_str member_user_id));
         ("revoked_scoped_tokens", JStr (pretty (N.of_nat (length access_jtis))))];;
      mret (Some (MkOffboardResult member_user_id access_jtis))
    end).
End Repository.
