(* ===== verification/Workspace.v ===== *)
(** [control/workspace.py]: workspaces, referrals, invitations and members, above the repository,
    the notifications, the rate store and the token issuer of the session control. *)
From S2P Require Import Prelude PyText Entity Models RedisClient World Providers RedisSecurity Tokens.
From S2P Require WorkspaceRepo SessionControl.

Definition REFERRAL_LIFETIME : Z := days 30.
Definition REFERRAL_LIMIT_PER_DAY : Z := 20.
Definition INVITATION_LIFETIME : Z := days 7.
Definition ORGANIZATION_INVITATION_LIMIT_PER_DAY : Z := 50.

Definition _forbidden : exc :=
  WorkspaceError Ws_FORBIDDEN "You do not have permission to perform this workspace operation." 403.
Definition _last_owner : exc :=
  WorkspaceError Ws_LAST_OWNER "Transfer ownership before removing or changing the last owner." 409.
Definition invalid_name : exc := WorkspaceError Ws_INVALID "Enter a valid organization name." 400.
Definition invalid_role : exc := WorkspaceError Ws_INVALID "Select an approved invitation role." 400.
Definition referral_limit_reached : exc :=
  WorkspaceError Ws_RATE_LIMITED "The daily referral limit has been reached. Please try again tomorrow." 429.
Definition invitation_limit_reached : exc :=
  WorkspaceError Ws_RATE_LIMITED "The daily organization invitation limit has been reached." 429.
Definition referral_ineligible : exc :=
  WorkspaceError Ws_REFERRAL_INELIGIBLE "This referral cannot be created." 409.
Definition referral_undelivered : exc :=
  WorkspaceError Ws_PROVIDER_UNAVAILABLE "The referral could not be delivered. Please try again." 503.
Definition invitation_undelivered : exc :=
  WorkspaceError Ws_PROVIDER_UNAVAILABLE "The organization invitation could not be delivered. Please try again." 503.
Definition invitation_invalid : exc :=
  WorkspaceError Ws_INVITATION_INVALID
    "This invitation is invalid, expired, or cannot be accepted by this account." 400.

(** [name.split()] joined by single blanks, and the slug without its random end. *)
Definition normalized_name (name : string) : string := String.concat " " (split name).
Definition slug_base (name : string) : string :=
  let base := slug_of (normalized_name name) in if nonempty base then base else "organization".
(** [url.rstrip("/")]. *)
Definition without_slashes (url : string) : string := rstrip (fun c => c == "/"%char) url.

Section Control.
Context {R : Type} {RC : RedisClient R} {E : Env}.
Abbreviation M := (prog R).

Definition _token_hash (raw_token : string) : string := hmac_sha256 workspace_token_hmac_secret raw_token.

Definition list_workspaces (user_id : UUID) : M (list WorkspaceSummary) :=
  _ ← WorkspaceRepo.ensure_personal_workspace user_id;
  WorkspaceRepo.list_workspaces user_id.

Definition create_organization (user_id : UUID) (name : string) (correlation_id : UUID) : M WorkspaceSummary :=
  raise_if (String.length (normalized_name name) <? 2)%nat invalid_name;;
  d ← draw;
  let slug := slug_base name +:+ "-" +:+ token_hex 4 d in
  WorkspaceRepo.create_organization user_id (normalized_name name) slug correlation_id.

Definition referral_link (raw_token : string) : string :=
  without_slashes referral_base_url +:+ "?referral_token=" +:+ raw_token.
Definition invite_referral (referrer_user_id : UUID) (email : string) (correlation_id : UUID) : M ReferralRecord :=
  let normalized_email := normalize_email email in
  count ← increment_rate_limit "referral_invite" (uuid_str referrer_user_id) 86400;
  raise_if (REFERRAL_LIMIT_PER_DAY <? count) referral_limit_reached;;
  eligibility ← WorkspaceRepo.referral_eligibility referrer_user_id normalized_email;
  raise_if (eligibility != ELIGIBLE) referral_ineligible;;
  raw_token ← new_token_urlsafe 32;
  now ← now_utc;
  referral ← WorkspaceRepo.create_referral referrer_user_id normalized_email (_token_hash raw_token)
    (now + REFERRAL_LIFETIME) correlation_id;
  try_except (Mailpit_send_referral normalized_email (referral_link raw_token))
    (fun _ => Some (WorkspaceRepo.revoke_referral referrer_user_id (rr_referral_id referral);;
                    raise referral_undelivered));;
  mret referral.

Definition list_referrals (user_id : UUID) : M (list ReferralRecord) :=
  now ← now_utc;
  WorkspaceRepo.list_referrals user_id now.

Definition invitation_link (raw_token : string) : string :=
  without_slashes organization_invitation_base_url +:+ "?invitation_token=" +:+ raw_token.
Definition invite_organization_member (actor_user_id workspace_id : UUID) (email : string) (role : OrganizationRole)
    (correlation_id : UUID) : M InvitationRecord :=
  raise_if (negb (role is_in [MEMBER; VIEWER])) invalid_role;;
  workspace ← WorkspaceRepo.get_workspace_access actor_user_id workspace_id;
  workspace ← get_or _forbidden workspace;
  raise_if (negb ("OWNER" is_in (ws_roles workspace))) _forbidden;;
  let normalized_email := normalize_email email in
  count ← increment_rate_limit "organization_invite" (uuid_str actor_user_id +:+ ":" +:+ uuid_str workspace_id) 86400;
  raise_if (ORGANIZATION_INVITATION_LIMIT_PER_DAY <? count) invitation_limit_reached;;
  raw_token ← new_token_urlsafe 32;
  now ← now_utc;
  invitation ← WorkspaceRepo.create_organization_invitation actor_user_id workspace_id normalized_email role
    (_token_hash raw_token) (now + INVITATION_LIFETIME) correlation_id;
  invitation ← get_or _forbidden invitation;
  try_except (Mailpit_send_organization_invitation normalized_email (ws_name workspace) (invitation_link raw_token))
    (fun _ => Some (WorkspaceRepo.revoke_organization_invitation actor_user_id workspace_id
                      (ir_invitation_id invitation);;
                    raise invitation_undelivered));;
  mret invitation.

Definition accept_organization_invitation (user_id : UUID) (token : string) (correlation_id : UUID)
    : M WorkspaceSummary :=
  now ← now_utc;
  workspace ← WorkspaceRepo.accept_organization_invitation user_id (_token_hash token) now correlation_id;
  workspace ← get_or invitation_invalid workspace;
  SessionControl.restore_organization_access user_id (ws_workspace_id workspace);;
  mret workspace.

Definition list_members (actor_user_id workspace_id : UUID) : M (list MemberSummary) :=
  members ← WorkspaceRepo.list_members actor_user_id workspace_id;
  get_or _forbidden members.

(** [except LastOwnerError as error: raise self._last_owner()]. *)
Definition or_last_owner {A} (m : M A) : M A :=
  try_except m (fun err => match err with LastOwnerError => Some (raise _last_owner) | _ => None end).

Definition replace_member_role (actor_user_id workspace_id member_user_id : UUID) (role : OrganizationRole)
    (correlation_id : UUID) : M MemberSummary :=
  now ← now_utc;
  member ← or_last_owner
    (WorkspaceRepo.replace_member_role actor_user_id workspace_id member_user_id role now correlation_id);
  get_or _forbidden member.

Definition offboard_member (actor_user_id workspace_id member_user_id correlation_id : UUID) : M unit :=
  now ← now_utc;
  result ← or_last_owner
    (WorkspaceRepo.offboard_member actor_user_id workspace_id member_user_id now correlation_id);
  result ← get_or _forbidden result;
  SessionControl.revoke_organization_access (or_user_id result) workspace_id (or_revoked_access_jtis result).

Definition switch_workspace (claims : AccessClaims) (workspace_id correlation_id : UUID)
    : M (string * Time * WorkspaceSummary) :=
  workspace ← WorkspaceRepo.get_workspace_access (ac_user_id claims) workspace_id;
  workspace ← get_or _forbidden workspace;
  '(token, expires_at) ← SessionControl.issue_workspace_scope claims workspace correlation_id;
  mret (token, expires_at, workspace).
End Control.
