(* ===== verification/WorkspaceInv.v ===== *)
(** The roles of the members of organizations: what the selections of the workspace repository
    read, how a change of role acts on them, and the invariant of the role tables. *)
From S2P Require Import Prelude PyText Entity Models RedisClient World WorkspaceRepo.
From S2P Require RecoveryInv.
Import RecoveryInv(db_step, with_audit).

(** ** The role matrix *)

Section Roles.
Context {E : Env}.
Implicit Types (db : Db) (u m o : UUID).

(** The member holds a binding in force on a catalog entry. *)
Definition held u o (cid : UUID) db : Prop :=
  exists b, b ∈ user_role_bindings db /\ binding_of u o b = true /\ b_catalog_id b = cid.
Definition catalog_entry (c : RolePermissionCatalog) db : Prop :=
  c ∈ role_permission_catalog db /\ rc_active c = true.
(** The roles of a member as [_roles] reports them: row by organization, column by user. *)
Definition matrix db o u : list string := _roles u o db.

Lemma elem_of_grants P db p : p ∈ grants P db <->
  p.1 ∈ user_role_bindings db /\ catalog_entry p.2 db /\ rc_catalog_id p.2 = b_catalog_id p.1 /\ P p.1 = true.
Proof.
  unfold grants, catalog_entry. destruct p as [b c]. rewrite elem_of_where, elem_of_join, bool_decide_eq_true, andb_true_iff. cbn.
  tauto.
Qed.

Lemma elem_of_map {A B} (f : A -> B) l y : y ∈ List.map f l <-> exists x, x ∈ l /\ f x = y.
Proof.
  rewrite list_elem_of_In, in_map_iff. split; intros (x & H1 & H2); exists x; rewrite list_elem_of_In in *; tauto.
Qed.

Lemma elem_of_roles u o db s : s ∈ _roles u o db <->
  exists c, catalog_entry c db /\ rc_role c = s /\ held u o (rc_catalog_id c) db.
Proof.
  unfold _roles. rewrite order_by_text_perm, elem_of_distinct, elem_of_map. split.
  - intros ([b c] & (Hb & Hc & He & HP)%elem_of_grants & <-). cbn in *. exists c. split_and!; [done..|]. by exists b.
  - intros (c & Hc & <- & b & Hb & HP & He). exists (b, c). split; [|done]. by apply elem_of_grants.
Qed.
Lemma nodup_roles u o db : NoDup (_roles u o db).
Proof. unfold _roles. rewrite order_by_text_perm. apply nodup_distinct. Qed.
Lemma roles_singleton u o db r : r ∈ _roles u o db -> (forall s, s ∈ _roles u o db -> s = r) -> _roles u o db = [r].
Proof. apply nodup_unique, nodup_roles. Qed.
Lemma roles_nil u o db : (forall s, s ∉ _roles u o db) -> _roles u o db = [].
Proof. intros H. destruct (_roles u o db) as [|s l]; [done|]. exfalso. apply (H s). by left. Qed.

Lemma has_permission_held u o p db : _has_permission u o p db = true <->
  exists c, catalog_entry c db /\ rc_permission c = p /\ held u o (rc_catalog_id c) db.
Proof.
  unfold _has_permission. rewrite row_exists_true. split.
  - intros ([b c] & (Hb & Hc & He & HP)%elem_of_grants & H). cbn in *. to_prop. exists c. split_and!; [done..|]. by exists b.
  - intros (c & Hc & <- & b & Hb & HP & He). exists (b, c). split; [by apply elem_of_grants|]. cbn. apply eqb_refl.
Qed.

Lemma binding_in_of o b : binding_in o b = binding_of (b_user_id b) o b.
Proof. unfold binding_in, binding_of. by rewrite eqb_refl. Qed.
Lemma binding_of_user u o b : binding_of u o b = true -> b_user_id b = u /\ b_org_id b = o /\ b_revoked_at b = None.
Proof. unfold binding_of. intros. to_prop. done. Qed.

Lemma elem_of_owners o db u : u ∈ owners o db <-> "OWNER" ∈ _roles u o db.
Proof.
  unfold owners. rewrite elem_of_distinct, elem_of_map, elem_of_roles. split.
  - intros ([b c] & [(Hb & Hc & He & HP)%elem_of_grants Hr]%elem_of_where & <-). cbn in *. to_prop.
    exists c. split_and!; [done..|]. exists b. by rewrite <- binding_in_of.
  - intros (c & Hc & Hr & b & Hb & HP & He). exists (b, c). apply binding_of_user in HP as HP'. destruct HP' as (<- & _ & _).
    split; [|done]. rewrite elem_of_where. split; [|by cbn; rewrite Hr]. apply elem_of_grants. cbn.
    by rewrite binding_in_of.
Qed.

Lemma elem_of_catalog_for_role r c db :
  c ∈ _catalog_for_role r db <-> catalog_entry c db /\ rc_role c = r.
Proof.
  unfold _catalog_for_role, catalog_entry. rewrite elem_of_where, andb_true_iff, bool_decide_eq_true. tauto.
Qed.

(** ** The invariant of the role tables *)

(** Bindings and invitations refer to rows that exist, as their foreign keys say; a member holds
    the whole of one role; every organization has an owner.  The last three fields are the seed of
    migration 0008: the permission to manage members is the owners' alone. *)
Record Roster db : Prop := {
  ro_active u o cid : held u o cid db -> exists c, catalog_entry c db /\ rc_catalog_id c = cid;
  ro_org u o cid : held u o cid db -> exists x, x ∈ organizations db /\ o_org_id x = o;
  ro_user u o cid : held u o cid db -> is_Some (account_by_id u db);
  ro_invited i : i ∈ invitations db -> exists x, x ∈ organizations db /\ o_org_id x = in_org_id i;
  ro_single u o r s : r ∈ matrix db o u -> s ∈ matrix db o u -> r = s;
  ro_full u o c c' : catalog_entry c db -> catalog_entry c' db -> rc_role c = rc_role c' ->
    held u o (rc_catalog_id c) db -> held u o (rc_catalog_id c') db;
  ro_owned x : x ∈ organizations db -> o_workspace_type x = "organization" ->
    exists u, "OWNER" ∈ matrix db (o_org_id x) u;
  ro_ids c c' : c ∈ role_permission_catalog db -> c' ∈ role_permission_catalog db ->
    rc_catalog_id c = rc_catalog_id c' -> c = c';
  ro_manage c : catalog_entry c db -> rc_permission c = "members.manage" -> rc_role c = "OWNER";
  ro_manager : exists c, catalog_entry c db /\ rc_role c = "OWNER" /\ rc_permission c = "members.manage" }.

(** Before the first organization the invariant holds. *)
Lemma roster_of_empty db : user_role_bindings db = [] -> invitations db = [] ->
  (forall x, x ∈ organizations db -> o_workspace_type x = "personal") ->
  (forall c c', c ∈ role_permission_catalog db -> c' ∈ role_permission_catalog db ->
     rc_catalog_id c = rc_catalog_id c' -> c = c') ->
  (forall c, catalog_entry c db -> rc_permission c = "members.manage" -> rc_role c = "OWNER") ->
  (exists c, catalog_entry c db /\ rc_role c = "OWNER" /\ rc_permission c = "members.manage") -> Roster db.
Proof.
  intros Hb Hi Ho H1 H2 H3.
  assert (Hno : forall u o cid, ~ held u o cid db) by (intros u o c (b & Hin & _); rewrite Hb in Hin; by apply elem_of_nil in Hin).
  assert (Hr : forall u o s, s ∉ matrix db o u) by (intros u o s (c & _ & _ & Hh)%elem_of_roles; by apply Hno in Hh).
  split; try done.
  - intros u o c Hh. by apply Hno in Hh.
  - intros u o c Hh. by apply Hno in Hh.
  - intros u o c Hh. by apply Hno in Hh.
  - intros i Hin. rewrite Hi in Hin. by apply elem_of_nil in Hin.
  - intros u o r s Hin. by apply Hr in Hin.
  - intros u o c c' _ _ _ Hh. by apply Hno in Hh.
  - intros x Hx Ht. rewrite Ho in Ht by done. done.
Qed.

Lemma roster_manages db u o : Roster db ->
  _has_permission u o "members.manage" db = true <-> "OWNER" ∈ matrix db o u.
Proof.
  intros I. unfold matrix. rewrite has_permission_held, elem_of_roles. split.
  - intros (c & Hc & Hp & H). exists c. split_and!; [done|by apply (ro_manage _ I)|done].
  - intros (c & Hc & Hr & H). destruct (ro_manager _ I) as (c' & Hc' & Hr' & Hp). exists c'. split_and!; [done..|].
    apply (ro_full _ I _ _ c c'); congruence.
Qed.

Lemma roster_no_roles db u o : Roster db -> _roles u o db = [] -> forall cid, ~ held u o cid db.
Proof.
  intros I H cid Hh. destruct (ro_active _ I _ _ _ Hh) as (c & Hc & Hi).
  assert (Hr : rc_role c ∈ _roles u o db) by (apply elem_of_roles; exists c; rewrite Hi; done).
  rewrite H in Hr. by apply elem_of_nil in Hr.
Qed.

(** The only owner of an organization. *)
Definition sole_owner (mx : UUID -> UUID -> list string) o m : Prop :=
  "OWNER" ∈ mx o m /\ forall u, "OWNER" ∈ mx o u -> u = m.
Lemma last_owner_sole m o db : last_owner m o db = true <-> sole_owner (matrix db) o m.
Proof.
  unfold last_owner, sole_owner, matrix. rewrite andb_true_iff, bool_decide_eq_true, Nat.leb_le.
  split; intros [Hm H]; (split; [done|]).
  - intros u Hu. rewrite <- elem_of_owners in Hm, Hu. unfold _owner_count in H.
    destruct (owners o db) as [|x [|y l]]; [by apply elem_of_nil in Hu| |cbn in H; lia].
    apply list_elem_of_singleton in Hm, Hu. congruence.
  - unfold _owner_count. replace (owners o db) with [m]; [done|]. symmetry. apply nodup_unique.
    + unfold owners. apply nodup_distinct.
    + by apply elem_of_owners.
    + intros u Hu. apply H. by apply elem_of_owners.
Qed.

(** ** A change of role *)

(** The member's bindings in force become those of a role, or none. *)
Record assigned m o (role : option string) db db' : Prop := {
  as_catalog : role_permission_catalog db' = role_permission_catalog db;
  as_held cid : held m o cid db' <->
    exists r c, role = Some r /\ catalog_entry c db /\ rc_role c = r /\ rc_catalog_id c = cid;
  as_others u o' cid : (u, o') <> (m, o) -> held u o' cid db' <-> held u o' cid db }.

Section Assigned.
Context (m o : UUID) (role : option string) (db db' : Db) (I : Roster db) (A : assigned m o role db db').
Lemma assigned_entry c : catalog_entry c db' <-> catalog_entry c db.
Proof. unfold catalog_entry. by rewrite (as_catalog _ _ _ _ _ A). Qed.

Lemma assigned_others u o' : (u, o') <> (m, o) -> forall s, s ∈ matrix db' o' u <-> s ∈ matrix db o' u.
Proof.
  intros Hne s. unfold matrix. rewrite !elem_of_roles. setoid_rewrite assigned_entry.
  by setoid_rewrite (as_others _ _ _ _ _ A _ _ _ Hne).
Qed.
Lemma assigned_member s : s ∈ matrix db' o m <-> role = Some s /\ exists c, catalog_entry c db /\ rc_role c = s.
Proof.
  unfold matrix. rewrite elem_of_roles. setoid_rewrite assigned_entry. setoid_rewrite (as_held _ _ _ _ _ A). split.
  - intros (c & Hc & Hs & r & c' & Hr & Hc' & Hr' & He). destruct Hc as [Hc Ha], Hc' as [Hc' Ha'].
    apply (ro_ids _ I) in He; [|done..]. subst. split; [done|]. by exists c.
  - intros (-> & c & Hc & <-). exists c. split_and!; [done..|]. by exists (rc_role c), c.
Qed.

(** Others keep their roles, as lists: the order of the roles is that of the collation. *)
Lemma assigned_others_eq u o' : (u, o') <> (m, o) -> matrix db' o' u = matrix db o' u.
Proof.
  intros Hne. pose proof (assigned_others u o' Hne) as H.
  destruct (matrix db o' u) as [|r l] eqn:Em.
  - apply roles_nil. intros s Hs. apply H in Hs. by apply elem_of_nil in Hs.
  - assert (Hs : forall s, s ∈ r :: l -> s = r)
      by (intros s Hs; apply (ro_single _ I u o'); rewrite Em; [done|by left]).
    rewrite <- Em. replace (matrix db o' u) with [r].
    + apply roles_singleton; [apply H; by left|]. intros s Hin%H. by apply Hs.
    + symmetry. apply roles_singleton; [unfold matrix in Em; rewrite Em; by left|].
      intros s Hin. apply Hs. by rewrite <- Em.
Qed.
Lemma assigned_member_none : role = None -> matrix db' o m = [].
Proof. intros Hr. apply roles_nil. intros s Hs. apply assigned_member in Hs as [? _]. congruence. Qed.
Lemma assigned_member_some r : role = Some r -> (exists c, catalog_entry c db /\ rc_role c = r) ->
  matrix db' o m = [r].
Proof.
  intros Hr Hc. apply roles_singleton; [by apply assigned_member|]. intros s Hs. apply assigned_member in Hs as [? _]. congruence.
Qed.

End Assigned.

(** The invariant after a change, given that the organizations keep an owner. *)
Lemma roster_assigned m o role db db' : Roster db -> assigned m o role db db' ->
  users db' = users db ->
  (forall x, x ∈ organizations db -> x ∈ organizations db') ->
  (forall i, i ∈ invitations db' -> exists i0, i0 ∈ invitations db /\ in_org_id i = in_org_id i0) ->
  (is_Some role -> is_Some (account_by_id m db) /\ exists x, x ∈ organizations db' /\ o_org_id x = o) ->
  (forall x, x ∈ organizations db' -> o_workspace_type x = "organization" ->
     exists u, "OWNER" ∈ matrix db' (o_org_id x) u) ->
  Roster db'.
Proof.
  intros I A Hus Hsub Hinv Hnew Hown. pose proof (assigned_entry _ _ _ _ _ A) as He.
  assert (Hacc : forall u, account_by_id u db' = account_by_id u db) by (intros u; unfold account_by_id; by rewrite Hus).
  assert (Hheld : forall u o' cid, held u o' cid db' -> held u o' cid db \/
    (u = m /\ o' = o /\ exists r c, role = Some r /\ catalog_entry c db /\ rc_role c = r /\ rc_catalog_id c = cid)).
  { intros u o' cid Hh. destruct (decide ((u, o') = (m, o))) as [Heq|Hne].
    - injection Heq as -> ->. right. by apply (as_held _ _ _ _ _ A) in Hh.
    - left. by apply (as_others _ _ _ _ _ A) in Hh. }
  split.
  - intros u o' cid Hh. setoid_rewrite He. apply Hheld in Hh as [Hh|(-> & -> & r & c & _ & Hc & _ & Hi)]; [|by exists c].
    by apply (ro_active _ I) in Hh.
  - intros u o' cid Hh. apply Hheld in Hh as [Hh|(-> & -> & r & c & Hr & _)]; [|apply Hnew; by rewrite Hr].
    apply (ro_org _ I) in Hh as (x & Hx & Ho). exists x. auto.
  - intros u o' cid Hh. rewrite Hacc. apply Hheld in Hh as [Hh|(-> & -> & r & c & Hr & _)]; [|apply Hnew; by rewrite Hr].
    by apply (ro_user _ I) in Hh.
  - intros i (i0 & Hi & ->)%Hinv. apply (ro_invited _ I) in Hi as (x & Hx & Ho). exists x. auto.
  - intros u o' r s Hr Hs. destruct (decide ((u, o') = (m, o))) as [Heq|Hne].
    + injection Heq as -> ->. apply (assigned_member _ _ _ _ _ I A) in Hr as [Hr _], Hs as [Hs _]. congruence.
    + rewrite (assigned_others_eq _ _ _ _ _ I A) in Hr, Hs by done. by apply (ro_single _ I u o').
  - intros u o' c c' Hc%He Hc'%He Hr Hh. destruct (decide ((u, o') = (m, o))) as [Heq|Hne].
    + injection Heq as -> ->. apply (as_held _ _ _ _ _ A) in Hh as (r & d & Hro & Hd & Hdr & Hi).
      apply (as_held _ _ _ _ _ A). exists r, c'. destruct Hc as [Hc ?], Hd as [Hd ?].
      apply (ro_ids _ I) in Hi; [|done..]. subst d. split_and!; [done..|congruence|done].
    + apply (as_others _ _ _ _ _ A); [done|]. apply (as_others _ _ _ _ _ A) in Hh; [|done].
      by apply (ro_full _ I _ _ c).
  - done.
  - rewrite (as_catalog _ _ _ _ _ A). apply (ro_ids _ I).
  - intros c Hc%He. by apply (ro_manage _ I).
  - setoid_rewrite He. apply (ro_manager _ I).
Qed.

(** What does not touch the roles keeps the invariant. *)
Lemma roster_frame db db' : Roster db -> role_permission_catalog db' = role_permission_catalog db ->
  user_role_bindings db' = user_role_bindings db -> users db' = users db ->
  (forall x, x ∈ organizations db -> x ∈ organizations db') ->
  (forall x, x ∈ organizations db' -> x ∈ organizations db \/ o_workspace_type x = "personal") ->
  (forall i, i ∈ invitations db' -> exists x, x ∈ organizations db /\ o_org_id x = in_org_id i) ->
  Roster db' /\ forall o u, matrix db' o u = matrix db o u.
Proof.
  intros I Hc Hb Hu Hsub Hnew Hinv.
  assert (He : forall c, catalog_entry c db' <-> catalog_entry c db) by (intros c; unfold catalog_entry; by rewrite Hc).
  assert (Hh : forall u o cid, held u o cid db' <-> held u o cid db) by (intros; unfold held; by rewrite Hb).
  assert (Hm : forall o u, matrix db' o u = matrix db o u)
    by (intros; unfold matrix, _roles, grants; by rewrite Hb, Hc).
  split; [|done]. split.
  - setoid_rewrite Hh. setoid_rewrite He. apply (ro_active _ I).
  - setoid_rewrite Hh. intros u o cid H. apply (ro_org _ I) in H as (x & ? & ?). exists x. auto.
  - setoid_rewrite Hh. unfold account_by_id. rewrite Hu. apply (ro_user _ I).
  - intros i (x & ? & ?)%Hinv. exists x. auto.
  - setoid_rewrite Hm. apply (ro_single _ I).
  - setoid_rewrite Hh. setoid_rewrite He. apply (ro_full _ I).
  - setoid_rewrite Hm. intros x [Hx|Hp]%Hnew Ht; [by apply (ro_owned _ I)|congruence].
  - rewrite Hc. apply (ro_ids _ I).
  - setoid_rewrite He. apply (ro_manage _ I).
  - setoid_rewrite He. apply (ro_manager _ I).
Qed.

(** A change of role in the table of bindings. *)
Definition grants_role m o (role : option string) db (rows : list UserRoleBinding) : Prop :=
  (forall b, b ∈ rows -> binding_of m o b = true) /\
  (forall cid, (exists b, b ∈ rows /\ b_catalog_id b = cid) <->
     exists r c, role = Some r /\ catalog_entry c db /\ rc_role c = r /\ rc_catalog_id c = cid).
Lemma grants_no_role m o db : grants_role m o None db [].
Proof.
  split; [by intros b ?%elem_of_nil|]. intros cid. split; [by intros (b & ?%elem_of_nil & _)|].
  by intros (r & c & ? & _).
Qed.

Lemma assigned_bindings m o role db db' now rows :
  role_permission_catalog db' = role_permission_catalog db ->
  user_role_bindings db' = update_ (binding_of m o) (binding_revoked now) (user_role_bindings db) ++ rows ->
  grants_role m o role db rows -> assigned m o role db db'.
Proof.
  intros Hc Hb [Hr Hcid]. split; [done|..]; unfold held; rewrite Hb.
  - intros cid. rewrite <- Hcid. split.
    + intros (b & [(b0 & Hin & ->)%elem_of_update|Hin]%elem_of_app & HP & Hi); [|by exists b].
      destruct (binding_of m o b0) eqn:E0; [|congruence].
      unfold binding_of, binding_revoked in HP. cbn in HP. by rewrite andb_false_r in HP.
    + intros (b & Hin & Hi). exists b. split_and!; [apply elem_of_app; by right|by apply Hr|done].
  - intros u o' cid Hne.
    assert (Hno : forall b, binding_of m o b = true -> binding_of u o' b = false).
    { intros b (Hu & Ho & _)%binding_of_user. destruct (binding_of u o' b) eqn:E1; [|done].
      apply binding_of_user in E1 as (? & ? & _). congruence. }
    split.
    + intros (b & [(b0 & Hin & ->)%elem_of_update|Hin]%elem_of_app & HP & Hi).
      * destruct (binding_of m o b0) eqn:E0; [|by exists b0].
        unfold binding_of, binding_revoked in HP. cbn in HP. by rewrite andb_false_r in HP.
      * specialize (Hno _ (Hr _ Hin)). congruence.
    + intros (b & Hin & HP & Hi). exists b. split; [|done]. apply elem_of_app. left. apply elem_of_update.
      exists b. split; [done|]. destruct (binding_of m o b) eqn:E0; [|done]. rewrite (Hno _ E0) in HP. done.
Qed.
Lemma assigned_first_bindings m o role db db' rows : Roster db -> _roles m o db = [] ->
  role_permission_catalog db' = role_permission_catalog db ->
  user_role_bindings db' = user_role_bindings db ++ rows ->
  grants_role m o role db rows -> assigned m o role db db'.
Proof.
  intros I Hn Hc Hb Hg. apply (assigned_bindings _ _ _ _ _ 0 rows); [done| |done]. rewrite Hb, update_id; [done|].
  intros b Hin. destruct (binding_of m o b) eqn:Eb; [|done]. exfalso. apply (roster_no_roles _ _ _ I Hn (b_catalog_id b)).
  by exists b.
Qed.
End Roles.

(** ** Runs of the repository *)

Section Runs.
Context {R : Type} {E : Env}.
Implicit Types (w : World R) (u m o : UUID).

Lemma db_step_trans w1 w2 w3 : db_step w1 w2 -> db_step w2 w3 -> db_step w1 w3.
Proof. intros (? & ? & ?) (? & ? & ?). split_and!; congruence. Qed.

Definition with_bindings (rows : list UserRoleBinding) (db : Db) : Db := db <| user_role_bindings ::= fun t => t ++ rows |>.
Lemma with_bindings_nil db : with_bindings [] db = db.
Proof. unfold with_bindings. destruct db. cbn. by rewrite app_nil_r. Qed.
Lemma with_bindings_app r1 r2 db : with_bindings r2 (with_bindings r1 db) = with_bindings (r1 ++ r2) db.
Proof. unfold with_bindings. destruct db. cbn. by rewrite app_assoc. Qed.

Lemma workspace_audit_inr et c a oid md w x w' : workspace_audit et c a oid md w = (inr x, w') ->
  exists row, w_db w' = with_audit row (w_db w) /\ db_step w w'.
Proof.
  unfold workspace_audit, insert_audit. intros H. run_in H. apply add_row_inr in H as (_ & _ & ->). by eexists.
Qed.

Lemma insert_binding_inr u o g t c w x w' : insert_binding u o g t c w = (inr x, w') ->
  exists b, binding_of u o b = true /\ b_catalog_id b = rc_catalog_id c /\ b_granted_by_user_id b = g /\
    w_db w' = with_bindings [b] (w_db w) /\ db_step w w'.
Proof.
  unfold insert_binding. intros H. run_in H. apply add_row_inr in H as (_ & _ & ->).
  exists (MkBinding (uuid4 (w_seed w)) u o (rc_catalog_id c) g t None). split_and!; try done.
  unfold binding_of. cbn. by rewrite !eqb_refl.
Qed.

Lemma insert_bindings_inr u o g t l w x w' : for_ l (insert_binding u o g t) w = (inr x, w') ->
  exists rows, (forall b, b ∈ rows -> binding_of u o b = true) /\ List.map b_catalog_id rows = List.map rc_catalog_id l /\
    w_db w' = with_bindings rows (w_db w) /\ db_step w w'.
Proof.
  revert w. induction l as [|c l IH]; intros w H; cbn [for_] in H.
  - injection H as _ <-. exists []. split_and!; [by intros b ?%elem_of_nil|done|by rewrite with_bindings_nil|done].
  - step_in H y w1 H1. apply insert_binding_inr in H1 as (b & Hb & Hc & _ & Hdb & Hs). apply IH in H as (rows & Hr & Hm & Hdb' & Hs').
    exists (b :: rows). split_and!.
    + intros b' [->|Hin]%elem_of_cons; [done|]. by apply Hr.
    + cbn. by rewrite Hc, Hm.
    + by rewrite Hdb', Hdb, with_bindings_app.
    + by apply (db_step_trans _ w1).
Qed.

(** The bindings of a role are those of its catalog entries. *)
Lemma grants_of_catalog m o r db rows : (forall b, b ∈ rows -> binding_of m o b = true) ->
  List.map b_catalog_id rows = List.map rc_catalog_id (_catalog_for_role r db) -> grants_role m o (Some r) db rows.
Proof.
  intros Hr Hm. split; [done|]. intros cid. transitivity (cid ∈ List.map b_catalog_id rows); [by rewrite elem_of_map|].
  rewrite Hm, elem_of_map. setoid_rewrite elem_of_catalog_for_role. split.
  - intros (c & [Hc Hrc] & Hi). by exists r, c.
  - intros (r' & c & [= <-] & Hc & Hrc & Hi). by exists c.
Qed.
Lemma catalog_for_role_entry r db : _catalog_for_role r db <> [] -> exists c, catalog_entry c db /\ rc_role c = r.
Proof.
  destruct (_catalog_for_role r db) as [|c l] eqn:Ec; [done|]. intros _. exists c.
  apply elem_of_catalog_for_role. rewrite Ec. by left.
Qed.
End Runs.
