(* ===== verification/WorkspaceProps.v ===== *)
(** What the workspaces guarantee: the requests act on the roles as a role matrix prescribes, every
    organization keeps an owner, invitations are used once by their addressee, and a member who is
    offboarded loses the access it had. *)
From S2P Require Import Prelude PyText Entity Models RedisClient World Providers RedisSecurity Tokens.
From S2P Require Import WorkspaceRepo WorkspaceInv.
From S2P Require Workspace SessionRepo SessionInv SessionControl SessionControlProps RecoveryInv.
Import RecoveryInv(db_step, with_audit).

(** ** Runs of the repository *)

Section Runs.
Context {R : Type} {RC : RedisClient R} {E : Env}.
Implicit Types (w : World R) (u m o : UUID).

(** Sessions lose their organization one by one. *)
Definition with_sessions (l : list Session) (db : Db) : Db := db <| sessions := l |>.
(** [s'] is [s], or [s] without its organization. *)
Definition maybe_unscoped (s s' : Session) : Prop := s' = s \/ exists jti t, s' = unscoped jti t s.
Lemma unscope_inr l now w x w' :
  for_ l (fun s => jti ← new_uuid4; modify_db (SessionRepo.set_session (s_session_id s) (unscoped jti now))) w
    = (inr x, w') ->
  db_step w w' /\ exists ss, w_db w' = with_sessions ss (w_db w) /\
    forall s', s' ∈ ss -> exists s, s ∈ sessions (w_db w) /\ s_user_id s' = s_user_id s /\
      s_session_id s' = s_session_id s /\
      (s' = s \/ s_org_id s' = None) /\ (s_session_id s ∈ List.map s_session_id l -> s_org_id s' = None).
Proof.
  revert w. induction l as [|s l IH]; intros w H; cbn [for_] in H.
  - injection H as _ <-. split; [done|]. exists (sessions (w_db w)). split; [by destruct w as [[]]|].
    intros s' Hs. exists s'. split_and!; [done..|by left|by intros ?%elem_of_nil].
  - step_in H y w1 H1. run_in H1. injection H1 as _ <-. apply IH in H as [(? & ? & ?) (ss & Hdb & Hss)].
    split; [by split_and!|]. exists ss. split; [by rewrite Hdb|].
    intros s' (s1 & Hs1 & Hu & Hi & Hor & Hin)%Hss. cbn in Hs1. apply elem_of_update in Hs1 as (s0 & Hs0 & ->).
    exists s0. destruct (s_session_id s0 == s_session_id s) eqn:Eid; cbn in *; to_prop.
    + split_and!; [done..|right|intros _]; destruct Hor as [->|?]; done.
    + split_and!; [done..|]. intros [?|?]%elem_of_cons; [congruence|by apply Hin].
Qed.

Lemma offboard_inr a o m now c w x w' : offboard_member a o m now c w = (inr (Some x), w') ->
  let l := where_ (scoped_to m o) (sessions (w_db w)) in
  _has_permission a o "members.manage" (w_db w) = true /\ _roles m o (w_db w) <> [] /\
  last_owner m o (w_db w) = false /\ x = MkOffboardResult m (List.map s_access_jti l) /\ db_step w w' /\
  exists ss row, w_db w' = with_audit row (with_sessions ss
      (set_bindings (binding_of m o) (binding_revoked now) (w_db w))) /\
    forall s', s' ∈ ss -> exists s, s ∈ sessions (w_db w) /\ s_user_id s' = s_user_id s /\
      s_session_id s' = s_session_id s /\
      (s' = s \/ s_org_id s' = None) /\ (s_session_id s ∈ List.map s_session_id l -> s_org_id s' = None).
Proof.
  intros H l. unfold offboard_member in H. apply tx_inr in H. run_in H.
  destruct (_has_permission a o "members.manage" (w_db w)) eqn:Ep; cbn [negb] in H; [|by injection H].
  destruct (_roles m o (w_db w)) as [|r rs] eqn:Er; [by injection H|].
  destruct (last_owner m o (w_db w)) eqn:El; run_in H; [done|].
  step_in H y w1 H1. apply unscope_inr in H1 as [S1 (ss & Hdb & Hss)].
  step_in H z w2 H2. apply workspace_audit_inr in H2 as (row & Hdb2 & S2).
  injection H as <- <-.
  split_and!; try done; [by apply (db_step_trans _ w1)|]. exists ss, row. split; [by rewrite Hdb2, Hdb|done].
Qed.
Lemma offboard_none a o m now c w w' : offboard_member a o m now c w = (inr None, w') -> w' = w.
Proof.
  intros H. unfold offboard_member in H. apply tx_inr in H. run_in H.
  destruct (_has_permission a o "members.manage" (w_db w)); cbn [negb] in H; [|by injection H].
  destruct (_roles m o (w_db w)); [by injection H|].
  destruct (last_owner m o (w_db w)); run_in H; [done|].
  step_in H y w1 H1. step_in H z w2 H2. done.
Qed.

Lemma replace_inr a o m role now c w x w' : replace_member_role a o m role now c w = (inr (Some x), w') ->
  _has_permission a o "members.manage" (w_db w) = true /\ _roles m o (w_db w) <> [] /\
  (role <> OWNER -> last_owner m o (w_db w) = false) /\ _catalog_for_role (role_value role) (w_db w) <> [] /\
  exists rows row, grants_role m o (Some (role_value role)) (w_db w) rows /\
    w_db w' = with_audit row (with_bindings rows (set_bindings (binding_of m o) (binding_revoked now) (w_db w))) /\
    db_step w w'.
Proof.
  intros H. unfold replace_member_role in H. apply tx_inr in H. run_in H.
  destruct (_has_permission a o "members.manage" (w_db w)) eqn:Ep; cbn [negb] in H; [|by injection H].
  destruct (_roles m o (w_db w)) as [|r rs] eqn:Er; [by injection H|].
  destruct ((role != OWNER) && last_owner m o (w_db w)) eqn:El; run_in H; [done|].
  destruct (_catalog_for_role (role_value role) (w_db w)) as [|e es] eqn:Ec; [by injection H|]. run_in H.
  step_in H y w1 H1. apply insert_bindings_inr in H1 as (rows & Hr & Hm & Hdb & S1).
  destruct (account_by_id m (w_db w)) as [us|]; [|by injection H].
  step_in H z w2 H2. apply workspace_audit_inr in H2 as (row & Hdb2 & S2). injection H as <- <-.
  split_and!; [done..| | |].
  - intros Hne. rewrite (eqb_neq _ _ Hne) in El. done.
  - done.
  - exists rows, row. split_and!; [by apply grants_of_catalog; rewrite ?Ec|by rewrite Hdb2, Hdb|by apply (db_step_trans _ w1)].
Qed.
Lemma replace_none a o m role now c w w' : Roster (w_db w) ->
  replace_member_role a o m role now c w = (inr None, w') -> w' = w.
Proof.
  intros I H. unfold replace_member_role in H. apply tx_inr in H. run_in H.
  destruct (_has_permission a o "members.manage" (w_db w)); cbn [negb] in H; [|by injection H].
  destruct (_roles m o (w_db w)) as [|r rs] eqn:Er; [by injection H|].
  destruct (_ && last_owner m o (w_db w)); run_in H; [done|].
  destruct (_catalog_for_role _ _) as [|e es]; [by injection H|]. run_in H.
  step_in H y w1 H1.
  assert (Hr : r ∈ _roles m o (w_db w)) by (rewrite Er; by left).
  apply elem_of_roles in Hr as (k & _ & _ & Hh). apply (ro_user _ I) in Hh as [us Hus]. rewrite Hus in H.
  step_in H z w2 H2. done.
Qed.

(** An invitation a user may accept now, and what accepting it finds. *)
Record open_invitation (u : UUID) (th : string) (now : Time) (db : Db) (i : Invitation) (us : User)
    (role : OrganizationRole) : Prop := {
  oi_row : scalar (fun i => in_token_hash i == th) (invitations db) = Some i;
  oi_user : account_by_id u db = Some us;
  oi_acceptable : acceptable i us now = true;
  oi_role : grantable i = Some role;
  oi_new : _roles u (in_org_id i) db = [];
  oi_catalog : _catalog_for_role (role_value role) db <> [] }.
Lemma accept_inr u th now c w x w' : accept_organization_invitation u th now c w = (inr (Some x), w') ->
  exists i us role ws rows row, open_invitation u th now (w_db w) i us role /\
    org_by_id (in_org_id i) (w_db w) = Some ws /\ ws_workspace_id x = o_org_id ws /\ ws_roles x = [role_value role] /\
    grants_role u (in_org_id i) (Some (role_value role)) (w_db w) rows /\
    w_db w' = with_audit row (set_invitations (fun j => in_invitation_id j == in_invitation_id i)
      (invitation_accepted now) (with_bindings rows (w_db w))) /\ db_step w w'.
Proof.
  intros H. unfold accept_organization_invitation in H. apply tx_inr in H. run_in H.
  destruct (organization_invitation_org _ _ _) as [oid|]; [|by injection H].
  destruct (scalar _ (invitations (w_db w))) as [i|] eqn:Ei; [|by injection H].
  destruct (account_by_id u (w_db w)) as [us|] eqn:Eu; [|by injection H].
  destruct (acceptable i us now) eqn:Ea; cbn [negb] in H; [|by injection H].
  destruct (grantable i) as [role|] eqn:Eg; [|by injection H].
  destruct (_roles u (in_org_id i) (w_db w)) as [|r rs] eqn:Er; [|by injection H].
  destruct (_catalog_for_role (role_value role) (w_db w)) as [|e es] eqn:Ec; [by injection H|].
  step_in H y w1 H1. apply insert_bindings_inr in H1 as (rows & Hr & Hm & Hdb & S1). run_in H.
  destruct (org_by_id (in_org_id i) (w_db w)) as [ws|] eqn:Eo; [|by injection H].
  step_in H z w2 H2. apply workspace_audit_inr in H2 as (row & Hdb2 & S2).
  step_in H sm w3 H3. unfold _workspace_summary in H3. destruct (WorkspaceType_of _) as [ty|]; run_in H3; [|done].
  injection H3 as <- <-. injection H as <- <-.
  exists i, us, role, ws, rows, row. split_and!; try done; try congruence.
  - split; try done. by rewrite Ec.
  - by apply grants_of_catalog; rewrite ?Ec.
  - rewrite Hdb2. cbn [with_db w_db set]. by rewrite Hdb.
  - by apply (db_step_trans _ w1).
Qed.
Lemma accept_none u th now c w w' : Roster (w_db w) ->
  accept_organization_invitation u th now c w = (inr None, w') -> w' = w.
Proof.
  intros I H. unfold accept_organization_invitation in H. apply tx_inr in H. run_in H.
  destruct (organization_invitation_org _ _ _) as [oid|]; [|by injection H].
  destruct (scalar _ (invitations (w_db w))) as [i|] eqn:Ei; [|by injection H].
  destruct (account_by_id u (w_db w)) as [us|]; [|by injection H].
  destruct (acceptable i us now); cbn [negb] in H; [|by injection H].
  destruct (grantable i) as [role|]; [|by injection H].
  destruct (_roles u (in_org_id i) (w_db w)); [|by injection H].
  destruct (_catalog_for_role _ _) as [|e es]; [by injection H|].
  step_in H y w1 H1. run_in H. apply scalar_Some in Ei as [Hin _]. apply (ro_invited _ I) in Hin as (x & Hx & Ho).
  destruct (org_by_id (in_org_id i) (w_db w)) as [ws|] eqn:Eo.
  - step_in H z w2 H2. step_in H sm w3 H3. done.
  - unfold org_by_id in Eo. pose proof (scalar_None _ _ _ Eo Hx) as Hf. cbn in Hf. rewrite Ho, eqb_refl in Hf. done.
Qed.

Lemma create_organization_inr u name slug c w x w' : create_organization u name slug c w = (inr x, w') ->
  exists us rows row, let o := uuid4 (w_seed w) in
    let org := MkOrganization o name slug "organization" None "active" [] in
    account_by_id u (w_db w) = Some us /\ u_state us = "active" /\ ws_workspace_id x = o /\ ws_roles x = ["OWNER"] /\
    organization_conflict (organizations (w_db w)) org = false /\ _catalog_for_role "OWNER" (w_db w) <> [] /\
    grants_role u o (Some "OWNER") (w_db w) rows /\
    w_db w' = with_audit row (with_bindings rows ((w_db w) <| organizations ::= fun t => t ++ [org] |>)) /\
    db_step w w'.
Proof.
  intros H. unfold create_organization in H. apply tx_inr in H. run_in H.
  destruct (account_by_id u (w_db w)) as [us|] eqn:Eu; run_in H; [|done].
  destruct (u_state us != "active") eqn:Es; run_in H; [done|].
  destruct (_catalog_for_role "OWNER" (w_db w)) as [|e es] eqn:Ec; run_in H; [done|].
  step_in H z w1 H1. apply add_row_inr in H1 as (_ & Hc & Hw1).
  assert (Hs1 : w_db w1 = (w_db w) <| organizations ::= fun t => t ++ [MkOrganization (uuid4 (w_seed w)) name slug
    "organization" None "active" []] |> /\ db_step w w1) by (subst w1; done). clear Hw1. destruct Hs1 as [Hdb1 S1].
  run_in H. step_in H y w2 H2. apply insert_bindings_inr in H2 as (rows & Hr & Hm & Hdb & S2).
  step_in H y2 w3 H3. apply workspace_audit_inr in H3 as (row & Hdb2 & S3).
  unfold _workspace_summary in H. run_in H. injection H as <- <-. to_prop.
  exists us, rows, row. split_and!; try done; try congruence.
  - apply grants_of_catalog; [done|]. by rewrite Hm, Ec.
  - apply (db_step_trans _ w2); [by apply (db_step_trans _ w1)|done].
Qed.
End Runs.

(** ** Runs of the control *)

Section Control.
Context {R : Type} {RC : RedisClient R} {E : Env}.
Implicit Types (w : World R) (u m o : UUID).

(** The keyspace after the access of a member to an organization was revoked. *)
Definition org_revoked_keys u o now (jtis : list UUID) (r : R) : R :=
  List.fold_left (fun r jti => r_set now (name (access_revocation jti SessionControl.ACCESS_TTL_SECONDS)) (RText "1")
      SessionControl.ACCESS_TTL_SECONDS r) jtis
    (r_set now (name (organization_revocation u o)) (RInt (timestamp now))
       USER_REVOCATION_TTL_SECONDS r).
Lemma run_revoke_jtis jtis w :
  for_ jtis (fun jti => revoke_access_token jti SessionControl.ACCESS_TTL_SECONDS) w
  = (inr (), with_redis (List.fold_left (fun r jti =>
      r_set (w_now w) (name (access_revocation jti SessionControl.ACCESS_TTL_SECONDS)) (RText "1")
        SessionControl.ACCESS_TTL_SECONDS r) jtis (w_redis w)) w).
Proof.
  revert w. induction jtis as [|j l IH]; intros w; cbn [for_ List.fold_left]; [by destruct w|].
  rewrite (run_bind _ _ _ _ _ (SessionControlProps.run_revoke_access _ _)), IH. by destruct w.
Qed.
Lemma run_revoke_org u o t w : revoke_organization u o t w
  = (inr (), with_redis (r_set (w_now w) (name (organization_revocation u o)) (RInt (timestamp t))
                           USER_REVOCATION_TTL_SECONDS (w_redis w)) w).
Proof. unfold revoke_organization. by rewrite run_redis_set. Qed.
Lemma run_revoke_organization_access u o jtis w :
  SessionControl.revoke_organization_access u o jtis w
  = (inr (), with_redis (org_revoked_keys u o (w_now w) jtis (w_redis w)) w).
Proof.
  unfold SessionControl.revoke_organization_access. run.
  rewrite (run_bind _ _ _ _ _ (run_revoke_org _ _ _ _)), run_revoke_jtis. by destruct w.
Qed.

Lemma or_last_owner_cases {A} (p : prog R (option A)) w x w' :
  Workspace.or_last_owner (tx p) w = (x, w') ->
  (exists a, x = inr a /\ tx p w = (inr a, w')) \/ (exists e, x = inl e /\ w_db w' = w_db w).
Proof.
  unfold Workspace.or_last_owner, try_except. destruct (tx p w) as [[e|a] w1] eqn:Et.
  - apply tx_inl in Et. intros H. right.
    destruct e; unfold raise in H; injection H as <- <-; eauto.
  - intros [= <- <-]. left. eauto.
Qed.

(** A request either succeeded in the repository or left the database as it was. *)
Lemma offboard_cases a o m c w x w' : Roster (w_db w) -> Workspace.offboard_member a o m c w = (x, w') ->
  (exists r w1, x = inr () /\ offboard_member a o m (w_now w) c w = (inr (Some r), w1) /\
     w' = with_redis (org_revoked_keys m o (w_now w) (or_revoked_access_jtis r) (w_redis w)) w1) \/
  (exists e, x = inl e /\ w_db w' = w_db w).
Proof.
  intros I H. unfold Workspace.offboard_member in H. run_in H.
  apply bind_any in H as [(e & H1 & ->)|(r & w1 & H1 & H)].
  - apply or_last_owner_cases in H1 as [(a' & ? & _)|(e' & [= <-] & Hdb)]; [done|]. eauto.
  - apply or_last_owner_cases in H1 as [(a' & [= <-] & Ht)|(e' & ? & _)]; [|done]. change (tx _ w) with (offboard_member a o m (w_now w) c w) in Ht.
    destruct r as [r|]; run_in H.
    + pose proof Ht as (_ & _ & _ & -> & (Hn & Hr & _) & _)%offboard_inr.
      rewrite run_revoke_organization_access in H. injection H as <- <-. left. do 2 eexists. split_and!; [done..|].
      by rewrite Hn, Hr.
    + injection H as <- <-. apply offboard_none in Ht as ->. eauto.
Qed.
Lemma replace_cases a o m role c w x w' : Roster (w_db w) ->
  Workspace.replace_member_role a o m role c w = (x, w') ->
  (exists r, x = inr r /\ replace_member_role a o m role (w_now w) c w = (inr (Some r), w')) \/
  (exists e, x = inl e /\ w_db w' = w_db w).
Proof.
  intros I H. unfold Workspace.replace_member_role in H. run_in H.
  apply bind_any in H as [(e & H1 & ->)|(r & w1 & H1 & H)].
  - apply or_last_owner_cases in H1 as [(a' & ? & _)|(e' & [= <-] & Hdb)]; [done|]. eauto.
  - apply or_last_owner_cases in H1 as [(a' & [= <-] & Ht)|(e' & ? & _)]; [|done].
    change (tx _ w) with (replace_member_role a o m role (w_now w) c w) in Ht. destruct r as [r|].
    + injection H as <- <-. eauto.
    + injection H as <- <-. apply (replace_none _ _ _ _ _ _ _ _ I) in Ht as ->. eauto.
Qed.
Lemma accept_cases u token c w x w' : Roster (w_db w) ->
  Workspace.accept_organization_invitation u token c w = (x, w') ->
  (exists r w1, x = inr r /\
     accept_organization_invitation u (Workspace._token_hash token) (w_now w) c w = (inr (Some r), w1) /\
     w' = with_redis (r_del (name (organization_revocation u (ws_workspace_id r))) (w_redis w)) w1) \/
  (exists e, x = inl e /\ w_db w' = w_db w).
Proof.
  intros I H. unfold Workspace.accept_organization_invitation in H. run_in H.
  apply bind_any in H as [(e & H1 & ->)|(r & w1 & H1 & H)].
  - right. exists e. split; [done|]. unfold accept_organization_invitation in H1. by apply tx_inl in H1.
  - destruct r as [r|]; run_in H.
    + pose proof H1 as (i & us & role & ws & rows & row & _ & _ & _ & _ & _ & _ & (_ & Hr & _))%accept_inr.
      injection H as <- <-. left. exists r, w1. split_and!; [done..|]. by rewrite Hr.
    + injection H as <- <-. apply (accept_none _ _ _ _ _ _ I) in H1 as ->. eauto.
Qed.
Lemma create_cases u name c w x w' : Workspace.create_organization u name c w = (x, w') ->
  (exists r slug, x = inr r /\
     create_organization u (Workspace.normalized_name name) slug c (next_seed w) = (inr r, w')) \/
  (exists e, x = inl e /\ w_db w' = w_db w).
Proof.
  intros H. unfold Workspace.create_organization in H.
  destruct (String.length (Workspace.normalized_name name) <? 2)%nat; run_in H.
  - injection H as <- <-. eauto.
  - destruct x as [e|r]; [right|left; eauto]. exists e. split; [done|]. unfold create_organization in H.
    by apply tx_inl in H.
Qed.
End Control.

(** ** The specification: a role matrix *)

Inductive Request :=
| ListWorkspaces (user_id : UUID)
| CreateOrganization (user_id : UUID) (name : string) (correlation_id : UUID)
| InviteReferral (user_id : UUID) (email : string) (correlation_id : UUID)
| ListReferrals (user_id : UUID)
| InviteMember (actor org : UUID) (email : string) (role : OrganizationRole) (correlation_id : UUID)
| AcceptInvitation (user_id : UUID) (token : string) (correlation_id : UUID)
| ListMembers (actor org : UUID)
| ReplaceMemberRole (actor org member : UUID) (role : OrganizationRole) (correlation_id : UUID)
| OffboardMember (actor org member correlation_id : UUID)
| SwitchWorkspace (claims : AccessClaims) (org correlation_id : UUID).

Definition assign (o u : UUID) (roles : list string) (mx : UUID -> UUID -> list string) : UUID -> UUID -> list string :=
  fun o' u' => if (o' == o) && (u' == u) then roles else mx o' u'.

(** What a request that succeeds may do to the roles. *)
Inductive role_step (mx : UUID -> UUID -> list string) : Request -> (UUID -> UUID -> list string) -> Prop :=
| step_create u name c o : (forall v, mx o v = []) ->
    role_step mx (CreateOrganization u name c) (assign o u ["OWNER"] mx)
| step_accept u token c o role : role ∈ [MEMBER; VIEWER] -> mx o u = [] ->
    role_step mx (AcceptInvitation u token c) (assign o u [role_value role] mx)
| step_replace a o m role c : "OWNER" ∈ mx o a -> mx o m <> [] -> (role <> OWNER -> ~ sole_owner mx o m) ->
    role_step mx (ReplaceMemberRole a o m role c) (assign o m [role_value role] mx)
| step_offboard a o m c : "OWNER" ∈ mx o a -> mx o m <> [] -> ~ sole_owner mx o m ->
    role_step mx (OffboardMember a o m c) (assign o m [] mx)
| step_other q : match q with
                 | CreateOrganization _ _ _ | AcceptInvitation _ _ _ | ReplaceMemberRole _ _ _ _ _
                 | OffboardMember _ _ _ _ => False
                 | _ => True
                 end -> role_step mx q mx.

Section Serve.
Context {R : Type} {RC : RedisClient R} {E : Env}.
Implicit Types (w : World R) (u m o : UUID).

(** The answer to a request, but for its value. *)
Definition done_ {A} (p : prog R A) : prog R unit := _ ← p; mret ().
Definition serve (q : Request) : prog R unit :=
  match q with
  | ListWorkspaces u => done_ (Workspace.list_workspaces u)
  | CreateOrganization u name c => done_ (Workspace.create_organization u name c)
  | InviteReferral u email c => done_ (Workspace.invite_referral u email c)
  | ListReferrals u => done_ (Workspace.list_referrals u)
  | InviteMember a o email role c => done_ (Workspace.invite_organization_member a o email role c)
  | AcceptInvitation u token c => done_ (Workspace.accept_organization_invitation u token c)
  | ListMembers a o => done_ (Workspace.list_members a o)
  | ReplaceMemberRole a o m role c => done_ (Workspace.replace_member_role a o m role c)
  | OffboardMember a o m c => Workspace.offboard_member a o m c
  | SwitchWorkspace claims o c => done_ (Workspace.switch_workspace claims o c)
  end.
Lemma done_cases {A} (p : prog R A) w x w' : done_ p w = (x, w') ->
  exists y, p w = (y, w') /\ x = match y with inl e => inl e | inr _ => inr () end.
Proof.
  unfold done_. intros [(e & H & ->)|(a & w1 & H & H1)]%bind_any; [by exists (inl e)|].
  injection H1 as <- <-. by exists (inr a).
Qed.

(** The roles are those of a matrix, and the invariant holds. *)
Definition Kept mx (db : Db) : Prop := Roster db /\ forall o u, matrix db o u = mx o u.
Lemma kept_frame mx db db' : Kept mx db -> role_permission_catalog db' = role_permission_catalog db ->
  user_role_bindings db' = user_role_bindings db -> users db' = users db ->
  (forall x, x ∈ organizations db -> x ∈ organizations db') ->
  (forall x, x ∈ organizations db' -> x ∈ organizations db \/ o_workspace_type x = "personal") ->
  (forall i, i ∈ invitations db' -> exists x, x ∈ organizations db /\ o_org_id x = in_org_id i) -> Kept mx db'.
Proof.
  intros [I Hm] Hc Hb Hu Ho Hn Hi. destruct (roster_frame db db' I Hc Hb Hu Ho Hn Hi) as [I' Hm'].
  split; [done|]. intros. by rewrite Hm'.
Qed.
Lemma kept_same mx db db' : Kept mx db -> role_permission_catalog db' = role_permission_catalog db ->
  user_role_bindings db' = user_role_bindings db -> users db' = users db ->
  organizations db' = organizations db -> invitations db' = invitations db -> Kept mx db'.
Proof.
  intros K Hc Hb Hu Ho Hi. apply (kept_frame _ _ _ K); try done; rewrite ?Ho, ?Hi; [done|by left|]. apply (ro_invited _ (proj1 K)).
Qed.
Lemma kept_revoke_invitations mx P db : Kept mx db -> Kept mx (set_invitations P invitation_revoked db).
Proof.
  intros K. apply (kept_frame _ _ _ K); try done; [by left|].
  intros i (i0 & Hi & ->)%elem_of_update. apply (ro_invited _ (proj1 K)) in Hi. by destruct (P i0).
Qed.
Lemma keeps_send_kept mx message : keeps (on_db (Kept mx)) (_send (R := R) message).
Proof. apply keeps_send_db. Qed.

Ltac keeps_kept := keeps_all; try apply keeps_modify_db; try apply keeps_add_row; intros;
  first [by apply kept_revoke_invitations|by eapply kept_same|idtac].

Lemma org_by_id_Some o db x : org_by_id o db = Some x -> x ∈ organizations db /\ o_org_id x = o.
Proof. intros [Hin H]%scalar_Some. by to_prop. Qed.
Lemma keeps_create_invitation mx a o email role th t c :
  keeps (on_db (Kept mx)) (create_organization_invitation (R := R) a o email role th t c).
Proof.
  apply keeps_commit. intros w x w' K H. run_in H.
  destruct (manages a o (w_db w)) eqn:Em; cbn [negb] in H; [|by injection H as _ <-].
  destruct (already_member _ _ _); [by injection H as _ <-|]. run_in H.
  step_in H z w1 H1. apply add_row_inr in H1 as (_ & _ & Hw1). step_in H z2 w2 H2.
  apply workspace_audit_inr in H2 as (row & Hdb & _). step_in H rec w3 H3. injection H as _ <-.
  assert (Hw3 : w3 = w2). { revert H3. unfold _invitation_record. destruct (OrganizationRole_of _); run; by intros [= _ <-]. }
  rewrite Hw3, Hdb, Hw1.
  pose proof (kept_revoke_invitations mx (pending_for o (normalize_email email)) _ K) as K1.
  apply (kept_frame _ _ _ K1); try done; [by left|].
  intros i [Hi| ->]%elem_of_snoc; [by apply (ro_invited _ (proj1 K1))|]. cbn.
  unfold manages in Em. destruct (org_by_id o (w_db w)) as [y|] eqn:Eo; [|done]. apply org_by_id_Some in Eo as [? ?]. by exists y.
Qed.
Lemma keeps_ensure mx u : keeps (on_db (Kept mx)) (ensure_personal_workspace (R := R) u).
Proof.
  keeps_kept. intros. apply (kept_frame mx db); try done.
  - intros x Hx. apply elem_of_snoc. by left.
  - intros x [Hx| ->]%elem_of_snoc; [by left|by right].
  - apply (ro_invited _ (proj1 ltac:(eassumption))).
Qed.
#[local] Hint Resolve keeps_create_invitation keeps_ensure : auth.

Definition changes_roles (q : Request) : bool :=
  match q with
  | CreateOrganization _ _ _ | AcceptInvitation _ _ _ | ReplaceMemberRole _ _ _ _ _ | OffboardMember _ _ _ _ => true
  | _ => false
  end.
Lemma keeps_other mx q : changes_roles q = false -> keeps (on_db (Kept mx)) (serve q).
Proof.
  destruct q; try done; intros _; cbn [serve]; unfold done_; keeps_kept; simplify_eq; keeps_kept.
Qed.

(** *** The requests that change roles *)

Definition refined q (x : exc + unit) (db db' : Db) : Prop :=
  Roster db' /\
  match x with
  | inr _ => exists mx, role_step (matrix db) q mx /\ forall o u, matrix db' o u = mx o u
  | inl _ => forall o u, matrix db' o u = matrix db o u
  end.
Lemma refined_error q e db db' : Roster db -> db' = db -> refined q (inl e) db db'.
Proof. intros I ->. by split. Qed.

Lemma assign_eq o u l mx : assign o u l mx o u = l.
Proof. unfold assign. by rewrite !eqb_refl. Qed.
Lemma assign_ne o u l mx o' u' : (u', o') <> (u, o) -> assign o u l mx o' u' = mx o' u'.
Proof.
  intros H. unfold assign. destruct (o' == o) eqn:E1, (u' == u) eqn:E2; try done. to_prop. congruence.
Qed.
(** The matrix after a change of role. *)
Lemma assigned_matrix m o role roles db db' : Roster db -> assigned m o role db db' ->
  match role with
  | Some r => roles = [r] /\ exists c, catalog_entry c db /\ rc_role c = r
  | None => roles = []
  end -> forall o' u, matrix db' o' u = assign o m roles (matrix db) o' u.
Proof.
  intros I A Hr o' u. destruct (decide ((u, o') = (m, o))) as [Heq|Hne].
  - injection Heq as -> ->. rewrite assign_eq. destruct role as [r|].
    + destruct Hr as [-> Hc]. by apply (assigned_member_some _ _ _ _ _ I A).
    + rewrite Hr. by apply (assigned_member_none _ _ _ _ _ I A).
  - rewrite assign_ne by done. by apply (assigned_others_eq _ _ _ _ _ I A).
Qed.
(** Organizations keep an owner when the sole owner of one does not lose the role. *)
Lemma owners_after m o roles db (x : UUID) : "OWNER" ∈ roles \/ ~ sole_owner (matrix db) o m ->
  (exists u, "OWNER" ∈ matrix db x u) -> exists u, "OWNER" ∈ assign o m roles (matrix db) x u.
Proof.
  intros Hor [u Hu]. destruct (decide ((u, x) = (m, o))) as [Heq|Hne]; [|exists u; by rewrite assign_ne].
  injection Heq as -> ->. destruct Hor as [Hin|Hns]; [exists m; by rewrite assign_eq|].
  destruct (decide (Exists (fun v => v <> m) (owners o db))) as [He|He].
  - apply list.Exists_exists in He as (v & Hv & Hne). exists v. rewrite assign_ne by congruence. by apply elem_of_owners.
  - destruct Hns. split; [done|]. intros v Hv. apply elem_of_owners in Hv. destruct (decide (v = m)); [done|].
    destruct He. apply list.Exists_exists. eauto.
Qed.

Lemma refined_assign q m o role roles db db' : Roster db -> assigned m o role db db' ->
  match role with
  | Some r => roles = [r] /\ exists c, catalog_entry c db /\ rc_role c = r
  | None => roles = []
  end ->
  role_step (matrix db) q (assign o m roles (matrix db)) ->
  users db' = users db ->
  (forall i, i ∈ invitations db' -> exists i0, i0 ∈ invitations db /\ in_org_id i = in_org_id i0) ->
  (is_Some role -> is_Some (account_by_id m db) /\ exists x, x ∈ organizations db' /\ o_org_id x = o) ->
  (forall x, x ∈ organizations db -> x ∈ organizations db') ->
  (forall x, x ∈ organizations db' -> x ∈ organizations db \/ ("OWNER" ∈ roles /\ o_org_id x = o)) ->
  "OWNER" ∈ roles \/ ~ sole_owner (matrix db) o m -> refined q (inr ()) db db'.
Proof.
  intros I A Hr Hstep Hu Hi Hnew Hsub Hback Hown. pose proof (assigned_matrix _ _ _ _ _ _ I A Hr) as Hm. split.
  - apply (roster_assigned _ _ _ _ _ I A Hu Hsub Hi Hnew). setoid_rewrite Hm. intros x Hx Ht.
    apply Hback in Hx as [Hx|[Ho Hid]]; [|exists m; by rewrite Hid, assign_eq].
    apply owners_after; [done|]. by apply (ro_owned _ I).
  - by exists (assign o m roles (matrix db)).
Qed.

Lemma offboard_refined a o m c w x w' : Roster (w_db w) -> Workspace.offboard_member a o m c w = (x, w') ->
  refined (OffboardMember a o m c) x (w_db w) (w_db w').
Proof.
  intros I H. destruct (offboard_cases _ _ _ _ _ _ _ I H) as [(r & w1 & -> & Ho & Hw)|(e & -> & Hdb)]; [|by apply refined_error].
  apply offboard_inr in Ho as (Hp & Hr & Hl & _ & _ & ss & row & Hdb & _). subst w'. cbn [with_redis w_db set]. rewrite Hdb.
  assert (Hns : ~ sole_owner (matrix (w_db w)) o m) by (rewrite <- last_owner_sole; by rewrite Hl).
  apply (refined_assign _ m o None []); try done; [| | |by left|by right].
  - apply (assigned_bindings _ _ _ _ _ (w_now w) []); [done|by rewrite app_nil_r|apply grants_no_role].
  - constructor; [by apply roster_manages|done|done].
  - intros i Hi. by exists i.
Qed.
Lemma replace_refined a o m role c w x w' : Roster (w_db w) ->
  Workspace.replace_member_role a o m role c w = (x, w') ->
  refined (ReplaceMemberRole a o m role c) (match x with inl e => inl e | inr _ => inr () end) (w_db w) (w_db w').
Proof.
  intros I H. destruct (replace_cases _ _ _ _ _ _ _ _ I H) as [(r & -> & Ho)|(e & -> & Hdb)]; [|by apply refined_error].
  apply replace_inr in Ho as (Hp & Hr & Hl & Hc & rows & row & Hg & Hdb & _). rewrite Hdb.
  assert (Hns : role <> OWNER -> ~ sole_owner (matrix (w_db w)) o m)
    by (intros Hne; rewrite <- last_owner_sole; by rewrite Hl).
  assert (Hh : exists cid, held m o cid (w_db w)).
  { destruct (_roles m o (w_db w)) as [|s l] eqn:Er; [done|]. assert (Hs : s ∈ _roles m o (w_db w)) by (rewrite Er; by left).
    apply elem_of_roles in Hs as (k & _ & _ & Hh). by eexists. }
  destruct Hh as [cid Hh].
  apply (refined_assign _ m o (Some (role_value role)) [role_value role]); try done.
  - by apply (assigned_bindings _ _ _ _ _ (w_now w) rows).
  - split; [done|]. by apply catalog_for_role_entry.
  - constructor; [by apply roster_manages|done|done].
  - intros i Hi. by exists i.
  - intros _. split; [by apply (ro_user _ I) in Hh|by apply (ro_org _ I) in Hh].
  - by left.
  - destruct role; [by left; left|right; by apply Hns..].
Qed.
Lemma accept_refined u token c w x w' : Roster (w_db w) ->
  Workspace.accept_organization_invitation u token c w = (x, w') ->
  refined (AcceptInvitation u token c) (match x with inl e => inl e | inr _ => inr () end) (w_db w) (w_db w').
Proof.
  intros I H. destruct (accept_cases _ _ _ _ _ _ I H) as [(r & w1 & -> & Ho & Hw)|(e & -> & Hdb)]; [|by apply refined_error].
  apply accept_inr in Ho as (i & us & role & ws & rows & row & [Hi Hu Ha Hg Hn Hc] & Hws & _ & _ & Hgr & Hdb & _).
  subst w'. cbn [with_redis w_db set]. rewrite Hdb. apply org_by_id_Some in Hws as [Hws Hid].
  apply bind_Some in Hg as (role' & Hof & Hg). destruct (role' is_in _) eqn:Ein; [|done]. injection Hg as ->. to_prop.
  apply (refined_assign _ u (in_org_id i) (Some (role_value role)) [role_value role]); try done.
  - by apply (assigned_first_bindings _ _ _ _ _ rows).
  - split; [done|]. by apply catalog_for_role_entry.
  - by constructor.
  - intros j (j0 & Hj & ->)%elem_of_update. exists j0. split; [done|]. by destruct (in_invitation_id j0 == _).
  - intros _. split; [by exists us|by exists ws].
  - by left.
  - right. intros [Ho _]. unfold matrix in Ho. rewrite Hn in Ho. by apply elem_of_nil in Ho.
Qed.
Lemma fresh_org o db org : Roster db -> o_org_id org = o -> organization_conflict (organizations db) org = false ->
  (forall x, x ∈ organizations db -> o_org_id x <> o) /\ forall v, _roles v o db = [].
Proof.
  intros I <- Hc.
  assert (Hno : forall x, x ∈ organizations db -> o_org_id x <> o_org_id org).
  { intros x Hx He. pose proof (proj1 (row_exists_false _ _) Hc x Hx) as Hf. cbn in Hf. clear Hc. rename Hf into Hc. rewrite He, eqb_refl in Hc. done. }
  split; [done|]. intros v. apply roles_nil. intros s Hs. apply elem_of_roles in Hs as (c & _ & _ & Hh).
  apply (ro_org _ I) in Hh as (x & Hx & He). by apply (Hno x).
Qed.
Lemma create_refined u name c w x w' : Roster (w_db w) -> Workspace.create_organization u name c w = (x, w') ->
  refined (CreateOrganization u name c) (match x with inl e => inl e | inr _ => inr () end) (w_db w) (w_db w').
Proof.
  intros I H. destruct (create_cases _ _ _ _ _ _ H) as [(r & slug & -> & Ho)|(e & -> & Hdb)]; [|by apply refined_error].
  apply create_organization_inr in Ho as (us & rows & row & Hu & _ & _ & _ & Hc & Hcat & Hg & Hdb & _). rewrite Hdb.
  cbn [next_seed w_db w_seed set] in *. set (o := uuid4 _) in *.
  destruct ((fun He => fresh_org o _ _ I He Hc) eq_refl) as [Hno Hn].
  apply (refined_assign _ u o (Some "OWNER") ["OWNER"]); try done.
  - by apply (assigned_first_bindings _ _ _ _ _ rows).
  - split; [done|]. by apply catalog_for_role_entry.
  - by constructor.
  - intros i Hi. by exists i.
  - intros _. split; [by exists us|]. eexists. split; [apply elem_of_snoc; by right|done].
  - intros y Hy. apply elem_of_snoc. by left.
  - intros y [Hy| ->]%elem_of_snoc; [by left|]. right. split; [by left|done].
  - left. by left.
Qed.

Lemma serve_refined q w x w' : Roster (w_db w) -> serve q w = (x, w') -> refined q x (w_db w) (w_db w').
Proof.
  intros I H. destruct (changes_roles q) eqn:Eq.
  - destruct q; try done; cbn [serve] in H;
      [apply done_cases in H as (y & H & ->)..|]; [by eapply create_refined|by eapply accept_refined
      |by eapply replace_refined|by eapply offboard_refined].
  - pose proof (keeps_other (matrix (w_db w)) q Eq w (conj I (fun _ _ => eq_refl))) as [I' Hm]. rewrite H in I', Hm.
    split; [done|]. destruct x; [done|]. exists (matrix (w_db w)). split; [|done]. constructor. by destruct q.
Qed.
Lemma keeps_roster q : keeps (on_db Roster) (serve q).
Proof. intros w I. destruct (serve q w) as [x w'] eqn:H. by apply (serve_refined q w x w' I) in H as [? _]. Qed.
End Serve.

(** ** Properties *)

Section Properties.
Context {R : Type} {RC : RedisClient R} {E : Env}.
Implicit Types (w : World R) (u m o : UUID).

(** C21: The requests on workspaces refine the role matrix.  From role tables that satisfy the
    invariant, every request leads to role tables that satisfy it; when it succeeds, the roles [_roles]
    reports for every organization and member change by a step the matrix allows for that request; when it
    fails, no role of anybody changes, whatever the failure was. *)
Theorem requests_refine_role_matrix q w x w' : Roster (w_db w) -> serve q w = (x, w') ->
  Roster (w_db w') /\
  match x with
  | inr _ => exists mx, role_step (matrix (w_db w)) q mx /\ forall o u, matrix (w_db w') o u = mx o u
  | inl _ => forall o u, matrix (w_db w') o u = matrix (w_db w) o u
  end.
Proof. apply serve_refined. Qed.

(** No sequence of requests leaves an organization without an owner: whoever asks for what and in
    which order, every organization has afterwards an account with the role OWNER and with the
    permission to manage members, and the count the guard of the last owner reads is not zero. *)
Theorem organizations_keep_an_owner requests w x : Roster (w_db w) ->
  x ∈ organizations (w_db (run_at serve requests w).2) -> o_workspace_type x = "organization" ->
  exists u, "OWNER" ∈ _roles u (o_org_id x) (w_db (run_at serve requests w).2) /\
    _has_permission u (o_org_id x) "members.manage" (w_db (run_at serve requests w).2) = true /\
    (1 <= _owner_count (o_org_id x) (w_db (run_at serve requests w).2))%nat.
Proof.
  intros I Hx Ht. assert (I' : Roster (w_db (run_at serve requests w).2))
    by (apply keeps_run_at; [intros; apply keeps_roster|done]).
  destruct (ro_owned _ I' x Hx Ht) as [u Hu]. exists u. split_and!; [done|by apply roster_manages|].
  apply elem_of_owners in Hu. unfold _owner_count. destruct (owners _ _); [by apply elem_of_nil in Hu|cbn; lia].
Qed.

Lemma org_key_kept t o u now jtis (r : R) :
  r_get t (name (organization_revocation u o)) (org_revoked_keys u o now jtis r)
  = if t <? now + seconds USER_REVOCATION_TTL_SECONDS then Some (RInt (timestamp now)) else None.
Proof.
  unfold org_revoked_keys. rewrite <- (r_get_set_eq now t (name (organization_revocation u o)) _ _ r).
  generalize (r_set now (name (organization_revocation u o)) (RInt (timestamp now)) USER_REVOCATION_TTL_SECONDS r).
  induction jtis as [|j l IH]; intros r0; cbn [List.fold_left]; [done|]. rewrite IH, r_get_set_ne; [done|].
  by apply (key_kind_ne (S_organization_revocation u o) (S_access_revocation j)).
Qed.

(** C22: A member who is offboarded loses the access it had: it has no role in the organization,
    the organization is no longer offered to it or opened for it, no live session of its is scoped to the
    organization, and for as long as Redis keeps the revocation every token it obtained for the
    organization before is refused. *)
Theorem offboarded_member_loses_access a o m c w w' : Roster (w_db w) ->
  Workspace.offboard_member a o m c w = (inr (), w') ->
  _roles m o (w_db w') = [] /\ user_has_org_membership o m (w_db w') = false /\
  (forall x t, org_by_id o (w_db w') = Some x -> o_workspace_type x <> "personal" ->
     get_workspace_access m o (at_time t w') = (inr None, at_time t w')) /\
  (forall s, s ∈ sessions (w_db w') -> s_user_id s = m -> s_org_id s = Some o -> s_revoked_at s <> None) /\
  forall t token k w2, ac_user_id k = m -> ac_workspace_id k = Some o -> ac_workspace_type k = Some "organization" ->
    ac_issued_at k <= fromtimestamp (timestamp (w_now w)) -> t < w_now w + seconds USER_REVOCATION_TTL_SECONDS ->
    SessionControl.authenticate token (at_time t w') <> (inr k, w2).
Proof.
  intros I H. pose proof (offboard_refined _ _ _ _ _ _ _ I H) as [I' (mx & Hst & Hm)].
  assert (Hr : _roles m o (w_db w') = []).
  { change (matrix (w_db w') o m = []). rewrite Hm. inversion Hst; subst; [apply assign_eq|done]. }
  destruct (offboard_cases _ _ _ _ _ _ _ I H) as [(r & w1 & _ & Ho & ->)|(e & ? & _)]; [|done].
  apply offboard_inr in Ho as (_ & _ & _ & Hres & (Hn1 & Hr1 & _) & ss & row & Hdb & Hss).
  cbn [with_redis w_db set] in Hr, I', Hm |- *. split_and!; [done| | | |].
  - apply row_exists_false. intros b Hb. destruct (_ && _) eqn:Eb; [|done]. to_prop. exfalso.
    apply (roster_no_roles _ _ _ I' Hr (b_catalog_id b)). exists b. split_and!; [done| |done]. unfold binding_of.
    match goal with H : b_revoked_at b = None |- _ => rewrite H end. subst. by rewrite !eqb_refl.
  - intros x t Hx Hp. unfold get_workspace_access. run. rewrite Hx. destruct (o_state x != "active"); [done|].
    rewrite eqb_neq by done. by rewrite Hr.
  - intros s' Hs Hu Horg Hrev. rewrite Hdb in Hs. apply Hss in Hs as (s & Hs & Hus & Hid & [->|Hnone] & Hin); [|congruence].
    rewrite Hin in Horg; [done|]. apply elem_of_map. exists s. split; [|done]. apply elem_of_where. split; [done|].
    unfold scoped_to. rewrite Hu, Horg, Hrev. by rewrite !eqb_refl.
  - intros t token k w2 Hu Hw Hty Hiat Ht Ha.
    apply SessionControlProps.authenticate_inr in Ha as (_ & _ & _ & _ & _ & _ & Horg).
    specialize (Horg o (timestamp (w_now w)) Hw Hty). rewrite Hu in Horg. cbn [at_time with_redis w_now w_redis set] in Horg.
    rewrite org_key_kept, (proj2 (Z.ltb_lt _ _) Ht) in Horg. specialize (Horg eq_refl). lia.
Qed.

(** An invitation is used once, by its addressee, for the role it offers.  Accepting it succeeds only
    for an active account whose address is the invited one, while the invitation is pending and in time, and
    only when the account has no role there yet; it grants exactly the proposed role, which is MEMBER or
    VIEWER; and from then on the token is refused, to everybody and at any time. *)
Theorem invitation_single_use u token c w s w' : Roster (w_db w) ->
  Workspace.accept_organization_invitation u token c w = (inr s, w') ->
  exists i us role, i ∈ invitations (w_db w) /\ in_token_hash i = Workspace._token_hash token /\
    in_state i = "pending" /\ w_now w < in_expires_at i /\ account_by_id u (w_db w) = Some us /\
    u_state us = "active" /\ (exists email, u_email us = Some email /\
      normalize_email email = normalize_email (in_invitee_email i)) /\
    OrganizationRole_of (proposed_role i) = Some role /\ (role = MEMBER \/ role = VIEWER) /\
    ws_workspace_id s = in_org_id i /\ _roles u (in_org_id i) (w_db w) = [] /\
    _roles u (in_org_id i) (w_db w') = [role_value role] /\
    forall v t c2, Workspace.accept_organization_invitation v token c2 (at_time t w')
                   = (inl Workspace.invitation_invalid, at_time t w').
Proof.
  intros I H. destruct (accept_cases _ _ _ _ _ _ I H) as [(r & w1 & [= <-] & Ho & ->)|(e & ? & _)]; [|done].
  apply accept_inr in Ho as (i & us & role & ws & rows & row & [Hi Hu Ha Hg Hn Hc] & Hws & Hid & _ & Hgr & Hdb & _).
  apply org_by_id_Some in Hws as [Hws Hwid]. pose proof Hi as [Hin Hh]%scalar_Some.
  unfold acceptable in Ha. unfold grantable in Hg. apply bind_Some in Hg as (role' & Hof & Hg).
  destruct (role' is_in _) eqn:Er; [|done]. injection Hg as ->. to_prop.
  exists i, us, role. split_and!; try done.
  - destruct (u_email us) as [email|]; [|done]. exists email. to_prop. done.
  - match goal with H : role ∈ _ |- _ => revert H end. rewrite !elem_of_cons, elem_of_nil. tauto.
  - congruence.
  - cbn [with_redis w_db set]. apply (assigned_member_some _ _ _ _ _ I (assigned_first_bindings _ _ _ _ _ rows I Hn
      (f_equal role_permission_catalog Hdb) (f_equal user_role_bindings Hdb) Hgr)); [done|].
    by apply catalog_for_role_entry.
  - intros v t c2. unfold Workspace.accept_organization_invitation. run.
    assert (Hrun : accept_organization_invitation v (Workspace._token_hash token) t c2 (at_time t (with_redis
      (r_del (name (organization_revocation u (ws_workspace_id s))) (w_redis w)) w1)) = (inr None, at_time t (with_redis
      (r_del (name (organization_revocation u (ws_workspace_id s))) (w_redis w)) w1))); [|].
    { unfold accept_organization_invitation. apply run_tx. run. destruct (organization_invitation_org _ _ _); [|done].
      rewrite Hdb. cbn [with_audit set_invitations invitations set].
      rewrite scalar_update_stable by done. cbn [with_bindings invitations set]. rewrite Hi. cbn [option_map].
      rewrite eqb_refl. destruct (account_by_id v _); [|done]. unfold acceptable at 1. cbn. by rewrite andb_false_r. }
    rewrite (run_bind _ _ _ _ _ Hrun). run. done.
Qed.
End Properties.
