(* ===== verification/WorkspaceDemo.v ===== *)
(** Concrete runs of the workspaces: the witnesses of their theorems, two owners who offboard each
    other at the same time, and a name that does not fit its column. *)
From S2P Require Import Prelude PyText Entity Models RedisClient World Providers RedisSecurity.
From S2P Require Import WorkspaceRepo WorkspaceInv WorkspaceProps SessionInv SessionProps SessionDemo.
From S2P Require Workspace SessionRepo.

(** The catalog migration 0008 seeds. *)
Definition seed_entry (n : N) (p : string * string * string) : RolePermissionCatalog :=
  MkCatalog (test_uuid (600 + n)) p.1.1 p.1.2 p.2 1 true.
Definition seed_catalog : list RolePermissionCatalog :=
  [seed_entry 1 ("workspace", "OWNER", "workspace.manage"); seed_entry 2 ("workspace", "OWNER", "members.manage");
   seed_entry 3 ("portfolio", "OWNER", "portfolio.read"); seed_entry 4 ("portfolio", "OWNER", "portfolio.write");
   seed_entry 5 ("portfolio", "MEMBER", "portfolio.read"); seed_entry 6 ("portfolio", "MEMBER", "portfolio.write");
   seed_entry 7 ("portfolio", "VIEWER", "portfolio.read")].
Definition bob_id : UUID := test_uuid 902.
Definition bob : User := MkUser bob_id (Some "bob@example.com") (Some "Bob") None None "active" 1 None (t0 - days 2).
Definition seed_db : Db := empty_db <| users := [ann; bob] |> <| role_permission_catalog := seed_catalog |>.
Definition seed_world : World mem_redis := test_world seed_db t0.

Lemma seed_ids : forallb (fun c => forallb (fun c' => negb (rc_catalog_id c == rc_catalog_id c') ||
  ((rc_permission c == rc_permission c') && (rc_role c == rc_role c'))) seed_catalog) seed_catalog = true.
Proof. vm_compute. reflexivity. Qed.
Lemma seed_nodup : NoDup (List.map rc_catalog_id seed_catalog).
Proof. apply (bool_decide_unpack _). vm_compute. exact I. Qed.
Lemma seed_roster : Roster seed_db.
Proof.
  apply roster_of_empty; try done.
  - intros x Hx. by apply elem_of_nil in Hx.
  - intros c c' Hc Hc' He. by apply (nodup_key rc_catalog_id seed_catalog _ _ seed_nodup).
  - intros c [Hc _] Hp. apply list_elem_of_In in Hc.
    repeat (destruct Hc as [<-|Hc]; [first [reflexivity|discriminate Hp]|]). destruct Hc.
  - exists (seed_entry 2 ("workspace", "OWNER", "members.manage")). split_and!; [split; [right; by left|done]|done..].
Qed.

(** Ann creates an organization and invites Bob, who accepts; she makes him an owner, and he
    offboards her. *)
Definition acme : UUID := test_uuid 1.
Definition founding : Request := CreateOrganization demo_user " Acme   Labs " cid.
Definition founded_world : World mem_redis := (serve founding seed_world).2.
Definition inviting : Request := InviteMember demo_user acme "Bob@Example.com" MEMBER cid.
Definition invited_world : World mem_redis := (serve inviting founded_world).2.
Definition invitation_token : string := token_urlsafe 32 (w_seed founded_world).
Abbreviation accepting := (Workspace.accept_organization_invitation bob_id invitation_token cid invited_world).
Definition joined_world : World mem_redis := accepting.2.
Definition promoting : Request := ReplaceMemberRole demo_user acme bob_id OWNER cid.
Definition promoted_world : World mem_redis := (serve promoting joined_world).2.
Abbreviation offboarding := (Workspace.offboard_member bob_id acme demo_user cid promoted_world).

Lemma founded_roster : Roster (w_db founded_world).
Proof. exact (keeps_roster founding seed_world seed_roster). Qed.
Lemma invited_roster : Roster (w_db invited_world).
Proof. exact (keeps_roster inviting founded_world founded_roster). Qed.
Lemma joined_roster : Roster (w_db joined_world).
Proof.
  pose proof (keeps_roster (AcceptInvitation bob_id invitation_token cid) invited_world invited_roster) as H.
  unfold joined_world. cbn [serve] in H. unfold done_, mbind, prog_bind in H. by destruct accepting as [[?|?] ?].
Qed.
Lemma promoted_roster : Roster (w_db promoted_world).
Proof. exact (keeps_roster promoting joined_world joined_roster). Qed.

Definition answered {A B} (x : A + B) : bool := match x with inr _ => true | inl _ => false end.
Lemma founding_ok : match (serve founding seed_world).1 with inr _ => true | _ => false end = true.
Proof. vm_compute. reflexivity. Qed.
Lemma accepting_ok : match accepting.1 with inr _ => true | _ => false end = true.
Proof. vm_compute. reflexivity. Qed.
Lemma offboarding_ok : match offboarding.1 with inr _ => true | _ => false end = true.
Proof. vm_compute. reflexivity. Qed.
Lemma roles_of_run : (_roles demo_user acme (w_db founded_world), _roles bob_id acme (w_db joined_world),
  _roles bob_id acme (w_db promoted_world), _roles demo_user acme (w_db offboarding.2))
  = (["OWNER"], ["MEMBER"], ["OWNER"], []).
Proof. vm_compute. reflexivity. Qed.

Lemma requests_refine_role_matrix_witness : exists w' mx, serve founding seed_world = (inr (), w') /\
  Roster (w_db w') /\ role_step (matrix seed_db) founding mx.
Proof.
  returned founding_ok x w E. destruct (requests_refine_role_matrix founding seed_world (inr x) w seed_roster E) as [I (mx & Hs & _)].
  exists w, mx. split; [destruct x; reflexivity|]. auto.
Defined.

Lemma acme_there : exists x, x ∈ organizations (w_db (run_at serve [(t0, founding)] seed_world).2) /\
  o_workspace_type x = "organization" /\ o_org_id x = acme.
Proof. eexists. split; [left|]. vm_compute. auto. Qed.
Lemma organizations_keep_an_owner_witness : exists u,
  "OWNER" ∈ _roles u acme (w_db (run_at serve [(t0, founding)] seed_world).2).
Proof.
  destruct acme_there as (x & Hx & Ht & Ho).
  destruct (organizations_keep_an_owner [(t0, founding)] seed_world x seed_roster Hx Ht) as (u & Hu & _).
  exists u. rewrite <- Ho. exact Hu.
Defined.

Lemma offboarded_member_loses_access_witness : exists w', offboarding = (inr (), w') /\
  _roles demo_user acme (w_db w') = [] /\ user_has_org_membership acme demo_user (w_db w') = false.
Proof.
  returned offboarding_ok x w E. destruct x. exists w. split; [reflexivity|].
  destruct (offboarded_member_loses_access _ _ _ _ _ _ promoted_roster E) as (H1 & H2 & _). auto.
Defined.

Lemma invitation_single_use_witness : exists s w', accepting = (inr s, w') /\
  _roles bob_id acme (w_db invited_world) = [] /\
  Workspace.accept_organization_invitation demo_user invitation_token cid (at_time (t0 + seconds 1) w')
    = (inl Workspace.invitation_invalid, at_time (t0 + seconds 1) w').
Proof.
  returned accepting_ok s w E. exists s, w. split; [reflexivity|].
  destruct (invitation_single_use _ _ _ _ _ _ invited_roster E)
    as (i & us & role & _ & _ & _ & _ & _ & _ & _ & _ & _ & Hid & _ & _ & H). split; [|apply H].
  vm_compute. reflexivity.
Defined.

(** ** Two owners offboard each other *)

(** [offboard_member] reads and then writes: the guard of the last owner counts without a lock,
    and at READ COMMITTED another transaction may write in between. *)
Definition offboard_check `{!Env} (actor_user_id workspace_id member_user_id : UUID) (db : Db) : bool :=
  _has_permission actor_user_id workspace_id "members.manage" db
  && match _roles member_user_id workspace_id db with [] => false | _ => true end
  && negb (last_owner member_user_id workspace_id db).
Definition offboard_write {R} `{!Env} (actor_user_id workspace_id member_user_id : UUID) (now : Time)
    (correlation_id : UUID) : prog R (option OffboardResult) :=
  modify_db (set_bindings (binding_of member_user_id workspace_id) (binding_revoked now));;
  db ← get_db;
  let active_sessions := where_ (scoped_to member_user_id workspace_id) (sessions db) in
  for_ active_sessions (fun s =>
    jti ← new_uuid4; modify_db (SessionRepo.set_session (s_session_id s) (unscoped jti now)));;
  let access_jtis := List.map s_access_jti active_sessions in
  workspace_audit "ORGANIZATION_MEMBER_OFFBOARDED" correlation_id actor_user_id (Some workspace_id)
    [("member_user_id", JStr (uuid_str member_user_id));
     ("revoked_scoped_tokens", JStr (pretty.pretty (N.of_nat (length access_jtis))))];;
  mret (Some (MkOffboardResult member_user_id access_jtis)).
Lemma offboard_split {R} `{!Env} a o m now c (w : World R) : offboard_check a o m (w_db w) = true ->
  offboard_member a o m now c w = tx (offboard_write a o m now c) w.
Proof.
  unfold offboard_check. intros Hc. apply andb_true_iff in Hc as [Hc Hl]. apply andb_true_iff in Hc as [Hp Hr].
  unfold offboard_member, offboard_write, tx. rewrite !bind_get_db, Hp. cbn [negb].
  destruct (_roles m o (w_db w)); [done|]. rewrite negb_true_iff in Hl. by rewrite Hl, bind_raise_if_false.
Qed.

(** Both owners pass the check before either writes: both writes commit, and nobody owns the
    organization or manages its members any more. *)
Theorem concurrent_offboarding_leaves_no_owner :
  let db := w_db promoted_world in
  let w1 := (tx (offboard_write demo_user acme bob_id t0 cid) promoted_world).2 in
  let w2 := (tx (offboard_write bob_id acme demo_user t0 cid) w1).2 in
  offboard_check demo_user acme bob_id db = true /\ offboard_check bob_id acme demo_user db = true /\
  _owner_count acme (w_db w2) = 0%nat /\
  _has_permission demo_user acme "members.manage" (w_db w2) = false /\
  _has_permission bob_id acme "members.manage" (w_db w2) = false.
Proof. vm_compute. auto. Qed.

(** ** Names that registration accepts and the workspace cannot hold *)

Fixpoint repeat_char (n : nat) (c : ascii) : string :=
  match n with O => EmptyString | S n => String c (repeat_char n c) end.
(** A registration accepts two names of 120 characters, their columns hold 120; the personal
    workspace made for them has a name of more than the 180 characters of its column. *)
Theorem personal_workspace_name_overflows : exists user,
  (forall n, u_given_name user = Some n \/ u_family_name user = Some n -> (1 <= String.length n <= 120)%nat) /\
  (180 < String.length (o_name (personal_workspace_for acme user)))%nat.
Proof.
  exists (MkUser demo_user (Some "ann@example.com") (Some (repeat_char 120 "a")) (Some (repeat_char 120 "b")) None
    "pending" 1 None t0).
  split; [intros n [[= <-]|[= <-]]; cbn; lia|]. apply Nat.ltb_lt. vm_compute. reflexivity.
Qed.
