(* ===== verification/UserRepo.v ===== *)
(** [infrastructure/persistence/user_repository.py]: accounts with optimistic versions. *)
From S2P Require Import Prelude PyText Entity Models RedisClient World.

Definition at_version (user_id : UUID) (expected_version : Z) (u : User) : bool :=
  (u_user_id u == user_id) && (u_version u =? expected_version).
Definition moved_to (new_state : UserState) (u : User) : User :=
  u <| u_state := user_state_value new_state |> <| u_version ::= Z.succ |>.
Definition live_account (normalized : string) (u : User) : bool :=
  opt_citext_eq (u_email u) normalized && is_none (u_anonymized_at u).

Section Repository.
Context {R : Type} {E : Env}.
Abbreviation M := (prog R).

Definition _to_record (model : User) : M UserRecord :=
  state ← get_or ValueError (UserState_of (u_state model));
  mret (MkUserRecord (u_user_id model) (u_email model) state (u_version model)).
Definition create (email : string) : M UserRecord :=
  tx (
    now ← now_utc;
    user_id ← new_uuid4;
    let model := MkUser user_id (Some (normalize_email email)) None None None "pending" 1 None now in
    add_row users user_valid user_conflict model;;
    org_id ← new_uuid4;
    add_row organizations organization_valid organization_conflict (personal_workspace_for org_id model);;
    _to_record model).
Definition get_by_email (email : string) : M (option UserRecord) :=
  db ← get_db;
  match scalar (live_account (normalize_email email)) (users db) with
  | Some result => record ← _to_record result; mret (Some record)
  | None => mret None
  end.
Definition change_state (user_id : UUID) (expected_version : Z) (new_state : UserState) : M (option UserRecord) :=
  tx (
    db ← get_db;
    modify_db (fun db => db <| users ::= update_ (at_version user_id expected_version) (moved_to new_state) |>);;
    match scalar (at_version user_id expected_version) (users db) with
    | Some result => record ← _to_record (moved_to new_state result); mret (Some record)
    | None => mret None
    end).
End Repository.

(** ** Concurrent changes of one account *)

Section Versions.
Context {R : Type}.
Implicit Types (w : World R).

Definition moved_db (user_id : UUID) (v : Z) (s : UserState) (db : Db) : Db :=
  db <| users ::= update_ (at_version user_id v) (moved_to s) |>.
Lemma to_record_moved s u w : _to_record (moved_to s u) w = (inr (MkUserRecord (u_user_id u) (u_email u) s (u_version u + 1)), w).
Proof. unfold _to_record. change (u_state (moved_to s u)) with (user_state_value s). by rewrite UserState_of_value. Qed.
Lemma change_state_miss u v s w : (forall x, x ∈ users (w_db w) -> at_version u v x = false) ->
  change_state u v s w = (inr None, w).
Proof.
  intros H. unfold change_state, tx. run.
  assert (Hs : scalar (at_version u v) (users (w_db w)) = None).
  { destruct (scalar _ _) as [x|] eqn:Ex; [|done]. apply scalar_Some in Ex as [Hx Hv]. by rewrite (H x Hx) in Hv. }
  rewrite Hs. unfold mret, prog_ret. f_equal.
  transitivity (with_db ((w_db w) <| users := update_ (at_version u v) (moved_to s) (users (w_db w)) |>) w); [reflexivity|].
  rewrite update_id by exact H. by destruct w as [[]].
Qed.
Lemma change_state_hit u v s x w : scalar (at_version u v) (users (w_db w)) = Some x ->
  change_state u v s w = (inr (Some (MkUserRecord u (u_email x) s (v + 1))), with_db (moved_db u v s (w_db w)) w).
Proof.
  intros Hs. unfold change_state, tx. run. rewrite Hs.
  apply scalar_Some in Hs as [_ [Hu%bool_decide_eq_true Hv%Z.eqb_eq]%andb_true_iff].
  rewrite (run_bind _ _ _ _ _ (to_record_moved s x _)). by rewrite Hu, Hv.
Qed.

(** Of any number of changes of an account made with the version it has, the first succeeds: it sets
    the state, adds one to the version and changes no other row; all later ones, whatever their time and
    state, return nothing and change nothing. *)
Theorem first_writer_wins user t s (rest : list (Time * UserState)) w :
  NoDup (List.map u_user_id (users (w_db w))) -> user ∈ users (w_db w) ->
  let u := u_user_id user in
  let v := u_version user in
  exists w', run_at (change_state u v) ((t, s) :: rest) w
      = (inr (Some (MkUserRecord u (u_email user) s (v + 1))) :: List.map (fun _ => inr None) rest, w') /\
    w_db w' = moved_db u v s (w_db w) /\
    forall x, x ∈ users (w_db w') -> x ∈ users (w_db w) /\ u_user_id x <> u \/ x = moved_to s user.
Proof.
  intros Hn Hin u v.
  assert (Hone : forall x, x ∈ users (w_db w) -> at_version u v x = true -> x = user).
  { intros x Hx [Hu%bool_decide_eq_true _]%andb_true_iff. by apply (nodup_key u_user_id _ _ _ Hn). }
  assert (Hs : scalar (at_version u v) (users (w_db w)) = Some user).
  { apply scalar_unique; [done| |done]. unfold at_version. by rewrite eqb_refl, Z.eqb_refl. }
  assert (Hrows : forall x, x ∈ users (moved_db u v s (w_db w)) -> x ∈ users (w_db w) /\ u_user_id x <> u \/ x = moved_to s user).
  { intros x (x0 & Hx0 & ->)%elem_of_update. destruct (at_version u v x0) eqn:Ev; [right; by rewrite (Hone x0)|]. left. split; [done|].
    intros Hu. assert (x0 = user) as -> by (by apply (nodup_key u_user_id _ _ _ Hn)).
    unfold at_version, u, v in Ev. by rewrite eqb_refl, Z.eqb_refl in Ev. }
  cbn [run_at]. rewrite (change_state_hit u v s user) by exact Hs.
  assert (Hrest : forall w1, w_db w1 = moved_db u v s (w_db w) -> exists w2,
    run_at (change_state u v) rest w1 = (List.map (fun _ => inr None) rest, w2) /\ w_db w2 = moved_db u v s (w_db w)).
  { clear Hs. induction rest as [|[t' s'] rest IH]; intros w1 Hw1; [by eexists|]. cbn [run_at List.map].
    rewrite change_state_miss.
    - destruct (IH (at_time t' w1) Hw1) as (w2 & -> & H2). by eexists.
    - intros x Hx. cbn [at_time] in Hx. change (x ∈ users (w_db w1)) in Hx. rewrite Hw1 in Hx. apply Hrows in Hx as [[_ Hx]| ->].
      + unfold at_version. by rewrite eqb_neq.
      + unfold at_version. cbn. rewrite andb_false_iff. right. apply Z.eqb_neq. unfold v. lia. }
  destruct (Hrest (with_db (moved_db u v s (w_db (at_time t w))) (at_time t w)) eq_refl) as (w2 & Hr & H2).
  rewrite Hr. exists w2. split; [done|]. split; [done|]. by rewrite H2.
Qed.
End Versions.

Section Accounts.
Context {R : Type} {E : Env}.
Implicit Types (w : World R).

(** An account that was created is pending, at its first version, and is what every spelling of its
    address finds. *)
Theorem created_account_found email w r w' : create email w = (inr r, w') ->
  ur_state r = PENDING /\ ur_version r = 1 /\ ur_email r = Some (normalize_email email) /\
  forall spelling, normalize_email spelling = normalize_email email -> get_by_email spelling w' = (inr (Some r), w').
Proof.
  intros H. unfold create in H. apply tx_inr in H. run_in H.
  step_in H z w1 H1. apply add_row_inr in H1 as (_ & Hc & Hw1). run_in H.
  step_in H z2 w2 H2. apply add_row_inr in H2 as (_ & _ & Hw2).
  unfold _to_record in H. run_in H. injection H as <- <-. split_and!; [done..|]. intros spelling Hsp.
  set (row := MkUser _ _ _ _ _ _ _ _ _) in *.
  assert (Hs : scalar (live_account (normalize_email spelling)) (users (w_db w2)) = Some row).
  { rewrite Hw2, Hw1. cbn. apply scalar_unique.
    - apply elem_of_app. right. by apply list_elem_of_singleton.
    - rewrite Hsp. unfold live_account, row, opt_citext_eq, citext_eq. cbn. by rewrite eqb_refl.
    - intros x [Hx|Hx]%elem_of_app Hl; [|by apply list_elem_of_singleton in Hx]. exfalso.
      unfold user_conflict in Hc. rewrite row_exists_false in Hc. specialize (Hc x Hx). apply orb_false_iff in Hc as [_ Hc].
      unfold live_account in Hl. apply andb_true_iff in Hl as [Hl Ha]. unfold user_clash in Hc. cbn in Hc. rewrite Ha in Hc. cbn in Hc.
      unfold opt_citext_eq in Hl. destruct (u_email x) as [a|]; [|done]. rewrite Hsp in Hl.
      unfold citext_eq in *. apply bool_decide_eq_true in Hl. rewrite Hl, eqb_refl in Hc. discriminate Hc. }
  unfold get_by_email. rewrite (run_bind get_db _ w2 (w_db w2) w2) by reflexivity. rewrite Hs. reflexivity.
Qed.
End Accounts.

(** ** Two administrators who read the same version *)

Definition dora : User := MkUser (test_uuid 950) (Some "dora@example.com") None None None "active" 4 None 0.
Definition dora_world : World mem_redis := test_world (empty_db <| users := [dora] |>) 0.
Lemma dora_unique : NoDup (List.map u_user_id (users (w_db dora_world))).
Proof. apply NoDup_singleton. Qed.
Lemma first_writer_wins_witness : exists w',
  run_at (change_state (test_uuid 950) 4) [(1, SUSPENDED); (2, LOCKED)] dora_world
  = ([inr (Some (MkUserRecord (test_uuid 950) (Some "dora@example.com") SUSPENDED 5)); inr None], w').
Proof.
  destruct (first_writer_wins dora 1 SUSPENDED [(2, LOCKED)] dora_world dora_unique ltac:(by left)) as (w' & H & _).
  exists w'. exact H.
Defined.
Lemma created_account_found_witness : exists r w', create " Dora@Example.org " dora_world = (inr r, w') /\
  get_by_email "dora@example.org" w' = (inr (Some r), w').
Proof.
  destruct (create " Dora@Example.org " dora_world) as [[e|r] w'] eqn:E; [vm_compute in E; discriminate E|].
  exists r, w'. split; [reflexivity|]. destruct (created_account_found _ _ _ _ E) as (_ & _ & _ & H). by apply H.
Defined.
