(* ===== verification/Migrations.v ===== *)
(** The rows the migrations write ([migrations/versions]): the personal workspaces and the role catalog of
    0008, the password history of 0009.

    [gen_random_uuid()] of the n-th row an INSERT considers is a parameter; the rows of an INSERT ... SELECT
    come in the order of the table.  The statements of the migrations are in
    Revisions, which takes these INSERTs from here. *)
From S2P Require Import Prelude PyText Entity Models RedisClient World WorkspaceRepo WorkspaceInv.

(** [concat_ws(' ', ...)], which leaves out NULL, and [trim], which removes spaces. *)
Definition concat_ws (parts : list (option string)) : string := String.concat " " (omap (fun o => o) parts).
Definition is_blank (c : ascii) : bool := c == " "%char.
Definition sql_trim (s : string) : string := rstrip is_blank (drop_while is_blank s).

(** ** 0008: personal workspaces *)

Definition workspace_slug (user : User) : string := "personal-" +:+ str_filter not_hyphen (uuid_str (u_user_id user)).
Definition workspace_row (org_id : UUID) (user : User) : Organization :=
  let name := sql_trim (concat_ws [u_given_name user; u_family_name user]) in
  MkOrganization org_id (if nonempty name then name +:+ "'s Portfolio" else "My Personal Portfolio")
    (workspace_slug user) "personal" (Some (u_user_id user)) "active" [].
(** INSERT ... ON CONFLICT DO NOTHING: a row that breaks a unique index is left out. *)
Definition insert_or_nothing (o : Organization) (t : list Organization) : list Organization :=
  if organization_conflict t o then t else t ++ [o].
Fixpoint backfill_workspaces (gen : N -> UUID) (n : N) (accounts : list User) (t : list Organization) : list Organization :=
  match accounts with
  | [] => t
  | user :: accounts =>
    backfill_workspaces gen (N.succ n) accounts
      (if is_none (u_anonymized_at user) then insert_or_nothing (workspace_row (gen n) user) t else t)
  end.

(** ** 0008: the role catalog *)

Definition seed : list (string * string * string) :=
  [("workspace", "OWNER", "workspace.manage"); ("workspace", "OWNER", "members.manage");
   ("portfolio", "OWNER", "portfolio.read"); ("portfolio", "OWNER", "portfolio.write");
   ("portfolio", "MEMBER", "portfolio.read"); ("portfolio", "MEMBER", "portfolio.write");
   ("portfolio", "VIEWER", "portfolio.read")].
Definition seeds (s : string * string * string) (c : RolePermissionCatalog) : bool :=
  (rc_module c == s.1.1) && (rc_role c == s.1.2) && (rc_permission c == s.2) && (rc_version c =? 1).
Definition seed_row (catalog_id : UUID) (s : string * string * string) : RolePermissionCatalog :=
  MkCatalog catalog_id s.1.1 s.1.2 s.2 1 true.
(** The NOT EXISTS condition reads the table as it was before the statement. *)
Definition seed_catalog (gen : N -> UUID) (t : list RolePermissionCatalog) : list RolePermissionCatalog :=
  t ++ List.map (fun p => seed_row (gen (N.of_nat p.1)) p.2)
         (List.filter (fun p => negb (row_exists (seeds p.2) t)) (combine (List.seq 0 (length seed)) seed)).

Definition upgrade_0008 (org_ids catalog_ids : N -> UUID) (db : Db) : Db :=
  db <| organizations ::= backfill_workspaces org_ids 0 (users db) |>
     <| role_permission_catalog ::= seed_catalog catalog_ids |>.

(** ** 0009: the password history *)

Definition lacks_history (t : list PasswordHistory) (i : Identity) : bool :=
  (i_provider i == "password") && is_some (i_password_hash i)
  && negb (row_exists (fun h => ph_identity_id h == i_identity_id i) t).
Definition history_row (now : Time) (history_id : UUID) (i : Identity) : PasswordHistory :=
  MkPasswordHistory history_id (i_identity_id i) (or_else (i_password_hash i) "") now.
Definition backfill_history (gen : N -> UUID) (now : Time) (accounts : list Identity) (t : list PasswordHistory)
    : list PasswordHistory :=
  t ++ List.map (fun p => history_row now (gen (N.of_nat p.1)) p.2)
         (List.filter (fun p => lacks_history t p.2) (combine (List.seq 0 (length accounts)) accounts)).
Definition upgrade_0009 (history_ids : N -> UUID) (now : Time) (db : Db) : Db :=
  db <| password_history ::= backfill_history history_ids now (identities db) |>.

(** ** What the upgrades establish *)

Lemma uuid_hex_inj u v : uuid_hex u = uuid_hex v -> u = v.
Proof.
  intros H. apply uuid_eq. unfold uuid_hex in H.
  assert (Hu := f_equal (hex_read 0) H). rewrite !hex_read_digits in Hu.
  cbn [hex_read] in Hu. injection Hu as Hu. change (16 ^ N.of_nat 32)%N with uuid_limit in Hu.
  pose proof (f_equal uuid_int (uuid_of_N_int u)) as H1. pose proof (f_equal uuid_int (uuid_of_N_int v)) as H2.
  cbn [uuid_of_N uuid_int] in H1, H2. lia.
Qed.
Lemma workspace_slug_inj u v : workspace_slug u = workspace_slug v -> u_user_id u = u_user_id v.
Proof. unfold workspace_slug. intros H%app_cancel_l. rewrite !uuid_str_digits in H. by apply uuid_hex_inj. Qed.

Section Workspaces.
Context (gen : N -> UUID).
Implicit Types (t : list Organization).

Lemma insert_grows o t x : x ∈ t -> x ∈ insert_or_nothing o t.
Proof. unfold insert_or_nothing. destruct (organization_conflict t o); [done|]. intros H. apply elem_of_app. by left. Qed.
Lemma insert_inv o t x : x ∈ insert_or_nothing o t -> x ∈ t \/ x = o.
Proof.
  unfold insert_or_nothing. destruct (organization_conflict t o); [by left|]. intros [H|H%list_elem_of_singleton]%elem_of_app; auto.
Qed.
Lemma backfill_grows l n t x : x ∈ t -> x ∈ backfill_workspaces gen n l t.
Proof.
  revert n t. induction l as [|u l IH]; intros n t H; [done|]. apply IH. destruct (is_none _); [by apply insert_grows|done].
Qed.
Lemma backfill_inv l n t x : x ∈ backfill_workspaces gen n l t ->
  x ∈ t \/ exists u m, u ∈ l /\ is_none (u_anonymized_at u) = true /\ (n <= m)%N /\ x = workspace_row (gen m) u.
Proof.
  revert n t. induction l as [|u l IH]; intros n t H; [by left|]. apply IH in H as [H|(v & m & Hv & Ha & Hm & ->)].
  - destruct (is_none (u_anonymized_at u)) eqn:Eu; [|by left]. apply insert_inv in H as [H|H]; [by left|].
    right. exists u, n. split_and!; [by left|done|lia|done].
  - right. exists v, m. split_and!; [by right|done|lia|done].
Qed.
Lemma row_personal n u : personal_of (u_user_id u) (workspace_row (gen n) u) = true.
Proof. unfold personal_of. cbn. by rewrite !eqb_refl. Qed.
Lemma personal_conflict n u o t : o ∈ t -> personal_of (u_user_id u) o = true ->
  insert_or_nothing (workspace_row (gen n) u) t = t.
Proof.
  intros Ho Hp. unfold insert_or_nothing. assert (organization_conflict t (workspace_row (gen n) u) = true) as ->; [|done].
  apply row_exists_true. exists o. split; [done|]. unfold personal_of in Hp. apply andb_true_iff in Hp as [-> Hp].
  apply bool_decide_eq_true in Hp.
  apply orb_true_iff. right. cbn. by rewrite Hp, !eqb_refl.
Qed.
Lemma backfill_done l n t : (forall u, u ∈ l -> is_none (u_anonymized_at u) = true -> exists o, o ∈ t /\ personal_of (u_user_id u) o = true) ->
  backfill_workspaces gen n l t = t.
Proof.
  revert n. induction l as [|u l IH]; intros n H; [done|]. cbn [backfill_workspaces]. destruct (is_none (u_anonymized_at u)) eqn:Ea.
  - destruct (H u ltac:(by left) Ea) as (o & Ho & Hp). rewrite (personal_conflict n u o t Ho Hp). apply IH. intros; apply H; [by right|done].
  - apply IH. intros; apply H; [by right|done].
Qed.

End Workspaces.

Section Upgrade0008.
(** Identifiers that are fresh for the rows of one statement. *)
Definition distinct_below (limit : N) (gen : N -> UUID) : Prop :=
  forall m n, (m < limit)%N -> (n < limit)%N -> gen m = gen n -> m = n.
Context (gen : N -> UUID) (limit : N) (fresh : distinct_below limit gen).
Implicit Types (t : list Organization).

Lemma backfill_owned l n t : (n + N.of_nat (length l) <= limit)%N ->
  (forall o m, o ∈ t -> (n <= m < limit)%N -> o_org_id o <> gen m) ->
  forall u, u ∈ l -> is_none (u_anonymized_at u) = true ->
  (forall o, o ∈ t -> o_slug o = workspace_slug u -> personal_of (u_user_id u) o = true) ->
  exists o, o ∈ backfill_workspaces gen n l t /\ personal_of (u_user_id u) o = true.
Proof.
  revert n t. induction l as [|v l IH]; intros n t Hl Hid u Hu Ha Hsl; [by apply elem_of_nil in Hu|]. cbn [backfill_workspaces]. cbn [length] in Hl.
  set (t1 := if is_none (u_anonymized_at v) then insert_or_nothing (workspace_row (gen n) v) t else t).
  assert (Ht1 : forall x, x ∈ t1 -> x ∈ t \/ x = workspace_row (gen n) v).
  { intros x Hx. unfold t1 in Hx. destruct (is_none (u_anonymized_at v)); [by apply insert_inv in Hx|by left]. }
  apply elem_of_cons in Hu as [->|Hu].
  - assert (Ho : exists o, o ∈ t1 /\ personal_of (u_user_id v) o = true); [|destruct Ho as (o & Ho & Hp); exists o; by split; [apply backfill_grows|]].
    unfold t1. rewrite Ha. unfold insert_or_nothing. destruct (organization_conflict t (workspace_row (gen n) v)) eqn:Ec.
    + apply row_exists_true in Ec as (o & Ho & Ec). exists o. split; [done|]. cbn in Ec.
      apply orb_true_iff in Ec as [[Ec|Ec]%orb_true_iff|Ec].
      * apply bool_decide_eq_true in Ec. by destruct (Hid o n Ho ltac:(lia)).
      * apply bool_decide_eq_true in Ec. by apply Hsl.
      * apply andb_true_iff in Ec as [Ec1 Ec2]. unfold personal_of. rewrite Ec2. by rewrite andb_true_r in Ec1 |- *.
    + exists (workspace_row (gen n) v). split; [apply elem_of_app; right; by apply list_elem_of_singleton|apply row_personal].
  - apply IH; [lia| |done|done|].
    + intros o m [Ho| ->]%Ht1 Hm; [apply Hid; [done|lia]|]. cbn. intros He%fresh; lia.
    + intros o [Ho| ->]%Ht1 Hs; [by apply Hsl|]. cbn in Hs. apply workspace_slug_inj in Hs.
      rewrite <- Hs. apply row_personal.
Qed.

(** After migration 0008 every account that is not anonymized has a personal workspace, where no
    other workspace holds its slug; the workspaces there were are kept, and what is added are valid rows for
    such accounts.  Running the statement again adds nothing. *)
Theorem personal_workspaces_backfilled db catalog_ids :
  let db' := upgrade_0008 gen catalog_ids db in
  (N.of_nat (length (users db)) <= limit)%N ->
  (forall o n, o ∈ organizations db -> (n < limit)%N -> o_org_id o <> gen n) ->
  (forall o u, o ∈ organizations db -> u ∈ users db -> o_slug o = workspace_slug u -> personal_of (u_user_id u) o = true) ->
  (forall u, u ∈ users db -> is_none (u_anonymized_at u) = true ->
     exists o, o ∈ organizations db' /\ personal_of (u_user_id u) o = true) /\
  (forall o, o ∈ organizations db -> o ∈ organizations db') /\
  (forall o, o ∈ organizations db' -> o ∈ organizations db \/
     organization_valid o = true /\ exists u, u ∈ users db /\ is_none (u_anonymized_at u) = true /\ personal_of (u_user_id u) o = true) /\
  forall gen', (organizations (upgrade_0008 gen' catalog_ids db')) = organizations db'.
Proof.
  intros db' Hlim Hids Hslugs.
  assert (Hown : forall u, u ∈ users db -> is_none (u_anonymized_at u) = true ->
    exists o, o ∈ organizations db' /\ personal_of (u_user_id u) o = true) by (intros u Hu Ha; apply backfill_owned; [lia|intros o m Ho Hm; by apply Hids; [|apply Hm]|done|done|];
      intros o Ho; by apply Hslugs).
  split_and!.
  - exact Hown.
  - intros o. apply backfill_grows.
  - intros o [Ho|(u & m & Hu & Ha & _ & ->)]%backfill_inv; [by left|]. right. split; [done|]. exists u. split_and!; [done..|apply row_personal].
  - intros gen'. by apply backfill_done.
Qed.
End Upgrade0008.

(** On a database without organizations in use, the seed of migration 0008 establishes the invariant of
    the role tables that the workspace operations keep: the permission to manage members is the owners' alone. *)
Theorem seeded_roster gen org_ids db : distinct_below (N.of_nat (length seed)) gen ->
  role_permission_catalog db = [] -> user_role_bindings db = [] -> invitations db = [] ->
  (forall o, o ∈ organizations db -> o_workspace_type o = "personal") ->
  Roster (upgrade_0008 org_ids gen db).
Proof.
  intros Hg Hc Hb Hi Ho.
  assert (Hcat : role_permission_catalog (upgrade_0008 org_ids gen db)
    = List.map (fun p => seed_row (gen (N.of_nat p.1)) p.2) (combine (List.seq 0 (length seed)) seed)).
  { cbn [upgrade_0008 role_permission_catalog]. change (seed_catalog gen (role_permission_catalog db) = 
      List.map (fun p => seed_row (gen (N.of_nat p.1)) p.2) (combine (List.seq 0 (length seed)) seed)). rewrite Hc. reflexivity. }
  apply roster_of_empty; [done|done|..].
  - intros x [Hx|(u & m & _ & _ & _ & ->)]%backfill_inv; [by apply Ho|done].
  - intros c c' H H' He. rewrite Hcat in H, H'. apply elem_of_map in H as (p & Hp & <-), H' as (q & Hq & <-).
    assert (Hb' : forall x, x ∈ combine (List.seq 0 (length seed)) seed -> (N.of_nat x.1 < N.of_nat (length seed))%N).
    { intros [n x] Hx%list_elem_of_In%in_combine_l%in_seq. cbn [fst]. lia. }
    cbn in He. apply Hg in He; [|by apply Hb'..]. apply Nat2N.inj in He. assert (p = q) as ->; [|done].
    revert Hp Hq He. rewrite !list_elem_of_In.
    assert (Hd : NoDup (List.map fst (combine (List.seq 0 (length seed)) seed))) by (apply (bool_decide_unpack _); vm_compute; exact I).
    intros Hp Hq He. by apply (nodup_key fst _ p q Hd); rewrite ?list_elem_of_In.
  - intros c [H _] Hp. rewrite Hcat in H. apply list_elem_of_In in H.
    repeat (destruct H as [<-|H]; [first [reflexivity|discriminate Hp]|]). destruct H.
  - exists (seed_row (gen 1%N) ("workspace", "OWNER", "members.manage")). split_and!; [split; [rewrite Hcat; right; by left|done]|done..].
Qed.

(** After migration 0009 every password identity has a row of history, so that a reused password is
    recognised from then on; the rows there were are kept, in place, and running it again adds nothing. *)
Theorem password_history_backfilled gen now db :
  let db' := upgrade_0009 gen now db in
  (forall i h, i ∈ identities db -> i_provider i = "password" -> i_password_hash i = Some h ->
     exists r, r ∈ password_history db' /\ ph_identity_id r = i_identity_id i) /\
  (exists rows, password_history db' = password_history db ++ rows /\
     forall r, r ∈ rows -> exists i, i ∈ identities db /\ i_provider i = "password" /\ ph_identity_id r = i_identity_id i /\
       i_password_hash i = Some (ph_password_hash r) /\
       forall old, old ∈ password_history db -> ph_identity_id old <> i_identity_id i) /\
  forall gen' now', password_history (upgrade_0009 gen' now' db') = password_history db'.
Proof.
  set (todo := List.filter (fun p => lacks_history (password_history db) p.2) (combine (List.seq 0 (length (identities db))) (identities db))).
  assert (Htodo : forall i, i ∈ identities db -> lacks_history (password_history db) i = true -> exists n, (n, i) ∈ todo).
  { intros i Hi Hl. assert (Hs : exists n, (n, i) ∈ combine (List.seq 0 (length (identities db))) (identities db)).
    { clear -Hi. generalize 0%nat as k. induction (identities db) as [|x l IH]; intros k; [by apply elem_of_nil in Hi|].
      cbn. apply elem_of_cons in Hi as [->|Hi]; [exists k; by left|]. destruct (IH Hi (S k)) as [n Hn]. exists n. by right. }
    destruct Hs as [n Hn]. exists n. unfold todo. rewrite list_elem_of_In, filter_In, <- list_elem_of_In. done. }
  assert (Hdone : forall i h, i ∈ identities db -> i_provider i = "password" -> i_password_hash i = Some h ->
    exists r, r ∈ password_history (upgrade_0009 gen now db) /\ ph_identity_id r = i_identity_id i).
  { intros i h Hi Hp Hh. destruct (lacks_history (password_history db) i) eqn:Hl.
    - destruct (Htodo i Hi Hl) as [n Hn]. exists (history_row now (gen (N.of_nat n)) i). split; [|done].
      apply elem_of_app. right. apply elem_of_map. by exists (n, i).
    - unfold lacks_history in Hl. rewrite Hp, Hh in Hl. cbn in Hl. apply negb_false_iff, row_exists_true in Hl as (r & Hr & Hid).
      exists r. apply bool_decide_eq_true in Hid. split; [apply elem_of_app; by left|done]. }
  intros db'. split_and!.
  - exact Hdone.
  - eexists. split; [reflexivity|]. intros r ((n & i) & Hn & <-)%elem_of_map. exists i.
    rewrite list_elem_of_In, filter_In in Hn. destruct Hn as [Hc Hl]. cbn [snd] in *.
    unfold lacks_history in Hl. apply andb_true_iff in Hl as [[Hp%bool_decide_eq_true Hh]%andb_true_iff Hr].
    apply negb_true_iff in Hr. rewrite row_exists_false in Hr. destruct (i_password_hash i) as [h|] eqn:Eh; [|discriminate Hh].
    split_and!; [by apply list_elem_of_In, (in_combine_r _ _ _ _ Hc)|done|done|cbn; by rewrite Eh|].
    intros old Hold He. specialize (Hr old Hold). by rewrite He, eqb_refl in Hr.
  - intros gen' now'. cbn [upgrade_0009 password_history identities]. unfold backfill_history.
    transitivity (password_history db' ++ List.map (fun p => history_row now' (gen' (N.of_nat p.1)) p.2)
      (List.filter (fun p => lacks_history (password_history db') p.2) (combine (List.seq 0 (length (identities db))) (identities db)))); [reflexivity|].
    assert (Hn : List.filter (fun p => lacks_history (password_history db') p.2) (combine (List.seq 0 (length (identities db))) (identities db)) = []).
    { apply (where_nil (fun p : nat * Identity => lacks_history (password_history db') p.2)). intros [n i] Hi%list_elem_of_In. cbn [snd].
      apply in_combine_r, list_elem_of_In in Hi. unfold lacks_history. destruct (i_provider i == "password") eqn:Hp; [|done].
      apply bool_decide_eq_true in Hp. destruct (i_password_hash i) as [h|] eqn:Hh; [|done]. cbn [is_some andb].
      apply negb_false_iff, row_exists_true. destruct (Hdone i h Hi Hp Hh) as (r & Hr & He). exists r. split; [done|]. by rewrite He, eqb_refl. }
    rewrite Hn. apply app_nil_r.
Qed.

(** ** A database of revision 0007: two accounts, one of them anonymized, and a team *)

Definition old_user (n : N) (gone : option Time) : User :=
  MkUser (test_uuid n) None (Some "Ada") (Some "Byron") None "active" 1 gone 0.
Definition old_team : Organization := MkOrganization (test_uuid 40) "Team" "team" "organization" None "active" [].
Definition old_identity (n : N) : Identity :=
  MkIdentity (test_uuid (500 + n)) (test_uuid n) "password" "ada@example.com" (Some "hash") true None 0.
Definition old_db : Db :=
  empty_db <| users := [old_user 1 None; old_user 2 (Some 5)] |> <| organizations := [old_team] |>
           <| identities := [old_identity 1] |>.
Definition new_ids (base n : N) : UUID := test_uuid (base + n).
Lemma new_ids_distinct base limit : (base + limit <= 1000)%N -> distinct_below limit (new_ids base).
Proof.
  intros Hb m n Hm Hn H. apply (f_equal uuid_int) in H. unfold new_ids, test_uuid, uuid_of_N in H. cbn [uuid_int] in H.
  rewrite !N.mod_small in H by (unfold uuid_limit; lia). lia.
Qed.
Lemma personal_workspaces_backfilled_witness : exists o,
  o ∈ organizations (upgrade_0008 (new_ids 100) (new_ids 200) old_db) /\ personal_of (test_uuid 1) o = true.
Proof.
  destruct (personal_workspaces_backfilled (new_ids 100) 2 (new_ids_distinct 100 2 ltac:(lia)) old_db (new_ids 200)) as (H & _).
  - cbn. lia.
  - intros o n Ho Hn. apply list_elem_of_singleton in Ho as ->. intros H. apply (f_equal uuid_int) in H.
    unfold old_team, new_ids, test_uuid, uuid_of_N in H. cbn [uuid_int o_org_id] in H.
    rewrite !N.mod_small in H by (unfold uuid_limit; lia). lia.
  - intros o u Ho _ Hs. apply list_elem_of_singleton in Ho as ->. discriminate Hs.
  - exact (H (old_user 1 None) ltac:(by left) eq_refl).
Defined.
Lemma seeded_roster_witness : Roster (upgrade_0008 (new_ids 100) (new_ids 200) (old_db <| organizations := [] |>)).
Proof.
  apply seeded_roster; [apply new_ids_distinct; vm_compute; discriminate|reflexivity..|]. intros o Ho. by apply elem_of_nil in Ho.
Defined.
Lemma password_history_backfilled_witness : exists r,
  r ∈ password_history (upgrade_0009 (new_ids 300) 7 old_db) /\ ph_identity_id r = test_uuid 501.
Proof.
  destruct (password_history_backfilled (new_ids 300) 7 old_db) as (H & _).
  exact (H (old_identity 1) "hash" ltac:(by left) eq_refl eq_refl).
Defined.
