(* ===== verification/PrivacyRepo.v ===== *)
(** [infrastructure/persistence/privacy_repository.py]: the audit history, the exports of personal
    data and the erasure of an account, in the database.

    [set_user_context] sets the context of row level security, which [RowSecurity] models. *)
From S2P Require Import Prelude PyText Entity Models RedisClient World Encoding.
From S2P Require RecoveryRepo.

(** ** The audit history *)

(** The filter of [search_audit_logs]; a filter that is absent, or an empty text, does not apply. *)
Definition given {A} (o : option A) (P : A -> bool) : bool := match o with Some a => P a | None => true end.
Definition given_text (o : option string) (P : string -> bool) : bool :=
  match o with Some s => if nonempty s then P s else true | None => true end.
Definition matches (filters : AuditSearchFilter) (a : AuditLog) : bool :=
  given (af_subject_user_id filters) (fun u => a_subject_user_id a == Some u)
  && given_text (af_event_type filters) (fun s => a_event_type a == s)
  && given_text (af_outcome filters) (fun s => a_outcome a == s)
  && given (af_occurred_from filters) (fun t => t <=? a_occurred_at a)
  && given (af_occurred_to filters) (fun t => a_occurred_at a <=? t).
(** Rows after the cursor, in the order of the pages; uuids are ordered by their bytes. *)
Definition uuid_key (u : UUID) : Z := Z.of_N (uuid_int u).
Definition beyond (cursor : Time * UUID) (a : AuditLog) : bool :=
  (a_occurred_at a <? cursor.1)
  || ((a_occurred_at a =? cursor.1) && (uuid_key (a_audit_id a) <? uuid_key cursor.2)).
Definition history (filters : AuditSearchFilter) (cursor : option (Time * UUID)) (db : Db) : list AuditLog :=
  order_by_desc a_occurred_at (order_by_desc (fun a => uuid_key (a_audit_id a))
    (where_ (fun a => matches filters a && given cursor (fun c => beyond c a)) (audit_logs db))).

Definition audit_record (a : AuditLog) : AuditRecord :=
  MkAuditRecord (a_audit_id a) (a_actor_user_id a) (a_subject_user_id a) (a_org_id a) (a_event_type a)
    (a_outcome a) (a_correlation_id a) (a_metadata_json a) (a_occurred_at a).
(** [f"{occurred_at.isoformat()}|{audit_id}"] in unpadded base64url. *)
Definition _encode_cursor (occurred_at : Time) (audit_id : UUID) : string :=
  b64url_encode (isoformat occurred_at +:+ "|" +:+ uuid_str audit_id).
Definition next_cursor_of (has_more : bool) (selected : list AuditLog) : option string :=
  if has_more then (fun a => _encode_cursor (a_occurred_at a) (a_audit_id a)) <$> list.last selected else None.

(** ** Personal data *)

Definition gdpr_by_key (user_id : UUID) (request_type key_hash : string) (db : Db) : option GDPRRequest :=
  scalar (fun g => (gq_user_id g == user_id) && (gq_request_type g == request_type)
                   && (gq_idempotency_key_hash g == Some key_hash)) (gdpr_requests db).
Definition gdpr_of_user (user_id request_id : UUID) (db : Db) : option GDPRRequest :=
  scalar (fun g => (gq_gdpr_request_id g == request_id) && (gq_user_id g == user_id)) (gdpr_requests db).
Definition set_gdpr (request_id : UUID) (f : GDPRRequest -> GDPRRequest) (db : Db) : Db :=
  db <| gdpr_requests ::= update_ (fun g => gq_gdpr_request_id g == request_id) f |>.
Definition _request (g : GDPRRequest) : PrivacyRequestRecord :=
  MkPrivacyRequestRecord (gq_gdpr_request_id g) (gq_user_id g) (gq_request_type g) (gq_state g)
    (gq_requested_at g) (gq_completed_at g) (gq_artifact_expires_at g) (gq_failure_code g)
    (gq_backup_purge_due_at g).
Definition export_completed (request_id : UUID) (now expires_at : Time) (g : GDPRRequest) : GDPRRequest :=
  g <| gq_state := "completed" |> <| gq_completed_at := Some now |>
    <| gq_artifact_reference := Some ("privacy-export:" +:+ uuid_str request_id) |>
    <| gq_artifact_expires_at := Some expires_at |>.
Definition request_failed (failure_code : string) (g : GDPRRequest) : GDPRRequest :=
  g <| gq_state := "failed" |> <| gq_failure_code := Some failure_code |>.

Definition jopt (o : option string) : json := match o with Some s => JStr s | None => JNull end.
(** [_time]; [str(value) if value else None] of an address. *)
Definition _time (o : option Time) : json := match o with Some t => JStr (isoformat t) | None => JNull end.
Definition jaddress (o : option string) : json := if truthy o then jopt o else JNull.
Definition of_user {row} (owner : row -> UUID) (user_id : UUID) (t : list row) : list row :=
  where_ (fun r => owner r == user_id) t.
Definition export_roles (user_id : UUID) (db : Db) : list (UserRoleBinding * (Organization * RolePermissionCatalog)) :=
  where_ (fun p => b_user_id p.1 == user_id)
    (join_on (fun b p => (o_org_id p.1 == b_org_id b) && (rc_catalog_id p.2 == b_catalog_id b))
       (user_role_bindings db) (join_on (fun _ _ => true) (organizations db) (role_permission_catalog db))).

Section Exports.
(** The column [updated_at] of an account, which the row of the model does not carry. *)
Context (updated_at : User -> Time).
Definition export_profile (user : User) : json :=
  JObj [("user_id", JStr (uuid_str (u_user_id user))); ("email", jopt (u_email user));
        ("given_name", jopt (u_given_name user)); ("family_name", jopt (u_family_name user));
        ("phone_e164", jopt (u_phone_e164 user)); ("state", JStr (u_state user));
        ("created_at", JStr (isoformat (u_created_at user))); ("updated_at", JStr (isoformat (updated_at user)))].
Definition export_identity (i : Identity) : json :=
  JObj [("provider", JStr (i_provider i)); ("provider_subject", JStr (i_provider_subject i));
        ("verified", JBool (i_verified i)); ("created_at", JStr (isoformat (i_created_at i)));
        ("last_used_at", _time (i_last_used_at i))].
Definition export_factor (m : MFADevice) : json :=
  JObj [("factor_type", JStr (m_factor_type m)); ("label", jopt (m_label m)); ("status", JStr (m_status m));
        ("verified_at", _time (m_verified_at m)); ("last_used_at", _time (m_last_used_at m))].
Definition export_session (s : Session) : json :=
  JObj [("session_id", JStr (uuid_str (s_session_id s)));
        ("workspace_id", match s_org_id s with Some o => JStr (uuid_str o) | None => JNull end);
        ("client_id", JStr (s_client_id s)); ("device_fingerprint_hash", JStr (s_device_fingerprint_hash s));
        ("ip_address", jaddress (s_ip_address s)); ("created_at", JStr (isoformat (s_created_at s)));
        ("last_activity_at", JStr (isoformat (s_last_activity_at s)));
        ("expires_at", JStr (isoformat (s_expires_at s))); ("revoked_at", _time (s_revoked_at s))].
Definition export_device (d : TrustedDevice) : json :=
  JObj [("fingerprint_hash", JStr (d_fingerprint_hash d)); ("trust_state", JStr (d_trust_state d));
        ("last_ip_address", jaddress (d_last_ip_address d));
        ("first_seen_at", JStr (isoformat (d_first_seen_at d)));
        ("last_seen_at", JStr (isoformat (d_last_seen_at d)))].
Definition export_role (p : UserRoleBinding * (Organization * RolePermissionCatalog)) : json :=
  JObj [("workspace_id", JStr (uuid_str (b_org_id p.1))); ("workspace_name", JStr (o_name p.2.1));
        ("role", JStr (rc_role p.2.2)); ("granted_at", JStr (isoformat (b_granted_at p.1)));
        ("revoked_at", _time (b_revoked_at p.1))].
Definition export_data (user_id : UUID) (now : Time) (db : Db) : dict :=
  match scalar (fun u => u_user_id u == user_id) (users db) with
  | None => []
  | Some user =>
    [("generated_at", JStr (isoformat now)); ("profile", export_profile user);
     ("identities", JList (List.map export_identity (of_user i_user_id user_id (identities db))));
     ("mfa_factors", JList (List.map export_factor (of_user m_user_id user_id (mfa_devices db))));
     ("sessions", JList (List.map export_session (of_user s_user_id user_id (sessions db))));
     ("trusted_devices", JList (List.map export_device (of_user d_user_id user_id (trusted_devices db))));
     ("workspace_roles", JList (List.map export_role (export_roles user_id db)))]
  end.
End Exports.

(** ** Erasure *)

(** [_has_sole_owned_organization]. *)
Definition owner_binding (P : UserRoleBinding -> bool) (db : Db) : list UserRoleBinding :=
  List.map fst (where_ (fun p => P p.1 && is_none (b_revoked_at p.1) && (rc_role p.2 == "OWNER"))
    (join_on (fun b c => rc_catalog_id c == b_catalog_id b) (user_role_bindings db) (role_permission_catalog db))).
Definition is_organization (org_id : UUID) (db : Db) : bool :=
  row_exists (fun o => (o_org_id o == org_id) && (o_workspace_type o == "organization")) (organizations db).
Definition _has_sole_owned_organization (user_id : UUID) (db : Db) : bool :=
  existsb (fun b =>
      is_organization (b_org_id b) db
      && match owner_binding (fun x => (b_org_id x == b_org_id b) && (b_user_id x != user_id)) db with
         | [] => true | _ => false end)
    (owner_binding (fun b => b_user_id b == user_id) db).

(** Deleting rows deletes the rows whose foreign key cascades: password hashes with their identity,
    passkeys with their factor, sessions and refresh tokens with their family. *)
Definition orphans {row} (key : row -> UUID) (gone : list UUID) (t : list row) : list row :=
  delete_ (fun r => key r is_in gone) t.
Definition delete_identities (user_id : UUID) (db : Db) : Db :=
  let gone := List.map i_identity_id (of_user i_user_id user_id (identities db)) in
  db <| identities ::= delete_ (fun i => i_user_id i == user_id) |>
     <| password_history ::= orphans ph_identity_id gone |>.
Definition delete_factors (user_id : UUID) (db : Db) : Db :=
  let gone := List.map m_mfa_id (of_user m_user_id user_id (mfa_devices db)) in
  db <| mfa_devices ::= delete_ (fun m => m_user_id m == user_id) |>
     <| webauthn_credentials ::= orphans w_mfa_id gone |>.
Definition delete_families (user_id : UUID) (db : Db) : Db :=
  let gone := List.map f_family_id (of_user f_user_id user_id (families db)) in
  db <| families ::= delete_ (fun f => f_user_id f == user_id) |>
     <| refresh_tokens ::= orphans t_family_id gone |>
     <| sessions ::= orphans s_family_id gone |>.
(** The rows the loop over the models deletes, and the exports. *)
Definition delete_owned (user_id : UUID) (db : Db) : Db :=
  db <| privacy_export_artifacts ::= delete_ (fun a => pa_user_id a == user_id) |>
     <| contact_change_requests ::= delete_ (fun c => c_user_id c == user_id) |>
     <| ephemeral_tokens ::= delete_ (fun e => e_user_id e == Some user_id) |>
     <| trusted_devices ::= delete_ (fun d => d_user_id d == user_id) |>
     <| staff_role_bindings ::= delete_ (fun s => sb_user_id s == user_id) |>
     <| user_role_bindings ::= delete_ (fun b => b_user_id b == user_id) |>.
Definition export_cancelled (g : GDPRRequest) : GDPRRequest :=
  g <| gq_state := "cancelled" |> <| gq_artifact_reference := None |> <| gq_artifact_expires_at := None |>.
Definition cancel_exports (user_id : UUID) (db : Db) : Db :=
  db <| gdpr_requests ::=
    update_ (fun g => (gq_user_id g == user_id) && (gq_request_type g == "export")) export_cancelled |>.
Definition erased_address (pseudonym : string) : string := "erased-" +:+ pseudonym +:+ "@invalid.local".
Definition referral_erased (pseudonym : string) (r : Referral) : Referral :=
  r <| rf_referred_user_id := None |> <| rf_invitee_email := erased_address pseudonym |> <| rf_state := "revoked" |>.
Definition erase_referrals (user_id : UUID) (pseudonym : string) (db : Db) : Db :=
  db <| referrals ::= fun t =>
    update_ (fun r => rf_referred_user_id r == Some user_id) (referral_erased pseudonym)
      (delete_ (fun r => rf_referrer_user_id r == user_id) t) |>.
Definition invitation_erased (pseudonym : string) (i : Invitation) : Invitation :=
  i <| in_invitee_email := erased_address pseudonym |> <| in_state := "revoked" |>.
Definition erase_invitations (previous_email : option string) (pseudonym : string) (db : Db) : Db :=
  match previous_email with
  | Some email =>
    if nonempty email
    then db <| invitations ::= update_ (fun i => citext_eq (in_invitee_email i) email) (invitation_erased pseudonym) |>
    else db
  | None => db
  end.
Definition personal_workspace_of (user_id : UUID) (o : Organization) : bool :=
  (o_personal_owner_user_id o == Some user_id) && (o_workspace_type o == "personal").
Definition workspace_erased (pseudonym : string) (o : Organization) : Organization :=
  o <| o_name := "Anonymized Portfolio" |> <| o_slug := "anonymized-" +:+ pseudonym |> <| o_state := "closed" |>
    <| o_subscription_metadata := [] |>.
Definition erase_workspace (user_id : UUID) (pseudonym : string) (db : Db) : Db :=
  db <| organizations ::= update_ (personal_workspace_of user_id) (workspace_erased pseudonym) |>.
(** The slug of another workspace, or of a second personal workspace, is unique. *)
Definition slug_taken (user_id : UUID) (pseudonym : string) (db : Db) : bool :=
  row_exists (personal_workspace_of user_id) (organizations db)
  && row_exists (fun o => (o_slug o == "anonymized-" +:+ pseudonym) && negb (personal_workspace_of user_id o))
       (organizations db).
Definition account_erased (now : Time) (u : User) : User :=
  u <| u_email := None |> <| u_given_name := None |> <| u_family_name := None |> <| u_phone_e164 := None |>
    <| u_state := "anonymized" |> <| u_anonymized_at := Some now |> <| u_version ::= Z.succ |>.
Definition erasure_completed (now due : Time) (g : GDPRRequest) : GDPRRequest :=
  g <| gq_state := "completed" |> <| gq_completed_at := Some now |> <| gq_backup_purge_due_at := Some due |>
    <| gq_artifact_reference := None |> <| gq_artifact_expires_at := None |>.
(** Every statement of [execute_erasure] but the audit row. *)
Definition erase_account (request_id user_id : UUID) (pseudonym : string) (previous_email : option string)
    (now due : Time) (db : Db) : Db :=
  set_gdpr request_id (erasure_completed now due)
  (RecoveryRepo.set_user user_id (account_erased now)
  (erase_workspace user_id pseudonym
  (erase_invitations previous_email pseudonym
  (erase_referrals user_id pseudonym
  (delete_families user_id
  (delete_identities user_id
  (delete_factors user_id
  (delete_owned user_id
  (cancel_exports user_id db))))))))).

Section Repository.
Context {R : Type} {E : Env}.
Abbreviation M := (prog R).

Definition audit_staff_has_role (user_id : UUID) (role : StaffRole) : M bool :=
  db ← get_db;
  mret (row_exists (fun s => (sb_user_id s == user_id) && (sb_role s == staff_value role) && is_none (sb_revoked_at s))
          (staff_role_bindings db)).

Definition search_audit_logs (actor_user_id : UUID) (filters : AuditSearchFilter) (cursor : option (Time * UUID))
    (limit : nat) (correlation_id : UUID) : M AuditPage :=
  '(has_more, selected) ← tx (
    db ← get_db;
    let records := List.firstn (limit + 1) (history filters cursor db) in
    let has_more := (limit <? length records)%nat in
    let selected := List.firstn limit records in
    insert_audit (Some actor_user_id) (Some (or_else (af_subject_user_id filters) actor_user_id)) None
      "AUDIT_LOGS_QUERIED" "success" correlation_id
      [("event_filter_applied", JBool (is_some (af_event_type filters)));
       ("outcome_filter_applied", JBool (is_some (af_outcome filters)));
       ("subject_filter_applied", JBool (is_some (af_subject_user_id filters)));
       ("result_count", JNum (Z.of_nat (length selected)))];;
    mret (has_more, selected));
  mret (MkAuditPage (List.map audit_record selected) (next_cursor_of has_more selected)).

Definition get_or_create_export (user_id : UUID) (key_hash : string) (artifact_expires_at : Time)
    (correlation_id : UUID) : M (PrivacyRequestRecord * bool) :=
  tx (
    db ← get_db;
    match gdpr_by_key user_id "export" key_hash db with
    | Some existing => mret (_request existing, false)
    | None =>
      request_id ← new_uuid4;
      now ← now_utc;
      let request := MkGDPRRequest request_id user_id "export" "processing" now None None (Some artifact_expires_at)
                       None (Some key_hash) None in
      add_row gdpr_requests gdpr_valid gdpr_conflict request;;
      insert_audit (Some user_id) (Some user_id) None "PRIVACY_EXPORT_REQUESTED" "success" correlation_id
        [("request_id", JStr (uuid_str request_id))];;
      mret (_request request, true)
    end).

Definition collect_export_data (updated_at : User -> Time) (user_id : UUID) : M dict :=
  now ← now_utc; db ← get_db; mret (export_data updated_at user_id now db).

Definition complete_export (request_id user_id : UUID) (encrypted_content content_digest : string)
    (artifact_expires_at : Time) (correlation_id : UUID) : M PrivacyRequestRecord :=
  now ← now_utc;
  tx (
    db ← get_db;
    request ← get_or LookupError (gdpr_of_user user_id request_id db);
    artifact_id ← new_uuid4;
    add_row privacy_export_artifacts no_check artifact_conflict
      (MkExportArtifact artifact_id request_id user_id encrypted_content content_digest now artifact_expires_at);;
    modify_db (set_gdpr request_id (export_completed request_id now artifact_expires_at));;
    insert_audit (Some user_id) (Some user_id) None "PRIVACY_EXPORT_COMPLETED" "success" correlation_id
      [("request_id", JStr (uuid_str request_id))];;
    mret (_request (export_completed request_id now artifact_expires_at request))).

Definition fail_export (request_id user_id : UUID) (failure_code : string) : M unit :=
  tx (
    db ← get_db;
    match scalar (fun g => gq_gdpr_request_id g == request_id) (gdpr_requests db) with
    | Some request =>
      if gq_user_id request == user_id then modify_db (set_gdpr request_id (request_failed failure_code)) else mret ()
    | None => mret ()
    end).

Definition get_privacy_request (user_id request_id : UUID) : M (option PrivacyRequestRecord) :=
  db ← get_db; mret (_request <$> gdpr_of_user user_id request_id db).

Definition get_export_artifact (user_id request_id : UUID) (now : Time) : M (option EncryptedExportArtifact) :=
  db ← get_db;
  mret ((fun a => MkEncryptedExportArtifact (pa_gdpr_request_id a) (pa_encrypted_content a) (pa_content_digest a)
                    (pa_expires_at a)) <$>
    scalar (fun a => (pa_gdpr_request_id a == request_id) && (pa_user_id a == user_id) && (now <? pa_expires_at a))
      (privacy_export_artifacts db)).

Definition get_or_create_erasure (user_id : UUID) (key_hash : string) (correlation_id : UUID)
    : M (option PrivacyRequestRecord * bool) :=
  tx (
    db ← get_db;
    match gdpr_by_key user_id "erasure" key_hash db with
    | Some existing => mret (Some (_request existing), false)
    | None =>
      if _has_sole_owned_organization user_id db then mret (None, false) else
      request_id ← new_uuid4;
      now ← now_utc;
      let request := MkGDPRRequest request_id user_id "erasure" "processing" now None None None
                       None (Some key_hash) None in
      add_row gdpr_requests gdpr_valid gdpr_conflict request;;
      insert_audit (Some user_id) (Some user_id) None "PRIVACY_ERASURE_REQUESTED" "success" correlation_id
        [("request_id", JStr (uuid_str request_id))];;
      mret (Some (_request request), true)
    end).

Definition execute_erasure (request_id user_id : UUID) (pseudonym : string) (now backup_purge_due_at : Time)
    (correlation_id : UUID) : M (option PrivacyRequestRecord) :=
  tx (
    db ← get_db;
    match scalar (fun g => (gq_gdpr_request_id g == request_id) && (gq_user_id g == user_id)
                           && (gq_request_type g == "erasure")) (gdpr_requests db),
          RecoveryRepo.user_by_id user_id db with
    | Some request, Some user =>
      if gq_state request == "completed" then mret (Some (_request request))
      else if _has_sole_owned_organization user_id db then
        modify_db (set_gdpr request_id (request_failed "OWNERSHIP_TRANSFER_REQUIRED"));;
        mret None
      else
        raise_if (slug_taken user_id pseudonym db) IntegrityError;;
        modify_db (erase_account request_id user_id pseudonym (u_email user) now backup_purge_due_at);;
        insert_audit (Some user_id) (Some user_id) None "PRIVACY_ACCOUNT_ERASED" "success" correlation_id
          [("request_id", JStr (uuid_str request_id)); ("backup_purge_due_at", JStr (isoformat backup_purge_due_at))];;
        mret (Some (_request (erasure_completed now backup_purge_due_at request)))
    | _, _ => mret None
    end).
End Repository.
