(* ===== verification/Privacy.v ===== *)
(** [control/privacy.py]: review of the audit history, exports of personal data and erasure of
    accounts, above the repositories, the cipher of the stored secrets and the session control. *)
From S2P Require Import Prelude PyText Entity Models RedisClient World Encoding Providers RedisSecurity Tokens.
From S2P Require PrivacyRepo SessionControl Recovery.

Definition SENSITIVE_METADATA_TERMS : list string :=
  ["assertion"; "code"; "email"; "evidence"; "ip"; "password"; "phone"; "secret"; "token"; "user_agent"].

Definition recent_mfa_required : exc :=
  PrivacyError Priv_RECENT_MFA_REQUIRED "Complete a recent extra security check before continuing." 403.
Definition audit_forbidden : exc :=
  PrivacyError Priv_AUDIT_FORBIDDEN "You are not authorized to review security audit history." 403.
Definition cursor_invalid : exc :=
  PrivacyError Priv_AUDIT_CURSOR_INVALID "The audit-page cursor is invalid or expired." 400.
Definition export_not_prepared : exc :=
  PrivacyError Priv_EXPORT_UNAVAILABLE "The export could not be prepared. Please try again later." 503.
Definition request_not_found : exc :=
  PrivacyError Priv_REQUEST_NOT_FOUND "The privacy request was not found." 404.
Definition integrity_failed : exc :=
  PrivacyError Priv_EXPORT_INTEGRITY_FAILED "The export failed its security verification." 500.
Definition erasure_failed : exc :=
  PrivacyError Priv_ERASURE_FAILED "The account could not be erased safely. Access remains revoked." 500.
Definition _export_unavailable : exc :=
  PrivacyError Priv_EXPORT_UNAVAILABLE "The export is unavailable, incomplete, or expired." 410.
Definition _ownership_transfer_required : exc :=
  PrivacyError Priv_OWNERSHIP_TRANSFER_REQUIRED
    "Transfer ownership of each organization before erasing this account." 409.

(** ** AuditQueryControl *)

Definition encode_cursor (occurred_at : Time) (audit_id : UUID) : string :=
  b64url_encode (isoformat occurred_at +:+ "|" +:+ uuid_str audit_id).
(** [None] is CURSOR_INVALID.  [b64url_decode] and [fromisoformat] refuse what [encode_cursor] never
    writes. *)
Definition read_cursor (cursor : string) : option (Time * UUID) :=
  decoded ← b64url_decode cursor;
  '(occurred_at, audit_id) ← split_once "|" decoded;
  parsed_time ← fromisoformat occurred_at;
  audit_id ← uuid_parse audit_id;
  Some (parsed_time, audit_id).

Definition is_sensitive (key : string) : bool :=
  existsb (fun term => contains term (casefold key)) SENSITIVE_METADATA_TERMS.
(** [_safe_value]; [_safe_metadata] is its case of a dict. *)
Fixpoint _safe_value (value : json) : json :=
  match value with
  | JObj items =>
    JObj (List.map (fun kv => (kv.1, if is_sensitive kv.1 then JStr "[REDACTED]" else _safe_value kv.2)) items)
  | JList items => JList (List.firstn 20 (List.map _safe_value items))
  | JStr s => JStr (take_s 120 s)
  | JNull | JBool _ | JNum _ => value
  end.
Definition _safe_metadata (metadata : dict) : dict :=
  List.map (fun kv => (kv.1, if is_sensitive kv.1 then JStr "[REDACTED]" else _safe_value kv.2)) metadata.
Definition _redact (r : AuditRecord) : AuditRecord :=
  MkAuditRecord (au_audit_id r) (au_actor_user_id r) (au_subject_user_id r) (au_org_id r) (au_event_type r)
    (au_outcome r) (au_correlation_id r) (_safe_metadata (au_metadata r)) (au_occurred_at r).

Section Control.
Context {R : Type} {RC : RedisClient R} {E : Env}.
Abbreviation M := (prog R).

Definition decode_cursor (cursor : string) : M (Time * UUID) := get_or cursor_invalid (read_cursor cursor).
Definition _require_recent_mfa (claims : AccessClaims) : M unit :=
  raise_if (negb (existsb (fun a => a is_in Recovery.STRONG_METHODS) (ac_assurance claims))) recent_mfa_required.

Definition search (claims : AccessClaims) (filters : AuditSearchFilter) (cursor : option string) (limit : nat)
    (correlation_id : UUID) : M AuditPage :=
  _require_recent_mfa claims;;
  b ← PrivacyRepo.audit_staff_has_role (ac_user_id claims) SECURITY_SUPERVISOR_L3;
  raise_if (negb b) audit_forbidden;;
  position ← match cursor with
             | Some c => if nonempty c then p ← decode_cursor c; mret (Some p) else mret None
             | None => mret None
             end;
  page ← PrivacyRepo.search_audit_logs (ac_user_id claims) filters position limit correlation_id;
  mret (MkAuditPage (List.map _redact (ap_items page)) (ap_next_cursor page)).

(** ** GDPRControl *)

Definition _key_hash (key : string) : string := hmac_sha256 privacy_idempotency_hmac_secret key.
Definition _pseudonym (user_id : UUID) : string :=
  take_s 24 (hmac_sha256 privacy_idempotency_hmac_secret ("erasure:" +:+ uuid_hex user_id)).
Definition _associated_data (user_id request_id : UUID) : string := uuid_hex user_id +:+ uuid_hex request_id.

Section Exports.
Context (updated_at : User -> Time).
(** The body of the [try] of [request_export]. *)
Definition build_export (claims : AccessClaims) (request : PrivacyRequestRecord) (expires_at : Time)
    (correlation_id : UUID) : M PrivacyRequestRecord :=
  export_data ← PrivacyRepo.collect_export_data updated_at (ac_user_id claims);
  let plaintext := json_text (JObj export_data) in
  encrypted ← cipher_encrypt plaintext (_associated_data (ac_user_id claims) (pr_request_id request));
  PrivacyRepo.complete_export (pr_request_id request) (ac_user_id claims) encrypted (sha256_hex plaintext)
    expires_at correlation_id.
Definition request_export (claims : AccessClaims) (idempotency_key : string) (correlation_id : UUID)
    : M PrivacyRequestRecord :=
  _require_recent_mfa claims;;
  now ← now_utc;
  let expires_at := now + hours privacy_export_ttl_hours in
  '(request, created) ← PrivacyRepo.get_or_create_export (ac_user_id claims) (_key_hash idempotency_key) expires_at
    correlation_id;
  if negb created then mret request else
  try_except (build_export claims request expires_at correlation_id)
    (fun _ => Some (PrivacyRepo.fail_export (pr_request_id request) (ac_user_id claims) "EXPORT_BUILD_FAILED";;
                    raise export_not_prepared)).
End Exports.

Definition get_request (claims : AccessClaims) (request_id : UUID) : M PrivacyRequestRecord :=
  request ← PrivacyRepo.get_privacy_request (ac_user_id claims) request_id;
  get_or request_not_found request.

Definition download_export (claims : AccessClaims) (request_id : UUID) : M ExportDownload :=
  _require_recent_mfa claims;;
  request ← get_request claims request_id;
  raise_if ((pr_request_type request != "export") || (pr_state request != "completed")) _export_unavailable;;
  now ← now_utc;
  artifact ← PrivacyRepo.get_export_artifact (ac_user_id claims) request_id now;
  artifact ← get_or _export_unavailable artifact;
  plaintext ← try_except
    (cipher_decrypt (ea_encrypted_content artifact) (_associated_data (ac_user_id claims) request_id))
    (fun err => match err with ValueError => Some (raise integrity_failed) | _ => None end);
  raise_if (sha256_hex plaintext != ea_content_digest artifact) integrity_failed;;
  mret (MkExportDownload request_id plaintext (ea_expires_at artifact)).

Definition request_erasure (claims : AccessClaims) (idempotency_key : string) (correlation_id : UUID)
    : M PrivacyRequestRecord :=
  _require_recent_mfa claims;;
  '(request, created) ← PrivacyRepo.get_or_create_erasure (ac_user_id claims) (_key_hash idempotency_key)
    correlation_id;
  request ← get_or _ownership_transfer_required request;
  if negb created then mret request else
  SessionControl.revoke_user_access (ac_user_id claims) "privacy_erasure";;
  now ← now_utc;
  completed ← try_except
    (PrivacyRepo.execute_erasure (pr_request_id request) (ac_user_id claims) (_pseudonym (ac_user_id claims)) now
       (now + days privacy_backup_purge_days) correlation_id)
    (fun _ => Some (PrivacyRepo.fail_export (pr_request_id request) (ac_user_id claims) "ERASURE_FAILED";;
                    raise erasure_failed));
  get_or _ownership_transfer_required completed.
End Control.
