(* ===== verification/AuditProps.v ===== *)
(** What the review of the audit history guarantees: following the cursors of the pages yields every
    matching row once and in order, and nothing sensitive leaves the service. *)
From stdpp Require Import sorting.
From S2P Require Import Prelude PyText Entity Models RedisClient World Encoding.
From S2P Require PrivacyRepo Privacy RecoveryInv.
Import RecoveryInv(db_step, with_audit).
Import PrivacyRepo(history, beyond, matches, uuid_key, given, audit_record).

(** ** The order of the history *)

(** ORDER BY on one key after another sorts by the pair of keys. *)
Section TwoKeys.
Context {row : Type} (f g : row -> Z).
Definition pair_le (a b : row) : Prop := f a < f b \/ (f a = f b /\ g a <= g b).
Lemma insert_asc_pair r l : StronglySorted pair_le l -> (forall x, x ∈ l -> g r <= g x) ->
  StronglySorted pair_le (insert_asc f r l).
Proof.
  induction 1 as [|x l Hs IH Hx]; intros Hg; cbn [insert_asc]; [by repeat constructor|].
  assert (Hgx : g r <= g x) by (apply Hg; by left).
  destruct (Z.leb_spec (f r) (f x)) as [Hle|Hgt].
  - constructor; [by constructor|]. constructor; [unfold pair_le; lia|].
    rewrite Forall_forall in *. intros y Hy. pose proof (Hx y Hy) as Hxy.
    pose proof (Hg y ltac:(right; by apply list_elem_of_In)). unfold pair_le in *. lia.
  - constructor; [apply IH; intros; apply Hg; by right|].
    rewrite Forall_forall in *. intros y Hy. apply list_elem_of_In in Hy. rewrite insert_asc_perm in Hy.
    apply elem_of_cons in Hy as [->|Hy]; [unfold pair_le; lia|]. by apply Hx, list_elem_of_In.
Qed.
Lemma order_by_pair l : StronglySorted (fun a b => g a <= g b) l -> StronglySorted pair_le (order_by f l).
Proof.
  induction 1 as [|x l Hs IH Hx]; [constructor|].
  change (order_by f (x :: l)) with (insert_asc f x (order_by f l)). apply insert_asc_pair; [done|].
  intros y Hy. rewrite order_by_perm in Hy. rewrite Forall_forall in Hx. by apply Hx, list_elem_of_In.
Qed.
Lemma order_by_strong l : StronglySorted (fun a b => g a <= g b) (order_by g l).
Proof. apply Sorted_StronglySorted; [intros ???; lia|]. apply order_by_sorted. Qed.
End TwoKeys.

Definition position (a : AuditLog) : Time * UUID := (a_occurred_at a, a_audit_id a).
(** [b] comes after [a] in the history. *)
Definition follows (a b : AuditLog) : Prop := beyond (position a) b = true.
Lemma beyond_iff p b : beyond p b = true <->
  a_occurred_at b < p.1 \/ (a_occurred_at b = p.1 /\ uuid_key (a_audit_id b) < uuid_key p.2).
Proof. unfold beyond. rewrite orb_true_iff, andb_true_iff, Z.ltb_lt, Z.eqb_eq, Z.ltb_lt. done. Qed.
Lemma uuid_key_inj u v : uuid_key u = uuid_key v -> u = v.
Proof. unfold uuid_key. intros H. apply uuid_eq. lia. Qed.

Section History.
Context (filters : AuditSearchFilter).

Definition selected (cursor : option (Time * UUID)) (db : Db) : list AuditLog :=
  where_ (fun a => matches filters a && given cursor (fun c => beyond c a)) (audit_logs db).
Lemma history_perm cursor db : history filters cursor db ≡ₚ selected cursor db.
Proof. unfold history, order_by_desc. by rewrite !order_by_perm. Qed.
Lemma history_sorted cursor db : NoDup (List.map a_audit_id (audit_logs db)) ->
  StronglySorted follows (history filters cursor db).
Proof.
  intros Hn.
  assert (Hs : StronglySorted (pair_le (fun a => - a_occurred_at a) (fun a => - uuid_key (a_audit_id a)))
                 (history filters cursor db)) by apply order_by_pair, order_by_strong.
  assert (Hnd : NoDup (history filters cursor db)).
  { rewrite history_perm. apply nodup_where. by eapply nodup_key_rows. }
  assert (Hsub : forall a, a ∈ history filters cursor db -> a ∈ audit_logs db).
  { intros a. rewrite history_perm. by intros [? _]%elem_of_where. }
  revert Hs Hnd Hsub. generalize (history filters cursor db). induction 1 as [|a l Hs IH Ha]; intros Hnd Hsub; [constructor|].
  apply list.NoDup_cons in Hnd as [Hni Hnd]. constructor; [apply IH; [done|]; intros; apply Hsub; by right|].
  rewrite Forall_forall in *. intros b Hb. specialize (Ha b Hb). apply list_elem_of_In in Hb. apply beyond_iff. cbn.
  unfold pair_le in Ha. destruct Ha as [?|[? Hle]]; [lia|]. right. split; [lia|].
  assert (uuid_key (a_audit_id b) <> uuid_key (a_audit_id a)); [|lia]. intros He%uuid_key_inj.
  apply Hni. rewrite <- (nodup_key a_audit_id (audit_logs db) b a Hn); [done|apply Hsub; by right|apply Hsub; by left|done].
Qed.

(** What follows a row of the history is the history after its position. *)
Lemma follows_trans a b c : follows a b -> follows b c -> follows a c.
Proof. unfold follows. rewrite !beyond_iff. cbn. lia. Qed.
Lemma follows_asym a b : follows a b -> follows b a -> False.
Proof. unfold follows. rewrite !beyond_iff. cbn. lia. Qed.
#[global] Instance follows_anti : AntiSymm (=) follows.
Proof. intros a b Hab Hba. destruct (follows_asym _ _ Hab Hba). Qed.
Lemma sorted_suffix l1 a l2 : StronglySorted follows (l1 ++ a :: l2) ->
  where_ (beyond (position a)) (l1 ++ a :: l2) = l2.
Proof.
  intros H. rewrite where_app. rewrite where_nil; cbn [app].
  2: { intros b Hb. destruct (beyond (position a) b) eqn:E; [|done]. exfalso. apply (follows_asym a b E).
       eapply (StronglySorted_app_1_elem_of follows); [exact H|done|by left]. }
  apply StronglySorted_app_1_r in H. inversion_clear H as [|? ? Hs Hf].
  unfold where_. cbn [List.filter]. destruct (beyond (position a) a) eqn:E; [destruct (follows_asym _ _ E E)|].
  rewrite Forall_forall in Hf. clear Hs E. induction l2 as [|b l IH]; [done|]. cbn [List.filter].
  assert (Hb : beyond (position a) b = true) by (apply Hf; by left). rewrite Hb. f_equal. apply IH. intros x Hx. apply Hf. by right.
Qed.
Lemma history_rest cursor db l1 a l2 : NoDup (List.map a_audit_id (audit_logs db)) ->
  history filters cursor db = l1 ++ a :: l2 -> history filters (Some (position a)) db = l2.
Proof.
  intros Hn H. pose proof (history_sorted cursor db Hn) as Hs. rewrite H in Hs.
  apply (StronglySorted_unique follows); [by apply history_sorted|by apply StronglySorted_app_1_r in Hs; inversion Hs|].
  rewrite history_perm. transitivity (where_ (beyond (position a)) (history filters cursor db)); [|by rewrite H, sorted_suffix].
  assert (Ha : given cursor (fun c => beyond c a) = true).
  { assert (Hin : a ∈ history filters cursor db) by (rewrite H; apply elem_of_app; right; by left).
    rewrite history_perm in Hin. apply elem_of_where in Hin as [_ Hin]. by apply andb_true_iff in Hin as [_ ?]. }
  rewrite (where_perm _ _ _ (history_perm cursor db)). unfold selected. rewrite where_where. cbn [given].
  erewrite where_ext; [done|]. intros b _. cbn. rewrite <- andb_assoc. f_equal.
  destruct (beyond (position a) b) eqn:Hb; [|by rewrite andb_false_r]. rewrite andb_true_r. symmetry.
  destruct cursor as [c|]; [|done]. cbn [given] in *. rewrite beyond_iff in *. cbn [position fst snd] in *. lia.
Qed.
(** Rows that are younger than a position do not appear after it. *)
Lemma history_younger p db db' new : audit_logs db' = audit_logs db ++ new ->
  (forall a, a ∈ new -> p.1 < a_occurred_at a) -> history filters (Some p) db' = history filters (Some p) db.
Proof.
  intros Hl Hn. unfold history. rewrite Hl, where_app, (where_nil _ new), app_nil_r; [done|].
  intros a Ha. apply andb_false_iff. right. cbn [given]. apply not_true_iff_false. rewrite beyond_iff.
  specialize (Hn a Ha). lia.
Qed.
End History.

(** ** Cursors *)

(** The instants a [datetime] represents, and how their texts are told from an identifier. *)
Definition datable (t : Time) : Prop := 0 <= (civil_of_days (t / days 1)).1.1 < 10000.
Lemma split_once_app c l r : str_all (fun a => a != c) l = true -> split_once c (l +:+ String c "" +:+ r) = Some (l, r).
Proof.
  induction l as [|a l IH]; cbn [str_all]; intros H.
  - change (split_once c (String c r) = Some (EmptyString, r)). cbn [split_once]. by rewrite eqb_refl.
  - apply andb_true_iff in H as [H1 H2]. rewrite append_cons. cbn [split_once].
    destruct (a == c); [done|]. by rewrite IH.
Qed.
Definition is_dec (c : ascii) : bool := ((48 <=? code c) && (code c <=? 57))%N.
Lemma dec_digits_all w n rest : str_all is_dec rest = true -> str_all is_dec (dec_digits w n rest) = true.
Proof.
  revert n rest. induction w as [|w IH]; intros n rest H; cbn [dec_digits]; [done|]. apply IH. cbn [str_all].
  rewrite H, andb_true_r. unfold is_dec. pose proof (N.mod_lt n 10 ltac:(lia)).
  replace (code (ascii_of_N (48 + n mod 10))) with (48 + n mod 10)%N by (symmetry; apply N_ascii_embedding; lia).
  rewrite andb_true_iff, !N.leb_le. generalize dependent (n mod 10)%N. lia.
Qed.
Lemma digits_no_bar w n : str_all (fun a => a != "|"%char) (dec_digits w n "") = true.
Proof.
  eapply str_all_imp; [|by apply (dec_digits_all w n "")].
  intros c H. apply negb_true_iff, bool_decide_eq_false. intros ->. vm_compute in H. done.
Qed.
Lemma isoformat_no_bar t : str_all (fun a => a != "|"%char) (isoformat t) = true.
Proof.
  unfold isoformat. destruct (civil_of_days (t / days 1)) as [[y m] d]. cbv zeta.
  rewrite !str_all_app, !digits_no_bar. destruct (t mod second =? 0); [done|]. by rewrite str_all_app, digits_no_bar.
Qed.
Lemma read_cursor_steps c text l r t u : b64url_decode c = Some text -> split_once "|" text = Some (l, r) ->
  fromisoformat l = Some t -> uuid_parse r = Some u -> Privacy.read_cursor c = Some (t, u).
Proof. intros H1 H2 H3 H4. unfold Privacy.read_cursor. rewrite H1. cbn. rewrite H2. cbn. rewrite H3. cbn. by rewrite H4. Qed.
Lemma cursor_roundtrip t u : datable t -> Privacy.read_cursor (PrivacyRepo._encode_cursor t u) = Some (t, u).
Proof.
  intros Ht. eapply read_cursor_steps.
  - apply b64url_decode_encode.
  - apply split_once_app, isoformat_no_bar.
  - by apply fromisoformat_isoformat.
  - apply uuid_parse_str.
Qed.

(** ** Following the pages *)

Section Pages.
Context {R : Type} {RC : RedisClient R} {E : Env}.
Implicit Types (w : World R).

Definition supervises (claims : AccessClaims) (db : Db) : bool :=
  existsb (fun a => a is_in Recovery.STRONG_METHODS) (ac_assurance claims)
  && row_exists (fun s => (sb_user_id s == ac_user_id claims) && (sb_role s == staff_value SECURITY_SUPERVISOR_L3)
                          && is_none (sb_revoked_at s)) (staff_role_bindings db).
Definition after_row (a : AuditLog) : string := PrivacyRepo._encode_cursor (a_occurred_at a) (a_audit_id a).
Definition item (a : AuditLog) : AuditRecord := Privacy._redact (audit_record a).

Lemma firstn_take_more {A} (l : list A) limit : List.firstn limit (List.firstn (limit + 1) l) = List.firstn limit l.
Proof. rewrite List.firstn_firstn. f_equal. lia. Qed.
Lemma length_take_more {A} (l : list A) limit : (limit <? length (List.firstn (limit + 1) l))%nat = (limit <? length l)%nat.
Proof. rewrite List.length_firstn. destruct (Nat.ltb_spec limit (length l)); [apply Nat.ltb_lt|apply Nat.ltb_ge]; lia. Qed.
(** A page is the next rows of the history; the query itself is written down. *)
Definition page_of (H : list AuditLog) (limit : nat) : AuditPage :=
  MkAuditPage (List.map item (List.firstn limit H))
    (if (limit <? length H)%nat then after_row <$> list.last (List.firstn limit H) else None).
Lemma run_insert_audit a s o et c m w : insert_audit a s o et "success" c m w
  = (inr (), next_seed (with_db (with_audit (MkAuditLog (uuid4 (w_seed w)) a s o et "success" c m (w_now w)) (w_db w)) w)).
Proof. unfold insert_audit. run. unfold add_row. run. by destruct w. Qed.
Lemma run_search_logs actor filters position limit cid w : exists row w',
  PrivacyRepo.search_audit_logs actor filters position limit cid w
    = (inr (MkAuditPage (List.map audit_record (List.firstn limit (history filters position (w_db w))))
             (ap_next_cursor (page_of (history filters position (w_db w)) limit))), w') /\
  w_db w' = with_audit row (w_db w) /\ a_occurred_at row = w_now w /\ db_step w w'.
Proof.
  unfold PrivacyRepo.search_audit_logs. do 2 eexists. split.
  - erewrite run_bind.
    2: { apply run_tx. rewrite bind_get_db. cbv zeta. rewrite (run_bind _ _ _ _ _ (run_insert_audit _ _ _ _ _ _ _)). reflexivity. }
    cbv beta iota. rewrite length_take_more, firstn_take_more. reflexivity.
  - by repeat split.
Qed.
Lemma run_search claims filters cursor position limit cid w :
  supervises claims (w_db w) = true ->
  match cursor with
  | Some c => nonempty c = true /\ exists p, Privacy.read_cursor c = Some p /\ position = Some p
  | None => position = None
  end ->
  exists row w', Privacy.search claims filters cursor limit cid w
    = (inr (page_of (history filters position (w_db w)) limit), w') /\
    w_db w' = with_audit row (w_db w) /\ a_occurred_at row = w_now w /\ db_step w w'.
Proof.
  intros Hs Hc. unfold supervises in Hs. apply andb_true_iff in Hs as [H1 H2].
  destruct (run_search_logs (ac_user_id claims) filters position limit cid w) as (row & w' & Hr & Hdb & Ho & Hst).
  exists row, w'. split; [|done].
  unfold Privacy.search, Privacy._require_recent_mfa. rewrite H1. cbn [negb]. run.
  unfold PrivacyRepo.audit_staff_has_role. run. rewrite H2. cbn [negb]. run.
  rewrite (run_bind _ _ w position w).
  2: { destruct cursor as [c|]; [|by subst]. destruct Hc as (Hn & p & Hp & ->). rewrite Hn.
       unfold Privacy.decode_cursor. rewrite Hp. by run. }
  rewrite (run_bind _ _ _ _ _ Hr). cbn [ap_items ap_next_cursor]. rewrite map_map. reflexivity.
Qed.

(** A reviewer asks for the first page and follows the cursors, each request at its own instant;
    [None] is a refusal, or a review that has not come to its end. *)
Fixpoint review (claims : AccessClaims) (filters : AuditSearchFilter) (limit : nat) (cid : UUID)
    (instants : list Time) (cursor : option string) w : option (list AuditRecord) :=
  match instants with
  | [] => None
  | t :: instants =>
    match Privacy.search claims filters cursor limit cid (at_time t w) with
    | (inr page, w') =>
      match ap_next_cursor page with
      | Some next => app (ap_items page) <$> review claims filters limit cid instants (Some next) w'
      | None => Some (ap_items page)
      end
    | (inl _, _) => None
    end
  end.

Lemma split_page {A} n (l : list A) : (0 < n)%nat -> (n < length l)%nat ->
  exists l1 a l2, l = (l1 ++ [a]) ++ l2 /\ List.firstn n l = l1 ++ [a] /\ length (l1 ++ [a]) = n.
Proof.
  intros H0 Hn. assert (Hl : length (List.firstn n l) = n) by (rewrite List.length_firstn; lia).
  destruct (List.exists_last (l := List.firstn n l)) as (l1 & x & Hx); [by intros H; rewrite H in Hl; cbn in Hl; lia|].
  exists l1, x, (List.skipn n l). rewrite <- Hx. by rewrite List.firstn_skipn.
Qed.
Lemma read_after_row a : datable (a_occurred_at a) -> Privacy.read_cursor (after_row a) = Some (position a).
Proof. exact (cursor_roundtrip (a_occurred_at a) (a_audit_id a)). Qed.
Lemma nonempty_cursor a : datable (a_occurred_at a) -> nonempty (after_row a) = true.
Proof.
  intros H. unfold nonempty. apply negb_true_iff, bool_decide_eq_false. intros He.
  pose proof (read_after_row a H) as Hc. by rewrite He in Hc.
Qed.

Section Review.
Context (claims : AccessClaims) (filters : AuditSearchFilter) (limit : nat) (cid : UUID) (db0 : Db).
Context (Hlimit : (0 < limit)%nat) (Hids : NoDup (List.map a_audit_id (audit_logs db0)))
  (Hdates : forall a, a ∈ audit_logs db0 -> datable (a_occurred_at a)).
Definition younger (t : Time) : Prop := forall a, a ∈ audit_logs db0 -> a_occurred_at a < t.

Lemma review_from instants cursor p w new : instants <> [] -> (forall t, t ∈ instants -> younger t) ->
  supervises claims (w_db w) = true -> audit_logs (w_db w) = audit_logs db0 ++ new ->
  (forall a, a ∈ new -> younger (a_occurred_at a)) ->
  history filters p (w_db w) = history filters p db0 ->
  match cursor with
  | Some c => nonempty c = true /\ exists q, Privacy.read_cursor c = Some q /\ p = Some q
  | None => p = None
  end ->
  (length (history filters p db0) <= limit * length instants)%nat ->
  review claims filters limit cid instants cursor w = Some (List.map item (history filters p db0)).
Proof.
  revert cursor p w new. induction instants as [|t instants IH]; [done|].
  intros cursor p w new _ Hy Hs Hl Hnew Hh Hc Hlen. cbn [review].
  destruct (run_search claims filters cursor p limit cid (at_time t w) Hs Hc) as (row & w' & -> & Hdb & Hrow & _).
  wsimpl_in Hdb. cbn [at_time set w_db w_now] in *. rewrite Hh. set (H := history filters p db0) in *.
  unfold page_of. cbn [ap_next_cursor ap_items]. destruct (Nat.ltb_spec limit (length H)) as [Hlt|Hge].
  2: { by rewrite firstn_all2. }
  destruct (split_page limit H Hlimit Hlt) as (l1 & a & l2 & HH & Hf & Hn). rewrite Hf, last_snoc. cbn [fmap option_fmap option_map].
  assert (Ha : a ∈ audit_logs db0).
  { assert (Hin : a ∈ H) by (rewrite HH; apply elem_of_app; left; apply elem_of_snoc; by right).
    unfold H in Hin. rewrite history_perm in Hin. by apply elem_of_where in Hin as [? _]. }
  assert (Hrest : history filters (Some (position a)) db0 = l2).
  { apply (history_rest filters p db0 l1); [done|]. fold H. by rewrite HH, <- app_assoc. }
  assert (Hl' : audit_logs (w_db w') = audit_logs db0 ++ (new ++ [row])) by (rewrite Hdb; cbn; by rewrite Hl, app_assoc).
  assert (Hnew' : forall b, b ∈ new ++ [row] -> younger (a_occurred_at b)).
  { intros b [Hb| ->]%elem_of_snoc; [by apply Hnew|]. rewrite Hrow. apply Hy. by left. }
  assert (Hlen' : (length H = limit + length l2)%nat) by (rewrite HH, length_app; lia).
  rewrite (IH _ (Some (position a)) w' (new ++ [row])).
  - cbn [fmap option_fmap option_map]. by rewrite Hrest, HH, !map_app.
  - intros ->. cbn in Hlen. lia.
  - intros t' Ht'. apply Hy. by right.
  - by rewrite Hdb.
  - done.
  - done.
  - apply (history_younger filters (position a) db0 (w_db w') (new ++ [row]) Hl'). intros b Hb. by apply Hnew'.
  - split; [by apply nonempty_cursor, Hdates|]. exists (position a). split; [exact (read_after_row a (Hdates a Ha))|done].
  - rewrite Hrest. cbn [length] in Hlen. lia.
Qed.
End Review.

(** C25: the review of the audit history comes to its end and misses nothing.  A supervisor who asks
    for the first page and follows the cursors sees exactly the rows that match the filter, each of
    them once, from the youngest to the oldest, however many pages that takes and although each of
    these requests adds a row to the history; as many requests as there are pages are enough. *)
Theorem audit_review_complete claims filters limit cid instants w :
  (0 < limit)%nat -> instants <> [] -> NoDup (List.map a_audit_id (audit_logs (w_db w))) ->
  (forall a, a ∈ audit_logs (w_db w) -> datable (a_occurred_at a)) ->
  (forall t a, t ∈ instants -> a ∈ audit_logs (w_db w) -> a_occurred_at a < t) ->
  supervises claims (w_db w) = true ->
  (count_ (matches filters) (audit_logs (w_db w)) <= limit * length instants)%nat ->
  exists rows, rows ≡ₚ where_ (matches filters) (audit_logs (w_db w)) /\ StronglySorted follows rows /\
    review claims filters limit cid instants None w = Some (List.map item rows).
Proof.
  intros H0 Hi Hn Hd Hy Hs Hlen. exists (history filters None (w_db w)).
  assert (Hp : history filters None (w_db w) ≡ₚ where_ (matches filters) (audit_logs (w_db w))).
  { rewrite history_perm. unfold selected. cbn [given]. erewrite where_ext; [done|]. intros. by rewrite andb_true_r. }
  split; [done|]. split; [by apply history_sorted|].
  apply (review_from claims filters limit cid (w_db w) H0 Hn Hd instants None None w []); try done.
  - intros t Ht a. by apply Hy.
  - by rewrite app_nil_r.
  - by intros a ?%elem_of_nil.
  - by rewrite Hp.
Qed.
End Pages.

(** ** Redaction *)

(** What may be shown: no value of a sensitive name at any depth, no long text, no long list. *)
Fixpoint shown (v : json) : bool :=
  match v with
  | JObj items => forallb (fun kv => (if Privacy.is_sensitive kv.1 then json_eqb kv.2 (JStr "[REDACTED]") else true)
                                     && shown kv.2) items
  | JList l => (length l <=? 20)%nat && forallb shown l
  | JStr s => (String.length s <=? 120)%nat
  | JNull | JBool _ | JNum _ => true
  end.
Lemma length_take_s n s : (String.length (take_s n s) <= n)%nat.
Proof. revert s. induction n as [|n IH]; intros [|c s]; cbn; try lia. specialize (IH s). lia. Qed.
Lemma take_s_short n s : (String.length s <= n)%nat -> take_s n s = s.
Proof. revert s. induction n as [|n IH]; intros [|c s]; cbn; intros H; try done; [lia|]. rewrite IH; [done|lia]. Qed.
Lemma forallb_firstn {A} (P : A -> bool) n l : forallb P l = true -> forallb P (List.firstn n l) = true.
Proof. rewrite !forallb_forall. intros H x Hx. apply H. rewrite <- (List.firstn_skipn n l). apply in_app_iff. by left. Qed.

Lemma shown_safe v : shown (Privacy._safe_value v) = true.
Proof.
  revert v. fix IH 1. intros [|b|n|s|l|l]; try reflexivity.
  - apply Nat.leb_le, length_take_s.
  - cbn [Privacy._safe_value shown]. apply andb_true_iff. split; [apply Nat.leb_le, firstn_le_length|].
    apply forallb_firstn. induction l as [|x l IHl]; [done|]. cbn [List.map forallb]. by rewrite IH.
  - cbn [Privacy._safe_value shown]. induction l as [|[k x] l IHl]; [done|]. cbn [List.map forallb fst snd].
    rewrite IHl. destruct (Privacy.is_sensitive k); [done|]. by rewrite IH.
Qed.
Lemma safe_shown v : shown v = true -> Privacy._safe_value v = v.
Proof.
  revert v. fix IH 1. intros [|b|n|s|l|l] H; try reflexivity.
  - cbn [Privacy._safe_value shown] in *. apply Nat.leb_le in H. by rewrite take_s_short.
  - cbn [Privacy._safe_value shown] in *. apply andb_true_iff in H as [Hn H]. apply Nat.leb_le in Hn.
    rewrite firstn_all2 by (by rewrite length_map). f_equal. clear Hn.
    induction l as [|x l IHl]; [done|]. cbn [forallb] in H. apply andb_true_iff in H as [Hx Hl].
    cbn [List.map]. by rewrite (IH x Hx), (IHl Hl).
  - cbn [Privacy._safe_value shown] in *. f_equal.
    induction l as [|[k x] l IHl]; [done|]. cbn [forallb fst snd] in H. apply andb_true_iff in H as [Hx Hl].
    cbn [List.map fst snd]. rewrite (IHl Hl). apply andb_true_iff in Hx as [Hk Hx].
    destruct (Privacy.is_sensitive k); [|by rewrite (IH x Hx)]. apply json_eqb_spec in Hk. by rewrite Hk.
Qed.

Section Redaction.
Context {R : Type} {RC : RedisClient R} {E : Env}.
Implicit Types (w : World R).

(** C26: reviewing the audit history is for supervisors after a strong factor, and nothing sensitive
    is shown.  A review that returned was asked by one; every item is a row of the history whose
    metadata holds, at every depth, no value under a sensitive name, no text of more than 120
    characters and no list of more than 20 items, and metadata that was fit to be shown is
    unchanged; the review itself is recorded. *)
Theorem audit_review_redacted claims filters cursor limit cid w page w' :
  Privacy.search claims filters cursor limit cid w = (inr page, w') ->
  supervises claims (w_db w) = true /\
  (exists row, w_db w' = with_audit row (w_db w) /\ a_event_type row = "AUDIT_LOGS_QUERIED" /\
    a_actor_user_id row = Some (ac_user_id claims)) /\
  forall r, r ∈ ap_items page -> shown (JObj (au_metadata r)) = true /\
    exists a, a ∈ audit_logs (w_db w) /\ matches filters a = true /\ au_audit_id r = a_audit_id a /\
      (shown (JObj (a_metadata_json a)) = true -> au_metadata r = a_metadata_json a).
Proof.
  intros H. unfold Privacy.search, Privacy._require_recent_mfa in H. unfold supervises.
  destruct (existsb _ _) eqn:Es; cbn [negb] in H; run_in H; [|done].
  unfold PrivacyRepo.audit_staff_has_role in H. run_in H.
  destruct (row_exists _ _) eqn:Er; cbn [negb] in H; run_in H; [|done]. split; [done|].
  step_in H p w1 Hp. assert (w1 = w) as ->.
  { destruct cursor as [c|]; [|by injection Hp]. destruct (nonempty c); [|by injection Hp].
    unfold Privacy.decode_cursor in Hp. destruct (Privacy.read_cursor c); run_in Hp; [by injection Hp|done]. }
  step_in H pg w2 Hpg. injection H as <- <-. unfold PrivacyRepo.search_audit_logs in Hpg.
  step_in Hpg q w3 Hq. destruct q as [more rows]. injection Hpg as <- <-. cbn [ap_items].
  apply tx_inr in Hq. run_in Hq. rewrite (run_bind _ _ _ _ _ (run_insert_audit _ _ _ _ _ _ _)) in Hq.
  injection Hq as _ <- <-. split; [by eexists|].
  intros r Hr. apply list_elem_of_In in Hr. rewrite map_map in Hr. apply in_map_iff in Hr as (a & <- & Ha).
  split; [exact (shown_safe (JObj (a_metadata_json a)))|]. exists a.
  assert (Hin : a ∈ history filters p (w_db w)).
  { apply list_elem_of_In. rewrite <- (List.firstn_skipn (limit + 1)). apply in_app_iff. left.
    rewrite <- (List.firstn_skipn limit). apply in_app_iff. by left. }
  rewrite history_perm in Hin. apply elem_of_where in Hin as [Hin Hm]. apply andb_true_iff in Hm as [Hm _].
  split_and!; try done. intros Hs. pose proof (safe_shown _ Hs) as Hv. by injection Hv.
Qed.
End Redaction.
