(* ===== verification/PrivacyProps.v ===== *)
(** What the privacy requests guarantee: an export holds what was stored and only its owner reads it,
    and an erasure leaves nothing personal behind and no access. *)
From S2P Require Import Prelude PyText Entity Models RedisClient World Encoding Providers RedisSecurity Tokens.
From S2P Require Import SessionInv SessionProps WorkspaceRepo WorkspaceInv PrivacyRepo Privacy.
From S2P Require SessionRepo SessionControl SessionControlProps RecoveryRepo RecoveryInv AuditProps RecoveryProps Wiring.
Import RecoveryInv(db_step, with_audit).
Import AuditProps(run_insert_audit).

(** ** Exports *)

Section Exports.
Context {R : Type} {RC : RedisClient R} {E : Env}.
Implicit Types (w : World R) (u : UUID).

Definition strong (claims : AccessClaims) : bool :=
  existsb (fun a => a is_in Recovery.STRONG_METHODS) (ac_assurance claims).
Lemma run_recent_mfa {A} claims (k : prog R A) w : strong claims = true -> (_require_recent_mfa claims;; k) w = k w.
Proof. unfold _require_recent_mfa, strong. by intros ->. Qed.
Lemma recent_mfa_inr {A} claims (k : prog R A) w x w' : (_require_recent_mfa claims;; k) w = (inr x, w') ->
  strong claims = true /\ k w = (inr x, w').
Proof. unfold _require_recent_mfa, strong. by destruct (existsb _ _). Qed.

(** The row of a new request, and the world after it was recorded. *)
Definition export_request (rid u : UUID) (now expires_at : Time) (key_hash : string) : GDPRRequest :=
  MkGDPRRequest rid u "export" "processing" now None None (Some expires_at) None (Some key_hash) None.
Lemma new_export_inr u key_hash expires_at cid w request w' :
  gdpr_by_key u "export" key_hash (w_db w) = None ->
  get_or_create_export u key_hash expires_at cid w = (inr (request, true), w') ->
  exists g row, g = export_request (uuid4 (w_seed w)) u (w_now w) expires_at key_hash /\ request = _request g /\
    gdpr_conflict (gdpr_requests (w_db w)) g = false /\
    w_db w' = with_audit row ((w_db w) <| gdpr_requests ::= fun t => t ++ [g] |>) /\ db_step w w'.
Proof.
  intros Hk H. unfold get_or_create_export in H. apply tx_inr in H. rewrite bind_get_db, Hk in H.
  rewrite bind_uuid4, bind_now in H. cbv zeta in H. step_in H x w1 H1. apply add_row_inr in H1 as (_ & Hc & ->).
  rewrite (run_bind _ _ _ _ _ (run_insert_audit _ _ _ _ _ _ _)) in H. injection H as <- <-.
  do 2 eexists. split_and!; [reflexivity|reflexivity|exact Hc|reflexivity|by repeat split].
Qed.
Lemma export_complete_inr rid u enc digest expires_at cid w r w' :
  complete_export rid u enc digest expires_at cid w = (inr r, w') ->
  exists g row aid, gdpr_of_user u rid (w_db w) = Some g /\ r = _request (export_completed rid (w_now w) expires_at g) /\
    let a := MkExportArtifact aid rid u enc digest (w_now w) expires_at in
    artifact_conflict (privacy_export_artifacts (w_db w)) a = false /\
    w_db w' = with_audit row (set_gdpr rid (export_completed rid (w_now w) expires_at)
      ((w_db w) <| privacy_export_artifacts ::= fun t => t ++ [a] |>)) /\ db_step w w'.
Proof.
  unfold complete_export. intros H. rewrite bind_now in H. apply tx_inr in H. rewrite bind_get_db in H.
  destruct (gdpr_of_user u rid (w_db w)) as [g|] eqn:Eg; [|done]. rewrite bind_get_or_some, bind_uuid4 in H.
  step_in H x w1 H1. apply add_row_inr in H1 as (_ & Hc & ->). rewrite bind_modify_db in H.
  rewrite (run_bind _ _ _ _ _ (run_insert_audit _ _ _ _ _ _ _)) in H. injection H as <- <-.
  do 3 eexists. split_and!; [reflexivity|reflexivity|exact Hc|reflexivity|by repeat split].
Qed.

(** The encryption keeps what is encrypted, under the same associated data. *)
Definition cipher_laws : Prop := (forall d, String.length (urandom 12 d) = 12%nat) /\
  (forall n p ad, (String.length p + 16 <= String.length (aes_encrypt n p ad))%nat) /\
  forall n p ad, aes_decrypt n (aes_encrypt n p ad) ad = Some p.
Lemma run_decrypt p ad w enc w1 w2 : cipher_laws -> (0 < String.length p)%nat ->
  cipher_encrypt p ad w = (inr enc, w1) -> cipher_decrypt enc ad w2 = (inr p, w2).
Proof.
  intros (Hl & Ht & Hd) Hp H. unfold cipher_encrypt in H. rewrite bind_draw in H. injection H as <- _.
  unfold cipher_decrypt. rewrite append_length, append_length, Hl. pose proof (Ht (urandom 12 (w_seed w)) p ad).
  change (String.length cipher_version) with 1%nat.
  rewrite (proj2 (Nat.ltb_ge _ _)) by lia. rewrite take_s_app by done. rewrite eqb_refl. cbn [negb orb].
  rewrite bind_raise_if_false. cbv zeta.
  change (drop_s 1 (cipher_version +:+ ?x)) with x.
  change (drop_s 13 (cipher_version +:+ ?x)) with (drop_s 12 x).
  rewrite take_s_app, drop_s_app by done. by rewrite Hd.
Qed.

(** What a download does, by the request and the artifact it finds. *)
Lemma run_download claims rid w g : strong claims = true ->
  gdpr_of_user (ac_user_id claims) rid (w_db w) = Some g -> gq_request_type g = "export" -> gq_state g = "completed" ->
  download_export claims rid w = (artifact ← get_export_artifact (ac_user_id claims) rid (w_now w);
    artifact ← get_or _export_unavailable artifact;
    plaintext ← try_except
      (cipher_decrypt (ea_encrypted_content artifact) (_associated_data (ac_user_id claims) rid))
      (fun err => match err with ValueError => Some (raise integrity_failed) | _ => None end);
    raise_if (sha256_hex plaintext != ea_content_digest artifact) integrity_failed;;
    mret (MkExportDownload rid plaintext (ea_expires_at artifact))) w.
Proof.
  intros Hs Hg Ht Hst. unfold download_export. rewrite (run_recent_mfa _ _ _ Hs). unfold get_request, get_privacy_request.
  rewrite !bind_bind, bind_get_db, Hg. cbn [fmap option_fmap option_map]. rewrite bind_ret, bind_get_or_some.
  cbn [_request pr_request_type pr_state]. by rewrite Ht, Hst.
Qed.
Lemma run_no_request claims rid w : strong claims = true -> gdpr_of_user (ac_user_id claims) rid (w_db w) = None ->
  download_export claims rid w = (inl request_not_found, w).
Proof.
  intros Hs Hg. unfold download_export. rewrite (run_recent_mfa _ _ _ Hs). unfold get_request, get_privacy_request.
  by rewrite !bind_bind, bind_get_db, Hg.
Qed.

(** The text an export holds: what the tables say of the user when it was requested. *)
Definition export_text (updated_at : User -> Time) u w : string :=
  json_text (JObj (export_data updated_at u (w_now w) (w_db w))).
Lemma export_text_length updated_at u w : (0 < String.length (export_text updated_at u w))%nat.
Proof. unfold export_text. cbn [json_text]. rewrite append_length. cbn. lia. Qed.

(** What the tables hold of a finished export. *)
Record exported u rid (text : string) (expires_at : Time) (db : Db) : Prop := {
  ex_request v : gdpr_of_user v rid db = None \/ v = u /\ exists g, gdpr_of_user u rid db = Some g /\
    gq_request_type g = "export" /\ gq_state g = "completed";
  ex_owner : gdpr_of_user u rid db <> None;
  ex_artifact t : exists a, scalar (fun a => (pa_gdpr_request_id a == rid) && (pa_user_id a == u) && (t <? pa_expires_at a))
      (privacy_export_artifacts db) = (if t <? expires_at then Some a else None) /\
    pa_gdpr_request_id a = rid /\ pa_expires_at a = expires_at /\ pa_content_digest a = sha256_hex text /\
    forall w, cipher_decrypt (pa_encrypted_content a) (_associated_data u rid) w = (inr text, w) }.

Lemma download_exported claims rid text expires_at u w : strong claims = true -> exported u rid text expires_at (w_db w) ->
  download_export claims rid w = (if ac_user_id claims == u
    then if w_now w <? expires_at then inr (MkExportDownload rid text expires_at) else inl _export_unavailable
    else inl request_not_found, w).
Proof.
  intros Hs [Hr Ho Ha]. destruct (Hr (ac_user_id claims)) as [Hn|[Hu (g & Hg & Ht & Hst)]].
  - assert (Hne : ac_user_id claims <> u) by congruence. rewrite (eqb_neq _ _ Hne). by apply run_no_request.
  - rewrite Hu, eqb_refl. rewrite <- Hu in Hg. rewrite (run_download claims rid w g Hs Hg Ht Hst).
    destruct (Ha (w_now w)) as (a & Hsc & Hid & He & Hd & Hdec). unfold get_export_artifact. rewrite bind_bind, bind_get_db, bind_ret.
    rewrite Hu, Hsc. destruct (w_now w <? expires_at); [|done]. cbn [fmap option_fmap option_map]. rewrite bind_get_or_some.
    cbn [ea_encrypted_content ea_content_digest ea_expires_at].
    rewrite (run_bind _ _ w text w); [|unfold try_except; by rewrite Hdec]. by rewrite Hd, eqb_refl, He.
Qed.

Lemma gdpr_fresh rid u t g : gdpr_conflict t g = false -> gq_gdpr_request_id g = rid ->
  forall v, scalar (fun x => (gq_gdpr_request_id x == rid) && (gq_user_id x == v)) (t ++ [g])
    = if gq_user_id g == v then Some g else None.
Proof.
  intros Hc Hid v.
  assert (Hno : forall x, x ∈ t -> (gq_gdpr_request_id x == rid) = false).
  { intros x Hx. pose proof (proj1 (row_exists_false _ _) Hc x Hx) as Hf. cbv beta in Hf. rewrite Hid in Hf.
    by apply orb_false_iff in Hf as [? _]. }
  destruct (gq_user_id g == v) eqn:Ev.
  - apply scalar_unique; [apply elem_of_snoc; by right|by rewrite Hid, eqb_refl, Ev|].
    intros x [Hx| ->]%elem_of_snoc Hp; [|done]. by rewrite (Hno x Hx) in Hp.
  - destruct (scalar _ _) as [x|] eqn:Es; [|done]. apply scalar_Some in Es as [[Hx| ->]%elem_of_snoc Hp].
    + by rewrite (Hno x Hx) in Hp.
    + by rewrite Ev, andb_false_r in Hp.
Qed.
Lemma artifact_fresh t a (now : Time) : artifact_conflict t a = false ->
  scalar (fun x => (pa_gdpr_request_id x == pa_gdpr_request_id a) && (pa_user_id x == pa_user_id a) && (now <? pa_expires_at x))
    (t ++ [a]) = if now <? pa_expires_at a then Some a else None.
Proof.
  intros Hc.
  assert (Hno : forall x, x ∈ t -> (pa_gdpr_request_id x == pa_gdpr_request_id a) = false).
  { intros x Hx. pose proof (proj1 (row_exists_false _ _) Hc x Hx) as Hf. by apply orb_false_iff in Hf as [_ ?]. }
  destruct (now <? pa_expires_at a) eqn:Et.
  - apply scalar_unique; [apply elem_of_snoc; by right|by rewrite !eqb_refl|].
    intros x [Hx| ->]%elem_of_snoc Hp; [|done]. by rewrite (Hno x Hx) in Hp.
  - destruct (scalar _ _) as [x|] eqn:Es; [|done]. apply scalar_Some in Es as [[Hx| ->]%elem_of_snoc Hp].
    + by rewrite (Hno x Hx) in Hp.
    + by rewrite Et, andb_false_r in Hp.
Qed.
Lemma gdpr_after u rid f db : (forall g, gq_gdpr_request_id (f g) = gq_gdpr_request_id g /\ gq_user_id (f g) = gq_user_id g) ->
  gdpr_of_user u rid (set_gdpr rid f db) = f <$> gdpr_of_user u rid db.
Proof.
  intros Hf. unfold gdpr_of_user, set_gdpr. cbn [gdpr_requests set].
  rewrite scalar_update_stable by (intros g; by destruct (Hf g) as [-> ->]).
  destruct (scalar _ _) as [g|] eqn:Es; [|done]. apply scalar_Some in Es as [_ Hp]. cbv beta in Hp.
  cbn [option_map fmap option_fmap]. by apply andb_true_iff in Hp as [-> _].
Qed.

Lemma scalar_snoc {row} (P : row -> bool) t r : scalar P t = None -> P r = true -> scalar P (t ++ [r]) = Some r.
Proof.
  intros H Hr. apply scalar_unique; [apply elem_of_snoc; by right|done|].
  intros x [Hx| ->]%elem_of_snoc Hp; [|done]. by rewrite (scalar_None _ _ _ H Hx) in Hp.
Qed.
Lemma request_export_inr updated_at claims key cid w r w' : cipher_laws ->
  gdpr_by_key (ac_user_id claims) "export" (_key_hash key) (w_db w) = None ->
  request_export updated_at claims key cid w = (inr r, w') ->
  strong claims = true /\ pr_state r = "completed" /\ pr_completed_at r = Some (w_now w) /\
  (exists g, gdpr_by_key (ac_user_id claims) "export" (_key_hash key) (w_db w') = Some g /\ r = _request g) /\
  exported (ac_user_id claims) (pr_request_id r) (export_text updated_at (ac_user_id claims) w)
    (w_now w + hours privacy_export_ttl_hours) (w_db w').
Proof.
  intros HL Hk H. unfold request_export in H. apply recent_mfa_inr in H as [Hs H]. split; [done|].
  rewrite bind_now in H. cbv zeta in H. set (u := ac_user_id claims) in *. set (te := w_now w + _) in *.
  step_in H rc w1 H1. destruct rc as [req created].
  assert (Hc : created = true).
  { unfold get_or_create_export in H1. apply tx_inr in H1. rewrite bind_get_db, Hk in H1. rewrite bind_uuid4, bind_now in H1.
    cbv zeta in H1. step_in H1 x1 v1 G1. step_in H1 x2 v2 G2. by injection H1 as _ <- _. }
  subst created. cbn [negb] in H. apply (new_export_inr _ _ _ _ _ _ _ Hk) in H1 as (g & row & Hg & Hreq & Hcf & Hdb & Hn & Hr & Hm).
  unfold try_except in H. destruct (build_export _ _ _ _ _ w1) as [[e|r'] w2] eqn:Hb.
  { step_in H x v G. done. }
  injection H as <- <-. unfold build_export in Hb. fold u in Hb. unfold collect_export_data in Hb.
  rewrite !bind_bind, bind_now, bind_bind, bind_get_db, bind_ret in Hb. cbv zeta in Hb.
  assert (Ht : json_text (JObj (export_data updated_at u (w_now w1) (w_db w1))) = export_text updated_at u w)
    by (unfold export_text; by rewrite Hdb, Hn).
  rewrite Ht in Hb. step_in Hb enc w3 H3. set (text := export_text updated_at u w) in *.
  assert (Hdec : forall v, cipher_decrypt enc (_associated_data u (pr_request_id req)) v = (inr text, v))
    by (intros v; exact (run_decrypt _ _ _ _ _ v HL (export_text_length _ _ _) H3)).
  assert (H3' : w_db w3 = w_db w1 /\ w_now w3 = w_now w1) by (unfold cipher_encrypt in H3; rewrite bind_draw in H3; by injection H3 as _ <-).
  destruct H3' as [Hdb3 Hn3]. rewrite Hreq in Hb, Hdec. cbn [_request pr_request_id] in Hb, Hdec.
  apply export_complete_inr in Hb as (g' & row' & aid & Hg' & -> & Hca & Hdb' & _).
  rewrite Hdb3, Hdb in Hg', Hdb', Hca.
  assert (Hof : forall v, gdpr_of_user v (uuid4 (w_seed w)) (with_audit row ((w_db w) <| gdpr_requests ::= fun t => t ++ [g] |>))
    = if gq_user_id g == v then Some g else None) by (intros v; apply (gdpr_fresh _ u _ _ Hcf); by rewrite Hg).
  assert (Hid : gq_gdpr_request_id g = uuid4 (w_seed w)) by (by rewrite Hg).
  assert (Hgu : gq_user_id g = u) by (by rewrite Hg).
  rewrite Hid, Hof, Hgu, eqb_refl in Hg'. injection Hg' as <-.
  assert (Hof' : forall v, gdpr_of_user v (uuid4 (w_seed w)) (w_db w2)
    = (if u == v then Some (export_completed (uuid4 (w_seed w)) (w_now w3) te g) else None)).
  { intros v. rewrite Hdb', Hid. unfold gdpr_of_user at 1.
    change (gdpr_requests (with_audit row' ?d)) with (gdpr_requests d).
    change (scalar _ (gdpr_requests ?d)) with (gdpr_of_user v (uuid4 (w_seed w)) d).
    rewrite gdpr_after by (by intros []). unfold gdpr_of_user at 1.
    change (gdpr_requests (set privacy_export_artifacts ?f ?d)) with (gdpr_requests d).
    change (scalar _ (gdpr_requests ?d)) with (gdpr_of_user v (uuid4 (w_seed w)) d).
    rewrite Hof, Hgu. by destruct (u == v). }
  cbn [_request pr_state pr_completed_at pr_request_id]. change (gq_gdpr_request_id (export_completed _ _ _ g)) with (gq_gdpr_request_id g).
  rewrite Hid. split; [done|]. split; [cbn; by rewrite Hn3, Hn|]. split.
  { exists (export_completed (uuid4 (w_seed w)) (w_now w3) te g). split; [|done]. rewrite Hdb', Hid. unfold gdpr_by_key, set_gdpr.
    cbn [with_audit gdpr_requests set]. rewrite scalar_update_stable by (by intros []).
    rewrite (scalar_snoc _ _ _ Hk) by (rewrite Hg; cbn; by rewrite !eqb_refl). cbn [option_map]. by rewrite Hid, eqb_refl. }
  split.
  - intros v. rewrite !Hof'. destruct (u == v) eqn:Ev; [|by left]. right. to_prop. split; [done|]. rewrite eqb_refl.
    eexists. split; [reflexivity|]. by rewrite Hg.
  - rewrite Hof', eqb_refl. done.
  - intros t. exists (MkExportArtifact aid (uuid4 (w_seed w)) u enc (sha256_hex text) (w_now w3) te).
    split_and!; try done; [|intros v; rewrite <- Hid; apply Hdec].
    rewrite Hdb'. rewrite <- Hid at 1. rewrite <- Hid. exact (artifact_fresh _ _ _ Hca).
Qed.

(** C24: an export holds what the service stored about the user when it was requested, and only the
    user reads it, until it expires.  After a new request for an export returned, a download after
    a recent strong factor yields the JSON text of the collected data at any instant before the
    expiry, 410 from then on, and 404 to every other user; a repeated request with the same key
    answers with the same request and writes nothing. *)
Theorem export_roundtrip updated_at claims key cid w r w' : cipher_laws ->
  gdpr_by_key (ac_user_id claims) "export" (_key_hash key) (w_db w) = None ->
  request_export updated_at claims key cid w = (inr r, w') ->
  pr_state r = "completed" /\
  (forall reader t, strong reader = true -> download_export reader (pr_request_id r) (at_time t w')
    = (if ac_user_id reader == ac_user_id claims
       then if t <? w_now w + hours privacy_export_ttl_hours
            then inr (MkExportDownload (pr_request_id r) (export_text updated_at (ac_user_id claims) w)
                        (w_now w + hours privacy_export_ttl_hours))
            else inl _export_unavailable
       else inl request_not_found, at_time t w')) /\
  forall t cid', exists again, request_export updated_at claims key cid' (at_time t w') = (inr again, at_time t w') /\
    pr_request_id again = pr_request_id r /\ pr_state again = "completed".
Proof.
  intros HL Hk H. destruct (request_export_inr _ _ _ _ _ _ _ HL Hk H) as (Hs & Hst & _ & Hg & Hx). split; [done|]. split.
  - intros reader t Hr. exact (download_exported reader _ _ _ _ (at_time t w') Hr Hx).
  - intros t cid'. destruct Hg as (g & Hg & ->). exists (_request g). split; [|done].
    unfold request_export. rewrite (run_recent_mfa _ _ _ Hs), bind_now. cbv zeta.
    rewrite (run_bind _ _ _ (_request g, false) (at_time t w')); [done|].
    unfold get_or_create_export. apply run_tx. rewrite bind_get_db. change (w_db (at_time t w')) with (w_db w'). by rewrite Hg.
Qed.
End Exports.

(** ** Erasure: what it does to the tables *)

Section Erased.
Implicit Types (u v rid : UUID) (db : Db).

(** No row of the user is left, and the rows that hung on such rows went with them. *)
Record forgotten u (pseudonym : string) (db db' : Db) : Prop := {
  fg_account x : x ∈ users db' -> u_user_id x = u -> u_email x = None /\ u_given_name x = None /\
    u_family_name x = None /\ u_phone_e164 x = None /\ u_state x = "anonymized";
  fg_identities x : x ∈ identities db' -> i_user_id x <> u;
  fg_history x i : x ∈ password_history db' -> i ∈ identities db -> i_user_id i = u -> ph_identity_id x <> i_identity_id i;
  fg_factors x : x ∈ mfa_devices db' -> m_user_id x <> u;
  fg_passkeys x m : x ∈ webauthn_credentials db' -> m ∈ mfa_devices db -> m_user_id m = u -> w_mfa_id x <> m_mfa_id m;
  fg_families x : x ∈ families db' -> f_user_id x <> u;
  fg_tokens x f : x ∈ refresh_tokens db' -> f ∈ families db -> f_user_id f = u -> t_family_id x <> f_family_id f;
  fg_sessions x : x ∈ sessions db' -> s_user_id x <> u;
  fg_devices x : x ∈ trusted_devices db' -> d_user_id x <> u;
  fg_links x : x ∈ ephemeral_tokens db' -> e_user_id x <> Some u;
  fg_contacts x : x ∈ contact_change_requests db' -> c_user_id x <> u;
  fg_staff x : x ∈ staff_role_bindings db' -> sb_user_id x <> u;
  fg_roles x : x ∈ user_role_bindings db' -> b_user_id x <> u;
  fg_artifacts x : x ∈ privacy_export_artifacts db' -> pa_user_id x <> u;
  fg_referrals x : x ∈ referrals db' -> rf_referrer_user_id x <> u /\ rf_referred_user_id x <> Some u;
  fg_invitations x account email : x ∈ invitations db' -> RecoveryRepo.user_by_id u db = Some account ->
    u_email account = Some email -> email <> "" -> citext_eq (in_invitee_email x) email = false \/
      in_invitee_email x = erased_address pseudonym /\ in_state x = "revoked";
  fg_workspace x : x ∈ organizations db' -> personal_workspace_of u x = true ->
    o_name x = "Anonymized Portfolio" /\ o_state x = "closed" /\ o_subscription_metadata x = [];
  fg_exports x : x ∈ gdpr_requests db' -> gq_user_id x = u -> gq_request_type x = "export" ->
    gq_artifact_reference x = None /\ gq_artifact_expires_at x = None }.
(** The rows that are not [P]'s are the same before and after, in the same order. *)
Definition outside {row} (P : row -> bool) (t t' : list row) : Prop := delete_ P t' = delete_ P t.
(** The row hangs on a row of the user in [parents]. *)
Definition hangs {row par} (key : row -> UUID) (id owner : par -> UUID) u (parents : list par) (r : row) : bool :=
  row_exists (fun p => (id p == key r) && (owner p == u)) parents.
(** Table by table, what an erasure leaves alone: whatever does not belong to the user or hang on its rows.  Of the
    referrals and invitations, which belong to others, only those that name the account are written, and how. *)
Record others_kept u (pseudonym : string) (email : option string) (db db' : Db) : Prop := {
  ot_users : outside (fun x => u_user_id x == u) (users db) (users db');
  ot_identities : outside (fun x => i_user_id x == u) (identities db) (identities db');
  ot_history : outside (hangs ph_identity_id i_identity_id i_user_id u (identities db)) (password_history db) (password_history db');
  ot_factors : outside (fun x => m_user_id x == u) (mfa_devices db) (mfa_devices db');
  ot_passkeys : outside (hangs w_mfa_id m_mfa_id m_user_id u (mfa_devices db)) (webauthn_credentials db) (webauthn_credentials db');
  ot_families : outside (fun x => f_user_id x == u) (families db) (families db');
  ot_tokens : outside (hangs t_family_id f_family_id f_user_id u (families db)) (refresh_tokens db) (refresh_tokens db');
  ot_sessions : outside (fun x => s_user_id x == u) (sessions db) (sessions db');
  ot_devices : outside (fun x => d_user_id x == u) (trusted_devices db) (trusted_devices db');
  ot_links : outside (fun x => e_user_id x == Some u) (ephemeral_tokens db) (ephemeral_tokens db');
  ot_contacts : outside (fun x => c_user_id x == u) (contact_change_requests db) (contact_change_requests db');
  ot_staff : outside (fun x => sb_user_id x == u) (staff_role_bindings db) (staff_role_bindings db');
  ot_roles : outside (fun x => b_user_id x == u) (user_role_bindings db) (user_role_bindings db');
  ot_artifacts : outside (fun x => pa_user_id x == u) (privacy_export_artifacts db) (privacy_export_artifacts db');
  ot_requests : outside (fun x => gq_user_id x == u) (gdpr_requests db) (gdpr_requests db');
  ot_organizations : outside (personal_workspace_of u) (organizations db) (organizations db');
  ot_referrals : referrals db' = update_ (fun r => rf_referred_user_id r == Some u) (referral_erased pseudonym)
    (delete_ (fun r => rf_referrer_user_id r == u) (referrals db));
  ot_invitations : invitations db' = update_ (fun i => match email with
    | Some e => nonempty e && citext_eq (in_invitee_email i) e | None => false end) (invitation_erased pseudonym) (invitations db);
  ot_governed : governed_requests db' = governed_requests db;
  ot_catalog : role_permission_catalog db' = role_permission_catalog db;
  ot_audit : exists rows, audit_logs db' = audit_logs db ++ rows }.

Lemma not_deleted {row} (owner : row -> UUID) u t x : x ∈ delete_ (fun r => owner r == u) t -> owner x <> u.
Proof. intros [_ H]%elem_of_delete. by to_prop. Qed.
Lemma not_orphaned {row par} (key : row -> UUID) (owner id : par -> UUID) u t s x p :
  x ∈ orphans key (List.map id (of_user owner u s)) t -> p ∈ s -> owner p = u -> key x <> id p.
Proof.
  intros [_ H]%elem_of_delete Hp Ho He. to_prop. apply H. rewrite He. apply list_elem_of_In, in_map, list_elem_of_In.
  apply elem_of_where. by rewrite Ho, eqb_refl.
Qed.
Lemma outside_delete {row} (P : row -> bool) t : outside P t (delete_ P t).
Proof.
  apply forallb_filter_id, forallb_forall. intros x Hx%list_elem_of_In. apply elem_of_delete in Hx as [_ Hx]. by rewrite Hx.
Qed.
Lemma outside_update {row} (P Q : row -> bool) f t :
  (forall r, r ∈ t -> Q r = true -> P r = true /\ P (f r) = true) -> outside P t (update_ Q f t).
Proof.
  unfold outside, delete_, update_. induction t as [|r t IH]; [done|]. intros H. cbn [List.map List.filter].
  rewrite IH by (intros x Hx; apply H; by right). destruct (Q r) eqn:EQ; [|done].
  destruct (H r ltac:(by left) EQ) as [-> ->]. done.
Qed.
Lemma outside_trans {row} (P : row -> bool) t1 t2 t3 : outside P t1 t2 -> outside P t2 t3 -> outside P t1 t3.
Proof. unfold outside. congruence. Qed.
Lemma delete_ext {row} (P Q : row -> bool) t : (forall r, r ∈ t -> P r = Q r) -> delete_ P t = delete_ Q t.
Proof. intros H. apply filter_ext_in. intros r Hr%list_elem_of_In. by rewrite H. Qed.
Lemma orphans_hangs {row par} (key : row -> UUID) (id owner : par -> UUID) u s t :
  orphans key (List.map id (of_user owner u s)) t = delete_ (hangs key id owner u s) t.
Proof.
  apply delete_ext. intros r _. apply eq_true_iff_eq. unfold hangs. rewrite bool_decide_eq_true, row_exists_true.
  rewrite list_elem_of_In, in_map_iff. setoid_rewrite <- list_elem_of_In. unfold of_user. setoid_rewrite elem_of_where. split.
  - intros (p & Hid & Hp & Ho). exists p. by rewrite Ho, Hid, eqb_refl.
  - intros (p & Hp & [Hid%bool_decide_eq_true Ho]%andb_true_iff). by exists p.
Qed.

Lemma nodup_key_delete {row K} (key : row -> K) P t : NoDup (List.map key t) -> NoDup (List.map key (delete_ P t)).
Proof.
  induction t as [|r t IH]; [done|]. cbn [List.map]. intros [Hr Hn]%list.NoDup_cons. unfold delete_. cbn [List.filter].
  destruct (negb (P r)); [|by apply IH]. cbn [List.map]. apply list.NoDup_cons. split; [|by apply IH].
  intros H. apply Hr. apply list_elem_of_In, in_map_iff in H as (x & Hx & Hin). apply list_elem_of_In, in_map_iff.
  exists x. split; [done|]. apply filter_In in Hin. apply Hin.
Qed.
(** The sessions left belong to families left, of another user. *)
Lemma erased_sessions u db x : session_inv db ->
  x ∈ sessions (delete_families u db) -> s_user_id x <> u /\ x ∈ sessions db.
Proof.
  intros I Hx. pose proof Hx as [Hin _]%elem_of_delete. split; [|done]. intros Hu.
  destruct (inv_session_family _ I x Hin) as (f & Hf & Hid & Hfu & _).
  apply (not_orphaned s_family_id f_user_id f_family_id u _ _ x f Hx Hf); congruence.
Qed.
Lemma delete_families_inv u db : session_inv db -> session_inv (delete_families u db).
Proof.
  intros I. set (db' := delete_families u db).
  assert (Hf : forall f, f ∈ families db' <-> f ∈ families db /\ f_user_id f <> u).
  { intros f. unfold db'. cbn. rewrite elem_of_delete. by rewrite bool_decide_eq_false. }
  assert (Hs : forall s, s ∈ sessions db' <-> s ∈ sessions db /\ s_user_id s <> u).
  { intros s. split; [intros H; destruct (erased_sessions u db s I H); done|]. intros [Hin Hu]. apply elem_of_delete. split; [done|].
    apply bool_decide_eq_false. intros Hg. apply list_elem_of_In, in_map_iff in Hg as (f & Hid & Hf0).
    apply list_elem_of_In, elem_of_where in Hf0 as [Hf0 Hfu]. to_prop.
    destruct (inv_session_family _ I s Hin) as (f' & Hf' & Hid' & Hu' & _).
    assert (f = f') as <- by (apply (family_unique db I); congruence). congruence. }
  assert (Ht : forall t, t ∈ refresh_tokens db' -> t ∈ refresh_tokens db) by (by intros t [? _]%elem_of_delete).
  split.
  - apply nodup_key_delete, (inv_family_ids _ I).
  - apply nodup_key_delete, (inv_session_ids _ I).
  - apply nodup_key_delete, (inv_session_families _ I).
  - apply nodup_key_delete, (inv_token_ids _ I).
  - apply nodup_key_delete, (inv_token_hashes _ I).
  - intros s [Hin Hu]%Hs. destruct (inv_session_family _ I s Hin) as (f & Hf0 & Hid & Hu' & Hr).
    exists f. rewrite Hf. split_and!; try done. congruence.
  - intros t Hin. pose proof Hin as [Hin0 Hg]%elem_of_delete. destruct (inv_token_session _ I t Hin0) as (s & Hs0 & Hid).
    exists s. split; [|done]. apply elem_of_delete. split; [done|]. by rewrite Hid.
  - intros t f Hin%Ht [Hf0 _]%Hf. by apply (inv_token_expiry _ I).
  - intros t f Hin%Ht [Hf0 _]%Hf. by apply (inv_revoked_family _ I).
  - intros t Hin%Ht. by apply (inv_used _ I).
  - intros t t' Hin%Ht Hin'%Ht. by apply (inv_live _ I).
Qed.
(** The tables after an erasure, one by one. *)
Definition gone_identities u db : list UUID := List.map i_identity_id (of_user i_user_id u (identities db)).
Definition gone_factors u db : list UUID := List.map m_mfa_id (of_user m_user_id u (mfa_devices db)).
Record erased_tables rid u ps (email : option string) (now due : Time) (db db' : Db) : Prop := {
  et_users : users db' = update_ (fun x => u_user_id x == u) (account_erased now) (users db);
  et_identities : identities db' = delete_ (fun x => i_user_id x == u) (identities db);
  et_history : password_history db' = orphans ph_identity_id (gone_identities u db) (password_history db);
  et_factors : mfa_devices db' = delete_ (fun x => m_user_id x == u) (mfa_devices db);
  et_passkeys : webauthn_credentials db' = orphans w_mfa_id (gone_factors u db) (webauthn_credentials db);
  et_families : families db' = families (delete_families u db);
  et_tokens : refresh_tokens db' = refresh_tokens (delete_families u db);
  et_sessions : sessions db' = sessions (delete_families u db);
  et_devices : trusted_devices db' = delete_ (fun x => d_user_id x == u) (trusted_devices db);
  et_links : ephemeral_tokens db' = delete_ (fun x => e_user_id x == Some u) (ephemeral_tokens db);
  et_contacts : contact_change_requests db' = delete_ (fun x => c_user_id x == u) (contact_change_requests db);
  et_staff : staff_role_bindings db' = delete_ (fun x => sb_user_id x == u) (staff_role_bindings db);
  et_roles : user_role_bindings db' = delete_ (fun x => b_user_id x == u) (user_role_bindings db);
  et_artifacts : privacy_export_artifacts db' = delete_ (fun x => pa_user_id x == u) (privacy_export_artifacts db);
  et_referrals : referrals db' = update_ (fun r => rf_referred_user_id r == Some u) (referral_erased ps)
      (delete_ (fun r => rf_referrer_user_id r == u) (referrals db));
  et_invitations : invitations db' = invitations (erase_invitations email ps db);
  et_organizations : organizations db' = update_ (personal_workspace_of u) (workspace_erased ps) (organizations db);
  et_catalog : role_permission_catalog db' = role_permission_catalog db;
  et_audit : audit_logs db' = audit_logs db;
  et_governed : governed_requests db' = governed_requests db;
  et_requests : gdpr_requests db' = update_ (fun g => gq_gdpr_request_id g == rid) (erasure_completed now due)
      (update_ (fun g => (gq_user_id g == u) && (gq_request_type g == "export")) export_cancelled (gdpr_requests db)) }.
Lemma erase_invitations_other email ps db : exists l, erase_invitations email ps db = db <| invitations := l |>.
Proof.
  assert (Hid : db = db <| invitations := invitations db |>) by (by destruct db).
  unfold erase_invitations. destruct email as [e|]; [destruct (nonempty e)|]; by eexists.
Qed.
Lemma erase_tables rid u ps email now due db :
  erased_tables rid u ps email now due db (erase_account rid u ps email now due db).
Proof.
  unfold erase_account.
  set (db1 := delete_families u _). destruct (erase_invitations_other email ps (erase_referrals u ps db1)) as [l Hl].
  split; try (rewrite ?Hl; reflexivity).
  unfold erase_invitations. destruct email as [e|]; [destruct (nonempty e)|]; reflexivity.
Qed.

Lemma erase_forgets rid u ps now due account db db' : session_inv db -> RecoveryRepo.user_by_id u db = Some account ->
  erased_tables rid u ps (u_email account) now due db db' -> forgotten u ps db db'.
Proof.
  intros I Hu [].
  split; intros x.
  - rewrite ?et_users0. intros (x0 & _ & ->)%elem_of_update. destruct (u_user_id x0 == u) eqn:Ex; [by intros _; split_and!|].
    intros He. by rewrite He, eqb_refl in Ex.
  - rewrite ?et_identities0. exact (not_deleted i_user_id u _ x).
  - rewrite ?et_history0. intros i Hx. exact (not_orphaned ph_identity_id i_user_id i_identity_id u _ _ x i Hx).
  - rewrite ?et_factors0. exact (not_deleted m_user_id u _ x).
  - rewrite ?et_passkeys0. intros m Hx. exact (not_orphaned w_mfa_id m_user_id m_mfa_id u _ _ x m Hx).
  - rewrite ?et_families0. exact (not_deleted f_user_id u _ x).
  - rewrite ?et_tokens0. intros f Hx. exact (not_orphaned t_family_id f_user_id f_family_id u _ _ x f Hx).
  - rewrite ?et_sessions0. intros Hx. by destruct (erased_sessions u db x I Hx).
  - rewrite ?et_devices0. exact (not_deleted d_user_id u _ x).
  - rewrite ?et_links0. intros [_ H]%elem_of_delete He. by rewrite He, eqb_refl in H.
  - rewrite ?et_contacts0. exact (not_deleted c_user_id u _ x).
  - rewrite ?et_staff0. exact (not_deleted sb_user_id u _ x).
  - rewrite ?et_roles0. exact (not_deleted b_user_id u _ x).
  - rewrite ?et_artifacts0. exact (not_deleted pa_user_id u _ x).
  - rewrite ?et_referrals0. intros (x0 & Hx0 & ->)%elem_of_update. apply (not_deleted rf_referrer_user_id) in Hx0.
    destruct (rf_referred_user_id x0 == Some u) eqn:Ex; [done|]. split; [done|]. by apply bool_decide_eq_false in Ex.
  - intros acc email Hx Hacc He Hne. rewrite Hacc in Hu. injection Hu as ->.
    rewrite et_invitations0 in Hx. unfold erase_invitations in Hx. rewrite He in Hx. unfold nonempty in Hx. rewrite (eqb_neq _ _ Hne) in Hx. cbn [negb set] in Hx.
    apply elem_of_update in Hx as (x0 & _ & ->). destruct (citext_eq (in_invitee_email x0) email) eqn:Ex; [by right|by left].
  - rewrite ?et_organizations0. intros (x0 & _ & ->)%elem_of_update. destruct (personal_workspace_of u x0) eqn:Ex; [by intros _|]. intros Hx. by rewrite Hx in Ex.
  - rewrite ?et_requests0. intros (x1 & (x0 & _ & ->)%elem_of_update & ->)%elem_of_update.
    destruct (gq_gdpr_request_id _ == rid); [by split|].
    destruct ((gq_user_id x0 == u) && (gq_request_type x0 == "export")) eqn:Ex; [by split|].
    intros Hx1 Hx2. by rewrite Hx1, Hx2, !eqb_refl in Ex.
Qed.
Lemma erase_keeps_others rid u ps email now due db db' : session_inv db ->
  (forall g, g ∈ gdpr_requests db -> gq_gdpr_request_id g = rid -> gq_user_id g = u) ->
  erased_tables rid u ps email now due db db' -> others_kept u ps email db db'.
Proof.
  intros I Hg []. split.
  - rewrite et_users0. by apply outside_update.
  - rewrite et_identities0. apply outside_delete.
  - rewrite et_history0. unfold gone_identities. rewrite orphans_hangs. apply outside_delete.
  - rewrite et_factors0. apply outside_delete.
  - rewrite et_passkeys0. unfold gone_factors. rewrite orphans_hangs. apply outside_delete.
  - rewrite et_families0. apply outside_delete.
  - rewrite et_tokens0. change (refresh_tokens (delete_families u db))
      with (orphans t_family_id (List.map f_family_id (of_user f_user_id u (families db))) (refresh_tokens db)).
    rewrite orphans_hangs. apply outside_delete.
  - rewrite et_sessions0. change (sessions (delete_families u db))
      with (orphans s_family_id (List.map f_family_id (of_user f_user_id u (families db))) (sessions db)).
    rewrite orphans_hangs, (delete_ext _ (fun x => s_user_id x == u)); [apply outside_delete|].
    intros x Hx. destruct (inv_session_family _ I x Hx) as (f & Hf & Hid & Hu & _). apply eq_true_iff_eq.
    unfold hangs. rewrite row_exists_true, bool_decide_eq_true, <- Hu. split.
    + intros (f' & Hf' & [Hid'%bool_decide_eq_true <-%bool_decide_eq_true]%andb_true_iff).
      f_equal. symmetry. apply (family_unique db I); congruence.
    + intros Ho. exists f. by rewrite Hid, Ho, !eqb_refl.
  - rewrite et_devices0. apply outside_delete.
  - rewrite et_links0. apply outside_delete.
  - rewrite et_contacts0. apply outside_delete.
  - rewrite et_staff0. apply outside_delete.
  - rewrite et_roles0. apply outside_delete.
  - rewrite et_artifacts0. apply outside_delete.
  - rewrite et_requests0. eapply outside_trans; apply outside_update.
    + by intros r _ [Hr _]%andb_true_iff.
    + intros r (r0 & Hr0 & ->)%elem_of_update Hid. assert (Hu : gq_user_id r0 = u).
      { apply (Hg r0 Hr0). revert Hid. case_match; intros Hid%bool_decide_eq_true; exact Hid. }
      case_match; cbn; by rewrite Hu, eqb_refl.
  - rewrite et_organizations0. by apply outside_update.
  - done.
  - rewrite et_invitations0. unfold erase_invitations. destruct email as [e|]; [|by rewrite update_id].
    destruct (nonempty e); [done|by rewrite update_id].
  - done.
  - done.
  - exists []. by rewrite app_nil_r.
Qed.
Lemma erase_session_inv rid u ps email now due db db' : session_inv db ->
  erased_tables rid u ps email now due db db' -> session_inv db'.
Proof.
  intros I%(delete_families_inv u) [].
  by apply (RecoveryProps.session_inv_ext (delete_families u db)).
Qed.

(** Revoking sessions writes to the session tables alone. *)
Definition with_session_tables fs ts ss (db : Db) : Db :=
  db <| families := fs |> <| refresh_tokens := ts |> <| sessions := ss |>.
Lemma revoke_rows_tables now reason l db : exists fs ts ss,
  SessionInv.revoke_rows now reason l db = with_session_tables fs ts ss db.
Proof.
  revert db. induction l as [|p l IH]; intros db.
  - exists (families db), (refresh_tokens db), (sessions db). by destruct db.
  - cbn [SessionInv.revoke_rows List.fold_left]. destruct (IH (SessionRepo._revoke_locked p.2 p.1 now reason db)) as (fs & ts & ss & He).
    exists fs, ts, ss. unfold SessionInv.revoke_rows in He. by rewrite He.
Qed.

(** What is left of the session tables once the families of the user are deleted; the revocation before it makes no
    difference. *)
Definition family_owners db : list (UUID * UUID) := List.map (fun f => (f_family_id f, f_user_id f)) (families db).
Definition session_seats db : list (UUID * UUID) := List.map (fun s => (s_session_id s, s_family_id s)) (sessions db).
Definition gone_families u db : list UUID := List.map f_family_id (of_user f_user_id u (families db)).
Record cut_alike u db0 db : Prop := {
  ca_owners : family_owners db = family_owners db0;
  ca_seats : session_seats db = session_seats db0;
  ca_families : outside (fun f => f_user_id f == u) (families db0) (families db);
  ca_tokens : outside (fun t => t_family_id t is_in gone_families u db0) (refresh_tokens db0) (refresh_tokens db);
  ca_sessions : outside (fun s => s_family_id s is_in gone_families u db0) (sessions db0) (sessions db) }.
Lemma gone_of_owners u db : gone_families u db = List.map fst (where_ (fun p => p.2 == u) (family_owners db)).
Proof.
  unfold gone_families, family_owners, of_user, where_. induction (families db) as [|f l IH]; [done|].
  cbn [List.map List.filter snd]. destruct (f_user_id f == u); cbn [List.map fst]; by rewrite IH.
Qed.
Lemma map_update_key {row K} (key : row -> K) P f t : (forall r, key (f r) = key r) ->
  List.map key (update_ P f t) = List.map key t.
Proof. intros H. unfold update_. rewrite map_map. apply map_ext. intros r. destruct (P r); [apply H|done]. Qed.
Lemma revoke_cut u db0 db fid sid now reason : cut_alike u db0 db ->
  (forall v, (fid, v) ∈ family_owners db0 -> v = u) -> fid ∈ gone_families u db0 ->
  (forall g, (sid, g) ∈ session_seats db0 -> g ∈ gone_families u db0) ->
  cut_alike u db0 (revoke_locked_at fid sid now reason db).
Proof.
  intros [Ho Hse Hf Ht Hs] Hv Hg Hsg. unfold revoke_locked_at. split.
  - unfold family_owners. rewrite end_families. by rewrite map_update_key.
  - unfold session_seats. rewrite end_sessions. by rewrite map_update_key.
  - rewrite end_families. eapply outside_trans; [exact Hf|]. apply outside_update. intros f Hin Hid%bool_decide_eq_true.
    assert (f_user_id f = u) as Hu.
    { apply Hv. rewrite <- Ho, <- Hid. apply list_elem_of_In, in_map_iff. exists f. by rewrite <- list_elem_of_In. }
    cbn. by rewrite Hu, eqb_refl.
  - rewrite end_tokens. eapply outside_trans; [exact Ht|]. apply outside_update. intros t _ [Hid%bool_decide_eq_true _]%andb_true_iff.
    cbn. rewrite Hid. by rewrite (proj2 (bool_decide_eq_true _) Hg).
  - rewrite end_sessions. eapply outside_trans; [exact Hs|]. apply outside_update. intros x Hin Hid%bool_decide_eq_true.
    cbn. split; apply bool_decide_eq_true, Hsg; rewrite <- Hse, <- Hid; apply list_elem_of_In, in_map_iff; exists x;
      by rewrite <- list_elem_of_In.
Qed.
(** A session and a family that are the user's alone. *)
Definition cut_with u db (p : Session * RefreshTokenFamily) : Prop :=
  (forall v, (f_family_id p.2, v) ∈ family_owners db -> v = u) /\ f_family_id p.2 ∈ gone_families u db /\
  forall g, (s_session_id p.1, g) ∈ session_seats db -> g ∈ gone_families u db.
Lemma revoke_list_cut u now reason db l db2 : Forall (cut_with u db) l -> cut_alike u db db2 ->
  cut_alike u db (SessionInv.revoke_rows now reason l db2).
Proof.
  revert db2. induction l as [|p l IH]; intros db2 Hl H2; [done|]. apply list.Forall_cons in Hl as [(H3 & H4 & H5) Hl].
  unfold SessionInv.revoke_rows in *. cbn [List.fold_left]. apply IH; [done|]. rewrite revoke_locked_eq. by apply revoke_cut.
Qed.
Lemma revoke_rows_cut u now reason P db : session_inv db -> (forall s f, P s f = true -> s_user_id s = u) ->
  cut_alike u db (SessionInv.revoke_rows now reason (SessionRepo.session_rows P db) db).
Proof.
  intros I HP.
  apply revoke_list_cut; [|by split]. apply list.Forall_forall.
  intros [s f] Hp. apply session_rows_elem in Hp as (Hs & Hf & Hfs & Hp). apply HP in Hp. unfold cut_with. cbn [fst snd].
  destruct (inv_session_family _ I s Hs) as (f1 & Hf1 & Hid1 & Hu1 & _).
  assert (f1 = f) as -> by (apply (family_unique db I); congruence).
  assert (Hg : f_family_id f ∈ gone_families u db).
  { apply list_elem_of_In, in_map_iff. exists f. split; [done|]. apply list_elem_of_In, elem_of_where. split; [done|].
    apply bool_decide_eq_true. congruence. }
  split_and!; [|done|].
  - intros v (f' & [= Hid <-] & Hf')%list_elem_of_In%in_map_iff. apply list_elem_of_In in Hf'.
    assert (f' = f) as -> by (by apply (family_unique db I)). congruence.
  - intros g (s' & [= Hid <-] & Hs')%list_elem_of_In%in_map_iff. apply list_elem_of_In in Hs'.
    assert (s' = s) as -> by (by apply (session_unique db I)). by rewrite <- Hfs.
Qed.
(** So the erasure did to the tables before the revocation what it did to those after it. *)
Lemma erased_through rid u ps email now due fs ts ss db db' : cut_alike u db (with_session_tables fs ts ss db) ->
  erased_tables rid u ps email now due (with_session_tables fs ts ss db) db' -> erased_tables rid u ps email now due db db'.
Proof.
  set (db2 := with_session_tables fs ts ss db). intros [Ho _ Hf Ht Hs] [].
  assert (Hg : gone_families u db2 = gone_families u db) by (by rewrite !gone_of_owners, Ho).
  split; try assumption.
  - by rewrite et_families0.
  - rewrite et_tokens0. change (orphans t_family_id (gone_families u db2) (refresh_tokens db2) = orphans t_family_id (gone_families u db) (refresh_tokens db)).
    by rewrite Hg.
  - rewrite et_sessions0. change (orphans s_family_id (gone_families u db2) (sessions db2) = orphans s_family_id (gone_families u db) (sessions db)).
    by rewrite Hg.
  - rewrite et_invitations0. unfold erase_invitations. destruct email as [e|]; [destruct (nonempty e)|]; reflexivity.
Qed.
End Erased.

(** ** Access *)

Section Access.
Context {R : Type} {RC : RedisClient R} {E : Env}.
Implicit Types (w : World R) (u : UUID).

(** Whoever held a session of the user, or a token issued up to that second, is refused: the former
    for good, the latter for the thirty days the mark of the revocation lives. *)
Definition cut_off u (now : Time) (db : Db) w : Prop := forall token t k w2, ac_user_id k = u ->
  (exists s, s ∈ sessions db /\ s_session_id s = ac_session_id k /\ s_user_id s = u) \/
  (ac_issued_at k <= fromtimestamp (timestamp now) /\ t < now + seconds USER_REVOCATION_TTL_SECONDS) ->
  SessionControl.authenticate token (at_time t w) <> (inr k, w2).
Lemma cut_off_intro u now db rows r w : session_inv (w_db w) ->
  (forall s s', s ∈ sessions db -> s_user_id s = u -> s' ∈ sessions (w_db w) -> s_session_id s' = s_session_id s ->
     s_revoked_at s' <> None) ->
  w_redis w = SessionControlProps.revoke_user_keys u now rows r -> cut_off u now db w.
Proof.
  intros I Hs Hr token t k w2 Hk Hor Ha.
  apply SessionControlProps.authenticate_inr in Ha as (_ & _ & _ & _ & Hu & Hact & _). destruct Hor as [(s & Hin & Es & Eu)|[Hi Ht]].
  - apply (SessionControlProps.active_inv _ _ (at_time t w) I) in Hact as (s' & f' & Hs' & _ & _ & Es' & Hrev & _).
    apply (Hs s s'); try done. congruence.
  - specialize (Hu (fromtimestamp (timestamp now))). rewrite Hk in Hu.
    assert (Hlt : fromtimestamp (timestamp now) < ac_issued_at k); [|lia].
    apply Hu. unfold SessionControlProps.user_revocation_instant. cbn [at_time w_redis w_now set]. rewrite Hr.
    unfold SessionControlProps.revoke_user_keys.
    pose proof (SessionControlProps.revoke_all_keys_other (R := R) t now (List.map (fun p => SessionInv.revocation_of p.2 p.1) rows)
      (S_user_revocation u)) as Hk'.
    unfold key_text in Hk'. cbn [key_of] in Hk'. rewrite Hk', r_get_set_eq by done. by rewrite (proj2 (Z.ltb_lt _ _) Ht).
Qed.
End Access.

(** ** Runs of the erasure *)

Section Erasure.
Context {R : Type} {RC : RedisClient R} {E : Env}.
Implicit Types (w : World R) (u rid : UUID).

Definition erasure_request (rid u : UUID) (now : Time) (key_hash : string) : GDPRRequest :=
  MkGDPRRequest rid u "erasure" "processing" now None None None None (Some key_hash) None.
(** The request of an erasure is stored, or refused without a trace. *)
Lemma new_erasure_cases u key_hash cid w x w' :
  gdpr_by_key u "erasure" key_hash (w_db w) = None -> get_or_create_erasure u key_hash cid w = (x, w') ->
  (exists e, x = inl e /\ w_db w' = w_db w /\ w_redis w' = w_redis w) \/
  (x = inr (None, false) /\ w' = w) \/
  exists g row, g = erasure_request (uuid4 (w_seed w)) u (w_now w) key_hash /\ x = inr (Some (_request g), true) /\
    gdpr_conflict (gdpr_requests (w_db w)) g = false /\ _has_sole_owned_organization u (w_db w) = false /\
    w_db w' = with_audit row ((w_db w) <| gdpr_requests ::= fun t => t ++ [g] |>) /\ db_step w w'.
Proof.
  intros Hk H. unfold get_or_create_erasure in H.
  match type of H with tx ?m w = _ => assert (Hr : keeps (on_redis (fun r => r = w_redis w)) (tx m)) by keeps_all end.
  specialize (Hr w eq_refl). rewrite H in Hr. destruct x as [e|x]; [left; exists e; apply tx_inl in H; done|right].
  apply tx_inr in H. rewrite bind_get_db, Hk in H. destruct (_has_sole_owned_organization u (w_db w)); [by injection H as <- <-; left|right].
  rewrite bind_uuid4, bind_now in H. cbv zeta in H. step_in H y w1 H1. apply add_row_inr in H1 as (_ & Hc & ->).
  rewrite (run_bind _ _ _ _ _ (run_insert_audit _ _ _ _ _ _ _)) in H. injection H as <- <-.
  do 2 eexists. split_and!; [reflexivity|reflexivity|exact Hc|done|reflexivity|by repeat split].
Qed.

(** The statements of [execute_erasure], once its tests are known. *)
Lemma erasure_executed_inr rid u ps now due cid w r w' : execute_erasure rid u ps now due cid w = (inr (Some r), w') ->
  (forall g, g ∈ gdpr_requests (w_db w) -> gq_gdpr_request_id g = rid -> gq_state g <> "completed") ->
  exists g account row, g ∈ gdpr_requests (w_db w) /\ gq_gdpr_request_id g = rid /\
    RecoveryRepo.user_by_id u (w_db w) = Some account /\ _has_sole_owned_organization u (w_db w) = false /\
    r = _request (erasure_completed now due g) /\ db_step w w' /\
    w_db w' = with_audit row (erase_account rid u ps (u_email account) now due (w_db w)).
Proof.
  intros H Hst. unfold execute_erasure in H. apply tx_inr in H. rewrite bind_get_db in H.
  destruct (scalar _ _) as [g|] eqn:Eg; [|done]. destruct (RecoveryRepo.user_by_id u (w_db w)) as [account|]; [|done].
  apply scalar_Some in Eg as [Hin Hp]. to_prop.
  destruct (gq_state g == "completed") eqn:Es; [to_prop; by destruct (Hst g)|].
  destruct (_has_sole_owned_organization u (w_db w)) eqn:Eo; [by run_in H|].
  destruct (slug_taken u ps (w_db w)); [by rewrite bind_raise_if_true in H|].
  rewrite bind_raise_if_false, bind_modify_db in H. rewrite (run_bind _ _ _ _ _ (run_insert_audit _ _ _ _ _ _ _)) in H.
  injection H as <- <-. do 3 eexists. split_and!; [exact Hin|done|done|done|reflexivity|by repeat split|reflexivity].
Qed.
(** Otherwise only the state of the request may change. *)
Definition with_requests gs (db : Db) : Db := db <| gdpr_requests := gs |>.
Lemma with_requests_id db : with_requests (gdpr_requests db) db = db.
Proof. by destruct db. Qed.
Lemma execute_other rid u ps now due cid w x w' : execute_erasure rid u ps now due cid w = (x, w') ->
  match x with inr (Some _) => True | _ => exists gs, w_db w' = with_requests gs (w_db w) /\ w_redis w' = w_redis w /\ w_now w' = w_now w end.
Proof.
  intros H. pose proof H as H0. unfold execute_erasure in H.
  match type of H with tx ?m w = _ => assert (Hr : keeps (on_redis (fun r => r = w_redis w)) (tx m)) by keeps_all;
    assert (Hn : keeps (on_clock (w_now w)) (tx m)) by keeps_all end.
  specialize (Hr w eq_refl). specialize (Hn w eq_refl). rewrite H in Hr, Hn. destruct x as [e|[r|]]; [|done|].
  - exists (gdpr_requests (w_db w)). apply tx_inl in H. split; [by rewrite with_requests_id|done].
  - apply tx_inr in H. rewrite bind_get_db in H. clear Hr Hn H0.
    assert (Hid : w = w -> exists gs, w_db w = with_requests gs (w_db w) /\ w_redis w = w_redis w /\ w_now w = w_now w)
      by (intros _; exists (gdpr_requests (w_db w)); by rewrite with_requests_id).
    destruct (scalar _ _) as [g|]; [|injection H as <-; by apply Hid].
    destruct (RecoveryRepo.user_by_id u (w_db w)) as [account|]; [|injection H as <-; by apply Hid].
    destruct (gq_state g == "completed"); [done|].
    destruct (_has_sole_owned_organization u (w_db w)); [rewrite bind_modify_db in H; injection H as <-; by eexists|].
    destruct (slug_taken u ps (w_db w)); [by rewrite bind_raise_if_true in H|].
    rewrite bind_raise_if_false, bind_modify_db in H. by rewrite (run_bind _ _ _ _ _ (run_insert_audit _ _ _ _ _ _ _)) in H.
Qed.
Lemma run_fail rid u code w : exists gs, fail_export rid u code w = (inr (), with_db (with_requests gs (w_db w)) w).
Proof.
  assert (Hid : exists gs, (inr (), w) = (inr () : exc + unit, with_db (with_requests gs (w_db w)) w))
    by (exists (gdpr_requests (w_db w)); rewrite with_requests_id; by destruct w).
  unfold fail_export. destruct (scalar (fun g => gq_gdpr_request_id g == rid) (gdpr_requests (w_db w))) as [g|] eqn:Eg;
    [destruct (gq_user_id g == u) eqn:Eu|].
  - eexists. apply run_tx. by rewrite bind_get_db, Eg, Eu.
  - destruct Hid as [gs Hid]. exists gs. rewrite <- Hid. apply run_tx. by rewrite bind_get_db, Eg, Eu.
  - destruct Hid as [gs Hid]. exists gs. rewrite <- Hid. apply run_tx. by rewrite bind_get_db, Eg.
Qed.

(** The world in which the tables are erased: the request is stored and the sessions are revoked. *)
Definition revoked_world u (g : GDPRRequest) (row : AuditLog) w : World R :=
  let db1 := with_audit row ((w_db w) <| gdpr_requests ::= fun t => t ++ [g] |>) in
  let rows := SessionControlProps.live_rows u (w_db w) in
  with_redis (SessionControlProps.revoke_user_keys u (w_now w) rows (w_redis w))
    (with_db (SessionInv.revoke_rows (w_now w) "privacy_erasure" rows db1) w).
Definition due_of w : Time := w_now w + days privacy_backup_purge_days.

Lemma request_erasure_cases claims key cid w x w' :
  let u := ac_user_id claims in
  gdpr_by_key u "erasure" (_key_hash key) (w_db w) = None -> request_erasure claims key cid w = (x, w') ->
  (exists e, x = inl e /\ w_db w' = w_db w /\ w_redis w' = w_redis w) \/
  exists g row w2, g = erasure_request (uuid4 (w_seed w)) u (w_now w) (_key_hash key) /\
    gdpr_conflict (gdpr_requests (w_db w)) g = false /\ strong claims = true /\
    w_db w2 = w_db (revoked_world u g row w) /\ w_redis w2 = w_redis (revoked_world u g row w) /\ w_now w2 = w_now w /\
    ((exists r, x = inr r /\
       execute_erasure (gq_gdpr_request_id g) u (_pseudonym u) (w_now w) (due_of w) cid w2 = (inr (Some r), w')) \/
     (exists e gs, x = inl e /\ e ∈ [erasure_failed; _ownership_transfer_required] /\
       w_db w' = with_requests gs (w_db w2) /\ w_redis w' = w_redis w2)).
Proof.
  cbv zeta. intros Hk H. unfold request_erasure in H. unfold _require_recent_mfa in H. fold (strong claims) in H.
  destruct (strong claims); [|injection H as <- <-; left; eauto]. cbn [negb] in H. rewrite bind_raise_if_false in H.
  apply bind_any in H as [(e & H1 & ->)|(rc & w1 & H1 & H)].
  { left. exists e. by destruct (new_erasure_cases _ _ _ _ _ _ Hk H1) as [(e' & [= <-] & ?)|[[? _]|(? & ? & _ & ? & _)]]. }
  destruct (new_erasure_cases _ _ _ _ _ _ Hk H1) as [(e' & ? & ?)|[[[= ->] ->]|(g & row & Hg & [= ->] & Hc & _ & Hdb & Hn & Hr & _)]]; [done|..].
  { left. rewrite bind_get_or_none in H. injection H as <- <-. eauto. }
  right. exists g, row. rewrite bind_get_or_some in H. cbn [negb] in H.
  rewrite (run_bind _ _ _ _ _ (Wiring.run_revoke_user_access _ _ _)), bind_now in H.
  match type of H with (_ ≫= _) ?v = _ => exists v; set (w2 := v) in * end.
  assert (Hn2 : w_now w2 = w_now w) by done.
  split; [done|]. split; [done|]. split; [done|].
  assert (Hl : SessionControlProps.live_rows (ac_user_id claims) (w_db w1) = SessionControlProps.live_rows (ac_user_id claims) (w_db w))
    by (by rewrite Hdb).
  split; [unfold w2, revoked_world; wsimpl; by rewrite Hl, Hdb, Hn|]. split; [unfold w2, revoked_world; wsimpl; by rewrite Hl, Hr, Hn|].
  split; [done|]. rewrite Hn2 in H. cbn [_request pr_request_id] in H.
  apply bind_any in H as [(e & H2 & ->)|(c & w3 & H2 & H)].
  - right. unfold try_except in H2. destruct (execute_erasure _ _ _ _ _ _ w2) as [[e'|o] w4] eqn:Hx; [|done].
    apply execute_other in Hx as (gs & Hdb4 & Hr4 & _).
    destruct (run_fail (gq_gdpr_request_id g) (ac_user_id claims) "ERASURE_FAILED" w4) as [gs' Hf].
    rewrite (run_bind _ _ _ _ _ Hf) in H2. injection H2 as <- <-. exists erasure_failed, gs'.
    split; [done|]. split; [by left|]. split; [wsimpl; by rewrite Hdb4|done].
  - unfold try_except in H2. destruct (execute_erasure _ _ _ _ _ _ w2) as [[e'|o] w4] eqn:Hx.
    { destruct (run_fail (gq_gdpr_request_id g) (ac_user_id claims) "ERASURE_FAILED" w4) as [gs' Hf].
      by rewrite (run_bind _ _ _ _ _ Hf) in H2. }
    injection H2 as <- <-. destruct o as [r|].
    + injection H as <- <-. left. exists r. done.
    + injection H as <- <-. right. apply execute_other in Hx as (gs & Hdb4 & Hr4 & _).
      exists _ownership_transfer_required, gs. split; [done|]. split; [right; by left|done].
Qed.
End Erasure.

(** ** Erasure and the organizations *)

Section Organizations.
Context {E : Env}.
Implicit Types (u v o rid : UUID) (db : Db).

Lemma erased_org u ps x : o_org_id (if personal_workspace_of u x then workspace_erased ps x else x) = o_org_id x /\
  o_workspace_type (if personal_workspace_of u x then workspace_erased ps x else x) = o_workspace_type x.
Proof. by destruct (personal_workspace_of u x). Qed.
(** Another member owns every organization the user owns. *)
Lemma shared_ownership u db x : Roster db -> _has_sole_owned_organization u db = false ->
  x ∈ organizations db -> o_workspace_type x = "organization" -> "OWNER" ∈ matrix db (o_org_id x) u ->
  exists v, v <> u /\ "OWNER" ∈ matrix db (o_org_id x) v.
Proof.
  intros I Hs Hx Ht Hu. apply elem_of_roles in Hu as (c & [Hc Hact] & Hr & b & Hb & HP & Hcat).
  apply binding_of_user in HP as (Hbu & Hbo & Hbr).
  assert (Hown : forall P b0 c0, b0 ∈ user_role_bindings db -> c0 ∈ role_permission_catalog db -> rc_catalog_id c0 = b_catalog_id b0 ->
    P b0 = true -> b_revoked_at b0 = None -> rc_role c0 = "OWNER" -> b0 ∈ owner_binding P db).
  { intros P b0 c0 H1 H2 H3 H4 H5 H6. unfold owner_binding. apply elem_of_map. exists (b0, c0). split; [|done].
    apply elem_of_where. split; [apply elem_of_join; split_and!; [done..|by rewrite H3, eqb_refl]|]. cbn. by rewrite H4, H5, H6. }
  unfold _has_sole_owned_organization in Hs.
  assert (Hbin : b ∈ owner_binding (fun b => b_user_id b == u) db) by (apply (Hown _ b c); try done; by rewrite Hbu, eqb_refl).
  apply list_elem_of_In in Hbin.
  rewrite <- not_true_iff_false, existsb_exists in Hs. rename Hs into Hn.
  destruct (owner_binding (fun x0 => (b_org_id x0 == b_org_id b) && (b_user_id x0 != u)) db) as [|b' l] eqn:El.
  { destruct Hn. exists b. split; [done|]. rewrite El, andb_true_r. unfold is_organization. apply row_exists_true.
    exists x. split; [done|]. by rewrite Hbo, Ht, !eqb_refl. }
  assert (Hb' : b' ∈ owner_binding (fun x0 => (b_org_id x0 == b_org_id b) && (b_user_id x0 != u)) db) by (rewrite El; by left).
  unfold owner_binding in Hb'. apply elem_of_map in Hb' as ([b1 c1] & Hp & <-). apply elem_of_where in Hp as [Hj Hp].
  apply elem_of_join in Hj as (Hb1 & Hc1 & Hid). cbn [fst snd] in *. to_prop.
  match goal with H : b_user_id b1 <> u |- _ => rename H into Hne end. exists (b_user_id b1). split; [done|].
  assert (Hh : held (b_user_id b1) (o_org_id x) (b_catalog_id b1) db).
  { exists b1. split; [done|]. split; [|done]. unfold binding_of. rewrite eqb_refl.
    match goal with H : b_org_id b1 = b_org_id b |- _ => rewrite H, Hbo, eqb_refl end.
    by destruct (b_revoked_at b1). }
  destruct (ro_active _ I _ _ _ Hh) as (c2 & Hc2 & Hid2). apply elem_of_roles. exists c2. split; [done|].
  assert (c2 = c1) as -> by (apply (ro_ids _ I); [apply Hc2|done|congruence]). split; [done|]. by rewrite Hid2.
Qed.

Lemma erase_roster rid u ps email now due db db' : Roster db -> _has_sole_owned_organization u db = false ->
  erased_tables rid u ps email now due db db' -> Roster db'.
Proof.
  intros I Hs [].
  assert (He : forall c, catalog_entry c db' <-> catalog_entry c db) by (intros c; unfold catalog_entry; by rewrite et_catalog0).
  assert (Hh : forall v o cid, held v o cid db' <-> held v o cid db /\ v <> u).
  { intros v o cid. unfold held. rewrite et_roles0. setoid_rewrite elem_of_delete. split.
    - intros (b & [Hb Hbu] & HP & Hcid). pose proof (binding_of_user _ _ _ HP) as (<- & _). to_prop. split; [by exists b|done].
    - intros [(b & Hb & HP & Hcid) Hv]. exists b. pose proof (binding_of_user _ _ _ HP) as (Hbu & _). split_and!; try done.
      rewrite Hbu. by apply eqb_neq. }
  assert (Hm : forall o v s, s ∈ matrix db' o v <-> s ∈ matrix db o v /\ v <> u).
  { intros o v s. unfold matrix. rewrite !elem_of_roles. setoid_rewrite He. setoid_rewrite Hh. split; [|].
    - intros (c & Hc & Hr & Hhc & Hv). eauto 10.
    - intros [(c & Hc & Hr & Hhc) Hv]. eauto 10. }
  assert (Ho : forall x, x ∈ organizations db -> exists x', x' ∈ organizations db' /\ o_org_id x' = o_org_id x).
  { intros x Hx. eexists. split; [rewrite et_organizations0; by apply elem_of_update_fwd|]. apply erased_org. }
  split.
  - intros v o cid [Hc _]%Hh. setoid_rewrite He. by apply (ro_active _ I v o).
  - intros v o cid [Hc _]%Hh. apply (ro_org _ I) in Hc as (x & Hx & <-). by apply Ho.
  - intros v o cid [Hc Hv]%Hh. apply (ro_user _ I) in Hc as [x Hx]. unfold account_by_id in *. rewrite et_users0.
    rewrite scalar_update_stable by done. rewrite Hx. by eexists.
  - intros i Hi. assert (Hi' : exists i0, i0 ∈ invitations db /\ in_org_id i = in_org_id i0).
    { rewrite et_invitations0 in Hi. unfold erase_invitations in Hi. destruct email as [e|]; [destruct (nonempty e)|]; [|by exists i..].
      apply elem_of_update in Hi as (i0 & Hi0 & ->). exists i0. split; [done|]. by destruct (citext_eq _ _). }
    destruct Hi' as (i0 & Hi0 & ->). apply (ro_invited _ I) in Hi0 as (x & Hx & <-). by apply Ho.
  - intros v o r s [Hr _]%Hm [Hs' _]%Hm. by apply (ro_single _ I v o).
  - intros v o c c' Hc%He Hc'%He Hr [Hh1 Hv]%Hh. apply Hh. split; [|done]. by apply (ro_full _ I v o c c').
  - intros x Hx Ht. rewrite et_organizations0 in Hx. apply elem_of_update in Hx as (x0 & Hx0 & ->).
    destruct (erased_org u ps x0) as [Hid Hty]. rewrite Hty in Ht. rewrite Hid. destruct (ro_owned _ I x0 Hx0 Ht) as [v Hv].
    destruct (decide (v = u)) as [->|Hne]; [|exists v; by apply Hm].
    destruct (shared_ownership u db x0 I Hs Hx0 Ht Hv) as (v' & Hne & Hv'). exists v'. by apply Hm.
  - intros c c'. rewrite et_catalog0. apply (ro_ids _ I).
  - intros c Hc%He. by apply (ro_manage _ I).
  - destruct (ro_manager _ I) as (c & Hc & H). exists c. by rewrite He.
Qed.
End Organizations.

(** ** What an erasure guarantees *)

Section Results.
Context {R : Type} {RC : RedisClient R} {E : Env}.
Implicit Types (w : World R) (u : UUID).

(** The tables in which the rows are erased. *)
Definition revoked_db u (g : GDPRRequest) (row : AuditLog) (now : Time) (db : Db) : Db :=
  SessionInv.revoke_rows now "privacy_erasure" (SessionControlProps.live_rows u db)
    (with_audit row (db <| gdpr_requests ::= fun t => t ++ [g] |>)).
Lemma revoked_db_inv u g row now db : session_inv db -> session_inv (revoked_db u g row now db).
Proof.
  intros I. unfold revoked_db. set (db1 := with_audit row _).
  assert (I1 : session_inv db1) by (by apply (RecoveryProps.session_inv_ext db)).
  exact (proj1 (SessionInv.revoke_rows_inv now _ _ db1 I1)).
Qed.
(** Every session of the user is revoked, and keeps its user. *)
Lemma revoked_db_sessions u g row now db s s' : session_inv db -> s ∈ sessions db -> s_user_id s = u ->
  s' ∈ sessions (revoked_db u g row now db) -> s_session_id s' = s_session_id s -> s_user_id s' = u /\ s_revoked_at s' <> None.
Proof.
  intros I Hs Hu Hs' Hid. set (db1 := with_audit row (db <| gdpr_requests ::= fun t => t ++ [g] |>)).
  assert (I1 : session_inv db1) by (by apply (RecoveryProps.session_inv_ext db)).
  destruct (SessionControlProps.revoke_rows_sessions _ _ _ _ _ Hs') as (s0 & Hs0 & E1 & _ & E3 & _).
  assert (s0 = s) as -> by (apply (session_unique db I); [done|done|congruence]).
  split; [congruence|]. apply (SessionControlProps.revoke_all_dead u "privacy_erasure" now db1 s' I1 Hs'). congruence.
Qed.
(** The tables an accepted request is stored in. *)
Definition requested_db (g : GDPRRequest) (row : AuditLog) (db : Db) : Db :=
  with_audit row (db <| gdpr_requests ::= fun t => t ++ [g] |>).
Lemma revoked_db_cut u g row now db : session_inv db -> cut_alike u (requested_db g row db) (revoked_db u g row now db).
Proof.
  intros I. apply (revoke_rows_cut u now "privacy_erasure" _ (requested_db g row db)).
  - by apply (RecoveryProps.session_inv_ext db).
  - intros s f H. by to_prop.
Qed.

(** An accepted request, seen from the tables it found. *)
Lemma accepted_state u g row w w2 : session_inv (w_db w) -> w_db w2 = w_db (revoked_world u g row w) ->
  session_inv (w_db w2) /\ cut_alike u (requested_db g row (w_db w)) (w_db w2) /\
  (exists fs ts ss, w_db w2 = with_session_tables fs ts ss (requested_db g row (w_db w))) /\
  forall s s', s ∈ sessions (w_db w) -> s_user_id s = u -> s' ∈ sessions (w_db w2) -> s_session_id s' = s_session_id s ->
    s_user_id s' = u /\ s_revoked_at s' <> None.
Proof.
  intros I ->. change (w_db (revoked_world u g row w)) with (revoked_db u g row (w_now w) (w_db w)).
  split; [by apply revoked_db_inv|]. split; [by apply revoked_db_cut|].
  split; [apply revoke_rows_tables|]. intros s s'. by apply revoked_db_sessions.
Qed.
Lemma forgotten_ext u ps g row db db' : forgotten u ps (requested_db g row db) db' -> forgotten u ps db db'.
Proof. by intros []. Qed.
Lemma kept_ext u ps email g row row' db db' : gq_user_id g = u -> others_kept u ps email (requested_db g row db) db' ->
  others_kept u ps email db (with_audit row' db').
Proof.
  intros Hg []. split; try assumption.
  - unfold outside in *. change (gdpr_requests (with_audit row' db')) with (gdpr_requests db'). rewrite ot_requests0.
    change (gdpr_requests (requested_db g row db)) with (gdpr_requests db ++ [g]). unfold delete_. rewrite filter_app. cbn [List.filter].
    by rewrite Hg, eqb_refl, app_nil_r.
  - destruct ot_audit0 as [rows Hr]. exists ([row] ++ rows ++ [row']).
    change (audit_logs (with_audit row' db')) with (audit_logs db' ++ [row']). rewrite Hr.
    change (audit_logs (requested_db g row db)) with (audit_logs db ++ [row]). by rewrite <- !app_assoc.
Qed.


(** An erasure that fails leaves the account whole but signed out.  If a new request raised,
    either nothing was written at all, or the request had been stored: then only it, the audit
    history and the revocation of sessions were written, no row of the account is changed, and
    every token of the account is refused from then on. *)
Theorem erasure_failure_signs_out claims key cid w e w' : session_inv (w_db w) ->
  gdpr_by_key (ac_user_id claims) "erasure" (_key_hash key) (w_db w) = None ->
  request_erasure claims key cid w = (inl e, w') ->
  (w_db w' = w_db w /\ w_redis w' = w_redis w) \/
  (e ∈ [erasure_failed; _ownership_transfer_required] /\
   (exists gs row fs ts ss, w_db w' = with_requests gs (with_session_tables fs ts ss (with_audit row (w_db w)))) /\
   session_inv (w_db w') /\ cut_off (ac_user_id claims) (w_now w) (w_db w) w').
Proof.
  intros I Hk H. set (u := ac_user_id claims) in *. destruct (request_erasure_cases _ _ _ _ _ _ Hk H)
    as [(e' & _ & ? & ?)|(g & row & w2 & Hg & Hc & _ & Hdb2 & Hr2 & Hn2 & [(r' & ? & _)|(e' & gs & [= <-] & He & Hdb' & Hr')])]; [by left|done|].
  fold u in Hg, Hdb2, Hr2. right. split; [done|].
  destruct (accepted_state u g row w w2 I Hdb2) as (I2 & Hf2 & (fs & ts & ss & Ht2) & Hs2).
  assert (I' : session_inv (w_db w')) by (rewrite Hdb'; by apply (RecoveryProps.session_inv_ext (w_db w2))).
  split; [exists gs, row, fs, ts, ss; by rewrite Hdb', Ht2|]. split; [done|].
  apply (cut_off_intro u (w_now w) (w_db w) (SessionControlProps.live_rows u (w_db w)) (w_redis w)); [done| |by rewrite Hr', Hr2].
  intros s s' Hs Hu Hs' Hid. rewrite Hdb' in Hs'. by apply (Hs2 s s').
Qed.

(** What writes neither roles nor organizations keeps the invariant of the roles. *)
Lemma roster_tables gs fs ts ss row f db : Roster db ->
  Roster (with_requests gs db) /\ Roster (with_session_tables fs ts ss db) /\ Roster (with_audit row db) /\
  Roster (db <| gdpr_requests ::= f |>).
Proof.
  intros I. split_and!; refine (proj1 (roster_frame db _ I _ _ _ _ _ _)); try done; first [by left|by apply (ro_invited _ I)].
Qed.

Lemma request_erasure_roster claims key cid w x w' : session_inv (w_db w) -> Roster (w_db w) ->
  request_erasure claims key cid w = (x, w') -> Roster (w_db w').
Proof.
  intros Is I H.
  destruct (gdpr_by_key (ac_user_id claims) "erasure" (_key_hash key) (w_db w)) as [g|] eqn:Hk.
  { unfold request_erasure, _require_recent_mfa in H. destruct (negb _); [by injection H as _ <-|]. rewrite bind_raise_if_false in H.
    rewrite (run_bind _ _ _ (Some (_request g), false) w) in H; [by injection H as _ <-|].
    unfold get_or_create_erasure. apply run_tx. by rewrite bind_get_db, Hk. }
  set (u := ac_user_id claims) in *. destruct (request_erasure_cases _ _ _ _ _ _ Hk H)
    as [(e' & _ & -> & _)|(g & row & w2 & Hg & Hc & _ & Hdb2 & Hr2 & Hn2 & Hor)]; [done|]. fold u in Hg, Hdb2, Hr2, Hor.
  destruct (accepted_state u g row w w2 Is Hdb2) as (I2 & _ & (fs & ts & ss & Ht2) & _).
  assert (J2 : Roster (w_db w2)).
  { rewrite Ht2. destruct (roster_tables [] [] [] [] row (fun t => t ++ [g]) _ I) as (_ & _ & _ & J).
    destruct (roster_tables [] [] [] [] row (fun t => t) _ J) as (_ & _ & J' & _). by apply (roster_tables [] fs ts ss row (fun t => t)). }
  destruct Hor as [(r & -> & Hx)|(e & gs & _ & _ & -> & _)]; [|by apply (roster_tables gs [] [] [] row (fun t => t))].
  apply erasure_executed_inr in Hx as (g' & account & row' & _ & _ & _ & Hsole & _ & _ & ->).
  + pose proof (erase_roster _ _ _ _ _ _ _ _ J2 Hsole (erase_tables (gq_gdpr_request_id g) u (_pseudonym u) (u_email account) (w_now w) (due_of w) (w_db w2))) as J3.
    by apply (roster_tables [] [] [] [] row' (fun t => t)).
  + intros x' Hx' Hid. rewrite Ht2 in Hx'. cbn in Hx'. apply elem_of_snoc in Hx' as [Hx'| ->]; [|by rewrite Hg].
    pose proof (proj1 (row_exists_false _ _) Hc x' Hx') as Hf. cbv beta in Hf. by rewrite Hid, eqb_refl in Hf.
Qed.

(** Erasing accounts never leaves an organization without an owner.  Whatever a request for an
    erasure answers, the invariant of the roles holds after it if it held before: every
    organization still has an owner, and no role is left to the erased account. *)
Theorem erasure_keeps_owners claims key cid w x w' : session_inv (w_db w) -> Roster (w_db w) ->
  request_erasure claims key cid w = (x, w') ->
  Roster (w_db w') /\ (forall o, is_organization o (w_db w') = true -> exists v, "OWNER" ∈ matrix (w_db w') o v).
Proof.
  intros Is I H. pose proof (request_erasure_roster _ _ _ _ _ _ Is I H) as I'.
  split; [done|]. intros o Ho. apply row_exists_true in Ho as (y & Hy & Hp). to_prop.
  match goal with H : o_org_id y = o |- _ => rewrite <- H end. by apply (ro_owned _ I').
Qed.
End Results.
