(* ===== verification/PrivacyDemo.v ===== *)
(** Concrete runs of the privacy requests: the witnesses of their theorems. *)
From S2P Require Import Prelude PyText Entity Models RedisClient World Encoding Providers RedisSecurity Tokens.
From S2P Require Import SessionInv SessionProps SessionDemo WorkspaceDemo PrivacyRepo Privacy AuditProps PrivacyProps.
From S2P Require RecoveryProps WorkspaceInv.

(** The environment of the demonstrations encrypts as the cipher promises. *)
Lemma test_hash_length s : String.length (test_hash s) = 64%nat.
Proof. unfold test_hash. by rewrite hex_digits_length. Qed.
Lemma test_tag_length n ad : String.length (test_tag n ad) = 32%nat.
Proof.
  unfold test_tag. pose proof (take_drop_s 32 (test_hash (n +:+ "/" +:+ ad))) as H. apply (f_equal String.length) in H.
  rewrite append_length, test_hash_length in H.
  assert (Hd : String.length (drop_s 32 (test_hash (n +:+ "/" +:+ ad))) = 32%nat).
  { unfold test_hash. generalize (hex_digits_length 64 (mix (poly_hash 7 (n +:+ "/" +:+ ad))) "").
    generalize (hex_digits 64 (mix (poly_hash 7 (n +:+ "/" +:+ ad))) "").
    clear H. intros t Ht. cbn in Ht. do 32 (destruct t as [|? t]; [discriminate Ht|]). cbn in *. lia. }
  lia.
Qed.
Lemma test_cipher : cipher_laws.
Proof.
  split; [|split].
  - intros d. exact (hex_digits_length 12 d "").
  - intros n p ad. cbn [aes_encrypt TestEnv test_env]. rewrite append_length, test_tag_length. lia.
  - intros n p ad. cbn [aes_encrypt aes_decrypt TestEnv test_env].
    by rewrite (take_s_app _ _ _ (test_tag_length n ad)), (drop_s_app _ _ _ (test_tag_length n ad)), eqb_refl.
Qed.

(** ** A review of five rows, two at a time *)

Definition strong_claims (user_id : UUID) : AccessClaims :=
  MkAccessClaims user_id cid cid cid t0 (t0 + minutes 10) WEB ["password"; "totp"] None None [].
Definition ann_strong : AccessClaims := strong_claims demo_user.
Definition bob_strong : AccessClaims := strong_claims bob_id.
Definition logged (n : N) (event : string) (at_ : Time) : AuditLog :=
  MkAuditLog (test_uuid (700 + n)) (Some demo_user) (Some demo_user) None event "success" cid
    [("email", JStr "ann@example.com"); ("attempts", JNum 2); ("detail", JObj [("Refresh_Token", JStr "r"); ("note", JStr "ok")])] at_.
Definition audited : list AuditLog :=
  [logged 1 "LOGIN" (t0 - seconds 5); logged 2 "LOGIN" (t0 - seconds 9); logged 3 "LOGOUT" (t0 - seconds 7);
   logged 4 "LOGIN" (t0 - seconds 5); logged 5 "LOGIN" (t0 - seconds 8)].
Definition supervisor : StaffRoleBinding :=
  MkStaffRoleBinding (test_uuid 720) bob_id (staff_value SECURITY_SUPERVISOR_L3) None (t0 - days 1) None.
Definition review_world : World mem_redis :=
  test_world (seed_db <| audit_logs := audited |> <| staff_role_bindings := [supervisor] |>) t0.
Definition logins : AuditSearchFilter := MkAuditSearchFilter None (Some "LOGIN") None None None.
Definition instants : list Time := [t0; t0 + seconds 1].

Lemma audited_ids : NoDup (List.map a_audit_id (audit_logs (w_db review_world))).
Proof. apply (bool_decide_unpack _). vm_compute. exact I. Qed.
Lemma audited_all (P : AuditLog -> Prop) : Forall P audited -> forall a, a ∈ audit_logs (w_db review_world) -> P a.
Proof. intros H a Ha. rewrite Forall_forall in H. apply H. by apply list_elem_of_In in Ha. Qed.
Lemma audited_datable a : a ∈ audit_logs (w_db review_world) -> datable (a_occurred_at a).
Proof.
  revert a. apply (audited_all (fun a => datable (a_occurred_at a))).
  repeat apply List.Forall_cons; try apply List.Forall_nil; split; vm_compute; first [discriminate|reflexivity].
Qed.
Lemma audited_past t a : t ∈ instants -> a ∈ audit_logs (w_db review_world) -> a_occurred_at a < t.
Proof.
  intros Ht. revert a. apply (audited_all (fun a => a_occurred_at a < t)). unfold instants in Ht.
  apply elem_of_cons in Ht as [->|Ht]; [|apply list_elem_of_singleton in Ht as ->];
    repeat apply List.Forall_cons; try apply List.Forall_nil; vm_compute; reflexivity.
Qed.
Lemma bob_supervises : supervises bob_strong (w_db review_world) = true.
Proof. vm_compute. reflexivity. Qed.
Lemma logins_fit : (count_ (PrivacyRepo.matches logins) (audit_logs (w_db review_world)) <= 2 * length instants)%nat.
Proof. vm_compute. repeat constructor. Qed.
Lemma two_positive : (0 < 2)%nat. Proof. lia. Qed.

Lemma audit_review_complete_witness : exists rows, length rows = 4%nat /\
  review bob_strong logins 2 cid instants None review_world = Some (List.map item rows).
Proof.
  destruct (audit_review_complete bob_strong logins 2 cid instants review_world two_positive ltac:(discriminate) audited_ids
    audited_datable audited_past bob_supervises logins_fit) as (rows & Hp & _ & Hr).
  exists rows. split; [|exact Hr]. rewrite Hp. vm_compute. reflexivity.
Defined.
(** The order of the rows, as a run. *)
Lemma review_order : (fun l => List.map (fun r => uuid_int (au_audit_id r)) l) <$> review bob_strong logins 2 cid instants None review_world
  = Some (List.map (fun n => uuid_int (test_uuid (700 + n))) [4; 1; 5; 2]%N).
Proof. vm_compute. reflexivity. Qed.

Abbreviation reviewing := (Privacy.search bob_strong logins None 2 cid review_world).
Lemma reviewing_ok : match reviewing.1 with inr _ => true | _ => false end = true.
Proof. vm_compute. reflexivity. Qed.
Lemma audit_review_redacted_witness : exists page w', reviewing = (inr page, w') /\
  forall r, r ∈ ap_items page -> shown (JObj (au_metadata r)) = true.
Proof.
  returned reviewing_ok page w E. exists page, w. split; [reflexivity|]. intros r Hr.
  apply (audit_review_redacted _ _ _ _ _ _ _ _ E). exact Hr.
Defined.

(** ** An export *)

Definition accounts_of (orgs : list Organization) (db : Db) : Db :=
  db <| users := [ann; bob] |> <| role_permission_catalog := seed_catalog |> <| organizations := orgs |>.
(** Ann is signed in. *)
Definition privacy_world_with (orgs : list Organization) (w : World mem_redis) : World mem_redis :=
  soon (with_db (accounts_of orgs (w_db w)) w).
Lemma privacy_inv_with orgs w : session_inv (w_db w) -> session_inv (w_db (privacy_world_with orgs w)).
Proof. by apply RecoveryProps.session_inv_ext. Qed.
Definition privacy_world : World mem_redis := privacy_world_with [] open_world.
Lemma privacy_inv : session_inv (w_db privacy_world).
Proof. apply privacy_inv_with, open_inv. Qed.
Abbreviation exporting := (request_export u_created_at ann_strong "key-1" cid privacy_world).
Lemma exporting_ok : match exporting.1 with inr _ => true | _ => false end = true.
Proof. vm_compute. reflexivity. Qed.
Lemma no_export : gdpr_by_key (ac_user_id ann_strong) "export" (_key_hash "key-1") (w_db privacy_world) = None.
Proof. reflexivity. Qed.
Lemma export_roundtrip_witness : exists r w', exporting = (inr r, w') /\ pr_state r = "completed" /\
  download_export ann_strong (pr_request_id r) (at_time (t0 + hours 2) w')
    = (inr (MkExportDownload (pr_request_id r) (export_text u_created_at demo_user privacy_world) (t0 + seconds 10 + hours 24)),
       at_time (t0 + hours 2) w') /\
  (download_export bob_strong (pr_request_id r) (at_time (t0 + hours 2) w')).1 = inl request_not_found.
Proof.
  returned exporting_ok r w E. exists r, w. split; [reflexivity|].
  destruct (export_roundtrip _ _ _ _ _ _ _ test_cipher no_export E) as (Hs & Hd & _). split; [exact Hs|]. split.
  - apply (Hd ann_strong (t0 + hours 2)). reflexivity.
  - rewrite (Hd bob_strong (t0 + hours 2)); reflexivity.
Defined.

(** ** Erasures *)

Abbreviation erasing := (request_erasure ann_strong "key-1" cid privacy_world).
Lemma erasing_ok : match erasing.1 with inr _ => true | _ => false end = true.
Proof. vm_compute. reflexivity. Qed.
Lemma no_erasure : gdpr_by_key (ac_user_id ann_strong) "erasure" (_key_hash "key-1") (w_db privacy_world) = None.
Proof. reflexivity. Qed.

(** The slug of the erased workspace is taken. *)
Definition blocked_world : World mem_redis := privacy_world_with
  [MkOrganization (test_uuid 730) "Ann's Portfolio" "ann" "personal" (Some demo_user) "active" [];
   MkOrganization (test_uuid 731) "Other" ("anonymized-" +:+ _pseudonym demo_user) "organization" None "active" []] open_world.
Abbreviation failing := (request_erasure ann_strong "key-1" cid blocked_world).
Lemma failing_run : match failing.1 with inl _ => length (gdpr_requests (w_db failing.2)) = 1%nat | inr _ => False end.
Proof. vm_compute. reflexivity. Qed.
Lemma blocked_inv : session_inv (w_db blocked_world).
Proof. apply privacy_inv_with, open_inv. Qed.
Lemma blocked_none : gdpr_requests (w_db blocked_world) = [].
Proof. vm_compute. reflexivity. Qed.
Lemma blocked_now : w_now blocked_world = t0 + seconds 10.
Proof. reflexivity. Qed.
Lemma no_blocked : gdpr_by_key (ac_user_id ann_strong) "erasure" (_key_hash "key-1") (w_db blocked_world) = None.
Proof. unfold gdpr_by_key. rewrite blocked_none. reflexivity. Qed.
Lemma erasure_failure_signs_out_witness : exists e w', failing = (inl e, w') /\
  e ∈ [erasure_failed; _ownership_transfer_required] /\ cut_off demo_user (t0 + seconds 10) (w_db blocked_world) w'.
Proof.
  pose proof failing_run as Hl. revert Hl. destruct failing as [[e|r] w'] eqn:E; cbn [fst snd]; intros Hl; [|destruct Hl].
  exists e, w'. split; [reflexivity|].
  destruct (erasure_failure_signs_out ann_strong "key-1" cid blocked_world e w' blocked_inv no_blocked E) as [[Hdb _]|(He & _ & _ & H)].
  - rewrite Hdb, blocked_none in Hl. discriminate Hl.
  - rewrite blocked_now in H. split; [exact He|exact H].
Defined.

(** Ann and Bob own an organization together; Ann's account is erased, Bob's cannot be. *)
Abbreviation sharing := (request_erasure ann_strong "key-2" cid promoted_world).
Lemma promoted_inv : session_inv (w_db promoted_world).
Proof. apply session_inv_of_empty; vm_compute; reflexivity. Qed.
Lemma sharing_run : match sharing.1 with inr _ => true | _ => false end = true.
Proof. vm_compute. reflexivity. Qed.
Lemma sole_owner_stays : (request_erasure bob_strong "key-3" cid sharing.2).1 = inl _ownership_transfer_required.
Proof. vm_compute. reflexivity. Qed.
Lemma acme_stays w : sharing.2 = w -> is_organization acme (w_db w) = true.
Proof. intros <-. vm_compute. reflexivity. Qed.
Lemma erasure_keeps_owners_witness : exists r w' v, sharing = (inr r, w') /\ "OWNER" ∈ WorkspaceInv.matrix (w_db w') acme v.
Proof.
  pose proof acme_stays as Ha. returned sharing_run r w E.
  destruct (erasure_keeps_owners _ _ _ _ _ _ promoted_inv promoted_roster E) as [_ Ho]. destruct (Ho acme (Ha w eq_refl)) as [v Hv].
  exists r, w, v. split; [reflexivity|exact Hv].
Defined.

(** A referral to an address that is not claimed yet outlives the erasure of the account with that
    address: only claimed referrals are anonymized. *)
Definition bobs_referral : Referral :=
  MkReferral (test_uuid 740) bob_id "ann@example.com" "hash" None "invited" t0 (t0 + days 7) None None.
Definition referred_world : World mem_redis := soon (with_db ((w_db privacy_world) <| referrals := [bobs_referral] |>) privacy_world).
Lemma pending_referral_keeps_address :
  let run := request_erasure ann_strong "key-1" cid referred_world in
  (match run.1 with inr r => pr_state r | inl _ => "" end, referrals (w_db run.2)) = ("completed", [bobs_referral]).
Proof. vm_compute. reflexivity. Qed.
