(* ===== verification/Http.v ===== *)
(** What the routers of [boundary/http] share: requests and responses, problem documents, request
    identifiers and bearer tokens ([registration.py], [session.py]), and the middleware and the
    validation handler of [main.py].

    FastAPI and pydantic are not modelled: a handler takes the values they parsed.  The constraints
    the request models declare are the [*_valid] predicates; what does not meet them is answered by
    [validation_problem] before the handler runs.  A response model is the record of its fields;
    its JSON text is pydantic's. *)
From S2P Require Import Prelude PyText Entity Models RedisClient World Encoding.
From S2P Require SessionControl.

(** ** Requests and responses *)

(** [request.url.path] and [request.client.host]. *)
Record Request := MkRequest { rq_path : string; rq_client_host : option string }.
Record Cookie := MkCookie {
  ck_name : string; ck_value : string; ck_max_age : Z; ck_secure : bool; ck_httponly : bool;
  ck_samesite : string; ck_path : string }.
(** The document of [application/problem+json]. *)
Record ProblemResponse := MkProblemResponse {
  pb_type : string; pb_title : string; pb_status : Z; pb_detail : string; pb_instance : string;
  pb_code : string; pb_request_id : string }.
Inductive Content (A : Type) :=
| Problem (p : ProblemResponse)
| Invalid (p : ProblemResponse) (errors : list (string * string))
| Body (a : A)
| Empty.
Arguments Problem {A}.
Arguments Invalid {A}.
Arguments Body {A}.
Arguments Empty {A}.
Record Response (A : Type) := MkResponse {
  rs_status : Z; rs_media_type : string; rs_headers : list (string * string);
  rs_cookies : list Cookie; rs_content : Content A }.
Arguments MkResponse {A}.
Arguments rs_status {A}.
Arguments rs_media_type {A}.
Arguments rs_headers {A}.
Arguments rs_cookies {A}.
Arguments rs_content {A}.

(** A response model under the status code of its route; an empty response; both with the cookies
    set on the response FastAPI injects. *)
Definition json_response {A} (status : Z) (cookies : list Cookie) (a : A) : Response A :=
  MkResponse status "application/json" [] cookies (Body a).
Definition no_content {A} (cookies : list Cookie) : Response A := MkResponse 204 "" [] cookies Empty.

(** [error.code.value], [error.message], [error.status_code] of the errors of the service. *)
Definition Parts : Type := string * string * Z.
Definition error_parts (e : exc) : option Parts :=
  match e with
  | RegistrationError c m s => Some (registration_code_value c, m, s)
  | LoginError c m s => Some (login_code_value c, m, s)
  | MFAError c m s => Some (mfa_code_value c, m, s)
  | SessionError c m s => Some (session_code_value c, m, s)
  | RecoveryError c m s => Some (recovery_code_value c, m, s)
  | WorkspaceError c m s => Some (workspace_code_value c, m, s)
  | PrivacyError c m s => Some (privacy_code_value c, m, s)
  | _ => None
  end.
Definition problem_body (title : string) (request : Request) (correlation_id : UUID) (code message : string)
    (status : Z) : ProblemResponse :=
  MkProblemResponse ("https://auth.vittavaan.com/problems/" +:+ casefold code) title status message
    (rq_path request) code (uuid_str correlation_id).
Definition problem_response {A} (title : string) (request : Request) (correlation_id : UUID)
    (parts : Parts) : Response A :=
  let '(code, message, status) := parts in
  MkResponse status "application/problem+json" [] []
    (Problem (problem_body title request correlation_id code message status)).

(** The classes an [except] clause names. *)
Definition is_RegistrationError (e : exc) : bool := match e with RegistrationError _ _ _ => true | _ => false end.
Definition is_LoginError (e : exc) : bool := match e with LoginError _ _ _ => true | _ => false end.
Definition is_MFAError (e : exc) : bool := match e with MFAError _ _ _ => true | _ => false end.
Definition is_SessionError (e : exc) : bool := match e with SessionError _ _ _ => true | _ => false end.
Definition is_RecoveryError (e : exc) : bool := match e with RecoveryError _ _ _ => true | _ => false end.
Definition is_WorkspaceError (e : exc) : bool := match e with WorkspaceError _ _ _ => true | _ => false end.
Definition is_PrivacyError (e : exc) : bool := match e with PrivacyError _ _ _ => true | _ => false end.
Definition either (p q : exc -> bool) (e : exc) : bool := p e || q e.

Definition remote_ip (request : Request) : option string := rq_client_host request.

(** ** Constraints of the request models *)

Definition sized (min_length max_length : Z) (s : string) : bool :=
  let n := Z.of_nat (String.length s) in (min_length <=? n) && (n <=? max_length).
(** The constraint of a field that may be absent. *)
Definition optional {A} (valid : A -> bool) (o : option A) : bool := match o with Some a => valid a | None => true end.
Section Http.
Context {R : Type} {RC : RedisClient R} {E : Env}.
Abbreviation M := (prog R).

Definition request_id (value : option string) : M UUID :=
  match value with
  | Some v => if nonempty v then match uuid_parse v with Some u => mret u | None => new_uuid4 end else new_uuid4
  | None => new_uuid4
  end.

(** [try: value = body  except classes as error: return problem(request, error, correlation_id)],
    and what follows on the value. *)
Definition responding {A B} (caught : exc -> bool) (problem : Parts -> Response B)
    (body : M A) (answer : A -> M (Response B)) : M (Response B) :=
  outcome ← try_except (a ← body; mret (inr a))
    (fun e => match error_parts e with
              | Some parts => if caught e then Some (mret (inl parts)) else None
              | None => None
              end);
  match outcome with
  | inl parts => mret (problem parts)
  | inr a => answer a
  end.

(** [access_claims]: a missing header, an empty one and another scheme are refused alike. *)
Definition bearer_missing : exc := SessionError Ses_TOKEN_INVALID "The access token is invalid or expired." 401.
Definition access_claims (authorization : option string) : M AccessClaims :=
  match authorization with
  | Some a => if String.prefix "Bearer " a then SessionControl.authenticate (drop_s 7 a) else raise bearer_missing
  | None => raise bearer_missing
  end.

(** ** main.py *)

Definition validation_problem {A} (request : Request) (supplied_request_id : option string)
    (errors : list (list string * string)) : M (Response A) :=
  correlation_id ← request_id supplied_request_id;
  let safe_errors := List.map (fun item => (String.concat "." (List.tl item.1), item.2)) errors in
  mret (MkResponse 422 "application/problem+json" [] []
    (Invalid (MkProblemResponse "https://auth.vittavaan.com/problems/request-validation" "Request validation failed"
       422 "One or more request fields are invalid." (rq_path request) "REQUEST_VALIDATION_FAILED"
       (uuid_str correlation_id)) safe_errors)).

Definition prevent_auth_response_storage {A} (request : Request) (response : Response A) : Response A :=
  if String.prefix "/api/v1" (rq_path request)
  then MkResponse (rs_status response) (rs_media_type response) (("Cache-Control", "no-store") :: rs_headers response)
         (rs_cookies response) (rs_content response)
  else response.
End Http.
