(* ===== verification/HttpSession.v ===== *)
(** [boundary/http/session.py]: tokens in cookies and bodies, the CSRF check, and the routes of
    SessionControl. *)
From S2P Require Import Prelude PyText Entity Models RedisClient World Tokens Http.
From S2P Require SessionControl.

Definition title : string := "The session operation could not be completed".
Definition REFRESH_COOKIE : string := "__Host-auth_refresh".
Definition CSRF_COOKIE : string := "__Host-auth_csrf".

Record CreateSessionRequest := MkCreateSessionRequest { cs_workflow_token : string }.
Definition CreateSessionRequest_valid (p : CreateSessionRequest) : bool := sized 20 512 (cs_workflow_token p).
Record RefreshRequest := MkRefreshRequest { rf_refresh_token : option string }.
Definition RefreshRequest_valid (p : RefreshRequest) : bool := optional (sized 32 512) (rf_refresh_token p).
(** [x_device_fingerprint: Annotated[str, Header(min_length=16, max_length=512)]]. *)
Definition fingerprint_valid (s : string) : bool := sized 16 512 s.
Record TokenResponse := MkTokenResponse {
  tr_token_type : string; tr_access_token : string; tr_access_expires_at : Time; tr_refresh_token : option string;
  tr_refresh_expires_at : Time; tr_session_id : UUID; tr_csrf_token : option string }.
Record LogoutAllResponse := MkLogoutAllResponse { la_revoked_sessions : Z }.
Record SessionResponse := MkSessionResponse {
  sx_session_id : UUID; sx_client_type : ClientType; sx_device_hint : string; sx_ip_address : option string;
  sx_created_at : Time; sx_last_activity_at : Time; sx_expires_at : Time; sx_current : bool }.
Record SessionsResponse := MkSessionsResponse { sx_sessions : list SessionResponse }.

Definition token_response (pair : TokenPair) (client_type : ClientType) : TokenResponse :=
  MkTokenResponse "Bearer" (tp_access_token pair) (tp_access_expires_at pair)
    (if client_type == MOBILE then Some (tp_refresh_token pair) else None) (tp_refresh_expires_at pair)
    (tp_session_id pair) (if client_type == WEB then tp_csrf_token pair else None).
Definition set_web_cookies (pair : TokenPair) : list Cookie :=
  MkCookie REFRESH_COOKIE (tp_refresh_token pair) SessionControl.REFRESH_FAMILY_SECONDS true true "lax" "/"
  :: match tp_csrf_token pair with
     | Some csrf =>
       if nonempty csrf then [MkCookie CSRF_COOKIE csrf SessionControl.REFRESH_FAMILY_SECONDS true false "lax" "/"] else []
     | None => []
     end.
(** [delete_cookie]: an empty value that expires at once. *)
Definition clear_web_cookies : list Cookie :=
  [MkCookie REFRESH_COOKIE "" 0 true true "lax" "/"; MkCookie CSRF_COOKIE "" 0 true false "lax" "/"].
Definition session_model (value : SessionSummary) : SessionResponse :=
  MkSessionResponse (ss_session_id value) (ss_client_type value) (ss_device_hint value) (ss_ip_address value)
    (ss_created_at value) (ss_last_activity_at value) (ss_expires_at value) (ss_current value).

Definition csrf_invalid : exc :=
  SessionError Ses_CSRF_INVALID "The browser security token is missing or invalid." 403.
Definition refresh_missing : exc :=
  SessionError Ses_TOKEN_INVALID "The refresh token is invalid or expired." 401.

(** A 401 names the scheme. *)
Definition problem {A} (request : Request) (correlation_id : UUID) (parts : Parts) : Response A :=
  let response := problem_response title request correlation_id parts in
  if rs_status response =? 401
  then MkResponse (rs_status response) (rs_media_type response) [("WWW-Authenticate", "Bearer")]
         (rs_cookies response) (rs_content response)
  else response.
(** [clear_web_cookies(error_response)]. *)
Definition clearing {A} (response : Response A) : Response A :=
  MkResponse (rs_status response) (rs_media_type response) (rs_headers response) clear_web_cookies (rs_content response).

Section Handlers.
Context {R : Type} {RC : RedisClient R} {E : Env}.
Abbreviation M := (prog R).

Definition require_csrf (client_type : ClientType) (header_value cookie_value : option string) : M unit :=
  raise_if ((client_type == WEB)
    && (negb (truthy header_value) || negb (truthy cookie_value) || (header_value != cookie_value))) csrf_invalid.

Definition create_session (payload : CreateSessionRequest) (request : Request) (x_client_type : ClientType)
    (x_device_fingerprint : string) (x_request_id : option string) : M (Response TokenResponse) :=
  correlation_id ← request_id x_request_id;
  responding is_SessionError (problem request correlation_id)
    (SessionControl.create_session (cs_workflow_token payload) x_client_type x_device_fingerprint
       (rq_client_host request) correlation_id)
    (fun pair => mret (json_response 200 (if x_client_type == WEB then set_web_cookies pair else [])
                         (token_response pair x_client_type))).

Definition refresh (payload : RefreshRequest) (request : Request) (x_client_type : ClientType)
    (x_device_fingerprint : string) (refresh_cookie csrf_cookie x_csrf_token x_request_id : option string)
    : M (Response TokenResponse) :=
  correlation_id ← request_id x_request_id;
  responding is_SessionError (fun parts => clearing (problem request correlation_id parts))
    (require_csrf x_client_type x_csrf_token csrf_cookie;;
     supplied ← get_or refresh_missing (if x_client_type == WEB then refresh_cookie else rf_refresh_token payload);
     SessionControl.refresh supplied x_client_type x_device_fingerprint correlation_id)
    (fun pair => mret (json_response 200 (if x_client_type == WEB then set_web_cookies pair else [])
                         (token_response pair x_client_type))).

Definition logout (request : Request) (authorization x_request_id : option string) : M (Response unit) :=
  correlation_id ← request_id x_request_id;
  responding is_SessionError (problem request correlation_id)
    (claims ← access_claims authorization; SessionControl.logout claims correlation_id)
    (fun _ => mret (no_content clear_web_cookies)).

Definition logout_all (request : Request) (authorization x_request_id : option string) : M (Response LogoutAllResponse) :=
  correlation_id ← request_id x_request_id;
  responding is_SessionError (problem request correlation_id)
    (claims ← access_claims authorization; SessionControl.logout_all claims correlation_id)
    (fun count => mret (json_response 200 clear_web_cookies (MkLogoutAllResponse count))).

Definition sessions (request : Request) (authorization : option string) : M (Response SessionsResponse) :=
  correlation_id ← request_id None;
  responding is_SessionError (problem request correlation_id)
    (claims ← access_claims authorization; SessionControl.sessions claims)
    (fun values => mret (json_response 200 [] (MkSessionsResponse (List.map session_model values)))).

Definition revoke_session (session_id : UUID) (request : Request) (authorization x_request_id : option string)
    : M (Response unit) :=
  correlation_id ← request_id x_request_id;
  responding is_SessionError (problem request correlation_id)
    (claims ← access_claims authorization; SessionControl.revoke_selected claims session_id correlation_id;; mret claims)
    (fun claims => mret (no_content (if session_id == ac_session_id claims then clear_web_cookies else []))).
End Handlers.
