(* ===== verification/HttpRegistration.v ===== *)
(** [boundary/http/registration.py]: the routes of RegistrationControl. *)
From S2P Require Import Prelude PyText Entity Models RedisClient World Http.
From S2P Require Registration.

Definition title : string := "Registration request could not be completed".

(** The syntax of an [EmailStr] is checked by pydantic. *)
Record EmailSignupRequest := MkEmailSignupRequest {
  es_email : string; es_password : string; es_given_name : string; es_family_name : string;
  es_captcha_token : string; es_referral_token : option string }.
Definition EmailSignupRequest_valid (p : EmailSignupRequest) : bool :=
  sized 12 128 (es_password p) && sized 1 120 (es_given_name p) && sized 1 120 (es_family_name p)
  && sized 1 2048 (es_captcha_token p) && optional (sized 20 512) (es_referral_token p).
Record EmailVerificationRequest := MkEmailVerificationRequest { ev_token : string }.
Definition EmailVerificationRequest_valid (p : EmailVerificationRequest) : bool := sized 20 512 (ev_token p).
Record EmailVerificationResendRequest := MkEmailVerificationResendRequest { er_email : string; er_captcha_token : string }.
Definition EmailVerificationResendRequest_valid (p : EmailVerificationResendRequest) : bool :=
  sized 1 2048 (er_captcha_token p).
Record PhoneSignupRequest := MkPhoneSignupRequest {
  ps_phone : string; ps_given_name : option string; ps_family_name : option string; ps_captcha_token : string }.
Definition PhoneSignupRequest_valid (p : PhoneSignupRequest) : bool :=
  sized 8 32 (ps_phone p) && optional (sized 1 120) (ps_given_name p) && optional (sized 1 120) (ps_family_name p)
  && sized 1 2048 (ps_captcha_token p).
Record PhoneVerificationRequest := MkPhoneVerificationRequest { pv_phone : string; pv_captcha_token : string }.
Definition PhoneVerificationRequest_valid (p : PhoneVerificationRequest) : bool :=
  sized 8 32 (pv_phone p) && sized 1 2048 (pv_captcha_token p).
Record PhoneVerificationConfirmRequest := MkPhoneVerificationConfirmRequest {
  pc_phone : string; pc_code : string; pc_captcha_token : string }.
Definition PhoneVerificationConfirmRequest_valid (p : PhoneVerificationConfirmRequest) : bool :=
  sized 8 32 (pc_phone p) && matches_six_digits (pc_code p) && sized 1 2048 (pc_captcha_token p).

Record AcceptedResponse := MkAcceptedResponse { ar_status : string; ar_message : string }.
Definition accepted (message : string) : AcceptedResponse := MkAcceptedResponse "accepted" message.
Record VerifiedResponse := MkVerifiedResponse { vr_status : string }.
Definition verified : VerifiedResponse := MkVerifiedResponse "verified".

Definition problem {A} (request : Request) (correlation_id : UUID) (parts : Parts) : Response A :=
  problem_response title request correlation_id parts.

Section Handlers.
Context {R : Type} {RC : RedisClient R} {E : Env}.
Abbreviation M := (prog R).

Definition signup_email (payload : EmailSignupRequest) (request : Request) (x_request_id : option string)
    : M (Response AcceptedResponse) :=
  correlation_id ← request_id x_request_id;
  responding is_RegistrationError (problem request correlation_id)
    (Registration.register_email (es_email payload) (es_password payload) (es_given_name payload)
       (es_family_name payload) (es_captcha_token payload) (remote_ip request) (Some correlation_id)
       (es_referral_token payload))
    (fun _ => mret (json_response 201 [] (accepted
       "If registration can proceed, verification instructions have been sent."))).

Definition verify_email (payload : EmailVerificationRequest) (request : Request) (x_request_id : option string)
    : M (Response VerifiedResponse) :=
  correlation_id ← request_id x_request_id;
  responding is_RegistrationError (problem request correlation_id)
    (Registration.verify_email (ev_token payload) (Some correlation_id))
    (fun _ => mret (json_response 200 [] verified)).

Definition request_email_verification (payload : EmailVerificationResendRequest) (request : Request)
    (x_request_id : option string) : M (Response AcceptedResponse) :=
  correlation_id ← request_id x_request_id;
  responding is_RegistrationError (problem request correlation_id)
    (Registration.request_email_verification (er_email payload) (er_captcha_token payload) (remote_ip request)
       (Some correlation_id))
    (fun _ => mret (json_response 202 [] (accepted
       "If the account is eligible, verification instructions have been sent."))).

Definition signup_phone (payload : PhoneSignupRequest) (request : Request) (x_request_id : option string)
    : M (Response AcceptedResponse) :=
  correlation_id ← request_id x_request_id;
  responding is_RegistrationError (problem request correlation_id)
    (Registration.register_phone (ps_phone payload) (ps_captcha_token payload) (remote_ip request)
       (ps_given_name payload) (ps_family_name payload) (Some correlation_id))
    (fun _ => mret (json_response 201 [] (accepted
       "If registration can proceed, a verification code has been sent."))).

Definition request_phone_verification (payload : PhoneVerificationRequest) (request : Request)
    : M (Response AcceptedResponse) :=
  correlation_id ← new_uuid4;
  responding is_RegistrationError (problem request correlation_id)
    (Registration.request_phone_verification (pv_phone payload) (pv_captcha_token payload) (remote_ip request))
    (fun _ => mret (json_response 202 [] (accepted
       "If the account is eligible, a verification code has been sent."))).

Definition confirm_phone_verification (payload : PhoneVerificationConfirmRequest) (request : Request)
    (x_request_id : option string) : M (Response VerifiedResponse) :=
  correlation_id ← request_id x_request_id;
  responding is_RegistrationError (problem request correlation_id)
    (Registration.verify_phone (pc_phone payload) (pc_code payload) (pc_captcha_token payload) (remote_ip request)
       (Some correlation_id))
    (fun _ => mret (json_response 200 [] verified)).
End Handlers.
