(* ===== verification/HttpLogin.v ===== *)
(** [boundary/http/login.py]: the routes of LoginControl. *)
From S2P Require Import Prelude PyText Entity Models RedisClient World Http HttpRegistration.
From S2P Require Login.

Definition title : string := "Login request could not be completed".

Record PasswordLoginRequest := MkPasswordLoginRequest {
  pl_email : string; pl_password : string; pl_device_fingerprint : string }.
Definition PasswordLoginRequest_valid (p : PasswordLoginRequest) : bool :=
  sized 1 128 (pl_password p) && sized 16 512 (pl_device_fingerprint p).
Record PhoneLoginRequest := MkPhoneLoginRequest { ph_phone : string; ph_captcha_token : string }.
Definition PhoneLoginRequest_valid (p : PhoneLoginRequest) : bool :=
  sized 8 32 (ph_phone p) && sized 1 2048 (ph_captcha_token p).
Record PhoneLoginConfirmRequest := MkPhoneLoginConfirmRequest {
  pf_phone : string; pf_captcha_token : string; pf_code : string; pf_device_fingerprint : string }.
Definition PhoneLoginConfirmRequest_valid (p : PhoneLoginConfirmRequest) : bool :=
  sized 8 32 (pf_phone p) && sized 1 2048 (pf_captcha_token p) && matches_six_digits (pf_code p)
  && sized 16 512 (pf_device_fingerprint p).
Record OIDCCallbackRequest := MkOIDCCallbackRequest { oc_state : string; oc_code : string; oc_device_fingerprint : string }.
Definition OIDCCallbackRequest_valid (p : OIDCCallbackRequest) : bool :=
  sized 20 512 (oc_state p) && sized 20 8192 (oc_code p) && sized 16 512 (oc_device_fingerprint p).
Definition workflow_token_valid (s : string) : bool := sized 20 512 s.

Record LoginDecisionResponse := MkLoginDecisionResponse {
  dr_decision : string; dr_risk : string; dr_workflow_token : string; dr_allowed_methods : list string }.
Record OIDCAuthorizationResponse := MkOIDCAuthorizationResponse { oa_authorization_url : string; oa_state : string }.
Record FallbackOptionsResponse := MkFallbackOptionsResponse { fo_allowed_methods : list string }.

Definition response (decision : LoginDecision) : LoginDecisionResponse :=
  MkLoginDecisionResponse (decision_value (ld_decision decision)) (risk_value (ld_risk decision))
    (ld_workflow_token decision) (ld_allowed_methods decision).
Definition problem {A} (request : Request) (correlation_id : UUID) (parts : Parts) : Response A :=
  problem_response title request correlation_id parts.

Section Handlers.
Context {R : Type} {RC : RedisClient R} {E : Env}.
Abbreviation M := (prog R).

Definition login_password (payload : PasswordLoginRequest) (request : Request) (x_request_id : option string)
    : M (Response LoginDecisionResponse) :=
  correlation_id ← request_id x_request_id;
  responding is_LoginError (problem request correlation_id)
    (Login.login_password (pl_email payload) (pl_password payload) (pl_device_fingerprint payload)
       (remote_ip request) (Some correlation_id))
    (fun decision => mret (json_response 200 [] (response decision))).

Definition request_phone_login (payload : PhoneLoginRequest) (request : Request) : M (Response AcceptedResponse) :=
  correlation_id ← request_id None;
  responding is_LoginError (problem request correlation_id)
    (Login.request_phone_otp (ph_phone payload) (ph_captcha_token payload) (remote_ip request))
    (fun _ => mret (json_response 202 [] (accepted "If the account is eligible, a login code has been sent."))).

Definition confirm_phone_login (payload : PhoneLoginConfirmRequest) (request : Request) (x_request_id : option string)
    : M (Response LoginDecisionResponse) :=
  correlation_id ← request_id x_request_id;
  responding is_LoginError (problem request correlation_id)
    (Login.login_phone (pf_phone payload) (pf_code payload) (pf_captcha_token payload)
       (pf_device_fingerprint payload) (remote_ip request) (Some correlation_id))
    (fun decision => mret (json_response 200 [] (response decision))).

Definition authorize_oidc (provider : string) (request : Request) : M (Response OIDCAuthorizationResponse) :=
  correlation_id ← request_id None;
  responding is_LoginError (problem request correlation_id)
    (Login.start_oidc provider)
    (fun '(authorization_url, state) => mret (json_response 200 [] (MkOIDCAuthorizationResponse authorization_url state))).

Definition callback_oidc (provider : string) (payload : OIDCCallbackRequest) (request : Request)
    (x_request_id : option string) : M (Response LoginDecisionResponse) :=
  correlation_id ← request_id x_request_id;
  responding is_LoginError (problem request correlation_id)
    (Login.login_oidc provider (oc_state payload) (oc_code payload) (oc_device_fingerprint payload)
       (remote_ip request) (Some correlation_id))
    (fun decision => mret (json_response 200 [] (response decision))).

Definition fallback_options (request : Request) (workflow_token : string) : M (Response FallbackOptionsResponse) :=
  correlation_id ← request_id None;
  responding is_LoginError (problem request correlation_id)
    (Login.fallback_options workflow_token)
    (fun methods => mret (json_response 200 [] (MkFallbackOptionsResponse methods))).
End Handlers.
