(* ===== verification/HttpMfa.v ===== *)
(** [boundary/http/mfa.py]: the routes of MFAControl. *)
From S2P Require Import Prelude PyText Entity Models RedisClient World Http.
From S2P Require Mfa.

Definition title : string := "Security verification could not be completed".

Record ChallengeRequest := MkChallengeRequest { cq_workflow_token : string; cq_method : MFAMethod }.
Definition ChallengeRequest_valid (p : ChallengeRequest) : bool := sized 20 512 (cq_workflow_token p).
Record ChallengeTokenRequest := MkChallengeTokenRequest { ct_challenge_token : string }.
Definition ChallengeTokenRequest_valid (p : ChallengeTokenRequest) : bool := sized 20 512 (ct_challenge_token p).
Record VerifyCodeRequest := MkVerifyCodeRequest { vc_challenge_token : string; vc_code : string }.
Definition VerifyCodeRequest_valid (p : VerifyCodeRequest) : bool :=
  sized 20 512 (vc_challenge_token p) && sized 6 32 (vc_code p).
(** [label] is ["Authenticator app"] where the body has none. *)
Record TOTPSetupRequest := MkTOTPSetupRequest { ts_workflow_token : string; ts_label : string }.
Definition TOTPSetupRequest_valid (p : TOTPSetupRequest) : bool :=
  sized 20 512 (ts_workflow_token p) && sized 1 120 (ts_label p).
Record TOTPConfirmRequest := MkTOTPConfirmRequest { tc_enrollment_token : string; tc_code : string }.
Definition TOTPConfirmRequest_valid (p : TOTPConfirmRequest) : bool :=
  sized 20 512 (tc_enrollment_token p) && matches_six_digits (tc_code p).
(** [label] is ["Passkey"] where the body has none. *)
Record PasskeyRegistrationOptionsRequest := MkPasskeyRegistrationOptionsRequest {
  kr_workflow_token : string; kr_label : string }.
Definition PasskeyRegistrationOptionsRequest_valid (p : PasskeyRegistrationOptionsRequest) : bool :=
  sized 20 512 (kr_workflow_token p) && sized 1 120 (kr_label p).
Record PasskeyAuthenticationOptionsRequest := MkPasskeyAuthenticationOptionsRequest { ka_workflow_token : option string }.
Definition PasskeyAuthenticationOptionsRequest_valid (p : PasskeyAuthenticationOptionsRequest) : bool :=
  optional (sized 20 512) (ka_workflow_token p).
Record PasskeyConfirmRequest := MkPasskeyConfirmRequest { kc_challenge_token : string; kc_credential : dict }.
Definition PasskeyConfirmRequest_valid (p : PasskeyConfirmRequest) : bool := sized 20 512 (kc_challenge_token p).
Record CollisionPasswordProofRequest := MkCollisionPasswordProofRequest { cp_workflow_token : string; cp_password : string }.
Definition CollisionPasswordProofRequest_valid (p : CollisionPasswordProofRequest) : bool :=
  sized 20 512 (cp_workflow_token p) && sized 1 128 (cp_password p).
Record FactorRevokeRequest := MkFactorRevokeRequest { fr_workflow_token : string }.
Definition FactorRevokeRequest_valid (p : FactorRevokeRequest) : bool := sized 20 512 (fr_workflow_token p).

Record MethodsResponse := MkMethodsResponse { mr_methods : list MFAMethod }.
Record ChallengeResponse := MkChallengeResponse {
  cr_challenge_token : string; cr_method : MFAMethod; cr_destination_hint : option string }.
Record CompletionResponse := MkCompletionResponse {
  cn_result : string; cn_workflow_token : option string; cn_backup_codes : list string }.
Record TOTPSetupResponse := MkTOTPSetupResponse {
  tq_enrollment_token : string; tq_provisioning_uri : string; tq_manual_secret : string }.
Record PasskeyOptionsResponse := MkPasskeyOptionsResponse { ko_challenge_token : string; ko_public_key : dict }.
Record FactorResponse := MkFactorResponse { fs_mfa_id : UUID; fs_factor_type : string; fs_label : option string }.
Record FactorsResponse := MkFactorsResponse { fl_factors : list FactorResponse }.

(** [value.result.value]. *)
Definition result_value (r : MFACompletionType) : string :=
  match r with MFA_SESSION_READY => "session_ready" | IDENTITY_LINKED => "identity_linked" end.
Definition completion_response (value : MFACompletion) : CompletionResponse :=
  MkCompletionResponse (result_value (mx_result value)) (mx_workflow_token value) (mx_backup_codes value).
(** The response models the handlers build in place. *)
Definition challenge_response (challenge : MFAChallenge) : ChallengeResponse :=
  MkChallengeResponse (mc_challenge_token challenge) (mc_method challenge) (mc_destination_hint challenge).
Definition options_response (result : PasskeyOptions) : PasskeyOptionsResponse :=
  MkPasskeyOptionsResponse (po_challenge_token result) (po_public_key result).
Definition factor_response (factor : MFAFactorSummary) : FactorResponse :=
  MkFactorResponse (ms_mfa_id factor) (ms_factor_type factor) (ms_label factor).
Definition problem {A} (request : Request) (correlation_id : UUID) (parts : Parts) : Response A :=
  problem_response title request correlation_id parts.

Section Handlers.
Context {R : Type} {RC : RedisClient R} {E : Env}.
Abbreviation M := (prog R).

Definition methods (request : Request) (workflow_token : string) : M (Response MethodsResponse) :=
  correlation_id ← request_id None;
  responding is_MFAError (problem request correlation_id)
    (Mfa.available_methods workflow_token)
    (fun values => mret (json_response 200 [] (MkMethodsResponse values))).

Definition issue_challenge (payload : ChallengeRequest) (request : Request) : M (Response ChallengeResponse) :=
  correlation_id ← request_id None;
  responding is_MFAError (problem request correlation_id)
    (Mfa.issue_challenge (cq_workflow_token payload) (cq_method payload))
    (fun challenge => mret (json_response 200 [] (challenge_response challenge))).

Definition resend_challenge (payload : ChallengeTokenRequest) (request : Request) : M (Response ChallengeResponse) :=
  correlation_id ← request_id None;
  responding is_MFAError (problem request correlation_id)
    (Mfa.resend_challenge (ct_challenge_token payload))
    (fun challenge => mret (json_response 200 [] (challenge_response challenge))).

Definition verify_challenge (payload : VerifyCodeRequest) (request : Request) (x_request_id : option string)
    : M (Response CompletionResponse) :=
  correlation_id ← request_id x_request_id;
  responding is_MFAError (problem request correlation_id)
    (Mfa.verify_challenge (vc_challenge_token payload) (vc_code payload) (Some correlation_id))
    (fun result => mret (json_response 200 [] (completion_response result))).

Definition setup_totp (payload : TOTPSetupRequest) (request : Request) : M (Response TOTPSetupResponse) :=
  correlation_id ← request_id None;
  responding is_MFAError (problem request correlation_id)
    (Mfa.setup_totp (ts_workflow_token payload) (ts_label payload))
    (fun result => mret (json_response 200 []
       (MkTOTPSetupResponse (te_enrollment_token result) (te_provisioning_uri result) (te_manual_secret result)))).

Definition confirm_totp (payload : TOTPConfirmRequest) (request : Request) (x_request_id : option string)
    : M (Response CompletionResponse) :=
  correlation_id ← request_id x_request_id;
  responding is_MFAError (problem request correlation_id)
    (Mfa.confirm_totp (tc_enrollment_token payload) (tc_code payload) (Some correlation_id))
    (fun result => mret (json_response 200 [] (completion_response result))).

Definition passkey_registration_options (payload : PasskeyRegistrationOptionsRequest) (request : Request)
    : M (Response PasskeyOptionsResponse) :=
  correlation_id ← request_id None;
  responding is_MFAError (problem request correlation_id)
    (Mfa.passkey_registration_options (kr_workflow_token payload) (kr_label payload))
    (fun result => mret (json_response 200 [] (options_response result))).

Definition confirm_passkey_registration (payload : PasskeyConfirmRequest) (request : Request)
    (x_request_id : option string) : M (Response CompletionResponse) :=
  correlation_id ← request_id x_request_id;
  responding is_MFAError (problem request correlation_id)
    (Mfa.confirm_passkey_registration (kc_challenge_token payload) (kc_credential payload) (Some correlation_id))
    (fun result => mret (json_response 200 [] (completion_response result))).

Definition passkey_authentication_options (payload : PasskeyAuthenticationOptionsRequest) (request : Request)
    : M (Response PasskeyOptionsResponse) :=
  correlation_id ← request_id None;
  responding is_MFAError (problem request correlation_id)
    (Mfa.passkey_authentication_options (ka_workflow_token payload))
    (fun result => mret (json_response 200 [] (options_response result))).

Definition verify_passkey (payload : PasskeyConfirmRequest) (request : Request) (x_request_id : option string)
    : M (Response CompletionResponse) :=
  correlation_id ← request_id x_request_id;
  responding is_MFAError (problem request correlation_id)
    (Mfa.verify_passkey (kc_challenge_token payload) (kc_credential payload) (Some correlation_id))
    (fun result => mret (json_response 200 [] (completion_response result))).

Definition prove_collision_password (payload : CollisionPasswordProofRequest) (request : Request)
    (x_request_id : option string) : M (Response CompletionResponse) :=
  correlation_id ← request_id x_request_id;
  responding is_MFAError (problem request correlation_id)
    (Mfa.prove_collision_password (cp_workflow_token payload) (cp_password payload) (Some correlation_id))
    (fun result => mret (json_response 200 [] (completion_response result))).

Definition list_factors (request : Request) (workflow_token : string) : M (Response FactorsResponse) :=
  correlation_id ← request_id None;
  responding is_MFAError (problem request correlation_id)
    (Mfa.list_factors workflow_token)
    (fun factors => mret (json_response 200 [] (MkFactorsResponse (List.map factor_response factors)))).

Definition revoke_factor (mfa_id : UUID) (payload : FactorRevokeRequest) (request : Request)
    (x_request_id : option string) : M (Response CompletionResponse) :=
  correlation_id ← request_id x_request_id;
  responding is_MFAError (problem request correlation_id)
    (Mfa.revoke_factor (fr_workflow_token payload) mfa_id (Some correlation_id))
    (fun result => mret (json_response 200 [] (completion_response result))).
End Handlers.
