(* ===== verification/HttpRecovery.v ===== *)
(** [boundary/http/recovery.py]: the routes of RecoveryControl and SupportAdminControl, which end
    sessions through SessionControl. *)
From S2P Require Import Prelude PyText Entity Models RedisClient World Http Wiring.
From S2P Require Recovery.

Definition title : string := "The recovery or administrative action could not be completed".

Record PasswordForgotRequest := MkPasswordForgotRequest { fg_email : string }.
Record PasswordResetRequest := MkPasswordResetRequest { rp_token : string; rp_new_password : string }.
Definition PasswordResetRequest_valid (p : PasswordResetRequest) : bool :=
  sized 20 512 (rp_token p) && sized 12 128 (rp_new_password p).
Record ContactChangeRequest := MkContactChange { cx_contact_type : ContactType; cx_new_value : string }.
Definition ContactChangeRequest_valid (p : ContactChangeRequest) : bool := sized 3 320 (cx_new_value p).
Record ContactVerificationRequest := MkContactVerificationRequest { xv_request_id : UUID; xv_code : string }.
Definition ContactVerificationRequest_valid (p : ContactVerificationRequest) : bool := matches_six_digits (xv_code p).
Record TicketRequest := MkTicketRequest { tk_ticket_reference : string }.
Definition TicketRequest_valid (p : TicketRequest) : bool := sized 3 120 (tk_ticket_reference p).
Record SuspensionRequest := MkSuspensionRequest { sn_ticket_reference : string; sn_reason : string }.
Definition SuspensionRequest_valid (p : SuspensionRequest) : bool :=
  sized 3 120 (sn_ticket_reference p) && sized 3 240 (sn_reason p).
Record SupportRecoveryRequest := MkSupportRecoveryRequest { sv_ticket_reference : string; sv_evidence_reference : string }.
Definition SupportRecoveryRequest_valid (p : SupportRecoveryRequest) : bool :=
  sized 3 120 (sv_ticket_reference p) && sized 3 120 (sv_evidence_reference p).
Record MFAResetRequest := MkMFAResetRequest { mq_ticket_reference : string; mq_target_user_id : UUID }.
Definition MFAResetRequest_valid (p : MFAResetRequest) : bool := sized 3 120 (mq_ticket_reference p).

Record GenericAcceptedResponse := MkGenericAcceptedResponse { ga_status : string; ga_message : string }.
Definition accepted (message : string) : GenericAcceptedResponse := MkGenericAcceptedResponse "accepted" message.
Record PasswordUpdatedResponse := MkPasswordUpdatedResponse { pu_status : string }.
Record ContactChangeResponse := MkContactChangeResponse {
  cy_request_id : UUID; cy_contact_type : ContactType; cy_state : string; cy_expires_at : Time;
  cy_old_verified : bool; cy_new_verified : bool }.
Record AdminActionResponse := MkAdminActionResponse { aa_status : string }.
Definition completed : AdminActionResponse := MkAdminActionResponse "completed".
Record GovernedResetResponse := MkGovernedResetResponse {
  gy_request_id : UUID; gy_target_user_id : UUID; gy_state : string; gy_initiated_at : Time;
  gy_execute_after : Time; gy_approved_at : option Time; gy_executed_at : option Time;
  gy_ticket_reference : option string }.

Definition problem {A} (request : Request) (correlation_id : UUID) (parts : Parts) : Response A :=
  problem_response title request correlation_id parts.
(** A [datetime] is truthy. *)
Definition contact_model (record : ContactChangeRecord) : ContactChangeResponse :=
  MkContactChangeResponse (cc_request_id record) (cc_contact_type record)
    (if is_some (cc_applied_at record) then "applied" else "pending") (cc_expires_at record)
    (is_some (cc_old_verified_at record)) (is_some (cc_new_verified_at record)).
Definition governed_model (record : GovernedResetRecord) : GovernedResetResponse :=
  MkGovernedResetResponse (gr_request_id record) (gr_target_user_id record) (gr_state record)
    (gr_initiated_at record) (gr_execute_after record) (gr_approved_at record) (gr_executed_at record)
    (gr_ticket_reference record).
(** [except (RecoveryError, SessionError)]. *)
Definition caught : exc -> bool := either is_RecoveryError is_SessionError.

Section Handlers.
Context {R : Type} {RC : RedisClient R} {E : Env}.
Abbreviation M := (prog R).

Definition forgot_password (payload : PasswordForgotRequest) (request : Request) (x_request_id : option string)
    : M (Response GenericAcceptedResponse) :=
  correlation_id ← request_id x_request_id;
  responding is_RecoveryError (problem request correlation_id)
    (Recovery.request_password_reset (fg_email payload) correlation_id)
    (fun _ => mret (json_response 202 [] (accepted
       "If the account is eligible, password-reset instructions have been sent."))).

Definition reset_password (payload : PasswordResetRequest) (request : Request) (x_request_id : option string)
    : M (Response PasswordUpdatedResponse) :=
  correlation_id ← request_id x_request_id;
  responding is_RecoveryError (problem request correlation_id)
    (Recovery.reset_password (rp_token payload) (rp_new_password payload) correlation_id)
    (fun _ => mret (json_response 200 [] (MkPasswordUpdatedResponse "updated"))).

Definition start_contact_change (payload : ContactChangeRequest) (request : Request)
    (authorization x_request_id : option string) : M (Response ContactChangeResponse) :=
  correlation_id ← request_id x_request_id;
  responding caught (problem request correlation_id)
    (claims ← access_claims authorization;
     Recovery.start_contact_change claims (cx_contact_type payload) (cx_new_value payload) correlation_id)
    (fun record => mret (json_response 202 [] (contact_model record))).

Definition verify_contact (payload : ContactVerificationRequest) (proof : ContactProof) (request : Request)
    (authorization supplied_request_id : option string) : M (Response ContactChangeResponse) :=
  correlation_id ← request_id supplied_request_id;
  responding caught (problem request correlation_id)
    (claims ← access_claims authorization;
     Recovery.verify_contact_change claims (xv_request_id payload) proof (xv_code payload) correlation_id)
    (fun record => mret (json_response 200 [] (contact_model record))).
Definition verify_old_contact (payload : ContactVerificationRequest) (request : Request)
    (authorization x_request_id : option string) : M (Response ContactChangeResponse) :=
  verify_contact payload OLD request authorization x_request_id.
Definition verify_new_contact (payload : ContactVerificationRequest) (request : Request)
    (authorization x_request_id : option string) : M (Response ContactChangeResponse) :=
  verify_contact payload NEW request authorization x_request_id.

Definition unlock_user (user_id : UUID) (payload : TicketRequest) (request : Request)
    (authorization x_request_id : option string) : M (Response AdminActionResponse) :=
  correlation_id ← request_id x_request_id;
  responding caught (problem request correlation_id)
    (claims ← access_claims authorization;
     Recovery.unlock claims user_id (tk_ticket_reference payload) correlation_id)
    (fun _ => mret (json_response 200 [] completed)).

Definition suspend_user (user_id : UUID) (payload : SuspensionRequest) (request : Request)
    (authorization x_request_id : option string) : M (Response AdminActionResponse) :=
  correlation_id ← request_id x_request_id;
  responding caught (problem request correlation_id)
    (claims ← access_claims authorization;
     Recovery.suspend claims user_id (sn_ticket_reference payload) (sn_reason payload) correlation_id)
    (fun _ => mret (json_response 200 [] completed)).

Definition support_recovery (user_id : UUID) (payload : SupportRecoveryRequest) (request : Request)
    (authorization x_request_id : option string) : M (Response GenericAcceptedResponse) :=
  correlation_id ← request_id x_request_id;
  responding caught (problem request correlation_id)
    (claims ← access_claims authorization;
     Recovery.support_recovery claims user_id (sv_ticket_reference payload) (sv_evidence_reference payload)
       correlation_id)
    (fun _ => mret (json_response 202 [] (accepted "The governed recovery instructions were issued."))).

Definition initiate_mfa_reset (payload : MFAResetRequest) (request : Request)
    (authorization x_request_id : option string) : M (Response GovernedResetResponse) :=
  correlation_id ← request_id x_request_id;
  responding caught (problem request correlation_id)
    (claims ← access_claims authorization;
     Recovery.initiate_mfa_reset claims (mq_target_user_id payload) (mq_ticket_reference payload) correlation_id)
    (fun record => mret (json_response 202 [] (governed_model record))).

Definition approve_mfa_reset (reset_id : UUID) (request : Request) (authorization x_request_id : option string)
    : M (Response GovernedResetResponse) :=
  correlation_id ← request_id x_request_id;
  responding caught (problem request correlation_id)
    (claims ← access_claims authorization; Recovery.approve_mfa_reset claims reset_id correlation_id)
    (fun record => mret (json_response 200 [] (governed_model record))).

Definition execute_mfa_reset (reset_id : UUID) (request : Request) (authorization x_request_id : option string)
    : M (Response GovernedResetResponse) :=
  correlation_id ← request_id x_request_id;
  responding caught (problem request correlation_id)
    (claims ← access_claims authorization; Recovery.execute_mfa_reset claims reset_id correlation_id)
    (fun record => mret (json_response 200 [] (governed_model record))).

Definition get_mfa_reset (reset_id : UUID) (request : Request) (authorization : option string)
    : M (Response GovernedResetResponse) :=
  correlation_id ← request_id None;
  responding caught (problem request correlation_id)
    (claims ← access_claims authorization; Recovery.get_mfa_reset claims reset_id)
    (fun record => mret (json_response 200 [] (governed_model record))).
End Handlers.
