(* ===== verification/HttpWorkspace.v ===== *)
(** [boundary/http/workspace.py]: the routes of WorkspaceControl. *)
From S2P Require Import Prelude PyText Entity Models RedisClient World Http.
From S2P Require Workspace.

Definition title : string := "The workspace operation could not be completed".

Record CreateOrganizationRequest := MkCreateOrganizationRequest { co_name : string }.
Definition CreateOrganizationRequest_valid (p : CreateOrganizationRequest) : bool := sized 2 180 (co_name p).
Record CreateReferralRequest := MkCreateReferralRequest { cf_email : string }.
Record OrganizationInvitationRequest := MkOrganizationInvitationRequest { oi_email : string; oi_role : OrganizationRole }.
Record OrganizationInvitationAcceptRequest := MkOrganizationInvitationAcceptRequest { oj_invitation_token : string }.
Definition OrganizationInvitationAcceptRequest_valid (p : OrganizationInvitationAcceptRequest) : bool :=
  sized 20 512 (oj_invitation_token p).
Record MemberRoleRequest := MkMemberRoleRequest { mo_role : OrganizationRole }.
Record WorkspaceSwitchRequest := MkWorkspaceSwitchRequest { wq_workspace_id : UUID }.

Record WorkspaceResponse := MkWorkspaceResponse {
  wr_workspace_id : UUID; wr_name : string; wr_slug : string; wr_workspace_type : WorkspaceType; wr_roles : list string }.
Record WorkspacesResponse := MkWorkspacesResponse { wl_workspaces : list WorkspaceResponse }.
Record ReferralResponse := MkReferralResponse {
  rx_referral_id : UUID; rx_invitee_hint : string; rx_state : string; rx_created_at : Time;
  rx_expires_at : Time; rx_registered_at : option Time; rx_verified_at : option Time }.
Record ReferralsResponse := MkReferralsResponse { rl_referrals : list ReferralResponse }.
Record InvitationResponse := MkInvitationResponse {
  iv_invitation_id : UUID; iv_workspace_id : UUID; iv_invitee_hint : string; iv_role : OrganizationRole;
  iv_state : string; iv_created_at : Time; iv_expires_at : Time }.
Record MemberResponse := MkMemberResponse {
  mb_user_id : UUID; mb_email_hint : option string; mb_display_name : string; mb_roles : list OrganizationRole }.
Record MembersResponse := MkMembersResponse { ml_members : list MemberResponse }.
Record WorkspaceTokenResponse := MkWorkspaceTokenResponse {
  wt_token_type : string; wt_access_token : string; wt_access_expires_at : Time; wt_workspace : WorkspaceResponse }.

Definition problem {A} (request : Request) (correlation_id : UUID) (parts : Parts) : Response A :=
  problem_response title request correlation_id parts.

Definition workspace_model (value : WorkspaceSummary) : WorkspaceResponse :=
  MkWorkspaceResponse (ws_workspace_id value) (ws_name value) (ws_slug value) (ws_workspace_type value) (ws_roles value).
Definition referral_model (value : ReferralRecord) : ReferralResponse :=
  let '(local, domain) := partition_at "@"%char (rr_invitee_email value) in
  let visible := if nonempty local then take_s 1 local else "*" in
  let hint := if nonempty domain then visible +:+ "***@" +:+ domain else "hidden" in
  MkReferralResponse (rr_referral_id value) hint (rr_state value) (rr_created_at value) (rr_expires_at value)
    (rr_registered_at value) (rr_verified_at value).
Definition mask_email (value : option string) : option string :=
  match value with
  | Some s =>
    if nonempty s then
      let '(local, domain) := partition_at "@"%char s in
      let visible := if nonempty local then take_s 1 local else "*" in
      Some (if nonempty domain then visible +:+ "***@" +:+ domain else "hidden")
    else None
  | None => None
  end.
Definition invitation_model (value : InvitationRecord) : InvitationResponse :=
  MkInvitationResponse (ir_invitation_id value) (ir_workspace_id value)
    (or_else (mask_email (Some (ir_invitee_email value))) "hidden") (ir_role value) (ir_state value)
    (ir_created_at value) (ir_expires_at value).
(** [part for part in (given_name, family_name) if part]. *)
Definition name_parts (value : MemberSummary) : list string :=
  List.filter nonempty (omap (fun o => o) [mm_given_name value; mm_family_name value]).
Definition member_model (value : MemberSummary) : MemberResponse :=
  let display_name := strip (String.concat " " (name_parts value)) in
  MkMemberResponse (mm_user_id value) (mask_email (mm_email value))
    (if nonempty display_name then display_name else "Member") (mm_roles value).
(** [except (SessionError, WorkspaceError)]. *)
Definition caught : exc -> bool := either is_SessionError is_WorkspaceError.

Section Handlers.
Context {R : Type} {RC : RedisClient R} {E : Env}.
Abbreviation M := (prog R).

Definition list_workspaces (request : Request) (authorization : option string) : M (Response WorkspacesResponse) :=
  correlation_id ← request_id None;
  responding caught (problem request correlation_id)
    (claims ← access_claims authorization; Workspace.list_workspaces (ac_user_id claims))
    (fun workspaces => mret (json_response 200 [] (MkWorkspacesResponse (List.map workspace_model workspaces)))).

Definition create_organization (payload : CreateOrganizationRequest) (request : Request)
    (authorization x_request_id : option string) : M (Response WorkspaceResponse) :=
  correlation_id ← request_id x_request_id;
  responding caught (problem request correlation_id)
    (claims ← access_claims authorization;
     Workspace.create_organization (ac_user_id claims) (co_name payload) correlation_id)
    (fun workspace => mret (json_response 201 [] (workspace_model workspace))).

Definition create_referral (payload : CreateReferralRequest) (request : Request)
    (authorization x_request_id : option string) : M (Response ReferralResponse) :=
  correlation_id ← request_id x_request_id;
  responding caught (problem request correlation_id)
    (claims ← access_claims authorization;
     Workspace.invite_referral (ac_user_id claims) (cf_email payload) correlation_id)
    (fun referral => mret (json_response 201 [] (referral_model referral))).

Definition list_referrals (request : Request) (authorization : option string) : M (Response ReferralsResponse) :=
  correlation_id ← request_id None;
  responding caught (problem request correlation_id)
    (claims ← access_claims authorization; Workspace.list_referrals (ac_user_id claims))
    (fun referrals => mret (json_response 200 [] (MkReferralsResponse (List.map referral_model referrals)))).

Definition invite_organization_member (workspace_id : UUID) (payload : OrganizationInvitationRequest)
    (request : Request) (authorization x_request_id : option string) : M (Response InvitationResponse) :=
  correlation_id ← request_id x_request_id;
  responding caught (problem request correlation_id)
    (claims ← access_claims authorization;
     Workspace.invite_organization_member (ac_user_id claims) workspace_id (oi_email payload) (oi_role payload)
       correlation_id)
    (fun invitation => mret (json_response 201 [] (invitation_model invitation))).

Definition accept_organization_invitation (payload : OrganizationInvitationAcceptRequest) (request : Request)
    (authorization x_request_id : option string) : M (Response WorkspaceResponse) :=
  correlation_id ← request_id x_request_id;
  responding caught (problem request correlation_id)
    (claims ← access_claims authorization;
     Workspace.accept_organization_invitation (ac_user_id claims) (oj_invitation_token payload) correlation_id)
    (fun workspace => mret (json_response 200 [] (workspace_model workspace))).

Definition list_organization_members (workspace_id : UUID) (request : Request) (authorization : option string)
    : M (Response MembersResponse) :=
  correlation_id ← request_id None;
  responding caught (problem request correlation_id)
    (claims ← access_claims authorization; Workspace.list_members (ac_user_id claims) workspace_id)
    (fun members => mret (json_response 200 [] (MkMembersResponse (List.map member_model members)))).

Definition replace_organization_member_role (workspace_id member_user_id : UUID) (payload : MemberRoleRequest)
    (request : Request) (authorization x_request_id : option string) : M (Response MemberResponse) :=
  correlation_id ← request_id x_request_id;
  responding caught (problem request correlation_id)
    (claims ← access_claims authorization;
     Workspace.replace_member_role (ac_user_id claims) workspace_id member_user_id (mo_role payload) correlation_id)
    (fun member => mret (json_response 200 [] (member_model member))).

Definition offboard_organization_member (workspace_id member_user_id : UUID) (request : Request)
    (authorization x_request_id : option string) : M (Response unit) :=
  correlation_id ← request_id x_request_id;
  responding caught (problem request correlation_id)
    (claims ← access_claims authorization;
     Workspace.offboard_member (ac_user_id claims) workspace_id member_user_id correlation_id)
    (fun _ => mret (no_content [])).

Definition switch_workspace (payload : WorkspaceSwitchRequest) (request : Request)
    (authorization x_request_id : option string) : M (Response WorkspaceTokenResponse) :=
  correlation_id ← request_id x_request_id;
  responding caught (problem request correlation_id)
    (claims ← access_claims authorization; Workspace.switch_workspace claims (wq_workspace_id payload) correlation_id)
    (fun '(token, expires_at, workspace) =>
       mret (json_response 200 [] (MkWorkspaceTokenResponse "Bearer" token expires_at (workspace_model workspace)))).
End Handlers.
