(* ===== verification/HttpPrivacy.v ===== *)
(** [boundary/http/privacy.py]: the routes of AuditQueryControl and GDPRControl. *)
From S2P Require Import Prelude PyText Entity Models RedisClient World Http.
From S2P Require Privacy.

Definition title : string := "The privacy or audit action could not be completed".

(** The query parameters of the audit search; [outcome] is one of three texts. *)
Record AuditQuery := MkAuditQuery {
  aq_subject_user_id : option UUID; aq_event_type : option string; aq_outcome : option string;
  aq_occurred_from : option Time; aq_occurred_to : option Time; aq_cursor : option string; aq_limit : nat }.
Definition AuditQuery_valid (p : AuditQuery) : bool :=
  optional (sized 1 120) (aq_event_type p) && optional (fun s => s is_in ["success"; "failure"; "denied"]) (aq_outcome p)
  && optional (sized 8 256) (aq_cursor p) && (1 <=? aq_limit p)%nat && (aq_limit p <=? 100)%nat.
(** [Header(alias="Idempotency-Key", min_length=8, max_length=128)]. *)
Definition idempotency_key_valid (s : string) : bool := sized 8 128 s.
Record ErasureRequest := MkErasureRequest { eq_confirmation : string }.
Definition ErasureRequest_valid (p : ErasureRequest) : bool := eq_confirmation p == "ERASE_MY_ACCOUNT".

Record AuditRecordResponse := MkAuditRecordResponse {
  ay_audit_id : UUID; ay_actor_user_id : option UUID; ay_subject_user_id : option UUID; ay_org_id : option UUID;
  ay_event_type : string; ay_outcome : string; ay_correlation_id : UUID; ay_metadata : dict; ay_occurred_at : Time }.
Record AuditPageResponse := MkAuditPageResponse { ag_items : list AuditRecordResponse; ag_next_cursor : option string }.
Record PrivacyRequestResponse := MkPrivacyRequestResponse {
  py_request_id : UUID; py_request_type : string; py_state : string; py_requested_at : Time;
  py_completed_at : option Time; py_artifact_expires_at : option Time; py_failure_code : option string;
  py_backup_purge_due_at : option Time }.

Definition problem {A} (request : Request) (correlation_id : UUID) (parts : Parts) : Response A :=
  problem_response title request correlation_id parts.
Definition audit_model (record : AuditRecord) : AuditRecordResponse :=
  MkAuditRecordResponse (au_audit_id record) (au_actor_user_id record) (au_subject_user_id record) (au_org_id record)
    (au_event_type record) (au_outcome record) (au_correlation_id record) (au_metadata record) (au_occurred_at record).
Definition privacy_request_model (record : PrivacyRequestRecord) : PrivacyRequestResponse :=
  MkPrivacyRequestResponse (pr_request_id record) (pr_request_type record) (pr_state record) (pr_requested_at record)
    (pr_completed_at record) (pr_artifact_expires_at record) (pr_failure_code record) (pr_backup_purge_due_at record).
(** [except (PrivacyError, SessionError)]. *)
Definition caught : exc -> bool := either is_PrivacyError is_SessionError.
(** The response of a download: the text itself, as an attachment. *)
Definition attachment (download : ExportDownload) : Response string :=
  MkResponse 200 "application/json"
    [("Content-Disposition", "attachment; filename=" +:+ String "034"%char ("vittavaan-data-export-"
        +:+ uuid_str (ed_request_id download) +:+ ".json" +:+ String "034"%char ""));
     ("X-Artifact-Expires-At", isoformat (ed_expires_at download))] [] (Body (ed_content download)).

Section Handlers.
Context {R : Type} {RC : RedisClient R} {E : Env}.
Abbreviation M := (prog R).

Definition search_audit_logs (request : Request) (authorization x_request_id : option string) (query : AuditQuery)
    : M (Response AuditPageResponse) :=
  correlation_id ← request_id x_request_id;
  responding caught (problem request correlation_id)
    (claims ← access_claims authorization;
     Privacy.search claims
       (MkAuditSearchFilter (aq_subject_user_id query) (aq_event_type query) (aq_outcome query)
          (aq_occurred_from query) (aq_occurred_to query))
       (aq_cursor query) (aq_limit query) correlation_id)
    (fun page => mret (json_response 200 []
       (MkAuditPageResponse (List.map audit_model (ap_items page)) (ap_next_cursor page)))).

(** [updated_at] is the column of [User] the exports read. *)
Definition request_privacy_export (updated_at : User -> Time) (request : Request) (idempotency_key : string)
    (authorization x_request_id : option string) : M (Response PrivacyRequestResponse) :=
  correlation_id ← request_id x_request_id;
  responding caught (problem request correlation_id)
    (claims ← access_claims authorization; Privacy.request_export updated_at claims idempotency_key correlation_id)
    (fun record => mret (json_response 202 [] (privacy_request_model record))).

Definition get_privacy_request (id : UUID) (request : Request) (authorization : option string)
    : M (Response PrivacyRequestResponse) :=
  correlation_id ← request_id None;
  responding caught (problem request correlation_id)
    (claims ← access_claims authorization; Privacy.get_request claims id)
    (fun record => mret (json_response 200 [] (privacy_request_model record))).

Definition download_privacy_export (id : UUID) (request : Request) (authorization : option string)
    : M (Response string) :=
  correlation_id ← request_id None;
  responding caught (problem request correlation_id)
    (claims ← access_claims authorization; Privacy.download_export claims id)
    (fun download => mret (attachment download)).

Definition request_account_erasure (payload : ErasureRequest) (request : Request) (idempotency_key : string)
    (authorization x_request_id : option string) : M (Response PrivacyRequestResponse) :=
  correlation_id ← request_id x_request_id;
  responding caught (problem request correlation_id)
    (claims ← access_claims authorization; Privacy.request_erasure claims idempotency_key correlation_id)
    (fun record => mret (json_response 202 [] (privacy_request_model record))).
End Handlers.
