(* ===== verification/System.v ===== *)
(** The application of [main.py]: every route of the routers it includes as a constructor of
    [HttpCall], the path of its decorator, the constraints FastAPI checks before the handler runs,
    and the middleware around the handler.

    The type of a call is the response model of its route.  What pydantic says of a field that does
    not meet its constraint is a parameter, [errors_of].  The routes of the key set and of the health checks,
    which change nothing, are in Jwks and Health. *)
From S2P Require Import Prelude PyText Entity Models RedisClient World Http.
From S2P Require HttpSession HttpRegistration HttpLogin HttpMfa HttpRecovery HttpWorkspace HttpPrivacy.

(** What a request carries besides its parameters and its body. *)
Record Headers := MkHeaders {
  hd_client_host : option string; hd_authorization : option string; hd_x_request_id : option string;
  hd_x_csrf_token : option string; hd_refresh_cookie : option string; hd_csrf_cookie : option string }.

Inductive HttpCall : Type -> Type :=
(* registration.py *)
| POST_signup (payload : HttpRegistration.EmailSignupRequest) : HttpCall HttpRegistration.AcceptedResponse
| POST_verify_email (payload : HttpRegistration.EmailVerificationRequest) : HttpCall HttpRegistration.VerifiedResponse
| POST_verify_email_request (payload : HttpRegistration.EmailVerificationResendRequest)
    : HttpCall HttpRegistration.AcceptedResponse
| POST_signup_phone (payload : HttpRegistration.PhoneSignupRequest) : HttpCall HttpRegistration.AcceptedResponse
| POST_verify_phone_request (payload : HttpRegistration.PhoneVerificationRequest)
    : HttpCall HttpRegistration.AcceptedResponse
| POST_verify_phone_confirm (payload : HttpRegistration.PhoneVerificationConfirmRequest)
    : HttpCall HttpRegistration.VerifiedResponse
(* login.py *)
| POST_login (payload : HttpLogin.PasswordLoginRequest) : HttpCall HttpLogin.LoginDecisionResponse
| POST_login_phone_request (payload : HttpLogin.PhoneLoginRequest) : HttpCall HttpRegistration.AcceptedResponse
| POST_login_phone_confirm (payload : HttpLogin.PhoneLoginConfirmRequest) : HttpCall HttpLogin.LoginDecisionResponse
| POST_sso_authorize (provider : string) : HttpCall HttpLogin.OIDCAuthorizationResponse
| POST_sso_callback (provider : string) (payload : HttpLogin.OIDCCallbackRequest)
    : HttpCall HttpLogin.LoginDecisionResponse
| GET_fallback_options (workflow_token : string) : HttpCall HttpLogin.FallbackOptionsResponse
(* mfa.py *)
| GET_mfa_methods (workflow_token : string) : HttpCall HttpMfa.MethodsResponse
| POST_mfa_challenge (payload : HttpMfa.ChallengeRequest) : HttpCall HttpMfa.ChallengeResponse
| POST_mfa_challenge_resend (payload : HttpMfa.ChallengeTokenRequest) : HttpCall HttpMfa.ChallengeResponse
| POST_mfa_verify (payload : HttpMfa.VerifyCodeRequest) : HttpCall HttpMfa.CompletionResponse
| POST_mfa_totp_setup (payload : HttpMfa.TOTPSetupRequest) : HttpCall HttpMfa.TOTPSetupResponse
| POST_mfa_totp_confirm (payload : HttpMfa.TOTPConfirmRequest) : HttpCall HttpMfa.CompletionResponse
| POST_mfa_passkeys_options (payload : HttpMfa.PasskeyRegistrationOptionsRequest)
    : HttpCall HttpMfa.PasskeyOptionsResponse
| POST_mfa_passkeys_confirm (payload : HttpMfa.PasskeyConfirmRequest) : HttpCall HttpMfa.CompletionResponse
| POST_passkeys_options (payload : HttpMfa.PasskeyAuthenticationOptionsRequest)
    : HttpCall HttpMfa.PasskeyOptionsResponse
| POST_passkeys_verify (payload : HttpMfa.PasskeyConfirmRequest) : HttpCall HttpMfa.CompletionResponse
| POST_collision_prove (payload : HttpMfa.CollisionPasswordProofRequest) : HttpCall HttpMfa.CompletionResponse
| GET_mfa_devices (workflow_token : string) : HttpCall HttpMfa.FactorsResponse
| DELETE_mfa_device (mfa_id : UUID) (payload : HttpMfa.FactorRevokeRequest) : HttpCall HttpMfa.CompletionResponse
(* session.py *)
| POST_session (payload : HttpSession.CreateSessionRequest) (x_client_type : ClientType) (x_device_fingerprint : string)
    : HttpCall HttpSession.TokenResponse
| POST_refresh (payload : HttpSession.RefreshRequest) (x_client_type : ClientType) (x_device_fingerprint : string)
    : HttpCall HttpSession.TokenResponse
| POST_logout : HttpCall unit
| POST_logout_all : HttpCall HttpSession.LogoutAllResponse
| GET_sessions : HttpCall HttpSession.SessionsResponse
| DELETE_session (session_id : UUID) : HttpCall unit
(* workspace.py *)
| GET_workspaces : HttpCall HttpWorkspace.WorkspacesResponse
| POST_organizations (payload : HttpWorkspace.CreateOrganizationRequest) : HttpCall HttpWorkspace.WorkspaceResponse
| POST_referrals (payload : HttpWorkspace.CreateReferralRequest) : HttpCall HttpWorkspace.ReferralResponse
| GET_referrals : HttpCall HttpWorkspace.ReferralsResponse
| POST_invitations (workspace_id : UUID) (payload : HttpWorkspace.OrganizationInvitationRequest)
    : HttpCall HttpWorkspace.InvitationResponse
| POST_invitations_accept (payload : HttpWorkspace.OrganizationInvitationAcceptRequest)
    : HttpCall HttpWorkspace.WorkspaceResponse
| GET_members (workspace_id : UUID) : HttpCall HttpWorkspace.MembersResponse
| PUT_member_roles (workspace_id member_user_id : UUID) (payload : HttpWorkspace.MemberRoleRequest)
    : HttpCall HttpWorkspace.MemberResponse
| DELETE_member (workspace_id member_user_id : UUID) : HttpCall unit
| POST_workspace_switch (payload : HttpWorkspace.WorkspaceSwitchRequest) : HttpCall HttpWorkspace.WorkspaceTokenResponse
(* recovery.py *)
| POST_password_forgot (payload : HttpRecovery.PasswordForgotRequest) : HttpCall HttpRecovery.GenericAcceptedResponse
| POST_password_reset (payload : HttpRecovery.PasswordResetRequest) : HttpCall HttpRecovery.PasswordUpdatedResponse
| POST_contact_change (payload : HttpRecovery.ContactChangeRequest) : HttpCall HttpRecovery.ContactChangeResponse
| POST_contact_verify_old (payload : HttpRecovery.ContactVerificationRequest)
    : HttpCall HttpRecovery.ContactChangeResponse
| POST_contact_verify_new (payload : HttpRecovery.ContactVerificationRequest)
    : HttpCall HttpRecovery.ContactChangeResponse
| POST_unlock (user_id : UUID) (payload : HttpRecovery.TicketRequest) : HttpCall HttpRecovery.AdminActionResponse
| POST_suspend (user_id : UUID) (payload : HttpRecovery.SuspensionRequest) : HttpCall HttpRecovery.AdminActionResponse
| POST_support_recovery (user_id : UUID) (payload : HttpRecovery.SupportRecoveryRequest)
    : HttpCall HttpRecovery.GenericAcceptedResponse
| POST_mfa_resets (payload : HttpRecovery.MFAResetRequest) : HttpCall HttpRecovery.GovernedResetResponse
| POST_mfa_reset_approve (reset_id : UUID) : HttpCall HttpRecovery.GovernedResetResponse
| POST_mfa_reset_execute (reset_id : UUID) : HttpCall HttpRecovery.GovernedResetResponse
| GET_mfa_reset (reset_id : UUID) : HttpCall HttpRecovery.GovernedResetResponse
(* privacy.py *)
| GET_audit_logs (query : HttpPrivacy.AuditQuery) : HttpCall HttpPrivacy.AuditPageResponse
| POST_privacy_exports (idempotency_key : string) : HttpCall HttpPrivacy.PrivacyRequestResponse
| GET_privacy_request (request_id : UUID) : HttpCall HttpPrivacy.PrivacyRequestResponse
| GET_privacy_download (request_id : UUID) : HttpCall string
| POST_privacy_erasures (payload : HttpPrivacy.ErasureRequest) (idempotency_key : string)
    : HttpCall HttpPrivacy.PrivacyRequestResponse.

(** [request.url.path]: the prefix of the router and the path of the decorator. *)
Definition path_of {A} (c : HttpCall A) : string :=
  let auth := "/api/v1/auth" in
  let org w := "/api/v1/organizations/" +:+ uuid_str w in
  let user u := "/api/v1/admin/users/" +:+ uuid_str u in
  let reset r := "/api/v1/admin/mfa-resets/" +:+ uuid_str r in
  match c with
  | POST_signup _ => auth +:+ "/signup"
  | POST_verify_email _ => auth +:+ "/verify/email"
  | POST_verify_email_request _ => auth +:+ "/verify/email/request"
  | POST_signup_phone _ => auth +:+ "/signup/phone"
  | POST_verify_phone_request _ => auth +:+ "/verify/phone/request"
  | POST_verify_phone_confirm _ => auth +:+ "/verify/phone/confirm"
  | POST_login _ => auth +:+ "/login"
  | POST_login_phone_request _ => auth +:+ "/login/phone/request"
  | POST_login_phone_confirm _ => auth +:+ "/login/phone/confirm"
  | POST_sso_authorize p => auth +:+ "/sso/" +:+ p +:+ "/authorize"
  | POST_sso_callback p _ => auth +:+ "/sso/" +:+ p +:+ "/callback"
  | GET_fallback_options _ => auth +:+ "/fallback-options"
  | GET_mfa_methods _ => auth +:+ "/mfa/methods"
  | POST_mfa_challenge _ => auth +:+ "/mfa/challenge"
  | POST_mfa_challenge_resend _ => auth +:+ "/mfa/challenge/resend"
  | POST_mfa_verify _ => auth +:+ "/mfa/verify"
  | POST_mfa_totp_setup _ => auth +:+ "/mfa/totp/setup"
  | POST_mfa_totp_confirm _ => auth +:+ "/mfa/totp/confirm"
  | POST_mfa_passkeys_options _ => auth +:+ "/mfa/passkeys/options"
  | POST_mfa_passkeys_confirm _ => auth +:+ "/mfa/passkeys/confirm"
  | POST_passkeys_options _ => auth +:+ "/passkeys/options"
  | POST_passkeys_verify _ => auth +:+ "/passkeys/verify"
  | POST_collision_prove _ => auth +:+ "/identities/collision/prove"
  | GET_mfa_devices _ => auth +:+ "/mfa/devices"
  | DELETE_mfa_device m _ => auth +:+ "/mfa/devices/" +:+ uuid_str m
  | POST_session _ _ _ => auth +:+ "/session"
  | POST_refresh _ _ _ => auth +:+ "/refresh"
  | POST_logout => auth +:+ "/logout"
  | POST_logout_all => auth +:+ "/logout-all"
  | GET_sessions => auth +:+ "/sessions"
  | DELETE_session s => auth +:+ "/sessions/" +:+ uuid_str s
  | GET_workspaces => "/api/v1/workspaces"
  | POST_organizations _ => "/api/v1/organizations"
  | POST_referrals _ => "/api/v1/referrals"
  | GET_referrals => "/api/v1/referrals"
  | POST_invitations w _ => org w +:+ "/invitations"
  | POST_invitations_accept _ => "/api/v1/organizations/invitations/accept"
  | GET_members w => org w +:+ "/members"
  | PUT_member_roles w m _ => org w +:+ "/members/" +:+ uuid_str m +:+ "/roles"
  | DELETE_member w m => org w +:+ "/members/" +:+ uuid_str m
  | POST_workspace_switch _ => auth +:+ "/workspace/switch"
  | POST_password_forgot _ => auth +:+ "/password/forgot"
  | POST_password_reset _ => auth +:+ "/password/reset"
  | POST_contact_change _ => auth +:+ "/contact-change"
  | POST_contact_verify_old _ => auth +:+ "/contact-change/verify-old"
  | POST_contact_verify_new _ => auth +:+ "/contact-change/verify-new"
  | POST_unlock u _ => user u +:+ "/unlock"
  | POST_suspend u _ => user u +:+ "/suspend"
  | POST_support_recovery u _ => user u +:+ "/recovery"
  | POST_mfa_resets _ => "/api/v1/admin/mfa-resets"
  | POST_mfa_reset_approve r => reset r +:+ "/approve"
  | POST_mfa_reset_execute r => reset r +:+ "/execute"
  | GET_mfa_reset r => reset r
  | GET_audit_logs _ => "/api/v1/admin/audit-logs"
  | POST_privacy_exports _ => "/api/v1/privacy/exports"
  | GET_privacy_request r => "/api/v1/privacy/requests/" +:+ uuid_str r
  | GET_privacy_download r => "/api/v1/privacy/exports/" +:+ uuid_str r +:+ "/download"
  | POST_privacy_erasures _ _ => "/api/v1/privacy/erasures"
  end.

(** The constraints of the body and the parameters of a route; what is not listed has none. *)
Definition accepted_by_models {A} (c : HttpCall A) : bool :=
  match c with
  | POST_signup p => HttpRegistration.EmailSignupRequest_valid p
  | POST_verify_email p => HttpRegistration.EmailVerificationRequest_valid p
  | POST_verify_email_request p => HttpRegistration.EmailVerificationResendRequest_valid p
  | POST_signup_phone p => HttpRegistration.PhoneSignupRequest_valid p
  | POST_verify_phone_request p => HttpRegistration.PhoneVerificationRequest_valid p
  | POST_verify_phone_confirm p => HttpRegistration.PhoneVerificationConfirmRequest_valid p
  | POST_login p => HttpLogin.PasswordLoginRequest_valid p
  | POST_login_phone_request p => HttpLogin.PhoneLoginRequest_valid p
  | POST_login_phone_confirm p => HttpLogin.PhoneLoginConfirmRequest_valid p
  | POST_sso_callback _ p => HttpLogin.OIDCCallbackRequest_valid p
  | GET_fallback_options t | GET_mfa_methods t | GET_mfa_devices t => HttpLogin.workflow_token_valid t
  | POST_mfa_challenge p => HttpMfa.ChallengeRequest_valid p
  | POST_mfa_challenge_resend p => HttpMfa.ChallengeTokenRequest_valid p
  | POST_mfa_verify p => HttpMfa.VerifyCodeRequest_valid p
  | POST_mfa_totp_setup p => HttpMfa.TOTPSetupRequest_valid p
  | POST_mfa_totp_confirm p => HttpMfa.TOTPConfirmRequest_valid p
  | POST_mfa_passkeys_options p => HttpMfa.PasskeyRegistrationOptionsRequest_valid p
  | POST_mfa_passkeys_confirm p | POST_passkeys_verify p => HttpMfa.PasskeyConfirmRequest_valid p
  | POST_passkeys_options p => HttpMfa.PasskeyAuthenticationOptionsRequest_valid p
  | POST_collision_prove p => HttpMfa.CollisionPasswordProofRequest_valid p
  | DELETE_mfa_device _ p => HttpMfa.FactorRevokeRequest_valid p
  | POST_session p _ f => HttpSession.CreateSessionRequest_valid p && HttpSession.fingerprint_valid f
  | POST_refresh p _ f => HttpSession.RefreshRequest_valid p && HttpSession.fingerprint_valid f
  | POST_organizations p => HttpWorkspace.CreateOrganizationRequest_valid p
  | POST_invitations_accept p => HttpWorkspace.OrganizationInvitationAcceptRequest_valid p
  | POST_password_reset p => HttpRecovery.PasswordResetRequest_valid p
  | POST_contact_change p => HttpRecovery.ContactChangeRequest_valid p
  | POST_contact_verify_old p | POST_contact_verify_new p => HttpRecovery.ContactVerificationRequest_valid p
  | POST_unlock _ p => HttpRecovery.TicketRequest_valid p
  | POST_suspend _ p => HttpRecovery.SuspensionRequest_valid p
  | POST_support_recovery _ p => HttpRecovery.SupportRecoveryRequest_valid p
  | POST_mfa_resets p => HttpRecovery.MFAResetRequest_valid p
  | GET_audit_logs q => HttpPrivacy.AuditQuery_valid q
  | POST_privacy_exports k => HttpPrivacy.idempotency_key_valid k
  | POST_privacy_erasures p k => HttpPrivacy.ErasureRequest_valid p && HttpPrivacy.idempotency_key_valid k
  | _ => true
  end.

Definition request_of {A} (h : Headers) (c : HttpCall A) : Request := MkRequest (path_of c) (hd_client_host h).

Section Application.
Context {R : Type} {RC : RedisClient R} {E : Env}.
Context (updated_at : User -> Time) (errors_of : forall A, HttpCall A -> list (list string * string)).
Abbreviation M := (prog R).

(** The handler of a route. *)
Definition endpoint {A} (h : Headers) (c : HttpCall A) : M (Response A) :=
  let request := request_of h c in
  let bearer := hd_authorization h in
  let x := hd_x_request_id h in
  match c in HttpCall A return M (Response A) with
  | POST_signup p => HttpRegistration.signup_email p request x
  | POST_verify_email p => HttpRegistration.verify_email p request x
  | POST_verify_email_request p => HttpRegistration.request_email_verification p request x
  | POST_signup_phone p => HttpRegistration.signup_phone p request x
  | POST_verify_phone_request p => HttpRegistration.request_phone_verification p request
  | POST_verify_phone_confirm p => HttpRegistration.confirm_phone_verification p request x
  | POST_login p => HttpLogin.login_password p request x
  | POST_login_phone_request p => HttpLogin.request_phone_login p request
  | POST_login_phone_confirm p => HttpLogin.confirm_phone_login p request x
  | POST_sso_authorize provider => HttpLogin.authorize_oidc provider request
  | POST_sso_callback provider p => HttpLogin.callback_oidc provider p request x
  | GET_fallback_options t => HttpLogin.fallback_options request t
  | GET_mfa_methods t => HttpMfa.methods request t
  | POST_mfa_challenge p => HttpMfa.issue_challenge p request
  | POST_mfa_challenge_resend p => HttpMfa.resend_challenge p request
  | POST_mfa_verify p => HttpMfa.verify_challenge p request x
  | POST_mfa_totp_setup p => HttpMfa.setup_totp p request
  | POST_mfa_totp_confirm p => HttpMfa.confirm_totp p request x
  | POST_mfa_passkeys_options p => HttpMfa.passkey_registration_options p request
  | POST_mfa_passkeys_confirm p => HttpMfa.confirm_passkey_registration p request x
  | POST_passkeys_options p => HttpMfa.passkey_authentication_options p request
  | POST_passkeys_verify p => HttpMfa.verify_passkey p request x
  | POST_collision_prove p => HttpMfa.prove_collision_password p request x
  | GET_mfa_devices t => HttpMfa.list_factors request t
  | DELETE_mfa_device mfa_id p => HttpMfa.revoke_factor mfa_id p request x
  | POST_session p client_type fingerprint => HttpSession.create_session p request client_type fingerprint x
  | POST_refresh p client_type fingerprint =>
    HttpSession.refresh p request client_type fingerprint (hd_refresh_cookie h) (hd_csrf_cookie h) (hd_x_csrf_token h) x
  | POST_logout => HttpSession.logout request bearer x
  | POST_logout_all => HttpSession.logout_all request bearer x
  | GET_sessions => HttpSession.sessions request bearer
  | DELETE_session session_id => HttpSession.revoke_session session_id request bearer x
  | GET_workspaces => HttpWorkspace.list_workspaces request bearer
  | POST_organizations p => HttpWorkspace.create_organization p request bearer x
  | POST_referrals p => HttpWorkspace.create_referral p request bearer x
  | GET_referrals => HttpWorkspace.list_referrals request bearer
  | POST_invitations workspace_id p => HttpWorkspace.invite_organization_member workspace_id p request bearer x
  | POST_invitations_accept p => HttpWorkspace.accept_organization_invitation p request bearer x
  | GET_members workspace_id => HttpWorkspace.list_organization_members workspace_id request bearer
  | PUT_member_roles workspace_id member p =>
    HttpWorkspace.replace_organization_member_role workspace_id member p request bearer x
  | DELETE_member workspace_id member => HttpWorkspace.offboard_organization_member workspace_id member request bearer x
  | POST_workspace_switch p => HttpWorkspace.switch_workspace p request bearer x
  | POST_password_forgot p => HttpRecovery.forgot_password p request x
  | POST_password_reset p => HttpRecovery.reset_password p request x
  | POST_contact_change p => HttpRecovery.start_contact_change p request bearer x
  | POST_contact_verify_old p => HttpRecovery.verify_old_contact p request bearer x
  | POST_contact_verify_new p => HttpRecovery.verify_new_contact p request bearer x
  | POST_unlock user_id p => HttpRecovery.unlock_user user_id p request bearer x
  | POST_suspend user_id p => HttpRecovery.suspend_user user_id p request bearer x
  | POST_support_recovery user_id p => HttpRecovery.support_recovery user_id p request bearer x
  | POST_mfa_resets p => HttpRecovery.initiate_mfa_reset p request bearer x
  | POST_mfa_reset_approve reset_id => HttpRecovery.approve_mfa_reset reset_id request bearer x
  | POST_mfa_reset_execute reset_id => HttpRecovery.execute_mfa_reset reset_id request bearer x
  | GET_mfa_reset reset_id => HttpRecovery.get_mfa_reset reset_id request bearer
  | GET_audit_logs q => HttpPrivacy.search_audit_logs request bearer x q
  | POST_privacy_exports key => HttpPrivacy.request_privacy_export updated_at request key bearer x
  | GET_privacy_request id => HttpPrivacy.get_privacy_request id request bearer
  | GET_privacy_download id => HttpPrivacy.download_privacy_export id request bearer
  | POST_privacy_erasures p key => HttpPrivacy.request_account_erasure p request key bearer x
  end.

(** A request to the application: the constraints, the handler, the middleware.  An exception that
    the handler lets through is the 500 of the server. *)
Definition serve {A} (h : Headers) (c : HttpCall A) : M (Response A) :=
  response ← (if accepted_by_models c then endpoint h c
              else validation_problem (request_of h c) (hd_x_request_id h) (errors_of A c));
  mret (prevent_auth_response_storage (request_of h c) response).
End Application.
