(* ===== verification/HttpProps.v ===== *)
(** What the HTTP boundary guarantees: the shape of every answer, which errors become problems,
    which routes need a bearer token, and where the tokens of a browser go. *)
From S2P Require Import Prelude PyText Entity Models RedisClient World RedisSecurity Tokens Http System.
From S2P Require Import SessionInv SessionControl SessionControlProps.
From S2P Require Import Wiring.
From S2P Require SessionRepo Recovery HttpSession HttpRegistration HttpLogin HttpMfa HttpRecovery HttpWorkspace HttpPrivacy.

(** ** The answers of a handler *)

Section Answers.
Context {R : Type} {RC : RedisClient R} {E : Env}.
Implicit Types (w : World R).

(** Whatever the program returns satisfies [P]. *)
Definition answers {A} (P : A -> Prop) (m : prog R A) : Prop := forall w a w', m w = (inr a, w') -> P a.
Lemma answers_ret {A} (P : A -> Prop) a : P a -> answers P (mret a).
Proof. by intros H w b w' [= <- _]. Qed.
Lemma answers_bind {A B} (P : B -> Prop) (m : prog R A) k : (forall a, answers P (k a)) -> answers P (m ≫= k).
Proof. intros H w b w' (a & w1 & _ & Hb)%bind_inr. by eapply H. Qed.

Lemma answers_responding {A B} (P : Response B -> Prop) caught problem (body : prog R A) answer :
  (forall parts, P (problem parts)) -> (forall a, answers P (answer a)) ->
  answers P (responding caught problem body answer).
Proof.
  intros Hp Ha. apply answers_bind. intros [parts|a]; [by apply answers_ret|apply Ha].
Qed.

Lemma responding_inl {A B} caught (problem : Parts -> Response B) (body : prog R A) answer w e w1 out w' :
  body w = (inl e, w1) -> responding caught problem body answer w = (out, w') ->
  w' = w1 /\ forall r, out = inr r -> exists parts, error_parts e = Some parts /\ r = problem parts.
Proof.
  intros Hb H. unfold responding in H.
  destruct (error_parts e) as [parts|] eqn:Ep; [destruct (caught e) eqn:Ec|];
    unfold try_except, mbind, prog_bind in H; rewrite Hb, Ep in H; rewrite ?Ec in H; injection H as <- <-;
    (split; [done|]); intros r [=]; eauto.
Qed.
(** The identifier of a request is the one it supplied, where that is a UUID. *)
Definition echoes (x : option string) (u : UUID) : Prop := forall s v, x = Some s -> uuid_parse s = Some v -> u = v.
Lemma uuid_parse_nonempty s v : uuid_parse s = Some v -> nonempty s = true.
Proof. intros H. apply negb_true_iff, bool_decide_eq_false. intros ->. discriminate H. Qed.
Lemma request_id_inr x w u w' : request_id x w = (inr u, w') -> echoes x u /\ (w' = w \/ w' = next_seed w).
Proof.
  unfold request_id, echoes. destruct x as [s|].
  - destruct (nonempty s) eqn:Hn.
    + destruct (uuid_parse s) as [v|] eqn:Ep; intros H; injection H as <- <-.
      * split; [|by left]. intros s' v' [= <-] H. congruence.
      * split; [|by right]. intros s' v' [= <-] H. congruence.
    + intros H. injection H as <- <-. split; [|by right]. intros s' v [= <-] ?%uuid_parse_nonempty. congruence.
  - intros H. injection H as <- <-. split; [|by right]. by intros s' v [=].
Qed.
Lemma request_id_total x w : exists u w', request_id x w = (inr u, w') /\ (w' = w \/ w' = next_seed w).
Proof.
  unfold request_id. destruct x as [s|]; [|by eauto]. destruct (nonempty s); [|by eauto].
  destruct (uuid_parse s); by eauto.
Qed.
Lemma answers_request_id {A} (P : A -> Prop) x (k : UUID -> prog R A) :
  (forall u, echoes x u -> answers P (k u)) -> answers P (request_id x ≫= k).
Proof. intros H w a w' (u & w1 & Hu & Hk)%bind_inr. apply request_id_inr in Hu as [Hu _]. by eapply H. Qed.
End Answers.

(** The status a route answers with where its handler returned. *)
Definition success_status {A} (c : HttpCall A) : Z :=
  match c with
  | POST_signup _ | POST_signup_phone _ | POST_organizations _ | POST_referrals _ | POST_invitations _ _ => 201
  | POST_verify_email_request _ | POST_verify_phone_request _ | POST_login_phone_request _
  | POST_password_forgot _ | POST_contact_change _ | POST_support_recovery _ _ | POST_mfa_resets _
  | POST_privacy_exports _ | POST_privacy_erasures _ _ => 202
  | POST_logout | DELETE_session _ | DELETE_member _ _ => 204
  | _ => 200
  end.
(** The routes that read [X-Request-ID]. *)
Definition correlated {A} (c : HttpCall A) : bool :=
  match c with
  | POST_verify_phone_request _ | POST_login_phone_request _ | POST_sso_authorize _ | GET_fallback_options _
  | GET_mfa_methods _ | POST_mfa_challenge _ | POST_mfa_challenge_resend _ | POST_mfa_totp_setup _
  | POST_mfa_passkeys_options _ | POST_passkeys_options _ | GET_mfa_devices _ | GET_sessions | GET_workspaces
  | GET_referrals | GET_members _ | GET_mfa_reset _ | GET_privacy_request _ | GET_privacy_download _ => false
  | _ => true
  end.

(** A problem document that agrees with its response: the same status, a code that is one of the
    service's, the URL of the type derived from the code, the path and the request it answers. *)
Record problem_of {A} (h : Headers) (c : HttpCall A) (r : Response A) (p : ProblemResponse) : Prop := {
  po_media : rs_media_type r = "application/problem+json";
  po_status : pb_status p = rs_status r;
  po_type : pb_type p = "https://auth.vittavaan.com/problems/" +:+ casefold (pb_code p);
  po_path : pb_instance p = path_of c;
  po_request : correlated c = true -> forall s v, hd_x_request_id h = Some s -> uuid_parse s = Some v ->
    pb_request_id p = uuid_str v;
  po_generated : exists u, pb_request_id p = uuid_str u }.
(** The document of a request that the constraints of its models refuse; every route reads the identifier here. *)
Record invalid_of {A} (h : Headers) (c : HttpCall A) (r : Response A) (p : ProblemResponse) : Prop := {
  iv_media : rs_media_type r = "application/problem+json";
  iv_status : rs_status r = 422 /\ pb_status p = 422;
  iv_code : pb_code p = "REQUEST_VALIDATION_FAILED" /\
    pb_type p = "https://auth.vittavaan.com/problems/request-validation";
  iv_path : pb_instance p = path_of c;
  iv_request s v : hd_x_request_id h = Some s -> uuid_parse s = Some v -> pb_request_id p = uuid_str v;
  iv_generated : exists u, pb_request_id p = uuid_str u }.
(** The same request under another [X-Request-ID]. *)
Definition with_request_id (x : option string) (h : Headers) : Headers :=
  MkHeaders (hd_client_host h) (hd_authorization h) x (hd_x_csrf_token h) (hd_refresh_cookie h) (hd_csrf_cookie h).
(** The answer does not carry the header. *)
Definition not_returned {A} (r : Response A) : Prop := "X-Request-ID" ∉ List.map fst (rs_headers r).
(** The answer of a handler. *)
Definition answer_of {A} (h : Headers) (c : HttpCall A) (r : Response A) : Prop :=
  match rs_content r with
  | Body _ => rs_status r = success_status c /\ rs_media_type r = "application/json" /\ success_status c <> 204
  | Empty => rs_status r = success_status c /\ success_status c = 204
  | Problem p => problem_of h c r p
  | Invalid _ _ => False
  end.

Section Shapes.
Context {R : Type} {RC : RedisClient R} {E : Env}.
Context (updated_at : User -> Time) (errors_of : forall A, HttpCall A -> list (list string * string)).

Lemma problem_shape {A} h (c : HttpCall A) title u parts :
  (correlated c = true -> echoes (hd_x_request_id h) u) ->
  answer_of h c (problem_response title (request_of h c) u parts).
Proof.
  intros Hu. destruct parts as [[code message] status]. split; try done.
  - intros Hc s v Hs Hv. cbn. by rewrite (Hu Hc s v Hs Hv).
  - by exists u.
Qed.

Lemma clearing_shape {A} h (c : HttpCall A) r : answer_of h c r -> answer_of h c (HttpSession.clearing r).
Proof. unfold answer_of, HttpSession.clearing. cbn. destruct (rs_content r); try done. by intros []. Qed.
Lemma session_problem_shape {A} h (c : HttpCall A) u parts :
  (correlated c = true -> echoes (hd_x_request_id h) u) ->
  answer_of h c (HttpSession.problem (request_of h c) u parts).
Proof.
  intros Hu. unfold HttpSession.problem. pose proof (problem_shape h c HttpSession.title u parts Hu) as H.
  destruct (_ =? 401); [|done]. revert H. unfold answer_of. cbn. destruct (rs_content _); try done. by intros [].
Qed.

Ltac shape_step :=
  first
  [ apply answers_request_id; intros ? ?
  | apply answers_responding; [intros ?|intros ?]
  | apply answers_ret
  | apply answers_bind; intros ?
  | apply problem_shape; intros; done
  | apply session_problem_shape; intros; done
  | apply clearing_shape
  | match goal with a : (_ * _)%type |- _ => destruct a end
  | match goal with |- answers _ ?m => let h := head_of m in unfold h end ].
Lemma endpoint_shape {A} h (c : HttpCall A) : answers (answer_of h c) (endpoint (R := R) updated_at h c).
Proof. destruct c; cbn [endpoint]; repeat shape_step; try (apply problem_shape; intros; done); try done. Qed.

Lemma named_headers {A} (r : Response A) l :
  List.map fst (rs_headers r) = l -> bool_decide ("X-Request-ID" ∈ l) = false -> not_returned r.
Proof. intros <- ?%bool_decide_eq_false. done. Qed.
Lemma problem_not_returned {A} title request u parts : not_returned (problem_response (A := A) title request u parts).
Proof. destruct parts as [[code message] status]. by eapply named_headers. Qed.
Lemma session_problem_not_returned {A} request u parts : not_returned (HttpSession.problem (A := A) request u parts).
Proof.
  unfold HttpSession.problem. destruct (_ =? 401); [|apply problem_not_returned].
  by eapply named_headers.
Qed.
Lemma clearing_not_returned {A} (r : Response A) : not_returned r -> not_returned (HttpSession.clearing r).
Proof. done. Qed.
Ltac header_step :=
  first
  [ apply answers_responding; [intros ?|intros ?]
  | apply answers_ret
  | apply answers_bind; intros ?
  | apply problem_not_returned
  | apply session_problem_not_returned
  | lazymatch goal with |- not_returned (HttpSession.clearing _) => apply clearing_not_returned end
  | match goal with a : (_ * _)%type |- _ => destruct a end
  | lazymatch goal with |- not_returned _ => eapply named_headers; [reflexivity|vm_compute; reflexivity] end
  | match goal with |- answers _ ?m => let h := head_of m in unfold h end ].
Lemma endpoint_not_returned {A} h (c : HttpCall A) : answers not_returned (endpoint (R := R) updated_at h c).
Proof. destruct c; cbn [endpoint]; repeat header_step. Qed.
(** The other routes do not read the header. *)
Lemma endpoint_ignores {A} h x (c : HttpCall A) : correlated c = false ->
  endpoint (R := R) updated_at (with_request_id x h) c = endpoint updated_at h c.
Proof. by destruct c. Qed.
End Shapes.

(** ** The errors of the service *)

(** The error classes of entity/: those whose parts the handlers read, and the two that the controls turn into one
    of them. *)
Definition service_error (e : exc) : bool :=
  match e with LastOwnerError | DuplicateContactError => true | _ => is_some (error_parts e) end.

Section Errors.
Context {R : Type} {RC : RedisClient R} {E : Env}.
Context (updated_at : User -> Time) (errors_of : forall A, HttpCall A -> list (list string * string)).

(** An error of the service is one the handler turns into a problem. *)
Definition only (caught : exc -> bool) (e : exc) : Prop :=
  service_error e = true -> error_parts e <> None /\ caught e = true.
(** Not an error of the service. *)
Definition foreign (e : exc) : Prop := service_error e = false.
Lemma raises_responding {A B} caught problem (body : prog R A) (answer : A -> prog R (Response B)) :
  raises (only caught) body -> (forall a, raises foreign (answer a)) ->
  raises foreign (responding caught problem body answer).
Proof.
  intros Hb Ha. apply raises_bind.
  - apply (raises_try _ (only caught)).
    + apply raises_bind; [done|]. intros a. apply raises_ret.
    + intros e He. unfold only, foreign in *. destruct (service_error e) eqn:Es.
      * destruct (He eq_refl) as [Hp Hc]. destruct (error_parts e) as [parts|]; [|done]. rewrite Hc. apply raises_ret.
      * assert (error_parts e = None) as ->; [|done]. by destruct e.
  - intros [parts|a]; [apply raises_ret|apply Ha].
Qed.
Lemma raises_try_any {A} P (m : prog R A) h :
  raises (fun e => h e = None -> P e) m -> (forall e k, h e = Some k -> raises P k) -> raises P (try_except m h).
Proof.
  intros Hm Hh. apply (raises_try _ _ _ _ Hm). intros e He. destruct (h e) as [k|] eqn:Ek; [by eapply Hh|auto].
Qed.

Ltac er_step :=
  first
  [ lazymatch goal with |- raises _ (try_except _ _) => apply raises_try_any; [|intros []; intros ? Hk; try discriminate Hk; injection Hk as <-] end
  | raises_step ].
Ltac er_done := first [done | intros _; by split | intros _ _; by split].
Ltac er := repeat er_step; try er_done.

Lemma er_policy p e : enforce_password_policy p = Some e -> is_RegistrationError e = true.
Proof. unfold enforce_password_policy. by repeat case_match; intros [= <-]. Qed.
Lemma er_recovery_policy p e : Recovery.recovery_policy p = Some e -> is_RecoveryError e = true.
Proof.
  unfold Recovery.recovery_policy. destruct (enforce_password_policy p) as [e0|] eqn:Ep; [|done].
  apply er_policy in Ep. destruct e0; try discriminate Ep. by intros [= <-].
Qed.
Lemma er_revoke P u reason : raises P (Recovery.revoke_access (R := R) u reason).
Proof. intros w e w' H. cbn in H. rewrite Wiring.run_revoke_user_access in H. discriminate H. Qed.
Hint Resolve er_revoke : auth.

Lemma endpoint_errors {A} h (c : HttpCall A) : raises foreign (endpoint (R := R) updated_at h c).
Proof.
  destruct c; cbn [endpoint];
  repeat match goal with
  | |- raises foreign ?m =>
    first [apply raises_responding | apply raises_bind; [|intros ?] | solve [apply raises_ret] | let h := head_of m in unfold h]
  end; er; try (intros [[] ?]; apply raises_ret); try (intros []; apply raises_ret).
  - intros _. apply er_policy in H. by destruct e.
  - intros _. apply er_recovery_policy in H. by destruct e.
Qed.
End Errors.

(** ** Bearer tokens *)

Lemma prefix_drop p s : String.prefix p s = true -> s = p +:+ drop_s (String.length p) s.
Proof.
  revert s. induction p as [|a p IH]; intros s; [done|]. destruct s as [|b s]; cbn; [done|].
  destruct (Ascii.ascii_dec a b) as [->|]; [|done]. intros H. exact (f_equal (String b) (IH s H)).
Qed.

Section Bearer.
Context {R : Type} {RC : RedisClient R} {E : Env}.
Implicit Types (w : World R).

(** Nothing but the source of randomness moved. *)
Definition untouched w w' : Prop :=
  w_db w' = w_db w /\ w_redis w' = w_redis w /\ w_now w' = w_now w /\ w_mail w' = w_mail w.
Lemma authenticate_reads w0 token : keeps (fun w => w = w0) (authenticate (R := R) token).
Proof. keeps_all. Qed.

(** The bearer token of a request and what it stands for: it decodes to the claims, nothing it
    depends on is revoked, and its session and family are alive in the database. *)
Record bearer_of (h : Headers) (claims : AccessClaims) w : Prop := {
  be_token : exists token payload, hd_authorization h = Some ("Bearer " +:+ token) /\
    jwt_decode token (w_now w) jwt_audience jwt_issuer = Some payload /\ claims_of payload = Some claims;
  be_jti : jti_marked (w_now w) (ac_jti claims) (w_redis w) = false;
  be_family : family_marked (w_now w) (ac_family_id claims) (w_redis w) = false;
  be_user t : user_revocation_instant (w_now w) (ac_user_id claims) (w_redis w) = Some t -> t < ac_issued_at claims;
  be_session : exists s f, s ∈ Models.sessions (w_db w) /\ f ∈ families (w_db w) /\ f_family_id f = s_family_id s /\
    s_session_id s = ac_session_id claims /\ s_revoked_at s = None /\ f_revoked_at f = None /\
    w_now w < s_expires_at s /\ w_now w < f_absolute_expires_at f }.

Lemma er_bearer b : raises (fun e => forall parts, error_parts e = Some parts -> parts.2 = 401) (access_claims (R := R) b).
Proof. raises_all; try done; intros parts [= <-]; done. Qed.
Lemma access_claims_run h w x w' : session_inv (w_db w) -> access_claims (hd_authorization h) w = (x, w') ->
  w' = w /\ match x with inr claims => bearer_of h claims w | inl _ => True end.
Proof.
  intros I H. unfold access_claims in H. destruct (hd_authorization h) as [a|] eqn:Ea; [|by injection H as <- <-].
  destruct (String.prefix "Bearer " a) eqn:Ep; [|by injection H as <- <-].
  pose proof (authenticate_reads w (drop_s 7 a) w eq_refl) as Hw. rewrite H in Hw. cbn in Hw. subst w'.
  split; [done|]. destruct x as [e|claims]; [done|].
  apply authenticate_inr in H as (_ & Hv & Hj & Hf & Hu & Ha & _).
  apply verify_inr in Hv as [_ (payload & Hd & Hc)]. apply (active_inv _ _ _ I) in Ha.
  split; try done. exists (drop_s 7 a), payload. split; [|done]. rewrite Ea. f_equal. by apply prefix_drop in Ep.
Qed.

(** A handler that asks for the claims of the bearer first. *)
Lemma guarded_run {A B} h x caught problem (k : UUID -> AccessClaims -> prog R A) (answer : UUID -> A -> prog R (Response B)) w out w' :
  session_inv (w_db w) ->
  (correlation_id ← request_id x;
   responding caught (problem correlation_id)
     (access_claims (hd_authorization h) ≫= k correlation_id) (answer correlation_id)) w = (out, w') ->
  (exists claims, bearer_of h claims w) \/
  (untouched w w' /\ forall r, out = inr r -> exists u parts, r = problem u parts /\ parts.2 = 401).
Proof.
  intros I H. destruct (request_id_total x w) as (u & w1 & Hu & Hw1).
  rewrite (run_bind _ _ _ _ _ Hu) in H. assert (I1 : session_inv (w_db w1)) by (by destruct Hw1 as [->| ->]).
  assert (Hun : untouched w w1) by (unfold untouched; destruct Hw1 as [->| ->]; done).
  destruct (access_claims (hd_authorization h) w1) as [x1 w2] eqn:Ea. pose proof (er_bearer (hd_authorization h) w1) as Her.
  rewrite Ea in Her. pose proof Ea as [-> Hx]%access_claims_run; [|done].
  destruct x1 as [e|claims]; [|left; exists claims; destruct Hw1 as [->| ->]; [done|by destruct Hx]].
  right. specialize (Her e w1 eq_refl).
  apply (responding_inl _ _ _ _ _ _ _ _ _ (run_bind_inl _ _ _ _ _ Ea)) in H as [-> H]. split; [done|].
  intros r Hr. destruct (H r Hr) as (parts & Hp & ->). eauto.
Qed.
End Bearer.

(** The routes whose handler starts with [access_claims]. *)
Definition protected {A} (c : HttpCall A) : bool :=
  match c with
  | POST_logout | POST_logout_all | GET_sessions | DELETE_session _ | GET_workspaces | POST_organizations _
  | POST_referrals _ | GET_referrals | POST_invitations _ _ | POST_invitations_accept _ | GET_members _
  | PUT_member_roles _ _ _ | DELETE_member _ _ | POST_workspace_switch _ | POST_contact_change _
  | POST_contact_verify_old _ | POST_contact_verify_new _ | POST_unlock _ _ | POST_suspend _ _
  | POST_support_recovery _ _ | POST_mfa_resets _ | POST_mfa_reset_approve _ | POST_mfa_reset_execute _
  | GET_mfa_reset _ | GET_audit_logs _ | POST_privacy_exports _ | GET_privacy_request _ | GET_privacy_download _
  | POST_privacy_erasures _ _ => true
  | _ => false
  end.

Section Routes.
Context {R : Type} {RC : RedisClient R} {E : Env}.
Context (updated_at : User -> Time) (errors_of : forall A, HttpCall A -> list (list string * string)).
Implicit Types (w : World R).
Abbreviation serve := (System.serve updated_at errors_of).

Lemma path_api {A} (c : HttpCall A) : String.prefix "/api/v1" (path_of c) = true.
Proof. by destruct c. Qed.
(** A request that returned went through the models or the handler, then through the middleware. *)
Lemma serve_any {A} h (c : HttpCall A) w x w' : serve h c w = (x, w') ->
  exists y, (if accepted_by_models c then endpoint updated_at h c
             else validation_problem (request_of h c) (hd_x_request_id h) (errors_of A c)) w = (y, w') /\
  x = match y with
      | inl e => inl e
      | inr r => inr (MkResponse (rs_status r) (rs_media_type r) (("Cache-Control", "no-store") :: rs_headers r)
                        (rs_cookies r) (rs_content r))
      end.
Proof.
  intros H. unfold System.serve in H. match type of H with (?m ≫= _) _ = _ => set (n := m) in * end.
  destruct (n w) as [[e|r] w1] eqn:En; unfold mbind, prog_bind in H; rewrite En in H; injection H as <- <-;
    eexists; (split; [done|]); [done|].
  unfold prevent_auth_response_storage. cbn [request_of rq_path]. by rewrite path_api.
Qed.
Lemma validation_run {A} h (c : HttpCall A) errors w x w' :
  validation_problem (A := A) (request_of h c) (hd_x_request_id h) errors w = (x, w') ->
  untouched w w' /\ exists r p l, x = inr r /\ rs_status r = 422 /\ rs_content r = Invalid p l /\
    invalid_of h c r p /\ not_returned r.
Proof.
  unfold validation_problem. destruct (request_id_total (hd_x_request_id h) w) as (u & w1 & Hu & Hw).
  rewrite (run_bind _ _ _ _ _ Hu). intros [= <- <-]. split; [unfold untouched; destruct Hw as [->| ->]; done|].
  apply request_id_inr in Hu as [He _]. do 3 eexists. do 3 (split; [reflexivity|]). split.
  - split; try done; [|by exists u]. intros s v Hs Hv. cbn. by rewrite (He s v Hs Hv).
  - apply not_elem_of_nil.
Qed.

(** C12: every answer of every route has the shape its client relies on: it may not be stored by a
    cache; a request that the constraints of its models refuse gets a 422 problem, which names the path and the
    identifier the client supplied in X-Request-ID; otherwise it is the response model of the route, or nothing for a
    204, under the status the route declares, or a problem document whose status is the one of the response, whose type is derived from
    its code, and which names the path and an identifier: the supplied one where the route reads the header.  The
    eighteen routes that do not read it answer a request their models accept as they would have under any other; and
    no answer, whatever the route, returns the header. *)
Theorem answers_well_formed {A} h (c : HttpCall A) w r w' : serve h c w = (inr r, w') ->
  ("Cache-Control", "no-store") ∈ rs_headers r /\ not_returned r /\
  (accepted_by_models c = true -> answer_of h c r /\
     (correlated c = false -> forall x, serve (with_request_id x h) c w = (inr r, w'))) /\
  (accepted_by_models c = false -> exists p l, rs_content r = Invalid p l /\ invalid_of h c r p).
Proof.
  intros Hs. pose proof Hs as (y & Hy & Hr)%serve_any. destruct y as [e|r0]; [done|]. injection Hr as ->.
  split; [by left|]. destruct (accepted_by_models c) eqn:Ha.
  - pose proof Hy as Hn%endpoint_not_returned. split; [unfold not_returned in *; cbn; by apply not_elem_of_cons|].
    split; [|done]. intros _. split.
    + apply endpoint_shape in Hy. revert Hy. unfold answer_of. cbn. destruct (rs_content r0); try done. by intros [].
    + intros Hc x. rewrite <- Hs. unfold System.serve. rewrite Ha, endpoint_ignores by done. reflexivity.
  - apply validation_run in Hy as (_ & r1 & p & l & [= ->] & Hst & Hp & Hi & Hn).
    split; [unfold not_returned in *; cbn; by apply not_elem_of_cons|]. split; [done|]. intros _. exists p, l. split; [done|]. by destruct Hi.
Qed.

(** C13: no error of the service reaches the server as a 500: whatever a route raises is none of the
    error classes of the entities, LastOwnerError and DuplicateContactError included; each is turned into a
    problem document on the way. *)
Theorem service_errors_answered {A} h (c : HttpCall A) w e w' : serve h c w = (inl e, w') -> service_error e = false.
Proof.
  intros (y & Hy & Hr)%serve_any. destruct y as [e0|r]; [|done]. injection Hr as <-.
  destruct (accepted_by_models c); [by apply endpoint_errors in Hy|].
  apply validation_run in Hy as (_ & ? & ? & ? & [=] & _).
Qed.

(** C10: a route that needs a bearer token does nothing without one: either the request carried a
    token that decodes, is not revoked and has a live session, or database, keyspace and mail are
    as they were and the answer, if there is one, is a 401 or 422 problem. *)
Theorem protected_routes_need_a_token {A} h (c : HttpCall A) w x w' : session_inv (w_db w) -> protected c = true ->
  serve h c w = (x, w') ->
  (exists claims, bearer_of h claims w) \/
  (untouched w w' /\ forall r, x = inr r -> (rs_status r = 401 \/ rs_status r = 422) /\
     exists p, rs_content r = Problem p \/ exists l, rs_content r = Invalid p l).
Proof.
  intros I Hc (y & Hy & ->)%serve_any. destruct (accepted_by_models c).
  2: { apply validation_run in Hy as (Hw & r & p & l & -> & Hs & Hp & _). right. split; [done|].
       intros r' [= <-]. cbn. rewrite Hs. split; [by right|]. exists p. right. by exists l. }
  assert (Hg : (exists claims, bearer_of h claims w) \/ (untouched w w' /\ forall r, y = inr r ->
    rs_status r = 401 /\ exists p, rs_content r = Problem p)).
  { destruct c; try discriminate Hc; cbn [endpoint] in Hy;
    match type of Hy with ?m _ = _ => let f := head_of m in unfold f in Hy end.
    all: try (match type of Hy with ?m _ = _ => let f := head_of m in unfold f in Hy end).
    all: apply (guarded_run h) in Hy as [Hy|[Hy Hr]]; [by left|right; split; [done|]|done].
    all: intros r Hr'. 
    all: destruct (Hr r Hr') as (u & [[code m] st] & -> & Hst); cbn in Hst; subst st; split; [reflexivity|by eexists].
  }
  destruct Hg as [Hg|[Hw Hg]]; [by left|right]. split; [done|]. intros r' Hr. destruct y as [e|r]; [done|].
  injection Hr as <-. destruct (Hg r eq_refl) as (Hs & p & Hp). cbn. rewrite Hs. split; [by left|]. exists p. by left.
Qed.
End Routes.

(** ** The tokens of a browser *)

Section Browser.
Context {R : Type} {RC : RedisClient R} {E : Env}.
Context (updated_at : User -> Time) (errors_of : forall A, HttpCall A -> list (list string * string)).
Implicit Types (w : World R).
Abbreviation serve := (System.serve updated_at errors_of).

Lemma responding_any {A B} caught (problem : Parts -> Response B) (body : prog R A) answer w r w' :
  responding caught problem body answer w = (inr r, w') ->
  (exists e w1 parts, body w = (inl e, w1) /\ w' = w1 /\ error_parts e = Some parts /\ r = problem parts) \/
  (exists a w1, body w = (inr a, w1) /\ answer a w1 = (inr r, w')).
Proof.
  intros H. destruct (body w) as [[e|a] w1] eqn:Hb.
  - left. pose proof (responding_inl _ _ _ _ _ _ _ _ _ Hb H) as [-> Hr]. destruct (Hr r eq_refl) as (parts & Hp & ->). eauto 10.
  - right. exists a, w1. split; [done|]. unfold responding, try_except, mbind, prog_bind in H.
    rewrite Hb in H. exact H.
Qed.

(** The token of the header is the one of the cookie. *)
Definition csrf_matches (h : Headers) : bool :=
  match hd_x_csrf_token h, hd_csrf_cookie h with Some a, Some b => nonempty a && (a == b) | _, _ => false end.
Lemma require_csrf_run h w : HttpSession.require_csrf WEB (hd_x_csrf_token h) (hd_csrf_cookie h) w
  = (if csrf_matches h then inr () else inl HttpSession.csrf_invalid, w).
Proof.
  unfold HttpSession.require_csrf, csrf_matches. change (WEB == WEB) with true.
  destruct (hd_x_csrf_token h) as [a|], (hd_csrf_cookie h) as [b|]; cbn [truthy andb negb orb];
    try (destruct (nonempty a); done); try done.
  destruct (nonempty a) eqn:Ha; [|done]. cbn [negb orb andb].
  destruct (decide (a = b)) as [->|Hab].
  - rewrite Ha, !eqb_refl. done.
  - rewrite (eqb_neq a b Hab). replace (Some a == Some b) with false by (symmetry; apply bool_decide_eq_false; congruence).
    by destruct (nonempty b).
Qed.

(** C11: what a browser holds.  Renewing the session of a browser succeeds only when the token in its
    X-CSRF-Token header is the one in its cookie, otherwise nothing happens; the new refresh token is not
    in the body but in a cookie that scripts cannot read and that travels on HTTPS only; and a refusal
    clears both cookies. *)
Theorem browser_tokens_guarded h payload fingerprint w r w' :
  serve h (POST_refresh payload WEB fingerprint) w = (inr r, w') ->
  match rs_content r with
  | Body b => csrf_matches h = true /\ is_Some (hd_refresh_cookie h) /\ HttpSession.tr_refresh_token b = None /\
      exists new rest, rs_cookies r
        = MkCookie HttpSession.REFRESH_COOKIE new REFRESH_FAMILY_SECONDS true true "lax" "/" :: rest /\
      forall k, k ∈ rest -> ck_name k = HttpSession.CSRF_COOKIE /\ HttpSession.tr_csrf_token b = Some (ck_value k)
  | Problem p => rs_cookies r = HttpSession.clear_web_cookies /\ (csrf_matches h = false -> pb_status p = 403)
  | _ => True
  end /\ (csrf_matches h = false -> untouched w w').
Proof.
  intros (y & Hy & Hr)%serve_any. destruct y as [e|r0]; [done|]. injection Hr as ->. cbn [rs_content rs_cookies].
  destruct (accepted_by_models _).
  2: { apply validation_run in Hy as (Hw & ? & p & l & [= ->] & _ & Hp & _). rewrite Hp. done. }
  cbn [endpoint] in Hy. unfold HttpSession.refresh in Hy.
  destruct (request_id_total (hd_x_request_id h) w) as (u & w1 & Hu & Hw1). rewrite (run_bind _ _ _ _ _ Hu) in Hy.
  assert (Hun : untouched w w1) by (unfold untouched; destruct Hw1 as [->| ->]; done).
  apply responding_any in Hy as [(e & w2 & parts & Hb & -> & Hp & ->)|(pair & w2 & Hb & Ha)].
  - destruct parts as [[code m] st].
    assert (Hc : csrf_matches h = false -> w2 = w1 /\ st = 403).
    { intros Hm. unfold mbind, prog_bind in Hb. rewrite require_csrf_run, Hm in Hb. injection Hb as <- <-.
      injection Hp as _ _ <-. done. }
    split; [|intros Hm; by destruct (Hc Hm) as [-> _]].
    unfold HttpSession.clearing. cbn [rs_content]. unfold HttpSession.problem. destruct (_ =? 401); cbn; split; try done;
      intros Hm; by apply Hc.
  - unfold mbind at 1, prog_bind at 1 in Hb. rewrite require_csrf_run in Hb. destruct (csrf_matches h) eqn:Hm; [|done].
    change (WEB == WEB) with true in *. apply bind_inr in Hb as (old & w3 & Ho & _).
    destruct (hd_refresh_cookie h) as [c|]; [|done]. injection Ha as <- <-. split; [|done].
    cbn. split_and!; try done. do 2 eexists. split; [reflexivity|].
    intros k Hk. destruct (tp_csrf_token pair) as [csrf|]; [|by apply elem_of_nil in Hk].
    destruct (nonempty csrf); [|by apply elem_of_nil in Hk]. apply list_elem_of_singleton in Hk as ->. done.
Qed.
End Browser.
