(* ===== verification/SystemProps.v ===== *)
(** What the whole service guarantees: over every history of HTTP requests, of any clients and in any
    order, the session tables and the roles of the organizations stay well formed. *)
From S2P Require Import Prelude PyText Entity Models RedisClient World RedisSecurity Tokens Http System.
From S2P Require Import SessionInv SessionControl SessionControlProps WorkspaceInv WorkspaceProps HttpProps Wiring RecoveryInv.
From S2P Require Import WorkspaceRepo.
From S2P Require RecoveryProps SessionRepo RecoveryRepo RegistrationRepo PrivacyRepo Recovery Workspace Privacy PrivacyProps.
From S2P Require HttpSession HttpRegistration HttpLogin HttpMfa HttpRecovery HttpWorkspace HttpPrivacy.

Section Following.
Context {R : Type} {RC : RedisClient R} {E : Env}.
Lemma keeps_responding {A B} I caught problem (body : prog R A) (answer : A -> prog R (Response B)) :
  keeps I body -> (forall a, keeps I (answer a)) -> keeps I (responding caught problem body answer).
Proof.
  intros Hb Ha. apply keeps_bind; [|intros [parts|a]; [apply keeps_ret|apply Ha]].
  apply keeps_try; [apply keeps_bind; [done|]; intros a; apply keeps_ret|].
  intros e k Hk. destruct (error_parts e), (caught e); try discriminate Hk. injection Hk as <-. apply keeps_ret.
Qed.
Lemma keeps_request_id P x : keeps (R := R) (on_db P) (request_id x).
Proof. keeps_all. Qed.
Lemma keeps_claims P b : keeps (R := R) (on_db P) (access_claims b).
Proof. keeps_all. Qed.
End Following.
#[export] Hint Resolve keeps_request_id keeps_claims : auth.

(** Follow a handler down to the writes of its repositories; [leaf] settles a write. *)
Ltac service_step leaf :=
  first
  [ lazymatch goal with |- keeps _ (responding _ _ _ _) => apply keeps_responding; [|intros ?] end
  | lazymatch goal with |- forall _ : exc, _ => intros [] ? Hk; try discriminate Hk; try (injection Hk as <-) end
  | keeps_step
  | apply keeps_modify_db; solve [leaf]
  | apply keeps_add_row; solve [leaf] ].
Ltac follow leaf := repeat service_step leaf.

Section Handlers.
Context {R : Type} {RC : RedisClient R} {E : Env}.
Context (updated_at : User -> Time) (errors_of : forall A, HttpCall A -> list (list string * string)).
Implicit Types (w : World R).

(** ** The session tables *)

Lemma keeps_open_session u ct fp ip rh jti fe se :
  keeps (R := R) (on_db session_inv) (SessionRepo.create_session u ct fp ip rh jti fe se fe).
Proof. apply keeps_create_session. lia. Qed.
Lemma keeps_revoker u reason : keeps (R := R) (on_db session_inv) (Recovery.revoke_access u reason).
Proof.
  intros w I. destruct (Recovery.revoke_access u reason w) as [x w'] eqn:H. cbn in H.
  rewrite run_revoke_user_access in H. injection H as _ <-. by apply revoke_rows_inv.
Qed.
Lemma erase_account_inv rid u ps email now due db : session_inv db ->
  session_inv (PrivacyRepo.erase_account rid u ps email now due db).
Proof. intros I. by eapply PrivacyProps.erase_session_inv, PrivacyProps.erase_tables. Qed.
Lemma unscope_inv sid jti now db : session_inv db -> session_inv (SessionRepo.set_session sid (WorkspaceRepo.unscoped jti now) db).
Proof. intros I. by apply touch_session_inv. Qed.
Hint Resolve keeps_open_session keeps_rotate keeps_revoke_session keeps_revoke_all keeps_scope keeps_session_audit
  keeps_revoker : auth.
Ltac same_sessions :=
  intros; first [by apply erase_account_inv | by apply unscope_inv
                | eapply RecoveryProps.session_inv_ext; [..|eassumption]; reflexivity].

Lemma endpoint_sessions {A} h (c : HttpCall A) : keeps (R := R) (on_db session_inv) (endpoint updated_at h c).
Proof. destruct c; cbn [endpoint]; follow same_sessions. Qed.
Lemma erasure_sessions claims key cid : keeps (R := R) (on_db session_inv) (Privacy.request_erasure claims key cid).
Proof. follow same_sessions. Qed.
Remove Hints keeps_open_session keeps_rotate keeps_revoke_session keeps_revoke_all keeps_scope keeps_session_audit
  keeps_revoker : auth.

(** ** The roles of the organizations *)

Lemma keeps_of_done {A} I (m : prog R A) : keeps I (done_ m) -> keeps I m.
Proof.
  intros H w Hw. specialize (H w Hw). unfold done_, mbind, prog_bind in H. by destruct (m w) as [[e|a] w'].
Qed.
(** Accounts only come. *)
Lemma roster_users db f : Roster db ->
  (forall u, is_Some (account_by_id u db) -> is_Some (account_by_id u (db <| users ::= f |>))) ->
  Roster (db <| users ::= f |>).
Proof. intros [] H. split; try done. intros u o cid Hh. apply H. by eapply ro_user. Qed.
Lemma account_iff u db : is_Some (account_by_id u db) <-> exists x, x ∈ users db /\ u_user_id x = u.
Proof.
  unfold account_by_id. split.
  - intros [x Hx]. apply scalar_Some in Hx as [Hx Hid]. to_prop. eauto.
  - intros (x & Hx & Hid). eapply scalar_is_Some; [exact Hx|]. by rewrite Hid, eqb_refl.
Qed.
Lemma roster_set_user u g db : (forall x, u_user_id (g x) = u_user_id x) -> Roster db -> Roster (RecoveryRepo.set_user u g db).
Proof.
  intros Hg I. apply roster_users; [done|]. intros v. rewrite !account_iff. intros (x & Hx & Hid).
  eexists. split; [by apply elem_of_update_fwd|]. cbn. case_bool_decide; [by rewrite Hg|done].
Qed.
Lemma roster_add_user db x : Roster db -> Roster (db <| users ::= (fun t => t ++ [x]) |>).
Proof.
  intros I. apply roster_users; [done|]. intros v. rewrite !account_iff. intros (y & Hy & Hid).
  exists y. split; [|done]. apply elem_of_app. by left.
Qed.
Lemma roster_add_personal db o u : Roster db ->
  Roster (db <| organizations ::= (fun t => t ++ [personal_workspace_for o u]) |>).
Proof.
  intros I. refine (proj1 (roster_frame db _ I _ _ _ _ _ _)); try done.
  - intros x Hx. apply elem_of_app. by left.
  - intros x [Hx| ->]%elem_of_snoc; [by left|by right].
  - by apply (ro_invited _ I).
Qed.
Lemma roster_same db db' : Roster db -> role_permission_catalog db' = role_permission_catalog db ->
  user_role_bindings db' = user_role_bindings db -> users db' = users db -> organizations db' = organizations db ->
  invitations db' = invitations db -> Roster db'.
Proof.
  intros I Hc Hb Hu Ho Hi. refine (proj1 (roster_frame db _ I Hc Hb Hu _ _ _)); rewrite ?Ho, ?Hi; auto.
  apply (ro_invited _ I).
Qed.
Ltac same_roles :=
  intros; first [apply roster_set_user; [by intros x; unfold RecoveryRepo.unlocked, RecoveryRepo.new_contact; repeat case_match|done] | by apply roster_add_user | by apply roster_add_personal
                | eapply roster_same; [eassumption|reflexivity..] ].
Lemma keeps_revoker_roster u reason : keeps (R := R) (on_db Roster) (Recovery.revoke_access u reason).
Proof.
  intros w I. destruct (Recovery.revoke_access u reason w) as [x w'] eqn:H. cbn in H.
  rewrite run_revoke_user_access in H. injection H as _ <-.
  destruct (PrivacyProps.revoke_rows_tables (w_now w) reason (live_rows u (w_db w)) (w_db w)) as (fs & ts & ss & Ht).
  cbn. rewrite Ht. by apply (PrivacyProps.roster_tables [] fs ts ss (MkAuditLog u None None None "" "" u [] 0) (fun t => t)).
Qed.
(** The requests of the workspaces refine the role matrix. *)
Lemma keeps_create_organization u name c : keeps (R := R) (on_db Roster) (Workspace.create_organization u name c).
Proof. apply keeps_of_done, (keeps_roster (CreateOrganization u name c)). Qed.
Lemma keeps_invite a o email role c : keeps (R := R) (on_db Roster) (Workspace.invite_organization_member a o email role c).
Proof. apply keeps_of_done, (keeps_roster (InviteMember a o email role c)). Qed.
Lemma keeps_accept u token c : keeps (R := R) (on_db Roster) (Workspace.accept_organization_invitation u token c).
Proof. apply keeps_of_done, (keeps_roster (AcceptInvitation u token c)). Qed.
Lemma keeps_replace a o m role c : keeps (R := R) (on_db Roster) (Workspace.replace_member_role a o m role c).
Proof. apply keeps_of_done, (keeps_roster (ReplaceMemberRole a o m role c)). Qed.
Lemma keeps_offboard a o m c : keeps (R := R) (on_db Roster) (Workspace.offboard_member a o m c).
Proof. apply (keeps_roster (OffboardMember a o m c)). Qed.
Hint Resolve keeps_create_organization keeps_invite keeps_accept keeps_replace keeps_offboard keeps_revoker_roster : auth.

Lemma endpoint_roster {A} h (c : HttpCall A) :
  match c with POST_privacy_erasures _ _ => False | _ => True end ->
  keeps (R := R) (on_db Roster) (endpoint updated_at h c).
Proof. intros Hc. destruct c; try done; cbn [endpoint]; follow same_roles. Qed.

Remove Hints keeps_create_organization keeps_invite keeps_accept keeps_replace keeps_offboard keeps_revoker_roster : auth.

(** ** The governed requests *)

Section Governed.
Context (staff : list StaffRoleBinding).
Lemma governed_erase rid u ps email now due db : governed_inv staff db ->
  governed_inv staff (PrivacyRepo.erase_account rid u ps email now due db).
Proof.
  intros [Hs Hn Hok]. pose proof (PrivacyProps.erase_tables rid u ps email now due db) as T.
  split; rewrite ?(PrivacyProps.et_governed _ _ _ _ _ _ _ _ T); [|done..].
  rewrite (PrivacyProps.et_staff _ _ _ _ _ _ _ _ T). intros b [Hb _]%elem_of_delete. auto.
Qed.
Lemma keeps_initiate_governed k u t c : keeps (R := R) (on_db (governed_inv staff)) (Recovery.initiate_mfa_reset k u t c).
Proof. apply RecoveryProps.keeps_initiate. Qed.
Lemma keeps_approve_governed k r c : keeps (R := R) (on_db (governed_inv staff)) (Recovery.approve_mfa_reset k r c).
Proof. apply RecoveryProps.keeps_approve. Qed.
Lemma keeps_execute_governed k r c : keeps (R := R) (on_db (governed_inv staff)) (Recovery.execute_mfa_reset k r c).
Proof. apply RecoveryProps.keeps_execute. Qed.
Lemma keeps_revoker_governed u reason : keeps (R := R) (on_db (governed_inv staff)) (Recovery.revoke_access u reason).
Proof. apply RecoveryProps.keeps_revoke_governed. Qed.
Hint Resolve keeps_initiate_governed keeps_approve_governed keeps_execute_governed keeps_revoker_governed : auth.
Ltac same_governed :=
  intros; first [by apply governed_erase | eapply governed_inv_ext; [..|eassumption]; reflexivity].
Lemma endpoint_governed {A} h (c : HttpCall A) : keeps (R := R) (on_db (governed_inv staff)) (endpoint updated_at h c).
Proof. destruct c; cbn [endpoint]; follow same_governed. Qed.
Lemma erasure_governed claims key cid : keeps (R := R) (on_db (governed_inv staff)) (Privacy.request_erasure claims key cid).
Proof. follow same_governed. Qed.
End Governed.

Definition service_inv (staff : list StaffRoleBinding) (db : Db) : Prop :=
  session_inv db /\ Roster db /\ governed_inv staff db.
Lemma endpoint_inv {A} staff h (c : HttpCall A) : keeps (R := R) (on_db (service_inv staff)) (endpoint updated_at h c).
Proof.
  assert (Hc : match c with POST_privacy_erasures _ _ => False | _ => True end ->
    keeps (on_db (service_inv staff)) (endpoint updated_at h c)).
  { intros Hc w (I & J & K). split_and!; [by apply endpoint_sessions|by apply endpoint_roster|by apply endpoint_governed]. }
  destruct c; try (by apply Hc). clear Hc. cbn [endpoint]. unfold HttpPrivacy.request_account_erasure.
  apply keeps_bind; [apply keeps_request_id|]. intros cid. apply keeps_responding; [|intros a; apply keeps_ret].
  apply keeps_bind; [apply keeps_claims|]. intros claims w (I & J & K).
  pose proof (erasure_sessions claims idempotency_key cid w I) as I'.
  pose proof (erasure_governed staff claims idempotency_key cid w K) as K'.
  destruct (Privacy.request_erasure claims idempotency_key cid w) as [x w'] eqn:H.
  split_and!; [done| |done]. by apply (PrivacyProps.request_erasure_roster _ _ _ _ _ _ I J H).
Qed.

(** A request of any client, and the application's answer to it, but for its content. *)
Inductive AnyCall :=
| Call (A : Type) (h : Headers) (c : HttpCall A).
Definition service (q : AnyCall) : prog R unit :=
  match q with Call _ h c => done_ (System.serve updated_at errors_of h c) end.
(** What every endpoint keeps, the service keeps. *)
Lemma keeps_call P q : (forall A h (c : HttpCall A), q = Call A h c -> keeps (on_db P) (endpoint updated_at h c)) ->
  keeps (on_db P) (service q).
Proof.
  intros H. destruct q as [A h c]. apply keeps_bind; [|intros; apply keeps_ret]. unfold System.serve.
  apply keeps_bind; [|intros; apply keeps_ret]. destruct (accepted_by_models c); [by apply H|].
  apply keeps_bind; [apply keeps_request_id|]. intros u. apply keeps_ret.
Qed.
Lemma keeps_service staff q : keeps (on_db (service_inv staff)) (service q).
Proof. apply keeps_call. intros A h c _. apply endpoint_inv. Qed.

(** C3: whatever requests the clients send, to whichever routes, with whatever bodies, headers and
    tokens, in whatever order and at whatever times, and whether they succeed, are refused or fail: the
    session, family and refresh token tables stay well formed; every organization keeps an owner who
    may manage its members; and every governed MFA reset was initiated by a support agent, and
    approved by another person who is a security supervisor before it was executed. *)
Theorem service_invariant requests w :
  session_inv (w_db w) -> Roster (w_db w) -> governed_inv (staff_role_bindings (w_db w)) (w_db w) ->
  let db := w_db (run_at service requests w).2 in
  session_inv db /\ Roster db /\ governed_inv (staff_role_bindings (w_db w)) db /\
  forall o, o ∈ organizations db -> o_workspace_type o = "organization" ->
    exists u, is_Some (account_by_id u db) /\ _has_permission u (o_org_id o) "members.manage" db = true.
Proof.
  intros I J K db. set (staff := staff_role_bindings (w_db w)) in *.
  destruct (keeps_run_at (service_inv staff) service requests w (fun _ _ _ => keeps_service staff _) (conj I (conj J K)))
    as (I' & J' & K').
  fold db in I', J', K'. split_and!; [done..|]. intros o Ho Ht. destruct (ro_owned _ J' o Ho Ht) as [u Hu].
  exists u. pose proof (proj2 (roster_manages db u (o_org_id o) J') Hu) as Hp. split; [|done].
  apply has_permission_held in Hp as (c & _ & _ & Hh). by apply (ro_user _ J') in Hh.
Qed.
End Handlers.
