(* ===== verification/HttpDemo.v ===== *)
(** Concrete requests to the application: the witnesses of the theorems on the boundary and on the whole
    service. *)
From S2P Require Import Prelude PyText Entity Models RedisClient World RedisSecurity Tokens Http System.
From S2P Require Import SessionInv SessionProps SessionControl SessionControlProps SessionDemo WorkspaceInv WorkspaceDemo.
From S2P Require Import RecoveryInv PrivacyDemo HttpProps SystemProps.
From S2P Require HttpSession HttpRegistration HttpLogin HttpMfa HttpRecovery HttpWorkspace HttpPrivacy.

(** What pydantic says of a refused body. *)
Definition some_errors A (c : HttpCall A) : list (list string * string) := [(["body"; "name"], "String should have at least 2 characters")].
Abbreviation answer := (System.serve u_created_at some_errors).
Definition anonymous : Headers := MkHeaders (Some "10.0.0.1") None (Some (uuid_str cid)) None None None.
(** Ann's session of [open_world]. *)
Definition signed_in : Headers :=
  MkHeaders (Some "10.0.0.1") (Some ("Bearer " +:+ bearer)) (Some (uuid_str cid)) None None None.

Definition device : string := "device-fingerprint".
Definition guess : HttpCall HttpLogin.LoginDecisionResponse :=
  POST_login (HttpLogin.MkPasswordLoginRequest "nobody@example.com" "not the password" device).
Definition founding : HttpCall HttpWorkspace.WorkspaceResponse :=
  POST_organizations (HttpWorkspace.MkCreateOrganizationRequest "Acme Labs").
Definition nameless : HttpCall HttpWorkspace.WorkspaceResponse :=
  POST_organizations (HttpWorkspace.MkCreateOrganizationRequest "A").
Definition renewing : HttpCall HttpSession.TokenResponse := POST_refresh (HttpSession.MkRefreshRequest None) WEB device.
Definition history : list (Time * AnyCall) :=
  [(t0 + seconds 10, Call _ anonymous GET_workspaces); (t0 + seconds 11, Call _ anonymous guess);
   (t0 + seconds 12, Call _ signed_in nameless); (t0 + seconds 13, Call _ signed_in founding);
   (t0 + seconds 14, Call _ signed_in POST_logout_all); (t0 + seconds 15, Call _ signed_in founding)].

Definition statuses (l : list (Time * AnyCall)) (w : World mem_redis) : list (exc + Z) :=
  (run_at (fun q => match q with Call _ h c => r ← answer h c; mret (rs_status r) end) l w).1.
(** Without a token, a wrong password, a refused body, a success, the end of every session, and the
    token that was good before. *)
Lemma history_statuses : statuses history privacy_world = [inr 401; inr 401; inr 422; inr 201; inr 200; inr 401].
Proof. vm_compute. reflexivity. Qed.

Lemma privacy_roster : Roster (w_db privacy_world).
Proof. apply (roster_same seed_db); [exact seed_roster|vm_compute; reflexivity..]. Qed.
Lemma no_governed {R} (w : World R) : governed_requests (w_db w) = [] -> governed_inv (staff_role_bindings (w_db w)) (w_db w).
Proof.
  intros H. split; rewrite ?H; [done|constructor|]. intros g Hg. by apply elem_of_nil in Hg.
Qed.
Lemma privacy_governed : governed_inv (staff_role_bindings (w_db privacy_world)) (w_db privacy_world).
Proof. apply no_governed. vm_compute. reflexivity. Qed.

Lemma service_invariant_witness :
  let db := w_db (run_at (service u_created_at some_errors) history privacy_world).2 in
  session_inv db /\ Roster db /\ governed_inv (staff_role_bindings (w_db privacy_world)) db.
Proof.
  destruct (service_invariant u_created_at some_errors history privacy_world privacy_inv privacy_roster privacy_governed)
    as (I & J & K & _).
  split; [exact I|]. split; [exact J|exact K].
Defined.

Abbreviation guessing := (answer anonymous guess privacy_world).
Lemma guess_ok : match guessing.1 with inr _ => true | _ => false end = true.
Proof. vm_compute. reflexivity. Qed.
Lemma answers_well_formed_witness : exists r w', guessing = (inr r, w') /\
  ("Cache-Control", "no-store") ∈ rs_headers r /\ answer_of anonymous guess r.
Proof.
  returned guess_ok r w E. exists r, w. split; [reflexivity|].
  destruct (answers_well_formed _ _ _ _ _ _ _ E) as (Hh & _ & Ha & _). split; [exact Hh|]. apply Ha. reflexivity.
Defined.

Abbreviation intruding := (answer anonymous founding privacy_world).
Lemma intruding_ok : match intruding.1 with inr _ => true | _ => false end = true.
Proof. vm_compute. reflexivity. Qed.
Lemma protected_routes_need_a_token_witness : exists r w', intruding = (inr r, w') /\ untouched privacy_world w'.
Proof.
  returned intruding_ok r w E. exists r, w. split; [reflexivity|].
  assert (Hp : protected founding = true) by reflexivity.
  destruct (protected_routes_need_a_token _ _ _ _ _ _ _ privacy_inv Hp E) as [(claims & B)|[Hw _]]; [|exact Hw].
  destruct (be_token _ _ _ B) as (token & p & Ht & _). discriminate Ht.
Defined.

(** A browser that is signed in. *)
Abbreviation browsing := (create_session "wf" WEB device (Some "10.0.0.1") cid login_world).
Definition browser_world : World mem_redis := soon browsing.2.
Definition browser_headers : Headers :=
  match browsing.1 with
  | inr p => MkHeaders None None None (tp_csrf_token p) (Some (tp_refresh_token p)) (tp_csrf_token p)
  | inl _ => anonymous
  end.
Abbreviation renewal := (answer browser_headers renewing browser_world).
Lemma renewing_ok : match renewal.1 with inr r => match rs_content r with Body _ => true | _ => false end | _ => false end = true.
Proof. vm_compute. reflexivity. Qed.
Lemma browser_tokens_guarded_witness : exists r b w', renewal = (inr r, w') /\ rs_content r = Body b /\
  HttpSession.tr_refresh_token b = None /\ is_Some (head (rs_cookies r)).
Proof.
  pose proof renewing_ok as H. revert H. destruct renewal as [[?|r] w] eqn:E; cbn [fst]; intros H; [discriminate H|].
  destruct (rs_content r) as [p|p l|b|] eqn:Eb; [discriminate H|discriminate H| |discriminate H]. clear H. exists r, b, w.
  pose proof (browser_tokens_guarded _ _ _ _ _ _ _ _ E) as [H _]. rewrite Eb in H.
  destruct H as (_ & _ & Ht & new & rest & Hc & _). split; [reflexivity|]. split; [exact Eb|]. split; [exact Ht|].
  rewrite Hc. by eexists.
Defined.

(** The slug of the organization is taken. *)
Definition taken_world : World mem_redis :=
  privacy_world_with (organizations (w_db (answer signed_in founding privacy_world).2)) open_world.
Lemma colliding_run : (answer signed_in founding taken_world).1 = inl IntegrityError.
Proof. vm_compute. reflexivity. Qed.
Lemma service_errors_answered_witness : exists e w', answer signed_in founding taken_world = (inl e, w') /\ service_error e = false.
Proof.
  pose proof colliding_run as H. revert H. destruct (answer signed_in founding taken_world) as [x w] eqn:E. cbn [fst].
  intros ->. exists IntegrityError, w. split; [reflexivity|]. exact (service_errors_answered _ _ _ _ _ _ _ E).
Defined.
