(* ===== verification/RowSecurity.v ===== *)
(** [infrastructure/persistence/tenant_context.py] and the row level security of migrations 0003, 0008,
    0009, 0010 and 0011, as the last of them leaves it: the context a transaction sets, the policies that
    hold for the database role [auth_app], and the rows a statement of that role sees.

    The policies of a table have the same condition for reading and for writing, but for the audit history.
    A condition that is NULL lets nothing through.  The SECURITY DEFINER functions the policies call read the tables as
    their owner, whom the policies do not bind. *)
From S2P Require Import Prelude PyText Entity Models RedisClient World WorkspaceRepo.

(** The variables [app.current_user_id] and [app.current_org_id] of a transaction; none is set at its start. *)
Record TenantContext := MkTenantContext { current_user : option UUID; current_org : option UUID }.
Definition no_context : TenantContext := MkTenantContext None None.
Definition set_user_context (user_id : UUID) (ctx : TenantContext) : TenantContext :=
  MkTenantContext (Some user_id) (current_org ctx).
Definition set_tenant_context (user_id org_id : UUID) (ctx : TenantContext) : TenantContext :=
  MkTenantContext (current_user (set_user_context user_id ctx)) (Some org_id).

(** [a = b] in SQL, where NULL equals nothing. *)
Definition sql_eq (a b : option UUID) : bool := match a, b with Some x, Some y => x == y | _, _ => false end.

(** [auth.current_user_is_staff] and [auth.current_user_has_staff_role]. *)
Definition current_user_is_staff (ctx : TenantContext) (db : Db) : bool :=
  row_exists (fun s => sql_eq (Some (sb_user_id s)) (current_user ctx) && is_none (sb_revoked_at s)) (staff_role_bindings db).
Definition current_user_has_staff_role (required_role : string) (ctx : TenantContext) (db : Db) : bool :=
  row_exists (fun s => sql_eq (Some (sb_user_id s)) (current_user ctx) && (sb_role s == required_role)
                       && is_none (sb_revoked_at s)) (staff_role_bindings db).
(** [auth.user_has_org_membership] of the current user. *)
Definition current_user_is_member (ctx : TenantContext) (org_id : UUID) (db : Db) : bool :=
  match current_user ctx with Some user_id => user_has_org_membership org_id user_id db | None => false end.

(** ** The policies *)

Definition owned_or_current (ctx : TenantContext) (o : Organization) : bool :=
  ((o_workspace_type o == "personal") && sql_eq (o_personal_owner_user_id o) (current_user ctx))
  || sql_eq (Some (o_org_id o)) (current_org ctx).
Definition organizations_tenant_isolation (ctx : TenantContext) (db : Db) (o : Organization) : bool :=
  owned_or_current ctx o || current_user_is_member ctx (o_org_id o) db.
Definition invitations_tenant_isolation (ctx : TenantContext) (i : Invitation) : bool :=
  sql_eq (Some (in_org_id i)) (current_org ctx).
Definition user_role_bindings_tenant_isolation (ctx : TenantContext) (b : UserRoleBinding) : bool :=
  sql_eq (Some (b_org_id b)) (current_org ctx).
Definition sessions_tenant_isolation (ctx : TenantContext) (s : Session) : bool :=
  sql_eq (s_org_id s) (current_org ctx)
  || (is_none (s_org_id s) && sql_eq (Some (s_user_id s)) (current_user ctx)).
Definition governed_requests_tenant_isolation (ctx : TenantContext) (db : Db) (g : GovernedRequest) : bool :=
  sql_eq (Some (g_target_user_id g)) (current_user ctx) || current_user_is_staff ctx db.
(** WITH CHECK and USING of the audit history. *)
Definition audit_logs_check (ctx : TenantContext) (a : AuditLog) : bool :=
  sql_eq (a_org_id a) (current_org ctx)
  || (is_none (a_org_id a)
      && (sql_eq (a_subject_user_id a) (current_user ctx) || sql_eq (a_actor_user_id a) (current_user ctx))).
Definition audit_logs_tenant_isolation (ctx : TenantContext) (db : Db) (a : AuditLog) : bool :=
  current_user_has_staff_role "SECURITY_SUPERVISOR_L3" ctx db || audit_logs_check ctx a.
Definition referrals_user_isolation (ctx : TenantContext) (r : Referral) : bool :=
  sql_eq (Some (rf_referrer_user_id r)) (current_user ctx) || sql_eq (rf_referred_user_id r) (current_user ctx).
Definition contact_change_requests_user_isolation (ctx : TenantContext) (c : ContactChangeRequest) : bool :=
  sql_eq (Some (c_user_id c)) (current_user ctx).
Definition gdpr_requests_user_isolation (ctx : TenantContext) (g : GDPRRequest) : bool :=
  sql_eq (Some (gq_user_id g)) (current_user ctx).
Definition privacy_export_artifacts_user_isolation (ctx : TenantContext) (a : PrivacyExportArtifact) : bool :=
  sql_eq (Some (pa_user_id a)) (current_user ctx).

(** The database a SELECT of [auth_app] reads. *)
Definition as_auth_app (ctx : TenantContext) (db : Db) : Db :=
  db <| organizations ::= where_ (organizations_tenant_isolation ctx db) |>
     <| invitations ::= where_ (invitations_tenant_isolation ctx) |>
     <| user_role_bindings ::= where_ (user_role_bindings_tenant_isolation ctx) |>
     <| sessions ::= where_ (sessions_tenant_isolation ctx) |>
     <| governed_requests ::= where_ (governed_requests_tenant_isolation ctx db) |>
     <| audit_logs ::= where_ (audit_logs_tenant_isolation ctx db) |>
     <| referrals ::= where_ (referrals_user_isolation ctx) |>
     <| contact_change_requests ::= where_ (contact_change_requests_user_isolation ctx) |>
     <| gdpr_requests ::= where_ (gdpr_requests_user_isolation ctx) |>
     <| privacy_export_artifacts ::= where_ (privacy_export_artifacts_user_isolation ctx) |>.

(** A program every statement of which runs as [auth_app] under one context, where it only reads. *)
Definition reading_as {R A} (ctx : TenantContext) (m : prog R A) : prog R A :=
  fun w => let '(x, w') := m (with_db (as_auth_app ctx (w_db w)) w) in (x, with_db (w_db w) w').

(** ** Operations that change their context on the way

    [list_workspaces] and [get_workspace_access] select the workspaces in the context of the user, and the
    roles in that of each workspace. *)
Section Operations.
Context {R : Type} {E : Env}.

Definition seen_workspaces (user_id : UUID) (ctx : TenantContext) (db : Db) : list Organization :=
  order_by_text text_le o_workspace_type (order_by_text text_le o_name
    (where_ (fun o => (o_state o == "active") && ((o_personal_owner_user_id o == Some user_id)
                      || user_has_org_membership (o_org_id o) user_id db)) (organizations (as_auth_app ctx db)))).
Definition list_workspaces_as_auth_app (user_id : UUID) : prog R (list WorkspaceSummary) :=
  db ← get_db;
  let ctx := set_user_context user_id no_context in
  map_m (fun workspace =>
    _workspace_summary workspace
      (if o_workspace_type workspace == "personal" then ["OWNER"]
       else _roles user_id (o_org_id workspace) (as_auth_app (set_tenant_context user_id (o_org_id workspace) ctx) db)))
    (seen_workspaces user_id ctx db).
Definition get_workspace_access_as_auth_app (user_id workspace_id : UUID) : prog R (option WorkspaceSummary) :=
  db ← get_db;
  let ctx := set_user_context user_id no_context in
  match org_by_id workspace_id (as_auth_app ctx db) with
  | None => mret None
  | Some workspace =>
    if o_state workspace != "active" then mret None
    else if o_workspace_type workspace == "personal" then
      if o_personal_owner_user_id workspace != Some user_id then mret None
      else summary ← _workspace_summary workspace ["OWNER"]; mret (Some summary)
    else match _roles user_id workspace_id (as_auth_app (set_tenant_context user_id workspace_id ctx) db) with
         | [] => mret None
         | roles => summary ← _workspace_summary workspace roles; mret (Some summary)
         end
  end.
End Operations.
