(* ===== verification/RowSecurityProps.v ===== *)
(** What the policies of row level security mean for the repositories that set a context: which reads they
    leave as they are, which writes they let through, and which operations they would stop or blind. *)
From S2P Require Import Prelude PyText Entity Models RedisClient World RowSecurity.
From S2P Require Import WorkspaceRepo WorkspaceInv WorkspaceProps.
From S2P Require SessionRepo PrivacyRepo RecoveryRepo.

(** ** Selections under a policy *)

Section Views.
Context {row : Type}.
Implicit Types (P V : row -> bool) (t : list row).
Lemma where_seen P V t : (forall r, r ∈ t -> P r = true -> V r = true) -> where_ P (where_ V t) = where_ P t.
Proof.
  intros H. rewrite where_where. apply where_ext. intros r Hr. specialize (H r Hr).
  destruct (P r); [by rewrite H|by rewrite andb_false_r].
Qed.
Lemma scalar_seen P V t : (forall r, r ∈ t -> P r = true -> V r = true) -> scalar P (where_ V t) = scalar P t.
Proof.
  unfold scalar, where_. induction t as [|r t IH]; intros H; [done|]. cbn [List.filter List.find].
  assert (IH' : List.find P (List.filter V t) = List.find P t).
  { apply IH. intros r' Hr'. apply H. by apply list_elem_of_further. }
  pose proof (H r (list_elem_of_here r t)) as Hr. destruct (P r) eqn:HP.
  - rewrite Hr by done. cbn [List.find]. by rewrite HP.
  - destruct (V r); cbn [List.find]; by rewrite ?HP.
Qed.
Lemma where_join_seen {B} P (Q : row * B -> bool) V (on : row -> B -> bool) t (m : list B) :
  (forall r, P r = true -> V r = true) ->
  where_ (fun p => P p.1 && Q p) (join_on on (where_ V t) m) = where_ (fun p => P p.1 && Q p) (join_on on t m).
Proof.
  intros H. unfold join_on. induction t as [|r t IH]; [done|]. cbn [where_ List.filter List.flat_map].
  destruct (V r) eqn:HV; cbn [List.flat_map]; rewrite ?where_app; [by f_equal|].
  assert (Hn : where_ (fun p => P p.1 && Q p) (List.map (fun b => (r, b)) (List.filter (on r) m)) = []).
  { apply where_nil. intros p Hp. apply list_elem_of_In, in_map_iff in Hp as (b & <- & _). cbn.
    destruct (P r) eqn:HP; [|done]. specialize (H r HP). congruence. }
  by rewrite Hn.
Qed.

Lemma scalar_no_row P t : (forall r, r ∈ t -> P r = false) -> scalar P t = None.
Proof. intros H. destruct (scalar P t) as [r|] eqn:Er; [|done]. apply scalar_Some in Er as [Hr HP]. by rewrite H in HP. Qed.

(** The rows a policy hides are as they were. *)
Definition untouched V t t' : Prop := where_ (fun r => negb (V r)) t' = where_ (fun r => negb (V r)) t.
Lemma untouched_refl V t : untouched V t t.
Proof. done. Qed.
Lemma untouched_update_in P V (f : row -> row) t :
  (forall r, r ∈ t -> P r = true -> V r = true /\ V (f r) = true) -> untouched V t (update_ P f t).
Proof.
  intros H. unfold untouched, where_, update_. induction t as [|r t IH]; [done|]. cbn [List.map List.filter].
  assert (IH' : List.filter (fun r => negb (V r)) (List.map (fun r => if P r then f r else r) t) = List.filter (fun r => negb (V r)) t).
  { apply IH. intros r' Hr'. apply H. by apply list_elem_of_further. }
  pose proof (H r (list_elem_of_here r t)) as Hr. destruct (P r) eqn:HP; [|by rewrite IH'].
  destruct (Hr eq_refl) as [-> ->]. exact IH'.
Qed.
Lemma untouched_update P V (f : row -> row) t :
  (forall r, P r = true -> V r = true /\ V (f r) = true) -> untouched V t (update_ P f t).
Proof. intros H. apply untouched_update_in. intros r _. apply H. Qed.
Lemma untouched_add V t r : V r = true -> untouched V t (t ++ [r]).
Proof. intros H. unfold untouched. rewrite where_app. unfold where_ at 2. cbn [List.filter]. rewrite H. apply app_nil_r. Qed.
End Views.

(** ** Reads *)

Lemma sql_eq_refl u : sql_eq (Some u) (Some u) = true.
Proof. unfold sql_eq. apply eqb_refl. Qed.

Section Reads.
Context {E : Env} {R : Type}.
Implicit Types (db : Db) (w : World R) (ctx : TenantContext).

Lemma grants_seen P ctx db : (forall b, P b = true -> user_role_bindings_tenant_isolation ctx b = true) ->
  grants P (as_auth_app ctx db) = grants P db.
Proof. intros H. unfold grants. cbn. by apply (where_join_seen P (fun p => rc_active p.2)). Qed.
Lemma binding_in_seen ctx g b : current_org ctx = Some g -> binding_in g b = true ->
  user_role_bindings_tenant_isolation ctx b = true.
Proof.
  unfold binding_in, user_role_bindings_tenant_isolation. intros -> Hb. apply andb_true_iff in Hb as [Hb _].
  apply bool_decide_eq_true in Hb as ->. apply sql_eq_refl.
Qed.
Lemma binding_of_in u g b : binding_of u g b = true -> binding_in g b = true.
Proof. unfold binding_of, binding_in. by intros [[_ ->]%andb_true_iff ->]%andb_true_iff. Qed.
Lemma binding_of_seen ctx u g b : current_org ctx = Some g -> binding_of u g b = true ->
  user_role_bindings_tenant_isolation ctx b = true.
Proof. intros Hg H%binding_of_in. by eapply binding_in_seen. Qed.
Lemma roles_seen ctx u g db : current_org ctx = Some g -> _roles u g (as_auth_app ctx db) = _roles u g db.
Proof. intros H. unfold _roles. rewrite grants_seen; [done|]. intros b. by apply binding_of_seen. Qed.
Lemma permission_seen ctx u g p db : current_org ctx = Some g ->
  _has_permission u g p (as_auth_app ctx db) = _has_permission u g p db.
Proof. intros H. unfold _has_permission. rewrite grants_seen; [done|]. intros b. by apply binding_of_seen. Qed.
Lemma member_rows_seen ctx g db : current_org ctx = Some g -> member_rows g (as_auth_app ctx db) = member_rows g db.
Proof. intros H. unfold member_rows. rewrite grants_seen; [done|]. intros b. by apply binding_in_seen. Qed.

(** A program that neither reads nor writes the world. *)
Definition pure {A} (m : prog R A) : Prop := exists x, forall w, m w = (x, w).
Lemma pure_ret {A} (a : A) : pure (mret a).
Proof. by eexists. Qed.
Lemma pure_raise {A} e : pure (raise e : prog R A).
Proof. by eexists. Qed.
Lemma pure_get_or {A} e (o : option A) : pure (get_or e o).
Proof. destruct o; [apply pure_ret|apply pure_raise]. Qed.
Lemma pure_bind {A B} (m : prog R A) (k : A -> prog R B) : pure m -> (forall a, pure (k a)) -> pure (m ≫= k).
Proof.
  intros [[e|a] Hm] Hk; [|destruct (Hk a) as [y Hy]]; eexists; intros w; unfold mbind, prog_bind; rewrite Hm; [done|apply Hy].
Qed.
Lemma pure_map_m {A B} (f : A -> prog R B) l : (forall a, pure (f a)) -> pure (map_m f l).
Proof.
  intros H. induction l as [|a l IH]; cbn [map_m]; [apply pure_ret|].
  apply pure_bind; [done|]. intros b. apply pure_bind; [done|]. intros bs. apply pure_ret.
Qed.
Lemma map_m_ext {A B} (f g : A -> prog R B) l : (forall a, f a = g a) -> map_m f l = map_m g l.
Proof. intros H. induction l as [|a l IH]; [reflexivity|]. cbn [map_m]. by rewrite H, IH. Qed.
Lemma pure_reading {A} (m : Db -> prog R A) ctx w : (forall db, pure (m db)) ->
  m (as_auth_app ctx (w_db w)) = m (w_db w) -> reading_as ctx (get_db ≫= m) w = (get_db ≫= m) w.
Proof.
  intros Hp He. unfold reading_as.
  transitivity (let '(x, w') := m (as_auth_app ctx (w_db w)) (with_db (as_auth_app ctx (w_db w)) w) in (x, with_db (w_db w) w'));
    [reflexivity|]. rewrite He. transitivity (m (w_db w) w); [|reflexivity].
  destruct (Hp (w_db w)) as [x Hx]. rewrite !Hx. by destruct w.
Qed.

Lemma members_seen ctx u g w : current_org ctx = Some g -> reading_as ctx (list_members u g) w = list_members u g w.
Proof.
  intros Hg. apply pure_reading.
  - intros db. destruct (negb _); [apply pure_ret|]. apply pure_bind; [|intros; apply pure_ret].
    apply pure_map_m. intros p. apply pure_bind; [apply pure_get_or|]. intros. apply pure_ret.
  - by rewrite permission_seen, member_rows_seen.
Qed.
Lemma privacy_request_seen ctx u r w : current_user ctx = Some u ->
  reading_as ctx (PrivacyRepo.get_privacy_request u r) w = PrivacyRepo.get_privacy_request u r w.
Proof.
  intros Hu. apply pure_reading; [intros; apply pure_ret|]. do 2 f_equal. apply scalar_seen. intros g _ Hg.
  apply andb_true_iff in Hg as [_ Hg%bool_decide_eq_true]. unfold gdpr_requests_user_isolation. rewrite Hu, Hg. apply sql_eq_refl.
Qed.
Lemma artifact_seen ctx u r t w : current_user ctx = Some u ->
  reading_as ctx (PrivacyRepo.get_export_artifact u r t) w = PrivacyRepo.get_export_artifact u r t w.
Proof.
  intros Hu. apply pure_reading; [intros; apply pure_ret|]. do 2 f_equal. apply scalar_seen. intros a _ Ha.
  apply andb_true_iff in Ha as [[_ Ha%bool_decide_eq_true]%andb_true_iff _].
  unfold privacy_export_artifacts_user_isolation. rewrite Hu, Ha. apply sql_eq_refl.
Qed.

(** The workspaces of a user are visible to the user. *)
Lemma own_workspace_seen u o db : organization_valid o = true -> o_personal_owner_user_id o = Some u ->
  organizations_tenant_isolation (set_user_context u no_context) db o = true.
Proof.
  intros Hv Ho. unfold organization_valid in Hv. apply andb_true_iff in Hv as [_ Hv]. rewrite Ho in Hv. cbn [is_some is_none] in Hv.
  rewrite andb_true_r, andb_false_r, orb_false_r in Hv.
  unfold organizations_tenant_isolation, owned_or_current. cbn [current_user set_user_context]. by rewrite Hv, Ho, sql_eq_refl.
Qed.
Lemma member_workspace_seen u o db : user_has_org_membership (o_org_id o) u db = true ->
  organizations_tenant_isolation (set_user_context u no_context) db o = true.
Proof. intros H. unfold organizations_tenant_isolation, current_user_is_member. cbn [current_user set_user_context]. by rewrite H, orb_true_r. Qed.
Lemma workspaces_seen u w : (forall o, o ∈ organizations (w_db w) -> organization_valid o = true) ->
  list_workspaces_as_auth_app u w = list_workspaces u w.
Proof.
  intros Hv. unfold list_workspaces_as_auth_app, list_workspaces.
  assert (Hs : seen_workspaces u (set_user_context u no_context) (w_db w) = listed_workspaces u (w_db w)).
  { unfold seen_workspaces, listed_workspaces. do 2 f_equal. apply where_seen. intros o Ho Hp.
    apply andb_true_iff in Hp as [_ [Hp%bool_decide_eq_true|Hp]%orb_true_iff];
      [by apply own_workspace_seen; [apply Hv|]|by apply member_workspace_seen]. }
  transitivity (map_m (fun workspace => _workspace_summary workspace (if o_workspace_type workspace == "personal" then ["OWNER"]
    else _roles u (o_org_id workspace) (as_auth_app (set_tenant_context u (o_org_id workspace) (set_user_context u no_context)) (w_db w))))
    (seen_workspaces u (set_user_context u no_context) (w_db w)) w); [reflexivity|].
  rewrite Hs. transitivity (map_m (fun workspace => _workspace_summary workspace (if o_workspace_type workspace == "personal"
    then ["OWNER"] else _roles u (o_org_id workspace) (w_db w))) (listed_workspaces u (w_db w)) w); [|reflexivity].
  apply (f_equal (fun m : prog R _ => m w)), map_m_ext. intros o. by rewrite (roles_seen _ u (o_org_id o)).
Qed.
Lemma roles_member u g db : _roles u g db <> [] -> user_has_org_membership g u db = true.
Proof.
  intros H. destruct (_roles u g db) as [|r l] eqn:Hr; [done|].
  assert (Hin : r ∈ _roles u g db) by (rewrite Hr; by left).
  apply elem_of_roles in Hin as (c & _ & _ & b & Hb & HP & _). apply row_exists_true. exists b. split; [done|].
  unfold binding_of in HP. apply andb_true_iff in HP as [[-> ->]%andb_true_iff ->]. done.
Qed.
Lemma org_seen u g db : NoDup (List.map o_org_id (organizations db)) ->
  let ctx := set_user_context u no_context in
  org_by_id g (as_auth_app ctx db)
  = match org_by_id g db with
    | Some o => if organizations_tenant_isolation ctx db o then Some o else None
    | None => None
    end.
Proof.
  intros Hn ctx. unfold org_by_id. cbn [organizations as_auth_app]. destruct (scalar _ (organizations db)) as [o|] eqn:Eo.
  - apply scalar_Some in Eo as [Ho Hg]. destruct (organizations_tenant_isolation ctx db o) eqn:Ev.
    + apply scalar_unique; [by apply elem_of_where|done|]. intros o' [Ho' _]%elem_of_where Hg'.
      apply bool_decide_eq_true in Hg, Hg'. apply (nodup_key o_org_id _ _ _ Hn); congruence.
    + apply scalar_no_row. intros o' [Ho' Hv']%elem_of_where. apply bool_decide_eq_false. intros Hg'.
      apply bool_decide_eq_true in Hg. assert (o' = o) as -> by (apply (nodup_key o_org_id _ _ _ Hn); congruence). congruence.
  - apply scalar_no_row. intros o' [Ho' _]%elem_of_where. by apply (scalar_None _ _ _ Eo).
Qed.
Lemma access_seen u g w : NoDup (List.map o_org_id (organizations (w_db w))) ->
  (forall o, o ∈ organizations (w_db w) -> organization_valid o = true) ->
  get_workspace_access_as_auth_app u g w = get_workspace_access u g w.
Proof.
  intros Hn Hv. unfold get_workspace_access_as_auth_app, get_workspace_access.
  rewrite !(run_bind get_db _ w (w_db w) w) by reflexivity. cbv zeta. rewrite org_seen by done.
  destruct (org_by_id g (w_db w)) as [o|] eqn:Eo; [|done]. apply scalar_Some in Eo as [Ho Hg%bool_decide_eq_true].
  destruct (organizations_tenant_isolation _ _ o) eqn:Ev.
  - destruct (o_state o != "active"); [done|]. destruct (o_workspace_type o == "personal"); [done|]. by rewrite roles_seen.
  - destruct (o_state o != "active"); [done|]. destruct (o_workspace_type o == "personal") eqn:Et.
    + destruct (o_personal_owner_user_id o != Some u) eqn:Eu; [done|]. apply negb_false_iff, bool_decide_eq_true in Eu.
      rewrite own_workspace_seen in Ev by auto. done.
    + destruct (_roles u g (w_db w)) as [|r l] eqn:Er; [done|].
      rewrite member_workspace_seen in Ev; [done|]. rewrite Hg. apply roles_member. by rewrite Er.
Qed.
End Reads.

(** C28: run as the database role [auth_app], with the contexts the code sets, the operations that list the
    workspaces of a user, look one up, list its members and read a privacy request or an export return
    exactly what they return on the whole database: the policies hide no row their conditions select. *)
Theorem reads_survive_row_security `{!Env} {R : Type} u g (w : World R) :
  NoDup (List.map o_org_id (organizations (w_db w))) ->
  (forall o, o ∈ organizations (w_db w) -> organization_valid o = true) ->
  list_workspaces_as_auth_app u w = list_workspaces u w /\
  get_workspace_access_as_auth_app u g w = get_workspace_access u g w /\
  reading_as (set_tenant_context u g no_context) (list_members u g) w = list_members u g w /\
  forall request now, reading_as (set_user_context u no_context) (PrivacyRepo.get_privacy_request u request) w
    = PrivacyRepo.get_privacy_request u request w /\
  reading_as (set_user_context u no_context) (PrivacyRepo.get_export_artifact u request now) w
    = PrivacyRepo.get_export_artifact u request now w.
Proof.
  intros Hn Hv. split; [by apply workspaces_seen|]. split; [by apply access_seen|]. split; [by apply members_seen|].
  intros request now. split; [by apply privacy_request_seen|by apply artifact_seen].
Qed.

(** ** Writes *)

(** What [auth_app] may not write is as it was: the rows the policies hide in this context, and the tables
    it may only read.  Of the workspaces, only the personal one and the current one count as the context's own. *)
Record confined (ctx : TenantContext) (db db' : Db) : Prop := {
  cf_organizations : untouched (owned_or_current ctx) (organizations db) (organizations db');
  cf_invitations : untouched (invitations_tenant_isolation ctx) (invitations db) (invitations db');
  cf_bindings : untouched (user_role_bindings_tenant_isolation ctx) (user_role_bindings db) (user_role_bindings db');
  cf_sessions : untouched (sessions_tenant_isolation ctx) (sessions db) (sessions db');
  cf_audit : untouched (audit_logs_check ctx) (audit_logs db) (audit_logs db');
  cf_referrals : untouched (referrals_user_isolation ctx) (referrals db) (referrals db');
  cf_contacts : untouched (contact_change_requests_user_isolation ctx) (contact_change_requests db) (contact_change_requests db');
  cf_gdpr : untouched (gdpr_requests_user_isolation ctx) (gdpr_requests db) (gdpr_requests db');
  cf_artifacts : untouched (privacy_export_artifacts_user_isolation ctx) (privacy_export_artifacts db) (privacy_export_artifacts db');
  cf_governed : governed_requests db' = governed_requests db;
  cf_catalog : role_permission_catalog db' = role_permission_catalog db;
  cf_staff : staff_role_bindings db' = staff_role_bindings db }.
#[export] Instance confined_pre ctx : PreOrder (confined ctx).
Proof.
  split; [by split|]. intros a b c [] []. split; unfold untouched in *; congruence.
Qed.

Section Writes.
Context {E : Env} {R : Type}.
Implicit Types (db : Db) (w : World R) (ctx : TenantContext).

(** The program leaves what the context does not own. *)
Definition stays_in {A} ctx (m : prog R A) w : Prop := confined ctx (w_db w) (w_db (m w).2).
Lemma stays_keeps {A} ctx (m : prog R A) w : keeps (on_db (confined ctx (w_db w))) m -> stays_in ctx m w.
Proof. intros H. apply (H w). unfold on_db. reflexivity. Qed.
Lemma stays_tx {A} ctx (m : prog R A) w : stays_in ctx m w -> stays_in ctx (tx m) w.
Proof. unfold stays_in, tx. destruct (m w) as [[e|a] w']; [intros _; reflexivity|done]. Qed.
Lemma stays_bind {A B} ctx (m : prog R A) (k : A -> prog R B) w a w1 : m w = (inr a, w1) -> w_db w1 = w_db w ->
  stays_in ctx (k a) w1 -> stays_in ctx (m ≫= k) w.
Proof. unfold stays_in. intros Hm Hw H. rewrite (run_bind _ _ _ _ _ Hm). by rewrite <- Hw. Qed.
Lemma stays_seq {A B} ctx (m : prog R A) (k : A -> prog R B) w : stays_in ctx m w ->
  (forall a w1, m w = (inr a, w1) -> stays_in ctx (k a) w1) -> stays_in ctx (m ≫= k) w.
Proof.
  unfold stays_in, mbind, prog_bind. destruct (m w) as [[e|a] w1]; [done|]. intros Hm Hk. etransitivity; [exact Hm|]. by apply Hk.
Qed.
Lemma stays_raise {A} ctx e w : stays_in ctx (raise e : prog R A) w.
Proof. unfold stays_in. reflexivity. Qed.
Lemma stays_bind_raise {A B} ctx e (k : A -> prog R B) w : stays_in ctx (raise e ≫= k) w.
Proof. unfold stays_in. reflexivity. Qed.

Lemma audit_seen ctx actor org a : current_user ctx = Some actor ->
  (org = None \/ current_org ctx = org) -> a_actor_user_id a = Some actor -> a_org_id a = org -> audit_logs_check ctx a = true.
Proof.
  unfold audit_logs_check. intros Hu Ho -> ->. rewrite Hu. destruct org as [g|]; cbn [is_none].
  - destruct Ho as [?|Ho]; [done|]. by rewrite Ho, sql_eq_refl.
  - by rewrite sql_eq_refl, !orb_true_r.
Qed.
Lemma confined_audit ctx db0 actor org event c metadata : current_user ctx = Some actor ->
  (org = None \/ current_org ctx = org) ->
  keeps (on_db (confined ctx db0)) (workspace_audit (R := R) event c actor org metadata).
Proof.
  intros Hu Ho. keeps_all. apply keeps_add_row. intros db Hdb _ _. etransitivity; [exact Hdb|].
  split; try reflexivity. apply untouched_add. by eapply audit_seen.
Qed.
Lemma confined_binding ctx db0 u g by_ t catalog : current_org ctx = Some g ->
  keeps (on_db (confined ctx db0)) (insert_binding (R := R) u g by_ t catalog).
Proof.
  intros Hg. keeps_all. apply keeps_add_row. intros db Hdb _ _. etransitivity; [exact Hdb|].
  split; try reflexivity. apply untouched_add. unfold user_role_bindings_tenant_isolation. rewrite Hg. apply sql_eq_refl.
Qed.
Lemma confined_bindings ctx db0 u g now : current_org ctx = Some g ->
  keeps (on_db (confined ctx db0)) (modify_db (set_bindings (binding_of u g) (binding_revoked now)) : prog R unit).
Proof.
  intros Hg. apply keeps_modify_db. intros db H. etransitivity; [exact H|]. split; try reflexivity.
  apply untouched_update. intros b Hb. pose proof (binding_of_seen ctx u g b Hg Hb). done.
Qed.
Lemma confined_invitations ctx db0 g P f : current_org ctx = Some g ->
  (forall i, P i = true -> in_org_id i = g) -> (forall i, in_org_id (f i) = in_org_id i) ->
  keeps (on_db (confined ctx db0)) (modify_db (set_invitations P f) : prog R unit).
Proof.
  intros Hg HP Hf. apply keeps_modify_db. intros db H. etransitivity; [exact H|]. split; try reflexivity.
  apply untouched_update. intros i Hi. unfold invitations_tenant_isolation. rewrite Hf, (HP i Hi), Hg. by rewrite sql_eq_refl.
Qed.
Lemma confined_referrals ctx db0 u P state : current_user ctx = Some u ->
  (forall r, P r = true -> rf_referrer_user_id r = u) ->
  keeps (on_db (confined ctx db0)) (modify_db (set_referrals P (referral_in_state state)) : prog R unit).
Proof.
  intros Hu HP. apply keeps_modify_db. intros db H. etransitivity; [exact H|]. split; try reflexivity.
  apply untouched_update. intros r Hr. unfold referrals_user_isolation. cbn. rewrite (HP r Hr), Hu. by rewrite eqb_refl.
Qed.
Lemma invited_by_user u r : invited_by u r = true -> rf_referrer_user_id r = u.
Proof. unfold invited_by. by intros [H%bool_decide_eq_true _]%andb_true_iff. Qed.
End Writes.
#[local] Hint Resolve confined_audit confined_binding confined_bindings : auth.

Section Operations.
Context {E : Env} {R : Type}.
Implicit Types (db : Db) (w : World R) (ctx : TenantContext).

Lemma referral_writes u email h t c w : stays_in (set_user_context u no_context) (create_referral u email h t c) w.
Proof.
  apply stays_keeps. keeps_all.
  - apply (confined_referrals _ _ u); [done|]. intros r Hr. apply andb_true_iff in Hr as [Hr _]. by apply invited_by_user.
  - apply keeps_add_row. intros db Hdb _ _. etransitivity; [exact Hdb|]. split; try reflexivity. apply untouched_add.
    unfold referrals_user_isolation. cbn. by rewrite eqb_refl.
Qed.
Lemma referral_revocation_writes u r w : stays_in (set_user_context u no_context) (revoke_referral u r) w.
Proof.
  apply stays_keeps. keeps_all. apply (confined_referrals _ _ u); [done|]. intros x Hx. apply andb_true_iff in Hx as [_ Hx]. by apply invited_by_user.
Qed.
Lemma referral_listing_writes u now w : stays_in (set_user_context u no_context) (list_referrals u now) w.
Proof.
  apply stays_keeps. keeps_all. apply (confined_referrals _ _ u); [done|]. intros x Hx. apply andb_true_iff in Hx as [Hx _]. by apply invited_by_user.
Qed.
Lemma invitation_writes u g email role h t c w :
  stays_in (set_tenant_context u g no_context) (create_organization_invitation u g email role h t c) w.
Proof.
  apply stays_keeps. keeps_all.
  - apply (confined_invitations _ _ g); [done| |done]. intros i Hi. unfold pending_for in Hi.
    by apply andb_true_iff in Hi as [[Hi%bool_decide_eq_true _]%andb_true_iff _].
  - apply keeps_add_row. intros db Hdb _ _. etransitivity; [exact Hdb|]. split; try reflexivity. apply untouched_add.
    unfold invitations_tenant_isolation. cbn. apply eqb_refl.
Qed.
Lemma invitation_revocation_writes u g i w :
  stays_in (set_tenant_context u g no_context) (revoke_organization_invitation u g i) w.
Proof.
  apply stays_keeps. keeps_all. apply (confined_invitations _ _ g); [done| |done]. intros x Hx.
  by apply andb_true_iff in Hx as [[[_ Hx%bool_decide_eq_true]%andb_true_iff _]%andb_true_iff _].
Qed.
Lemma role_writes u g m role now c w :
  stays_in (set_tenant_context u g no_context) (replace_member_role u g m role now c) w.
Proof.
  apply stays_keeps. keeps_all.
Qed.
(** The rows of the sessions in [l] are ones the caller may see, and so they stay while their scope is taken away. *)
Definition unscoping u ctx (l : list Session) db0 db : Prop :=
  confined ctx db0 db /\ forall s, s ∈ sessions db -> s_session_id s ∈ List.map s_session_id l ->
    s_user_id s = u /\ sessions_tenant_isolation ctx s = true.
Lemma own_session_seen u g s : s_org_id s = None -> s_user_id s = u ->
  sessions_tenant_isolation (set_tenant_context u g no_context) s = true.
Proof. intros Ho <-. unfold sessions_tenant_isolation. rewrite Ho. apply sql_eq_refl. Qed.
Lemma keeps_unscoped u g l db0 s jti now : s ∈ l ->
  keeps (on_db (unscoping u (set_tenant_context u g no_context) l db0))
    (modify_db (SessionRepo.set_session (s_session_id s) (unscoped jti now)) : prog R unit).
Proof.
  intros Hs. apply keeps_modify_db. intros db [Hc Hl].
  assert (Hid : s_session_id s ∈ List.map s_session_id l) by (apply elem_of_map; by exists s).
  split.
  - etransitivity; [exact Hc|]. split; try reflexivity. apply untouched_update_in.
    intros r Hr He%bool_decide_eq_true. rewrite <- He in Hid. destruct (Hl r Hr Hid) as [Hu Hv].
    split; [done|by apply own_session_seen].
  - intros s' (r & Hr & ->)%elem_of_update. destruct (s_session_id r == s_session_id s) eqn:He; [|by apply Hl].
    apply bool_decide_eq_true in He. rewrite <- He in Hid. destruct (Hl r Hr Hid) as [Hu _].
    intros _. split; [done|by apply own_session_seen].
Qed.
Lemma keeps_for_in {A} P (l : list A) (body : A -> prog R unit) :
  (forall a, a ∈ l -> keeps P (body a)) -> keeps P (for_ l body).
Proof.
  induction l as [|a l IH]; intros H; cbn; [apply keeps_ret|].
  apply keeps_bind; [apply H; by left|]. intros _. apply IH. intros b Hb. apply H. by right.
Qed.
Lemma offboarding_writes u g m now c w : NoDup (List.map s_session_id (sessions (w_db w))) ->
  (forall s, s ∈ sessions (w_db w) -> scoped_to m g s = true -> m = u) ->
  stays_in (set_tenant_context u g no_context) (offboard_member u g m now c) w.
Proof.
  intros Hn Hm. apply stays_tx. eapply stays_bind; [reflexivity..|]. case_match; [apply stays_keeps; keeps_all|].
  case_match; [apply stays_keeps; keeps_all|]. apply stays_seq; [apply stays_keeps; keeps_all|]. intros [] w1 H1.
  assert (w1 = w) as -> by (revert H1; unfold raise_if; case_match; by intros [=]). clear H1.
  set (scoped := where_ (scoped_to m g) (sessions (w_db w))). set (ctx := set_tenant_context u g no_context).
  match goal with |- stays_in _ ?p _ => assert (Hk : keeps (on_db (unscoping u ctx scoped (w_db w))) p) end.
  { apply keeps_bind; [|intros _; apply keeps_bind; [|intros _]].
    - apply keeps_modify_db. intros db [Hc Hl]. split; [|exact Hl]. etransitivity; [exact Hc|]. split; try reflexivity.
      apply untouched_update. intros b Hb. by pose proof (binding_of_seen ctx m g b eq_refl Hb).
    - apply keeps_for_in. intros se Hse. apply keeps_bind; [apply keeps_uuid4|]. intros jti. by apply keeps_unscoped.
    - keeps_all. apply keeps_add_row. intros db [Hc Hl] _ _. split; [|exact Hl]. etransitivity; [exact Hc|].
      split; try reflexivity. apply untouched_add. eapply audit_seen; [reflexivity|by right|done..]. }
  apply (Hk w). split; [reflexivity|]. intros s1 Hs (s0 & Hs0 & Hid)%elem_of_map. apply elem_of_where in Hs0 as [Hs0 Hsc].
  assert (s1 = s0) as -> by (by apply (nodup_key s_session_id _ _ _ Hn)). rewrite <- (Hm s0 Hs0 Hsc).
  unfold scoped_to in Hsc. apply andb_true_iff in Hsc as [[Hu%bool_decide_eq_true Ho%bool_decide_eq_true]%andb_true_iff _].
  split; [done|]. unfold sessions_tenant_isolation. by rewrite Ho, sql_eq_refl.
Qed.
Lemma personal_writes u w : stays_in (set_user_context u no_context) (ensure_personal_workspace u) w.
Proof.
  apply stays_tx. eapply stays_bind; [reflexivity..|]. destruct (scalar _ _) as [o|]; [apply stays_keeps; keeps_all|].
  destruct (account_by_id u (w_db w)) as [user|] eqn:Eu; [|apply stays_bind_raise].
  apply scalar_Some in Eu as [_ Eu%bool_decide_eq_true]. cbn [get_or]. eapply stays_bind; [reflexivity..|].
  apply stays_keeps. keeps_all. apply keeps_add_row. intros db Hdb _ _. etransitivity; [exact Hdb|].
  split; try reflexivity. apply untouched_add. unfold owned_or_current. cbn. by rewrite Eu, !eqb_refl.
Qed.
Lemma organization_writes u name slug c w :
  stays_in (set_tenant_context u (uuid4 (w_seed w)) no_context) (create_organization u name slug c) w.
Proof.
  apply stays_tx. eapply stays_bind; [reflexivity..|]. change (w_seed w) with (w_seed w) at 1.
  apply stays_keeps. keeps_all. apply keeps_add_row. intros db Hdb _ _. etransitivity; [exact Hdb|].
  split; try reflexivity. apply untouched_add. unfold owned_or_current. cbn. by rewrite eqb_refl.
Qed.
Lemma acceptance_writes u h now c g w : NoDup (List.map in_token_hash (invitations (w_db w))) ->
  NoDup (List.map in_invitation_id (invitations (w_db w))) ->
  organization_invitation_org h (w_now w) (w_db w) = Some g ->
  stays_in (set_tenant_context u g no_context) (accept_organization_invitation u h now c) w.
Proof.
  intros Hn Hk Hg. apply stays_tx. do 2 (eapply stays_bind; [reflexivity..|]). rewrite Hg.
  destruct (scalar _ (invitations _)) as [i|] eqn:Ei; [|apply stays_keeps; keeps_all].
  assert (Hi : in_org_id i = g).
  { unfold organization_invitation_org in Hg. destruct (scalar _ _) as [j|] eqn:Ej in Hg; [|discriminate Hg]. injection Hg as <-.
    apply scalar_Some in Ei as [Hi Ei%bool_decide_eq_true]. apply scalar_Some in Ej as [Hj Ej].
    apply andb_true_iff in Ej as [[Ej%bool_decide_eq_true _]%andb_true_iff _].
    f_equal. apply (nodup_key in_token_hash _ _ _ Hn); congruence. }
  subst g. destruct (account_by_id u _) as [user|]; [|apply stays_keeps; keeps_all].
  destruct (negb _); [apply stays_keeps; keeps_all|]. destruct (grantable i) as [role|]; [|apply stays_keeps; keeps_all].
  destruct (_roles _ _ _); [|apply stays_keeps; keeps_all].
  destruct (_catalog_for_role _ _) as [|r l]; [apply stays_keeps; keeps_all|]. apply stays_seq; [apply stays_keeps; keeps_all|].
  intros [] w1 Hw1.
  assert (Hsame : invitations (w_db w1) = invitations (w_db w)).
  { assert (Hf : keeps (on_db (fun db => invitations db = invitations (w_db w)))
        (for_ (r :: l) (insert_binding (R := R) u (in_org_id i) (in_issued_by_user_id i) (w_now w)))).
    { keeps_all. apply keeps_add_row. by intros db Hdb _ _. }
    specialize (Hf w eq_refl). by rewrite Hw1 in Hf. }
  apply stays_seq.
  - unfold stays_in. cbn. split; try reflexivity. apply untouched_update_in. rewrite Hsame. intros j Hj Hid%bool_decide_eq_true.
    apply scalar_Some in Ei as [Hi _]. rewrite (nodup_key in_invitation_id _ j i Hk Hj Hi Hid).
    unfold invitations_tenant_isolation. cbn. by rewrite eqb_refl.
  - intros [] w2 _. apply stays_keeps. keeps_all.
Qed.

Lemma unknown_acceptance_writes u h now c w : organization_invitation_org h (w_now w) (w_db w) = None ->
  stays_in (set_user_context u no_context) (accept_organization_invitation u h now c) w.
Proof.
  intros Hg. apply stays_tx. do 2 (eapply stays_bind; [reflexivity..|]). rewrite Hg. apply stays_keeps. keeps_all.
Qed.

(** Audit rows of the other repositories name the user of the context as their actor. *)
Lemma confined_insert_audit ctx db0 actor subject event outcome c metadata : current_user ctx = Some actor ->
  keeps (on_db (confined ctx db0)) (insert_audit (R := R) (Some actor) subject None event outcome c metadata).
Proof.
  intros Hu. keeps_all. apply keeps_add_row. intros db Hdb _ _. etransitivity; [exact Hdb|].
  split; try reflexivity. apply untouched_add. eapply audit_seen; [exact Hu|by left|done..].
Qed.
#[local] Hint Resolve confined_insert_audit : auth.
Lemma confined_cancel u ty db0 :
  keeps (on_db (confined (set_user_context u no_context) db0)) (modify_db (RecoveryRepo.cancel_changes u ty) : prog R unit).
Proof.
  apply keeps_modify_db. intros db Hdb. etransitivity; [exact Hdb|]. split; try reflexivity. apply untouched_update.
  intros c [[Hc%bool_decide_eq_true _]%andb_true_iff _]%andb_true_iff. unfold contact_change_requests_user_isolation.
  split; [by rewrite Hc, sql_eq_refl|]. change (sql_eq (Some (c_user_id c)) (Some u) = true). by rewrite Hc, sql_eq_refl.
Qed.
Lemma contact_writes u ty v h1 h2 t c w :
  stays_in (set_user_context u no_context) (RecoveryRepo.create_contact_change u ty v h1 h2 t c) w.
Proof.
  apply stays_keeps. keeps_all; try by apply confined_cancel. all: apply keeps_add_row; intros db Hdb _ _; etransitivity; [exact Hdb|];
    split; try reflexivity; apply untouched_add, sql_eq_refl.
Qed.
Lemma confined_gdpr u db0 g : gq_user_id g = u ->
  keeps (on_db (confined (set_user_context u no_context) db0)) (add_row gdpr_requests gdpr_valid gdpr_conflict g : prog R unit).
Proof.
  intros Hg. apply keeps_add_row. intros db Hdb _ _. etransitivity; [exact Hdb|]. split; try reflexivity.
  apply untouched_add. unfold gdpr_requests_user_isolation. rewrite Hg. apply sql_eq_refl.
Qed.
Lemma export_writes u h t c w : stays_in (set_user_context u no_context) (PrivacyRepo.get_or_create_export u h t c) w.
Proof.
  apply stays_keeps. keeps_all. by apply confined_gdpr.
Qed.
Lemma erasure_writes u h c w : stays_in (set_user_context u no_context) (PrivacyRepo.get_or_create_erasure u h c) w.
Proof.
  apply stays_keeps. keeps_all. by apply confined_gdpr.
Qed.
Lemma review_writes u filters cursor n c w : stays_in (set_user_context u no_context) (PrivacyRepo.search_audit_logs u filters cursor n c) w.
Proof.
  apply stays_keeps. keeps_all.
Qed.

(** The operations that write to the workspaces, and those that start a contact change, a privacy request
    or a review of the history, each with the context it sets. *)
Inductive context_write w : TenantContext -> forall {A}, prog R A -> Prop :=
| ww_personal u : context_write w (set_user_context u no_context) (ensure_personal_workspace u)
| ww_create u name slug c :
    context_write w (set_tenant_context u (uuid4 (w_seed w)) no_context) (create_organization u name slug c)
| ww_refer u email h t c : context_write w (set_user_context u no_context) (create_referral u email h t c)
| ww_unrefer u r : context_write w (set_user_context u no_context) (revoke_referral u r)
| ww_referrals u now : context_write w (set_user_context u no_context) (list_referrals u now)
| ww_invite u g email role h t c :
    context_write w (set_tenant_context u g no_context) (create_organization_invitation u g email role h t c)
| ww_uninvite u g i : context_write w (set_tenant_context u g no_context) (revoke_organization_invitation u g i)
| ww_accept u h now c g : organization_invitation_org h (w_now w) (w_db w) = Some g ->
    context_write w (set_tenant_context u g no_context) (accept_organization_invitation u h now c)
| ww_accept_none u h now c : organization_invitation_org h (w_now w) (w_db w) = None ->
    context_write w (set_user_context u no_context) (accept_organization_invitation u h now c)
| ww_role u g m role now c : context_write w (set_tenant_context u g no_context) (replace_member_role u g m role now c)
| ww_offboard u g m now c : NoDup (List.map s_session_id (sessions (w_db w))) ->
    (forall s, s ∈ sessions (w_db w) -> scoped_to m g s = true -> m = u) ->
    context_write w (set_tenant_context u g no_context) (offboard_member u g m now c)
| ww_contact u ty v h1 h2 t c :
    context_write w (set_user_context u no_context) (RecoveryRepo.create_contact_change u ty v h1 h2 t c)
| ww_export u h t c : context_write w (set_user_context u no_context) (PrivacyRepo.get_or_create_export u h t c)
| ww_erasure u h c : context_write w (set_user_context u no_context) (PrivacyRepo.get_or_create_erasure u h c)
| ww_review u filters cursor n c :
    context_write w (set_user_context u no_context) (PrivacyRepo.search_audit_logs u filters cursor n c).

(** C27: the writes of the workspace repository, of a new contact change or privacy request, and of an audit review
    stay within the context their operation sets: the rows the policies hide are the same rows afterwards, no new or
    changed row falls outside the policies, and the tables the application role may only read are as they were.  The
    one exception is to offboard somebody else who has a session, not revoked, scoped to the organization: the policies
    refuse its row (the next section).  Offboarding oneself, or a member without such a session, is confined too. *)
Theorem writes_stay_in_context ctx {A} (m : prog R A) w : context_write w ctx m ->
  NoDup (List.map in_token_hash (invitations (w_db w))) -> NoDup (List.map in_invitation_id (invitations (w_db w))) ->
  confined ctx (w_db w) (w_db (m w).2).
Proof.
  intros [] Hh Hi; [apply personal_writes|apply organization_writes|apply referral_writes|apply referral_revocation_writes
    |apply referral_listing_writes|apply invitation_writes|apply invitation_revocation_writes
    |by apply acceptance_writes|by apply unknown_acceptance_writes|apply role_writes|by apply offboarding_writes|apply contact_writes|apply export_writes|apply erasure_writes
    |apply review_writes].
Qed.
End Operations.

(** ** Operations the policies would stop or blind

    The session repository sets no context at all; the erasure of an account sets that of its user. *)

Section Limits.
Context {E : Env} {R : Type}.
Implicit Types (db : Db) (w : World R).

Lemma sql_eq_none a : sql_eq a None = false.
Proof. by destruct a. Qed.
Lemma session_without_context s : sessions_tenant_isolation no_context s = false.
Proof. unfold sessions_tenant_isolation. cbn [current_org current_user no_context]. by rewrite !sql_eq_none, andb_false_r. Qed.
Lemma bindings_unseen u db : user_role_bindings (as_auth_app (set_user_context u no_context) db) = [].
Proof. apply where_nil. intros b _. apply sql_eq_none. Qed.
Lemma ownership_unseen u db : PrivacyRepo._has_sole_owned_organization u (as_auth_app (set_user_context u no_context) db) = false.
Proof. unfold PrivacyRepo._has_sole_owned_organization, PrivacyRepo.owner_binding. by rewrite bindings_unseen. Qed.

Lemma offboarded_ids a o m now c w x w' : offboard_member a o m now c w = (x, w') ->
  List.map s_session_id (sessions (w_db w')) = List.map s_session_id (sessions (w_db w)).
Proof.
  intros H. assert (Hk : keeps (on_db (fun db => List.map s_session_id (sessions db) = List.map s_session_id (sessions (w_db w))))
    (offboard_member (R := R) a o m now c)).
  { keeps_all; first [apply keeps_modify_db; intros db Hdb | apply keeps_add_row; intros db Hdb _ _]; try exact Hdb.
    rewrite <- Hdb. cbn. unfold update_. rewrite map_map. apply map_ext. intros row. by destruct (s_session_id row == _). }
  specialize (Hk w eq_refl). by rewrite H in Hk.
Qed.
Lemma offboarding_leaves_tenant a o m now c r w w' s : offboard_member a o m now c w = (inr (Some r), w') ->
  NoDup (List.map s_session_id (sessions (w_db w))) -> m <> a -> s ∈ sessions (w_db w) -> scoped_to m o s = true ->
  exists s', s' ∈ sessions (w_db w') /\ s_session_id s' = s_session_id s /\
    sessions_tenant_isolation (set_tenant_context a o no_context) s = true /\
    sessions_tenant_isolation (set_tenant_context a o no_context) s' = false.
Proof.
  intros H Hn Hne Hs Hsc. pose proof (offboarded_ids _ _ _ _ _ _ _ _ H) as Hids.
  apply offboard_inr in H as (_ & _ & _ & _ & _ & ss & row & Hdb & Hss).
  assert (Hin : s_session_id s ∈ List.map s_session_id (sessions (w_db w'))) by (rewrite Hids; apply elem_of_map; eauto).
  apply elem_of_map in Hin as (s' & Hs' & Hid). exists s'. split; [done|]. split; [done|].
  unfold scoped_to in Hsc. pose proof Hsc as [[Hu%bool_decide_eq_true Ho%bool_decide_eq_true]%andb_true_iff _]%andb_true_iff.
  rewrite Hdb in Hs'. destruct (Hss s' Hs') as (s0 & Hs0 & Hu0 & Hid0 & _ & Hnone).
  assert (s0 = s) as -> by (apply (nodup_key s_session_id _ _ _ Hn); congruence).
  unfold sessions_tenant_isolation. cbn [current_org current_user set_tenant_context set_user_context]. split.
  - by rewrite Ho, sql_eq_refl.
  - rewrite Hnone by (apply elem_of_map; exists s; split; [by apply elem_of_where|done]). cbn. rewrite Hu0, Hu.
    by apply bool_decide_eq_false.
Qed.

(** C40: under the role [auth_app], which the documents name as the runtime role, three operations could not
    work.  Without a context, and the session repository sets none, no session row is seen and none may be written
    (in the context of an organization, the sessions scoped to it are seen); in the context of a user alone, which is the one an
    erasure sets, the test for a solely owned organization finds none, whoever asks, so an erasure is accepted that
    the whole database refuses; and in the context of an organization, for somebody else's membership to be taken
    away, where that member has a session, not revoked, scoped to the organization, is to write a session row the
    policy refuses. *)
Theorem row_security_limits :
  (forall db s, sessions (as_auth_app no_context db) = [] /\ sessions_tenant_isolation no_context s = false) /\
  (forall u g db s, s_org_id s = Some g ->
     s ∈ sessions (as_auth_app (set_tenant_context u g no_context) db) <-> s ∈ sessions db) /\
  (forall u db, PrivacyRepo._has_sole_owned_organization u (as_auth_app (set_user_context u no_context) db) = false) /\
  (forall a o m now c r w w' s, offboard_member a o m now c w = (inr (Some r), w') ->
     NoDup (List.map s_session_id (sessions (w_db w))) -> m <> a -> s ∈ sessions (w_db w) -> scoped_to m o s = true ->
     ~ confined (set_tenant_context a o no_context) (w_db w) (w_db w')).
Proof.
  split_and!.
  - intros db s. split; [apply where_nil; intros; apply session_without_context|apply session_without_context].
  - intros u g db s Ho. split; [by intros [? _]%elem_of_where|]. intros Hs. apply elem_of_where. split; [done|].
    unfold sessions_tenant_isolation. by rewrite Ho, sql_eq_refl.
  - apply ownership_unseen.
  - intros a o m now c r w w' s H Hn Hne Hs Hsc C.
    destruct (offboarding_leaves_tenant _ _ _ _ _ _ _ _ _ H Hn Hne Hs Hsc) as (s' & Hs' & Hid & Hv & Hv').
    assert (Hh : s' ∈ where_ (fun r => negb (sessions_tenant_isolation (set_tenant_context a o no_context) r)) (sessions (w_db w')))
      by (apply elem_of_where; by rewrite Hv').
    rewrite (cf_sessions _ _ _ C) in Hh. apply elem_of_where in Hh as [Hh _].
    rewrite (nodup_key s_session_id _ _ _ Hn Hh Hs Hid) in Hv'. congruence.
Qed.
End Limits.

(** ** The review of the audit history *)

Section Audit.
Context {E : Env} {R : Type}.

(** The database checks the role of a reviewer on its own and comes to the answer the application's
    check comes to: with an active [SECURITY_SUPERVISOR_L3] binding the policies hide no row of the history;
    without one, a page holds only rows outside any organization that name the caller. *)
Theorem audit_review_agrees u filters cursor (w : World R) :
  exists allowed, PrivacyRepo.audit_staff_has_role u SECURITY_SUPERVISOR_L3 w = (inr allowed, w) /\
    let view := as_auth_app (set_user_context u no_context) (w_db w) in
    if allowed then PrivacyRepo.history filters cursor view = PrivacyRepo.history filters cursor (w_db w)
    else forall a, a ∈ PrivacyRepo.history filters cursor view ->
      a ∈ PrivacyRepo.history filters cursor (w_db w) /\ a_org_id a = None /\
      (a_subject_user_id a = Some u \/ a_actor_user_id a = Some u).
Proof.
  exists (current_user_has_staff_role "SECURITY_SUPERVISOR_L3" (set_user_context u no_context) (w_db w)). split; [reflexivity|].
  intros view. assert (Hlogs : audit_logs view
    = where_ (audit_logs_tenant_isolation (set_user_context u no_context) (w_db w)) (audit_logs (w_db w))) by reflexivity.
  destruct (current_user_has_staff_role _ _ _) eqn:Hr.
  - unfold PrivacyRepo.history. do 2 f_equal. rewrite Hlogs. apply where_seen. intros a _ _.
    unfold audit_logs_tenant_isolation. by rewrite Hr.
  - intros a Ha. unfold PrivacyRepo.history, order_by_desc in *. rewrite !order_by_perm in *. apply elem_of_where in Ha as [Ha HP].
    rewrite Hlogs in Ha. apply elem_of_where in Ha as [Ha Hv]. split; [by apply elem_of_where|].
    unfold audit_logs_tenant_isolation, audit_logs_check in Hv. rewrite Hr in Hv. cbn [orb current_org current_user set_user_context no_context] in Hv.
    rewrite sql_eq_none in Hv. cbn [orb] in Hv. apply andb_true_iff in Hv as [Hn Hv]. split; [by destruct (a_org_id a)|].
    apply orb_true_iff in Hv as [Hv|Hv]; [left; destruct (a_subject_user_id a)|right; destruct (a_actor_user_id a)]; try discriminate Hv;
      by apply bool_decide_eq_true in Hv as ->.
Qed.
End Audit.
