(* ===== verification/RowSecurityDemo.v ===== *)
(** Row level security on the workspaces of the concrete runs: an organization with two owners, one of whom
    is signed in to it. *)
From S2P Require Import Prelude PyText Entity Models RedisClient World RowSecurity RowSecurityProps.
From S2P Require Import SessionProps SessionDemo WorkspaceRepo WorkspaceDemo.

Definition acme_session : Session :=
  MkSession (test_uuid 701) (test_uuid 702) demo_user (Some acme) (test_uuid 703) "web" "device" None t0 t0 (t0 + days 1) None.
Definition office : World mem_redis := with_db ((w_db promoted_world) <| sessions := [acme_session] |>) promoted_world.

Lemma office_organizations : NoDup (List.map o_org_id (organizations (w_db office))).
Proof. apply (bool_decide_unpack _). vm_compute. exact I. Qed.
Lemma office_valid o : o ∈ organizations (w_db office) -> organization_valid o = true.
Proof.
  assert (H : forallb organization_valid (organizations (w_db office)) = true) by (vm_compute; reflexivity).
  intros Ho. exact (proj1 (forallb_forall _ _) H o (proj1 (list_elem_of_In _ _) Ho)).
Qed.
Lemma reads_survive_row_security_witness : exists members,
  (reading_as (set_tenant_context demo_user acme no_context) (list_members demo_user acme) office).1 = inr (Some members)
  /\ length members = 2%nat.
Proof.
  destruct (reads_survive_row_security demo_user acme office office_organizations office_valid) as (_ & _ & H & _).
  rewrite H. assert (Hm : match (list_members demo_user acme office).1 with inr (Some l) => length l =? 2 | _ => false end%nat = true)
    by (vm_compute; reflexivity).
  destruct (list_members demo_user acme office).1 as [|[l|]]; try discriminate Hm. exists l. split; [reflexivity|].
  by apply Nat.eqb_eq.
Defined.

Lemma office_tokens : NoDup (List.map in_token_hash (invitations (w_db invited_world))).
Proof. apply (bool_decide_unpack _). vm_compute. exact I. Qed.
Lemma office_invitations : NoDup (List.map in_invitation_id (invitations (w_db invited_world))).
Proof. apply (bool_decide_unpack _). vm_compute. exact I. Qed.
Definition invitation_hash : string := from_option in_token_hash "" (head (invitations (w_db invited_world))).
Lemma invited_to_acme : organization_invitation_org invitation_hash (w_now invited_world) (w_db invited_world) = Some acme.
Proof. vm_compute. reflexivity. Qed.
Abbreviation joining_acme := (accept_organization_invitation bob_id invitation_hash (w_now invited_world) cid invited_world).
Lemma writes_stay_in_context_witness :
  confined (set_tenant_context bob_id acme no_context) (w_db invited_world) (w_db joining_acme.2) /\
  user_role_bindings (w_db joining_acme.2) <> user_role_bindings (w_db invited_world).
Proof.
  split; [|vm_compute; discriminate].
  exact (writes_stay_in_context _ _ invited_world
    (ww_accept invited_world bob_id invitation_hash (w_now invited_world) cid acme invited_to_acme) office_tokens office_invitations).
Defined.

Abbreviation stepping_down := (WorkspaceRepo.offboard_member bob_id acme demo_user t0 cid office).
Lemma stepping_down_ok : match stepping_down.1 with inr (Some _) => true | _ => false end = true.
Proof. vm_compute. reflexivity. Qed.
Lemma office_sessions : NoDup (List.map s_session_id (sessions (w_db office))).
Proof. apply (bool_decide_unpack _). vm_compute. exact I. Qed.
Lemma row_security_limits_witness :
  exists r w', stepping_down = (inr (Some r), w') /\ ~ confined (set_tenant_context bob_id acme no_context) (w_db office) (w_db w').
Proof.
  destruct (row_security_limits (R := mem_redis)) as (_ & _ & _ & H). pose proof stepping_down_ok as Hok.
  destruct stepping_down as [[e|[r|]] w'] eqn:Hl; try discriminate Hok. exists r, w'. split; [reflexivity|].
  apply (H bob_id acme demo_user t0 cid r office w' acme_session Hl office_sessions); [discriminate|by left|reflexivity].
Defined.
