(* ===== verification/Sql.v ===== *)
(** The SQL of the schema: column types, values, and the conditions that CHECK constraints, partial
    indexes, row level security policies and the functions of the migrations are written in.

    A condition is a tree of the type [Cond], written in the order of the text it stands for.  It has
    three values: [eval] returns [None] where SQL has NULL.  A CHECK accepts a row unless its condition is
    false, a policy or an index predicate lets a row through only where it is true. *)
From S2P Require Import Prelude PyText Entity Models.

(** ** Types, values and rows *)

Inductive ColType :=
| Uuid | Varchar (length : Z) | Text | CITEXT | INET | JSONB | Integer | BigInteger | Boolean | LargeBinary
| DateTime.
#[export] Instance ColType_dec : EqDecision ColType.
Proof. solve_decision. Defined.

(** The content of a JSONB value, which no condition looks at, is left out. *)
Inductive Value := Null | UuidV (u : UUID) | TextV (s : string) | NumV (z : Z) | BoolV (b : bool) | JsonV.
Definition is_null (v : Value) : bool := match v with Null => true | _ => false end.
(** A value a column of the type can hold; times are numbers, bytes are texts. *)
Definition fits (ty : ColType) (v : Value) : bool :=
  match ty, v with
  | Uuid, UuidV _ => true
  | (Varchar _ | Text | CITEXT | INET | LargeBinary), TextV _ => true
  | (Integer | BigInteger | DateTime), NumV _ => true
  | Boolean, BoolV _ => true
  | JSONB, JsonV => true
  | _, _ => false
  end.

Definition opt_value {A} (f : A -> Value) (o : option A) : Value :=
  match o with Some a => f a | None => Null end.
Definition Row : Type := list (string * Value).
(** The value of a column; a column a row does not have reads as NULL. *)
Definition column (c : string) (r : Row) : Value :=
  match scalar (fun p => p.1 == c) r with Some (_, v) => v | None => Null end.

(** [a = b], [a > b] and [a >= b]. *)
Definition sql_equal (a b : Value) : option bool :=
  match a, b with
  | Null, _ | _, Null => None
  | UuidV x, UuidV y => Some (x == y)
  | TextV x, TextV y => Some (x == y)
  | NumV x, NumV y => Some (x =? y)
  | BoolV x, BoolV y => Some (x == y)
  | _, _ => Some false
  end.
Definition sql_order (cmp : Z -> Z -> bool) (a b : Value) : option bool :=
  match a, b with NumV x, NumV y => Some (cmp x y) | Null, _ | _, Null => None | _, _ => Some false end.
Definition sql_in (a : Value) (l : list string) : option bool :=
  match a with Null => None | TextV s => Some (s is_in l) | _ => Some false end.

Definition sql_not (a : option bool) : option bool := option_map negb a.
Definition sql_and (a b : option bool) : option bool :=
  match a, b with
  | Some false, _ | _, Some false => Some false
  | Some true, Some true => Some true
  | _, _ => None
  end.
Definition sql_or (a b : option bool) : option bool :=
  match a, b with
  | Some true, _ | _, Some true => Some true
  | Some false, Some false => Some false
  | _, _ => None
  end.
Definition is_true (a : option bool) : bool := match a with Some true => true | _ => false end.
Definition is_false (a : option bool) : bool := match a with Some false => true | _ => false end.

(** ** Conditions *)

(** A column of the row, a column of the NEW row of a trigger, a parameter of a function, a literal,
    [now()], and the two settings [NULLIF(current_setting('app.current_..._id', true), '')::uuid]. *)
Inductive Term :=
| Col (c : string) | New (c : string) | Param (p : string) | Str (s : string) | Num (z : Z) | Bool (b : bool)
| Now | CurrentOrg | CurrentUser.
#[export] Instance Term_dec : EqDecision Term.
Proof. solve_decision. Defined.

Inductive Cond :=
| Eq (a b : Term) | Ne (a b : Term) | Gt (a b : Term) | Ge (a b : Term)
| In_ (a : Term) (l : list string) | NotIn (a : Term) (l : list string)
| IsNull (a : Term) | IsNotNull (a : Term)
| And (p q : Cond) | Or (p q : Cond)
| Call (function : string) (arguments : list Term).
#[export] Instance Cond_dec : EqDecision Cond.
Proof. solve_decision. Defined.

Declare Scope sql_scope.
Delimit Scope sql_scope with sql.
Bind Scope sql_scope with Cond.
Notation "a '=.' b" := (Eq a b) (at level 70) : sql_scope.
Notation "a '<>.' b" := (Ne a b) (at level 70) : sql_scope.
Notation "a '>.' b" := (Gt a b) (at level 70) : sql_scope.
Notation "a '>=.' b" := (Ge a b) (at level 70) : sql_scope.
Notation "p 'AND' q" := (And p q) (at level 78, right associativity) : sql_scope.
Notation "p 'OR' q" := (Or p q) (at level 79, right associativity) : sql_scope.

(** What a condition is evaluated in. *)
Record Scope_ := MkScope {
  row : Row; new_row : Row; parameters : Row; now_ : Time; current_user_id : option UUID;
  current_org_id : option UUID }.
Definition row_scope (r : Row) : Scope_ := MkScope r [] [] 0 None None.
#[export] Instance eta_Scope : Eta Scope_ := fun s =>
  MkScope (row s) (new_row s) (parameters s) (now_ s) (current_user_id s) (current_org_id s).

Definition term (s : Scope_) (t : Term) : Value :=
  match t with
  | Col c => column c (row s)
  | New c => column c (new_row s)
  | Param p => column p (parameters s)
  | Str x => TextV x
  | Num z => NumV z
  | Bool b => BoolV b
  | Now => NumV (now_ s)
  | CurrentOrg => opt_value UuidV (current_org_id s)
  | CurrentUser => opt_value UuidV (current_user_id s)
  end.

Section Evaluation.
Context (call : string -> list Value -> option bool).
Fixpoint eval (s : Scope_) (c : Cond) : option bool :=
  match c with
  | Eq a b => sql_equal (term s a) (term s b)
  | Ne a b => sql_not (sql_equal (term s a) (term s b))
  | Gt a b => sql_order (fun x y => y <? x) (term s a) (term s b)
  | Ge a b => sql_order (fun x y => y <=? x) (term s a) (term s b)
  | In_ a l => sql_in (term s a) l
  | NotIn a l => sql_not (sql_in (term s a) l)
  | IsNull a => Some (is_null (term s a))
  | IsNotNull a => Some (negb (is_null (term s a)))
  | And p q => sql_and (eval s p) (eval s q)
  | Or p q => sql_or (eval s p) (eval s q)
  | Call f args => call f (List.map (term s) args)
  end.
End Evaluation.
Definition no_functions (f : string) (args : list Value) : option bool := None.

(** The columns and the functions a condition names. *)
Definition term_columns (t : Term) : list string := match t with Col c => [c] | _ => [] end.
Fixpoint cond_columns (c : Cond) : list string :=
  match c with
  | Eq a b | Ne a b | Gt a b | Ge a b => term_columns a ++ term_columns b
  | In_ a _ | NotIn a _ | IsNull a | IsNotNull a => term_columns a
  | And p q | Or p q => cond_columns p ++ cond_columns q
  | Call _ args => List.flat_map term_columns args
  end.
Fixpoint cond_functions (c : Cond) : list string :=
  match c with
  | And p q | Or p q => cond_functions p ++ cond_functions q
  | Call f _ => [f]
  | _ => []
  end.

(** ** Laws *)

Lemma sql_and_true a b : is_true (sql_and a b) = is_true a && is_true b.
Proof. by destruct a as [[]|], b as [[]|]. Qed.
Lemma sql_or_true a b : is_true (sql_or a b) = is_true a || is_true b.
Proof. by destruct a as [[]|], b as [[]|]. Qed.
Lemma sql_and_false a b : is_false (sql_and a b) = is_false a || is_false b.
Proof. by destruct a as [[]|], b as [[]|]. Qed.
Lemma sql_or_false a b : is_false (sql_or a b) = is_false a && is_false b.
Proof. by destruct a as [[]|], b as [[]|]. Qed.
Create Rewrite HintDb sql.
#[export] Hint Rewrite sql_and_true sql_or_true sql_and_false sql_or_false : sql.

(** A condition says the same of rows that agree on the columns it names. *)
Lemma term_agree s r1 r2 t : (forall c, c ∈ term_columns t -> column c r1 = column c r2) ->
  term (s <| row := r1 |>) t = term (s <| row := r2 |>) t.
Proof. intros H. destruct t; try done. apply H. by left. Qed.
Lemma eval_agree call s r1 r2 c : (forall x, x ∈ cond_columns c -> column x r1 = column x r2) ->
  eval call (s <| row := r1 |>) c = eval call (s <| row := r2 |>) c.
Proof.
  induction c as [a b|a b|a b|a b|a l|a l|a|a|p IHp q IHq|p IHp q IHq|f args]; cbn [cond_columns eval]; intros H;
    try (rewrite (term_agree s r1 r2 a) by (intros; apply H; try apply elem_of_app; auto);
         try rewrite (term_agree s r1 r2 b) by (intros; apply H; apply elem_of_app; auto); done).
  - rewrite IHp, IHq; [done|..]; intros x Hx; apply H; apply elem_of_app; auto.
  - rewrite IHp, IHq; [done|..]; intros x Hx; apply H; apply elem_of_app; auto.
  - f_equal. apply map_ext_in. intros t Ht. apply term_agree. intros c Hc. apply H.
    apply list_elem_of_In, in_flat_map. exists t. split; [done|by apply list_elem_of_In].
Qed.
