(* ===== verification/Rows.v ===== *)
(** The rows of Models as rows of SQL: each record with the column names of its table in
    infrastructure/persistence/models.py, the tables of a database by name, and what ADD COLUMN and DROP TABLE
    do to the rows there are. *)
From S2P Require Import Prelude PyText Entity Models Sql.

(** ** Rows *)

Definition user_row (r : User) : Row :=
  [("user_id", UuidV (u_user_id r)); ("email", opt_value TextV (u_email r));
   ("given_name", opt_value TextV (u_given_name r)); ("family_name", opt_value TextV (u_family_name r));
   ("phone_e164", opt_value TextV (u_phone_e164 r)); ("state", TextV (u_state r)); ("version", NumV (u_version r));
   ("anonymized_at", opt_value NumV (u_anonymized_at r)); ("created_at", NumV (u_created_at r))].
Definition identity_row (r : Identity) : Row :=
  [("identity_id", UuidV (i_identity_id r)); ("user_id", UuidV (i_user_id r)); ("provider", TextV (i_provider r));
   ("provider_subject", TextV (i_provider_subject r)); ("password_hash", opt_value TextV (i_password_hash r));
   ("verified", BoolV (i_verified r)); ("last_used_at", opt_value NumV (i_last_used_at r));
   ("created_at", NumV (i_created_at r))].
Definition password_history_row (r : PasswordHistory) : Row :=
  [("history_id", UuidV (ph_history_id r)); ("identity_id", UuidV (ph_identity_id r));
   ("password_hash", TextV (ph_password_hash r)); ("created_at", NumV (ph_created_at r))].
Definition mfa_device_row (r : MFADevice) : Row :=
  [("mfa_id", UuidV (m_mfa_id r)); ("user_id", UuidV (m_user_id r)); ("factor_type", TextV (m_factor_type r));
   ("encrypted_secret", opt_value TextV (m_encrypted_secret r)); ("status", TextV (m_status r));
   ("label", opt_value TextV (m_label r)); ("verified_at", opt_value NumV (m_verified_at r));
   ("revoked_at", opt_value NumV (m_revoked_at r)); ("last_totp_step", opt_value NumV (m_last_totp_step r));
   ("last_used_at", opt_value NumV (m_last_used_at r))].
Definition webauthn_row (r : WebAuthnCredential) : Row :=
  [("credential_id", TextV (w_credential_id r)); ("mfa_id", UuidV (w_mfa_id r)); ("public_key", TextV (w_public_key r));
   ("sign_count", NumV (w_sign_count r)); ("transports", JsonV); ("backup_eligible", BoolV (w_backup_eligible r));
   ("backup_state", BoolV (w_backup_state r))].
Definition family_row (r : RefreshTokenFamily) : Row :=
  [("family_id", UuidV (f_family_id r)); ("user_id", UuidV (f_user_id r));
   ("device_fingerprint_hash", TextV (f_device_fingerprint_hash r)); ("client_id", TextV (f_client_id r));
   ("created_at", NumV (f_created_at r)); ("absolute_expires_at", NumV (f_absolute_expires_at r));
   ("revoked_at", opt_value NumV (f_revoked_at r)); ("revocation_reason", opt_value TextV (f_revocation_reason r))].
Definition refresh_token_row (r : RefreshToken) : Row :=
  [("refresh_token_id", UuidV (t_refresh_token_id r)); ("family_id", UuidV (t_family_id r));
   ("token_hash", TextV (t_token_hash r)); ("generation", NumV (t_generation r)); ("issued_at", NumV (t_issued_at r));
   ("used_at", opt_value NumV (t_used_at r)); ("revoked_at", opt_value NumV (t_revoked_at r));
   ("expires_at", NumV (t_expires_at r))].
Definition organization_row (r : Organization) : Row :=
  [("org_id", UuidV (o_org_id r)); ("name", TextV (o_name r)); ("slug", TextV (o_slug r));
   ("workspace_type", TextV (o_workspace_type r));
   ("personal_owner_user_id", opt_value UuidV (o_personal_owner_user_id r)); ("state", TextV (o_state r));
   ("subscription_metadata", JsonV)].
Definition session_row (r : Session) : Row :=
  [("session_id", UuidV (s_session_id r)); ("family_id", UuidV (s_family_id r)); ("user_id", UuidV (s_user_id r));
   ("org_id", opt_value UuidV (s_org_id r)); ("access_jti", UuidV (s_access_jti r)); ("client_id", TextV (s_client_id r));
   ("device_fingerprint_hash", TextV (s_device_fingerprint_hash r)); ("ip_address", opt_value TextV (s_ip_address r));
   ("created_at", NumV (s_created_at r)); ("last_activity_at", NumV (s_last_activity_at r));
   ("expires_at", NumV (s_expires_at r)); ("revoked_at", opt_value NumV (s_revoked_at r))].
Definition trusted_device_row (r : TrustedDevice) : Row :=
  [("trusted_device_id", UuidV (d_trusted_device_id r)); ("user_id", UuidV (d_user_id r));
   ("fingerprint_hash", TextV (d_fingerprint_hash r)); ("trust_state", TextV (d_trust_state r));
   ("last_ip_address", opt_value TextV (d_last_ip_address r)); ("first_seen_at", NumV (d_first_seen_at r));
   ("last_seen_at", NumV (d_last_seen_at r))].
Definition ephemeral_token_row (r : EphemeralToken) : Row :=
  [("ephemeral_token_id", UuidV (e_ephemeral_token_id r)); ("user_id", opt_value UuidV (e_user_id r));
   ("token_hash", TextV (e_token_hash r)); ("purpose", TextV (e_purpose r)); ("metadata", JsonV);
   ("created_at", NumV (e_created_at r)); ("expires_at", NumV (e_expires_at r));
   ("consumed_at", opt_value NumV (e_consumed_at r))].
Definition referral_row (r : Referral) : Row :=
  [("referral_id", UuidV (rf_referral_id r)); ("referrer_user_id", UuidV (rf_referrer_user_id r));
   ("invitee_email", TextV (rf_invitee_email r)); ("token_hash", TextV (rf_token_hash r));
   ("referred_user_id", opt_value UuidV (rf_referred_user_id r)); ("state", TextV (rf_state r));
   ("created_at", NumV (rf_created_at r)); ("expires_at", NumV (rf_expires_at r));
   ("registered_at", opt_value NumV (rf_registered_at r)); ("verified_at", opt_value NumV (rf_verified_at r))].
Definition governed_request_row (r : GovernedRequest) : Row :=
  [("governed_request_id", UuidV (g_governed_request_id r)); ("org_id", opt_value UuidV (g_org_id r));
   ("request_type", TextV (g_request_type r)); ("target_user_id", UuidV (g_target_user_id r));
   ("initiator_user_id", UuidV (g_initiator_user_id r)); ("approver_user_id", opt_value UuidV (g_approver_user_id r));
   ("state", TextV (g_state r)); ("initiated_at", NumV (g_initiated_at r)); ("execute_after", NumV (g_execute_after r));
   ("approved_at", opt_value NumV (g_approved_at r)); ("executed_at", opt_value NumV (g_executed_at r));
   ("target_user_version", NumV (g_target_user_version r)); ("ticket_reference", opt_value TextV (g_ticket_reference r))].
Definition staff_role_binding_row (r : StaffRoleBinding) : Row :=
  [("binding_id", UuidV (sb_binding_id r)); ("user_id", UuidV (sb_user_id r)); ("role", TextV (sb_role r));
   ("granted_by_user_id", opt_value UuidV (sb_granted_by_user_id r)); ("granted_at", NumV (sb_granted_at r));
   ("revoked_at", opt_value NumV (sb_revoked_at r))].
Definition contact_change_row (r : ContactChangeRequest) : Row :=
  [("request_id", UuidV (c_request_id r)); ("user_id", UuidV (c_user_id r)); ("contact_type", TextV (c_contact_type r));
   ("old_value", TextV (c_old_value r)); ("new_value", TextV (c_new_value r)); ("old_code_hash", TextV (c_old_code_hash r));
   ("new_code_hash", TextV (c_new_code_hash r)); ("state", TextV (c_state r)); ("created_at", NumV (c_created_at r));
   ("expires_at", NumV (c_expires_at r)); ("old_verified_at", opt_value NumV (c_old_verified_at r));
   ("new_verified_at", opt_value NumV (c_new_verified_at r)); ("applied_at", opt_value NumV (c_applied_at r))].
Definition audit_log_row (r : AuditLog) : Row :=
  [("audit_id", UuidV (a_audit_id r)); ("actor_user_id", opt_value UuidV (a_actor_user_id r));
   ("subject_user_id", opt_value UuidV (a_subject_user_id r)); ("org_id", opt_value UuidV (a_org_id r));
   ("event_type", TextV (a_event_type r)); ("outcome", TextV (a_outcome r)); ("correlation_id", UuidV (a_correlation_id r));
   ("metadata", JsonV); ("occurred_at", NumV (a_occurred_at r))].
Definition invitation_row (r : Invitation) : Row :=
  [("invitation_id", UuidV (in_invitation_id r)); ("org_id", UuidV (in_org_id r));
   ("invitee_email", TextV (in_invitee_email r)); ("token_hash", TextV (in_token_hash r)); ("proposed_roles", JsonV);
   ("issued_by_user_id", UuidV (in_issued_by_user_id r)); ("state", TextV (in_state r));
   ("created_at", NumV (in_created_at r)); ("expires_at", NumV (in_expires_at r));
   ("accepted_at", opt_value NumV (in_accepted_at r))].
Definition role_permission_row (r : RolePermissionCatalog) : Row :=
  [("catalog_id", UuidV (rc_catalog_id r)); ("module", TextV (rc_module r)); ("role", TextV (rc_role r));
   ("permission", TextV (rc_permission r)); ("version", NumV (rc_version r)); ("active", BoolV (rc_active r))].
Definition user_role_binding_row (r : UserRoleBinding) : Row :=
  [("binding_id", UuidV (b_binding_id r)); ("user_id", UuidV (b_user_id r)); ("org_id", UuidV (b_org_id r));
   ("catalog_id", UuidV (b_catalog_id r)); ("granted_by_user_id", UuidV (b_granted_by_user_id r));
   ("granted_at", NumV (b_granted_at r)); ("revoked_at", opt_value NumV (b_revoked_at r))].
Definition gdpr_request_row (r : GDPRRequest) : Row :=
  [("gdpr_request_id", UuidV (gq_gdpr_request_id r)); ("user_id", UuidV (gq_user_id r));
   ("request_type", TextV (gq_request_type r)); ("state", TextV (gq_state r)); ("requested_at", NumV (gq_requested_at r));
   ("completed_at", opt_value NumV (gq_completed_at r)); ("artifact_reference", opt_value TextV (gq_artifact_reference r));
   ("artifact_expires_at", opt_value NumV (gq_artifact_expires_at r)); ("failure_code", opt_value TextV (gq_failure_code r));
   ("idempotency_key_hash", opt_value TextV (gq_idempotency_key_hash r));
   ("backup_purge_due_at", opt_value NumV (gq_backup_purge_due_at r))].
Definition export_artifact_row (r : PrivacyExportArtifact) : Row :=
  [("artifact_id", UuidV (pa_artifact_id r)); ("gdpr_request_id", UuidV (pa_gdpr_request_id r));
   ("user_id", UuidV (pa_user_id r)); ("encrypted_content", TextV (pa_encrypted_content r));
   ("content_digest", TextV (pa_content_digest r)); ("created_at", NumV (pa_created_at r));
   ("expires_at", NumV (pa_expires_at r))].

(** ** Tables by name

    No code writes the two tables that are not there, outbox_events and idempotency_records: they are empty. *)

Definition tables_of (db : Db) : list (string * list Row) :=
  [("users", List.map user_row (users db)); ("identities", List.map identity_row (identities db));
   ("password_history", List.map password_history_row (password_history db));
   ("mfa_devices", List.map mfa_device_row (mfa_devices db));
   ("webauthn_credentials", List.map webauthn_row (webauthn_credentials db));
   ("refresh_token_families", List.map family_row (families db));
   ("refresh_tokens", List.map refresh_token_row (refresh_tokens db));
   ("organizations", List.map organization_row (organizations db)); ("sessions", List.map session_row (sessions db));
   ("trusted_devices", List.map trusted_device_row (trusted_devices db));
   ("ephemeral_tokens", List.map ephemeral_token_row (ephemeral_tokens db));
   ("invitations", List.map invitation_row (invitations db)); ("referrals", List.map referral_row (referrals db));
   ("role_permission_catalog", List.map role_permission_row (role_permission_catalog db));
   ("user_role_bindings", List.map user_role_binding_row (user_role_bindings db));
   ("governed_requests", List.map governed_request_row (governed_requests db));
   ("staff_role_bindings", List.map staff_role_binding_row (staff_role_bindings db));
   ("contact_change_requests", List.map contact_change_row (contact_change_requests db));
   ("gdpr_requests", List.map gdpr_request_row (gdpr_requests db));
   ("privacy_export_artifacts", List.map export_artifact_row (privacy_export_artifacts db));
   ("audit_logs", List.map audit_log_row (audit_logs db))].
Definition rows_of (t : string) (db : Db) : list Row :=
  match scalar (fun p => p.1 == t) (tables_of db) with Some (_, rows) => rows | None => [] end.

(** DROP TABLE takes its rows with it. *)
Definition clear_table (t : string) (db : Db) : Db :=
  if t == "users" then db <| users := [] |> else if t == "identities" then db <| identities := [] |>
  else if t == "password_history" then db <| password_history := [] |>
  else if t == "mfa_devices" then db <| mfa_devices := [] |>
  else if t == "webauthn_credentials" then db <| webauthn_credentials := [] |>
  else if t == "refresh_token_families" then db <| families := [] |>
  else if t == "refresh_tokens" then db <| refresh_tokens := [] |>
  else if t == "organizations" then db <| organizations := [] |> else if t == "sessions" then db <| sessions := [] |>
  else if t == "trusted_devices" then db <| trusted_devices := [] |>
  else if t == "ephemeral_tokens" then db <| ephemeral_tokens := [] |>
  else if t == "invitations" then db <| invitations := [] |> else if t == "referrals" then db <| referrals := [] |>
  else if t == "role_permission_catalog" then db <| role_permission_catalog := [] |>
  else if t == "user_role_bindings" then db <| user_role_bindings := [] |>
  else if t == "governed_requests" then db <| governed_requests := [] |>
  else if t == "staff_role_bindings" then db <| staff_role_bindings := [] |>
  else if t == "contact_change_requests" then db <| contact_change_requests := [] |>
  else if t == "gdpr_requests" then db <| gdpr_requests := [] |>
  else if t == "privacy_export_artifacts" then db <| privacy_export_artifacts := [] |>
  else if t == "audit_logs" then db <| audit_logs := [] |> else db.

(** ADD COLUMN gives every row the default of the column, NULL where it has none.  These are the columns the
    migrations add. *)
Definition text_of (v : Value) : string := match v with TextV s => s | _ => "" end.
Definition opt_text_of (v : Value) : option string := match v with TextV s => Some s | _ => None end.
Definition num_of (v : Value) : Z := match v with NumV z => z | _ => 0 end.
Definition opt_num_of (v : Value) : option Z := match v with NumV z => Some z | _ => None end.
Definition opt_uuid_of (v : Value) : option UUID := match v with UuidV u => Some u | _ => None end.
Definition fill_column (t c : string) (v : Value) (db : Db) : Db :=
  if t == "organizations" then
    if c == "workspace_type" then db <| organizations ::= List.map (fun o => o <| o_workspace_type := text_of v |>) |>
    else if c == "personal_owner_user_id" then
      db <| organizations ::= List.map (fun o => o <| o_personal_owner_user_id := opt_uuid_of v |>) |>
    else db
  else if t == "mfa_devices" then
    if c == "last_totp_step" then db <| mfa_devices ::= List.map (fun m => m <| m_last_totp_step := opt_num_of v |>) |>
    else if c == "last_used_at" then db <| mfa_devices ::= List.map (fun m => m <| m_last_used_at := opt_num_of v |>) |>
    else db
  else if t == "governed_requests" then
    if c == "approved_at" then db <| governed_requests ::= List.map (fun g => g <| g_approved_at := opt_num_of v |>) |>
    else if c == "executed_at" then db <| governed_requests ::= List.map (fun g => g <| g_executed_at := opt_num_of v |>) |>
    else if c == "target_user_version" then
      db <| governed_requests ::= List.map (fun g => g <| g_target_user_version := num_of v |>) |>
    else db
  else if t == "gdpr_requests" then
    if c == "idempotency_key_hash" then
      db <| gdpr_requests ::= List.map (fun g => g <| gq_idempotency_key_hash := opt_text_of v |>) |>
    else if c == "backup_purge_due_at" then
      db <| gdpr_requests ::= List.map (fun g => g <| gq_backup_purge_due_at := opt_num_of v |>) |>
    else db
  else db.

Lemma row_exists_map {A B} (P : B -> bool) (f : A -> B) l : row_exists P (List.map f l) = row_exists (fun x => P (f x)) l.
Proof. unfold row_exists. induction l as [|a l IH]; [done|]. cbn. by rewrite IH. Qed.
Lemma row_exists_ext {A} (P Q : A -> bool) l : (forall x, P x = Q x) -> row_exists P l = row_exists Q l.
Proof. intros H. unfold row_exists. induction l as [|a l IH]; [done|]. cbn. by rewrite H, IH. Qed.
