(* ===== verification/Ddl.v ===== *)
(** The schema of a PostgreSQL database as the migrations see it: the catalog, the statements that change
    it with the checks PostgreSQL documents for them, and the names persistence/base.py gives to constraints.

    A database is its catalog with its rows.  [execute] runs one statement; it fails when the statement names
    an object that is not there, creates one that is, drops one others depend on, or adds a constraint the
    rows break.  Statements that fail leave no trace: alembic runs migrations in one transaction (env.py). *)
From S2P Require Import Prelude PyText Entity Models Sql Rows.

(** ** The catalog *)

(** DEFAULT 'text' and DEFAULT expression. *)
Inductive Default := Quoted (s : string) | Expression (s : string).
Record Column := MkColumn { col_type : ColType; col_nullable : bool; col_default : option Default }.
Inductive OnDelete := NoAction | Cascade | SetNull | Restrict.
Inductive Constraint :=
| PrimaryKeyConstraint (cols : list string)
| UniqueConstraint (cols : list string)
| CheckConstraint (c : Cond)
| ForeignKeyConstraint (cols : list string) (target : string) (refs : list string) (ondelete : OnDelete).
Record TableDef := MkTable { tb_columns : gmap string Column; tb_constraints : gmap string Constraint }.
Record Index := MkIndex { ix_table : string; ix_columns : list string; ix_unique : bool; ix_where : option Cond }.

Record Policy := MkPolicy { po_role : string; po_using : Cond; po_check : Cond }.
(** BEFORE triggers FOR EACH ROW; an event is INSERT, DELETE, UPDATE or UPDATE OF some columns. *)
Record Trigger := MkTrigger { tg_events : list (string * list string); tg_function : string }.
(** A grant is a role with a privilege. *)
Record Security := MkSecurity {
  rls_enabled : bool; rls_forced : bool; se_policies : gmap string Policy; se_triggers : gmap string Trigger;
  se_grants : gset (string * string) }.

(** The bodies of the functions: SELECT EXISTS (SELECT 1 FROM t WHERE c), SELECT col FROM t WHERE c LIMIT 1, and
    of triggers: RAISE when there is, or is not, a row of t with c, and RAISE. *)
Inductive Body :=
| SelectExists (from : string) (c : Cond)
| SelectFirst (col from : string) (c : Cond)
| RaiseIfExists (present : bool) (from : string) (c : Cond)
| RaiseAlways.
Record Function_ := MkFunction {
  fn_parameters : list string; fn_security_definer : bool; fn_body : Body; fn_executors : gset string }.

Record Catalog := MkCatalog_ {
  ca_extensions : gset string; ca_schema : bool; ca_tables : gmap string TableDef; ca_indexes : gmap string Index;
  ca_security : gmap string Security; ca_functions : gmap string Function_; ca_roles : gset string;
  ca_usage : gset string; ca_default_grants : gset (string * string) }.
Definition empty_catalog : Catalog := MkCatalog_ ∅ false ∅ ∅ ∅ ∅ ∅ ∅ ∅.

#[export] Instance Default_dec : EqDecision Default.
Proof. solve_decision. Defined.
#[export] Instance Column_dec : EqDecision Column.
Proof. solve_decision. Defined.
#[export] Instance OnDelete_dec : EqDecision OnDelete.
Proof. solve_decision. Defined.
#[export] Instance Constraint_dec : EqDecision Constraint.
Proof. solve_decision. Defined.
#[export] Instance TableDef_dec : EqDecision TableDef.
Proof. solve_decision. Defined.
#[export] Instance Index_dec : EqDecision Index.
Proof. solve_decision. Defined.
#[export] Instance Policy_dec : EqDecision Policy.
Proof. solve_decision. Defined.
#[export] Instance Trigger_dec : EqDecision Trigger.
Proof. solve_decision. Defined.
#[export] Instance Security_dec : EqDecision Security.
Proof. solve_decision. Defined.
#[export] Instance Body_dec : EqDecision Body.
Proof. solve_decision. Defined.
#[export] Instance Function_dec : EqDecision Function_.
Proof. solve_decision. Defined.
#[export] Instance Catalog_dec : EqDecision Catalog.
Proof. solve_decision. Defined.

#[export] Instance eta_TableDef : Eta TableDef := fun t => MkTable (tb_columns t) (tb_constraints t).
#[export] Instance eta_Security : Eta Security := fun s =>
  MkSecurity (rls_enabled s) (rls_forced s) (se_policies s) (se_triggers s) (se_grants s).
#[export] Instance eta_Function : Eta Function_ := fun f =>
  MkFunction (fn_parameters f) (fn_security_definer f) (fn_body f) (fn_executors f).
#[export] Instance eta_Catalog : Eta Catalog := fun c =>
  MkCatalog_ (ca_extensions c) (ca_schema c) (ca_tables c) (ca_indexes c) (ca_security c) (ca_functions c)
    (ca_roles c) (ca_usage c) (ca_default_grants c).

(** ** Names

    [NAMING_CONVENTION] of base.py: a name wrapped in [op.f] is final, a CHECK constraint has the name of its
    table before the one it is given, and a constraint without a name is named after its first column. *)

Inductive Name := op_f (s : string) | Given (s : string) | Unnamed.
Definition first_column (cols : list string) : string := or_else (head cols) "".
Definition constraint_name (table : string) (name : Name) (c : Constraint) : string :=
  match name, c with
  | op_f s, _ => s
  | Given s, CheckConstraint _ => "ck_" +:+ table +:+ "_" +:+ s
  | Given s, _ => s
  | Unnamed, PrimaryKeyConstraint _ => "pk_" +:+ table
  | Unnamed, UniqueConstraint cols => "uq_" +:+ table +:+ "_" +:+ first_column cols
  | Unnamed, ForeignKeyConstraint cols target _ _ =>
      "fk_" +:+ table +:+ "_" +:+ first_column cols +:+ "_" +:+ target
  | Unnamed, CheckConstraint _ => "ck_" +:+ table +:+ "_None"
  end.
Definition index_name (table : string) (name : Name) (cols : list string) : string :=
  match name with op_f s | Given s => s | Unnamed => "ix_auth_" +:+ table +:+ "_" +:+ first_column cols end.

(** ** Statements *)

Inductive Item := ColumnItem (name : string) (c : Column) | ConstraintItem (name : Name) (c : Constraint).
Definition required (n : string) (ty : ColType) : Item := ColumnItem n (MkColumn ty false None).
Definition nullable (n : string) (ty : ColType) : Item := ColumnItem n (MkColumn ty true None).
Definition defaulted (n : string) (ty : ColType) (d : Default) : Item := ColumnItem n (MkColumn ty false (Some d)).
Definition check_ (name : Name) (c : Cond) : Item := ConstraintItem name (CheckConstraint c).
Definition primary_key (name : Name) (cols : list string) : Item := ConstraintItem name (PrimaryKeyConstraint cols).
Definition unique_key (name : Name) (cols : list string) : Item := ConstraintItem name (UniqueConstraint cols).
Definition foreign_key (name : Name) (cols : list string) (target : string) (refs : list string) (d : OnDelete) : Item :=
  ConstraintItem name (ForeignKeyConstraint cols target refs d).
Inductive Op :=
| CREATE_EXTENSION (e : string) | CREATE_SCHEMA | DROP_SCHEMA_CASCADE
| create_table (t : string) (items : list Item) | drop_table (t : string)
| add_column (t c : string) (d : Column) | drop_column (t c : string)
| create_constraint (t : string) (name : Name) (c : Constraint)
| drop_constraint (t name : string) | DROP_CONSTRAINT_IF_EXISTS (t name : string)
| create_index (name t : string) (cols : list string) (unique : bool) (where_clause : option Cond)
| drop_index (name t : string)
| INSERT (t : string) (rows : Db -> Db)
| CREATE_ROLE (r : string) | DROP_ROLE_IF_EXISTS (r : string)
| GRANT_USAGE (rs : list string) | REVOKE_ALL_ON_SCHEMA (rs : list string)
| GRANT (ps : list string) (t r : string) | GRANT_ON_ALL_TABLES (ps : list string) (r : string)
| REVOKE (ps : list string) (t r : string) | REVOKE_ALL_ON_ALL_TABLES (r : string)
| ALTER_DEFAULT_PRIVILEGES (ps : list string) (r : string)
| CREATE_FUNCTION (f : string) (params : list string) (security_definer : bool) (b : Body)
| DROP_FUNCTION_IF_EXISTS (f : string)
| REVOKE_ALL_ON_FUNCTION (f r : string) | GRANT_EXECUTE (f r : string)
| CREATE_TRIGGER (name t : string) (events : list (string * list string)) (f : string)
| DROP_TRIGGER_IF_EXISTS (name t : string)
| ENABLE_ROW_LEVEL_SECURITY (t : string) | FORCE_ROW_LEVEL_SECURITY (t : string)
| DISABLE_ROW_LEVEL_SECURITY (t : string)
| CREATE_POLICY (name t r : string) (using_ check : Cond)
| DROP_POLICY (name t : string) | DROP_POLICY_IF_EXISTS (name t : string).

Inductive SqlError :=
| UndefinedTable (t : string) | DuplicateTable (t : string) | UndefinedColumn (c : string) | DuplicateColumn (c : string)
| UndefinedObject (name : string) | DuplicateObject (name : string) | DependentObjects (name : string)
| InvalidForeignKey (t : string)
| NotNullViolation (c : string) | CheckViolation (name : string) | UniqueViolation (name : string)
| ForeignKeyViolation (name : string).
Inductive Outcome (A : Type) := Done (a : A) | Refused (e : SqlError).
Arguments Done {A} a.
Arguments Refused {A} e.
#[export] Instance Outcome_bind : MBind Outcome := fun _ _ f m => match m with Done a => f a | Refused e => Refused e end.
#[export] Instance Outcome_ret : MRet Outcome := fun _ a => Done a.
Definition require (b : bool) (e : SqlError) : Outcome unit := if b then Done tt else Refused e.
Definition found {A} (o : option A) (e : SqlError) : Outcome A := match o with Some a => Done a | None => Refused e end.
Definition all_in (l : list string) (P : string -> bool) : bool := List.forallb P l.

(** *** Tables *)

Definition table (t : string) (c : Catalog) : Outcome TableDef := found (ca_tables c !! t) (UndefinedTable t).
Definition has_column (d : TableDef) (c : string) : bool := is_some (tb_columns d !! c).
Definition constraint_columns (c : Constraint) : list string :=
  match c with
  | PrimaryKeyConstraint cols | UniqueConstraint cols | ForeignKeyConstraint cols _ _ _ => cols
  | CheckConstraint c => cond_columns c
  end.
Definition identifies (cols : list string) (c : Constraint) : bool :=
  match c with PrimaryKeyConstraint k | UniqueConstraint k => k == cols | _ => false end.
(** A foreign key refers to the columns of a primary key or a unique constraint. *)
Definition key_of (d : TableDef) (cols : list string) : bool :=
  List.existsb (fun p => identifies cols p.2) (map_to_list (tb_constraints d)).
Definition references_ok (c : Constraint) (cat : Catalog) : bool :=
  match c with
  | ForeignKeyConstraint _ target refs _ =>
      match ca_tables cat !! target with Some d => key_of d refs | None => false end
  | _ => true
  end.
Definition set_table (t : string) (d : TableDef) (c : Catalog) : Catalog := c <| ca_tables ::= <[t := d]> |>.
Definition add_constraint (t : string) (name : Name) (k : Constraint) (c : Catalog) : Outcome Catalog :=
  d ← table t c;
  let n := constraint_name t name k in
  _ ← require (is_none (tb_constraints d !! n)) (DuplicateObject n);
  _ ← require (all_in (constraint_columns k) (has_column d)) (UndefinedColumn n);
  _ ← require (references_ok k c) (InvalidForeignKey t);
  mret (set_table t (d <| tb_constraints ::= <[n := k]> |>) c).
Definition add_col (t name : string) (k : Column) (c : Catalog) : Outcome Catalog :=
  d ← table t c;
  _ ← require (negb (has_column d name)) (DuplicateColumn name);
  mret (set_table t (d <| tb_columns ::= <[name := k]> |>) c).
Definition add_item (t : string) (i : Item) (c : Catalog) : Outcome Catalog :=
  match i with ColumnItem name k => add_col t name k c | ConstraintItem name k => add_constraint t name k c end.
Fixpoint add_items (t : string) (l : list Item) (c : Catalog) : Outcome Catalog :=
  match l with [] => Done c | i :: l => c' ← add_item t i c; add_items t l c' end.
Definition refers_to (t : string) (k : Constraint) : bool :=
  match k with ForeignKeyConstraint _ target _ _ => target == t | _ => false end.
(** Another table has a foreign key to this one. *)
Definition referenced (t : string) (c : Catalog) : bool :=
  List.existsb (fun p => (p.1 != t) && List.existsb (fun k => refers_to t k.2) (map_to_list (tb_constraints p.2)))
    (map_to_list (ca_tables c)).
Definition index_columns (i : Index) : list string :=
  ix_columns i ++ match ix_where i with Some c => cond_columns c | None => [] end.

(** *** Security *)

Definition security (t : string) (c : Catalog) : Outcome Security := found (ca_security c !! t) (UndefinedTable t).
Definition on_security (t : string) (f : Security -> Security) (c : Catalog) : Outcome Catalog :=
  s ← security t c; mret (c <| ca_security ::= <[t := f s]> |>).
Definition policy_conditions (p : Policy) : list Cond := [po_using p; po_check p].
Definition policies_mention (P : Cond -> bool) (s : Security) : bool :=
  List.existsb (fun p => List.existsb P (policy_conditions p.2)) (map_to_list (se_policies s)).
Definition function_used (f : string) (c : Catalog) : bool :=
  List.existsb (fun p => policies_mention (fun k => f is_in cond_functions k) p.2
                         || List.existsb (fun g => tg_function g.2 == f) (map_to_list (se_triggers p.2)))
    (map_to_list (ca_security c)).
Definition grants_to (r : string) (g : gset (string * string)) : bool := List.existsb (fun p => p.1 == r) (elements g).
(** A role is referred to by grants on tables, policies, grants on the schema and on functions, and default privileges. *)
Definition role_used (r : string) (c : Catalog) : bool :=
  List.existsb (fun p => grants_to r (se_grants p.2)
                         || List.existsb (fun q => po_role q.2 == r) (map_to_list (se_policies p.2)))
    (map_to_list (ca_security c))
  || (r is_in ca_usage c) || grants_to r (ca_default_grants c)
  || List.existsb (fun p => bool_decide (r ∈ fn_executors p.2)) (map_to_list (ca_functions c)).
Definition grant_set (ps : list string) (r : string) : gset (string * string) := list_to_set (List.map (pair r) ps).
Definition without_role (r : string) (g : gset (string * string)) : gset (string * string) := filter (fun p => p.1 <> r) g.
Definition on_all_tables (f : Security -> Security) (c : Catalog) : Catalog := c <| ca_security ::= fmap f |>.
Definition on_function (f : string) (g : Function_ -> Function_) (c : Catalog) : Outcome Catalog :=
  k ← found (ca_functions c !! f) (UndefinedObject f); mret (c <| ca_functions ::= <[f := g k]> |>).

Definition exec_catalog (o : Op) (c : Catalog) : Outcome Catalog :=
  match o with
  | CREATE_EXTENSION e => mret (c <| ca_extensions ::= union {[e]} |>)
  | CREATE_SCHEMA => mret (c <| ca_schema := true |>)
  | DROP_SCHEMA_CASCADE =>
      mret (MkCatalog_ (ca_extensions c) false ∅ ∅ ∅ ∅ (ca_roles c) ∅ ∅)
  | create_table t items =>
      _ ← require (ca_schema c) (UndefinedObject "auth");
      _ ← require (is_none (ca_tables c !! t)) (DuplicateTable t);
      add_items t items (c <| ca_tables ::= <[t := MkTable ∅ ∅]> |>
                           <| ca_security ::= <[t := MkSecurity false false ∅ ∅ (ca_default_grants c)]> |>)
  | drop_table t =>
      _ ← table t c;
      _ ← require (negb (referenced t c)) (DependentObjects t);
      mret (c <| ca_tables ::= delete t |> <| ca_security ::= delete t |>
              <| ca_indexes ::= filter (fun p => ix_table p.2 <> t) |>)
  | add_column t n k => add_col t n k c
  | drop_column t n =>
      d ← table t c;
      _ ← require (has_column d n) (UndefinedColumn n);
      s ← security t c;
      _ ← require (negb (policies_mention (fun k => n is_in cond_columns k) s)) (DependentObjects n);
      mret (set_table t (MkTable (delete n (tb_columns d))
                                 (filter (fun p => n ∉ constraint_columns p.2) (tb_constraints d))) c
              <| ca_indexes ::= filter (fun p => ix_table p.2 <> t \/ n ∉ index_columns p.2) |>)
  | create_constraint t name k => add_constraint t name k c
  | drop_constraint t n =>
      d ← table t c;
      _ ← require (is_some (tb_constraints d !! n)) (UndefinedObject n);
      mret (set_table t (d <| tb_constraints ::= delete n |>) c)
  | DROP_CONSTRAINT_IF_EXISTS t n =>
      d ← table t c; mret (set_table t (d <| tb_constraints ::= delete n |>) c)
  | create_index n t cols unique w =>
      d ← table t c;
      _ ← require (is_none (ca_indexes c !! n)) (DuplicateObject n);
      let i := MkIndex t cols unique w in
      _ ← require (all_in (index_columns i) (has_column d)) (UndefinedColumn n);
      mret (c <| ca_indexes ::= <[n := i]> |>)
  | drop_index n t =>
      _ ← found (ca_indexes c !! n) (UndefinedObject n); mret (c <| ca_indexes ::= delete n |>)
  | INSERT t _ => _ ← table t c; mret c
  | CREATE_ROLE r => mret (c <| ca_roles ::= union {[r]} |>)
  | DROP_ROLE_IF_EXISTS r =>
      _ ← require (negb (role_used r c)) (DependentObjects r); mret (c <| ca_roles ::= fun s => s ∖ {[r]} |>)
  | GRANT_USAGE rs => mret (c <| ca_usage ::= union (list_to_set rs) |>)
  | REVOKE_ALL_ON_SCHEMA rs => mret (c <| ca_usage ::= fun s => s ∖ list_to_set rs |>)
  | GRANT ps t r => on_security t (fun s => s <| se_grants ::= union (grant_set ps r) |>) c
  | GRANT_ON_ALL_TABLES ps r => mret (on_all_tables (fun s => s <| se_grants ::= union (grant_set ps r) |>) c)
  | REVOKE ps t r => on_security t (fun s => s <| se_grants ::= fun g => g ∖ grant_set ps r |>) c
  | REVOKE_ALL_ON_ALL_TABLES r => mret (on_all_tables (fun s => s <| se_grants ::= without_role r |>) c)
  | ALTER_DEFAULT_PRIVILEGES ps r => mret (c <| ca_default_grants ::= union (grant_set ps r) |>)
  | CREATE_FUNCTION f params definer b =>
      let executors := match ca_functions c !! f with Some k => fn_executors k | None => {["PUBLIC"]} end in
      mret (c <| ca_functions ::= <[f := MkFunction params definer b executors]> |>)
  | DROP_FUNCTION_IF_EXISTS f =>
      _ ← require (negb (function_used f c)) (DependentObjects f); mret (c <| ca_functions ::= delete f |>)
  | REVOKE_ALL_ON_FUNCTION f r => on_function f (fun k => k <| fn_executors ::= fun s => s ∖ {[r]} |>) c
  | GRANT_EXECUTE f r => on_function f (fun k => k <| fn_executors ::= union {[r]} |>) c
  | CREATE_TRIGGER n t events f =>
      s ← security t c;
      _ ← found (ca_functions c !! f) (UndefinedObject f);
      _ ← require (is_none (se_triggers s !! n)) (DuplicateObject n);
      on_security t (fun s => s <| se_triggers ::= <[n := MkTrigger events f]> |>) c
  | DROP_TRIGGER_IF_EXISTS n t => on_security t (fun s => s <| se_triggers ::= delete n |>) c
  | ENABLE_ROW_LEVEL_SECURITY t => on_security t (fun s => s <| rls_enabled := true |>) c
  | FORCE_ROW_LEVEL_SECURITY t => on_security t (fun s => s <| rls_forced := true |>) c
  | DISABLE_ROW_LEVEL_SECURITY t => on_security t (fun s => s <| rls_enabled := false |>) c
  | CREATE_POLICY n t r using_ check =>
      d ← table t c;
      s ← security t c;
      _ ← require (r is_in ca_roles c) (UndefinedObject r);
      _ ← require (is_none (se_policies s !! n)) (DuplicateObject n);
      let p := MkPolicy r using_ check in
      _ ← require (List.forallb (fun k => all_in (cond_columns k) (has_column d)
                                          && all_in (cond_functions k) (fun f => is_some (ca_functions c !! f)))
                     (policy_conditions p)) (UndefinedColumn n);
      on_security t (fun s => s <| se_policies ::= <[n := p]> |>) c
  | DROP_POLICY n t =>
      s ← security t c;
      _ ← found (se_policies s !! n) (UndefinedObject n);
      on_security t (fun s => s <| se_policies ::= delete n |>) c
  | DROP_POLICY_IF_EXISTS n t => on_security t (fun s => s <| se_policies ::= delete n |>) c
  end.

(** *** Rows *)

(** Equality of two values of a column: a CITEXT column ignores case. *)
Definition equal_in (ty : ColType) (a b : Value) : bool :=
  match ty, a, b with
  | CITEXT, TextV x, TextV y => citext_eq x y
  | _, _, _ => is_true (sql_equal a b)
  end.
Definition type_of (d : TableDef) (c : string) : ColType := match tb_columns d !! c with Some k => col_type k | None => Text end.
(** Two rows break a unique key when both are in its partial index and no column of it differs or is NULL. *)
Definition holds (r : Row) (w : option Cond) : bool :=
  match w with Some c => is_true (eval no_functions (row_scope r) c) | None => true end.
Definition Key : Type := list (string * ColType) * option Cond.
Definition key (d : TableDef) (cols : list string) (w : option Cond) : Key :=
  (List.map (fun c => (c, type_of d c)) cols, w).
Definition clash (k : Key) (r s : Row) : bool :=
  holds r k.2 && holds s k.2 && List.forallb (fun c => equal_in c.2 (column c.1 s) (column c.1 r)) k.1.
Fixpoint has_duplicates (k : Key) (rows : list Row) : bool :=
  match rows with [] => false | r :: rows => row_exists (clash k r) rows || has_duplicates k rows end.
Definition check_rejects (k : Cond) (r : Row) : bool := is_false (eval no_functions (row_scope r) k).
Definition dangling (cols : list string) (target : list Row) (refs : list string) (r : Row) : bool :=
  List.forallb (fun c => negb (is_null (column c r))) cols
  && negb (row_exists (fun s => List.forallb (fun p => is_true (sql_equal (column p.1 r) (column p.2 s)))
                                  (combine cols refs)) target).
Definition rows_break (n t : string) (d : TableDef) (k : Constraint) (db : Db) : option SqlError :=
  let rows := rows_of t db in
  match k with
  | PrimaryKeyConstraint cols | UniqueConstraint cols =>
      if has_duplicates (key d cols None) rows then Some (UniqueViolation n) else None
  | CheckConstraint c => if row_exists (check_rejects c) rows then Some (CheckViolation n) else None
  | ForeignKeyConstraint cols target refs _ =>
      if row_exists (dangling cols (rows_of target db) refs) rows then Some (ForeignKeyViolation n) else None
  end.
(** What the rows say to a statement that changed the catalog. *)
Definition violation (o : Op) (c : Catalog) (db : Db) : option SqlError :=
  match o with
  | add_column t n k =>
      if negb (col_nullable k) && is_none (col_default k) && negb (rows_of t db == []) then Some (NotNullViolation n) else None
  | create_constraint t name k =>
      match ca_tables c !! t with Some d => rows_break (constraint_name t name k) t d k db | None => None end
  | create_index n t cols true w =>
      match ca_tables c !! t with
      | Some d => if has_duplicates (key d cols w) (rows_of t db) then Some (UniqueViolation n) else None
      | None => None
      end
  | _ => None
  end.
(** [DEFAULT '1'] of an integer column is a number. *)
Fixpoint number (s : string) (n : Z) : Z :=
  match s with EmptyString => n | String c s => number s (10 * n + (Z.of_N (code c) - 48)) end.
Definition default_value (k : Column) : Value :=
  match col_default k, col_type k with
  | Some (Quoted s), (Integer | BigInteger) => NumV (number s 0)
  | Some (Quoted s), _ => TextV s
  | _, _ => Null
  end.
Definition exec_rows (o : Op) (db : Db) : Db :=
  match o with
  | add_column t n k => fill_column t n (default_value k) db
  | drop_table t => clear_table t db
  | DROP_SCHEMA_CASCADE => empty_db
  | INSERT _ rows => rows db
  | _ => db
  end.

(** ** Running statements *)

Definition Database : Type := Catalog * Db.
Definition execute (o : Op) (d : Database) : Outcome Database :=
  c ← exec_catalog o d.1;
  match violation o c d.2 with Some e => Refused e | None => Done (c, exec_rows o d.2) end.
Fixpoint run (ops : list Op) (d : Database) : Outcome Database :=
  match ops with [] => Done d | o :: ops => d' ← execute o d; run ops d' end.

(** The catalogs of a run and its rows can be followed apart. *)
Fixpoint run_catalog (ops : list Op) (c : Catalog) : Outcome Catalog :=
  match ops with [] => Done c | o :: ops => c' ← exec_catalog o c; run_catalog ops c' end.
Fixpoint run_rows (ops : list Op) (c : Catalog) (db : Db) : option SqlError * Db :=
  match ops with
  | [] => (None, db)
  | o :: ops =>
    match exec_catalog o c with
    | Refused e => (Some e, db)
    | Done c' => match violation o c' db with Some e => (Some e, db) | None => run_rows ops c' (exec_rows o db) end
    end
  end.
Lemma run_split ops c db c' : run_catalog ops c = Done c' ->
  run ops (c, db) = match run_rows ops c db with (None, db') => Done (c', db') | (Some e, _) => Refused e end.
Proof.
  revert c db. induction ops as [|o ops IH]; cbn; intros c db H; [by injection H as ->|].
  unfold execute. cbn. destruct (exec_catalog o c) as [c1|e]; cbn in H |- *; [|discriminate H].
  destruct (violation o c1 db); [done|]. by apply IH.
Qed.
Lemma run_app ops1 ops2 d : run (ops1 ++ ops2) d = d' ← run ops1 d; run ops2 d'.
Proof. revert d. induction ops1 as [|o ops1 IH]; cbn; intros d; [done|]. destruct (execute o d); cbn; [apply IH|done]. Qed.

(** ** What a catalog asks of the rows of a table *)

Definition checks (c : Catalog) (t : string) : list Cond :=
  match ca_tables c !! t with
  | Some d => omap (fun p => match p.2 with CheckConstraint k => Some k | _ => None end) (map_to_list (tb_constraints d))
  | None => []
  end.
Definition accepts (c : Catalog) (t : string) (r : Row) : bool := negb (List.existsb (fun k => check_rejects k r) (checks c t)).
Definition unique_keys (c : Catalog) (t : string) : list Key :=
  match ca_tables c !! t with
  | Some d =>
      omap (fun p => match p.2 with PrimaryKeyConstraint cols | UniqueConstraint cols => Some (key d cols None) | _ => None end)
        (map_to_list (tb_constraints d))
      ++ omap (fun p => if (ix_table p.2 == t) && ix_unique p.2 then Some (key d (ix_columns p.2) (ix_where p.2)) else None)
           (map_to_list (ca_indexes c))
  | None => []
  end.
(** A new row would break a unique key of the table. *)
Definition conflicts (c : Catalog) (t : string) (rows : list Row) (r : Row) : bool :=
  row_exists (fun s => List.existsb (fun k => clash k r s) (unique_keys c t)) rows.

(** Statements the rows of a table have no say in. *)
Definition quiet (o : Op) : bool :=
  match o with
  | add_column _ _ k => col_nullable k || is_some (col_default k)
  | create_constraint _ _ _ | create_index _ _ _ true _ => false
  | _ => true
  end.
Definition rows_after (ops : list Op) (db : Db) : Db := fold_left (fun db o => exec_rows o db) ops db.
Lemma violation_quiet o c db : quiet o = true -> violation o c db = None.
Proof.
  destruct o; cbn; try done; intros H.
  - by destruct (col_nullable d), (col_default d).
  - by destruct unique.
Qed.
Lemma run_quiet ops c c' db : List.forallb quiet ops = true -> run_catalog ops c = Done c' ->
  run ops (c, db) = Done (c', rows_after ops db).
Proof.
  revert c db. induction ops as [|o ops IH]; cbn; intros c db Hq H; [by injection H as ->|].
  apply andb_true_iff in Hq as [Ho Hq]. unfold execute. cbn.
  destruct (exec_catalog o c) as [c1|e]; cbn in H |- *; [|discriminate H].
  rewrite violation_quiet by done. cbn. by apply IH.
Qed.
Lemma run_step o ops c c' db : exec_catalog o c = Done c' -> violation o c' db = None ->
  run (o :: ops) (c, db) = run ops (c', exec_rows o db).
Proof. intros H1 H2. cbn. unfold execute. cbn. rewrite H1. cbn. by rewrite H2. Qed.
