(* ===== verification/Revisions.v ===== *)
(** The revisions of migrations/versions as lists of statements, and the runs of alembic through them.

    [upgrade] and [downgrade] of a revision are what its two functions hand to [op], in their order; an
    [op.execute] of text is the statement of that text.  The rows a revision writes are those of Migrations;
    [org_ids], [catalog_ids] and [history_ids] are the values of [gen_random_uuid()] in them. *)
From S2P Require Import Prelude PyText Entity Models Sql Rows Ddl Migrations.

(** ** 0001_prepare_auth_schema *)

Definition up_0001 : list Op := [CREATE_EXTENSION "pgcrypto"; CREATE_EXTENSION "citext"; CREATE_SCHEMA].
Definition down_0001 : list Op := [DROP_SCHEMA_CASCADE].

(** ** 349e932027c8_create_persistence_foundation *)

Definition create_idempotency_records : list Op :=
  [create_table "idempotency_records" [
     defaulted "idempotency_record_id" Uuid (Expression "gen_random_uuid()"); required "actor_id" (Varchar 128);
     required "route" (Varchar 180); required "key_hash" (Varchar 128); required "request_hash" (Varchar 128);
     nullable "response_status" Integer; nullable "response_reference" Text;
     defaulted "created_at" DateTime (Expression "now()"); required "expires_at" DateTime;
     check_ (op_f "ck_idempotency_records_expiry_after_creation") (Col "expires_at" >. Col "created_at");
     primary_key (op_f "pk_idempotency_records") ["idempotency_record_id"];
     unique_key (op_f "uq_idempotency_records_actor_id") ["actor_id"; "route"; "key_hash"]];
   create_index "ix_idempotency_expiry" "idempotency_records" ["expires_at"] false None].
Definition create_organizations : list Op :=
  [create_table "organizations" [
     defaulted "org_id" Uuid (Expression "gen_random_uuid()"); required "name" (Varchar 180);
     required "slug" (Varchar 100); defaulted "state" (Varchar 24) (Quoted "active");
     defaulted "subscription_metadata" JSONB (Quoted "{}"); defaulted "created_at" DateTime (Expression "now()");
     defaulted "updated_at" DateTime (Expression "now()");
     check_ (op_f "ck_organizations_state_valid") (In_ (Col "state") ["active"; "suspended"; "closed"]);
     primary_key (op_f "pk_organizations") ["org_id"]; unique_key (op_f "uq_organizations_slug") ["slug"]]].
Definition create_outbox_events : list Op :=
  [create_table "outbox_events" [
     defaulted "outbox_event_id" Uuid (Expression "gen_random_uuid()"); required "event_type" (Varchar 120);
     required "aggregate_type" (Varchar 80); required "aggregate_id" Uuid; required "payload" JSONB;
     required "idempotency_key" (Varchar 128); defaulted "state" (Varchar 24) (Quoted "pending");
     defaulted "available_at" DateTime (Expression "now()"); defaulted "attempts" Integer (Quoted "0");
     nullable "claimed_at" DateTime; nullable "published_at" DateTime; nullable "last_error_code" (Varchar 80);
     defaulted "created_at" DateTime (Expression "now()");
     check_ (op_f "ck_outbox_events_state_valid") (In_ (Col "state") ["pending"; "processing"; "published"; "failed"]);
     primary_key (op_f "pk_outbox_events") ["outbox_event_id"];
     unique_key (op_f "uq_outbox_events_idempotency_key") ["idempotency_key"]];
   create_index "ix_outbox_events_available" "outbox_events" ["state"; "available_at"] false None].
Definition create_role_permission_catalog : list Op :=
  [create_table "role_permission_catalog" [
     defaulted "catalog_id" Uuid (Expression "gen_random_uuid()"); required "module" (Varchar 80);
     required "role" (Varchar 80); required "permission" (Varchar 120); defaulted "version" Integer (Quoted "1");
     defaulted "active" Boolean (Expression "true"); defaulted "created_at" DateTime (Expression "now()");
     defaulted "updated_at" DateTime (Expression "now()");
     primary_key (op_f "pk_role_permission_catalog") ["catalog_id"];
     unique_key (op_f "uq_role_permission_catalog_module") ["module"; "role"; "permission"; "version"]]].
Definition create_users : list Op :=
  [create_table "users" [
     defaulted "user_id" Uuid (Expression "gen_random_uuid()"); nullable "email" CITEXT;
     nullable "given_name" (Varchar 120); nullable "family_name" (Varchar 120); nullable "phone_e164" (Varchar 32);
     defaulted "state" (Varchar 24) (Quoted "pending"); defaulted "version" Integer (Quoted "1");
     nullable "anonymized_at" DateTime; defaulted "created_at" DateTime (Expression "now()");
     defaulted "updated_at" DateTime (Expression "now()");
     check_ (op_f "ck_users_state_valid")
       (In_ (Col "state") ["pending"; "active"; "locked"; "suspended"; "disabled"; "anonymized"]);
     primary_key (op_f "pk_users") ["user_id"]];
   create_index "uq_users_email_active" "users" ["email"] true (Some (IsNull (Col "anonymized_at"))%sql)].
Definition create_audit_logs : list Op :=
  [create_table "audit_logs" [
     defaulted "audit_id" Uuid (Expression "gen_random_uuid()"); nullable "actor_user_id" Uuid;
     nullable "subject_user_id" Uuid; nullable "org_id" Uuid; required "event_type" (Varchar 120);
     required "outcome" (Varchar 24); required "correlation_id" Uuid; nullable "ip_address" INET;
     nullable "user_agent_hash" (Varchar 128); defaulted "metadata" JSONB (Quoted "{}");
     nullable "previous_hash" (Varchar 128); nullable "record_hash" (Varchar 128);
     defaulted "occurred_at" DateTime (Expression "now()");
     check_ (op_f "ck_audit_logs_outcome_valid") (In_ (Col "outcome") ["success"; "failure"; "denied"]);
     foreign_key (op_f "fk_audit_logs_actor_user_id_users") ["actor_user_id"] "users" ["user_id"] SetNull;
     foreign_key (op_f "fk_audit_logs_org_id_organizations") ["org_id"] "organizations" ["org_id"] SetNull;
     foreign_key (op_f "fk_audit_logs_subject_user_id_users") ["subject_user_id"] "users" ["user_id"] SetNull;
     primary_key (op_f "pk_audit_logs") ["audit_id"]];
   create_index "ix_audit_logs_org_cursor" "audit_logs" ["org_id"; "occurred_at"; "audit_id"] false None;
   create_index "ix_audit_logs_subject_cursor" "audit_logs" ["subject_user_id"; "occurred_at"; "audit_id"] false None;
   create_index "ix_auth_audit_logs_actor_user_id" "audit_logs" ["actor_user_id"] false None;
   create_index "ix_auth_audit_logs_org_id" "audit_logs" ["org_id"] false None;
   create_index "ix_auth_audit_logs_subject_user_id" "audit_logs" ["subject_user_id"] false None].
Definition create_ephemeral_tokens : list Op :=
  [create_table "ephemeral_tokens" [
     defaulted "ephemeral_token_id" Uuid (Expression "gen_random_uuid()"); nullable "user_id" Uuid;
     required "token_hash" (Varchar 128); required "purpose" (Varchar 40); defaulted "metadata" JSONB (Quoted "{}");
     defaulted "created_at" DateTime (Expression "now()"); required "expires_at" DateTime;
     nullable "consumed_at" DateTime;
     check_ (op_f "ck_ephemeral_tokens_purpose_valid")
       (In_ (Col "purpose") ["email_verify"; "phone_verify"; "password_reset"; "invite"]);
     check_ (op_f "ck_ephemeral_tokens_expiry_after_creation") (Col "expires_at" >. Col "created_at");
     foreign_key (op_f "fk_ephemeral_tokens_user_id_users") ["user_id"] "users" ["user_id"] Cascade;
     primary_key (op_f "pk_ephemeral_tokens") ["ephemeral_token_id"];
     unique_key (op_f "uq_ephemeral_tokens_token_hash") ["token_hash"]];
   create_index "ix_auth_ephemeral_tokens_user_id" "ephemeral_tokens" ["user_id"] false None;
   create_index "ix_ephemeral_tokens_user_active" "ephemeral_tokens" ["user_id"; "purpose"; "expires_at"] false None].
Definition create_gdpr_requests : list Op :=
  [create_table "gdpr_requests" [
     defaulted "gdpr_request_id" Uuid (Expression "gen_random_uuid()"); required "user_id" Uuid;
     required "request_type" (Varchar 24); defaulted "state" (Varchar 24) (Quoted "requested");
     defaulted "requested_at" DateTime (Expression "now()"); nullable "completed_at" DateTime;
     nullable "artifact_reference" Text; nullable "artifact_expires_at" DateTime;
     nullable "failure_code" (Varchar 80);
     check_ (op_f "ck_gdpr_requests_type_valid") (In_ (Col "request_type") ["export"; "erasure"]);
     check_ (op_f "ck_gdpr_requests_state_valid")
       (In_ (Col "state") ["requested"; "processing"; "completed"; "failed"; "cancelled"]);
     foreign_key (op_f "fk_gdpr_requests_user_id_users") ["user_id"] "users" ["user_id"] Restrict;
     primary_key (op_f "pk_gdpr_requests") ["gdpr_request_id"]];
   create_index "ix_gdpr_requests_user_state" "gdpr_requests" ["user_id"; "state"] false None].
Definition create_governed_requests : list Op :=
  [create_table "governed_requests" [
     defaulted "governed_request_id" Uuid (Expression "gen_random_uuid()"); nullable "org_id" Uuid;
     required "request_type" (Varchar 80); required "target_user_id" Uuid; required "initiator_user_id" Uuid;
     nullable "approver_user_id" Uuid; defaulted "state" (Varchar 24) (Quoted "pending");
     defaulted "initiated_at" DateTime (Expression "now()"); required "execute_after" DateTime;
     nullable "ticket_reference" (Varchar 120); defaulted "result_metadata" JSONB (Quoted "{}");
     check_ (op_f "ck_governed_requests_state_valid")
       (In_ (Col "state") ["pending"; "approved"; "rejected"; "executed"; "expired"; "cancelled"]);
     check_ (op_f "ck_governed_requests_execution_not_early") (Col "execute_after" >=. Col "initiated_at");
     check_ (op_f "ck_governed_requests_different_actors") (Col "initiator_user_id" <>. Col "approver_user_id");
     foreign_key (op_f "fk_governed_requests_approver_user_id_users")
       ["approver_user_id"] "users" ["user_id"] Restrict;
     foreign_key (op_f "fk_governed_requests_initiator_user_id_users")
       ["initiator_user_id"] "users" ["user_id"] Restrict;
     foreign_key (op_f "fk_governed_requests_org_id_organizations") ["org_id"] "organizations" ["org_id"] SetNull;
     foreign_key (op_f "fk_governed_requests_target_user_id_users") ["target_user_id"] "users" ["user_id"] Cascade;
     primary_key (op_f "pk_governed_requests") ["governed_request_id"]];
   create_index "ix_auth_governed_requests_org_id" "governed_requests" ["org_id"] false None;
   create_index "ix_governed_requests_pending" "governed_requests" ["state"; "execute_after"] false None].
Definition create_identities : list Op :=
  [create_table "identities" [
     defaulted "identity_id" Uuid (Expression "gen_random_uuid()"); required "user_id" Uuid;
     required "provider" (Varchar 24); required "provider_subject" (Varchar 255); nullable "password_hash" Text;
     defaulted "verified" Boolean (Expression "false"); nullable "last_used_at" DateTime;
     defaulted "created_at" DateTime (Expression "now()"); defaulted "updated_at" DateTime (Expression "now()");
     check_ (op_f "ck_identities_password_hash_matches_provider")
       ((Col "provider" =. Str "password" AND IsNotNull (Col "password_hash"))
        OR (Col "provider" <>. Str "password" AND IsNull (Col "password_hash")));
     check_ (op_f "ck_identities_provider_valid") (In_ (Col "provider") ["password"; "google"; "apple"; "phone"]);
     foreign_key (op_f "fk_identities_user_id_users") ["user_id"] "users" ["user_id"] Cascade;
     primary_key (op_f "pk_identities") ["identity_id"];
     unique_key (op_f "uq_identities_provider") ["provider"; "provider_subject"]];
   create_index "ix_auth_identities_user_id" "identities" ["user_id"] false None].
Definition create_invitations : list Op :=
  [create_table "invitations" [
     defaulted "invitation_id" Uuid (Expression "gen_random_uuid()"); required "org_id" Uuid;
     required "invitee_email" CITEXT; required "token_hash" (Varchar 128);
     defaulted "proposed_roles" JSONB (Quoted "[]"); required "issued_by_user_id" Uuid;
     defaulted "state" (Varchar 24) (Quoted "pending"); defaulted "created_at" DateTime (Expression "now()");
     required "expires_at" DateTime; nullable "accepted_at" DateTime;
     check_ (op_f "ck_invitations_state_valid") (In_ (Col "state") ["pending"; "accepted"; "expired"; "revoked"]);
     check_ (op_f "ck_invitations_expiry_after_creation") (Col "expires_at" >. Col "created_at");
     foreign_key (op_f "fk_invitations_issued_by_user_id_users") ["issued_by_user_id"] "users" ["user_id"] Restrict;
     foreign_key (op_f "fk_invitations_org_id_organizations") ["org_id"] "organizations" ["org_id"] Cascade;
     primary_key (op_f "pk_invitations") ["invitation_id"];
     unique_key (op_f "uq_invitations_token_hash") ["token_hash"]];
   create_index "ix_auth_invitations_org_id" "invitations" ["org_id"] false None;
   create_index "ix_invitations_org_pending" "invitations" ["org_id"; "state"; "expires_at"] false None].
Definition create_mfa_devices : list Op :=
  [create_table "mfa_devices" [
     defaulted "mfa_id" Uuid (Expression "gen_random_uuid()"); required "user_id" Uuid;
     required "factor_type" (Varchar 32); nullable "encrypted_secret" LargeBinary;
     defaulted "status" (Varchar 24) (Quoted "pending"); nullable "label" (Varchar 120);
     nullable "verified_at" DateTime; nullable "revoked_at" DateTime;
     defaulted "created_at" DateTime (Expression "now()"); defaulted "updated_at" DateTime (Expression "now()");
     check_ (op_f "ck_mfa_devices_secret_matches_factor_type")
       ((In_ (Col "factor_type") ["totp"; "backup_codes"] AND IsNotNull (Col "encrypted_secret"))
        OR (NotIn (Col "factor_type") ["totp"; "backup_codes"] AND IsNull (Col "encrypted_secret")));
     check_ (op_f "ck_mfa_devices_factor_type_valid")
       (In_ (Col "factor_type") ["totp"; "sms"; "email"; "passkey"; "backup_codes"]);
     check_ (op_f "ck_mfa_devices_status_valid") (In_ (Col "status") ["pending"; "active"; "revoked"]);
     foreign_key (op_f "fk_mfa_devices_user_id_users") ["user_id"] "users" ["user_id"] Cascade;
     primary_key (op_f "pk_mfa_devices") ["mfa_id"]];
   create_index "ix_auth_mfa_devices_user_id" "mfa_devices" ["user_id"] false None].
Definition create_refresh_token_families : list Op :=
  [create_table "refresh_token_families" [
     defaulted "family_id" Uuid (Expression "gen_random_uuid()"); required "user_id" Uuid;
     required "device_fingerprint_hash" (Varchar 128); required "client_id" (Varchar 80);
     defaulted "created_at" DateTime (Expression "now()"); required "absolute_expires_at" DateTime;
     nullable "revoked_at" DateTime; nullable "revocation_reason" (Varchar 80);
     check_ (op_f "ck_refresh_token_families_expiry_after_creation") (Col "absolute_expires_at" >. Col "created_at");
     foreign_key (op_f "fk_refresh_token_families_user_id_users") ["user_id"] "users" ["user_id"] Cascade;
     primary_key (op_f "pk_refresh_token_families") ["family_id"]];
   create_index "ix_refresh_families_user_active" "refresh_token_families" ["user_id"; "revoked_at"] false None].
Definition create_trusted_devices : list Op :=
  [create_table "trusted_devices" [
     defaulted "trusted_device_id" Uuid (Expression "gen_random_uuid()"); required "user_id" Uuid;
     required "fingerprint_hash" (Varchar 128); defaulted "trust_state" (Varchar 24) (Quoted "unknown");
     nullable "last_ip_address" INET; defaulted "risk_metadata" JSONB (Quoted "{}");
     defaulted "first_seen_at" DateTime (Expression "now()");
     defaulted "last_seen_at" DateTime (Expression "now()");
     check_ (op_f "ck_trusted_devices_state_valid") (In_ (Col "trust_state") ["unknown"; "trusted"; "blocked"]);
     foreign_key (op_f "fk_trusted_devices_user_id_users") ["user_id"] "users" ["user_id"] Cascade;
     primary_key (op_f "pk_trusted_devices") ["trusted_device_id"];
     unique_key (op_f "uq_trusted_devices_user_id") ["user_id"; "fingerprint_hash"]]].
Definition create_user_role_bindings : list Op :=
  [create_table "user_role_bindings" [
     defaulted "binding_id" Uuid (Expression "gen_random_uuid()"); required "user_id" Uuid; required "org_id" Uuid;
     required "catalog_id" Uuid; required "granted_by_user_id" Uuid;
     defaulted "granted_at" DateTime (Expression "now()"); nullable "revoked_at" DateTime;
     foreign_key (op_f "fk_user_role_bindings_catalog_id_role_permission_catalog")
       ["catalog_id"] "role_permission_catalog" ["catalog_id"] Restrict;
     foreign_key (op_f "fk_user_role_bindings_granted_by_user_id_users")
       ["granted_by_user_id"] "users" ["user_id"] Restrict;
     foreign_key (op_f "fk_user_role_bindings_org_id_organizations") ["org_id"] "organizations" ["org_id"] Cascade;
     foreign_key (op_f "fk_user_role_bindings_user_id_users") ["user_id"] "users" ["user_id"] Cascade;
     primary_key (op_f "pk_user_role_bindings") ["binding_id"]];
   create_index "ix_auth_user_role_bindings_org_id" "user_role_bindings" ["org_id"] false None;
   create_index "uq_role_bindings_active" "user_role_bindings" ["user_id"; "org_id"; "catalog_id"] true (Some (IsNull (Col "revoked_at"))%sql)].
Definition create_password_history : list Op :=
  [create_table "password_history" [
     defaulted "history_id" Uuid (Expression "gen_random_uuid()"); required "identity_id" Uuid;
     required "password_hash" Text; defaulted "created_at" DateTime (Expression "now()");
     foreign_key (op_f "fk_password_history_identity_id_identities")
       ["identity_id"] "identities" ["identity_id"] Cascade;
     primary_key (op_f "pk_password_history") ["history_id"]];
   create_index "ix_password_history_identity_created" "password_history" ["identity_id"; "created_at"] false None].
Definition create_refresh_tokens : list Op :=
  [create_table "refresh_tokens" [
     defaulted "refresh_token_id" Uuid (Expression "gen_random_uuid()"); required "family_id" Uuid;
     required "token_hash" (Varchar 128); required "generation" Integer;
     defaulted "issued_at" DateTime (Expression "now()"); nullable "used_at" DateTime;
     nullable "revoked_at" DateTime; required "expires_at" DateTime;
     check_ (op_f "ck_refresh_tokens_expiry_after_issue") (Col "expires_at" >. Col "issued_at");
     check_ (op_f "ck_refresh_tokens_generation_nonnegative") (Col "generation" >=. Num 0);
     foreign_key (op_f "fk_refresh_tokens_family_id_refresh_token_families")
       ["family_id"] "refresh_token_families" ["family_id"] Cascade;
     primary_key (op_f "pk_refresh_tokens") ["refresh_token_id"];
     unique_key (op_f "uq_refresh_tokens_family_id") ["family_id"; "generation"];
     unique_key (op_f "uq_refresh_tokens_token_hash") ["token_hash"]];
   create_index "ix_auth_refresh_tokens_family_id" "refresh_tokens" ["family_id"] false None].
Definition create_sessions : list Op :=
  [create_table "sessions" [
     defaulted "session_id" Uuid (Expression "gen_random_uuid()"); required "family_id" Uuid;
     required "user_id" Uuid; nullable "org_id" Uuid; required "access_jti" Uuid; required "client_id" (Varchar 80);
     required "device_fingerprint_hash" (Varchar 128); nullable "ip_address" INET;
     defaulted "created_at" DateTime (Expression "now()");
     defaulted "last_activity_at" DateTime (Expression "now()"); required "expires_at" DateTime;
     nullable "revoked_at" DateTime;
     check_ (op_f "ck_sessions_expiry_after_creation") (Col "expires_at" >. Col "created_at");
     foreign_key (op_f "fk_sessions_family_id_refresh_token_families")
       ["family_id"] "refresh_token_families" ["family_id"] Cascade;
     foreign_key (op_f "fk_sessions_org_id_organizations") ["org_id"] "organizations" ["org_id"] SetNull;
     foreign_key (op_f "fk_sessions_user_id_users") ["user_id"] "users" ["user_id"] Cascade;
     primary_key (op_f "pk_sessions") ["session_id"]; unique_key (op_f "uq_sessions_access_jti") ["access_jti"];
     unique_key (op_f "uq_sessions_family_id") ["family_id"]];
   create_index "ix_auth_sessions_org_id" "sessions" ["org_id"] false None;
   create_index "ix_sessions_org_active" "sessions" ["org_id"; "revoked_at"; "expires_at"] false None;
   create_index "ix_sessions_user_active" "sessions" ["user_id"; "revoked_at"; "expires_at"] false None].
Definition create_webauthn_credentials : list Op :=
  [create_table "webauthn_credentials" [
     required "credential_id" LargeBinary; required "mfa_id" Uuid; required "public_key" LargeBinary;
     defaulted "sign_count" BigInteger (Quoted "0"); defaulted "transports" JSONB (Quoted "[]");
     defaulted "backup_eligible" Boolean (Expression "false");
     defaulted "backup_state" Boolean (Expression "false"); defaulted "created_at" DateTime (Expression "now()");
     defaulted "updated_at" DateTime (Expression "now()");
     foreign_key (op_f "fk_webauthn_credentials_mfa_id_mfa_devices") ["mfa_id"] "mfa_devices" ["mfa_id"] Cascade;
     primary_key (op_f "pk_webauthn_credentials") ["credential_id"];
     unique_key (op_f "uq_webauthn_credentials_mfa_id") ["mfa_id"]]].
Definition upgrade_349e : list Op :=
  create_idempotency_records ++ create_organizations ++ create_outbox_events ++ create_role_permission_catalog ++
  create_users ++ create_audit_logs ++ create_ephemeral_tokens ++ create_gdpr_requests ++ create_governed_requests ++
  create_identities ++ create_invitations ++ create_mfa_devices ++ create_refresh_token_families ++ create_trusted_devices ++
  create_user_role_bindings ++ create_password_history ++ create_refresh_tokens ++ create_sessions ++
  create_webauthn_credentials.
Definition downgrade_349e : list Op := [
   drop_table "webauthn_credentials"; drop_index "ix_sessions_user_active" "sessions";
   drop_index "ix_sessions_org_active" "sessions"; drop_index "ix_auth_sessions_org_id" "sessions";
   drop_table "sessions"; drop_index "ix_auth_refresh_tokens_family_id" "refresh_tokens";
   drop_table "refresh_tokens"; drop_index "ix_password_history_identity_created" "password_history";
   drop_table "password_history"; drop_index "uq_role_bindings_active" "user_role_bindings";
   drop_index "ix_auth_user_role_bindings_org_id" "user_role_bindings"; drop_table "user_role_bindings";
   drop_table "trusted_devices"; drop_index "ix_refresh_families_user_active" "refresh_token_families";
   drop_table "refresh_token_families"; drop_index "ix_auth_mfa_devices_user_id" "mfa_devices";
   drop_table "mfa_devices"; drop_index "ix_invitations_org_pending" "invitations";
   drop_index "ix_auth_invitations_org_id" "invitations"; drop_table "invitations";
   drop_index "ix_auth_identities_user_id" "identities"; drop_table "identities";
   drop_index "ix_governed_requests_pending" "governed_requests";
   drop_index "ix_auth_governed_requests_org_id" "governed_requests"; drop_table "governed_requests";
   drop_index "ix_gdpr_requests_user_state" "gdpr_requests"; drop_table "gdpr_requests";
   drop_index "ix_ephemeral_tokens_user_active" "ephemeral_tokens";
   drop_index "ix_auth_ephemeral_tokens_user_id" "ephemeral_tokens"; drop_table "ephemeral_tokens";
   drop_index "ix_auth_audit_logs_subject_user_id" "audit_logs";
   drop_index "ix_auth_audit_logs_org_id" "audit_logs"; drop_index "ix_auth_audit_logs_actor_user_id" "audit_logs";
   drop_index "ix_audit_logs_subject_cursor" "audit_logs"; drop_index "ix_audit_logs_org_cursor" "audit_logs";
   drop_table "audit_logs"; drop_index "uq_users_email_active" "users"; drop_table "users";
   drop_table "role_permission_catalog"; drop_index "ix_outbox_events_available" "outbox_events";
   drop_table "outbox_events"; drop_table "organizations"; drop_index "ix_idempotency_expiry" "idempotency_records";
   drop_table "idempotency_records"].

(** ** 0003_secure_roles_rls_audit *)

Definition TENANT_TABLES : list string :=
  ["organizations"; "invitations"; "user_role_bindings"; "sessions"; "governed_requests"; "audit_logs"].
Definition DML : list string := ["SELECT"; "INSERT"; "UPDATE"; "DELETE"].
Definition create_policy (name t : string) (c : Cond) : Op := CREATE_POLICY name t "auth_app" c c.
Definition in_current_org : Cond := Col "org_id" =. CurrentOrg.
Definition create_roles : list Op :=
  List.map CREATE_ROLE ["auth_migration"; "auth_app"; "auth_audit_reader"; "auth_break_glass"].
Definition grant_roles : list Op :=
  [GRANT_USAGE ["auth_app"; "auth_audit_reader"]; GRANT_ON_ALL_TABLES DML "auth_app";
   GRANT ["SELECT"] "audit_logs" "auth_audit_reader";
   REVOKE ["UPDATE"; "DELETE"; "TRUNCATE"] "audit_logs" "auth_app";
   REVOKE ["INSERT"; "UPDATE"; "DELETE"; "TRUNCATE"] "role_permission_catalog" "auth_app";
   ALTER_DEFAULT_PRIVILEGES DML "auth_app"].
Definition immutable_audit : list Op :=
  [CREATE_FUNCTION "reject_audit_mutation" [] false RaiseAlways;
   CREATE_TRIGGER "audit_logs_immutable" "audit_logs" [("UPDATE", []); ("DELETE", [])] "reject_audit_mutation"].
Definition isolate_tables : list Op :=
  List.flat_map (fun t => [ENABLE_ROW_LEVEL_SECURITY t; FORCE_ROW_LEVEL_SECURITY t]) TENANT_TABLES.
Definition organizations_policy_0003 : Op :=
  create_policy "organizations_tenant_isolation" "organizations" in_current_org.
Definition tenant_policies : list Op :=
  organizations_policy_0003
  :: List.map (fun t => create_policy (t +:+ "_tenant_isolation") t in_current_org) ["invitations"; "user_role_bindings"].
Definition sessions_policy : Op :=
  create_policy "sessions_tenant_isolation" "sessions"
    (in_current_org OR (IsNull (Col "org_id") AND Col "user_id" =. CurrentUser)).
Definition governed_requests_policy_0003 : Op :=
  create_policy "governed_requests_tenant_isolation" "governed_requests"
    (in_current_org OR (IsNull (Col "org_id") AND Col "target_user_id" =. CurrentUser)).
Definition audit_logs_condition : Cond :=
  in_current_org
  OR (IsNull (Col "org_id") AND (Col "subject_user_id" =. CurrentUser OR Col "actor_user_id" =. CurrentUser)).
Definition audit_logs_policy_0003 : Op := create_policy "audit_logs_tenant_isolation" "audit_logs" audit_logs_condition.
Definition up_0003 : list Op :=
  create_roles ++ grant_roles ++ immutable_audit ++ isolate_tables ++ tenant_policies
  ++ [sessions_policy; governed_requests_policy_0003; audit_logs_policy_0003].
Definition down_0003 : list Op :=
  List.flat_map (fun t => [DROP_POLICY_IF_EXISTS (t +:+ "_tenant_isolation") t; DISABLE_ROW_LEVEL_SECURITY t])
    (List.rev TENANT_TABLES)
  ++ [DROP_TRIGGER_IF_EXISTS "audit_logs_immutable" "audit_logs"; DROP_FUNCTION_IF_EXISTS "reject_audit_mutation";
      REVOKE_ALL_ON_ALL_TABLES "auth_app"; REVOKE_ALL_ON_SCHEMA ["auth_app"; "auth_audit_reader"]]
  ++ List.map DROP_ROLE_IF_EXISTS ["auth_break_glass"; "auth_audit_reader"; "auth_app"; "auth_migration"].

(** ** 0004_enforce_catalog_and_version *)

Definition require_active_role_catalog_body : Body :=
  RaiseIfExists false "role_permission_catalog" (Col "catalog_id" =. New "catalog_id" AND Col "active" =. Bool true).
Definition up_0004 : list Op :=
  [create_constraint "users" (Given "version_positive") (CheckConstraint (Col "version" >=. Num 1));
   CREATE_FUNCTION "require_active_role_catalog" [] false require_active_role_catalog_body;
   CREATE_TRIGGER "user_role_bindings_active_catalog" "user_role_bindings"
     [("INSERT", []); ("UPDATE", ["catalog_id"])] "require_active_role_catalog"].
Definition down_0004 : list Op :=
  [DROP_TRIGGER_IF_EXISTS "user_role_bindings_active_catalog" "user_role_bindings";
   DROP_FUNCTION_IF_EXISTS "require_active_role_catalog";
   DROP_CONSTRAINT_IF_EXISTS "users" "ck_users_ck_users_version_positive";
   DROP_CONSTRAINT_IF_EXISTS "users" "ck_users_version_positive"].

(** ** 0005 to 0007 *)

Definition up_0005 : list Op :=
  [create_index "uq_users_phone_active" "users" ["phone_e164"] true
     (Some (IsNotNull (Col "phone_e164") AND IsNull (Col "anonymized_at"))%sql)].
Definition down_0005 : list Op := [drop_index "uq_users_phone_active" "users"].

Definition provider_valid (providers : list string) : Op :=
  create_constraint "identities" (op_f "ck_identities_provider_valid") (CheckConstraint (In_ (Col "provider") providers)).
Definition up_0006 : list Op :=
  [drop_constraint "identities" "ck_identities_provider_valid";
   provider_valid ["password"; "google"; "apple"; "microsoft"; "phone"]].
Definition down_0006 : list Op :=
  [drop_constraint "identities" "ck_identities_provider_valid"; provider_valid ["password"; "google"; "apple"; "phone"]].

Definition up_0007 : list Op :=
  [add_column "mfa_devices" "last_totp_step" (MkColumn BigInteger true None);
   add_column "mfa_devices" "last_used_at" (MkColumn DateTime true None)].
Definition down_0007 : list Op := [drop_column "mfa_devices" "last_used_at"; drop_column "mfa_devices" "last_totp_step"].

(** ** 0008_workspaces_and_referrals *)

Definition add_workspace_columns : list Op :=
  [add_column "organizations" "workspace_type" (MkColumn (Varchar 24) false (Some (Quoted "organization")));
   add_column "organizations" "personal_owner_user_id" (MkColumn Uuid true None);
   create_constraint "organizations" (Given "fk_organizations_personal_owner_user_id_users")
     (ForeignKeyConstraint ["personal_owner_user_id"] "users" ["user_id"] Cascade);
   create_index "ix_auth_organizations_personal_owner_user_id" "organizations" ["personal_owner_user_id"] false None;
   create_index "uq_organizations_personal_owner" "organizations" ["personal_owner_user_id"] true
     (Some (Col "workspace_type" =. Str "personal")%sql)].
Definition owner_matches_workspace_type : Cond :=
  (Col "workspace_type" =. Str "personal" AND IsNotNull (Col "personal_owner_user_id"))
  OR (Col "workspace_type" =. Str "organization" AND IsNull (Col "personal_owner_user_id")).
Definition owner_constraint : Op :=
  create_constraint "organizations" (Given "owner_matches_workspace_type") (CheckConstraint owner_matches_workspace_type).
Definition membership_body : Body :=
  SelectExists "user_role_bindings"
    (Col "org_id" =. Param "target_org_id" AND Col "user_id" =. Param "target_user_id" AND IsNull (Col "revoked_at")).
Definition invitation_org_body : Body :=
  SelectFirst "org_id" "invitations"
    (Col "token_hash" =. Param "candidate_hash" AND Col "state" =. Str "pending" AND Col "expires_at" >. Now).
Definition collaboration_body : Body :=
  RaiseIfExists true "organizations" (Col "org_id" =. New "org_id" AND Col "workspace_type" =. Str "personal").
Definition private_function (f : string) (params : list string) (b : Body) : list Op :=
  [CREATE_FUNCTION f params true b; REVOKE_ALL_ON_FUNCTION f "PUBLIC"; GRANT_EXECUTE f "auth_app"].
Definition collaboration_guard : list Op :=
  CREATE_FUNCTION "reject_personal_workspace_collaboration" [] false collaboration_body
  :: List.map (fun t => CREATE_TRIGGER (t +:+ "_organization_only") t [("INSERT", []); ("UPDATE", ["org_id"])]
                          "reject_personal_workspace_collaboration") ["invitations"; "user_role_bindings"].
Definition organizations_policy_0008 : Op :=
  create_policy "organizations_tenant_isolation" "organizations"
    ((Col "workspace_type" =. Str "personal" AND Col "personal_owner_user_id" =. CurrentUser)
     OR in_current_org
     OR Call "user_has_org_membership" [Col "org_id"; CurrentUser]).
Definition create_referrals : list Op :=
  [create_table "referrals" [
     defaulted "referral_id" Uuid (Expression "gen_random_uuid()"); required "referrer_user_id" Uuid;
     required "invitee_email" CITEXT; required "token_hash" (Varchar 128); nullable "referred_user_id" Uuid;
     defaulted "state" (Varchar 24) (Quoted "invited"); defaulted "created_at" DateTime (Expression "now()");
     required "expires_at" DateTime; nullable "registered_at" DateTime; nullable "verified_at" DateTime;
     check_ (op_f "ck_referrals_state_valid")
       (In_ (Col "state") ["invited"; "registered"; "verified"; "expired"; "revoked"]);
     check_ (op_f "ck_referrals_expiry_after_creation") (Col "expires_at" >. Col "created_at");
     foreign_key Unnamed ["referrer_user_id"] "users" ["user_id"] Cascade;
     foreign_key Unnamed ["referred_user_id"] "users" ["user_id"] SetNull;
     primary_key Unnamed ["referral_id"]; unique_key Unnamed ["token_hash"]];
   create_index "ix_auth_referrals_referrer_user_id" "referrals" ["referrer_user_id"] false None;
   create_index "ix_auth_referrals_referred_user_id" "referrals" ["referred_user_id"] false None;
   create_index "ix_referrals_referrer_created" "referrals" ["referrer_user_id"; "created_at"] false None;
   create_index "uq_referrals_referred_user" "referrals" ["referred_user_id"] true
     (Some (IsNotNull (Col "referred_user_id"))%sql);
   ENABLE_ROW_LEVEL_SECURITY "referrals"; FORCE_ROW_LEVEL_SECURITY "referrals";
   create_policy "referrals_user_isolation" "referrals"
     (Col "referrer_user_id" =. CurrentUser OR Col "referred_user_id" =. CurrentUser)].
Definition down_0008 : list Op :=
  [DROP_POLICY_IF_EXISTS "referrals_user_isolation" "referrals"; drop_table "referrals";
   DROP_POLICY "organizations_tenant_isolation" "organizations"]
  ++ List.map (fun t => DROP_TRIGGER_IF_EXISTS (t +:+ "_organization_only") t) ["user_role_bindings"; "invitations"]
  ++ [DROP_FUNCTION_IF_EXISTS "reject_personal_workspace_collaboration";
      DROP_FUNCTION_IF_EXISTS "organization_invitation_org"; organizations_policy_0003;
      DROP_FUNCTION_IF_EXISTS "user_has_org_membership";
      drop_constraint "organizations" "ck_organizations_owner_matches_workspace_type";
      drop_index "uq_organizations_personal_owner" "organizations";
      drop_index "ix_auth_organizations_personal_owner_user_id" "organizations";
      drop_constraint "organizations" "fk_organizations_personal_owner_user_id_users";
      drop_column "organizations" "personal_owner_user_id"; drop_column "organizations" "workspace_type"].

(** ** 0009_recovery_governance *)

Definition purpose_valid (purposes : list string) : Op :=
  create_constraint "ephemeral_tokens" (Given "purpose_valid") (CheckConstraint (In_ (Col "purpose") purposes)).
Definition widen_tokens_and_requests : list Op :=
  [drop_constraint "ephemeral_tokens" "ck_ephemeral_tokens_purpose_valid";
   purpose_valid ["email_verify"; "phone_verify"; "password_reset"; "support_recovery"; "invite"];
   add_column "governed_requests" "approved_at" (MkColumn DateTime true None);
   add_column "governed_requests" "executed_at" (MkColumn DateTime true None);
   add_column "governed_requests" "target_user_version" (MkColumn Integer false (Some (Quoted "1")))].
Definition create_staff_role_bindings : list Op :=
  [create_table "staff_role_bindings" [
     defaulted "binding_id" Uuid (Expression "gen_random_uuid()"); required "user_id" Uuid;
     required "role" (Varchar 48); nullable "granted_by_user_id" Uuid;
     defaulted "granted_at" DateTime (Expression "now()"); nullable "revoked_at" DateTime;
     check_ (op_f "ck_staff_role_bindings_role_valid")
       (In_ (Col "role") ["SUPPORT_AGENT_L2"; "SECURITY_SUPERVISOR_L3"; "ACCOUNT_ADMIN"]);
     foreign_key Unnamed ["user_id"] "users" ["user_id"] Cascade;
     foreign_key Unnamed ["granted_by_user_id"] "users" ["user_id"] SetNull;
     primary_key Unnamed ["binding_id"]];
   create_index "ix_auth_staff_role_bindings_user_id" "staff_role_bindings" ["user_id"] false None;
   create_index "uq_staff_role_bindings_active" "staff_role_bindings" ["user_id"; "role"] true
     (Some (IsNull (Col "revoked_at"))%sql);
   REVOKE ["INSERT"; "UPDATE"; "DELETE"; "TRUNCATE"] "staff_role_bindings" "auth_app"].
Definition create_contact_change_requests : list Op :=
  [create_table "contact_change_requests" [
     defaulted "request_id" Uuid (Expression "gen_random_uuid()"); required "user_id" Uuid;
     required "contact_type" (Varchar 16); required "old_value" (Varchar 320); required "new_value" (Varchar 320);
     required "old_code_hash" (Varchar 128); required "new_code_hash" (Varchar 128);
     defaulted "state" (Varchar 24) (Quoted "pending"); defaulted "created_at" DateTime (Expression "now()");
     required "expires_at" DateTime; nullable "old_verified_at" DateTime; nullable "new_verified_at" DateTime;
     nullable "applied_at" DateTime;
     check_ (op_f "ck_contact_change_requests_contact_type_valid") (In_ (Col "contact_type") ["email"; "phone"]);
     check_ (op_f "ck_contact_change_requests_state_valid")
       (In_ (Col "state") ["pending"; "applied"; "expired"; "cancelled"]);
     check_ (op_f "ck_contact_change_requests_expiry_after_creation") (Col "expires_at" >. Col "created_at");
     foreign_key Unnamed ["user_id"] "users" ["user_id"] Cascade; primary_key Unnamed ["request_id"]];
   create_index "ix_auth_contact_change_requests_user_id" "contact_change_requests" ["user_id"] false None;
   create_index "ix_contact_changes_user_pending" "contact_change_requests" ["user_id"; "state"; "expires_at"] false None;
   ENABLE_ROW_LEVEL_SECURITY "contact_change_requests"; FORCE_ROW_LEVEL_SECURITY "contact_change_requests";
   create_policy "contact_change_requests_user_isolation" "contact_change_requests" (Col "user_id" =. CurrentUser)].
Definition is_staff_body : Body :=
  SelectExists "staff_role_bindings" (Col "user_id" =. CurrentUser AND IsNull (Col "revoked_at")).
Definition governed_requests_policy_0009 : list Op :=
  [DROP_POLICY "governed_requests_tenant_isolation" "governed_requests";
   create_policy "governed_requests_tenant_isolation" "governed_requests"
     (Col "target_user_id" =. CurrentUser OR Call "current_user_is_staff" [])].
Definition down_0009 : list Op :=
  [DROP_POLICY "governed_requests_tenant_isolation" "governed_requests"; governed_requests_policy_0003;
   DROP_FUNCTION_IF_EXISTS "current_user_is_staff";
   DROP_POLICY_IF_EXISTS "contact_change_requests_user_isolation" "contact_change_requests";
   DISABLE_ROW_LEVEL_SECURITY "contact_change_requests";
   drop_index "ix_contact_changes_user_pending" "contact_change_requests";
   drop_index "ix_auth_contact_change_requests_user_id" "contact_change_requests";
   drop_table "contact_change_requests"; drop_index "uq_staff_role_bindings_active" "staff_role_bindings";
   drop_index "ix_auth_staff_role_bindings_user_id" "staff_role_bindings"; drop_table "staff_role_bindings";
   drop_column "governed_requests" "target_user_version"; drop_column "governed_requests" "executed_at";
   drop_column "governed_requests" "approved_at";
   drop_constraint "ephemeral_tokens" "ck_ephemeral_tokens_purpose_valid";
   purpose_valid ["email_verify"; "phone_verify"; "password_reset"; "invite"]].

(** ** 0010_audit_query_access *)

Definition has_staff_role_body : Body :=
  SelectExists "staff_role_bindings"
    (Col "user_id" =. CurrentUser AND Col "role" =. Param "required_role" AND IsNull (Col "revoked_at")).
Definition audit_logs_policy_0010 : list Op :=
  [DROP_POLICY "audit_logs_tenant_isolation" "audit_logs";
   CREATE_POLICY "audit_logs_tenant_isolation" "audit_logs" "auth_app"
     (Call "current_user_has_staff_role" [Str "SECURITY_SUPERVISOR_L3"] OR audit_logs_condition) audit_logs_condition].
Definition up_0010 : list Op :=
  private_function "current_user_has_staff_role" ["required_role"] has_staff_role_body ++ audit_logs_policy_0010.
Definition down_0010 : list Op :=
  [DROP_POLICY "audit_logs_tenant_isolation" "audit_logs"; audit_logs_policy_0003;
   DROP_FUNCTION_IF_EXISTS "current_user_has_staff_role"].

(** ** 0011_privacy_export_artifacts and 0012_privacy_erasure_retention *)

Definition create_privacy_export_artifacts : list Op :=
  [create_table "privacy_export_artifacts" [
     defaulted "artifact_id" Uuid (Expression "gen_random_uuid()"); required "gdpr_request_id" Uuid;
     required "user_id" Uuid; required "encrypted_content" LargeBinary; required "content_digest" (Varchar 64);
     defaulted "created_at" DateTime (Expression "now()"); required "expires_at" DateTime;
     foreign_key Unnamed ["gdpr_request_id"] "gdpr_requests" ["gdpr_request_id"] Cascade;
     foreign_key Unnamed ["user_id"] "users" ["user_id"] Cascade;
     primary_key Unnamed ["artifact_id"]; unique_key Unnamed ["gdpr_request_id"]];
   create_index "ix_auth_privacy_export_artifacts_user_id" "privacy_export_artifacts" ["user_id"] false None;
   create_index "ix_privacy_export_artifacts_expiry" "privacy_export_artifacts" ["expires_at"] false None].
Definition user_isolation (t : string) : list Op :=
  [ENABLE_ROW_LEVEL_SECURITY t; FORCE_ROW_LEVEL_SECURITY t;
   create_policy (t +:+ "_user_isolation") t (Col "user_id" =. CurrentUser)].
Definition up_0011 : list Op :=
  [add_column "gdpr_requests" "idempotency_key_hash" (MkColumn (Varchar 128) true None);
   create_constraint "gdpr_requests" (Given "uq_gdpr_requests_user_id")
     (UniqueConstraint ["user_id"; "request_type"; "idempotency_key_hash"])]
  ++ create_privacy_export_artifacts ++ List.flat_map user_isolation ["gdpr_requests"; "privacy_export_artifacts"].
Definition down_0011 : list Op :=
  List.flat_map (fun t => [DROP_POLICY_IF_EXISTS (t +:+ "_user_isolation") t; DISABLE_ROW_LEVEL_SECURITY t])
    ["privacy_export_artifacts"; "gdpr_requests"]
  ++ [drop_index "ix_privacy_export_artifacts_expiry" "privacy_export_artifacts";
      drop_index "ix_auth_privacy_export_artifacts_user_id" "privacy_export_artifacts";
      drop_table "privacy_export_artifacts"; drop_constraint "gdpr_requests" "uq_gdpr_requests_user_id";
      drop_column "gdpr_requests" "idempotency_key_hash"].

Definition up_0012 : list Op := [add_column "gdpr_requests" "backup_purge_due_at" (MkColumn DateTime true None)].
Definition down_0012 : list Op := [drop_column "gdpr_requests" "backup_purge_due_at"].

(** ** The chain

    Each revision names the one before it; alembic applies those from the current revision to its target in
    one transaction. *)

Record Revision := MkRevision {
  revision : string; down_revision : option string; upgrade : list Op; downgrade : list Op }.

Section Chain.
Context (org_ids catalog_ids history_ids : N -> UUID) (now : Time).

Definition up_0008 : list Op :=
  add_workspace_columns
  ++ [INSERT "organizations" (fun db => db <| organizations ::= backfill_workspaces org_ids 0 (users db) |>); owner_constraint]
  ++ private_function "user_has_org_membership" ["target_org_id"; "target_user_id"] membership_body
  ++ private_function "organization_invitation_org" ["candidate_hash"] invitation_org_body
  ++ collaboration_guard
  ++ [DROP_POLICY "organizations_tenant_isolation" "organizations"; organizations_policy_0008;
      INSERT "role_permission_catalog" (fun db => db <| role_permission_catalog ::= seed_catalog catalog_ids |>)]
  ++ create_referrals.
Definition up_0009 : list Op :=
  widen_tokens_and_requests ++ create_staff_role_bindings ++ create_contact_change_requests
  ++ [INSERT "password_history" (upgrade_0009 history_ids now)]
  ++ private_function "current_user_is_staff" [] is_staff_body ++ governed_requests_policy_0009.

Definition versions : list Revision :=
  [MkRevision "0001_prepare_auth_schema" None up_0001 down_0001;
   MkRevision "349e932027c8" (Some "0001_prepare_auth_schema") upgrade_349e downgrade_349e;
   MkRevision "0003_secure_roles_rls_audit" (Some "349e932027c8") up_0003 down_0003;
   MkRevision "0004_enforce_catalog_and_version" (Some "0003_secure_roles_rls_audit") up_0004 down_0004;
   MkRevision "0005_registration_constraints" (Some "0004_enforce_catalog_and_version") up_0005 down_0005;
   MkRevision "0006_login_identity_providers" (Some "0005_registration_constraints") up_0006 down_0006;
   MkRevision "0007_mfa_replay_protection" (Some "0006_login_identity_providers") up_0007 down_0007;
   MkRevision "0008_workspaces_and_referrals" (Some "0007_mfa_replay_protection") up_0008 down_0008;
   MkRevision "0009_recovery_governance" (Some "0008_workspaces_and_referrals") up_0009 down_0009;
   MkRevision "0010_audit_query_access" (Some "0009_recovery_governance") up_0010 down_0010;
   MkRevision "0011_privacy_export_artifacts" (Some "0010_audit_query_access") up_0011 down_0011;
   MkRevision "0012_privacy_erasure_retention" (Some "0011_privacy_export_artifacts") up_0012 down_0012].

(** The revisions after one, and those down to one, youngest first. *)
Fixpoint after (r : option string) (l : list Revision) : list Revision :=
  match l with [] => [] | v :: l => if down_revision v == r then v :: l else after r l end.
Definition upgrades (from : option string) : list Op := List.flat_map upgrade (after from versions).
Definition downgrades (to : option string) : list Op := List.flat_map downgrade (List.rev (after to versions)).

(** [do_run_migrations] of env.py: one transaction. *)
Definition do_run_migrations (ops : list Op) (d : Database) : option SqlError * Database :=
  match run ops d with Done d' => (None, d') | Refused e => (Some e, d) end.
End Chain.
