(* ===== verification/Metadata.v ===== *)
(** The classes of infrastructure/persistence/models.py as the metadata SQLAlchemy keeps of them: the columns,
    constraints and indexes each declares, under the naming convention of base.py.  The migrations are another
    text of the same schema; SchemaProps compares the two. *)
From S2P Require Import Prelude PyText Entity Models Sql Rows Ddl.

(** ** Declarations

    What a column of a class carries besides its type: [primary_key=True], [unique=True], [index=True],
    [ForeignKey("auth.table.column", ondelete=...)]. *)
Inductive Attribute := primary_key_ | unique_ | indexed | ForeignKey (target col : string) (ondelete : OnDelete).
Inductive Member :=
| mapped_column (name : string) (ty : ColType) (null : bool) (default : option Default) (attributes : list Attribute)
| table_constraint (name : Name) (c : Constraint)
| table_index (name : string) (cols : list string) (unique : bool) (where_clause : option Cond).
Definition optional (name : string) (ty : ColType) : Member := mapped_column name ty true None [].
Definition mandatory (name : string) (ty : ColType) : Member := mapped_column name ty false None [].
Definition with_default (name : string) (ty : ColType) (d : Default) : Member := mapped_column name ty false (Some d) [].
Definition uuid_primary_key (name : string) : Member :=
  mapped_column name Uuid false (Some (Expression "gen_random_uuid()")) [primary_key_].
Definition TimestampMixin : list Member :=
  [with_default "created_at" DateTime (Expression "now()"); with_default "updated_at" DateTime (Expression "now()")].

(** The constraints and the index an attribute stands for. *)
Definition attribute_constraints (c : string) (a : Attribute) : list Constraint :=
  match a with
  | primary_key_ => [PrimaryKeyConstraint [c]]
  | unique_ => [UniqueConstraint [c]]
  | indexed => []
  | ForeignKey target col ondelete => [ForeignKeyConstraint [c] target [col] ondelete]
  end.
Definition is_indexed (a : Attribute) : bool := match a with indexed => true | _ => false end.
Definition named (t : string) (name : Name) (k : Constraint) : string * Constraint := (constraint_name t name k, k).
Definition member_columns (m : Member) : list (string * Column) :=
  match m with mapped_column n ty null d _ => [(n, MkColumn ty null d)] | _ => [] end.
Definition member_constraints (t : string) (m : Member) : list (string * Constraint) :=
  match m with
  | mapped_column n _ _ _ attributes => List.map (named t Unnamed) (List.flat_map (attribute_constraints n) attributes)
  | table_constraint name k => [named t name k]
  | table_index _ _ _ _ => []
  end.
Definition member_indexes (t : string) (m : Member) : list (string * Index) :=
  match m with
  | mapped_column n _ _ _ attributes =>
      if List.existsb is_indexed attributes then [(index_name t Unnamed [n], MkIndex t [n] false None)] else []
  | table_constraint _ _ => []
  | table_index name cols unique w => [(index_name t (Given name) cols, MkIndex t cols unique w)]
  end.
Definition table_of (t : string) (members : list Member) : TableDef :=
  MkTable (list_to_map (List.flat_map member_columns members))
          (list_to_map (List.flat_map (member_constraints t) members)).
Definition metadata_tables (md : list (string * list Member)) : gmap string TableDef :=
  list_to_map (List.map (fun p => (p.1, table_of p.1 p.2)) md).
Definition metadata_indexes (md : list (string * list Member)) : gmap string Index :=
  list_to_map (List.flat_map (fun p => List.flat_map (member_indexes p.1) p.2) md).

(** ** The classes *)

Definition User_table : list Member := TimestampMixin ++ [
   table_constraint (Given "state_valid")
     (CheckConstraint (In_ (Col "state") ["pending"; "active"; "locked"; "suspended"; "disabled"; "anonymized"]));
   table_constraint (Given "version_positive") (CheckConstraint (Col "version" >=. Num 1));
   table_index "uq_users_email_active" ["email"] true (Some (IsNull (Col "anonymized_at"))%sql);
   table_index "uq_users_phone_active" ["phone_e164"] true
     (Some (IsNotNull (Col "phone_e164") AND IsNull (Col "anonymized_at"))%sql);
   uuid_primary_key "user_id"; optional "email" CITEXT; optional "given_name" (Varchar 120);
   optional "family_name" (Varchar 120); optional "phone_e164" (Varchar 32);
   with_default "state" (Varchar 24) (Quoted "pending"); with_default "version" Integer (Quoted "1");
   optional "anonymized_at" DateTime].
Definition Identity_table : list Member := TimestampMixin ++ [
   table_constraint Unnamed (UniqueConstraint ["provider"; "provider_subject"]);
   table_constraint (Given "provider_valid")
     (CheckConstraint (In_ (Col "provider") ["password"; "google"; "apple"; "microsoft"; "phone"]));
   table_constraint (Given "password_hash_matches_provider")
     (CheckConstraint ((Col "provider" =. Str "password" AND IsNotNull (Col "password_hash"))
         OR (Col "provider" <>. Str "password" AND IsNull (Col "password_hash"))));
   uuid_primary_key "identity_id";
   mapped_column "user_id" Uuid false None [ForeignKey "users" "user_id" Cascade; indexed];
   mandatory "provider" (Varchar 24); mandatory "provider_subject" (Varchar 255); optional "password_hash" Text;
   with_default "verified" Boolean (Expression "false"); optional "last_used_at" DateTime].
Definition PasswordHistory_table : list Member := [
   table_index "ix_password_history_identity_created" ["identity_id"; "created_at"] false None;
   uuid_primary_key "history_id";
   mapped_column "identity_id" Uuid false None [ForeignKey "identities" "identity_id" Cascade];
   mandatory "password_hash" Text; with_default "created_at" DateTime (Expression "now()")].
Definition MFADevice_table : list Member := TimestampMixin ++ [
   table_constraint (Given "factor_type_valid")
     (CheckConstraint (In_ (Col "factor_type") ["totp"; "sms"; "email"; "passkey"; "backup_codes"]));
   table_constraint (Given "status_valid") (CheckConstraint (In_ (Col "status") ["pending"; "active"; "revoked"]));
   table_constraint (Given "secret_matches_factor_type")
     (CheckConstraint ((In_ (Col "factor_type") ["totp"; "backup_codes"] AND IsNotNull (Col "encrypted_secret"))
         OR (NotIn (Col "factor_type") ["totp"; "backup_codes"] AND IsNull (Col "encrypted_secret"))));
   uuid_primary_key "mfa_id";
   mapped_column "user_id" Uuid false None [ForeignKey "users" "user_id" Cascade; indexed];
   mandatory "factor_type" (Varchar 32); optional "encrypted_secret" LargeBinary;
   with_default "status" (Varchar 24) (Quoted "pending"); optional "label" (Varchar 120);
   optional "verified_at" DateTime; optional "revoked_at" DateTime; optional "last_totp_step" BigInteger;
   optional "last_used_at" DateTime].
Definition WebAuthnCredential_table : list Member := TimestampMixin ++ [
   mapped_column "credential_id" LargeBinary false None [primary_key_];
   mapped_column "mfa_id" Uuid false None [ForeignKey "mfa_devices" "mfa_id" Cascade; unique_];
   mandatory "public_key" LargeBinary; with_default "sign_count" BigInteger (Quoted "0");
   with_default "transports" JSONB (Quoted "[]"); with_default "backup_eligible" Boolean (Expression "false");
   with_default "backup_state" Boolean (Expression "false")].
Definition RefreshTokenFamily_table : list Member := [
   table_constraint (Given "expiry_after_creation") (CheckConstraint (Col "absolute_expires_at" >. Col "created_at"));
   table_index "ix_refresh_families_user_active" ["user_id"; "revoked_at"] false None; uuid_primary_key "family_id";
   mapped_column "user_id" Uuid false None [ForeignKey "users" "user_id" Cascade];
   mandatory "device_fingerprint_hash" (Varchar 128); mandatory "client_id" (Varchar 80);
   with_default "created_at" DateTime (Expression "now()"); mandatory "absolute_expires_at" DateTime;
   optional "revoked_at" DateTime; optional "revocation_reason" (Varchar 80)].
Definition RefreshToken_table : list Member := [
   table_constraint Unnamed (UniqueConstraint ["family_id"; "generation"]);
   table_constraint (Given "generation_nonnegative") (CheckConstraint (Col "generation" >=. Num 0));
   table_constraint (Given "expiry_after_issue") (CheckConstraint (Col "expires_at" >. Col "issued_at"));
   uuid_primary_key "refresh_token_id";
   mapped_column "family_id" Uuid false None [ForeignKey "refresh_token_families" "family_id" Cascade; indexed];
   mapped_column "token_hash" (Varchar 128) false None [unique_]; mandatory "generation" Integer;
   with_default "issued_at" DateTime (Expression "now()"); optional "used_at" DateTime;
   optional "revoked_at" DateTime; mandatory "expires_at" DateTime].
Definition Organization_table : list Member := TimestampMixin ++ [
   table_constraint (Given "state_valid") (CheckConstraint (In_ (Col "state") ["active"; "suspended"; "closed"]));
   table_constraint (Given "owner_matches_workspace_type")
     (CheckConstraint ((Col "workspace_type" =. Str "personal" AND IsNotNull (Col "personal_owner_user_id"))
         OR (Col "workspace_type" =. Str "organization" AND IsNull (Col "personal_owner_user_id"))));
   table_index "uq_organizations_personal_owner" ["personal_owner_user_id"] true
     (Some (Col "workspace_type" =. Str "personal")%sql);
   uuid_primary_key "org_id"; mandatory "name" (Varchar 180);
   mapped_column "slug" (Varchar 100) false None [unique_];
   with_default "workspace_type" (Varchar 24) (Quoted "organization");
   mapped_column "personal_owner_user_id" Uuid true None [ForeignKey "users" "user_id" Cascade; indexed];
   with_default "state" (Varchar 24) (Quoted "active"); with_default "subscription_metadata" JSONB (Quoted "{}")].
Definition Session_table : list Member := [
   table_constraint Unnamed (UniqueConstraint ["family_id"]);
   table_constraint (Given "expiry_after_creation") (CheckConstraint (Col "expires_at" >. Col "created_at"));
   table_index "ix_sessions_user_active" ["user_id"; "revoked_at"; "expires_at"] false None;
   table_index "ix_sessions_org_active" ["org_id"; "revoked_at"; "expires_at"] false None;
   uuid_primary_key "session_id";
   mapped_column "family_id" Uuid false None [ForeignKey "refresh_token_families" "family_id" Cascade];
   mapped_column "user_id" Uuid false None [ForeignKey "users" "user_id" Cascade];
   mapped_column "org_id" Uuid true None [ForeignKey "organizations" "org_id" SetNull; indexed];
   mapped_column "access_jti" Uuid false None [unique_]; mandatory "client_id" (Varchar 80);
   mandatory "device_fingerprint_hash" (Varchar 128); optional "ip_address" INET;
   with_default "created_at" DateTime (Expression "now()");
   with_default "last_activity_at" DateTime (Expression "now()"); mandatory "expires_at" DateTime;
   optional "revoked_at" DateTime].
Definition TrustedDevice_table : list Member := [
   table_constraint Unnamed (UniqueConstraint ["user_id"; "fingerprint_hash"]);
   table_constraint (Given "state_valid")
     (CheckConstraint (In_ (Col "trust_state") ["unknown"; "trusted"; "blocked"]));
   uuid_primary_key "trusted_device_id";
   mapped_column "user_id" Uuid false None [ForeignKey "users" "user_id" Cascade];
   mandatory "fingerprint_hash" (Varchar 128); with_default "trust_state" (Varchar 24) (Quoted "unknown");
   optional "last_ip_address" INET; with_default "risk_metadata" JSONB (Quoted "{}");
   with_default "first_seen_at" DateTime (Expression "now()");
   with_default "last_seen_at" DateTime (Expression "now()")].
Definition EphemeralToken_table : list Member := [
   table_constraint (Given "purpose_valid")
     (CheckConstraint (In_ (Col "purpose") ["email_verify"; "phone_verify"; "password_reset"; "invite"]));
   table_constraint (Given "expiry_after_creation") (CheckConstraint (Col "expires_at" >. Col "created_at"));
   table_index "ix_ephemeral_tokens_user_active" ["user_id"; "purpose"; "expires_at"] false None;
   uuid_primary_key "ephemeral_token_id";
   mapped_column "user_id" Uuid true None [ForeignKey "users" "user_id" Cascade; indexed];
   mapped_column "token_hash" (Varchar 128) false None [unique_]; mandatory "purpose" (Varchar 40);
   with_default "metadata" JSONB (Quoted "{}"); with_default "created_at" DateTime (Expression "now()");
   mandatory "expires_at" DateTime; optional "consumed_at" DateTime].
Definition Invitation_table : list Member := [
   table_constraint (Given "state_valid")
     (CheckConstraint (In_ (Col "state") ["pending"; "accepted"; "expired"; "revoked"]));
   table_constraint (Given "expiry_after_creation") (CheckConstraint (Col "expires_at" >. Col "created_at"));
   table_index "ix_invitations_org_pending" ["org_id"; "state"; "expires_at"] false None;
   uuid_primary_key "invitation_id";
   mapped_column "org_id" Uuid false None [ForeignKey "organizations" "org_id" Cascade; indexed];
   mandatory "invitee_email" CITEXT; mapped_column "token_hash" (Varchar 128) false None [unique_];
   with_default "proposed_roles" JSONB (Quoted "[]");
   mapped_column "issued_by_user_id" Uuid false None [ForeignKey "users" "user_id" Restrict];
   with_default "state" (Varchar 24) (Quoted "pending"); with_default "created_at" DateTime (Expression "now()");
   mandatory "expires_at" DateTime; optional "accepted_at" DateTime].
Definition Referral_table : list Member := [
   table_constraint (Given "state_valid")
     (CheckConstraint (In_ (Col "state") ["invited"; "registered"; "verified"; "expired"; "revoked"]));
   table_constraint (Given "expiry_after_creation") (CheckConstraint (Col "expires_at" >. Col "created_at"));
   table_index "ix_referrals_referrer_created" ["referrer_user_id"; "created_at"] false None;
   table_index "uq_referrals_referred_user" ["referred_user_id"] true (Some (IsNotNull (Col "referred_user_id"))%sql);
   uuid_primary_key "referral_id";
   mapped_column "referrer_user_id" Uuid false None [ForeignKey "users" "user_id" Cascade; indexed];
   mandatory "invitee_email" CITEXT; mapped_column "token_hash" (Varchar 128) false None [unique_];
   mapped_column "referred_user_id" Uuid true None [ForeignKey "users" "user_id" SetNull; indexed];
   with_default "state" (Varchar 24) (Quoted "invited"); with_default "created_at" DateTime (Expression "now()");
   mandatory "expires_at" DateTime; optional "registered_at" DateTime; optional "verified_at" DateTime].
Definition RolePermissionCatalog_table : list Member := TimestampMixin ++ [
   table_constraint Unnamed (UniqueConstraint ["module"; "role"; "permission"; "version"]);
   uuid_primary_key "catalog_id"; mandatory "module" (Varchar 80); mandatory "role" (Varchar 80);
   mandatory "permission" (Varchar 120); with_default "version" Integer (Quoted "1");
   with_default "active" Boolean (Expression "true")].
Definition UserRoleBinding_table : list Member := [
   table_index "uq_role_bindings_active" ["user_id"; "org_id"; "catalog_id"] true
     (Some (IsNull (Col "revoked_at"))%sql);
   uuid_primary_key "binding_id"; mapped_column "user_id" Uuid false None [ForeignKey "users" "user_id" Cascade];
   mapped_column "org_id" Uuid false None [ForeignKey "organizations" "org_id" Cascade; indexed];
   mapped_column "catalog_id" Uuid false None [ForeignKey "role_permission_catalog" "catalog_id" Restrict];
   mapped_column "granted_by_user_id" Uuid false None [ForeignKey "users" "user_id" Restrict];
   with_default "granted_at" DateTime (Expression "now()"); optional "revoked_at" DateTime].
Definition GovernedRequest_table : list Member := [
   table_constraint (Given "different_actors") (CheckConstraint (Col "initiator_user_id" <>. Col "approver_user_id"));
   table_constraint (Given "execution_not_early") (CheckConstraint (Col "execute_after" >=. Col "initiated_at"));
   table_constraint (Given "state_valid")
     (CheckConstraint (In_ (Col "state") ["pending"; "approved"; "rejected"; "executed"; "expired"; "cancelled"]));
   table_index "ix_governed_requests_pending" ["state"; "execute_after"] false None;
   uuid_primary_key "governed_request_id";
   mapped_column "org_id" Uuid true None [ForeignKey "organizations" "org_id" SetNull; indexed];
   mandatory "request_type" (Varchar 80);
   mapped_column "target_user_id" Uuid false None [ForeignKey "users" "user_id" Cascade];
   mapped_column "initiator_user_id" Uuid false None [ForeignKey "users" "user_id" Restrict];
   mapped_column "approver_user_id" Uuid true None [ForeignKey "users" "user_id" Restrict];
   with_default "state" (Varchar 24) (Quoted "pending"); with_default "initiated_at" DateTime (Expression "now()");
   mandatory "execute_after" DateTime; optional "approved_at" DateTime; optional "executed_at" DateTime;
   with_default "target_user_version" Integer (Quoted "1"); optional "ticket_reference" (Varchar 120);
   with_default "result_metadata" JSONB (Quoted "{}")].
Definition StaffRoleBinding_table : list Member := [
   table_constraint (Given "role_valid")
     (CheckConstraint (In_ (Col "role") ["SUPPORT_AGENT_L2"; "SECURITY_SUPERVISOR_L3"; "ACCOUNT_ADMIN"]));
   table_index "uq_staff_role_bindings_active" ["user_id"; "role"] true (Some (IsNull (Col "revoked_at"))%sql);
   uuid_primary_key "binding_id";
   mapped_column "user_id" Uuid false None [ForeignKey "users" "user_id" Cascade; indexed];
   mandatory "role" (Varchar 48);
   mapped_column "granted_by_user_id" Uuid true None [ForeignKey "users" "user_id" SetNull];
   with_default "granted_at" DateTime (Expression "now()"); optional "revoked_at" DateTime].
Definition ContactChangeRequest_table : list Member := [
   table_constraint (Given "contact_type_valid") (CheckConstraint (In_ (Col "contact_type") ["email"; "phone"]));
   table_constraint (Given "state_valid")
     (CheckConstraint (In_ (Col "state") ["pending"; "applied"; "expired"; "cancelled"]));
   table_constraint (Given "expiry_after_creation") (CheckConstraint (Col "expires_at" >. Col "created_at"));
   table_index "ix_contact_changes_user_pending" ["user_id"; "state"; "expires_at"] false None;
   uuid_primary_key "request_id";
   mapped_column "user_id" Uuid false None [ForeignKey "users" "user_id" Cascade; indexed];
   mandatory "contact_type" (Varchar 16); mandatory "old_value" (Varchar 320); mandatory "new_value" (Varchar 320);
   mandatory "old_code_hash" (Varchar 128); mandatory "new_code_hash" (Varchar 128);
   with_default "state" (Varchar 24) (Quoted "pending"); with_default "created_at" DateTime (Expression "now()");
   mandatory "expires_at" DateTime; optional "old_verified_at" DateTime; optional "new_verified_at" DateTime;
   optional "applied_at" DateTime].
Definition GDPRRequest_table : list Member := [
   table_constraint (Given "type_valid") (CheckConstraint (In_ (Col "request_type") ["export"; "erasure"]));
   table_constraint (Given "state_valid")
     (CheckConstraint (In_ (Col "state") ["requested"; "processing"; "completed"; "failed"; "cancelled"]));
   table_index "ix_gdpr_requests_user_state" ["user_id"; "state"] false None;
   table_constraint Unnamed (UniqueConstraint ["user_id"; "request_type"; "idempotency_key_hash"]);
   uuid_primary_key "gdpr_request_id";
   mapped_column "user_id" Uuid false None [ForeignKey "users" "user_id" Restrict];
   mandatory "request_type" (Varchar 24); with_default "state" (Varchar 24) (Quoted "requested");
   with_default "requested_at" DateTime (Expression "now()"); optional "completed_at" DateTime;
   optional "artifact_reference" Text; optional "artifact_expires_at" DateTime;
   optional "failure_code" (Varchar 80); optional "idempotency_key_hash" (Varchar 128);
   optional "backup_purge_due_at" DateTime].
Definition PrivacyExportArtifact_table : list Member := [
   table_index "ix_privacy_export_artifacts_expiry" ["expires_at"] false None; uuid_primary_key "artifact_id";
   mapped_column "gdpr_request_id" Uuid false None [ForeignKey "gdpr_requests" "gdpr_request_id" Cascade; unique_];
   mapped_column "user_id" Uuid false None [ForeignKey "users" "user_id" Cascade; indexed];
   mandatory "encrypted_content" LargeBinary; mandatory "content_digest" (Varchar 64);
   with_default "created_at" DateTime (Expression "now()"); mandatory "expires_at" DateTime].
Definition AuditLog_table : list Member := [
   table_constraint (Given "outcome_valid") (CheckConstraint (In_ (Col "outcome") ["success"; "failure"; "denied"]));
   table_index "ix_audit_logs_org_cursor" ["org_id"; "occurred_at"; "audit_id"] false None;
   table_index "ix_audit_logs_subject_cursor" ["subject_user_id"; "occurred_at"; "audit_id"] false None;
   uuid_primary_key "audit_id";
   mapped_column "actor_user_id" Uuid true None [ForeignKey "users" "user_id" SetNull; indexed];
   mapped_column "subject_user_id" Uuid true None [ForeignKey "users" "user_id" SetNull; indexed];
   mapped_column "org_id" Uuid true None [ForeignKey "organizations" "org_id" SetNull; indexed];
   mandatory "event_type" (Varchar 120); mandatory "outcome" (Varchar 24); mandatory "correlation_id" Uuid;
   optional "ip_address" INET; optional "user_agent_hash" (Varchar 128);
   with_default "metadata" JSONB (Quoted "{}"); optional "previous_hash" (Varchar 128);
   optional "record_hash" (Varchar 128); with_default "occurred_at" DateTime (Expression "now()")].
Definition OutboxEvent_table : list Member := [
   table_constraint (Given "state_valid")
     (CheckConstraint (In_ (Col "state") ["pending"; "processing"; "published"; "failed"]));
   table_index "ix_outbox_events_available" ["state"; "available_at"] false None;
   uuid_primary_key "outbox_event_id"; mandatory "event_type" (Varchar 120);
   mandatory "aggregate_type" (Varchar 80); mandatory "aggregate_id" Uuid; mandatory "payload" JSONB;
   mapped_column "idempotency_key" (Varchar 128) false None [unique_];
   with_default "state" (Varchar 24) (Quoted "pending"); with_default "available_at" DateTime (Expression "now()");
   with_default "attempts" Integer (Quoted "0"); optional "claimed_at" DateTime; optional "published_at" DateTime;
   optional "last_error_code" (Varchar 80); with_default "created_at" DateTime (Expression "now()")].
Definition IdempotencyRecord_table : list Member := [
   table_constraint Unnamed (UniqueConstraint ["actor_id"; "route"; "key_hash"]);
   table_constraint (Given "expiry_after_creation") (CheckConstraint (Col "expires_at" >. Col "created_at"));
   table_index "ix_idempotency_expiry" ["expires_at"] false None; uuid_primary_key "idempotency_record_id";
   mandatory "actor_id" (Varchar 128); mandatory "route" (Varchar 180); mandatory "key_hash" (Varchar 128);
   mandatory "request_hash" (Varchar 128); optional "response_status" Integer; optional "response_reference" Text;
   with_default "created_at" DateTime (Expression "now()"); mandatory "expires_at" DateTime].
Definition metadata : list (string * list Member) := [
   ("users", User_table); ("identities", Identity_table); ("password_history", PasswordHistory_table);
   ("mfa_devices", MFADevice_table); ("webauthn_credentials", WebAuthnCredential_table);
   ("refresh_token_families", RefreshTokenFamily_table); ("refresh_tokens", RefreshToken_table);
   ("organizations", Organization_table); ("sessions", Session_table); ("trusted_devices", TrustedDevice_table);
   ("ephemeral_tokens", EphemeralToken_table); ("invitations", Invitation_table); ("referrals", Referral_table);
   ("role_permission_catalog", RolePermissionCatalog_table); ("user_role_bindings", UserRoleBinding_table);
   ("governed_requests", GovernedRequest_table); ("staff_role_bindings", StaffRoleBinding_table);
   ("contact_change_requests", ContactChangeRequest_table); ("gdpr_requests", GDPRRequest_table);
   ("privacy_export_artifacts", PrivacyExportArtifact_table); ("audit_logs", AuditLog_table);
   ("outbox_events", OutboxEvent_table); ("idempotency_records", IdempotencyRecord_table)].
