(* ===== verification/Schema.v ===== *)
(** The schema the migrations leave, at work on the rows: the catalog of each revision, the rows a role sees
    through the policies, what the functions return and when the triggers raise. *)
From S2P Require Import Prelude PyText Entity Models Sql Rows Ddl Migrations Revisions Metadata RowSecurity.

(** The catalog after the first [n] revisions; no catalog depends on the rows that are written. *)
Definition no_ids (n : N) : UUID := uuid_of_N 0.
Definition catalog_of (r : Outcome Catalog) : Catalog := match r with Done c => c | Refused _ => empty_catalog end.
Definition catalog_at (n : nat) : Catalog :=
  catalog_of (run_catalog (List.flat_map upgrade (firstn n (versions no_ids no_ids no_ids 0))) empty_catalog).
Definition head : Catalog := catalog_at 12.

(** ** Functions *)

Definition in_context (ctx : TenantContext) (now : Time) (r : Row) : Scope_ :=
  MkScope r [] [] now (current_user ctx) (current_org ctx).
Definition function_of (c : Catalog) (f : string) : option (list string * Body) :=
  (fun k => (fn_parameters k, fn_body k)) <$> ca_functions c !! f.
Definition bound (params : list string) (args : list Value) (s : Scope_) : Scope_ :=
  s <| parameters := combine params args |>.
Definition selected (t : string) (w : Cond) (s : Scope_) (db : Db) : list Row :=
  where_ (fun r => is_true (eval no_functions (s <| row := r |>) w)) (rows_of t db).
(** A function of type boolean, called in a condition. *)
Definition call_function (c : Catalog) (db : Db) (s : Scope_) (f : string) (args : list Value) : option bool :=
  '(params, b) ← function_of c f;
  match b with
  | SelectExists t w => Some (negb (selected t w (bound params args s) db == []))
  | _ => None
  end.
(** A function that selects a column of one row. *)
Definition select_value (c : Catalog) (db : Db) (s : Scope_) (f : string) (args : list Value) : option Value :=
  '(params, b) ← function_of c f;
  match b with
  | SelectFirst col t w => Some (match selected t w (bound params args s) db with r :: _ => column col r | [] => Null end)
  | _ => None
  end.

(** ** Policies

    Where row level security is on, a role that it binds reads the rows that some policy for it lets through
    with USING, and writes those with WITH CHECK. *)
Definition row_policies (c : Catalog) (t : string) : option (bool * list Policy) :=
  (fun s => (rls_enabled s, List.map snd (map_to_list (se_policies s)))) <$> ca_security c !! t.
Definition allows (pick : Policy -> Cond) (c : Catalog) (ctx : TenantContext) (db : Db) (role t : string) (r : Row) : bool :=
  match row_policies c t with
  | Some (enabled, policies) =>
      negb enabled
      || List.existsb (fun p => (po_role p == role)
                                && is_true (eval (call_function c db (in_context ctx 0 r)) (in_context ctx 0 r) (pick p)))
           policies
  | None => false
  end.
Definition readable := allows po_using.
Definition writable := allows po_check.

(** ** Triggers *)

Definition fires (on event : string * list string) : bool :=
  (on.1 == event.1) && ((on.2 == []) || List.existsb (fun c => c is_in event.2) on.2).
Definition raises_on (b : Body) (db : Db) (new : Row) : bool :=
  match b with
  | RaiseIfExists present t w =>
      Bool.eqb present (negb (selected t w (MkScope [] new [] 0 None None) db == []))
  | RaiseAlways => true
  | _ => false
  end.
(** The triggers of a table with the bodies of their functions. *)
Definition row_triggers (c : Catalog) (t : string) : list (list (string * list string) * Body) :=
  match ca_security c !! t with
  | Some s => omap (fun p => (fun k => (tg_events p.2, fn_body k)) <$> ca_functions c !! tg_function p.2)
                (map_to_list (se_triggers s))
  | None => []
  end.
(** An event is a command with the columns it sets. *)
Definition trigger_raises (c : Catalog) (db : Db) (event : string * list string) (t : string) (new : Row) : bool :=
  List.existsb (fun p => List.existsb (fun on => fires on event) p.1 && raises_on p.2 db new) (row_triggers c t).

(** ** Privileges *)

Definition holds_privilege (c : Catalog) (role privilege t : string) : bool :=
  match ca_security c !! t with Some s => (role, privilege) is_in se_grants s | None => false end.
Definition may_execute (c : Catalog) (role f : string) : bool :=
  match ca_functions c !! f with
  | Some k => (role is_in fn_executors k) || ("PUBLIC" is_in fn_executors k)
  | None => false
  end.

Lemma selected_nonempty t w s db :
  negb (selected t w s db == []) = row_exists (fun r => is_true (eval no_functions (s <| row := r |>) w)) (rows_of t db).
Proof.
  unfold selected, where_, row_exists. induction (rows_of t db) as [|r l IH]; [done|]. cbn [List.filter List.existsb].
  by destruct (is_true _).
Qed.

(** ** Tables with their rows

    A table of Models: its name, its rows as rows of SQL, and the predicates the repositories insert under. *)
Class TableModel (A : Type) := {
  table_name : string;
  to_row : A -> Row;
  valid : A -> bool;
  conflict : list A -> A -> bool }.
Arguments table_name A {_}.
Definition always_valid {A} (r : A) : bool := true.
#[export] Instance User_model : TableModel User := {| table_name := "users"; to_row := user_row; valid := user_valid; conflict := user_conflict |}.
#[export] Instance Identity_model : TableModel Identity :=
  {| table_name := "identities"; to_row := identity_row; valid := identity_valid; conflict := identity_conflict |}.
#[export] Instance PasswordHistory_model : TableModel PasswordHistory :=
  {| table_name := "password_history"; to_row := password_history_row; valid := always_valid; conflict := password_history_conflict |}.
#[export] Instance MFADevice_model : TableModel MFADevice :=
  {| table_name := "mfa_devices"; to_row := mfa_device_row; valid := mfa_device_valid; conflict := mfa_device_conflict |}.
#[export] Instance WebAuthn_model : TableModel WebAuthnCredential :=
  {| table_name := "webauthn_credentials"; to_row := webauthn_row; valid := always_valid; conflict := webauthn_conflict |}.
#[export] Instance Family_model : TableModel RefreshTokenFamily :=
  {| table_name := "refresh_token_families"; to_row := family_row; valid := family_valid; conflict := family_conflict |}.
#[export] Instance RefreshToken_model : TableModel RefreshToken :=
  {| table_name := "refresh_tokens"; to_row := refresh_token_row; valid := refresh_token_valid; conflict := refresh_token_conflict |}.
#[export] Instance Organization_model : TableModel Organization :=
  {| table_name := "organizations"; to_row := organization_row; valid := organization_valid; conflict := organization_conflict |}.
#[export] Instance Session_model : TableModel Session :=
  {| table_name := "sessions"; to_row := session_row; valid := session_valid; conflict := session_conflict |}.
#[export] Instance TrustedDevice_model : TableModel TrustedDevice :=
  {| table_name := "trusted_devices"; to_row := trusted_device_row; valid := trusted_device_valid; conflict := trusted_device_conflict |}.
#[export] Instance EphemeralToken_model : TableModel EphemeralToken :=
  {| table_name := "ephemeral_tokens"; to_row := ephemeral_token_row; valid := ephemeral_token_valid; conflict := ephemeral_token_conflict |}.
#[export] Instance Invitation_model : TableModel Invitation :=
  {| table_name := "invitations"; to_row := invitation_row; valid := invitation_valid; conflict := invitation_conflict |}.
#[export] Instance Referral_model : TableModel Referral :=
  {| table_name := "referrals"; to_row := referral_row; valid := referral_valid; conflict := referral_conflict |}.
#[export] Instance Binding_model : TableModel UserRoleBinding :=
  {| table_name := "user_role_bindings"; to_row := user_role_binding_row; valid := always_valid; conflict := binding_conflict |}.
#[export] Instance Governed_model : TableModel GovernedRequest :=
  {| table_name := "governed_requests"; to_row := governed_request_row; valid := governed_request_valid; conflict := governed_conflict |}.
#[export] Instance Contact_model : TableModel ContactChangeRequest :=
  {| table_name := "contact_change_requests"; to_row := contact_change_row; valid := contact_change_valid; conflict := contact_change_conflict |}.
#[export] Instance GDPRRequest_model : TableModel GDPRRequest :=
  {| table_name := "gdpr_requests"; to_row := gdpr_request_row; valid := gdpr_valid; conflict := gdpr_conflict |}.
#[export] Instance Artifact_model : TableModel PrivacyExportArtifact :=
  {| table_name := "privacy_export_artifacts"; to_row := export_artifact_row; valid := always_valid; conflict := artifact_conflict |}.

(** What the schema asks of a table is what its predicates ask: the CHECK constraints accept the valid rows, and
    for a valid row the unique keys are the conflicts. *)
Definition Implements (c : Catalog) (A : Type) {T : TableModel A} : Prop :=
  forall r : A, accepts c (table_name A) (to_row r) = valid r /\
    (valid r = true -> forall t, conflicts c (table_name A) (List.map to_row t) (to_row r) = conflict t r).

(** The columns of a table, and rows whose values are of the types of their columns, NULL where that is allowed. *)
Definition table_columns (c : Catalog) (t : string) : list (string * Column) :=
  match ca_tables c !! t with Some d => map_to_list (tb_columns d) | None => [] end.
Definition fits_column (columns : list (string * Column)) (p : string * Value) : bool :=
  match scalar (fun q => q.1 == p.1) columns with
  | Some (_, k) => if is_null p.2 then col_nullable k else fits (col_type k) p.2
  | None => false
  end.
Definition well_typed (c : Catalog) (t : string) (r : Row) : bool := List.forallb (fits_column (table_columns c t)) r.
(** The columns the rows of Models leave out: times nothing reads, and what the audit history and two more tables
    keep beside what the code writes. *)
Definition left_out (t : string) : list string :=
  if t is_in ["users"; "identities"] then ["updated_at"]
  else if t is_in ["mfa_devices"; "webauthn_credentials"; "organizations"; "role_permission_catalog"]
  then ["created_at"; "updated_at"]
  else if t == "trusted_devices" then ["risk_metadata"]
  else if t == "governed_requests" then ["result_metadata"]
  else if t == "audit_logs" then ["ip_address"; "user_agent_hash"; "previous_hash"; "record_hash"]
  else [].
