(* ===== verification/SchemaProps.v ===== *)
(** What the migrations establish: the schema models.py declares, the constraints, policies, functions and
    triggers the rest of the development relies on. *)
From S2P Require Import Prelude PyText Entity Models Sql Rows Ddl Migrations Revisions Metadata RowSecurity Schema.
From S2P Require RedisClient World.

(** Equations between closed terms with decidable equality are settled by computation. *)
Ltac computed := apply (bool_decide_unpack _); vm_compute; exact I.
#[export] Instance SqlError_dec : EqDecision SqlError.
Proof. solve_decision. Defined.
#[export] Instance Outcome_dec {A} `{EqDecision A} : EqDecision (Outcome A).
Proof. solve_decision. Defined.

Section Runs.
Context (org_ids catalog_ids history_ids : N -> UUID) (now : Time).
Abbreviation chain := (versions org_ids catalog_ids history_ids now).

Lemma upgrades_catalog : run_catalog (List.flat_map upgrade chain) empty_catalog = Done head.
Proof. computed. Qed.

(** C36: alembic upgrade head on an empty database succeeds and leaves the tables and indexes models.py declares,
    columns, types, defaults and constraints with their names included, but for one: the CHECK on the purpose of
    ephemeral tokens also admits support_recovery.  The only rows are the seeded roles. *)
Theorem head_agrees_with_models :
  do_run_migrations (upgrades org_ids catalog_ids history_ids now None) (empty_catalog, empty_db)
    = (None, (head, empty_db <| role_permission_catalog := seed_catalog catalog_ids [] |>)) /\
  ca_tables head =
    alter (fun d => d <| tb_constraints ::= <["ck_ephemeral_tokens_purpose_valid" :=
                           CheckConstraint (In_ (Col "purpose") ephemeral_purposes)]> |>)
      "ephemeral_tokens" (metadata_tables metadata) /\
  ca_indexes head = metadata_indexes metadata /\
  ca_tables head <> metadata_tables metadata.
Proof.
  split_and!; [|computed|computed|computed].
  unfold do_run_migrations, upgrades. change (after None chain) with chain.
  rewrite (run_split _ _ _ _ upgrades_catalog). reflexivity.
Qed.
End Runs.

(** ** Constraints *)

(** The checks and the keys of a table, computed. *)
Ltac catalog_facts :=
  repeat match goal with
  | |- context [checks head ?t] => let l := eval vm_compute in (checks head t) in
      replace (checks head t) with l by (vm_compute; reflexivity)
  | |- context [unique_keys head ?t] => let l := eval vm_compute in (unique_keys head t) in
      replace (unique_keys head t) with l by (vm_compute; reflexivity)
  end.
(** The columns of a concrete row. *)
Ltac read_columns :=
  repeat match goal with
  | |- context [column ?c ?r] => let v := eval vm_compute in (column c r) in change (column c r) with v
  end.
Lemma citext_eq_comm a b : citext_eq a b = citext_eq b a.
Proof. unfold citext_eq. apply bool_decide_ext. split; congruence. Qed.
Lemma eqb_comm {A} `{EqDecision A} (x y : A) : (x == y) = (y == x).
Proof. apply bool_decide_ext. split; congruence. Qed.
Lemma some_eq {A} `{EqDecision A} (x y : A) (d : Decision (Some x = Some y)) : bool_decide (Some x = Some y) = (x == y).
Proof. apply bool_decide_ext. split; congruence. Qed.
Ltac options := repeat match goal with
  | |- context [@bool_decide (Some ?x = Some ?y) ?d] => rewrite (some_eq x y d)
  | |- context [@bool_decide (Some ?x = None) ?d] =>
      replace (@bool_decide (Some x = None) d) with false by (symmetry; apply bool_decide_eq_false; discriminate)
  | |- context [@bool_decide (None = Some ?x) ?d] =>
      replace (@bool_decide (None = Some x) d) with false by (symmetry; apply bool_decide_eq_false; discriminate)
  end.
Ltac atoms :=
  repeat match goal with
  | |- context [citext_eq ?a ?b] => destruct (citext_eq a b)
  | |- context [bool_decide ?P] => destruct (bool_decide P)
  | |- context [(?a <? ?b)%Z] => destruct (a <? b)%Z
  | |- context [(?a <=? ?b)%Z] => destruct (a <=? b)%Z
  | |- context [(?a =? ?b)%Z] => destruct (a =? b)%Z
  end.
Ltac nulls := repeat (match goal with
  | |- context [match ?o with Some _ => _ | None => _ end] => destruct o
  | |- context [is_none ?o] => destruct o
  | |- context [is_some ?o] => destruct o
  end; cbn -[bool_decide citext_eq Z.ltb Z.leb Z.eqb]).
Ltac same_text := repeat match goal with
  | |- context [citext_eq ?a ?b] => match goal with |- context [citext_eq b a] => rewrite (citext_eq_comm b a) end
  | |- context [?a == ?b] => match goal with |- context [b == a] => rewrite (eqb_comm b a) end end.
Ltac settle := cbn -[bool_decide citext_eq Z.ltb Z.leb Z.eqb]; nulls; options; same_text; atoms; try done.
Tactic Notation "implements" reference(model) reference(v) reference(c) :=
  intros []; split;
  [ unfold accepts; cbv beta iota delta [table_name to_row valid model]; unfold v; try unfold ephemeral_purposes; catalog_facts; cbn [List.existsb]; unfold check_rejects;
    cbn [eval term row row_scope]; read_columns
  | intros Hv t; unfold conflicts; rewrite row_exists_map; cbv beta iota delta [table_name to_row conflict model]; unfold c;
    apply row_exists_ext; intros []; catalog_facts; cbn [List.existsb]; unfold clash, holds;
    cbn [fst snd eval term row row_scope List.forallb]; read_columns ].

Lemma implements_User : Implements head User.
Proof. implements User_model user_valid user_conflict; unfold user_clash; settle. Qed.
Lemma implements_Identity : Implements head Identity.
Proof. implements Identity_model identity_valid identity_conflict; settle. Qed.
Lemma implements_PasswordHistory : Implements head PasswordHistory.
Proof. implements PasswordHistory_model always_valid password_history_conflict; settle. Qed.
Lemma implements_MFADevice : Implements head MFADevice.
Proof. implements MFADevice_model mfa_device_valid mfa_device_conflict; settle. Qed.
Lemma implements_WebAuthnCredential : Implements head WebAuthnCredential.
Proof. implements WebAuthn_model always_valid webauthn_conflict; settle. Qed.
Lemma implements_RefreshTokenFamily : Implements head RefreshTokenFamily.
Proof. implements Family_model family_valid family_conflict; settle. Qed.
Lemma implements_RefreshToken : Implements head RefreshToken.
Proof. implements RefreshToken_model refresh_token_valid refresh_token_conflict; settle. Qed.
Lemma implements_Session : Implements head Session.
Proof. implements Session_model session_valid session_conflict; settle. Qed.
Lemma implements_TrustedDevice : Implements head TrustedDevice.
Proof. implements TrustedDevice_model trusted_device_valid trusted_device_conflict; settle. Qed.
Lemma implements_EphemeralToken : Implements head EphemeralToken.
Proof. implements EphemeralToken_model ephemeral_token_valid ephemeral_token_conflict; settle. Qed.
Lemma implements_Invitation : Implements head Invitation.
Proof. implements Invitation_model invitation_valid invitation_conflict; settle. Qed.
Lemma implements_Referral : Implements head Referral.
Proof. implements Referral_model referral_valid referral_conflict; settle. Qed.
Lemma implements_UserRoleBinding : Implements head UserRoleBinding.
Proof. implements Binding_model always_valid binding_conflict; settle. Qed.
Lemma implements_GovernedRequest : Implements head GovernedRequest.
Proof. implements Governed_model governed_request_valid governed_conflict; settle. Qed.
Lemma implements_ContactChangeRequest : Implements head ContactChangeRequest.
Proof. implements Contact_model contact_change_valid contact_change_conflict; settle. Qed.
Lemma implements_GDPRRequest : Implements head GDPRRequest.
Proof. implements GDPRRequest_model gdpr_valid gdpr_conflict; settle. Qed.
Lemma implements_PrivacyExportArtifact : Implements head PrivacyExportArtifact.
Proof. implements Artifact_model always_valid artifact_conflict; settle. Qed.
(** A personal workspace has an owner, so that owners that are absent never clash. *)
Lemma implements_Organization : Implements head Organization.
Proof.
  implements Organization_model organization_valid organization_conflict; [settle|].
  revert Hv. cbv beta iota delta [valid Organization_model]. unfold organization_valid. cbn [Models.o_workspace_type].
  destruct (decide (o_workspace_type = "personal")) as [->|Hp]; [rewrite (eqb_neq "personal" "organization") by done|rewrite (eqb_neq _ _ Hp)];
    settle; by cbn.
Qed.
Lemma audit_log_accepted r : accepts head "audit_logs" (audit_log_row r) = audit_log_valid r.
Proof.
  destruct r. unfold accepts, audit_log_valid. catalog_facts. cbn [List.existsb]. unfold check_rejects.
  cbn [eval term row row_scope]. read_columns. settle.
Qed.

(** C34: for every table the code inserts into, the CHECK constraints the migrations leave accept exactly the rows its
    validity predicate accepts, and its primary key, unique constraints and unique indexes are broken by a valid row
    exactly when its conflict predicate says so. *)
Theorem constraints_are_the_predicates :
  (Implements head User /\ Implements head Identity /\ Implements head PasswordHistory /\ Implements head MFADevice /\
   Implements head WebAuthnCredential /\ Implements head RefreshTokenFamily /\ Implements head RefreshToken /\
   Implements head Session /\ Implements head TrustedDevice) /\
  (Implements head EphemeralToken /\ Implements head Organization /\ Implements head Invitation /\
   Implements head Referral /\ Implements head UserRoleBinding /\ Implements head GovernedRequest /\
   Implements head ContactChangeRequest /\ Implements head GDPRRequest /\ Implements head PrivacyExportArtifact) /\
  forall r, accepts head "audit_logs" (audit_log_row r) = audit_log_valid r.
Proof.
  split_and!; first [exact audit_log_accepted|exact implements_User|exact implements_Organization|exact implements_Identity|exact implements_PasswordHistory|exact implements_MFADevice|exact implements_WebAuthnCredential|exact implements_RefreshTokenFamily|exact implements_RefreshToken|exact implements_Session|exact implements_TrustedDevice|exact implements_EphemeralToken|exact implements_Invitation|exact implements_Referral|exact implements_UserRoleBinding|exact implements_GovernedRequest|exact implements_ContactChangeRequest|exact implements_GDPRRequest|exact implements_PrivacyExportArtifact].
Qed.

(** ** Types *)

(** The columns of a row are looked at one by one. *)
Ltac fit_columns row_of :=
  intros []; unfold well_typed;
  match goal with |- context [table_columns head ?t] =>
    let d := eval vm_compute in (table_columns head t) in
    replace (table_columns head t) with d by (vm_compute; reflexivity) end;
  cbv beta iota delta [row_of]; apply forallb_forall; intros p Hp;
  repeat (destruct Hp as [<-|Hp];
    [match goal with |- context [opt_value _ ?o] => destruct o; vm_compute; reflexivity | |- _ => vm_compute; reflexivity end|]);
  destruct Hp.
Definition names (t : string) : list string := List.map fst (table_columns head t).
Lemma rows_well_typed db p r : p ∈ tables_of db -> r ∈ p.2 ->
  well_typed head p.1 r = true /\ (List.map fst r ++ left_out p.1) ≡ₚ names p.1.
Proof.
  unfold tables_of. intros Hp Hr.
  repeat (apply elem_of_cons in Hp as [->|Hp];
    [cbn [fst snd] in *; apply list_elem_of_In, in_map_iff in Hr as (x & <- & _); clear db; split;
     [lazymatch goal with |- well_typed head _ (?f x) = true => revert x; fit_columns f end
     |lazymatch goal with |- List.map fst (?f x) ++ _ ≡ₚ _ => destruct x; cbv beta iota delta [f]; cbn [List.map fst]; computed end]|]).
  by apply elem_of_nil in Hp.
Qed.
Lemma rows_of_table t db r : r ∈ rows_of t db -> exists p, p ∈ tables_of db /\ p.1 = t /\ r ∈ p.2.
Proof.
  unfold rows_of. destruct (scalar _ _) as [[t' rows]|] eqn:E; [|intros H; by apply elem_of_nil in H].
  apply scalar_Some in E as [Hp He]. apply bool_decide_eq_true in He. intros Hr. by exists (t', rows).
Qed.

(** Every row of a table has, but for the columns left out, exactly the columns the migrations leave the table,
    each with a value of the type of the column, and NULL only where the column allows it. *)
Theorem rows_have_the_columns db t r : r ∈ rows_of t db ->
  well_typed head t r = true /\ List.map fst r ++ left_out t ≡ₚ List.map fst (table_columns head t).
Proof. intros (p & Hp & <- & Hr)%rows_of_table. by eapply rows_well_typed. Qed.

(** ** Policies *)

Lemma where_map {A B} (P : B -> bool) (f : A -> B) l : where_ P (List.map f l) = List.map f (where_ (fun x => P (f x)) l).
Proof. unfold where_. induction l as [|a l IH]; [done|]. cbn. rewrite IH. by destruct (P (f a)). Qed.
Ltac policy_facts :=
  repeat match goal with
  | |- context [row_policies head ?t] => let l := eval vm_compute in (row_policies head t) in
      replace (row_policies head t) with l by (vm_compute; reflexivity)
  | |- context [function_of head ?f] => let l := eval vm_compute in (function_of head f) in
      replace (function_of head f) with l by (vm_compute; reflexivity)
  end.
(** The functions of the policies are those of Models and RowSecurity. *)
Lemma is_true_some b : is_true (Some b) = b.
Proof. by destruct b. Qed.
Lemma equal_uuids a b : is_true (sql_equal (opt_value UuidV a) (opt_value UuidV b)) = sql_eq a b.
Proof. destruct a, b; try done. cbn -[bool_decide]. by destruct (bool_decide _). Qed.
Lemma equal_text a b : is_true (sql_equal (TextV a) (TextV b)) = (a == b).
Proof. cbn -[bool_decide]. by destruct (bool_decide _). Qed.
Lemma null_option {A} (f : A -> Value) o : (forall a, is_null (f a) = false) -> is_true (Some (is_null (opt_value f o))) = is_none o.
Proof. intros H. destruct o; [|done]. cbn. by rewrite H. Qed.
Lemma membership_called db s org user :
  call_function head db s "user_has_org_membership" [opt_value UuidV (Some org); opt_value UuidV user]
  = Some (match user with Some u => user_has_org_membership org u db | None => false end).
Proof.
  unfold call_function. policy_facts. cbn [mbind option_bind]. f_equal. rewrite selected_nonempty.
  transitivity (row_exists (fun b => sql_eq (Some (b_org_id b)) (Some org) && (sql_eq (Some (b_user_id b)) user && is_none (b_revoked_at b)))
                  (user_role_bindings db)).
  - change (rows_of "user_role_bindings" db) with (List.map user_role_binding_row (user_role_bindings db)).
    rewrite row_exists_map. apply row_exists_ext. intros b. cbn [eval term bound]. autorewrite with sql.
    rewrite <- !equal_uuids, <- (null_option NumV) by done. by destruct b.
  - destruct user as [u|]; cbn [sql_eq]; [apply row_exists_ext; intros b; by rewrite andb_assoc|].
    apply row_exists_false. intros b _. by rewrite andb_false_r.
Qed.
Lemma staff_called ctx db now r :
  call_function head db (in_context ctx now r) "current_user_is_staff" [] = Some (current_user_is_staff ctx db).
Proof.
  unfold call_function. policy_facts. cbn [mbind option_bind]. f_equal. rewrite selected_nonempty.
  change (rows_of "staff_role_bindings" db) with (List.map staff_role_binding_row (staff_role_bindings db)).
  rewrite row_exists_map. apply row_exists_ext. intros b. cbn [eval term bound]. autorewrite with sql.
  rewrite <- equal_uuids, <- (null_option NumV) by done. by destruct b.
Qed.
Lemma staff_role_called ctx db now r role :
  call_function head db (in_context ctx now r) "current_user_has_staff_role" [TextV role]
  = Some (current_user_has_staff_role role ctx db).
Proof.
  unfold call_function. policy_facts. cbn [mbind option_bind]. f_equal. rewrite selected_nonempty.
  change (rows_of "staff_role_bindings" db) with (List.map staff_role_binding_row (staff_role_bindings db)).
  rewrite row_exists_map. apply row_exists_ext. intros b. cbn [eval term bound]. autorewrite with sql.
  rewrite <- equal_uuids, <- equal_text, <- (null_option NumV) by done. rewrite <- andb_assoc. by destruct b.
Qed.

(** The condition of a policy on a row, in terms of the fields of the row; [called] says what the functions it calls
    return. *)
Ltac policy r called :=
  unfold readable, writable, allows; policy_facts; pose proof called as Hcall;
  revert Hcall; match goal with |- context [eval ?f _ _] => generalize f; intros call Hcall end;
  cbn [List.existsb po_role po_using po_check eval List.map term in_context row current_user_id current_org_id negb orb];
  rewrite (eqb_refl "auth_app"), orb_false_r; cbn [andb]; destruct r; read_columns;
  repeat match goal with
  | |- context [match ?o with Some a => UuidV a | None => Null end] =>
      change (match o with Some a => UuidV a | None => Null end) with (opt_value UuidV o)
  | |- context [sql_equal (UuidV ?u) _] => change (UuidV u) with (opt_value UuidV (Some u))
  end;
  autorewrite with sql; rewrite ?equal_uuids, ?equal_text, ?(null_option UuidV) by done;
  rewrite ?Hcall, ?is_true_some; first [reflexivity | rewrite ?orb_assoc; reflexivity].
Lemma organization_readable ctx db r :
  readable head ctx db "auth_app" "organizations" (organization_row r) = organizations_tenant_isolation ctx db r.
Proof. policy r (fun org => membership_called db (in_context ctx 0 (organization_row r)) org (current_user ctx)). Qed.
Lemma invitation_readable ctx db r :
  readable head ctx db "auth_app" "invitations" (invitation_row r) = invitations_tenant_isolation ctx r.
Proof. policy r I. Qed.
Lemma binding_readable ctx db r :
  readable head ctx db "auth_app" "user_role_bindings" (user_role_binding_row r) = user_role_bindings_tenant_isolation ctx r.
Proof. policy r I. Qed.
Lemma session_readable ctx db r :
  readable head ctx db "auth_app" "sessions" (session_row r) = sessions_tenant_isolation ctx r.
Proof. policy r I. Qed.
Lemma governed_readable ctx db r :
  readable head ctx db "auth_app" "governed_requests" (governed_request_row r) = governed_requests_tenant_isolation ctx db r.
Proof. policy r (staff_called ctx db 0 (governed_request_row r)). Qed.
Lemma audit_readable ctx db r :
  readable head ctx db "auth_app" "audit_logs" (audit_log_row r) = audit_logs_tenant_isolation ctx db r.
Proof. policy r (staff_role_called ctx db 0 (audit_log_row r)). Qed.
Lemma audit_writable ctx db r :
  writable head ctx db "auth_app" "audit_logs" (audit_log_row r) = audit_logs_check ctx r.
Proof. policy r I. Qed.
Lemma referral_readable ctx db r :
  readable head ctx db "auth_app" "referrals" (referral_row r) = referrals_user_isolation ctx r.
Proof. policy r I. Qed.
Lemma contact_readable ctx db r :
  readable head ctx db "auth_app" "contact_change_requests" (contact_change_row r) = contact_change_requests_user_isolation ctx r.
Proof. policy r I. Qed.
Lemma gdpr_readable ctx db r :
  readable head ctx db "auth_app" "gdpr_requests" (gdpr_request_row r) = gdpr_requests_user_isolation ctx r.
Proof. policy r I. Qed.
Lemma artifact_readable ctx db r :
  readable head ctx db "auth_app" "privacy_export_artifacts" (export_artifact_row r) = privacy_export_artifacts_user_isolation ctx r.
Proof. policy r I. Qed.
Lemma unrestricted pick ctx db role t r : row_policies head t = Some (false, []) -> allows pick head ctx db role t r = true.
Proof. intros H. unfold allows. by rewrite H. Qed.
(** But for the audit history every policy checks what is written by the condition for what is read. *)
Lemma checks_as_read ctx db t r : t <> "audit_logs" -> t ∈ List.map fst metadata ->
  writable head ctx db "auth_app" t r = readable head ctx db "auth_app" t r.
Proof.
  intros Ht H. unfold readable, writable, allows.
  assert (Hs : List.forallb (fun t => (t == "audit_logs") || match row_policies head t with
            | Some (_, l) => List.forallb (fun p => po_using p == po_check p) l | None => false end) (List.map fst metadata) = true)
    by (vm_compute; reflexivity).
  rewrite forallb_forall in Hs. specialize (Hs t ltac:(by apply list_elem_of_In)). rewrite (eqb_neq t) in Hs by done.
  destruct (row_policies head t) as [[on l]|]; [|done]. cbn [orb] in Hs. f_equal.
  revert Hs. clear. induction l as [|p l IH]; [done|]. cbn [List.forallb List.existsb]. intros [Hp Hl]%andb_true_iff.
  apply bool_decide_eq_true in Hp. by rewrite Hp, IH.
Qed.
Lemma rows_of_cases (Q : string -> Prop) db db' :
  (forall t, scalar (fun p => p.1 == t) (tables_of db) = None -> Q t) ->
  (forall t, t ∈ List.map fst (tables_of db') -> Q t) -> forall t, Q t.
Proof.
  intros H1 H2 t. destruct (decide (t ∈ List.map fst (tables_of db'))) as [Ht|Ht]; [by apply H2|]. apply H1.
  destruct (scalar _ _) as [[n l]|] eqn:E; [|done]. exfalso. apply Ht. apply scalar_Some in E as [Hp He].
  apply bool_decide_eq_true in He as <-. change (List.map fst (tables_of db')) with (List.map fst (tables_of db)).
  apply list_elem_of_In, in_map. by apply list_elem_of_In.
Qed.

Lemma where_all {A} (P : A -> bool) l : (forall x, P x = true) -> where_ P l = l.
Proof. intros H. unfold where_. induction l as [|x l IH]; [done|]. cbn. by rewrite H, IH. Qed.
Lemma kept ctx db t : row_policies head t = Some (false, []) -> rows_of t (as_auth_app ctx db) = rows_of t db ->
  rows_of t (as_auth_app ctx db) = where_ (readable head ctx db "auth_app" t) (rows_of t db).
Proof. intros H ->. symmetry. apply where_all. intros r. by apply unrestricted. Qed.
Lemma filtered {A} (f : A -> Row) (P : A -> bool) l ctx db t : rows_of t db = List.map f l ->
  rows_of t (as_auth_app ctx db) = List.map f (where_ P l) -> (forall x, readable head ctx db "auth_app" t (f x) = P x) ->
  rows_of t (as_auth_app ctx db) = where_ (readable head ctx db "auth_app" t) (rows_of t db).
Proof. intros -> -> H. rewrite where_map. f_equal. apply where_ext. intros x _. by rewrite H. Qed.
Lemma unknown ctx db t : scalar (fun p => p.1 == t) (tables_of db) = None ->
  rows_of t (as_auth_app ctx db) = where_ (readable head ctx db "auth_app" t) (rows_of t db).
Proof.
  intros Ht. unfold rows_of. assert (Ht' : scalar (fun p => p.1 == t) (tables_of (as_auth_app ctx db)) = None).
  { revert Ht. unfold scalar, tables_of. cbn [List.find fst]. repeat (destruct (bool_decide _); [done|]). done. }
  by rewrite Ht, Ht'.
Qed.
(** C35: the rows of a table that auth_app reads under a tenant context are those the policies in force after the
    last migration let through, read from the text of the policies and the functions they call; what it may
    write is the same but for the audit history, where being a supervisor lets nobody write. *)
Theorem policies_in_force ctx db t :
  rows_of t (as_auth_app ctx db) = where_ (readable head ctx db "auth_app" t) (rows_of t db) /\
  (forall r, t ∈ List.map fst metadata -> t <> "audit_logs" ->
     writable head ctx db "auth_app" t r = readable head ctx db "auth_app" t r) /\
  forall a, writable head ctx db "auth_app" "audit_logs" (audit_log_row a) = audit_logs_check ctx a.
Proof.
  split_and!; [|intros r Hm Ht; by apply checks_as_read|intros a; apply audit_writable].
  revert t. apply (rows_of_cases _ db db).
  - apply unknown.
  - intros t Ht. cbn [List.map tables_of fst] in Ht.
    repeat (apply elem_of_cons in Ht as [->|Ht];
      [first [ apply kept; [vm_compute; reflexivity|reflexivity]
             | apply (filtered organization_row (organizations_tenant_isolation ctx db) (organizations db)); [reflexivity|reflexivity|intros r; apply organization_readable]
             | apply (filtered invitation_row (invitations_tenant_isolation ctx) (invitations db)); [reflexivity|reflexivity|intros r; apply invitation_readable]
             | apply (filtered user_role_binding_row (user_role_bindings_tenant_isolation ctx) (user_role_bindings db)); [reflexivity|reflexivity|intros r; apply binding_readable]
             | apply (filtered session_row (sessions_tenant_isolation ctx) (sessions db)); [reflexivity|reflexivity|intros r; apply session_readable]
             | apply (filtered governed_request_row (governed_requests_tenant_isolation ctx db) (governed_requests db)); [reflexivity|reflexivity|intros r; apply governed_readable]
             | apply (filtered audit_log_row (audit_logs_tenant_isolation ctx db) (audit_logs db)); [reflexivity|reflexivity|intros r; apply audit_readable]
             | apply (filtered referral_row (referrals_user_isolation ctx) (referrals db)); [reflexivity|reflexivity|intros r; apply referral_readable]
             | apply (filtered contact_change_row (contact_change_requests_user_isolation ctx) (contact_change_requests db)); [reflexivity|reflexivity|intros r; apply contact_readable]
             | apply (filtered gdpr_request_row (gdpr_requests_user_isolation ctx) (gdpr_requests db)); [reflexivity|reflexivity|intros r; apply gdpr_readable]
             | apply (filtered export_artifact_row (privacy_export_artifacts_user_isolation ctx) (privacy_export_artifacts db)); [reflexivity|reflexivity|intros r; apply artifact_readable] ]|]).
    by apply elem_of_nil in Ht.
Qed.

(** ** Triggers and functions *)

Definition guard : list (string * list string) := [("INSERT", []); ("UPDATE", ["org_id"])].
Lemma binding_triggers : row_triggers head "user_role_bindings" =
  [(guard, collaboration_body); ([("INSERT", []); ("UPDATE", ["catalog_id"])], require_active_role_catalog_body)].
Proof. vm_compute. reflexivity. Qed.
Lemma invitation_triggers : row_triggers head "invitations" = [(guard, collaboration_body)].
Proof. vm_compute. reflexivity. Qed.
Lemma audit_triggers : row_triggers head "audit_logs" = [([("UPDATE", []); ("DELETE", [])], RaiseAlways)].
Proof. vm_compute. reflexivity. Qed.
Lemma invitation_org_function : function_of head "organization_invitation_org" = Some (["candidate_hash"], invitation_org_body).
Proof. vm_compute. reflexivity. Qed.
Lemma scalar_ext {A} (P Q : A -> bool) l : (forall x, P x = Q x) -> scalar P l = scalar Q l.
Proof. intros H. unfold scalar. induction l as [|x l IH]; [done|]. cbn. rewrite H. by destruct (Q x). Qed.
Lemma first_selected {A} (P : A -> bool) (f : A -> Row) (g : A -> Value) col l :
  (forall x, column col (f x) = g x) ->
  match List.map f (where_ P l) with r :: _ => column col r | [] => Null end = match scalar P l with Some x => g x | None => Null end.
Proof. intros H. unfold where_, scalar. induction l as [|x l IH]; [done|]. cbn. destruct (P x); [apply H|apply IH]. Qed.
Lemma equal_uuid x y : is_true (sql_equal (UuidV x) (UuidV y)) = (x == y).
Proof. exact (equal_uuids (Some x) (Some y)). Qed.
Lemma equal_true b : is_true (sql_equal (BoolV b) (BoolV true)) = b.
Proof. by destruct b. Qed.
Lemma requires_active db b :
  raises_on require_active_role_catalog_body db (user_role_binding_row b) = negb (require_active_role_catalog (b_catalog_id b) db).
Proof.
  unfold raises_on, require_active_role_catalog_body. rewrite selected_nonempty.
  change (rows_of "role_permission_catalog" db) with (List.map role_permission_row (role_permission_catalog db)).
  rewrite row_exists_map. transitivity (negb (row_exists (fun c => is_true
    (eval no_functions (MkScope (role_permission_row c) (user_role_binding_row b) [] 0 None None)
       (Col "catalog_id" =. New "catalog_id" AND Col "active" =. Bool true)%sql)) (role_permission_catalog db))); [by destruct (row_exists _ _)|].
  f_equal. apply row_exists_ext. intros c. cbn [eval term row new_row]. autorewrite with sql.
  destruct c, b. read_columns. by rewrite equal_uuid, equal_true.
Qed.
Lemma rejects_personal db org new : column "org_id" new = UuidV org ->
  raises_on collaboration_body db new = reject_personal_workspace_collaboration org db.
Proof.
  intros Hn. unfold raises_on, collaboration_body. rewrite selected_nonempty.
  change (rows_of "organizations" db) with (List.map organization_row (organizations db)).
  rewrite row_exists_map. transitivity (row_exists (fun o => is_true
    (eval no_functions (MkScope (organization_row o) new [] 0 None None)
       (Col "org_id" =. New "org_id" AND Col "workspace_type" =. Str "personal")%sql)) (organizations db)); [by destruct (row_exists _ _)|].
  apply row_exists_ext. intros o. cbn [eval term row new_row]. autorewrite with sql. rewrite Hn.
  destruct o. read_columns. by rewrite equal_uuid, equal_text.
Qed.

(** A role binding is inserted past the triggers exactly where the model allows it, an invitation past its
    CHECK constraints and triggers exactly where the model does; an end date may always be set on a binding;
    nothing updates or deletes an audit row, and nothing stops one from being added; and the function that finds
    the organization of an invitation finds the one the model does. *)
Theorem triggers_and_functions_in_force db :
  (forall b, trigger_raises head db ("INSERT", []) "user_role_bindings" (user_role_binding_row b) = negb (binding_allowed db b)) /\
  (forall i, accepts head "invitations" (invitation_row i)
             && negb (trigger_raises head db ("INSERT", []) "invitations" (invitation_row i)) = invitation_allowed db i) /\
  (forall new, trigger_raises head db ("UPDATE", ["revoked_at"]) "user_role_bindings" new = false) /\
  (forall new cols, trigger_raises head db ("UPDATE", cols) "audit_logs" new = true
                    /\ trigger_raises head db ("DELETE", []) "audit_logs" new = true
                    /\ trigger_raises head db ("INSERT", []) "audit_logs" new = false) /\
  forall ctx now r h,
    select_value head db (in_context ctx now r) "organization_invitation_org" [TextV h]
    = Some (opt_value UuidV (organization_invitation_org h now db)).
Proof.
  unfold trigger_raises. rewrite binding_triggers, invitation_triggers, audit_triggers. split_and!.
  - intros b. cbn [List.existsb fst snd fires andb orb].
    rewrite (requires_active db b), (rejects_personal db (b_org_id b)) by (by destruct b).
    unfold binding_allowed. by destruct (require_active_role_catalog _ _), (reject_personal_workspace_collaboration _ _).
  - intros i. pose proof (proj1 (implements_Invitation i)) as Ha. cbv beta iota delta [table_name to_row valid Invitation_model] in Ha. rewrite Ha.
    cbn [List.existsb fst snd fires andb orb].
    rewrite (rejects_personal db (in_org_id i)) by (by destruct i). unfold invitation_allowed.
    by rewrite orb_false_r.
  - done.
  - done.
  - intros ctx now r h. unfold select_value. rewrite invitation_org_function. cbn [mbind option_bind]. f_equal.
    unfold selected. change (rows_of "invitations" db) with (List.map invitation_row (invitations db)). rewrite where_map.
    rewrite (first_selected _ _ (fun i => UuidV (in_org_id i))) by (by intros []).
    transitivity (match scalar (fun i => (in_token_hash i == h) && (in_state i == "pending") && (now <? in_expires_at i)) (invitations db) with
                  | Some i => UuidV (in_org_id i) | None => Null end); [|unfold organization_invitation_org; by destruct (scalar _ _)].
    rewrite (scalar_ext _ (fun i => (in_token_hash i == h) && (in_state i == "pending") && (now <? in_expires_at i))); [done|].
    intros i. cbn [eval term bound in_context row parameters combine now_]. autorewrite with sql.
    destruct i. read_columns. rewrite !equal_text, andb_assoc. f_equal. cbn -[Z.ltb]. by destruct (_ <? _).
Qed.

(** ** A concrete row *)

Lemma rows_have_the_columns_witness :
  well_typed head "users" (user_row (old_user 1 None)) = true /\
  List.map fst (user_row (old_user 1 None)) ++ left_out "users" ≡ₚ List.map fst (table_columns head "users").
Proof.
  apply (rows_have_the_columns old_db "users").
  apply list_elem_of_lookup_2 with (i := 0%nat). vm_compute. reflexivity.
Defined.
