(* ===== verification/Rollback.v ===== *)
(** Downgrades: what they restore, when they are refused, and what a downgrade followed by an upgrade loses. *)
From S2P Require Import Prelude PyText Entity Models Sql Rows Ddl Migrations Revisions Metadata RowSecurity Schema SchemaProps.
From S2P Require RedisClient WorkspaceInv.
From S2P Require Import World WorkspaceRepo.

(** FORCE ROW LEVEL SECURITY has no effect on a table where row level security is off. *)
Definition in_effect (s : Security) : Security := s <| rls_forced := rls_enabled s && rls_forced s |>.
Definition effective (c : Catalog) : Catalog := c <| ca_security ::= fmap in_effect |>.

Section Chain.
Context (org_ids catalog_ids history_ids : N -> UUID) (now : Time).
Abbreviation chain := (versions org_ids catalog_ids history_ids now).
Abbreviation down := (downgrades org_ids catalog_ids history_ids now).
Abbreviation up := (upgrades org_ids catalog_ids history_ids now).

Definition restores (n : nat) : bool :=
  match nth_error chain n with
  | Some r =>
      match run_catalog (down (Some (revision r))) head with
      | Done c => (effective c == effective (catalog_at (S n))) && (run_catalog (up (Some (revision r))) c == Done head)
      | Refused _ => false
      end
  | None => true
  end.
Lemma all_restored : List.forallb restores (List.seq 2 10) = true.
Proof. vm_compute. reflexivity. Qed.

(** C39: from the last revision every downgrade to 0003 or a later revision succeeds and restores the catalog of
    that revision, but for FORCE flags without effect, and the upgrade from there restores the last one. *)
Theorem downgrades_restore n r : (2 <= n)%nat -> nth_error chain n = Some r ->
  exists c, run_catalog (down (Some (revision r))) head = Done c /\ effective c = effective (catalog_at (S n)) /\
    run_catalog (up (Some (revision r))) c = Done head.
Proof.
  intros Hn Hr. pose proof all_restored as H. rewrite forallb_forall in H.
  assert (Hl : (n < 12)%nat) by (change 12%nat with (length chain); apply nth_error_Some; congruence).
  specialize (H n ltac:(apply in_seq; lia)). unfold restores in H. rewrite Hr in H.
  destruct (run_catalog (down (Some (revision r))) head) as [c|]; [|discriminate H]. exists c.
  apply andb_true_iff in H as [H1 H2]. apply bool_decide_eq_true in H1, H2. done.
Qed.
End Chain.

(** ** Downgrades that are refused *)

(** The grant of SELECT on the audit history to its reader survives all statements of the downgrade of 0003, none of
    which revokes it, and the role cannot be dropped while it is there. *)
Definition reader_grant (c : Catalog) : bool := holds_privilege c "auth_audit_reader" "SELECT" "audit_logs".
Definition spares_reader (o : Op) : bool :=
  match o with
  | DROP_POLICY_IF_EXISTS _ _ | DISABLE_ROW_LEVEL_SECURITY _ | DROP_TRIGGER_IF_EXISTS _ _ | DROP_FUNCTION_IF_EXISTS _
  | REVOKE_ALL_ON_SCHEMA _ | DROP_ROLE_IF_EXISTS _ => true
  | REVOKE_ALL_ON_ALL_TABLES r => r != "auth_audit_reader"
  | _ => false
  end.
Lemma grant_on_security t f c c' : on_security t f c = Done c' -> (forall s, se_grants (f s) = se_grants s) ->
  reader_grant c' = reader_grant c.
Proof.
  unfold on_security, security. intros H Hf. destruct (ca_security c !! t) as [s|] eqn:E; [|discriminate H].
  injection H as <-. unfold reader_grant, holds_privilege. cbn [ca_security set].
  destruct (decide (t = "audit_logs")) as [->|Ht]; [rewrite lookup_insert_eq, E; by rewrite Hf|by rewrite lookup_insert_ne].
Qed.
Lemma reader_spared o c c' : spares_reader o = true -> exec_catalog o c = Done c' -> reader_grant c = true -> reader_grant c' = true.
Proof.
  intros Ho H Hg. destruct o; try discriminate Ho; cbn [exec_catalog] in H.
  - destruct (negb (role_used r c)); [|discriminate H]. by injection H as <-.
  - by injection H as <-.
  - injection H as <-. unfold reader_grant, holds_privilege in Hg |- *. cbn [ca_security set on_all_tables].
    rewrite lookup_fmap. destruct (ca_security c !! "audit_logs") as [s|]; [|done]. cbn [fmap option_fmap option_map se_grants set].
    apply bool_decide_eq_true in Hg. apply bool_decide_eq_true, elem_of_filter. split; [|done]. cbn in Ho |- *.
    apply negb_true_iff, bool_decide_eq_false in Ho. congruence.
  - destruct (negb (function_used f c)); [|discriminate H]. by injection H as <-.
  - by rewrite (grant_on_security _ _ _ _ H).
  - by rewrite (grant_on_security _ _ _ _ H).
  - by rewrite (grant_on_security _ _ _ _ H).
Qed.
Lemma run_reader ops c c' : List.forallb spares_reader ops = true -> run_catalog ops c = Done c' -> reader_grant c = true ->
  reader_grant c' = true.
Proof.
  revert c. induction ops as [|o ops IH]; cbn; intros c Ho H Hg; [by injection H as <-|]. apply andb_true_iff in Ho as [Ho Hs].
  destruct (exec_catalog o c) as [c1|] eqn:E; [|discriminate H]. apply (IH c1 Hs H). by eapply reader_spared.
Qed.
Lemma run_catalog_app ops1 ops2 c : run_catalog (ops1 ++ ops2) c = c' ← run_catalog ops1 c; run_catalog ops2 c'.
Proof. revert c. induction ops1 as [|o ops1 IH]; cbn; intros c; [done|]. destruct (exec_catalog o c); cbn; [apply IH|done]. Qed.
Lemma reader_used c : reader_grant c = true -> role_used "auth_audit_reader" c = true.
Proof.
  unfold reader_grant, holds_privilege, role_used. destruct (ca_security c !! "audit_logs") as [s|] eqn:E; [|done].
  intros H%bool_decide_eq_true. rewrite !orb_true_iff. do 3 left. apply existsb_exists. exists ("audit_logs", s). split.
  - apply list_elem_of_In, elem_of_map_to_list, E.
  - apply orb_true_iff. left. apply existsb_exists. exists ("auth_audit_reader", "SELECT").
    split; [apply list_elem_of_In, elem_of_elements, H|apply eqb_refl].
Qed.
Lemma down_0003_refused c : reader_grant c = true -> exists e, run_catalog down_0003 c = Refused e.
Proof.
  intros Hg. set (before := firstn 17 down_0003). set (rest := skipn 18 down_0003).
  assert (Hd : down_0003 = before ++ DROP_ROLE_IF_EXISTS "auth_audit_reader" :: rest) by (vm_compute; reflexivity).
  rewrite Hd, run_catalog_app. destruct (run_catalog before c) as [c'|e] eqn:E; [|by exists e]. cbn [mbind Outcome_bind run_catalog].
  exists (DependentObjects "auth_audit_reader"). cbn [exec_catalog mbind Outcome_bind].
  rewrite reader_used; [done|]. apply (run_reader before c c'); [vm_compute; reflexivity|done|done].
Qed.

Lemma run_catalog_refused ops c db e : List.forallb quiet ops = true -> run_catalog ops c = Refused e -> run ops (c, db) = Refused e.
Proof.
  revert c db. induction ops as [|o ops IH]; cbn; intros c db Hq H; [discriminate H|].
  apply andb_true_iff in Hq as [Ho Hq]. unfold execute. cbn.
  destruct (exec_catalog o c) as [c1|] eqn:E; cbn in H |- *; [|congruence].
  rewrite violation_quiet by done. cbn. by apply IH.
Qed.
(** A run that ends in a CHECK constraint asks the rows it left. *)
Lemma run_then_check ops t name k c c1 c2 db : List.forallb quiet ops = true -> run_catalog ops c = Done c1 ->
  exec_catalog (create_constraint t name (CheckConstraint k)) c1 = Done c2 ->
  run (ops ++ [create_constraint t name (CheckConstraint k)]) (c, db)
  = if row_exists (check_rejects k) (rows_of t (rows_after ops db))
    then Refused (CheckViolation (constraint_name t name (CheckConstraint k))) else Done (c2, rows_after ops db).
Proof.
  intros Hq Hr Hc. rewrite run_app, (run_quiet ops c c1 db Hq Hr). cbn [mbind Outcome_bind run]. unfold execute. cbn [fst snd].
  rewrite Hc. cbn [mbind Outcome_bind]. cbn [exec_catalog] in Hc. unfold add_constraint, table in Hc.
  destruct (ca_tables c1 !! t) as [d|]; [|discriminate Hc]. cbn in Hc.
  destruct (is_none _); cbn in Hc; [|discriminate Hc].
  clear Hq. destruct (List.forallb _ _); cbn in Hc; [|discriminate Hc].
  injection Hc as <-.
  unfold violation. cbn [ca_tables set set_table]. rewrite lookup_insert_eq. cbn [rows_break].
  destruct (row_exists _ _); done.
Qed.
Definition registered_purposes : list string := ["email_verify"; "phone_verify"; "password_reset"; "invite"].
Definition first_providers : list string := ["password"; "google"; "apple"; "phone"].
Definition catalog_down (ops : list Op) (c : Catalog) : Catalog := catalog_of (run_catalog ops c).
Lemma run_down_0009 db : run down_0009 (catalog_at 9, db)
  = if row_exists (fun e => negb (e_purpose e is_in registered_purposes)) (ephemeral_tokens db)
    then Refused (CheckViolation "ck_ephemeral_tokens_purpose_valid")
    else Done (catalog_down down_0009 (catalog_at 9), db <| contact_change_requests := [] |> <| staff_role_bindings := [] |>).
Proof.
  assert (Hd : down_0009 = firstn 15 down_0009 ++ [purpose_valid registered_purposes]) by (vm_compute; reflexivity).
  rewrite Hd at 1. unfold purpose_valid.
  rewrite (run_then_check _ _ _ _ _ (catalog_down (firstn 15 down_0009) (catalog_at 9)) (catalog_down down_0009 (catalog_at 9)));
    [|vm_compute; reflexivity|computed|computed].
  change (rows_after (firstn 15 down_0009) db) with (db <| contact_change_requests := [] |> <| staff_role_bindings := [] |>).
  change (rows_of "ephemeral_tokens" _) with (List.map ephemeral_token_row (ephemeral_tokens db)).
  rewrite row_exists_map. erewrite row_exists_ext; [reflexivity|]. intros []. unfold check_rejects. cbn [eval term row row_scope]. read_columns.
  cbn -[bool_decide]. by destruct (bool_decide _).
Qed.
Lemma run_down_0006 db : run down_0006 (catalog_at 6, db)
  = if row_exists (fun i => negb (i_provider i is_in first_providers)) (identities db)
    then Refused (CheckViolation "ck_identities_provider_valid") else Done (catalog_down down_0006 (catalog_at 6), db).
Proof.
  assert (Hd : down_0006 = firstn 1 down_0006 ++ [provider_valid first_providers]) by (vm_compute; reflexivity).
  rewrite Hd at 1. unfold provider_valid.
  rewrite (run_then_check _ _ _ _ _ (catalog_down (firstn 1 down_0006) (catalog_at 6)) (catalog_down down_0006 (catalog_at 6)));
    [|vm_compute; reflexivity|computed|computed].
  change (rows_of "identities" _) with (List.map identity_row (identities db)).
  rewrite row_exists_map. erewrite row_exists_ext; [reflexivity|]. intros []. unfold check_rejects. cbn [eval term row row_scope]. read_columns.
  cbn -[bool_decide]. by destruct (bool_decide _).
Qed.

(** C38: a downgrade of 0003 is refused, and changes nothing, on every database whose audit reader may read the
    audit history, as it may on every database the upgrade made; one of 0009 exactly where a token has a purpose the
    older CHECK does not list, as support_recovery; and one of 0006 exactly where an identity has a provider the
    older one does not list, as microsoft. *)
Theorem downgrades_refused :
  (forall c db, reader_grant c = true -> exists e, do_run_migrations down_0003 (c, db) = (Some e, (c, db))) /\
  List.forallb (fun n => reader_grant (catalog_at n)) (List.seq 3 10) = true /\
  (forall db, do_run_migrations down_0009 (catalog_at 9, db)
     = if row_exists (fun e => negb (e_purpose e is_in registered_purposes)) (ephemeral_tokens db)
       then (Some (CheckViolation "ck_ephemeral_tokens_purpose_valid"), (catalog_at 9, db))
       else (None, (catalog_down down_0009 (catalog_at 9), db <| contact_change_requests := [] |> <| staff_role_bindings := [] |>))) /\
  forall db, do_run_migrations down_0006 (catalog_at 6, db)
     = if row_exists (fun i => negb (i_provider i is_in first_providers)) (identities db)
       then (Some (CheckViolation "ck_identities_provider_valid"), (catalog_at 6, db))
       else (None, (catalog_down down_0006 (catalog_at 6), db)).
Proof.
  split_and!.
  - intros c db Hg. destruct (down_0003_refused c Hg) as [e He]. exists e. unfold do_run_migrations.
    assert (Hr : run down_0003 (c, db) = Refused e); [|by rewrite Hr]. apply run_catalog_refused; [vm_compute; reflexivity|done].
  - vm_compute. reflexivity.
  - intros db. unfold do_run_migrations. rewrite run_down_0009. by destruct (row_exists _ _).
  - intros db. unfold do_run_migrations. rewrite run_down_0006. by destruct (row_exists _ _).
Qed.

(** ** 0008 on a database in use *)

Section Workspaces.
Context (org_ids catalog_ids : N -> UUID).
Abbreviation up := (up_0008 org_ids catalog_ids).
(** ADD COLUMN leaves organizations without an owner. *)
Definition plain (o : Organization) : Organization :=
  o <| o_workspace_type := "organization" |> <| o_personal_owner_user_id := None |>.
Definition plain_organizations (db : Db) : Db := db <| organizations ::= List.map plain |>.
Definition between (n : nat) : Catalog := catalog_of (run_catalog (firstn n up) (catalog_at 7)).

Lemma no_duplicates (k : Key) rows : (forall r, r ∈ rows -> holds r k.2 = false) -> has_duplicates k rows = false.
Proof.
  induction rows as [|r rows IH]; intros H; [done|]. cbn. rewrite IH by (intros; apply H; by right). rewrite orb_false_r.
  apply row_exists_false. intros s _. unfold clash. by rewrite (H r ltac:(by left)).
Qed.
Lemma fills db : rows_after (firstn 2 up) db = plain_organizations db.
Proof.
  unfold plain_organizations. change (rows_after (firstn 2 up) db) with
    (db <| organizations ::= List.map (fun o => o <| o_workspace_type := "organization" |>) |>
        <| organizations ::= List.map (fun o => o <| o_personal_owner_user_id := None |>) |>).
  cbn [set organizations]. by rewrite map_map.
Qed.
Lemma owners_null db r : r ∈ rows_of "organizations" (plain_organizations db) ->
  column "personal_owner_user_id" r = Null /\ column "workspace_type" r = TextV "organization".
Proof.
  change (rows_of "organizations" (plain_organizations db)) with (List.map organization_row (List.map plain (organizations db))).
  rewrite map_map. intros (o & <- & _)%list_elem_of_In%in_map_iff. by destruct o.
Qed.
Lemma fk_holds c n t refs d db : violation (create_constraint "organizations" n
    (ForeignKeyConstraint ["personal_owner_user_id"] t refs d)) c (plain_organizations db) = None.
Proof.
  unfold violation. destruct (ca_tables c !! "organizations"); [|done]. cbn [rows_break].
  rewrite (proj2 (row_exists_false _ _)); [done|]. intros r Hr. unfold dangling. cbn [List.forallb].
  by rewrite (proj1 (owners_null db r Hr)).
Qed.
Lemma personal_index_holds c n cols db : violation (create_index n "organizations" cols true
    (Some (Col "workspace_type" =. Str "personal")%sql)) c (plain_organizations db) = None.
Proof.
  unfold violation. destruct (ca_tables c !! "organizations"); [|done]. rewrite no_duplicates; [done|].
  intros r Hr. unfold key, holds. cbn [snd eval term row row_scope]. by rewrite (proj2 (owners_null db r Hr)).
Qed.
Lemma index_of_empty c n t cols w db : rows_of t db = [] -> violation (create_index n t cols true w) c db = None.
Proof. intros H. unfold violation. destruct (ca_tables c !! t); [|done]. by rewrite H. Qed.
Definition backfilled (db : Db) : Db :=
  (plain_organizations db) <| organizations ::= backfill_workspaces org_ids 0 (users db) |>.
Lemma owner_check_holds c n db : violation (create_constraint "organizations" n (CheckConstraint owner_matches_workspace_type)) c
    (backfilled db) = None.
Proof.
  unfold violation. destruct (ca_tables c !! "organizations"); [|done]. cbn [rows_break].
  rewrite (proj2 (row_exists_false _ _)); [done|].
  change (rows_of "organizations" (backfilled db)) with
    (List.map organization_row (backfill_workspaces org_ids 0 (users db) (List.map plain (organizations db)))).
  intros r (o & <- & Ho)%list_elem_of_In%in_map_iff. apply list_elem_of_In, backfill_inv in Ho.
  destruct Ho as [(o' & <- & _)%list_elem_of_In%in_map_iff|(u & m & _ & _ & _ & ->)]; [by destruct o'|done].
Qed.

Lemma seeds_written db : rows_after (firstn 16 (skipn 7 up)) (backfilled db) = upgrade_0008 org_ids catalog_ids (plain_organizations db).
Proof. destruct db. reflexivity. Qed.
(** On every database of revision 0007 the upgrade to 0008 succeeds, and its rows are those [upgrade_0008] writes. *)
Lemma run_up_0008 db : referrals db = [] ->
  run up (catalog_at 7, db) = Done (catalog_at 8, upgrade_0008 org_ids catalog_ids (plain_organizations db)).
Proof.
  intros Hr.
  change up with (firstn 2 up ++ skipn 2 up). rewrite run_app, (run_quiet _ _ (between 2)) by computed.
  rewrite fills. cbn [mbind Outcome_bind].
  change (skipn 2 up) with (nth 2 up CREATE_SCHEMA :: [nth 3 up CREATE_SCHEMA] ++ skipn 4 up).
  rewrite (run_step _ _ _ (between 3)); [|computed|apply fk_holds]. cbn [exec_rows].
  rewrite run_app, (run_quiet _ _ (between 4)) by computed. cbn [mbind Outcome_bind].
  change (rows_after _ _) with (plain_organizations db).
  change (skipn 4 up) with (nth 4 up CREATE_SCHEMA :: [nth 5 up CREATE_SCHEMA] ++ skipn 6 up).
  rewrite (run_step _ _ _ (between 5)); [|computed|apply personal_index_holds]. cbn [exec_rows].
  rewrite run_app, (run_quiet _ _ (between 6)) by computed. cbn [mbind Outcome_bind].
  change (rows_after _ _) with (backfilled db).
  change (skipn 6 up) with (nth 6 up CREATE_SCHEMA :: firstn 16 (skipn 7 up) ++ skipn 23 up).
  rewrite (run_step _ _ _ (between 7)); [|computed|apply owner_check_holds]. cbn [exec_rows].
  rewrite run_app, (run_quiet _ _ (between 23)) by computed. cbn [mbind Outcome_bind].
  change (exec_rows (nth 6 up CREATE_SCHEMA) (backfilled db)) with (backfilled db). rewrite seeds_written.
  change (skipn 23 up) with (nth 23 up CREATE_SCHEMA :: skipn 24 up).
  rewrite (run_step _ _ _ (between 24)); [|computed|apply index_of_empty; change (List.map referral_row (referrals db) = []); by rewrite Hr].
  rewrite (run_quiet _ _ (catalog_at 8)) by computed. reflexivity.
Qed.
Lemma run_down_0008 db : run down_0008 (catalog_at 8, db) = Done (catalog_down down_0008 (catalog_at 8), db <| referrals := [] |>).
Proof. rewrite (run_quiet _ _ (catalog_down down_0008 (catalog_at 8))) by computed. reflexivity. Qed.
Lemma down_0008_catalog : catalog_down down_0008 (catalog_at 8) = catalog_at 7.
Proof. computed. Qed.

(** The personal workspace of an account, by the name 0008 and the service give it. *)
Definition slug_taken (u : User) (db : Db) : bool := row_exists (fun o => o_slug o == workspace_slug u) (organizations db).
Lemma slug_conflict n u o t : o ∈ t -> o_slug o = workspace_slug u -> insert_or_nothing (workspace_row n u) t = t.
Proof.
  intros Ho Hs. unfold insert_or_nothing. assert (organization_conflict t (workspace_row n u) = true) as ->; [|done].
  apply row_exists_true. exists o. split; [done|]. apply orb_true_iff. left. apply orb_true_iff. right.
  cbn. by rewrite Hs, eqb_refl.
Qed.
Lemma backfill_blocked l n t u o : o ∈ t -> o_slug o = workspace_slug u ->
  (forall x, x ∈ t -> personal_of (u_user_id u) x = false) ->
  forall x, x ∈ backfill_workspaces org_ids n l t -> personal_of (u_user_id u) x = false.
Proof.
  revert n t. induction l as [|v l IH]; intros n t Ho Hs Ht x Hx; [by apply Ht|]. cbn [backfill_workspaces] in Hx.
  revert Hx. apply IH.
  - destruct (is_none _); [by apply insert_grows|done].
  - done.
  - intros y Hy. destruct (is_none _) eqn:Ea; [|by apply Ht].
    destruct (decide (u_user_id v = u_user_id u)) as [He|He].
    + rewrite (slug_conflict _ _ o) in Hy; [by apply Ht|done|]. rewrite Hs. unfold workspace_slug. by rewrite He.
    + apply insert_inv in Hy as [Hy| ->]; [by apply Ht|]. unfold personal_of. cbn.
      apply bool_decide_eq_false. congruence.
Qed.

Lemma plain_slug o : o_slug (plain o) = o_slug o.
Proof. by destruct o. Qed.
Lemma add_row_refused {R row B} (table : Db -> list row) `{!Setter table} ok conflict r (k : unit -> prog R B) w :
  conflict (table (w_db w)) r = true -> (add_row table ok conflict r ≫= k) w = (inl IntegrityError, w).
Proof.
  intros H. unfold add_row, get_db, mbind, prog_bind. by rewrite H, andb_false_r.
Qed.
Lemma tx_refused {R A} (m : prog R A) w e w' : m w = (inl e, w') -> fst (tx m w) = inl e.
Proof. unfold tx. by intros ->. Qed.
(** After the upgrade a live account has its workspace where the slug of one was free, and only there. *)
Lemma workspace_after_up db limit u : distinct_below limit org_ids -> (N.of_nat (length (users db)) <= limit)%N ->
  (forall o n, o ∈ organizations db -> (n < limit)%N -> o_org_id o <> org_ids n) ->
  u ∈ users db -> u_anonymized_at u = None ->
  (exists o, o ∈ organizations (upgrade_0008 org_ids catalog_ids (plain_organizations db)) /\ personal_of (u_user_id u) o = true)
  <-> slug_taken u db = false.
Proof.
  intros Hd Hl Hf Hu Ha.
  assert (organizations (upgrade_0008 org_ids catalog_ids (plain_organizations db))
    = backfill_workspaces org_ids 0 (users db) (List.map plain (organizations db))) as -> by (by destruct db).
  assert (Hplain : forall x, x ∈ List.map plain (organizations db) -> exists y, y ∈ organizations db /\ x = plain y)
    by (intros x (y & <- & Hy%list_elem_of_In)%list_elem_of_In%in_map_iff; by exists y).
  split.
  - intros (x & Hx & Hp). destruct (slug_taken u db) eqn:Es; [|done]. apply row_exists_true in Es as (o & Ho & Hs%bool_decide_eq_true).
    rewrite (backfill_blocked (users db) 0 (List.map plain (organizations db)) u (plain o)) in Hp;
      [done|by apply list_elem_of_In, in_map, list_elem_of_In|by rewrite plain_slug| |exact Hx].
    intros y (z & _ & ->)%Hplain. by destruct z.
  - intros Hs. unfold slug_taken in Hs. rewrite row_exists_false in Hs. apply (backfill_owned org_ids limit Hd); [lia| |done|by rewrite Ha|].
    + intros x m (y & Hy & ->)%Hplain Hm. destruct y. by apply (Hf _ m Hy), Hm.
    + intros x (y & Hy & ->)%Hplain. rewrite plain_slug. intros He. specialize (Hs y Hy). cbn beta in Hs. by rewrite He, eqb_refl in Hs.
Qed.
(** An account without a personal workspace whose slug another workspace holds cannot be given one. *)
Lemma ensure_blocked {R} {E : World.Env} (w : World.World R) u o :
  o ∈ organizations (w_db w) -> o_slug o = workspace_slug u ->
  (forall x, x ∈ organizations (w_db w) -> personal_of (u_user_id u) x = false) ->
  account_by_id (u_user_id u) (w_db w) = Some u -> u_anonymized_at u = None ->
  fst (ensure_personal_workspace (R := R) (u_user_id u) w) = inl IntegrityError.
Proof.
  intros Ho Hs Hno Hu Ha. unfold ensure_personal_workspace. eapply tx_refused. run.
  assert (scalar (personal_of (u_user_id u)) (organizations (w_db w)) = None) as ->.
  { destruct (scalar _ _) as [x|] eqn:E1; [|done]. apply scalar_Some in E1 as [Hx Hp]. by rewrite Hno in Hp. }
  rewrite Hu. run. rewrite Ha. cbn [is_some]. run. rewrite add_row_refused; [reflexivity|].
  apply row_exists_true. exists o. split; [done|]. apply orb_true_iff. left. apply orb_true_iff. right.
  rewrite Hs. unfold workspace_slug. rewrite uuid_str_digits. apply eqb_refl.
Qed.

End Workspaces.

(** ** Concrete databases *)

Lemma downgrades_restore_witness :
  exists c, run_catalog (downgrades (new_ids 100) (new_ids 200) (new_ids 300) 0 (Some "0007_mfa_replay_protection")) head = Done c /\
    effective c = effective (catalog_at 7).
Proof.
  destruct (downgrades_restore (new_ids 100) (new_ids 200) (new_ids 300) 0 6 _ ltac:(lia) eq_refl) as (c & H & He & _).
  exists c. exact (conj H He).
Defined.
(** The database of revision 0007 after the upgrade to 0008. *)
Definition upgraded_db : Db := upgrade_0008 (new_ids 100) (new_ids 200) (plain_organizations old_db).
