(* ===== verification/GrantProps.v ===== *)
(** What the grants of the migrations let the service do: the privileges of the role it runs as, and that the
    requests of the service stay within them, but for the erasure of an account. *)
From S2P Require Import Prelude PyText Entity Models RedisClient World Sql Rows Ddl Revisions Metadata Schema SchemaProps.
From S2P Require Import Http System Wiring SystemProps.
From S2P Require Recovery SessionControl PrivacyRepo PrivacyProps Privacy.
From S2P Require HttpSession HttpRegistration HttpLogin HttpMfa HttpRecovery HttpWorkspace HttpPrivacy.

(** The rows a role may leave of a table, by the privileges it holds: with INSERT alone it only appends. *)
Definition permits (c : Catalog) (role t : string) (before after : list Row) : Prop :=
  match holds_privilege c role "INSERT" t, holds_privilege c role "UPDATE" t || holds_privilege c role "DELETE" t with
  | true, true => True
  | true, false => before `prefix_of` after
  | false, true => (length after <= length before)%nat
  | false, false => after = before
  end.

Definition DML_granted (t : string) : bool :=
  List.forallb (fun p => holds_privilege head "auth_app" p t) DML.
(** The tables [auth_app] may not write as it likes. *)
Definition guarded : list string := ["role_permission_catalog"; "staff_role_bindings"; "audit_logs"].
Lemma unguarded_granted : List.forallb (fun t => DML_granted t || (t is_in guarded)) (List.map fst (tables_of empty_db)) = true.
Proof. computed. Qed.
Lemma unknown_empty t db : t ∉ List.map fst (tables_of empty_db) -> rows_of t db = [].
Proof.
  revert t. apply (rows_of_cases (fun t => t ∉ List.map fst (tables_of empty_db) -> rows_of t db = []) db empty_db); [|done]. intros t Ht _. unfold rows_of. by rewrite Ht.
Qed.
Lemma unguarded db db' t : t ∉ guarded -> permits head "auth_app" t (rows_of t db) (rows_of t db').
Proof.
  intros Hg. destruct (decide (t ∈ List.map fst (tables_of empty_db))) as [Ht|Ht].
  - apply list_elem_of_In in Ht. pose proof (proj1 (forallb_forall _ _) unguarded_granted t Ht) as Hf. cbv beta in Hf.
    destruct (orb_prop _ _ Hf) as [Hd|Hd]; [|exfalso; apply bool_decide_eq_true in Hd; exact (Hg Hd)].
    unfold DML_granted in Hd. rewrite forallb_forall in Hd. unfold permits.
    cbv beta in Hd. rewrite (Hd "INSERT"), (Hd "UPDATE"); [exact I|right; right; by left|right; by left].
  - rewrite !unknown_empty by done. unfold permits. by repeat case_match.
Qed.

(** The SECURITY DEFINER functions are for [auth_app] alone. *)
Lemma functions_private :
  List.forallb (fun f => may_execute head "auth_app" f && negb (may_execute head "auth_audit_reader" f))
    ["user_has_org_membership"; "organization_invitation_org"; "current_user_is_staff"; "current_user_has_staff_role"] = true.
Proof. vm_compute. reflexivity. Qed.

Section Service.
Context {R : Type} {RC : RedisClient R} {E : Env}.
Context (updated_at : User -> Time) (errors_of : forall A, HttpCall A -> list (list string * string)).
Implicit Types (w : World R).

(** ** The audit history is appended to, the catalog of roles left alone *)

Section Since.
Context (db0 : Db).
Definition appended (db : Db) : Prop :=
  audit_logs db0 `prefix_of` audit_logs db /\ role_permission_catalog db = role_permission_catalog db0.
Lemma appended_ext db db' : audit_logs db' = audit_logs db -> role_permission_catalog db' = role_permission_catalog db ->
  appended db -> appended db'.
Proof. by intros Ha Hc [Hp Hr]; split; rewrite ?Ha, ?Hc. Qed.
Lemma appended_audit db a : appended db -> appended (db <| audit_logs ::= fun t => t ++ [a] |>).
Proof. intros [Hp Hr]. split; [by apply prefix_app_r|done]. Qed.
Lemma appended_erase rid u ps email now due db : appended db -> appended (PrivacyRepo.erase_account rid u ps email now due db).
Proof.
  intros I. eapply appended_ext; [..|exact I].
  - unfold PrivacyRepo.erase_account.
    lazymatch goal with |- context [PrivacyRepo.erase_invitations ?e ?p ?d] =>
      destruct (PrivacyProps.erase_invitations_other e p d) as [l ->] end. reflexivity.
  - apply (PrivacyProps.erase_tables rid u ps email now due db).
Qed.
End Since.
Ltac appending :=
  intros; first [by apply appended_audit | by apply appended_erase
                | eapply appended_ext; [..|eassumption]; reflexivity].
Lemma keeps_revoker_appended db0 u reason : keeps (R := R) (on_db (appended db0)) (Recovery.revoke_access u reason).
Proof. unfold Recovery.revoke_access, session_revoker, SessionControl.revoke_user_access. follow appending. Qed.
Hint Resolve keeps_revoker_appended : auth.
Lemma endpoint_appended {A} db0 h (c : HttpCall A) : keeps (R := R) (on_db (appended db0)) (endpoint updated_at h c).
Proof. destruct c; cbn [endpoint]; follow appending. Qed.

(** ** The staff *)

Section Staff.
Context (staff : list StaffRoleBinding).
Definition same_staff (db : Db) : Prop := staff_role_bindings db = staff.
Definition erasing {A} (c : HttpCall A) : bool := match c with POST_privacy_erasures _ _ => true | _ => false end.
Ltac untouched := unfold same_staff; intros; done.
Lemma keeps_revoker_staff u reason : keeps (R := R) (on_db same_staff) (Recovery.revoke_access u reason).
Proof. unfold Recovery.revoke_access, session_revoker, SessionControl.revoke_user_access. follow untouched. Qed.
Hint Resolve keeps_revoker_staff : auth.
Lemma endpoint_staff {A} h (c : HttpCall A) : erasing c = false ->
  keeps (R := R) (on_db same_staff) (endpoint updated_at h c).
Proof. intros Hc. destruct c; try discriminate Hc; cbn [endpoint]; follow untouched. Qed.
End Staff.

Definition erases (q : AnyCall) : bool := match q with Call _ _ c => erasing c end.
(** The catalog of roles and the staff are read only, the audit history grows. *)
Lemma permits_by c role t i u d rs rs' : holds_privilege c role "INSERT" t = i -> holds_privilege c role "UPDATE" t = u ->
  holds_privilege c role "DELETE" t = d ->
  permits c role t rs rs' = match i, u || d with
    | true, true => True | true, false => rs `prefix_of` rs' | false, true => (length rs' <= length rs)%nat
    | false, false => rs' = rs end.
Proof. by intros <- <- <-. Qed.
Lemma permits_catalog rs rs' : permits head "auth_app" "role_permission_catalog" rs rs' = (rs' = rs).
Proof. apply (permits_by head _ _ false false false); vm_compute; reflexivity. Qed.
Lemma permits_staff rs rs' : permits head "auth_app" "staff_role_bindings" rs rs' = (rs' = rs).
Proof. apply (permits_by head _ _ false false false); vm_compute; reflexivity. Qed.
Lemma permits_audit rs rs' : permits head "auth_app" "audit_logs" rs rs' = (rs `prefix_of` rs').
Proof. apply (permits_by head _ _ true false false); vm_compute; reflexivity. Qed.
Lemma delete_shrinks {A} (P : A -> bool) l x : x ∈ l -> P x = true -> (length (delete_ P l) < length l)%nat.
Proof.
  assert (Hle : forall l, (length (delete_ P l) <= length l)%nat) by (intros k; apply filter_length_le).
  induction 1 as [x l|x y l _ IH]; intros Hp; unfold delete_ in *; cbn [List.filter length].
  - rewrite Hp. cbn [negb]. specialize (Hle l). lia.
  - specialize (IH Hp). destruct (negb (P y)); cbn [length]; lia.
Qed.
Lemma map_prefix {A B} (f : A -> B) l l' : l `prefix_of` l' -> List.map f l `prefix_of` List.map f l'.
Proof. intros [k ->]. rewrite List.map_app. by apply prefix_app_r. Qed.

(** C33: over every history of requests, of any clients and with any outcome, the service stays within the privileges
    the migrations leave the role it runs as: it only appends to the audit history, leaves the catalog of roles
    alone, and leaves the staff alone unless a request erases an account.  Erasing an account of the staff exceeds
    them. *)
Theorem service_within_grants requests w :
  let db := w_db w in let db' := w_db (run_at (service updated_at errors_of) requests w).2 in
  audit_logs db `prefix_of` audit_logs db' /\ role_permission_catalog db' = role_permission_catalog db /\
  (forall t, t <> "staff_role_bindings" -> permits head "auth_app" t (rows_of t db) (rows_of t db')) /\
  ((forall time q, (time, q) ∈ requests -> erases q = false) ->
     permits head "auth_app" "staff_role_bindings" (rows_of "staff_role_bindings" db) (rows_of "staff_role_bindings" db')) /\
  forall rid ps email now due b, b ∈ staff_role_bindings db ->
    ~ permits head "auth_app" "staff_role_bindings" (rows_of "staff_role_bindings" db)
        (rows_of "staff_role_bindings" (PrivacyRepo.erase_account rid (sb_user_id b) ps email now due db)).
Proof.
  intros db db'.
  assert (Ha : appended db db').
  { apply (keeps_run_at (appended db)); [|by split]. intros _ q _. apply keeps_call. intros A h c _. apply endpoint_appended. }
  destruct Ha as [Ha Hc]. split; [exact Ha|]. split; [exact Hc|]. split_and!.
  - intros t Ht. destruct (decide (t ∈ guarded)) as [Hg|Hg]; [|by apply unguarded].
    apply elem_of_cons in Hg as [->|[->|[->|Hg]%elem_of_cons]%elem_of_cons]; [..|exfalso; by apply elem_of_nil in Hg].
    + rewrite permits_catalog. change (List.map Rows.role_permission_row (role_permission_catalog db') = List.map Rows.role_permission_row (role_permission_catalog db)).
      by rewrite Hc.
    + exfalso. by apply Ht.
    + rewrite permits_audit. by apply (map_prefix Rows.audit_log_row).
  - intros Hq. rewrite permits_staff.
    assert (Hs : same_staff (staff_role_bindings db) db').
    { apply (keeps_run_at (same_staff (staff_role_bindings db))); [|done]. intros t q Hin. apply keeps_call. intros A h c ->.
      apply endpoint_staff. exact (Hq t _ Hin). }
    apply (f_equal (List.map Rows.staff_role_binding_row) Hs).
  - intros rid ps email now due b Hb. rewrite permits_staff. set (db1 := PrivacyRepo.erase_account _ _ _ _ _ _ _).
    pose proof (PrivacyProps.et_staff _ _ _ _ _ _ _ _ (PrivacyProps.erase_tables rid (sb_user_id b) ps email now due db)) as Hs.
    fold db1 in Hs. intros H. change (List.map Rows.staff_role_binding_row (staff_role_bindings db1) = List.map Rows.staff_role_binding_row (staff_role_bindings db)) in H.
    rewrite Hs in H. apply (f_equal length) in H. rewrite !List.length_map in H.
    pose proof (delete_shrinks (fun x => sb_user_id x == sb_user_id b) _ b Hb (eqb_refl _)). lia.
Qed.
End Service.
