(* ===== verification/Ports.v ===== *)
(** The ports of control/ports through which the use cases reach the database: each Protocol as the calls it
    offers, with the method of the repository that stands behind each call.

    docs/architecture/system_architecture.md asks that controls depend on entities and abstract ports.  A call of
    a port is [committed] when it returned; [rtc committed] are the states of the database a series of such calls
    leads through. *)
From S2P Require Import Prelude PyText Entity Models RedisClient World.
From S2P Require Providers RedisSecurity.
From S2P Require SessionRepo RecoveryRepo MfaRepo LoginRepo RegistrationRepo WorkspaceRepo PrivacyRepo UserRepo.

Section Ports.
Context {R : Type} {E : Env}.

(** The methods of a port: the programs it offers, with the types of their results. *)
Definition Port : Type := forall A : Type, prog R A -> Prop.

Inductive SessionRepository : Port :=
| Session_user_is_active (user_id : UUID) : SessionRepository bool (SessionRepo.user_is_active user_id)
| Session_create_session (user_id : UUID) (client_type : ClientType) (device_fingerprint_hash : string)
    (ip_address : option string) (refresh_token_hash : string) (access_jti : UUID) (family_expires_at
    session_expires_at refresh_expires_at : Time) : SessionRepository CreatedSession (SessionRepo.create_session
    user_id client_type device_fingerprint_hash ip_address refresh_token_hash access_jti family_expires_at
    session_expires_at refresh_expires_at)
| Session_rotate_refresh_token (token_hash replacement_hash : string) (replacement_expires_at : Time)
    (new_access_jti : UUID) (client_type : ClientType) (device_fingerprint_hash : string) (idle_timeout_seconds
    : Z) (now : Time) : SessionRepository RotationResult (SessionRepo.rotate_refresh_token token_hash
    replacement_hash replacement_expires_at new_access_jti client_type device_fingerprint_hash
    idle_timeout_seconds now)
| Session_revoke_session (user_id session_id : UUID) (reason : string) (now : Time) : SessionRepository (option
    RevocationResult) (SessionRepo.revoke_session user_id session_id reason now)
| Session_revoke_all (user_id : UUID) (reason : string) (now : Time) : SessionRepository (list RevocationResult)
    (SessionRepo.revoke_all user_id reason now)
| Session_list_sessions (user_id : UUID) (now : Time) : SessionRepository (list SessionSummary)
    (SessionRepo.list_sessions user_id now)
| Session_session_is_active (session_id : UUID) (now : Time) : SessionRepository bool
    (SessionRepo.session_is_active session_id now)
| Session_scope_session (user_id session_id workspace_id access_jti : UUID) (now : Time) : SessionRepository
    (option UUID) (SessionRepo.scope_session user_id session_id workspace_id access_jti now)
| Session_audit (event_type outcome : string) (correlation_id user_id : UUID) (metadata : dict) :
    SessionRepository unit (SessionRepo.session_audit event_type outcome correlation_id user_id metadata).
Inductive RecoveryRepository : Port :=
| Recovery_eligible_user_by_email (email : string) : RecoveryRepository (option RecoveryUser)
    (RecoveryRepo.eligible_user_by_email email)
| Recovery_issue_password_reset (user_id : UUID) (token_hash purpose : string) (expires_at : Time)
    (correlation_id : UUID) (actor_user_id : option UUID) (ticket_reference : option string) :
    RecoveryRepository unit (RecoveryRepo.issue_password_reset user_id token_hash purpose expires_at
    correlation_id actor_user_id ticket_reference)
| Recovery_consume_password_reset (token_hash password new_hash : string) (now : Time) (correlation_id : UUID) :
    RecoveryRepository (PasswordResetOutcome * option RecoveryUser)%type (RecoveryRepo.consume_password_reset
    token_hash password new_hash now correlation_id)
| Recovery_create_contact_change (user_id : UUID) (contact_type : ContactType) (new_value old_code_hash
    new_code_hash : string) (expires_at : Time) (correlation_id : UUID) : RecoveryRepository (option
    ContactChangeRecord) (RecoveryRepo.create_contact_change user_id contact_type new_value old_code_hash
    new_code_hash expires_at correlation_id)
| Recovery_verify_contact_change (user_id request_id : UUID) (proof : ContactProof) (code_hash : string) (now :
    Time) (correlation_id : UUID) : RecoveryRepository (option ContactChangeRecord)
    (RecoveryRepo.verify_contact_change user_id request_id proof code_hash now correlation_id)
| Recovery_staff_has_role (user_id : UUID) (role : StaffRole) : RecoveryRepository bool
    (RecoveryRepo.staff_has_role user_id role)
| Recovery_unlock_user (actor_user_id target_user_id : UUID) (ticket_reference : string) (correlation_id : UUID)
    : RecoveryRepository (option RecoveryUser) (RecoveryRepo.unlock_user actor_user_id target_user_id
    ticket_reference correlation_id)
| Recovery_suspend_user (actor_user_id target_user_id : UUID) (ticket_reference reason : string) (correlation_id
    : UUID) : RecoveryRepository (option RecoveryUser) (RecoveryRepo.suspend_user actor_user_id target_user_id
    ticket_reference reason correlation_id)
| Recovery_initiate_mfa_reset (actor_user_id target_user_id : UUID) (ticket_reference : string) (execute_after :
    Time) (correlation_id : UUID) : RecoveryRepository (option (GovernedResetRecord * RecoveryUser))%type
    (RecoveryRepo.initiate_mfa_reset actor_user_id target_user_id ticket_reference execute_after correlation_id)
| Recovery_approve_mfa_reset (actor_user_id request_id : UUID) (now : Time) (correlation_id : UUID) :
    RecoveryRepository (option GovernedResetRecord) (RecoveryRepo.approve_mfa_reset actor_user_id request_id now
    correlation_id)
| Recovery_get_mfa_reset (request_id : UUID) : RecoveryRepository (option GovernedResetRecord)
    (RecoveryRepo.get_mfa_reset request_id)
| Recovery_execute_mfa_reset (actor_user_id request_id : UUID) (now : Time) (correlation_id : UUID) :
    RecoveryRepository (option (GovernedResetRecord * RecoveryUser))%type (RecoveryRepo.execute_mfa_reset
    actor_user_id request_id now correlation_id).
Inductive MFARepository : Port :=
| MFA_user_profile (user_id : UUID) : MFARepository (option MFAUserProfile) (MfaRepo.user_profile user_id)
| MFA_password_hash (user_id : UUID) : MFARepository (option string) (MfaRepo.password_hash user_id)
| MFA_active_factors (user_id : UUID) : MFARepository (list MFAFactor) (MfaRepo.active_factors user_id)
| MFA_create_pending_totp (user_id : UUID) (encrypted_secret label : string) : MFARepository MFAFactor
    (MfaRepo.create_pending_totp user_id encrypted_secret label)
| MFA_factor (user_id mfa_id : UUID) : MFARepository (option MFAFactor) (MfaRepo.factor user_id mfa_id)
| MFA_activate_totp (user_id mfa_id : UUID) (accepted_step : Z) : MFARepository bool (MfaRepo.activate_totp
    user_id mfa_id accepted_step)
| MFA_advance_totp_step (mfa_id : UUID) (previous_step : option Z) (accepted_step : Z) : MFARepository bool
    (MfaRepo.advance_totp_step mfa_id previous_step accepted_step)
| MFA_store_backup_codes (user_id : UUID) (hashes : list string) : MFARepository unit
    (MfaRepo.store_backup_codes user_id hashes)
| MFA_consume_backup_code (user_id : UUID) (candidate_hash : string) : MFARepository bool
    (MfaRepo.consume_backup_code user_id candidate_hash)
| MFA_passkeys (user_id : UUID) : MFARepository (list StoredPasskey) (MfaRepo.passkeys user_id)
| MFA_passkey (credential_id : string) : MFARepository (option StoredPasskey) (MfaRepo.passkey credential_id)
| MFA_create_passkey (user_id : UUID) (label credential_id public_key : string) (sign_count : Z) (transports :
    list string) (backup_eligible backup_state : bool) : MFARepository unit (MfaRepo.create_passkey user_id
    label credential_id public_key sign_count transports backup_eligible backup_state)
| MFA_update_passkey_counter (credential_id : string) (previous_count new_count : Z) (backup_state : bool) :
    MFARepository bool (MfaRepo.update_passkey_counter credential_id previous_count new_count backup_state)
| MFA_revoke_factor (user_id mfa_id : UUID) : MFARepository bool (MfaRepo.revoke_factor user_id mfa_id)
| MFA_link_oidc_identity (user_id : UUID) (provider subject : string) : MFARepository bool
    (MfaRepo.link_oidc_identity user_id provider subject)
| MFA_audit (event_type outcome : string) (correlation_id : UUID) (user_id : option UUID) (metadata : dict) :
    MFARepository unit (MfaRepo.mfa_audit event_type outcome correlation_id user_id metadata).
Inductive LoginRepository : Port :=
| Login_password_identity (email : string) : LoginRepository (option LoginIdentity) (LoginRepo.password_identity
    email)
| Login_phone_identity (phone_e164 : string) : LoginRepository (option LoginIdentity) (LoginRepo.phone_identity
    phone_e164)
| Login_oidc_identity (provider subject : string) : LoginRepository (option LoginIdentity)
    (LoginRepo.oidc_identity provider subject)
| Login_active_user_by_email (email : string) : LoginRepository (option LoginIdentity)
    (LoginRepo.active_user_by_email email)
| Login_provision_oidc (profile : OIDCProfile) (correlation_id : UUID) : LoginRepository LoginIdentity
    (LoginRepo.provision_oidc profile correlation_id)
| Login_device_signals (user_id : UUID) (fingerprint_hash : string) (ip_address : option string) :
    LoginRepository DeviceSignals (LoginRepo.device_signals user_id fingerprint_hash ip_address)
| Login_fallback_methods (user_id : UUID) : LoginRepository (list string) (LoginRepo.fallback_methods user_id)
| Login_update_password_hash (user_id : UUID) (password_hash : string) : LoginRepository unit
    (LoginRepo.update_password_hash user_id password_hash)
| Login_audit (event_type outcome : string) (correlation_id : UUID) (subject_user_id : option UUID) (metadata :
    dict) : LoginRepository unit (LoginRepo.login_audit event_type outcome correlation_id subject_user_id
    metadata).
Inductive RegistrationRepository : Port :=
| Registration_get_by_email (email : string) : RegistrationRepository (option PendingContact)
    (RegistrationRepo.get_by_email email)
| Registration_get_by_phone (phone_e164 : string) : RegistrationRepository (option PendingContact)
    (RegistrationRepo.get_by_phone phone_e164)
| Registration_create_email_registration (email given_name family_name password_hash token_hash : string)
    (expires_at : Time) (correlation_id : UUID) (referral_token_hash : option string) : RegistrationRepository
    UUID (RegistrationRepo.create_email_registration email given_name family_name password_hash token_hash
    expires_at correlation_id referral_token_hash)
| Registration_issue_email_verification (user_id : UUID) (token_hash : string) (expires_at : Time)
    (correlation_id : UUID) : RegistrationRepository unit (RegistrationRepo.issue_email_verification user_id
    token_hash expires_at correlation_id)
| Registration_verify_email (token_hash : string) (now : Time) (correlation_id : UUID) : RegistrationRepository
    bool (RegistrationRepo.verify_email token_hash now correlation_id)
| Registration_create_phone_registration (phone_e164 : string) (given_name family_name : option string)
    (correlation_id : UUID) : RegistrationRepository UUID (RegistrationRepo.create_phone_registration phone_e164
    given_name family_name correlation_id)
| Registration_verify_phone (user_id correlation_id : UUID) : RegistrationRepository bool
    (RegistrationRepo.verify_phone user_id correlation_id).
Inductive WorkspaceRepository : Port :=
| Workspace_ensure_personal_workspace (user_id : UUID) : WorkspaceRepository WorkspaceSummary
    (WorkspaceRepo.ensure_personal_workspace user_id)
| Workspace_list_workspaces (user_id : UUID) : WorkspaceRepository (list WorkspaceSummary)
    (WorkspaceRepo.list_workspaces user_id)
| Workspace_create_organization (user_id : UUID) (name slug : string) (correlation_id : UUID) :
    WorkspaceRepository WorkspaceSummary (WorkspaceRepo.create_organization user_id name slug correlation_id)
| Workspace_referral_eligibility (referrer_user_id : UUID) (invitee_email : string) : WorkspaceRepository
    ReferralEligibility (WorkspaceRepo.referral_eligibility referrer_user_id invitee_email)
| Workspace_create_referral (referrer_user_id : UUID) (invitee_email token_hash : string) (expires_at : Time)
    (correlation_id : UUID) : WorkspaceRepository ReferralRecord (WorkspaceRepo.create_referral referrer_user_id
    invitee_email token_hash expires_at correlation_id)
| Workspace_revoke_referral (referrer_user_id referral_id : UUID) : WorkspaceRepository unit
    (WorkspaceRepo.revoke_referral referrer_user_id referral_id)
| Workspace_list_referrals (referrer_user_id : UUID) (now : Time) : WorkspaceRepository (list ReferralRecord)
    (WorkspaceRepo.list_referrals referrer_user_id now)
| Workspace_get_workspace_access (user_id workspace_id : UUID) : WorkspaceRepository (option WorkspaceSummary)
    (WorkspaceRepo.get_workspace_access user_id workspace_id)
| Workspace_create_organization_invitation (actor_user_id workspace_id : UUID) (invitee_email : string) (role :
    OrganizationRole) (token_hash : string) (expires_at : Time) (correlation_id : UUID) : WorkspaceRepository
    (option InvitationRecord) (WorkspaceRepo.create_organization_invitation actor_user_id workspace_id
    invitee_email role token_hash expires_at correlation_id)
| Workspace_revoke_organization_invitation (actor_user_id workspace_id invitation_id : UUID) :
    WorkspaceRepository unit (WorkspaceRepo.revoke_organization_invitation actor_user_id workspace_id
    invitation_id)
| Workspace_accept_organization_invitation (user_id : UUID) (token_hash : string) (now : Time) (correlation_id :
    UUID) : WorkspaceRepository (option WorkspaceSummary) (WorkspaceRepo.accept_organization_invitation user_id
    token_hash now correlation_id)
| Workspace_list_members (actor_user_id workspace_id : UUID) : WorkspaceRepository (option (list MemberSummary))
    (WorkspaceRepo.list_members actor_user_id workspace_id)
| Workspace_replace_member_role (actor_user_id workspace_id member_user_id : UUID) (role : OrganizationRole)
    (now : Time) (correlation_id : UUID) : WorkspaceRepository (option MemberSummary)
    (WorkspaceRepo.replace_member_role actor_user_id workspace_id member_user_id role now correlation_id)
| Workspace_offboard_member (actor_user_id workspace_id member_user_id : UUID) (now : Time) (correlation_id :
    UUID) : WorkspaceRepository (option OffboardResult) (WorkspaceRepo.offboard_member actor_user_id
    workspace_id member_user_id now correlation_id).
Inductive AuditRepository : Port :=
| Audit_staff_has_role (user_id : UUID) (role : StaffRole) : AuditRepository bool
    (PrivacyRepo.audit_staff_has_role user_id role)
| Audit_search_audit_logs (actor_user_id : UUID) (filters : AuditSearchFilter) (cursor : option (Time * UUID))
    (limit : nat) (correlation_id : UUID) : AuditRepository AuditPage (PrivacyRepo.search_audit_logs
    actor_user_id filters cursor limit correlation_id).
Inductive PrivacyRepository : Port :=
| Privacy_get_or_create_export (user_id : UUID) (key_hash : string) (artifact_expires_at : Time) (correlation_id
    : UUID) : PrivacyRepository (PrivacyRequestRecord * bool)%type (PrivacyRepo.get_or_create_export user_id
    key_hash artifact_expires_at correlation_id)
| Privacy_collect_export_data (updated_at : User -> Time) (user_id : UUID) : PrivacyRepository dict
    (PrivacyRepo.collect_export_data updated_at user_id)
| Privacy_complete_export (request_id user_id : UUID) (encrypted_content content_digest : string)
    (artifact_expires_at : Time) (correlation_id : UUID) : PrivacyRepository PrivacyRequestRecord
    (PrivacyRepo.complete_export request_id user_id encrypted_content content_digest artifact_expires_at
    correlation_id)
| Privacy_fail_export (request_id user_id : UUID) (failure_code : string) : PrivacyRepository unit
    (PrivacyRepo.fail_export request_id user_id failure_code)
| Privacy_get_privacy_request (user_id request_id : UUID) : PrivacyRepository (option PrivacyRequestRecord)
    (PrivacyRepo.get_privacy_request user_id request_id)
| Privacy_get_export_artifact (user_id request_id : UUID) (now : Time) : PrivacyRepository (option
    EncryptedExportArtifact) (PrivacyRepo.get_export_artifact user_id request_id now)
| Privacy_get_or_create_erasure (user_id : UUID) (key_hash : string) (correlation_id : UUID) : PrivacyRepository
    (option PrivacyRequestRecord * bool)%type (PrivacyRepo.get_or_create_erasure user_id key_hash
    correlation_id)
| Privacy_execute_erasure (request_id user_id : UUID) (pseudonym : string) (now backup_purge_due_at : Time)
    (correlation_id : UUID) : PrivacyRepository (option PrivacyRequestRecord) (PrivacyRepo.execute_erasure
    request_id user_id pseudonym now backup_purge_due_at correlation_id).
Inductive UserRepository : Port :=
| User_create (email : string) : UserRepository UserRecord (UserRepo.create email)
| User_get_by_email (email : string) : UserRepository (option UserRecord) (UserRepo.get_by_email email)
| User_change_state (user_id : UUID) (expected_version : Z) (new_state : UserState) : UserRepository (option
    UserRecord) (UserRepo.change_state user_id expected_version new_state).

(** A call of any of the repositories. *)
Inductive RepositoryCall : Port :=
| sessionRepository_call {A} (m : prog R A) : SessionRepository A m -> RepositoryCall A m
| recoveryRepository_call {A} (m : prog R A) : RecoveryRepository A m -> RepositoryCall A m
| mFARepository_call {A} (m : prog R A) : MFARepository A m -> RepositoryCall A m
| loginRepository_call {A} (m : prog R A) : LoginRepository A m -> RepositoryCall A m
| registrationRepository_call {A} (m : prog R A) : RegistrationRepository A m -> RepositoryCall A m
| workspaceRepository_call {A} (m : prog R A) : WorkspaceRepository A m -> RepositoryCall A m
| auditRepository_call {A} (m : prog R A) : AuditRepository A m -> RepositoryCall A m
| privacyRepository_call {A} (m : prog R A) : PrivacyRepository A m -> RepositoryCall A m
| userRepository_call {A} (m : prog R A) : UserRepository A m -> RepositoryCall A m.

(** The database before a call that returned, and after it. *)
Definition committed (db db' : Db) : Prop :=
  exists (A : Type) (m : prog R A) (a : A) (w w' : World R),
    RepositoryCall A m /\ m w = (inr a, w') /\ w_db w = db /\ w_db w' = db'.

(** ** The ports to Redis and to the mail server *)

Context {RC : RedisClient R}.
Inductive RecoveryRateStore : Port :=
| RecoveryRate_increment_rate_limit (route subject : string) (window_seconds : Z) : RecoveryRateStore Z
    (RedisSecurity.increment_rate_limit route subject window_seconds).
Inductive ReferralRateStore : Port :=
| ReferralRate_increment_rate_limit (route subject : string) (window_seconds : Z) : ReferralRateStore Z
    (RedisSecurity.increment_rate_limit route subject window_seconds).
Inductive SessionSecurityStore : Port :=
| Security_consume_login_workflow (token : string) : SessionSecurityStore (option dict)
    (RedisSecurity.consume_login_workflow token)
| Security_revoke_access_token (jti : UUID) (remaining_lifetime : Z) : SessionSecurityStore unit
    (RedisSecurity.revoke_access_token jti remaining_lifetime)
| Security_access_token_is_revoked (jti : UUID) : SessionSecurityStore bool
    (RedisSecurity.access_token_is_revoked jti)
| Security_revoke_family (family_id : UUID) (remaining_lifetime : Z) : SessionSecurityStore unit
    (RedisSecurity.revoke_family family_id remaining_lifetime)
| Security_family_is_revoked (family_id : UUID) : SessionSecurityStore bool (RedisSecurity.family_is_revoked
    family_id)
| Security_revoke_user (user_id : UUID) (issued_before : Time) : SessionSecurityStore unit
    (RedisSecurity.revoke_user user_id issued_before)
| Security_user_revoked_at (user_id : UUID) : SessionSecurityStore (option Time) (RedisSecurity.user_revoked_at
    user_id)
| Security_revoke_organization (user_id org_id : UUID) (issued_before : Time) : SessionSecurityStore unit
    (RedisSecurity.revoke_organization user_id org_id issued_before)
| Security_organization_revoked_at (user_id org_id : UUID) : SessionSecurityStore (option Time)
    (RedisSecurity.organization_revoked_at user_id org_id)
| Security_clear_organization_revocation (user_id org_id : UUID) : SessionSecurityStore unit
    (RedisSecurity.clear_organization_revocation user_id org_id).
Inductive RecoveryNotificationProvider : Port :=
| RecoveryNotification_send_password_reset (email reset_url : string) : RecoveryNotificationProvider unit
    (Providers.send_password_reset email reset_url)
| RecoveryNotification_send_password_changed (email : string) : RecoveryNotificationProvider unit
    (Providers.send_password_changed email)
| RecoveryNotification_send_support_recovery (email recovery_url : string) : RecoveryNotificationProvider unit
    (Providers.send_support_recovery email recovery_url)
| RecoveryNotification_send_contact_code (destination code : string) (proof : ContactProof) :
    RecoveryNotificationProvider unit (Providers.send_contact_code destination code proof)
| RecoveryNotification_send_contact_changed (destination : string) : RecoveryNotificationProvider unit
    (Providers.send_contact_changed destination)
| RecoveryNotification_send_mfa_reset_requested (destination : string) (execute_after : Time) :
    RecoveryNotificationProvider unit (Providers.send_mfa_reset_requested destination execute_after)
| RecoveryNotification_send_mfa_reset_completed (destination : string) : RecoveryNotificationProvider unit
    (Providers.send_mfa_reset_completed destination).
Inductive MFANotificationProvider : Port :=
| MFANotification_send_email_code (email code : string) : MFANotificationProvider unit
    (Providers.send_email_code email code)
| MFANotification_send_sms_code (phone_e164 code : string) : MFANotificationProvider unit
    (Providers.send_sms_code phone_e164 code).
Inductive ReferralNotificationProvider : Port :=
| ReferralNotification_send_referral (email referral_url : string) : ReferralNotificationProvider unit
    (Providers.Mailpit_send_referral email referral_url)
| ReferralNotification_send_organization_invitation (email organization_name invitation_url : string) :
    ReferralNotificationProvider unit (Providers.Mailpit_send_organization_invitation email organization_name
    invitation_url).
Inductive EmailProvider : Port :=
| Email_send_verification (email verification_url : string) : EmailProvider unit
    (Providers.Mailpit_send_verification email verification_url).
Inductive SMSProvider : Port :=
| SMS_send_verification (phone_e164 code : string) : SMSProvider unit (Providers.sms_send_verification
    phone_e164 code).
Inductive LoginSMSProvider : Port :=
| LoginSMS_send_verification (phone_e164 code : string) : LoginSMSProvider unit (Providers.sms_send_verification
    phone_e164 code).

Inductive StoreCall : Port :=
| recoveryRateStore_call {A} (m : prog R A) : RecoveryRateStore A m -> StoreCall A m
| referralRateStore_call {A} (m : prog R A) : ReferralRateStore A m -> StoreCall A m
| sessionSecurityStore_call {A} (m : prog R A) : SessionSecurityStore A m -> StoreCall A m.
Inductive NotificationCall : Port :=
| recoveryNotification_call {A} (m : prog R A) : RecoveryNotificationProvider A m -> NotificationCall A m
| mfaNotification_call {A} (m : prog R A) : MFANotificationProvider A m -> NotificationCall A m
| referralNotification_call {A} (m : prog R A) : ReferralNotificationProvider A m -> NotificationCall A m
| emailProvider_call {A} (m : prog R A) : EmailProvider A m -> NotificationCall A m
| smsProvider_call {A} (m : prog R A) : SMSProvider A m -> NotificationCall A m
| loginSmsProvider_call {A} (m : prog R A) : LoginSMSProvider A m -> NotificationCall A m.
End Ports.
