(* ===== verification/PortProps.v ===== *)
(** What the ports promise: a call that raises leaves the database as it was; and the whole service changes the
    database only by calls that return, one after the other. *)
From stdpp Require Import relations.
From S2P Require Import Prelude PyText Entity Models RedisClient World Ports.
From S2P Require Import Http System Wiring SystemProps.
From S2P Require Providers SessionRepo RecoveryRepo MfaRepo LoginRepo RegistrationRepo WorkspaceRepo PrivacyRepo UserRepo.
From S2P Require Recovery SessionControl Privacy.
From S2P Require HttpSession HttpRegistration HttpLogin HttpMfa HttpRecovery HttpWorkspace HttpPrivacy.

Section Atomic.
Context {R : Type} {E : Env}.
Implicit Types (w : World R).

Definition atomic {A} (m : prog R A) : Prop := forall w e w', m w = (inl e, w') -> w_db w' = w_db w.
(** A program that only reads. *)
Definition silent {A} (m : prog R A) : Prop := forall db, keeps (on_db (eq db)) m.

Lemma atomic_tx {A} (m : prog R A) : atomic (tx m).
Proof. intros w e w'. apply tx_inl. Qed.
Lemma atomic_silent {A} (m : prog R A) : silent m -> atomic m.
Proof. intros H w e w' Hm. pose proof (H (w_db w) w eq_refl) as Hw. unfold on_db in Hw. by rewrite Hm in Hw. Qed.
Lemma atomic_bind {A B} (m : prog R A) (k : A -> prog R B) : silent m -> (forall a, atomic (k a)) -> atomic (m ≫= k).
Proof.
  intros Hm Hk w e w' H. pose proof (Hm (w_db w) w eq_refl) as Hw. unfold mbind, prog_bind in H.
  destruct (m w) as [[e1|a] w1]; unfold on_db in Hw; cbn in Hw.
  - by injection H as _ <-.
  - rewrite Hw. by eapply Hk.
Qed.
(** What follows a transaction may not raise. *)
Definition returns {A} (m : prog R A) : Prop := forall w, exists a, m w = (inr a, w).
Lemma atomic_then {A B} (m : prog R A) (k : A -> prog R B) : atomic m -> (forall a, returns (k a)) -> atomic (m ≫= k).
Proof.
  intros Hm Hk w e w' H. unfold mbind, prog_bind in H. destruct (m w) as [[e1|a] w1] eqn:E1.
  - injection H as _ <-. by eapply Hm.
  - destruct (Hk a w1) as [b Hb]. by rewrite Hb in H.
Qed.
Lemma atomic_try {A} (m : prog R A) h : atomic m -> (forall e k, h e = Some k -> atomic k) -> atomic (try_except m h).
Proof.
  intros Hm Hh w e w' H. unfold try_except in H. destruct (m w) as [[e1|a] w1] eqn:E1; [|done].
  pose proof (Hm _ _ _ E1) as H1. destruct (h e1) as [k|] eqn:Eh; [|by injection H as _ <-].
  rewrite <- H1. by eapply Hh.
Qed.
End Atomic.

Ltac reads := intros db; keeps_all.
Ltac atomic_step :=
  first
  [ apply atomic_tx
  | lazymatch goal with |- atomic (try_except _ _) => apply atomic_try; [|intros [] ? Hk; try discriminate Hk; injection Hk as <-] end
  | apply atomic_silent; solve [reads]
  | apply atomic_bind; [solve [reads]|intros ?]
  | apply atomic_then; [|intros ?; repeat case_match; eexists; reflexivity]
  | match goal with |- atomic (if _ then _ else _) => case_match end
  | match goal with |- atomic (match _ with _ => _ end) => case_match end
  | match goal with |- atomic ?m => let h := head_of m in unfold h end ].

Section Calls.
Context {R : Type} {E : Env}.
Lemma session_atomic A (m : prog R A) : SessionRepository A m -> atomic m.
Proof. destruct 1; repeat atomic_step. Qed.
Lemma recovery_atomic A (m : prog R A) : RecoveryRepository A m -> atomic m.
Proof. destruct 1; repeat atomic_step. Qed.
Lemma mfa_atomic A (m : prog R A) : MFARepository A m -> atomic m.
Proof. destruct 1; repeat atomic_step. Qed.
Lemma login_atomic A (m : prog R A) : LoginRepository A m -> atomic m.
Proof. destruct 1; repeat atomic_step. Qed.
Lemma registration_atomic A (m : prog R A) : RegistrationRepository A m -> atomic m.
Proof. destruct 1; repeat atomic_step. Qed.
Lemma workspace_atomic A (m : prog R A) : WorkspaceRepository A m -> atomic m.
Proof. destruct 1; repeat atomic_step. Qed.
Lemma audit_atomic A (m : prog R A) : AuditRepository A m -> atomic m.
Proof. destruct 1; repeat atomic_step. Qed.
Lemma privacy_atomic A (m : prog R A) : PrivacyRepository A m -> atomic m.
Proof. destruct 1; repeat atomic_step. Qed.
Lemma user_atomic A (m : prog R A) : UserRepository A m -> atomic m.
Proof. destruct 1; repeat atomic_step. Qed.
Lemma call_atomic A (m : prog R A) : RepositoryCall A m -> atomic m.
Proof.
  destruct 1; eauto using session_atomic, recovery_atomic, mfa_atomic, login_atomic, registration_atomic, workspace_atomic,
    audit_atomic, privacy_atomic, user_atomic.
Qed.

Definition reached (db0 db : Db) : Prop := rtc (committed (R := R)) db0 db.
Lemma call_reaches db0 A (m : prog R A) : RepositoryCall A m -> keeps (on_db (reached db0)) m.
Proof.
  intros Hc w Hw. unfold on_db in *. destruct (m w) as [[e|a] w'] eqn:H; cbn.
  - by rewrite (call_atomic _ _ Hc _ _ _ H).
  - eapply rtc_r; [exact Hw|]. by exists A, m, a, w, w'.
Qed.
End Calls.

(** ** One effect each *)

Section Effects.
Context {R : Type} {RC : RedisClient R} {E : Env}.
Implicit Types (w : World R).
Ltac spares := repeat first
  [ keeps_step
  | lazymatch goal with |- forall _ : exc, _ => intros [] ? Hk; try discriminate Hk; injection Hk as <- end
  | apply Providers.keeps_send; done ].
Lemma repository_spares_redis A (m : prog R A) r : RepositoryCall A m -> keeps (on_redis (eq r)) m.
Proof. destruct 1 as [? ? []|? ? []|? ? []|? ? []|? ? []|? ? []|? ? []|? ? []|? ? []]; spares. Qed.
Lemma repository_spares_mail A (m : prog R A) l : RepositoryCall A m -> keeps (on_mail l) m.
Proof. destruct 1 as [? ? []|? ? []|? ? []|? ? []|? ? []|? ? []|? ? []|? ? []|? ? []]; spares. Qed.
Lemma store_spares_db A (m : prog R A) db : StoreCall A m -> keeps (on_db (eq db)) m.
Proof. destruct 1 as [? ? []|? ? []|? ? []]; spares. Qed.
Lemma store_spares_mail A (m : prog R A) l : StoreCall A m -> keeps (on_mail l) m.
Proof. destruct 1 as [? ? []|? ? []|? ? []]; spares. Qed.
Lemma notification_spares_db A (m : prog R A) db : NotificationCall A m -> keeps (on_db (eq db)) m.
Proof. destruct 1 as [? ? []|? ? []|? ? []|? ? []|? ? []|? ? []]; spares. Qed.
Lemma notification_spares_redis A (m : prog R A) r : NotificationCall A m -> keeps (on_redis (eq r)) m.
Proof. destruct 1 as [? ? []|? ? []|? ? []|? ? []|? ? []|? ? []]; spares. Qed.
(** Each port has one effect.  A call of a repository touches neither Redis nor the outgoing mail, one of a Redis
    store neither the database nor the mail, one of a notification provider neither the database nor Redis, whether
    it returns or raises. *)
Theorem ports_have_one_effect A (m : prog R A) w :
  (RepositoryCall A m -> w_redis (m w).2 = w_redis w /\ w_mail (m w).2 = w_mail w) /\
  (StoreCall A m -> w_db (m w).2 = w_db w /\ w_mail (m w).2 = w_mail w) /\
  (NotificationCall A m -> w_db (m w).2 = w_db w /\ w_redis (m w).2 = w_redis w).
Proof.
  split_and!; intros H; split.
  - symmetry. exact (repository_spares_redis _ _ _ H w eq_refl).
  - exact (repository_spares_mail _ _ _ H w eq_refl).
  - symmetry. exact (store_spares_db _ _ _ H w eq_refl).
  - exact (store_spares_mail _ _ _ H w eq_refl).
  - symmetry. exact (notification_spares_db _ _ _ H w eq_refl).
  - symmetry. exact (notification_spares_redis _ _ _ H w eq_refl).
Qed.
End Effects.

Create HintDb ports.
#[export] Hint Constructors RepositoryCall SessionRepository RecoveryRepository MFARepository LoginRepository
  RegistrationRepository WorkspaceRepository AuditRepository PrivacyRepository UserRepository : ports.
Ltac by_port := apply call_reaches; eauto 3 with ports nocore.
Ltac port_step := first [solve [by_port] | service_step ltac:(idtac; fail) ].

Section Service.
Context {R : Type} {RC : RedisClient R} {E : Env}.
Context (updated_at : User -> Time) (errors_of : forall A, HttpCall A -> list (list string * string)).
Lemma revoker_reaches db0 u reason : keeps (R := R) (on_db (reached (R := R) db0)) (Recovery.revoke_access u reason).
Proof. unfold Recovery.revoke_access, session_revoker, SessionControl.revoke_user_access. repeat port_step. Qed.
Hint Resolve revoker_reaches : auth.
Lemma endpoint_reaches {A} db0 h (c : HttpCall A) : keeps (R := R) (on_db (reached (R := R) db0)) (endpoint updated_at h c).
Proof. destruct c; cbn [endpoint]; repeat port_step. Qed.

(** C32: the repositories are transactional and are the only way to the database.  A call of a repository method that
    raises leaves every table as it was; and whatever requests the service answers or fails to answer, the database
    it leaves is reached from the one it found by calls that returned, one after the other: nothing is written past
    the ports of the controls, and of a request that fails what remains are whole calls. *)
Theorem service_commits_calls requests w :
  (forall A (m : prog R A), RepositoryCall A m -> forall w e w', m w = (inl e, w') -> w_db w' = w_db w) /\
  rtc (committed (R := R)) (w_db w) (w_db (run_at (service updated_at errors_of) requests w).2).
Proof.
  split; [exact call_atomic|].
  apply (keeps_run_at (reached (w_db w))); [|by apply rtc_refl].
  intros _ q _. apply keeps_call. intros A h c _. apply endpoint_reaches.
Qed.
End Service.
