(* ===== verification/Jwks.v ===== *)
(** The key set the service publishes: [jwks] and [_encode_integer] of [infrastructure/security/tokens.py]
    and the route [/.well-known/jwks.json]. *)
From S2P Require Import Prelude PyText Entity Models RedisClient World Encoding Http.

(** [value.to_bytes(size, "big")] of a value of at most [size] bytes. *)
Fixpoint to_bytes (size : nat) (value : N) : string :=
  match size with
  | O => EmptyString
  | S size => String (ascii_of_N (value / 256 ^ N.of_nat size mod 256)) (to_bytes size value)
  end.
Definition _encode_integer (value : N) : string :=
  let size := N.to_nat ((N.size value + 7) / 8) in b64url_encode (to_bytes size value).

Section Provider.
Context {R : Type} {E : Env}.
Definition jwks_keys : dict :=
  let numbers := jwt_public_numbers in
  [("keys", JList [JObj
      [("kty", JStr "RSA"); ("use", JStr "sig"); ("alg", JStr "RS256"); ("kid", JStr jwt_kid);
       ("n", JStr (_encode_integer numbers.1)); ("e", JStr (_encode_integer numbers.2))]])].
(** The route: a document under status 200. *)
Definition jwks : prog R (Response dict) := mret (json_response 200 [] jwks_keys).
End Provider.

(** ** What a client reads *)

(** [int.from_bytes(text, "big")]. *)
Fixpoint from_bytes (acc : N) (s : string) : N :=
  match s with EmptyString => acc | String c s => from_bytes (acc * 256 + code c) s end.
(** The integer a Base64urlUInt of RFC 7518 stands for. *)
Definition decode_integer (s : string) : option N := b ← b64url_decode s; Some (from_bytes 0 b).

Example jwks_exponent : _encode_integer 65537 = "AQAB".
Proof. reflexivity. Qed.

Lemma from_to_bytes size acc v : from_bytes acc (to_bytes size v) = (acc * 256 ^ N.of_nat size + v mod 256 ^ N.of_nat size)%N.
Proof.
  revert acc. induction size as [|size IH]; intros acc; cbn [to_bytes from_bytes].
  - rewrite N.pow_0_r, N.mod_1_r. lia.
  - rewrite IH. unfold code. rewrite N_ascii_embedding by (apply N.mod_lt; done).
    rewrite Nat2N.inj_succ, N.pow_succ_r'. set (p := (256 ^ N.of_nat size)%N).
    assert (Hp : p <> 0%N) by (apply N.pow_nonzero; done).
    rewrite (N.mul_comm 256 p), N.Div0.mod_mul_r. lia.
Qed.
Lemma size_bound v : (v < 256 ^ ((N.size v + 7) / 8))%N.
Proof.
  assert (H : (v < 2 ^ N.size v)%N) by apply N.size_gt.
  eapply N.lt_le_trans; [exact H|]. change 256%N with (2 ^ 8)%N. rewrite <- N.pow_mul_r. apply N.pow_le_mono_r; [done|].
  divlia.
Qed.
Lemma decode_encode_integer v : decode_integer (_encode_integer v) = Some v.
Proof.
  unfold decode_integer, _encode_integer. rewrite b64url_decode_encode. cbn [mbind option_bind].
  rewrite from_to_bytes, N2Nat.id, N.mod_small by apply size_bound. reflexivity.
Qed.
(** The encoding has no leading zero byte. *)
Lemma encoding_minimal v : v <> 0%N -> exists c s, b64url_decode (_encode_integer v) = Some (String c s) /\ code c <> 0%N.
Proof.
  intros Hv. unfold _encode_integer. rewrite b64url_decode_encode.
  assert (Hs : (N.size v = N.succ (N.log2 v))%N) by (by apply N.size_log2).
  destruct (N.to_nat ((N.size v + 7) / 8)) as [|size] eqn:En; [exfalso; revert En; rewrite Hs; divlia|].
  cbn [to_bytes]. eexists _, _. split; [reflexivity|]. unfold code.
  rewrite N_ascii_embedding by (apply N.mod_lt; done).
  assert (Hk : (8 * N.of_nat size <= N.log2 v)%N) by (revert En; rewrite Hs; divlia).
  assert (Hlow : (256 ^ N.of_nat size <= v)%N).
  { change 256%N with (2 ^ 8)%N. rewrite <- N.pow_mul_r. etransitivity; [by apply N.pow_le_mono_r|].
    apply N.log2_spec. lia. }
  assert (Hup : (v < 256 ^ N.of_nat size * 256)%N).
  { pose proof (size_bound v) as H. replace ((N.size v + 7) / 8)%N with (N.succ (N.of_nat size)) in H by lia.
    rewrite N.pow_succ_r' in H. lia. }
  assert (Hp : (256 ^ N.of_nat size <> 0)%N) by (apply N.pow_nonzero; done).
  rewrite N.mod_small by (apply N.Div0.div_lt_upper_bound; lia).
  intros Hz. apply N.div_small_iff in Hz; [lia|done].
Qed.

(** The key set holds one RSA signature key under the fingerprint the tokens name, whose modulus and
    exponent a client reads back as the public numbers of the signing key, written without a leading zero
    byte; publishing it changes nothing. *)
Theorem jwks_publishes_the_key {R} `{!Env} (w : World R) :
  exists n e, jwks w = (inr (json_response 200 [] jwks_keys), w) /\
    jwks_keys = [("keys", JList [JObj [("kty", JStr "RSA"); ("use", JStr "sig"); ("alg", JStr "RS256");
                                         ("kid", JStr jwt_kid); ("n", JStr n); ("e", JStr e)]])] /\
    decode_integer n = Some jwt_public_numbers.1 /\ decode_integer e = Some jwt_public_numbers.2 /\
    forall x, jwt_public_numbers.1 <> 0%N -> jwt_public_numbers.2 <> 0%N -> x = n \/ x = e ->
      exists c s, b64url_decode x = Some (String c s) /\ code c <> 0%N.
Proof.
  eexists _, _. split; [reflexivity|]. split; [reflexivity|]. do 2 (split; [apply decode_encode_integer|]).
  intros x Hn He [->| ->]; by apply encoding_minimal.
Qed.
