(* ===== verification/Health.v ===== *)
(** [boundary/http/health.py]: the liveness and readiness checks of the service.

    The checks of the database and of Redis ([check_database], [check_redis]) ask services outside the
    program: they are parameters, and may raise anything.  [asyncio.gather] starts
    them in the order of its arguments; here the first ends before the second begins. *)
From S2P Require Import Prelude PyText Entity Models RedisClient World Http.

Inductive ComponentHealth := up | down.
#[export] Instance ComponentHealth_eq : EqDecision ComponentHealth := ltac:(solve_decision).
Record HealthResponse := MkHealthResponse {
  hl_service : string; hl_status : string; hl_components : option (list (string * ComponentHealth)) }.

Section Health.
Context {R : Type}.
(** [get_settings().app_name]. *)
Context (app_name : string) (check_database check_redis : prog R unit).

Definition component_status (check : prog R unit) : prog R ComponentHealth :=
  try_except (check ;; mret up) (fun _ => Some (mret down)).
Definition liveness : prog R (Response HealthResponse) :=
  mret (json_response 200 [] (MkHealthResponse app_name "up" None)).
Definition readiness : prog R (Response HealthResponse) :=
  database ← component_status check_database;
  redis ← component_status check_redis;
  let components := [("postgresql", database); ("redis", redis)] in
  let ready := forallb (fun component => component.2 == up) components in
  let payload := MkHealthResponse app_name (if ready then "ready" else "not_ready") (Some components) in
  mret (json_response (if ready then 200 else 503) [] payload).

(** Whether a check returns. *)
Definition passes (check : prog R unit) (w : World R) : bool := match (check w).1 with inr _ => true | inl _ => false end.
Lemma component_status_run check w : component_status check w = (inr (if passes check w then up else down), (check w).2).
Proof. unfold component_status, passes, try_except, mbind, prog_bind. by destruct (check w) as [[e|[]] w1]. Qed.

(** Whatever its checks raise, the readiness route answers: with status 200 exactly when the database
    and Redis both respond, with 503 otherwise, naming the state of each; liveness asks neither. *)
Theorem readiness_answers (w : World R) :
  let db_ok := passes check_database w in
  let redis_ok := passes check_redis (check_database w).2 in
  exists body, readiness w = (inr (json_response (if db_ok && redis_ok then 200 else 503) [] body),
                              (check_redis (check_database w).2).2) /\
    hl_status body = (if db_ok && redis_ok then "ready" else "not_ready") /\
    hl_components body = Some [("postgresql", if db_ok then up else down); ("redis", if redis_ok then up else down)] /\
    liveness w = (inr (json_response 200 [] (MkHealthResponse app_name "up" None)), w).
Proof.
  intros db_ok redis_ok. unfold readiness.
  rewrite (run_bind _ _ _ _ _ (component_status_run check_database w)).
  rewrite (run_bind _ _ _ _ _ (component_status_run check_redis _)).
  fold db_ok redis_ok. exists (MkHealthResponse app_name (if db_ok && redis_ok then "ready" else "not_ready")
    (Some [("postgresql", if db_ok then up else down); ("redis", if redis_ok then up else down)])).
  split; [|done]. by destruct db_ok, redis_ok.
Qed.
End Health.
